(* ===== verification/_CoqProject ===== *)
-Q . S2P
Prelude.v
Strconv.v
Hash.v
Meta.v
Applicator.v
Labels.v
Conditions.v
KRM.v
DB.v
Backend.v
TestWorld.v
VlanApi.v
VxlanApi.v
VlanBackend.v
VlanRestore.v
VlanWitness.v
NetIP.v
NetIPText.v
IPUtil.v
Rib.v
IpamApi.v
IpamValidate.v
IpamWatcher.v
IpamApply.v
IpamClaims.v
IpamBackend.v
IpamRestore.v
IpamInvariant.v
IpamServe.v
IpamWitness.v
ServerProxy.v
Health.v
GrpcServer.v
ClientProxy.v
WatchLoop.v
Dial.v
ClientNormalize.v
Mocks.v
ProxyRefine.v
NormalizeProps.v
Codecs.v
System.v
ProxyWitness.v
Reconciler.v
Controllers.v
ControllerProps.v
EndToEnd.v
ControllerWitness.v
Inventory.v
Lease.v
Endpoints.v
Selection.v
Resources.v
TopoControllers.v
Startup.v
Main.v
TopoProps.v
TopoClaims.v
Generate.v
TopoWitness.v
