(* ===== verification/Prelude.v ===== *)
(** * k8s-ipam: a verification of the resource service and its controllers

    k8s-ipam hands out network identifiers (IP prefixes and addresses, VLANs) to
    Kubernetes objects, and keeps the inventory of a network topology.

    ** The program and its parts

    Controllers (controllers/) watch custom resources (apis/). The controllers of the
    resource groups turn an object into a claim and send it through a client proxy
    (pkg/proxy/clientproxy) over gRPC (internal/grpcserver) to the server proxy
    (pkg/proxy/serverproxy), which passes it to the backend of its group
    (pkg/backend/ipam, pkg/backend/vlan). A backend keeps a table per index in memory (a
    routing table, an identifier database of pkg/db) and saves it in config maps of the
    API server (pkg/backend). Watches go the other way: a backend calls the owners of
    routes that change, and the client proxy makes the controllers reconcile them. The
    controllers of the topology build nodes, endpoints, targets and links from raw
    topologies (pkg/resources), and claim endpoints for links and logical interconnects
    (pkg/objects) while they hold a lease (pkg/lease). main.go registers the controllers
    with a manager and starts the server; a second program (cmd/) prints the nodes, links
    and endpoints of a raw topology.

    ** Files

    Shared:
    - [Prelude]: Go results, the state and error monad, machine integers, list lemmas;
      [Strconv]: the part of strconv that is used;
    - [Meta]: object metadata, finalizers, owner references (pkg/meta, pkg/resource,
      pkg/utils); [Applicator]: the applicators of pkg/meta and pkg/resource; [Labels],
      [Conditions]: apis/resource/common; [KRM]: the shape of the API types;
    - [Hash]: pkg/hash; [DB]: pkg/db with vlandb and vxlandb.
    Backends:
    - [Backend]: cache, storage and application logic of pkg/backend;
    - [VlanApi], [VxlanApi]: apis/resource/vlan, vxlan; [VlanBackend], [VlanRestore]: pkg/backend/vlan
      and what a restart keeps;
    - [NetIP], [NetIPText]: net/netip and the round trip of the text of its prefixes;
      [IPUtil]: pkg/iputil; [Rib]: the interface of the routing table; [IpamApi]:
      apis/resource/ipam; [IpamValidate], [IpamWatcher], [IpamApply], [IpamBackend]:
      pkg/backend/ipam; [IpamClaims], [IpamRestore], [IpamInvariant], [IpamServe]: their
      properties.
    Service:
    - [ServerProxy], [Health], [GrpcServer]: pkg/proxy/serverproxy, internal/healthhandler
      and internal/grpcserver; [ClientProxy], [WatchLoop], [ClientNormalize], [Dial]:
      pkg/proxy/clientproxy, pkg/proxy/beclient and pkg/proto/resource; [Mocks]: their test
      doubles; [ProxyRefine], [NormalizeProps], [System]: properties of the service, alone
      and composed as main.go composes them; [Codecs]: codecs for the API types.
    Controllers:
    - [Reconciler]: what all reconcilers share; [Controllers], [ControllerProps]: the six
      controllers of the resource groups; [EndToEnd]: the controllers of the claims with
      the service and the backends behind them;
    - [Inventory]: apis/inv and apis/topo; [Lease]: pkg/lease; [Endpoints]: pkg/objects;
      [Resources]: pkg/resources; [Selection]: the selector of the logical interconnects;
      [TopoControllers], [TopoProps]: the four controllers of the topology; [TopoClaims]:
      who holds the endpoints over the reconciliations of links and interconnects;
    - [Startup]: the set-up of the controllers (main.go, controllers/controllers.go and the
      function [Setup] of each controller); [Main]: the program; [Generate]: cmd/generate.
    [TestWorld] and the files named [...Witness] hold concrete worlds, in which the
    models run and at which each theorem with hypotheses is applied.

    ** How the code is represented

    A function that returns an error gives a [result]: a value, an error string or a
    panic. Code that changes state is in the monad [M S A], a function from the state to
    the new state and a result, so that the state at an error or a panic is kept. A
    struct is a record, and a method is a definition with the receiver first; the comment
    before a definition names the file, the lines and the symbol it translates. A loop
    over a slice is [forM], [foldl] or a fixpoint; a loop over a Go map visits
    [map_to_list], and the theorems do not depend on this order. Integers of a width are
    [Z] and wrap or truncate as in Go ([uint16], [uint32], [int]). Strings are bytes. A
    loop variable belongs to one turn of its loop. Where a map is shared between objects
    and this can be seen, it is in the model ([ClientNormalize]). Locks are left out: an
    operation of a component is one step. The calls of [AcquireLease] to the API server
    are steps of their own, because other controllers act between them ([Lease]). The calls
    of the gRPC server are interleaved too ([GrpcServer.grpc_step]): asking for a slot, the
    wait for one, the handler, and the return, which gives the slot back, are steps of their
    own. The theorems on the path of a claim run one call at a time, and
    [GrpcServer.call_alone] shows that this is a run of the interleaved calls.
    Logging is left out.

    ** Parameters and their laws

    Code outside the repository is a parameter, with what is documented about it as the
    fields of a class: [LabelsAPI] and [LabelsLaws] (label selectors of apimachinery),
    [ErrorsAPI] and [ErrorsLaws] (error wrapping and not-found errors), [RIBAPI] and
    [RIBSpec] (the routing table of nipam; that it reports the deletion of a route it does not
    have, [reports_missing], is asked for only where a release fails because of it), [NetipxAPI], [TimeAPI], [Codec] and
    [CodecLaws] (JSON and YAML), [CMClientLaws] and [CMReads] (config maps), [CRClient], [CRLaws] and
    [Independent] (custom resources on the API server, with versions), [DecodesTyped]
    (what a decoded object is), [LeaseClient] and [LeaseLaws] (leases on the API server),
    [ResLaws] (listing, deleting and applying the resources of an owner), [TopoAPI] and
    [TopoLaws] (what the topology controllers call), [ClaimerLaws] and [InterconnectLaws]
    (writes to one kind of object leave the other kinds alone), [NodeProvider] (the plugins that
    describe nodes), [ApplyClient] and [ApplyLaws] (objects an applicator writes),
    [Manager] and [ManagerLaws], [Process] and [ProcessLaws] (the controllers a manager runs
    and the steps of the process). Every class of laws has
    an instance in a witness file or at the end of its own file.

    ** What is shown

    - Identifier databases: a free identifier is the least one, reserved identifiers stay
      reserved, and the tables stay in the range of their type ([DB]).
    - VLAN backend: a claim gets one identifier and keeps it, an owner has at most one, a
      release undoes a claim and touches nothing else, the invariant of the backend is
      kept by all its operations, and a restart restores the claims that still exist
      ([VlanBackend], [VlanRestore]).
    - IPAM backend: validation is equivalent to a condition on the routes around the
      prefix, a dynamic claim gets a free prefix of a selected route, a refresh keeps it, a
      release deletes the routes of the claim and, when it created a prefix, those of other
      claims inside it, or fails when it deletes a route of its own in this way first,
      claims of different network instances do not interact, and saving and restoring gives the table back
      ([IpamValidate], [IpamClaims], [IpamRestore]). In every state the backend reaches,
      the tables and the config maps it restores from only hold prefixes without host
      bits ([IpamInvariant]), which is what the theorems on single operations ask for.
    - Service: the client proxies of both groups refine the backends they talk to, requests
      of different objects have different owners, requests are stable, and notifications
      reach the owner ([ProxyRefine], [NormalizeProps], [System], [WatchLoop]). In every
      interleaving of calls and watches the slots of the server are those of the calls
      between taking and giving back one, never more than configured; a call waits when
      there is none, and ends with its handler run once or with the error of its context
      ([GrpcServer]). The loop of a watch delivers the messages of every stream it gets and
      subscribes again after every failure ([WatchLoop]); a health watch is sent its status
      once and leaves nothing behind ([Health]).
    - Start-up: the server is launched, every enabled controller runs, and the events of the
      IPAM client proxy go to the controller of their kind ([Startup], [Main]). Applying an object converges
      ([Applicator]).
    - Controllers: what a reconciliation of a claim writes, and that a deleted claim
      goes away ([ControllerProps]).
    - The whole path: one reconciliation of an IP or VLAN claim, through the client proxy,
      gRPC, the server proxy and the backend, puts a free prefix or the least free VLAN in
      the status of the claim, in the table and in the config map, and changes nothing
      else; the reconciliation of the deleted claim takes it out of all of them; and the two
      together give back the table as it was ([EndToEnd]).
    - Topology: two holders of the lease are at least its duration apart, in every
      interleaving ([Lease]); a selection gives each link two free endpoints that match,
      with node diversity where it is asked for ([Selection]); applying resources leaves
      exactly what the owner asks for ([Resources]); a reconciled link has claimed exactly
      the endpoints its ends name or none, a deleted link or interconnect sets its endpoints
      free, and an interconnect that is ready has its selection claimed and its links and
      logical endpoints stored ([TopoClaims]); what validation of a raw topology accepts, and
      what becomes of its nodes ([TopoProps]); what the generator prints refers to nodes
      and endpoints it prints ([Generate]).
    - Defects: theorems that state where the code does not do what it means to, among
      them duplicate addresses on a refresh, networks of links that cannot be released, a panic on a network claim, claims that are
      released at every reconciliation or never become ready, callbacks that are never
      removed, nodes that are never deleted, and links from an endpoint to itself.

    ** Bounds and fuel

    Loops that are not structural take fuel. [DB.for_next] runs over a list of
    identifiers with one turn more than its length, and [for_next_enough] shows that it
    walks the whole list. [Hash.Insert] probes with as many turns as there are
    slots; [Insert_total] shows that it ends with an index when there is a free slot.
    [Endpoints.values] runs an iterator with one turn more than its items, and
    [values_items] gives its result. The parser of IPv6 addresses reads at most eight
    fields, and [ParseAddr_String] shows that eight turns read every printed address.
    [WatchLoop.startWatch] is an endless loop, with one turn per answer of the server. All
    else is structural.

    ** Not modelled, and why

    Flags, signals, the help texts of the topogen command and what the manager, gRPC and
    TLS libraries do (parameters or glue); the specializer controllers and the interconnect
    type of apis/topo (their files are commented out); generated deep copies and protobuf
    code, apart from the messages. Of the Go runtime, preemption inside an
    operation and memory exhaustion are left out, and data races with them. *)

From Stdlib Require Export Ascii.
From stdpp Require Export base decidable list list_numbers numbers strings gmap sorting pretty.

#[global] Set Default Goal Selector "!".

Declare Scope ipam_scope.
Delimit Scope ipam_scope with ipam.

(** A closed decidable proposition, by evaluating its decision procedure. *)
Ltac by_compute :=
  first [ apply (bool_decide_unpack _); vm_compute; exact I
        | vm_compute; reflexivity ].

(** ** Go results

    A Go function that returns [(A, error)] returns a [result A]: a value,
    an error (its [Error()] string), or a run-time panic. *)
Inductive result (A : Type) : Type :=
| Ok (a : A)
| Err (e : string)
| Panic.
Arguments Ok {A} a.
Arguments Err {A} e.
Arguments Panic {A}.

#[export] Instance result_eq_dec `{EqDecision A} : EqDecision (result A).
Proof. solve_decision. Defined.

#[export] Instance result_ret : MRet result := @Ok.
#[export] Instance result_bind : MBind result := fun A B f m =>
  match m with Ok a => f a | Err e => Err e | Panic => Panic end.
#[export] Instance result_fmap : FMap result := fun A B f m =>
  match m with Ok a => Ok (f a) | Err e => Err e | Panic => Panic end.

(** A pointer dereference or an interface method call on [nil] panics. *)
Definition deref {A} (p : option A) : result A :=
  match p with Some a => Ok a | None => Panic end.

(** A Go slice index: out of range panics. *)
Definition index {A} (l : list A) (i : Z) : result A :=
  if bool_decide (0 <= i)%Z then deref (l !! Z.to_nat i) else Panic.

(** A Go [error] value: [None] is [nil]. *)
Abbreviation error := (option string).

(** ** State and errors

    An operation that mutates the object it is called on is a state-passing
    function. The state is returned on every outcome, since Go keeps the
    mutations made before an error is returned. *)
Definition M (S A : Type) : Type := S -> S * result A.

#[export] Instance M_ret {S} : MRet (M S) := fun A a s => (s, Ok a).
#[export] Instance M_bind {S} : MBind (M S) := fun A B f m s =>
  match m s with
  | (s', Ok a) => f a s'
  | (s', Err e) => (s', Err e)
  | (s', Panic) => (s', Panic)
  end.

Definition throw {S A} (e : string) : M S A := fun s => (s, Err e).
Definition panic {S A} : M S A := fun s => (s, Panic).
Definition lift {S A} (r : result A) : M S A := fun s => (s, r).
Definition get_state {S} : M S S := fun s => (s, Ok s).
Definition put_state {S} (s' : S) : M S unit := fun _ => (s', Ok tt).
Definition gets {S A} (f : S -> A) : M S A := fun s => (s, Ok (f s)).
Definition modify {S} (f : S -> S) : M S unit := fun s => (f s, Ok tt).

(** An operation on a part of the state. *)
Definition zoom {S T A} (get : S -> T) (put : T -> S -> S) (m : M T A) : M S A := fun s =>
  let '(t, r) := m (get s) in (put t s, r).

(** A Go [for range] loop over a slice whose body may fail. *)
Fixpoint forM {S A} (l : list A) (f : A -> M S unit) : M S unit :=
  match l with
  | [] => mret tt
  | x :: l' => _ ← f x; forM l' f
  end.

(** *** Running a computation *)

Lemma lift_ok {S A B} (r : result A) (f : A -> M S B) (st : S) a : r = Ok a -> (lift r ≫= f) st = f a st.
Proof. by intros ->. Qed.

Lemma get_bind {S B} (f : S -> M S B) (st : S) : (get_state ≫= f) st = f st st.
Proof. done. Qed.

Lemma bind_ok {S A B} (m : M S A) (f : A -> M S B) (s s' : S) a : m s = (s', Ok a) -> (m ≫= f) s = f a s'.
Proof. intros Hm. unfold mbind, M_bind. by rewrite Hm. Qed.

(** *** Invariants

    An operation keeps an invariant of the state, whatever its outcome. *)
Definition keeps {S A} (I : S -> Prop) (m : M S A) : Prop := forall s, I s -> I (m s).1.

Section Keeps.
Context {S : Type} (I : S -> Prop).

Lemma keeps_bind {A B} (m : M S A) (f : A -> M S B) :
  keeps I m -> (forall a, keeps I (f a)) -> keeps I (mbind (M := M S) f m).
Proof.
  intros Hm Hf s Hs. unfold mbind, M_bind. specialize (Hm s Hs).
  destruct (m s) as [s' [a| |]]; cbn in *; [by apply Hf|done..].
Qed.

Lemma keeps_bind_lift {A B} (r : result A) (f : A -> M S B) :
  (forall a, r = Ok a -> keeps I (f a)) -> keeps I (mbind (M := M S) f (lift r)).
Proof. intros Hf s Hs. unfold mbind, M_bind, lift. destruct r; [by apply Hf|done..]. Qed.

Lemma keeps_lift {A} (r : result A) : keeps I (lift r).
Proof. by intros s Hs. Qed.
Lemma keeps_ret {A} (a : A) : keeps I (mret (M := M S) a).
Proof. by intros s Hs. Qed.
Lemma keeps_get : keeps I get_state.
Proof. by intros s Hs. Qed.
Lemma keeps_bind_get {B} (f : S -> M S B) : (forall s, I s -> keeps I (f s)) -> keeps I (mbind (M := M S) f get_state).
Proof. intros Hf s Hs. by apply Hf. Qed.
Lemma keeps_throw {A} e : keeps I (throw (A := A) e).
Proof. by intros s Hs. Qed.
Lemma keeps_panic {A} : keeps I (panic (S := S) (A := A)).
Proof. by intros s Hs. Qed.
Lemma keeps_modify (f : S -> S) : (forall s, I s -> I (f s)) -> keeps I (modify f).
Proof. intros Hf s Hs. by apply Hf. Qed.

Lemma keeps_forM {A} (l : list A) (f : A -> M S unit) :
  (forall x, x ∈ l -> keeps I (f x)) -> keeps I (forM l f).
Proof.
  induction l as [|x l IH]; intros Hf; [apply keeps_ret|]. cbn [forM]. apply keeps_bind.
  - apply Hf. by left.
  - intros _. apply IH. intros y Hy. apply Hf. by right.
Qed.

(** An invariant of a part of the state. *)
Lemma keeps_zoom {T A} (J : T -> Prop) (get : S -> T) (put : T -> S -> S) (m : M T A) :
  (forall s, I s -> J (get s)) -> (forall t s, J t -> I s -> I (put t s)) -> keeps J m -> keeps I (zoom get put m).
Proof.
  intros Hget Hput Hm s Hs. unfold zoom. specialize (Hm _ (Hget _ Hs)).
  destruct (m (get s)) as [t r]. by apply Hput.
Qed.

End Keeps.

Create HintDb keeps.
#[export] Hint Resolve keeps_lift keeps_ret keeps_get keeps_throw keeps_panic : keeps.

(** Follows the structure of a computation; what is left are the operations on
    which the database [keeps] says nothing. *)
Ltac keeps_auto :=
  repeat first
    [ progress intros
    | solve [eauto with keeps]
    | apply keeps_bind_lift
    | apply keeps_bind
    | match goal with |- keeps _ (if ?b then _ else _) => destruct b end ].

(** ** Machine integers

    A value of a Go integer type is a [Z] in the range of the type; the
    arithmetic operators wrap around. *)
Record inttype : Type := IntType { it_bits : Z; it_signed : bool }.

Definition uint8 : inttype := IntType 8 false.
Definition uint16 : inttype := IntType 16 false.
Definition uint32 : inttype := IntType 32 false.
(** Go's [int] on a 64-bit platform. *)
Definition int64 : inttype := IntType 64 true.

Section Integers.
Local Open Scope Z_scope.

Definition it_size (T : inttype) : Z := 2 ^ it_bits T.
Definition it_min (T : inttype) : Z := if it_signed T then - 2 ^ (it_bits T - 1) else 0.
Definition it_max (T : inttype) : Z := it_min T + it_size T - 1.
Definition wrap (T : inttype) (z : Z) : Z :=
  (z - it_min T) mod it_size T + it_min T.
Definition in_range (T : inttype) (z : Z) : Prop := it_min T <= z <= it_max T.

#[export] Instance in_range_dec T z : Decision (in_range T z).
Proof. unfold in_range. solve_decision. Defined.

Lemma it_size_pos T : 0 <= it_bits T -> 0 < it_size T.
Proof. intros. unfold it_size. apply Z.pow_pos_nonneg; lia. Qed.

Lemma wrap_in_range T z : 0 <= it_bits T -> in_range T (wrap T z).
Proof.
  intros H. unfold in_range, wrap, it_max.
  pose proof (Z.mod_pos_bound (z - it_min T) _ (it_size_pos T H)). lia.
Qed.

Lemma wrap_id T z : in_range T z -> wrap T z = z.
Proof.
  unfold in_range, wrap, it_max. intros [??].
  rewrite Z.mod_small; lia.
Qed.

Lemma wrap_unsigned_id T z : it_signed T = false -> 0 <= z < it_size T -> wrap T z = z.
Proof.
  intros Hs Hz. apply wrap_id. unfold in_range, it_max, it_min. rewrite Hs. lia.
Qed.

(** The unsigned types narrower than [int], for which the conversion to [int]
    is exact. *)
Class Unsigned (T : inttype) : Prop := {
  unsigned_signed : it_signed T = false;
  unsigned_bits : 0 < it_bits T <= 32
}.

#[export] Instance uint8_unsigned : Unsigned uint8.
Proof. split; cbn; [done|lia]. Qed.
#[export] Instance uint16_unsigned : Unsigned uint16.
Proof. split; cbn; [done|lia]. Qed.
#[export] Instance uint32_unsigned : Unsigned uint32.
Proof. split; cbn; [done|lia]. Qed.

Lemma int64_max : it_max int64 = 9223372036854775807.
Proof. reflexivity. Qed.
Lemma int64_min : it_min int64 = -9223372036854775808.
Proof. reflexivity. Qed.

Lemma unsigned_in_range T `{!Unsigned T} z : in_range T z <-> 0 <= z < it_size T.
Proof. unfold in_range, it_max, it_min. rewrite unsigned_signed. lia. Qed.

Lemma unsigned_size_le T `{!Unsigned T} : 2 <= it_size T <= 4294967296.
Proof.
  pose proof unsigned_bits as ?. unfold it_size. split.
  - change 2 with (2 ^ 1) at 1. apply Z.pow_le_mono_r; lia.
  - change 4294967296 with (2 ^ 32). apply Z.pow_le_mono_r; lia.
Qed.

Lemma unsigned_max T `{!Unsigned T} : it_max T = it_size T - 1.
Proof. unfold it_max, it_min. rewrite unsigned_signed. lia. Qed.

Lemma wrap_unsigned T `{!Unsigned T} z : 0 <= z < it_size T -> wrap T z = z.
Proof. intros. by apply wrap_id, unsigned_in_range. Qed.

Lemma wrap_int64 z : - 4294967296 <= z <= 4294967296 -> wrap int64 z = z.
Proof. intros. apply wrap_id. unfold in_range. rewrite int64_max, int64_min. lia. Qed.

End Integers.

(** ** Strings *)

(** [strings.ReplaceAll(s, old, new)] for a one-byte [old]. *)
Fixpoint replace_all (old : Ascii.ascii) (new : string) (s : string) : string :=
  match s with
  | EmptyString => EmptyString
  | String c s' =>
      if bool_decide (c = old) then new +:+ replace_all old new s'
      else String c (replace_all old new s')
  end.

(** [strings.Split(s, sep)] for a one-byte separator: never empty. *)
Fixpoint split_on (sep : Ascii.ascii) (s : string) : list string :=
  match s with
  | EmptyString => [EmptyString]
  | String c s' =>
      if bool_decide (c = sep) then EmptyString :: split_on sep s'
      else match split_on sep s' with
           | w :: ws => String c w :: ws
           | [] => [String c EmptyString]
           end
  end.

(** [strings.Contains(s, sub)]. *)
Fixpoint contains (sub s : string) : bool :=
  String.prefix sub s ||
  match s with EmptyString => false | String _ s' => contains sub s' end.

(** [for _, v := range s]: the runes of a UTF-8 string. A byte that does not
    start a well-formed sequence yields U+FFFD and is skipped alone. *)
Section Runes.
Local Open Scope Z_scope.

Definition byte_in (lo hi b : Z) : bool := (lo <=? b) && (b <=? hi).
Definition cont_bits (b : Z) : Z := Z.land b 63.

(** The range of the second byte of a three-byte, four-byte sequence. *)
Definition second3 (b0 b1 : Z) : bool :=
  if b0 =? 224 then byte_in 160 191 b1
  else if b0 =? 237 then byte_in 128 159 b1
  else byte_in 128 191 b1.
Definition second4 (b0 b1 : Z) : bool :=
  if b0 =? 240 then byte_in 144 191 b1
  else if b0 =? 244 then byte_in 128 143 b1
  else byte_in 128 191 b1.

Fixpoint runes_of_bytes (bs : list Z) : list Z :=
  match bs with
  | [] => []
  | b0 :: t1 =>
      if b0 <? 128 then b0 :: runes_of_bytes t1
      else match t1 with
      | b1 :: t2 =>
          if byte_in 194 223 b0 && byte_in 128 191 b1 then
            (Z.shiftl (Z.land b0 31) 6 + cont_bits b1) :: runes_of_bytes t2
          else match t2 with
          | b2 :: t3 =>
              if byte_in 224 239 b0 && second3 b0 b1 && byte_in 128 191 b2 then
                (Z.shiftl (Z.land b0 15) 12 + Z.shiftl (cont_bits b1) 6 + cont_bits b2)
                :: runes_of_bytes t3
              else match t3 with
              | b3 :: t4 =>
                  if byte_in 240 244 b0 && second4 b0 b1 &&
                     byte_in 128 191 b2 && byte_in 128 191 b3 then
                    (Z.shiftl (Z.land b0 7) 18 + Z.shiftl (cont_bits b1) 12 +
                     Z.shiftl (cont_bits b2) 6 + cont_bits b3) :: runes_of_bytes t4
                  else 65533 :: runes_of_bytes t1
              | [] => 65533 :: runes_of_bytes t1
              end
          | [] => 65533 :: runes_of_bytes t1
          end
      | [] => 65533 :: runes_of_bytes t1
      end
  end.

Fixpoint bytes_of_string (s : string) : list Z :=
  match s with
  | EmptyString => []
  | String c s' => Z.of_N (Ascii.N_of_ascii c) :: bytes_of_string s'
  end.

Definition runes (s : string) : list Z := runes_of_bytes (bytes_of_string s).

End Runes.

(** ** Lists *)

Section Lists.
Context {A : Type}.
Implicit Types (l : list A).

Lemma filter_all (P : A -> Prop) `{!forall x, Decision (P x)} l :
  (forall x, x ∈ l -> P x) -> filter P l = l.
Proof.
  induction l as [|x l IH]; intros Hl; [done|].
  rewrite filter_cons_True by (apply Hl; by left). f_equal. apply IH. intros y Hy. apply Hl. by right.
Qed.

Lemma filter_none (P : A -> Prop) `{!forall x, Decision (P x)} l :
  (forall x, x ∈ l -> ~ P x) -> filter P l = [].
Proof.
  induction l as [|x l IH]; intros Hl; [done|].
  rewrite filter_cons_False by (apply Hl; by left). apply IH. intros y Hy. apply Hl. by right.
Qed.

Lemma NoDup_fmap_elem {B} (f : A -> B) l x y :
  NoDup (f <$> l) -> x ∈ l -> y ∈ l -> f x = f y -> x = y.
Proof.
  induction l as [|z l IH]; cbn; [by intros _ ?%not_elem_of_nil|].
  intros [Hz Hnd]%NoDup_cons [->|Hx]%elem_of_cons [->|Hy]%elem_of_cons Hf.
  - done.
  - destruct Hz. rewrite Hf. by apply list_elem_of_fmap_2.
  - destruct Hz. rewrite <-Hf. by apply list_elem_of_fmap_2.
  - by apply IH.
Qed.

End Lists.
