(* ===== verification/Strconv.v ===== *)
(** * Decimal numbers and strings: the part of Go's [strconv] the program uses *)

From S2P Require Import Prelude.

Local Open Scope Z_scope.

Definition digit (c : ascii) : option Z :=
  let n := Z.of_N (Ascii.N_of_ascii c) in
  if (48 <=? n) && (n <=? 57) then Some (n - 48) else None.

(** The value of a string of digits, in front of which [acc] was read. *)
Fixpoint parse_dec (s : string) (acc : Z) : option Z :=
  match s with
  | EmptyString => Some acc
  | String c s' => match digit c with Some d => parse_dec s' (acc * 10 + d) | None => None end
  end.

Definition dquote : string := String (Ascii.ascii_of_N 34) EmptyString.

(** [strconv.Quote] escapes a quote or a backslash; the other bytes are kept. *)
Fixpoint quote_body (s : string) : string :=
  match s with
  | EmptyString => EmptyString
  | String c s' =>
      let n := Ascii.N_of_ascii c in
      if (N.eqb n 34 || N.eqb n 92)%bool then String "\"%char (String c (quote_body s'))
      else String c (quote_body s')
  end.
Definition quote (s : string) : string := dquote +:+ quote_body s +:+ dquote.

Definition ErrSyntax (fn s : string) : string :=
  "strconv." +:+ fn +:+ ": parsing " +:+ quote s +:+ ": invalid syntax".
Definition ErrRange (fn s : string) : string :=
  "strconv." +:+ fn +:+ ": parsing " +:+ quote s +:+ ": value out of range".

(** [strconv.Atoi]: an optional sign and at least one digit, in the range of [int]. *)
Definition Atoi (s : string) : result Z :=
  let '(neg, body) :=
    match s with
    | String "-"%char s' => (true, s')
    | String "+"%char s' => (false, s')
    | _ => (false, s)
    end in
  match body with
  | EmptyString => Err (ErrSyntax "Atoi" s)
  | _ =>
      match parse_dec body 0 with
      | None => Err (ErrSyntax "Atoi" s)
      | Some n =>
          let z := if neg : bool then - n else n in
          if bool_decide (in_range int64 z) then Ok z else Err (ErrRange "Atoi" s)
      end
  end.

Lemma digit_char n : (n < 10)%N -> digit (pretty_N_char n) = Some (Z.of_N n).
Proof.
  intros Hn. do 10 (destruct n as [|n] using N.peano_ind; [reflexivity|]; clear IHn || idtac).
  all: try lia.
Qed.

Lemma parse_dec_go x : forall s, parse_dec (pretty_N_go x s) 0 = parse_dec s (Z.of_N x).
Proof.
  induction (N.lt_wf_0 x) as [x _ IH]. intros s.
  destruct (decide (x = 0)%N) as [->|Hx]; [done|].
  rewrite pretty_N_go_step by lia. rewrite IH by (apply N.div_lt; lia).
  cbn [parse_dec]. rewrite digit_char by (apply N.mod_lt; lia). f_equal.
  rewrite (N.div_mod x 10) at 3 by lia. lia.
Qed.

Lemma parse_dec_pretty n : 0 <= n -> parse_dec (pretty n) 0 = Some n.
Proof.
  intros Hn. destruct n as [|p|p]; [done| |lia]. change (pretty (Z.pos p)) with (pretty (N.pos p)).
  unfold pretty, pretty_N. rewrite decide_False by done. by rewrite parse_dec_go.
Qed.

(** The characters a number is printed with. *)
Definition all_digits (s : string) : Prop := is_Some (parse_dec s 0).

Lemma parse_dec_acc s : forall a b, is_Some (parse_dec s a) -> is_Some (parse_dec s b).
Proof.
  induction s as [|c s IH]; intros a b; cbn; [by eauto|]. destruct (digit c); [apply IH|done].
Qed.

Lemma all_digits_cons c s : all_digits (String c s) <-> is_Some (digit c) /\ all_digits s.
Proof.
  unfold all_digits. cbn. destruct (digit c).
  - split; [intros Hs; split; [by eauto|]; by eapply parse_dec_acc|intros [_ Hs]; by eapply parse_dec_acc].
  - split; [by intros []|by intros [[] _]].
Qed.

Lemma pretty_all_digits n : 0 <= n -> all_digits (pretty n).
Proof. intros. exists n. by apply parse_dec_pretty. Qed.

Lemma pretty_not_empty (n : Z) : pretty n <> EmptyString.
Proof.
  destruct n as [|p|p]; [done| |done]. intros He. assert (Hp : parse_dec (pretty (Z.pos p)) 0 = Some (Z.pos p)) by (apply parse_dec_pretty; lia).
  rewrite He in Hp. done.
Qed.

Lemma append_String c s t : String c s +:+ t = String c (s +:+ t).
Proof. done. Qed.

Lemma append_assoc (s t u : string) : (s +:+ t) +:+ u = s +:+ (t +:+ u).
Proof. induction s as [|c s IH]; [done|]. by rewrite !append_String, IH. Qed.

(** ** Separators *)

Fixpoint has_char (c : ascii) (s : string) : bool :=
  match s with
  | EmptyString => false
  | String x s' => bool_decide (x = c) || has_char c s'
  end.

Lemma has_char_app c s t : has_char c (s +:+ t) = has_char c s || has_char c t.
Proof. induction s as [|x s IH]; [done|]. rewrite append_String. cbn. by rewrite IH, orb_assoc. Qed.

Lemma has_char_digits c s : digit c = None -> all_digits s -> has_char c s = false.
Proof.
  intros Hc. induction s as [|x s IH]; [done|]. intros [Hx Hs]%all_digits_cons. cbn.
  rewrite (IH Hs), bool_decide_eq_false_2; [done|]. intros ->. rewrite Hc in Hx. by destruct Hx.
Qed.

(** A string without the separator is one field; the first separator ends a field. *)
Lemma split_on_no_char sep s : has_char sep s = false -> split_on sep s = [s].
Proof.
  induction s as [|c s IH]; [done|]. cbn [has_char split_on]. rewrite orb_false_iff. intros [-> Hs].
  by rewrite IH.
Qed.

Lemma split_on_first sep s t : has_char sep s = false ->
  split_on sep (s +:+ String sep t) = s :: split_on sep t.
Proof.
  induction s as [|c s IH]; intros Hs.
  - change ("" +:+ String sep t) with (String sep t). cbn [split_on]. by rewrite bool_decide_eq_true_2.
  - cbn [has_char] in Hs. apply orb_false_iff in Hs as [Hc Hs].
    rewrite append_String. cbn [split_on]. rewrite Hc. by rewrite IH.
Qed.

Lemma split_on_none sep s : digit sep = None -> all_digits s -> split_on sep s = [s].
Proof. intros. by apply split_on_no_char, has_char_digits. Qed.

Lemma split_on_app sep s t : digit sep = None -> all_digits s ->
  split_on sep (s +:+ String sep t) = s :: split_on sep t.
Proof. intros. by apply split_on_first, has_char_digits. Qed.

Lemma replace_all_no_char c w s : has_char c s = false -> replace_all c w s = s.
Proof.
  induction s as [|x s IH]; [done|]. cbn [has_char replace_all]. rewrite orb_false_iff. intros [-> Hs].
  by rewrite IH.
Qed.

Lemma Atoi_pretty n : 0 <= n <= it_max int64 -> Atoi (pretty n) = Ok n.
Proof.
  intros Hn. pose proof (pretty_all_digits n (proj1 Hn)) as Hd.
  pose proof (parse_dec_pretty n (proj1 Hn)) as Hp. pose proof (pretty_not_empty n) as Hne.
  unfold Atoi. destruct (pretty n) as [|c s]; [done|].
  apply all_digits_cons in Hd as [[d Hd] _].
  assert (Hc : forall (A : Type) (a b e : A), match c with "-"%char => a | "+"%char => b | _ => e end = e).
  { intros A a b e. destruct c as [[] [] [] [] [] [] [] []]; try done; discriminate Hd. }
  rewrite (Hc _ (true, s) (false, s)), Hp. rewrite bool_decide_eq_true_2; [done|].
  unfold in_range. rewrite int64_min. lia.
Qed.
