(* ===== verification/Hash.v ===== *)
(** * pkg/hash: the open-addressing hash table

    [hashTable] hands out small integer indices for string keys: a key hashes
    to a slot and collisions are resolved by linear probing. Each slot keeps
    the register of the names that claimed the key. *)

From S2P Require Import Prelude.

Local Open Scope Z_scope.

(** ** Data *)

(** [pkg/hash/hash.go:29-32 node] *)
Record node : Type := Node {
  key : string;
  register : gmap string (gmap string string)
}.

(** [pkg/hash/hash.go:34-37 hashTable] *)
Record hashTable : Type := HashTable {
  size : Z;
  nodes : list node
}.

Definition empty_node : node := Node "" ∅.

#[export] Instance node_eq_dec : EqDecision node.
Proof. solve_decision. Defined.

(** ** Operations *)

(** [pkg/hash/hash.go:39-50 New] *)
Definition New (s : Z) : hashTable := HashTable s (replicate (Z.to_nat s) empty_node).

(** The rune sum is an [int]; it is truncated to [uint32] before the modulo,
    which panics on a table of size zero.

    [pkg/hash/hash.go:126-132 hash] *)
Definition hash (h : hashTable) (k : string) : result Z :=
  let sum := foldl (fun acc v => wrap int64 (acc + v)) 0 (runes k) in
  if bool_decide (size h = 0) then Panic else Ok (wrap uint32 sum mod size h).

Definition set_node (i : Z) (n : node) (h : hashTable) : hashTable :=
  HashTable (size h) (<[Z.to_nat i := n]> (nodes h)).

(** The next probe position, wrapping at the end of the table. *)
Definition next_idx (h : hashTable) (i : Z) : Z :=
  let i' := wrap uint32 (i + 1) in if bool_decide (size h <= i') then 0 else i'.

(** The recursion of [insert] ends only at a usable slot; [None] is a probe
    that has not ended after [fuel] steps.

    [pkg/hash/hash.go:74-93 insert] *)
Fixpoint insert (fuel : nat) (hidx : Z) (k n : string) (l : gmap string string)
    (h : hashTable) : option (result (Z * hashTable)) :=
  match fuel with
  | O => None
  | S fuel' =>
      match index (nodes h) hidx with
      | Ok nd =>
          if bool_decide (key nd = "" \/ key nd = k) then
            let nd' := if bool_decide (key nd = "") then Node k ∅ else nd in
            Some (Ok (hidx, set_node hidx (Node (key nd') (<[n := l]> (register nd'))) h))
          else insert fuel' (next_idx h hidx) k n l h
      | Err e => Some (Err e)
      | Panic => Some Panic
      end
  end.

(** [pkg/hash/hash.go:52-55 Insert] *)
Definition Insert (fuel : nat) (k n : string) (l : gmap string string) (h : hashTable) :
    option (result (Z * hashTable)) :=
  match hash h k with
  | Ok hidx => insert fuel hidx k n l h
  | Err e => Some (Err e)
  | Panic => Some Panic
  end.

(** [ofidx] counts the slots visited; the probe stops after [size] of them.

    [pkg/hash/hash.go:100-123 delete] *)
Fixpoint delete_ (fuel : nat) (ofidx hidx : Z) (k n : string) (h : hashTable) :
    option (result hashTable) :=
  match fuel with
  | O => None
  | S fuel' =>
      match index (nodes h) hidx with
      | Ok nd =>
          if bool_decide (key nd = k) then
            let reg := delete n (register nd) in
            if bool_decide (base.size reg = 0%nat) then Some (Ok (set_node hidx empty_node h))
            else Some (Ok (set_node hidx (Node (key nd) reg) h))
          else
            let ofidx' := wrap uint32 (ofidx + 1) in
            if bool_decide (ofidx' = size h) then Some (Ok h)
            else delete_ fuel' ofidx' (next_idx h hidx) k n h
      | Err e => Some (Err e)
      | Panic => Some Panic
      end
  end.

(** [pkg/hash/hash.go:57-60 Delete] *)
Definition Delete (fuel : nat) (k n : string) (h : hashTable) : option (result hashTable) :=
  match hash h k with
  | Ok hidx => delete_ fuel 0 hidx k n h
  | Err e => Some (Err e)
  | Panic => Some Panic
  end.

(** [pkg/hash/hash.go:62-72 GetClaim] *)
Definition GetClaim (h : hashTable) : Z * list string :=
  foldl (fun '(claimed, used) nd =>
    if bool_decide (key nd = "") then (claimed, used)
    else (wrap uint32 (claimed + 1), used ++ [key nd])) (0, []) (nodes h).

(** ** Well-formed tables and probe sequences *)

Definition wf (h : hashTable) : Prop :=
  0 < size h <= it_max uint32 /\ Z.of_nat (length (nodes h)) = size h.

(** The slot visited after [j] steps of a probe that starts at [i]. *)
Definition slot (h : hashTable) (i j : Z) : nat := Z.to_nat ((i + j) mod size h).

Definition usable (k : string) (nd : node) : Prop := key nd = "" \/ key nd = k.

Definition usable_at (h : hashTable) (k : string) (i : nat) : Prop :=
  exists nd, nodes h !! i = Some nd /\ usable k nd.

#[export] Instance usable_at_dec h k i : Decision (usable_at h k i).
Proof.
  unfold usable_at, usable. destruct (nodes h !! i) as [nd|] eqn:E.
  - destruct (decide (key nd = "" \/ key nd = k)); [left; by exists nd|].
    right. intros (nd' & ? & ?). congruence.
  - right. intros (nd' & ? & ?). congruence.
Defined.

(** The slot a key is written to by [insert]. *)
Definition claim_slot (i : nat) (k n : string) (l : gmap string string) (h : hashTable) :
    hashTable :=
  let nd := default empty_node (nodes h !! i) in
  let reg := if bool_decide (key nd = "") then ∅ else register nd in
  HashTable (size h) (<[i := Node k (<[n := l]> reg)]> (nodes h)).

Lemma it_max_uint32 : it_max uint32 = 4294967295.
Proof. reflexivity. Qed.

Lemma wrap_uint32_small z : 0 <= z <= it_max uint32 -> wrap uint32 z = z.
Proof. intros. apply wrap_id. unfold in_range, it_min. cbn -[it_max]. lia. Qed.

Lemma next_idx_mod h i : wf h -> 0 <= i < size h -> next_idx h i = (i + 1) mod size h.
Proof.
  intros [[??] ?] ?. unfold next_idx. rewrite wrap_uint32_small by lia.
  case_bool_decide.
  - replace (i + 1) with (size h) by lia. by rewrite Z.mod_same by lia.
  - by rewrite Z.mod_small by lia.
Qed.

Lemma slot_0 h i : 0 <= i < size h -> slot h i 0 = Z.to_nat i.
Proof. intros. unfold slot. rewrite Z.mod_small by lia. f_equal. lia. Qed.

Lemma slot_next h i j :
  wf h -> 0 <= i < size h -> slot h (next_idx h i) j = slot h i (j + 1).
Proof.
  intros Hwf Hi. unfold slot. rewrite next_idx_mod by done. f_equal.
  destruct Hwf as [[??] ?]. rewrite Zplus_mod_idemp_l. f_equal. lia.
Qed.

Lemma next_idx_bound h i : wf h -> 0 <= i < size h -> 0 <= next_idx h i < size h.
Proof. intros Hwf Hi. rewrite next_idx_mod by done. destruct Hwf. apply Z.mod_pos_bound. lia. Qed.

Lemma slot_lt h i j : wf h -> (slot h i j < length (nodes h))%nat.
Proof.
  intros [[??] ?]. unfold slot.
  pose proof (Z.mod_pos_bound (i + j) (size h) ltac:(lia)). lia.
Qed.

Lemma slot_lookup h i j : wf h -> is_Some (nodes h !! slot h i j).
Proof. intros. apply lookup_lt_is_Some_2. by apply slot_lt. Qed.

(** Every slot is on every probe sequence. *)
Lemma slot_cover h i p :
  wf h -> 0 <= i < size h -> (p < length (nodes h))%nat ->
  exists j, 0 <= j < size h /\ slot h i j = p.
Proof.
  intros [[??] Hlen] Hi Hp. exists ((Z.of_nat p - i) mod size h).
  split; [apply Z.mod_pos_bound; lia|]. unfold slot.
  rewrite Zplus_mod_idemp_r. replace (i + (Z.of_nat p - i)) with (Z.of_nat p) by lia.
  rewrite Z.mod_small by lia. lia.
Qed.

Lemma index_slot h i :
  wf h -> 0 <= i < size h -> exists nd, nodes h !! slot h i 0 = Some nd /\ index (nodes h) i = Ok nd.
Proof.
  intros Hwf Hi. destruct (slot_lookup h i 0 Hwf) as [nd Hnd]. exists nd. split; [done|].
  unfold index. rewrite bool_decide_true by lia. rewrite slot_0 in Hnd by done. by rewrite Hnd.
Qed.

Lemma claim_slot_wf i k n l h : wf h -> wf (claim_slot i k n l h).
Proof. unfold wf, claim_slot. cbn. by rewrite length_insert. Qed.

Lemma hash_bound h k : wf h -> exists i, hash h k = Ok i /\ 0 <= i < size h.
Proof.
  intros [[??] ?]. unfold hash. rewrite bool_decide_false by lia.
  eexists; split; [done|]. apply Z.mod_pos_bound. lia.
Qed.

(** ** The probe loops *)

Lemma insert_probe h k n l j : forall fuel i,
  wf h -> 0 <= i < size h -> (j < fuel)%nat ->
  usable_at h k (slot h i (Z.of_nat j)) ->
  (forall j', 0 <= j' < Z.of_nat j -> ~ usable_at h k (slot h i j')) ->
  insert fuel i k n l h = Some (Ok ((i + Z.of_nat j) mod size h, claim_slot (slot h i (Z.of_nat j)) k n l h)).
Proof.
  induction j as [|j IH]; intros fuel i Hwf Hi Hf Hu Hno; (destruct fuel as [|fuel]; [lia|]); cbn [insert].
  - destruct (index_slot h i Hwf Hi) as (nd & Hnd & ->). destruct Hu as (nd' & Hnd' & Hu).
    change (Z.of_nat 0) with 0 in *. rewrite Hnd in Hnd'. injection Hnd' as <-.
    rewrite bool_decide_true by done. rewrite slot_0 in * by done.
    rewrite Z.add_0_r, Z.mod_small by lia. repeat f_equal. unfold claim_slot, set_node.
    rewrite Hnd. cbn. f_equal. unfold usable in Hu.
    case_bool_decide; cbn; [done|]. destruct Hu as [?|Hu]; [done|]. by rewrite Hu.
  - destruct (index_slot h i Hwf Hi) as (nd & Hnd & ->).
    rewrite bool_decide_false; cycle 1.
    { intros Hu0. apply (Hno 0); [lia|]. exists nd. done. }
    assert (Z.of_nat (S j) = Z.of_nat j + 1) as HS by lia.
    rewrite (IH fuel (next_idx h i)).
    + rewrite slot_next by done. rewrite next_idx_mod by done.
      rewrite Zplus_mod_idemp_l, HS. by rewrite (Z.add_comm (Z.of_nat j)), Z.add_assoc.
    + done.
    + by apply next_idx_bound.
    + lia.
    + rewrite slot_next by done. by rewrite <-HS.
    + intros j' Hj'. rewrite slot_next by done. apply Hno. lia.
Qed.

Lemma insert_no_slot h k n l : forall fuel i,
  wf h -> 0 <= i < size h -> (forall p, ~ usable_at h k p) -> insert fuel i k n l h = None.
Proof.
  induction fuel as [|fuel IH]; intros i Hwf Hi Hno; [done|]. cbn [insert].
  destruct (index_slot h i Hwf Hi) as (nd & Hnd & ->).
  rewrite bool_decide_false.
  - apply IH; [done| |done]. by apply next_idx_bound.
  - intros Hu. eapply Hno. exists nd. done.
Qed.

(** The first usable slot of a probe sequence, when there is one. *)
Lemma first_usable h k i :
  wf h -> 0 <= i < size h -> (exists p, usable_at h k p) ->
  exists j : nat, Z.of_nat j < size h /\ usable_at h k (slot h i (Z.of_nat j)) /\
    forall j', 0 <= j' < Z.of_nat j -> ~ usable_at h k (slot h i j').
Proof.
  intros Hwf Hi [p Hp].
  assert ((p < length (nodes h))%nat) as Hlt.
  { destruct Hp as (nd & Hnd & _). by apply lookup_lt_Some in Hnd. }
  destruct (slot_cover h i p Hwf Hi Hlt) as (j & Hj & <-).
  assert (forall m : nat, Z.of_nat m <= size h ->
    (exists j : nat, Z.of_nat j < Z.of_nat m /\ usable_at h k (slot h i (Z.of_nat j)) /\
      forall j', 0 <= j' < Z.of_nat j -> ~ usable_at h k (slot h i j')) \/
    (forall j', 0 <= j' < Z.of_nat m -> ~ usable_at h k (slot h i j'))) as Hscan.
  { induction m as [|m IH]; intros Hm; [right; lia|].
    destruct IH as [(j0 & ?&?&?)|Hno]; [lia|left; exists j0; split; [lia|done]|].
    destruct (decide (usable_at h k (slot h i (Z.of_nat m)))) as [Hu|Hn].
    - left. exists m. split; [lia|]. split; [done|]. intros. apply Hno. lia.
    - right. intros j' Hj'. destruct (decide (j' = Z.of_nat m)) as [->|]; [done|]. apply Hno. lia. }
  destruct (Hscan (Z.to_nat (size h))) as [(j0 & ?&?&?)|Hno]; [lia| |].
  - exists j0. split; [lia|done].
  - exfalso. apply (Hno j); [lia|done].
Qed.

(** ** Insert *)

Lemma Insert_spec h k n l :
  wf h -> (exists p, usable_at h k p) ->
  exists (i : Z) (j : nat), hash h k = Ok i /\ Z.of_nat j < size h /\
    usable_at h k (slot h i (Z.of_nat j)) /\
    (forall j', 0 <= j' < Z.of_nat j -> ~ usable_at h k (slot h i j')) /\
    Insert (Z.to_nat (size h)) k n l h =
      Some (Ok ((i + Z.of_nat j) mod size h, claim_slot (slot h i (Z.of_nat j)) k n l h)).
Proof.
  intros Hwf Hex. destruct (hash_bound h k Hwf) as (i & Hh & Hi).
  destruct (first_usable h k i Hwf Hi Hex) as (j & Hj & Hu & Hno).
  exists i, j. repeat (split; [done|]). unfold Insert. rewrite Hh.
  apply insert_probe; try done. lia.
Qed.

(** C40. [Insert] terminates on a table that has an empty slot or already holds
    the key: within [size] probes it returns an index of the table, that slot
    holds the key with the claim registered under its name, every other slot is
    unchanged and the table stays well formed. *)
Theorem Insert_total (h : hashTable) (k n : string) (l : gmap string string) :
  wf h -> (exists p, usable_at h k p) ->
  exists idx h', Insert (Z.to_nat (size h)) k n l h = Some (Ok (idx, h')) /\
    0 <= idx < size h /\ wf h' /\
    (exists nd, nodes h' !! Z.to_nat idx = Some nd /\ key nd = k /\ register nd !! n = Some l) /\
    (forall p, p <> Z.to_nat idx -> nodes h' !! p = nodes h !! p).
Proof.
  intros Hwf Hex. destruct (Insert_spec h k n l Hwf Hex) as (i & j & Hh & Hj & Hu & Hno & ->).
  pose proof Hwf as [[??] Hlen].
  eexists _, _. split; [done|]. split; [apply Z.mod_pos_bound; lia|].
  split; [by apply claim_slot_wf|]. fold (slot h i (Z.of_nat j)). split.
  - eexists. unfold claim_slot. cbn.
    rewrite list_lookup_insert_eq by (by apply slot_lt). split; [done|]. cbn. split; [done|].
    apply lookup_insert_eq.
  - intros p Hp. unfold claim_slot. cbn. by rewrite list_lookup_insert_ne.
Qed.

Definition two_slots : hashTable := New 2.

(** Witness of [Insert_total] on an empty table of two slots. *)
Lemma Insert_total_witness :
  exists idx h', Insert 2 "a" "n" ∅ two_slots = Some (Ok (idx, h')) /\ 0 <= idx < 2.
Proof.
  destruct (Insert_total two_slots "a" "n" ∅) as (idx & h' & He & Hi & _).
  - split; [split|]; vm_compute; congruence.
  - exists 0%nat, empty_node. split; [reflexivity|]. left. reflexivity.
  - exists idx, h'. split; [exact He|exact Hi].
Defined.

(** On a full table that does not hold the key, [Insert] never returns: no
    number of probes ends the recursion. *)
Theorem Insert_full_diverges (h : hashTable) (k n : string) (l : gmap string string) (fuel : nat) :
  wf h -> (forall p nd, nodes h !! p = Some nd -> key nd <> "" /\ key nd <> k) ->
  Insert fuel k n l h = None.
Proof.
  intros Hwf Hfull. unfold Insert. destruct (hash_bound h k Hwf) as (i & -> & Hi).
  apply insert_no_slot; [done..|]. intros p (nd & Hnd & Hu).
  destruct (Hfull p nd Hnd). by destruct Hu.
Qed.

Definition full_slot : hashTable := HashTable 1 [Node "a" ∅].

Lemma Insert_full_diverges_witness : Insert 1000 "b" "n" ∅ full_slot = None.
Proof.
  apply (Insert_full_diverges full_slot "b" "n" ∅ 1000).
  - split; [split|]; vm_compute; congruence.
  - intros [|p] nd Hnd; [|discriminate Hnd]. injection Hnd as <-. split; discriminate.
Defined.

(** ** Stability of the index of a key

    [reachable_slots] says that the slot of every key is the first usable slot
    of its probe sequence, so that a later [Insert] of the key finds it. *)
Definition reachable_slots (h : hashTable) : Prop :=
  forall p nd, nodes h !! p = Some nd -> key nd <> "" ->
  exists i j, hash h (key nd) = Ok i /\ 0 <= j < size h /\ slot h i j = p /\
    forall j', 0 <= j' < j -> ~ usable_at h (key nd) (slot h i j').

Definition inv (h : hashTable) : Prop := wf h /\ reachable_slots h.

Lemma hash_claim_slot p k n l h k' : hash (claim_slot p k n l h) k' = hash h k'.
Proof. done. Qed.

Lemma slot_claim_slot p k n l h i j : slot (claim_slot p k n l h) i j = slot h i j.
Proof. done. Qed.

Lemma claim_slot_usable p k n l h k' q :
  k <> "" -> usable_at h k p -> usable_at (claim_slot p k n l h) k' q -> usable_at h k' q.
Proof.
  intros Hk (nd & Hnd & Hu) (nd' & Hnd' & Hu'). unfold claim_slot in Hnd'. cbn in Hnd'.
  apply list_lookup_insert_Some in Hnd' as [(<- & <- & Hlt)|(Hne & Hnd')].
  - exists nd. split; [done|]. unfold usable in *. cbn in Hu'.
    destruct Hu as [Hu|Hu]; [by left|]. right. destruct Hu'; congruence.
  - exists nd'. done.
Qed.

Lemma claim_slot_inv h k n l i j :
  inv h -> k <> "" -> hash h k = Ok i -> 0 <= j < size h -> usable_at h k (slot h i j) ->
  (forall j', 0 <= j' < j -> ~ usable_at h k (slot h i j')) ->
  inv (claim_slot (slot h i j) k n l h).
Proof.
  intros [Hwf Hr] Hk Hh Hj Hu Hno. split; [by apply claim_slot_wf|].
  intros p nd Hnd Hkey. unfold claim_slot in Hnd. cbn in Hnd.
  apply list_lookup_insert_Some in Hnd as [(<- & <- & Hlt)|(Hne & Hnd)]; cbn.
  - exists i, j. rewrite hash_claim_slot. repeat (split; [done|]).
    intros j' Hj' Hu'. rewrite slot_claim_slot in Hu'.
    apply claim_slot_usable in Hu'; [|done..]. by apply (Hno j').
  - destruct (Hr p nd Hnd Hkey) as (i0 & j0 & Hh0 & Hj0 & Hs0 & Hno0).
    exists i0, j0. rewrite hash_claim_slot, slot_claim_slot. repeat (split; [done|]).
    intros j' Hj' Hu'. rewrite slot_claim_slot in Hu'.
    apply claim_slot_usable in Hu'; [|done..]. by apply (Hno0 j').
Qed.

Lemma New_inv s : 0 < s <= it_max uint32 -> inv (New s).
Proof.
  intros Hs. split.
  - unfold wf, New. cbn. rewrite length_replicate. lia.
  - intros p nd Hnd. apply lookup_replicate in Hnd as [-> _]. done.
Qed.

(** Tables built by [New] and [Insert]. *)
Inductive inserted : hashTable -> Prop :=
| inserted_new s : 0 < s <= it_max uint32 -> inserted (New s)
| inserted_insert h k n l fuel idx h' :
    inserted h -> k <> "" -> Insert fuel k n l h = Some (Ok (idx, h')) -> inserted h'.

Lemma insert_some_usable h k n l : forall fuel i r,
  wf h -> 0 <= i < size h -> insert fuel i k n l h = Some r -> exists p, usable_at h k p.
Proof.
  induction fuel as [|fuel IH]; intros i r Hwf Hi; [done|]. cbn [insert].
  destruct (index_slot h i Hwf Hi) as (nd & Hnd & ->). case_bool_decide as Hu.
  - intros _. eexists _, nd. split; [done|]. exact Hu.
  - apply IH; [done|]. by apply next_idx_bound.
Qed.

(** More fuel does not change the outcome. *)
Lemma insert_fuel_mono h k n l : forall fuel i r fuel',
  insert fuel i k n l h = Some r -> (fuel <= fuel')%nat -> insert fuel' i k n l h = Some r.
Proof.
  induction fuel as [|fuel IH]; intros i r fuel' Hr Hle; [done|].
  destruct fuel' as [|fuel']; [lia|]. cbn [insert] in *.
  destruct (index (nodes h) i); [|done..]. case_bool_decide; [done|].
  apply IH with (fuel' := fuel') in Hr; [done|lia].
Qed.

Lemma Insert_result h k n l fuel r :
  wf h -> Insert fuel k n l h = Some r ->
  Insert (Z.to_nat (size h)) k n l h = Some r /\ exists p, usable_at h k p.
Proof.
  intros Hwf Hr. pose proof Hr as Hr'. unfold Insert in Hr.
  destruct (hash_bound h k Hwf) as (i & Hh & Hi). rewrite Hh in Hr.
  pose proof (insert_some_usable _ _ _ _ _ _ _ Hwf Hi Hr) as Hex. split; [|done].
  destruct (Insert_spec h k n l Hwf Hex) as (i' & j & Hh' & _ & _ & _ & Hs).
  unfold Insert in Hs |- *. rewrite Hh in Hs |- *.
  destruct (Nat.le_ge_cases fuel (Z.to_nat (size h))) as [Hle|Hle].
  - by eapply insert_fuel_mono.
  - pose proof (insert_fuel_mono _ _ _ _ _ _ _ _ Hs Hle) as Hs'. congruence.
Qed.

Lemma inserted_inv h : inserted h -> inv h.
Proof.
  induction 1 as [s Hs|h k n l fuel idx h' Hh [Hwf Hr] Hk Hins]; [by apply New_inv|].
  destruct (Insert_result _ _ _ _ _ _ Hwf Hins) as [Hi Hex].
  destruct (Insert_spec h k n l Hwf Hex) as (i & j & Hh' & Hj & Hu & Hno & Hs).
  rewrite Hs in Hi. injection Hi as _ <-.
  apply claim_slot_inv; try done. lia.
Qed.

(** As long as keys are only inserted, the index of a key is stable and
    belongs to it alone: a second [Insert] of a key, after any number of
    insertions of other keys, returns the slot that already holds it. *)
Theorem Insert_stable (h : hashTable) (k n : string) (l : gmap string string) (p : nat) (nd : node) :
  inserted h -> k <> "" -> nodes h !! p = Some nd -> key nd = k ->
  exists h', Insert (Z.to_nat (size h)) k n l h = Some (Ok (Z.of_nat p, h')).
Proof.
  intros [Hwf Hr]%inserted_inv Hk Hnd Hkey.
  assert (exists p, usable_at h k p) as Hex by (exists p, nd; split; [done|by right]).
  destruct (Insert_spec h k n l Hwf Hex) as (i & j & Hh & Hj & Hu & Hno & ->).
  destruct (Hr p nd Hnd) as (i0 & j0 & Hh0 & Hj0 & Hs0 & Hno0); [congruence|].
  rewrite Hkey in *. assert (i0 = i) as -> by congruence.
  assert (j0 = Z.of_nat j) as ->.
  { destruct (Z.lt_trichotomy j0 (Z.of_nat j)) as [Hlt|[?|Hlt]]; [|done|].
    - exfalso. apply (Hno j0); [lia|]. rewrite Hs0. exists nd. split; [done|by right].
    - exfalso. apply (Hno0 (Z.of_nat j)); [lia|done]. }
  rewrite <-Hs0. unfold slot. eexists. rewrite Z2Nat.id; [done|].
  destruct Hwf as [[??] _]. apply Z.mod_pos_bound. lia.
Qed.

Definition one_key : hashTable := claim_slot 1 "a" "n" ∅ two_slots.

Lemma Insert_stable_witness :
  exists h', Insert 2 "a" "m" ∅ one_key = Some (Ok (1, h')).
Proof.
  apply (Insert_stable one_key "a" "m" ∅ 1 (Node "a" {["n" := ∅]})).
  - apply (inserted_insert two_slots "a" "n" ∅ 2 1 one_key);
      [apply (inserted_new 2); vm_compute; split; congruence|discriminate|vm_compute; reflexivity].
  - discriminate.
  - vm_compute. reflexivity.
  - reflexivity.
Defined.

(** [Delete] breaks that stability: it empties a slot in the middle of the
    probe sequence of another key, whose next [Insert] takes the emptied slot
    and returns a different index than the one it was given before. *)
Theorem Delete_breaks_stability :
  exists h1 h2 h3 h4,
    Insert 2 "a" "x" ∅ (New 2) = Some (Ok (1, h1)) /\
    Insert 2 "c" "y" ∅ h1 = Some (Ok (0, h2)) /\
    Delete 2 "a" "x" h2 = Some (Ok h3) /\
    Insert 2 "c" "y" ∅ h3 = Some (Ok (1, h4)) /\
    (key <$> (nodes h4 !! 0%nat)) = Some "c" /\ (key <$> (nodes h4 !! 1%nat)) = Some "c".
Proof. do 4 eexists. repeat (split; [vm_compute; reflexivity|]). vm_compute. reflexivity. Qed.

(** ** Delete *)

(** The slot of a key after the claim of a name was removed. *)
Definition release_slot (p : nat) (n : string) (h : hashTable) : hashTable :=
  let nd := default empty_node (nodes h !! p) in
  let reg := delete n (register nd) in
  HashTable (size h) (<[p := if bool_decide (reg = ∅) then empty_node else Node (key nd) reg]> (nodes h)).

Definition holds (h : hashTable) (k : string) (p : nat) : Prop :=
  exists nd, nodes h !! p = Some nd /\ key nd = k.

Lemma holds_dec h k p : holds h k p \/ ~ holds h k p.
Proof.
  unfold holds. destruct (nodes h !! p) as [nd|] eqn:E.
  - destruct (decide (key nd = k)); [left; by exists nd|]. right. intros (? & ? & ?). congruence.
  - right. intros (? & ? & ?). congruence.
Qed.

Lemma delete_probe h k n : forall (m : nat) fuel ov i,
  wf h -> 0 <= i < size h -> 0 <= ov < size h -> Z.of_nat m = size h - ov -> (m <= fuel)%nat ->
  (exists j : nat, (j < m)%nat /\ holds h k (slot h i (Z.of_nat j)) /\
     (forall j', 0 <= j' < Z.of_nat j -> ~ holds h k (slot h i j')) /\
     delete_ fuel ov i k n h = Some (Ok (release_slot (slot h i (Z.of_nat j)) n h))) \/
  ((forall j', 0 <= j' < Z.of_nat m -> ~ holds h k (slot h i j')) /\
     delete_ fuel ov i k n h = Some (Ok h)).
Proof.
  induction m as [|m IH]; intros fuel ov i Hwf Hi Hof Hm Hf; [lia|].
  destruct fuel as [|fuel]; [lia|]. cbn [delete_].
  destruct (index_slot h i Hwf Hi) as (nd & Hnd & ->). case_bool_decide as Hk.
  - left. exists 0%nat. split; [lia|]. split; [by exists nd|]. split; [lia|].
    unfold release_slot, set_node. change (Z.of_nat 0) with 0. rewrite Hnd, slot_0 by done. cbn.
    case_bool_decide as Hs; case_bool_decide as He; [done| | |done].
    + by apply map_size_empty_inv in Hs.
    + rewrite He in Hs. by rewrite map_size_empty in Hs.
  - assert (~ holds h k (slot h i 0)) as H0 by (intros (? & ? & ?); congruence).
    pose proof Hwf as [[??] _]. rewrite wrap_uint32_small by lia. case_bool_decide as Hend.
    + right. split; [|done]. intros j' Hj'. by assert (j' = 0) as -> by lia.
    + destruct (IH fuel (ov + 1) (next_idx h i)) as [(j & Hj & Hh & Hno & Hd)|[Hno Hd]];
        [done|by apply next_idx_bound|lia..| |].
      * left. exists (S j). rewrite slot_next in Hh, Hd by done.
        replace (Z.of_nat (S j)) with (Z.of_nat j + 1) by lia. repeat (split; [by (done || lia)|]).
        split; [|done]. intros j' Hj'. destruct (decide (j' = 0)) as [->|]; [done|].
        specialize (Hno (j' - 1)). rewrite slot_next in Hno by done.
        replace (j' - 1 + 1) with j' in Hno by lia. apply Hno. lia.
      * right. split; [|done]. intros j' Hj'. destruct (decide (j' = 0)) as [->|]; [done|].
        specialize (Hno (j' - 1)). rewrite slot_next in Hno by done.
        replace (j' - 1 + 1) with j' in Hno by lia. apply Hno. lia.
Qed.

(** [Delete] always terminates within [size] probes. It removes the claim of
    the name from one slot that holds the key, freeing the slot when the last
    claim is gone, and leaves the table as it is when no slot holds the key. *)
Theorem Delete_total (h : hashTable) (k n : string) :
  wf h ->
  exists h', Delete (Z.to_nat (size h)) k n h = Some (Ok h') /\ wf h' /\
    ((exists p, holds h k p /\ h' = release_slot p n h) \/
     ((forall p, ~ holds h k p) /\ h' = h)).
Proof.
  intros Hwf. destruct (hash_bound h k Hwf) as (i & Hh & Hi). unfold Delete. rewrite Hh.
  pose proof Hwf as [[??] Hlen].
  destruct (delete_probe h k n (Z.to_nat (size h)) (Z.to_nat (size h)) 0 i)
    as [(j & _ & Hk & _ & ->)|[Hno ->]]; try lia; [done| |].
  - eexists. split; [done|]. split; [|left; by eexists].
    unfold wf, release_slot. cbn. by rewrite length_insert.
  - exists h. repeat (split; [done|]). right. split; [|done]. intros p Hp.
    destruct (slot_cover h i p) as (j & Hj & Hs); try done.
    { destruct Hp as (nd & Hnd & _). by apply lookup_lt_Some in Hnd. }
    apply (Hno j); [lia|by rewrite Hs].
Qed.

Lemma Delete_total_witness : exists h', Delete 2 "a" "n" one_key = Some (Ok h').
Proof.
  destruct (Delete_total one_key "a" "n") as (h' & He & _).
  - split; [split|]; vm_compute; congruence.
  - exists h'. exact He.
Defined.

(** ** GetClaim *)

(** The number of claims is the number of keys listed, one per non-empty slot. *)
Lemma GetClaim_spec h :
  wf h -> GetClaim h = (Z.of_nat (length (filter (fun k => k <> "") (key <$> nodes h))),
                        filter (fun k => k <> "") (key <$> nodes h)).
Proof.
  intros [[??] Hlen]. unfold GetClaim.
  assert (forall ns c us, c = Z.of_nat (length us) ->
    Z.of_nat (length us) + Z.of_nat (length ns) <= it_max uint32 ->
    foldl (fun '(claimed, used) nd =>
      if bool_decide (key nd = "") then (claimed, used)
      else (wrap uint32 (claimed + 1), used ++ [key nd])) (c, us) ns =
    (Z.of_nat (length (us ++ filter (fun k => k <> "") (key <$> ns))),
     us ++ filter (fun k => k <> "") (key <$> ns))) as Hgen.
  { induction ns as [|nd ns IH]; intros c us -> Hb; [by rewrite app_nil_r|].
    cbn [foldl fmap list_fmap length] in *. rewrite filter_cons.
    destruct (decide (key nd <> "")) as [Hk|Hk].
    - rewrite bool_decide_false by done. rewrite wrap_uint32_small by lia.
      rewrite IH; [|rewrite length_app; cbn [length]; lia..].
      by rewrite <-!app_assoc.
    - rewrite bool_decide_true by (by apply dec_stable). apply IH; lia. }
  by rewrite (Hgen (nodes h) 0 []) by (cbn [length]; lia).
Qed.
