(* ===== verification/Meta.v ===== *)
(** * pkg/meta, pkg/resource, pkg/utils: Kubernetes object metadata

    The data of a Kubernetes object that the program reads and writes (its
    group/version/kind, its [ObjectMeta]) and the helpers on finalizers, owner
    references, labels, annotations and GVK strings. *)

From S2P Require Import Prelude.

Local Open Scope Z_scope.

(** ** Kubernetes data *)

Record GroupVersionKind : Type := GVK { Group : string; Version : string; Kind : string }.
#[export] Instance GVK_eq_dec : EqDecision GroupVersionKind.
Proof. solve_decision. Defined.

#[export] Instance GVK_countable : Countable GroupVersionKind.
Proof.
  apply (inj_countable' (fun g => (Group g, Version g, Kind g)) (fun '(g, v, k) => GVK g v k)).
  by intros [].
Defined.

(** The gRPC message of the same shape. *)
Record PbGVK : Type := ResourcePbGVK { pb_Group : string; pb_Version : string; pb_Kind : string }.

Record PbNSN : Type := ResourcePbNSN { pb_Namespace : string; pb_Name : string }.

Record NamespacedName : Type := NSN { nsn_Namespace : string; nsn_Name : string }.

#[export] Instance NSN_eq_dec : EqDecision NamespacedName.
Proof. solve_decision. Defined.

#[export] Instance NSN_countable : Countable NamespacedName.
Proof.
  apply (inj_countable' (fun n => (nsn_Namespace n, nsn_Name n)) (fun '(a, b) => NSN a b)).
  by intros [].
Defined.

Record ObjectReference : Type := ObjRef {
  ref_Kind : string; ref_Namespace : string; ref_Name : string; ref_UID : string;
  ref_APIVersion : string; ref_ResourceVersion : string; ref_FieldPath : string
}.

#[export] Instance ObjectReference_eq_dec : EqDecision ObjectReference.
Proof. solve_decision. Defined.

#[export] Instance ObjectReference_countable : Countable ObjectReference.
Proof.
  apply (inj_countable'
    (fun r => (ref_Kind r, ref_Namespace r, ref_Name r, ref_UID r, ref_APIVersion r,
               ref_ResourceVersion r, ref_FieldPath r))
    (fun '(a, b, c, d, e, f, g) => ObjRef a b c d e f g)).
  by intros [].
Defined.

Record OwnerReference : Type := MkOwnerReference {
  or_APIVersion : string; or_Kind : string; or_Name : string; or_UID : string;
  or_Controller : option bool; or_BlockOwnerDeletion : option bool
}.

(** The label and annotation maps distinguish [nil] from an empty map. *)
Record ObjectMeta : Type := MkObjectMeta {
  om_Name : string;
  om_GenerateName : string;
  om_Namespace : string;
  om_UID : string;
  om_ResourceVersion : string;
  om_DeletionTimestamp : option Z;
  om_Labels : option (gmap string string);
  om_Annotations : option (gmap string string);
  om_OwnerReferences : list OwnerReference;
  om_Finalizers : list string
}.

(** What [client.Object] gives access to: the kind and the metadata. *)
Record Object : Type := MkObject { o_GVK : GroupVersionKind; o_Meta : ObjectMeta }.

Definition set_Labels (l : option (gmap string string)) (o : ObjectMeta) : ObjectMeta :=
  MkObjectMeta (om_Name o) (om_GenerateName o) (om_Namespace o) (om_UID o) (om_ResourceVersion o)
    (om_DeletionTimestamp o) l (om_Annotations o) (om_OwnerReferences o) (om_Finalizers o).
Definition set_Annotations (a : option (gmap string string)) (o : ObjectMeta) : ObjectMeta :=
  MkObjectMeta (om_Name o) (om_GenerateName o) (om_Namespace o) (om_UID o) (om_ResourceVersion o)
    (om_DeletionTimestamp o) (om_Labels o) a (om_OwnerReferences o) (om_Finalizers o).
Definition set_OwnerReferences (r : list OwnerReference) (o : ObjectMeta) : ObjectMeta :=
  MkObjectMeta (om_Name o) (om_GenerateName o) (om_Namespace o) (om_UID o) (om_ResourceVersion o)
    (om_DeletionTimestamp o) (om_Labels o) (om_Annotations o) r (om_Finalizers o).
Definition set_Finalizers (f : list string) (o : ObjectMeta) : ObjectMeta :=
  MkObjectMeta (om_Name o) (om_GenerateName o) (om_Namespace o) (om_UID o) (om_ResourceVersion o)
    (om_DeletionTimestamp o) (om_Labels o) (om_Annotations o) (om_OwnerReferences o) f.
Definition set_ResourceVersion (v : string) (o : ObjectMeta) : ObjectMeta :=
  MkObjectMeta (om_Name o) (om_GenerateName o) (om_Namespace o) (om_UID o) v
    (om_DeletionTimestamp o) (om_Labels o) (om_Annotations o) (om_OwnerReferences o) (om_Finalizers o).
Definition with_meta (f : ObjectMeta -> ObjectMeta) (o : Object) : Object :=
  MkObject (o_GVK o) (f (o_Meta o)).

(** ** pkg/errors and apimachinery errors

    [errors.Wrap] and [kerrors.IsNotFound] are library functions. *)
Class ErrorsAPI : Type := {
  Wrap : error -> string -> error;
  IsNotFound : string -> bool
}.

Class ErrorsLaws (E : ErrorsAPI) : Prop := {
  Wrap_nil : forall m, Wrap None m = None;
  Wrap_err : forall e m, Wrap (Some e) m = Some (m +:+ ": " +:+ e)
}.

(** [pkg/meta/errors.go:29-34 Ignore] *)
Definition Ignore (isf : error -> bool) (err : error) : error := if isf err then None else err.

(** [pkg/meta/errors.go:38-40 IgnoreNotFound] *)
Definition IgnoreNotFound `{ErrorsAPI} (err : error) : error :=
  Ignore (fun e => match e with Some m => IsNotFound m | None => false end) err.

(** [pkg/resource/error.go:44-51 IgnoreAny] *)
Fixpoint IgnoreAny (err : error) (isf : list (error -> bool)) : error :=
  match isf with
  | [] => err
  | f :: isf' => if f err then None else IgnoreAny err isf'
  end.

(** ** Labels and annotations *)

(** [pkg/meta/labels.go:21-31 AddLabels] *)
Definition AddLabels (o : ObjectMeta) (labels : gmap string string) : ObjectMeta :=
  match om_Labels o with
  | None => set_Labels (Some labels) o
  | Some l => set_Labels (Some (labels ∪ l)) o
  end.

(** [pkg/meta/labels.go:33-42 RemoveLabels] *)
Definition RemoveLabels (o : ObjectMeta) (labels : list string) : ObjectMeta :=
  match om_Labels o with
  | None => o
  | Some l => set_Labels (Some (foldl (fun m k => delete k m) l labels)) o
  end.

(** [pkg/meta/annotations.go:21-31 AddAnnotations] *)
Definition AddAnnotations (o : ObjectMeta) (annotations : gmap string string) : ObjectMeta :=
  match om_Annotations o with
  | None => set_Annotations (Some annotations) o
  | Some a => set_Annotations (Some (annotations ∪ a)) o
  end.

(** [pkg/meta/annotations.go:33-42 RemoveAnnotations] *)
Definition RemoveAnnotations (o : ObjectMeta) (annotations : list string) : ObjectMeta :=
  match om_Annotations o with
  | None => o
  | Some a => set_Annotations (Some (foldl (fun m k => delete k m) a annotations)) o
  end.

(** [IsZero] of a nil timestamp is true, as is that of the zero time.

    [pkg/meta/meta.go:23-25 WasDeleted] *)
Definition WasDeleted (o : ObjectMeta) : bool :=
  match om_DeletionTimestamp o with Some t => negb (t =? 0) | None => false end.

(** ** Finalizers *)

(** The membership loop of [FinalizerExists] and [AddFinalizer]. *)
Fixpoint finalizer_in (f : list string) (finalizer : string) : bool :=
  match f with
  | [] => false
  | e :: f' => if bool_decide (e = finalizer) then true else finalizer_in f' finalizer
  end.

(** [pkg/meta/finalizer.go:85-93 FinalizerExists] *)
Definition FinalizerExists (o : ObjectMeta) (finalizer : string) : bool :=
  finalizer_in (om_Finalizers o) finalizer.

(** [pkg/meta/finalizer.go:62-70 AddFinalizer] *)
Definition AddFinalizer (o : ObjectMeta) (finalizer : string) : ObjectMeta :=
  if finalizer_in (om_Finalizers o) finalizer then o
  else set_Finalizers (om_Finalizers o ++ [finalizer]) o.

(** The loop of [RemoveFinalizer] ranges over the slice it started with while
    [append(f[:i], f[i+1:]...)] shifts the elements of the shared backing array.
    [arr] is that array, [len] the length of the slice [f]; the element is read
    from the array when the iteration reaches it, and [f[i+1:]] panics when
    [i + 1] exceeds the current length. *)
Fixpoint remove_finalizer_loop (finalizer : string) (idxs : list nat) (arr : list string) (len : nat) :
    result (list string * nat) :=
  match idxs with
  | [] => Ok (arr, len)
  | i :: idxs' =>
      match arr !! i with
      | Some e =>
          if bool_decide (e = finalizer) then
            if (S i <=? len)%nat then
              remove_finalizer_loop finalizer idxs'
                (take i arr ++ take (len - S i) (drop (S i) arr) ++ drop (len - 1) arr) (len - 1)
            else Panic
          else remove_finalizer_loop finalizer idxs' arr len
      | None => Panic
      end
  end.

(** [pkg/meta/finalizer.go:73-81 RemoveFinalizer] *)
Definition RemoveFinalizer (o : ObjectMeta) (finalizer : string) : result ObjectMeta :=
  let f := om_Finalizers o in
  match remove_finalizer_loop finalizer (seq 0 (length f)) f (length f) with
  | Ok (arr, len) => Ok (set_Finalizers (take len arr) o)
  | Err e => Err e
  | Panic => Panic
  end.

(** [pkg/utils/util/util.go:19-26 RemoveString] *)
Fixpoint RemoveString (slice : list string) (s : string) : list string :=
  match slice with
  | [] => []
  | v :: slice' => if bool_decide (v <> s) then v :: RemoveString slice' s else RemoveString slice' s
  end.

(** ** The API server *)

(** The calls of [client.Client] used here, on the state [W] of the API server.
    A successful call refreshes the object. *)
Record Client (W : Type) : Type := MkClient {
  c_Update : Object -> W -> W * result Object
}.
Arguments c_Update {W} c.

Section APIFinalizer.
Context {W : Type} `{ErrorsAPI} (c : Client W) (finalizer : string).

Definition errUpdateObject : string := "cannot update k8s resource".

(** The outcome of an API call: the world, the object and the error. *)
Definition call (r : W * result Object) (obj : Object) : W * Object * result error :=
  match r with
  | (w, Ok o) => (w, o, Ok None)
  | (w, Err e) => (w, obj, Ok (Some e))
  | (w, Panic) => (w, obj, Panic)
  end.

(** [pkg/meta/finalizer.go:45-51 APIFinalizer.AddFinalizer] *)
Definition APIFinalizer_AddFinalizer (obj : Object) (w : W) : W * Object * result error :=
  if FinalizerExists (o_Meta obj) finalizer then (w, obj, Ok None)
  else
    let obj' := with_meta (fun m => AddFinalizer m finalizer) obj in
    let '(w', o, e) := call (c_Update c obj' w) obj' in
    (w', o, (fun e => Wrap e errUpdateObject) <$> e).

(** [pkg/meta/finalizer.go:53-59 APIFinalizer.RemoveFinalizer] *)
Definition APIFinalizer_RemoveFinalizer (obj : Object) (w : W) : W * Object * result error :=
  if negb (FinalizerExists (o_Meta obj) finalizer) then (w, obj, Ok None)
  else
    match RemoveFinalizer (o_Meta obj) finalizer with
    | Ok m =>
        let obj' := MkObject (o_GVK obj) m in
        let '(w', o, e) := call (c_Update c obj' w) obj' in
        (w', o, (fun e => Wrap (IgnoreNotFound e) errUpdateObject) <$> e)
    | Err e => (w, obj, Err e)
    | Panic => (w, obj, Panic)
    end.

Definition errUpdateObject2 : string := "cannot update object".

(** [pkg/resource/api2.go:59-75 APIFinalizer.AddFinalizerString] *)
Definition APIFinalizer_AddFinalizerString (obj : Object) (finalizerString : string) (w : W) :
    W * Object * result error :=
  let f := om_Finalizers (o_Meta obj) in
  if finalizer_in f finalizerString then (w, obj, Ok None)
  else
    let obj' := with_meta (set_Finalizers (f ++ [finalizerString])) obj in
    let '(w', o, e) := call (c_Update c obj' w) obj' in
    (w', o, (fun e => Wrap e errUpdateObject2) <$> e).

(** The update is sent whether or not a finalizer was removed.

    [pkg/resource/api2.go:78-89 APIFinalizer.RemoveFinalizerString] *)
Definition APIFinalizer_RemoveFinalizerString (obj : Object) (finalizerString : string) (w : W) :
    W * Object * result error :=
  let f := om_Finalizers (o_Meta obj) in
  let step '(f, o) ff :=
    if bool_decide (ff = finalizerString) then
      let f' := RemoveString f ff in (f', with_meta (set_Finalizers f') o)
    else (f, o) in
  let '(_, obj') := foldl step (f, obj) f in
  let '(w', o, e) := call (c_Update c obj' w) obj' in
  (w', o, (fun e => Wrap (IgnoreNotFound e) errUpdateObject2) <$> e).

(** [pkg/resource/api2.go:91-98 APIFinalizer.HasOtherFinalizer] *)
Definition APIFinalizer_HasOtherFinalizer (obj : Object) : bool :=
  existsb (fun f => bool_decide (f <> finalizer)) (om_Finalizers (o_Meta obj)).

End APIFinalizer.

(** ** Owner references *)

(** [pkg/meta/controller_ref.go:37-44 AsOwner] *)
Definition AsOwner (r : ObjectReference) : OwnerReference :=
  MkOwnerReference (ref_APIVersion r) (ref_Kind r) (ref_Name r) (ref_UID r) None None.

(** [pkg/meta/controller_ref.go:48-53 AsController] *)
Definition AsController (r : ObjectReference) : OwnerReference :=
  let ref := AsOwner r in
  MkOwnerReference (or_APIVersion ref) (or_Kind ref) (or_Name ref) (or_UID ref) (Some true)
    (or_BlockOwnerDeletion ref).

Fixpoint replace_owner (refs : list OwnerReference) (r : OwnerReference) : option (list OwnerReference) :=
  match refs with
  | [] => None
  | r0 :: refs' =>
      if bool_decide (or_UID r0 = or_UID r) then Some (r :: refs')
      else cons r0 <$> replace_owner refs' r
  end.

(** [pkg/meta/controller_ref.go:72-82 AddOwnerReference] *)
Definition AddOwnerReference (o : ObjectMeta) (r : OwnerReference) : ObjectMeta :=
  match replace_owner (om_OwnerReferences o) r with
  | Some refs => set_OwnerReferences refs o
  | None => set_OwnerReferences (om_OwnerReferences o ++ [r]) o
  end.

(** [GetControllerOf] is [metav1.GetControllerOf].

    [pkg/meta/controller_ref.go:57-68 HaveSameController] *)
Definition HaveSameController (GetControllerOf : ObjectMeta -> option OwnerReference)
    (a b : ObjectMeta) : bool :=
  match GetControllerOf a, GetControllerOf b with
  | Some ac, Some bc => bool_decide (or_UID ac = or_UID bc)
  | _, _ => false
  end.

(** [pkg/meta/controller_ref.go:87-94 AddControllerReference] *)
Definition AddControllerReference (GetControllerOf : ObjectMeta -> option OwnerReference)
    (o : ObjectMeta) (r : OwnerReference) : result ObjectMeta :=
  match GetControllerOf o with
  | Some c =>
      if bool_decide (or_UID c <> or_UID r) then
        Err (om_Name o +:+ " is already controlled by " +:+ or_Kind c +:+ " " +:+ or_Name c +:+
             " (UID " +:+ or_UID c +:+ ")")
      else Ok (AddOwnerReference o r)
  | None => Ok (AddOwnerReference o r)
  end.

(** [pkg/meta/owner.go:25-31 OwnerRef] *)
Record OwnerRef : Type := MkOwnerRef {
  ow_APIVersion : string; ow_Kind : string; ow_Namespace : string; ow_Name : string; ow_UID : string
}.

Definition dot_if (s : string) : string := if bool_decide (s <> "") then "." +:+ s else "".

(** [pkg/meta/owner.go:33-54 OwnerRef.String] *)
Definition OwnerRef_String (r : OwnerRef) : string :=
  replace_all "/"%char "_"
    ("ref" +:+ dot_if (ow_APIVersion r) +:+ dot_if (ow_Kind r) +:+ dot_if (ow_Namespace r) +:+
     dot_if (ow_Name r)).

(** ** GVK strings *)

Definition emptyKind : string := "empty kind in gvk".

(** [pkg/meta/gvk.go:32-46 GVKToString] *)
Definition GVKToString (gvk : GroupVersionKind) : string :=
  if bool_decide (Kind gvk = "") then emptyKind
  else Kind gvk +:+ dot_if (Version gvk) +:+ dot_if (Group gvk).

(** [pkg/meta/gvk.go:48-61 ResourcePbGVKTostring] *)
Definition ResourcePbGVKTostring (gvk : PbGVK) : string :=
  if bool_decide (pb_Kind gvk = "") then emptyKind
  else pb_Kind gvk +:+ dot_if (pb_Version gvk) +:+ dot_if (pb_Group gvk).

(** The text before the first separator, and the text after it if there is one. *)
Fixpoint cut (sep : ascii) (s : string) : string * option string :=
  match s with
  | EmptyString => (EmptyString, None)
  | String c s' =>
      if bool_decide (c = sep) then (EmptyString, Some s')
      else let '(w, r) := cut sep s' in (String c w, r)
  end.

(** [strings.SplitN(s, sep, n)] for a one-byte separator. *)
Fixpoint splitN (sep : ascii) (n : nat) (s : string) : list string :=
  match n with
  | O => []
  | S O => [s]
  | S n' => match cut sep s with (w, None) => [w] | (w, Some r) => w :: splitN sep n' r end
  end.

(** [strings.Count(s, sep)] for a one-byte separator. *)
Fixpoint count (sep : Ascii.ascii) (s : string) : Z :=
  match s with
  | EmptyString => 0
  | String c s' => (if bool_decide (c = sep) then 1 else 0) + count sep s'
  end.

(** [pkg/meta/gvk.go:63-69 StringToGroupVersionKind] *)
Definition StringToGroupVersionKind (s : string) : string * string * string :=
  if bool_decide (2 <= count "."%char s) then
    match splitN "."%char 3 s with
    | [s0; s1; s2] => (s2, s1, s0)
    | _ => ("", "", "")
    end
  else ("", "", "").

(** [pkg/meta/gvk.go:71-78 StringToGVK] *)
Definition StringToGVK (s : string) : GroupVersionKind :=
  let '(group, version, kind) := StringToGroupVersionKind s in GVK group version kind.

(** [pkg/meta/gvk.go:80-87 StringToResourcePbGVK] *)
Definition StringToResourcePbGVK (s : string) : PbGVK :=
  let '(group, version, kind) := StringToGroupVersionKind s in ResourcePbGVK group version kind.

Definition join (sep : string) (l : list string) : string := String.concat sep l.

(** [pkg/meta/gvk.go:89-95 apiVersionToGroupVersion] *)
Definition apiVersionToGroupVersion (apiVersion : string) : string * string :=
  match split_on "/"%char apiVersion with
  | s0 :: (_ :: _) as rest => (s0, join "/" (tail rest))
  | _ => ("", apiVersion)
  end.

(** [pkg/meta/gvk.go:97-102 GetGVKFromAPIVersionKind] *)
Definition GetGVKFromAPIVersionKind (apiVersion kind : string) : GroupVersionKind :=
  let '(g, v) := apiVersionToGroupVersion apiVersion in GVK g v kind.

(** [pkg/meta/gvk.go:104-110 GetGVKFromObject] *)
Definition GetGVKFromObject (o : Object) : GroupVersionKind :=
  GVK (Group (o_GVK o)) (Version (o_GVK o)) (Kind (o_GVK o)).

(** [pkg/meta/gvk.go:112-118 GetResourcePbGVKFromSchemaGVK] *)
Definition GetResourcePbGVKFromSchemaGVK (g : GroupVersionKind) : PbGVK :=
  ResourcePbGVK (Group g) (Version g) (Kind g).

(** [pkg/meta/gvk.go:120-126 GetSchemaGVKFromResourcePbGVK] *)
Definition GetSchemaGVKFromResourcePbGVK (g : PbGVK) : GroupVersionKind :=
  GVK (pb_Group g) (pb_Version g) (pb_Kind g).

(** [pkg/meta/namespace_name.go:14-26 StringToResourcePbNsn] *)
Definition StringToResourcePbNsn (s : string) : PbNSN :=
  match split_on "/"%char s with
  | ns :: n :: _ => ResourcePbNSN ns n
  | _ => ResourcePbNSN "default" s
  end.

(** [pkg/meta/namespace_name.go:10-12 ResourcePbNsnToString] *)
Definition ResourcePbNsnToString (nsn : PbNSN) : string := pb_Namespace nsn +:+ "/" +:+ pb_Name nsn.

(** [pkg/meta/namespace_name.go:28-33 GetResourcePbGVKFromTypeNSN] *)
Definition GetResourcePbGVKFromTypeNSN (nsn : NamespacedName) : PbNSN :=
  ResourcePbNSN (nsn_Namespace nsn) (nsn_Name nsn).

(** [pkg/meta/namespace_name.go:35-40 GetTypeNSNFromResourcePbNSN] *)
Definition GetTypeNSNFromResourcePbNSN (nsn : PbNSN) : NamespacedName :=
  NSN (pb_Namespace nsn) (pb_Name nsn).

(** ** Finalizers: properties *)

Lemma finalizer_in_spec f fin : finalizer_in f fin = true <-> fin ∈ f.
Proof.
  induction f as [|e f IH]; cbn; [split; [done|by intros ?%not_elem_of_nil]|].
  rewrite elem_of_cons, <-IH. case_bool_decide; split; auto; intros [?|?]; congruence.
Qed.

Lemma remove_loop_skip fin idxs arr len :
  (forall i, i ∈ idxs -> exists e, arr !! i = Some e /\ e <> fin) ->
  remove_finalizer_loop fin idxs arr len = Ok (arr, len).
Proof.
  revert arr len. induction idxs as [|i idxs IH]; intros arr len Hskip; [done|]. cbn.
  destruct (Hskip i) as (e & -> & Hne); [by left|]. rewrite bool_decide_false by done.
  apply IH. intros j Hj. apply Hskip. by right.
Qed.

Lemma remove_loop_app fin idxs idxs' arr len arr' len' :
  remove_finalizer_loop fin idxs arr len = Ok (arr', len') ->
  remove_finalizer_loop fin (idxs ++ idxs') arr len = remove_finalizer_loop fin idxs' arr' len'.
Proof.
  revert arr len. induction idxs as [|i idxs IH]; intros arr len; cbn -[Nat.leb]; [by intros [= -> ->]|].
  destruct (arr !! i); [|by intros [=]]. case_bool_decide; [|by apply IH].
  destruct (S i <=? len)%nat; [|by intros [=]]. apply IH.
Qed.

Lemma remove_loop_once fin a b :
  fin ∉ a -> fin ∉ b ->
  let f := a ++ fin :: b in
  exists arr, remove_finalizer_loop fin (seq 0 (length f)) f (length f) = Ok (arr, length (a ++ b)) /\
    take (length (a ++ b)) arr = a ++ b.
Proof.
  intros Ha Hb f. set (arr := a ++ b ++ drop (length f - 1) f).
  exists arr. assert (length f = length a + S (length b))%nat as Hlen
    by (subst f; rewrite length_app; done).
  split; [|subst arr; rewrite app_assoc; by rewrite take_app_length].
  rewrite Hlen at 1. rewrite seq_app. erewrite remove_loop_app; cycle 1.
  { apply remove_loop_skip. intros i Hi%elem_of_seq.
    destruct (lookup_lt_is_Some_2 a i) as [e He]; [lia|]. exists e. split.
    - subst f. by apply lookup_app_l_Some.
    - intros ->. by apply Ha, list_elem_of_lookup_2 with i. }
  cbn [seq remove_finalizer_loop Nat.add]. subst f. rewrite list_lookup_middle by done.
  rewrite bool_decide_true by done. rewrite Hlen.
  destruct (Nat.leb_spec (S (length a)) (length a + S (length b))); [|lia].
  rewrite take_app_length, <-Hlen.
  replace (drop (S (length a)) (a ++ fin :: b)) with b
    by (by rewrite (cons_middle fin), app_assoc, <-(drop_app_length (a ++ [fin]) b) at 1;
        rewrite length_app; cbn; rewrite Nat.add_1_r).
  rewrite (take_ge b) by lia. fold arr. rewrite remove_loop_skip.
  - repeat f_equal. rewrite Hlen, length_app. lia.
  - intros i Hi%elem_of_seq. destruct (lookup_lt_is_Some_2 arr i) as [e He].
    { subst arr. rewrite !length_app, length_drop, length_app. cbn [length]. lia. }
    exists e. split; [done|]. intros ->. subst arr.
    rewrite lookup_app_r, lookup_app in He by lia.
    destruct (b !! (i - length a)%nat) eqn:Eb.
    + injection He as ->. by apply Hb, list_elem_of_lookup_2 with (i - length a)%nat.
    + apply lookup_ge_None in Eb. apply list_elem_of_lookup_2 in He.
      rewrite Hlen, drop_app in He. rewrite (drop_ge a) in He by lia. cbn in He.
      destruct b as [|b0 b]; [cbn in *; lia|].
      replace (length a + S (length (b0 :: b)) - 1 - length a)%nat
        with (S (length b)) in He by (cbn; lia). cbn in He.
      apply Hb. rewrite <-(take_drop (length b) (b0 :: b)). apply elem_of_app. by right.
Qed.

Lemma RemoveFinalizer_once o fin a b :
  om_Finalizers o = a ++ fin :: b -> fin ∉ a -> fin ∉ b ->
  RemoveFinalizer o fin = Ok (set_Finalizers (a ++ b) o).
Proof.
  intros Hf Ha Hb. unfold RemoveFinalizer. rewrite Hf.
  destruct (remove_loop_once fin a b Ha Hb) as (arr & -> & ->). done.
Qed.

Lemma set_Finalizers_id o : set_Finalizers (om_Finalizers o) o = o.
Proof. by destruct o. Qed.

(** On a finalizer list without duplicates, [RemoveFinalizer] does not panic
    and removes exactly the given finalizer, keeping the order of the others. *)
Theorem RemoveFinalizer_unique (o : ObjectMeta) (fin : string) :
  NoDup (om_Finalizers o) ->
  RemoveFinalizer o fin = Ok (set_Finalizers (filter (fun e => e <> fin) (om_Finalizers o)) o).
Proof.
  intros Hnd. destruct (decide (fin ∈ om_Finalizers o)) as [Hin|Hout].
  - apply list_elem_of_split in Hin as (a & b & Hf). rewrite Hf in Hnd |- *.
    apply NoDup_app in Hnd as (_ & Hdis & [Hb _]%NoDup_cons).
    assert (fin ∉ a) as Ha by (intros Ha; apply (Hdis _ Ha); by left).
    rewrite (RemoveFinalizer_once o fin a b) by done. repeat f_equal.
    rewrite filter_app, filter_cons_False by (intros ?; done).
    by rewrite !filter_all by (intros ? ? ->; done).
  - unfold RemoveFinalizer. rewrite remove_loop_skip.
    + rewrite take_ge by done. repeat f_equal.
      rewrite filter_all; [done|]. by intros ? ? ->.
    + intros i Hi%elem_of_seq. destruct (lookup_lt_is_Some_2 (om_Finalizers o) i) as [e He]; [lia|].
      exists e. split; [done|]. intros ->. by apply Hout, list_elem_of_lookup_2 with i.
Qed.

Definition meta_with (f : list string) : ObjectMeta :=
  MkObjectMeta "a" "" "ns" "" "" None None None [] f.

Lemma RemoveFinalizer_unique_witness :
  RemoveFinalizer (meta_with ["x"; "y"; "z"]) "y" = Ok (meta_with ["x"; "z"]).
Proof.
  refine (RemoveFinalizer_unique (meta_with ["x"; "y"; "z"]) "y" _).
  apply (bool_decide_unpack _). vm_compute. exact I.
Defined.

(** A duplicated finalizer makes [RemoveFinalizer] panic or leaves one of the
    copies in place, depending on the positions. *)
Theorem RemoveFinalizer_duplicates :
  RemoveFinalizer (meta_with ["x"; "x"]) "x" = Panic /\
  RemoveFinalizer (meta_with ["x"; "x"; "y"]) "x" = Ok (meta_with ["x"; "y"]).
Proof. split; vm_compute; reflexivity. Qed.

Lemma AddFinalizer_nodup o fin :
  NoDup (om_Finalizers o) -> NoDup (om_Finalizers (AddFinalizer o fin)).
Proof.
  intros Hnd. unfold AddFinalizer. destruct (finalizer_in (om_Finalizers o) fin) eqn:E; [done|].
  cbn. apply NoDup_app. split; [done|]. split; [|apply NoDup_singleton].
  intros x Hx ->%list_elem_of_singleton. apply finalizer_in_spec in Hx. congruence.
Qed.

Lemma AddFinalizer_exists o fin : FinalizerExists (AddFinalizer o fin) fin = true.
Proof.
  unfold FinalizerExists, AddFinalizer. destruct (finalizer_in (om_Finalizers o) fin) eqn:E; [done|].
  cbn. apply finalizer_in_spec, elem_of_app. right. by apply list_elem_of_singleton.
Qed.

(** Adding a finalizer that is absent and removing it again gives the object
    back, whatever its other finalizers are. *)
Theorem Add_RemoveFinalizer (o : ObjectMeta) (fin : string) :
  FinalizerExists o fin = false ->
  FinalizerExists (AddFinalizer o fin) fin = true /\ RemoveFinalizer (AddFinalizer o fin) fin = Ok o.
Proof.
  intros Hno. split; [apply AddFinalizer_exists|]. unfold FinalizerExists in Hno.
  assert (fin ∉ om_Finalizers o) as Hout by (intros ?%finalizer_in_spec; congruence).
  unfold AddFinalizer. rewrite Hno.
  rewrite (RemoveFinalizer_once _ fin (om_Finalizers o) []); [|done|done|by apply not_elem_of_nil].
  rewrite app_nil_r. destruct o. done.
Qed.

Lemma Add_RemoveFinalizer_witness :
  RemoveFinalizer (AddFinalizer (meta_with ["x"]) "y") "y" = Ok (meta_with ["x"]).
Proof. apply (Add_RemoveFinalizer (meta_with ["x"]) "y"). reflexivity. Defined.

(** ** GVK strings: properties *)

Definition no_char (sep : ascii) (s : string) : Prop := count sep s = 0.

Lemma count_app sep s1 s2 : count sep (s1 +:+ s2) = count sep s1 + count sep s2.
Proof. induction s1 as [|c s1 IH]; [done|].
  change (String c s1 +:+ s2) with (String c (s1 +:+ s2)). cbn [count]. lia.
Qed.

Lemma count_sep sep s : count sep (String sep s) = 1 + count sep s.
Proof. cbn [count]. by rewrite bool_decide_true. Qed.

Lemma count_nonneg sep s : 0 <= count sep s.
Proof. induction s as [|c s IH]; cbn; [lia|]. case_bool_decide; lia. Qed.

Lemma cut_app sep s1 s2 : no_char sep s1 -> cut sep (s1 +:+ String sep s2) = (s1, Some s2).
Proof.
  unfold no_char. induction s1 as [|c s1 IH]; intros Hn.
  - change ("" +:+ String sep s2) with (String sep s2). cbn [cut]. by rewrite bool_decide_true by done.
  - cbn [count] in Hn. pose proof (count_nonneg sep s1).
    change (String c s1 +:+ String sep s2) with (String c (s1 +:+ String sep s2)). cbn [cut].
    case_bool_decide; [lia|]. by rewrite IH by lia.
Qed.

Lemma splitN_cons sep n s1 s2 :
  no_char sep s1 -> splitN sep (S (S n)) (s1 +:+ String sep s2) = s1 :: splitN sep (S n) s2.
Proof. intros. cbn [splitN]. by rewrite cut_app. Qed.

(** Round trip of the GVK label: parsing the printed form of a GVK gives it
    back when the kind and the version are non-empty and free of dots and the
    group is non-empty (the group may contain dots). *)
Theorem StringToGVK_GVKToString (g : GroupVersionKind) :
  Kind g <> "" -> no_char "."%char (Kind g) ->
  Version g <> "" -> no_char "."%char (Version g) -> Group g <> "" ->
  StringToGVK (GVKToString g) = g.
Proof.
  destruct g as [grp ver knd]. cbn. intros Hk Hkd Hv Hvd Hg.
  unfold GVKToString, dot_if. cbn. rewrite bool_decide_false by done.
  rewrite !bool_decide_true by done. unfold StringToGVK, StringToGroupVersionKind.
  change ("." +:+ ver) with (String "."%char ver). change ("." +:+ grp) with (String "."%char grp).
  change (String "."%char ver +:+ String "."%char grp)
    with (String "."%char (ver +:+ String "."%char grp)).
  rewrite bool_decide_true; cycle 1.
  { rewrite count_app, count_sep, count_app, count_sep.
    pose proof (count_nonneg "."%char grp). pose proof (count_nonneg "."%char ver).
    pose proof (count_nonneg "."%char knd). lia. }
  by rewrite !splitN_cons by done.
Qed.

Lemma StringToGVK_GVKToString_witness :
  StringToGVK (GVKToString (GVK "ipam.resource.nephio.org" "v1alpha1" "IPClaim"))
  = GVK "ipam.resource.nephio.org" "v1alpha1" "IPClaim".
Proof. apply StringToGVK_GVKToString; vm_compute; congruence. Defined.

(** The two parsers agree. *)
Lemma StringToResourcePbGVK_schema s : GetSchemaGVKFromResourcePbGVK (StringToResourcePbGVK s) = StringToGVK s.
Proof. unfold StringToResourcePbGVK, StringToGVK. by destruct (StringToGroupVersionKind s) as [[? ?] ?]. Qed.

(** The two printers agree. *)
Lemma ResourcePbGVKTostring_schema g : ResourcePbGVKTostring g = GVKToString (GetSchemaGVKFromResourcePbGVK g).
Proof. done. Qed.

(** A GVK of the core group has no group: its string is not parsed back. *)
Example StringToGVK_core_group : StringToGVK (GVKToString (GVK "" "v1" "ConfigMap")) = GVK "" "" "".
Proof. reflexivity. Qed.

(** ** Owner references: properties *)

Lemma replace_owner_uids refs r refs' :
  replace_owner refs r = Some refs' -> or_UID <$> refs' = or_UID <$> refs.
Proof.
  revert refs'. induction refs as [|r0 refs IH]; intros refs'; cbn; [done|].
  case_bool_decide as Hu.
  - intros [= <-]. cbn. by rewrite Hu.
  - destruct (replace_owner refs r); cbn; [|done]. intros [= <-]. cbn. by rewrite IH.
Qed.

Lemma replace_owner_none refs r : replace_owner refs r = None -> or_UID r ∉ or_UID <$> refs.
Proof.
  induction refs as [|r0 refs IH]; cbn; [intros _; by apply not_elem_of_nil|].
  case_bool_decide; [done|]. destruct (replace_owner refs r); [done|].
  intros _. rewrite not_elem_of_cons. auto.
Qed.

(** An object never gets two owner references with the same UID. *)
Lemma AddOwnerReference_nodup o r :
  NoDup (or_UID <$> om_OwnerReferences o) ->
  NoDup (or_UID <$> om_OwnerReferences (AddOwnerReference o r)).
Proof.
  intros Hnd. unfold AddOwnerReference. destruct (replace_owner _ r) as [refs|] eqn:E; cbn.
  - by rewrite (replace_owner_uids _ _ _ E).
  - rewrite fmap_app. apply NoDup_app. split; [done|]. split; [|apply NoDup_singleton].
    intros x Hx ->%list_elem_of_singleton. by apply (replace_owner_none _ _ E).
Qed.
