(* ===== verification/Applicator.v ===== *)
(** * pkg/meta/client.go and pkg/resource: applicators

    An applicator creates an object that the API server does not have and changes the one
    it has: the updating applicator writes the whole object at the version of the server,
    the patching applicator sends it as a merge patch. The object is the caller's, and the
    calls write what the server returns into it; a failed call leaves it as it was. *)

From S2P Require Import Prelude Meta.

(** The calls of [client.Client] on objects of type [T]. *)
Record ApplyClient (W T : Type) : Type := MkApplyClient {
  ac_Get : NamespacedName -> W -> result T;
  ac_Create : T -> W -> W * result T;
  ac_Update : T -> W -> W * result T;
  ac_Patch : T -> T -> W -> W * result T
}.
Arguments ac_Get {W T} a.
Arguments ac_Create {W T} a.
Arguments ac_Update {W T} a.
Arguments ac_Patch {W T} a.

Section Applicator.
Context {W T : Type} `{E : ErrorsAPI} (c : ApplyClient W T).
Context (meta : T -> ObjectMeta) (set_version : string -> T -> T).

(** An option gets the current and the desired object and may change both.

    [pkg/resource/applicator.go:44-46 ApplyOption] *)
Definition ApplyOption : Type := T -> T -> (T * T) * error.

(** [pkg/resource/applicator.go:48-57 UpdateFn] *)
Definition UpdateFn (fn : T -> T -> T * T) : ApplyOption := fun current desired => (fn current desired, None).

(** The loop over the options: the first error ends it. *)
Fixpoint run_options (ao : list ApplyOption) (current desired : T) : (T * T) * error :=
  match ao with
  | [] => ((current, desired), None)
  | fn :: ao =>
      match fn current desired with
      | (cd, Some e) => (cd, Some e)
      | ((current, desired), None) => run_options ao current desired
      end
  end.

(** A call with the object [o], whose answer is written to the caller's object. *)
Definition obj_call (f : W -> W * result T) (o : T) (msg : string) : M (W * T) unit := fun s =>
  match f s.1 with
  | (w, Ok o) => ((w, o), Ok tt)
  | (w, Err e) => ((w, o), match Wrap (Some e) msg with Some e => Err e | None => Ok tt end)
  | (w, Panic) => ((w, o), Panic)
  end.

Definition key (o : T) : NamespacedName := NSN (om_Namespace (meta o)) (om_Name (meta o)).
Definition generated (o : T) : bool := bool_decide (om_Name (meta o) = "" /\ om_GenerateName (meta o) <> "").

(** [pkg/meta/client.go:48-79 APIUpdatingApplicator.Apply] *)
Definition updating_Apply (ao : list ApplyOption) : M (W * T) unit := fun '(w, o) =>
  if generated o then obj_call (ac_Create c o) o "cannot create object" (w, o)
  else match ac_Get c (key o) w with
  | Panic => ((w, o), Panic)
  | Err e =>
      if IsNotFound e then obj_call (ac_Create c o) o "cannot create object" (w, o)
      else ((w, o), match Wrap (Some e) "cannot get object" with Some e => Err e | None => Ok tt end)
  | Ok current =>
      match run_options ao current o with
      | ((_, o), Some e) => ((w, o), Err e)
      | ((current, o), None) =>
          let o := set_version (om_ResourceVersion (meta current)) o in
          obj_call (ac_Update c o) o "cannot update object" (w, o)
      end
  end.

(** The object is read into, so that the caller has the current object from then on; the
    patch is what was desired.

    [pkg/resource/api.go:44-78 APIPatchingApplicator.Apply] *)
Definition patching_Apply (ao : list ApplyOption) : M (W * T) unit := fun '(w, o) =>
  if generated o then obj_call (ac_Create c o) o "cannot create object" (w, o)
  else match ac_Get c (key o) w with
  | Panic => ((w, o), Panic)
  | Err e =>
      if IsNotFound e then obj_call (ac_Create c o) o "cannot create object" (w, o)
      else ((w, o), match Wrap (Some e) "cannot get object" with Some e => Err e | None => Ok tt end)
  | Ok current =>
      match run_options ao current o with
      | ((current, _), Some e) => ((w, current), Err e)
      | ((current, desired), None) => obj_call (ac_Patch c current desired) current "cannot patch object" (w, current)
      end
  end.

(** ** What the API server does

    [view] are the stored objects. A patch that names no version merges the desired object into the stored one;
    a second merge of the same object changes nothing, and neither does the merge of an
    object into what was created from it. *)
Class ApplyLaws (view : W -> gmap NamespacedName T) (created : T -> T) (merge : T -> T -> T) : Prop := {
  al_Get : forall k w, match view w !! k with
    | Some t => ac_Get c k w = Ok t
    | None => exists e, ac_Get c k w = Err e /\ IsNotFound e = true
    end;
  al_Create : forall o w, view w !! key o = None -> om_Name (meta o) <> "" ->
    exists w', ac_Create c o w = (w', Ok (created o)) /\ view w' = <[key o := created o]> (view w);
  al_Patch : forall current o w t, view w !! key o = Some t -> om_ResourceVersion (meta o) = "" ->
    exists w', ac_Patch c current o w = (w', Ok (merge t o)) /\ view w' = <[key o := merge t o]> (view w);
  al_Update : forall o w t, view w !! key o = Some t -> om_ResourceVersion (meta o) = om_ResourceVersion (meta t) ->
    exists w' o', ac_Update c o w = (w', Ok o') /\ view w' = <[key o := o']> (view w);
  al_merge_twice : forall t o, merge (merge t o) o = merge t o;
  al_merge_created : forall o, merge (created o) o = created o;
  al_version : forall v o, meta (set_version v o) = set_ResourceVersion v (meta o)
}.

Context (view : W -> gmap NamespacedName T) (created : T -> T) (merge : T -> T -> T).
Context `{!ApplyLaws view created merge}.

Lemma named_not_generated o : om_Name (meta o) <> "" -> generated o = false.
Proof. intros Hn. apply bool_decide_eq_false. by intros []. Qed.

(** What a named object becomes on the server. *)
Definition applied (w : W) (o : T) : T := match view w !! key o with Some t => merge t o | None => created o end.

Lemma patching_Apply_ok w o : om_Name (meta o) <> "" -> om_ResourceVersion (meta o) = "" ->
  exists w', patching_Apply [] (w, o) = ((w', applied w o), Ok tt) /\ view w' = <[key o := applied w o]> (view w).
Proof.
  intros Hn Hrv. unfold patching_Apply, applied. rewrite named_not_generated by done. pose proof (al_Get (key o) w) as Hg.
  destruct (view w !! key o) as [t|] eqn:Hv.
  - rewrite Hg. cbn [run_options]. destruct (al_Patch t o w t Hv Hrv) as (w' & Hp & Hw'). exists w'. unfold obj_call. cbn [fst]. by rewrite Hp.
  - destruct Hg as (e & -> & ->). destruct (al_Create o w Hv Hn) as (w' & Hc & Hw'). exists w'. unfold obj_call. cbn [fst]. by rewrite Hc.
Qed.

(** The patching applicator without options, on an object with a name and without
    a version: it succeeds, the server has the object merged into the one it had, or the created object when it had
    none, and nothing else changes; the caller has what the server has; and applying the
    same object again changes nothing. *)
Theorem patching_Apply_converges w o : om_Name (meta o) <> "" -> om_ResourceVersion (meta o) = "" ->
  exists w' w'', patching_Apply [] (w, o) = ((w', applied w o), Ok tt) /\ view w' = <[key o := applied w o]> (view w) /\
    patching_Apply [] (w', o) = ((w'', applied w o), Ok tt) /\ view w'' = view w'.
Proof.
  intros Hn Hrv. destruct (patching_Apply_ok w o Hn Hrv) as (w' & Hr & Hw'). destruct (patching_Apply_ok w' o Hn Hrv) as (w'' & Hr' & Hw'').
  exists w', w''. assert (Ha : applied w' o = applied w o).
  { unfold applied at 1. rewrite Hw', lookup_insert_eq. unfold applied. destruct (view w !! key o); [apply al_merge_twice|apply al_merge_created]. }
  rewrite Ha in Hr', Hw''. split; [done|]. split; [done|]. split; [done|].
  rewrite Hw''. apply insert_id. by rewrite Hw', lookup_insert_eq.
Qed.

(** The updating applicator never conflicts with the version it has just read. *)
Lemma updating_Apply_no_conflict w o : om_Name (meta o) <> "" ->
  exists w' o', updating_Apply [] (w, o) = ((w', o'), Ok tt) /\ view w' = <[key o := o']> (view w).
Proof.
  intros Hn. unfold updating_Apply. rewrite named_not_generated by done. pose proof (al_Get (key o) w) as Hg.
  destruct (view w !! key o) as [t|] eqn:Hv.
  - rewrite Hg. cbn [run_options]. set (o1 := set_version (om_ResourceVersion (meta t)) o).
    assert (Hk : key o1 = key o) by (unfold key, o1; by rewrite al_version).
    destruct (al_Update o1 w t) as (w' & o' & Hu & Hw'); [by rewrite Hk|unfold o1; by rewrite al_version|].
    exists w', o'. unfold obj_call. cbn [fst]. rewrite Hu, <-Hk. done.
  - destruct Hg as (e & -> & ->). destruct (al_Create o w Hv Hn) as (w' & Hc & Hw'). exists w', (created o).
    unfold obj_call. cbn [fst]. by rewrite Hc.
Qed.

(** An option that fails keeps the server as it is. *)
Lemma patching_Apply_option_fails w o ao e cd : om_Name (meta o) <> "" -> forall t, view w !! key o = Some t ->
  run_options ao t o = (cd, Some e) -> patching_Apply ao (w, o) = ((w, cd.1), Err e).
Proof.
  intros Hn t Hv Hr. unfold patching_Apply. rewrite named_not_generated by done. pose proof (al_Get (key o) w) as Hg. rewrite Hv in Hg.
  rewrite Hg, Hr. by destruct cd.
Qed.

End Applicator.

(** ** Objects that are only metadata *)

#[local] Instance plain_errors : ErrorsAPI := {
  Wrap e m := match e with Some e => Some (m +:+ ": " +:+ e) | None => None end;
  IsNotFound e := bool_decide (e = "not found")
}.

Definition meta_key (o : ObjectMeta) : NamespacedName := NSN (om_Namespace o) (om_Name o).
Definition store (o : ObjectMeta) (w : gmap NamespacedName ObjectMeta) : gmap NamespacedName ObjectMeta * result ObjectMeta :=
  (<[meta_key o := o]> w, Ok o).
Definition merge_meta (t o : ObjectMeta) : ObjectMeta := set_ResourceVersion (om_ResourceVersion t) o.
Definition meta_client : ApplyClient (gmap NamespacedName ObjectMeta) ObjectMeta := MkApplyClient _ _
  (fun k w => match w !! k with Some o => Ok o | None => Err "not found" end)
  (fun o w => store (set_ResourceVersion "1" o) w)
  (fun o w => match w !! meta_key o with
              | Some t => if bool_decide (om_ResourceVersion o = om_ResourceVersion t) then store o w else (w, Err "conflict")
              | None => (w, Err "not found")
              end)
  (fun _ o w => match w !! meta_key o with Some t => store (merge_meta t o) w | None => (w, Err "not found") end).

#[local] Instance meta_laws : ApplyLaws meta_client id set_ResourceVersion id (set_ResourceVersion "1") merge_meta.
Proof.
  split.
  - intros k w. cbn. destruct (w !! k); [done|]. by eexists.
  - intros o w _ _. by eexists.
  - intros current o w t Hv _. eexists. cbn. unfold key, id, meta_key in *. rewrite Hv. split; reflexivity.
  - intros o w t Hv Hrv. eexists _, _. cbn. unfold key, id, meta_key in *. rewrite Hv, bool_decide_true by done. split; reflexivity.
  - intros t []. done.
  - intros []. done.
  - done.
Qed.

(** An object that is not there is created, and applied again. *)
Lemma patching_Apply_converges_witness : let o := MkObjectMeta "a" "" "ns" "" "" None None None [] [] in
  exists w', patching_Apply meta_client id [] (∅, o) = ((w', set_ResourceVersion "1" o), Ok tt).
Proof.
  intros o. destruct (patching_Apply_converges meta_client id set_ResourceVersion id (set_ResourceVersion "1") merge_meta ∅ o) as (w' & w'' & H & _).
  - discriminate.
  - reflexivity.
  - exists w'. exact H.
Defined.
