(* ===== verification/Labels.v ===== *)
(** * apis/resource/common: label keys, claim labels and selectors

    A claim carries user defined labels and a label selector. The backends
    store entries with labels and find the entries of a claim with the owner
    selector built from five system labels. The selector type itself belongs to
    k8s.io/apimachinery and is the interface [LabelsAPI]. *)

From S2P Require Import Prelude Meta.

Local Open Scope Z_scope.

Abbreviation labels := (gmap string string).

(** ** Label keys *)

(** [apis/resource/common/v1alpha1/LabelKeys.go:21-21 NephioApp] *)
Definition NephioApp : string := "nephio.org/app".
(** [apis/resource/common/v1alpha1/LabelKeys.go:23-23 NephioAPIAction] *)
Definition NephioAPIAction : string := "nephio.org/action".
(** [apis/resource/common/v1alpha1/LabelKeys.go:25-25 NephioOwnerGvkKey] *)
Definition NephioOwnerGvkKey : string := "nephio.org/owner-gvk".
(** [apis/resource/common/v1alpha1/LabelKeys.go:26-26 NephioOwnerNsnNameKey] *)
Definition NephioOwnerNsnNameKey : string := "nephio.org/owner-nsn-name".
(** [apis/resource/common/v1alpha1/LabelKeys.go:27-27 NephioOwnerNsnNamespaceKey] *)
Definition NephioOwnerNsnNamespaceKey : string := "nephio.org/owner-nsn-namespace".
(** [apis/resource/common/v1alpha1/LabelKeys.go:28-28 NephioGvkKey] *)
Definition NephioGvkKey : string := "nephio.org/gvk".
(** [apis/resource/common/v1alpha1/LabelKeys.go:29-29 NephioNsnNameKey] *)
Definition NephioNsnNameKey : string := "nephio.org/nsn-name".
(** [apis/resource/common/v1alpha1/LabelKeys.go:30-30 NephioNsnNamespaceKey] *)
Definition NephioNsnNamespaceKey : string := "nephio.org/nsn-namespace".
(** [apis/resource/common/v1alpha1/LabelKeys.go:31-31 NephioOwnerRefKey] *)
Definition NephioOwnerRefKey : string := "nephio.org/owner-ref".
(** [apis/resource/common/v1alpha1/LabelKeys.go:33-33 NephioPrefixKindKey] *)
Definition NephioPrefixKindKey : string := "nephio.org/prefix-kind".
(** [apis/resource/common/v1alpha1/LabelKeys.go:34-34 NephioAddressFamilyKey] *)
Definition NephioAddressFamilyKey : string := "nephio.org/address-family".
(** [apis/resource/common/v1alpha1/LabelKeys.go:35-35 NephioSubnetKey] *)
Definition NephioSubnetKey : string := "nephio.org/subnet".
(** [apis/resource/common/v1alpha1/LabelKeys.go:36-36 NephioPoolKey] *)
Definition NephioPoolKey : string := "nephio.org/pool".
(** [apis/resource/common/v1alpha1/LabelKeys.go:37-37 NephioGatewayKey] *)
Definition NephioGatewayKey : string := "nephio.org/gateway".
(** [apis/resource/common/v1alpha1/LabelKeys.go:39-39 NephioClusterNameKey] *)
Definition NephioClusterNameKey : string := "nephio.org/cluster-name".
(** [apis/resource/common/v1alpha1/LabelKeys.go:40-40 NephioSiteNameKey] *)
Definition NephioSiteNameKey : string := "nephio.org/site-name".
(** [apis/resource/common/v1alpha1/LabelKeys.go:41-41 NephioRegionKey] *)
Definition NephioRegionKey : string := "nephio.org/region".
(** [apis/resource/common/v1alpha1/LabelKeys.go:42-42 NephioAvailabilityZoneKey] *)
Definition NephioAvailabilityZoneKey : string := "nephio.org/availability-zone".
(** [apis/resource/common/v1alpha1/LabelKeys.go:43-43 NephioInterfaceKey] *)
Definition NephioInterfaceKey : string := "nephio.org/interface".
(** [apis/resource/common/v1alpha1/LabelKeys.go:44-44 NephioNetworkNameKey] *)
Definition NephioNetworkNameKey : string := "nephio.org/network-name".
(** [apis/resource/common/v1alpha1/LabelKeys.go:45-45 NephioPurposeKey] *)
Definition NephioPurposeKey : string := "nephio.org/purpose".
(** [apis/resource/common/v1alpha1/LabelKeys.go:46-46 NephioApplicationPartOfKey] *)
Definition NephioApplicationPartOfKey : string := "app.kubernetes.io/part-of".
(** [apis/resource/common/v1alpha1/LabelKeys.go:47-47 NephioIndexKey] *)
Definition NephioIndexKey : string := "nephio.org/index".
(** [apis/resource/common/v1alpha1/LabelKeys.go:49-49 NephioClaimedPrefix] *)
Definition NephioClaimedPrefix : string := "nephio.org/claimed-prefix".
(** [apis/resource/common/v1alpha1/LabelKeys.go:50-50 NephioClaimedGateway] *)
Definition NephioClaimedGateway : string := "nephio.org/claimed-gateway".

(** ** The selector library

    [labels.Selector] of k8s.io/apimachinery: a conjunction of requirements.
    [NewRequirement] rejects keys and values that are not valid label syntax. *)
Class LabelsAPI : Type := {
  Requirement : Type;
  Selector : Type;
  NewSelector : Selector;
  NewRequirement : string -> string -> list string -> result Requirement;
  Selector_Add : Selector -> Requirement -> Selector;
  Matches : Selector -> labels -> bool;
  requirement_valid : string -> string -> bool;
  (** [labels.Set.String] *)
  Set_String : labels -> string
}.

(** The [selection.Equals] operator. *)
Definition selection_Equals : string := "=".

Class LabelsLaws (L : LabelsAPI) : Prop := {
  Matches_NewSelector : forall ls, Matches NewSelector ls = true;
  Matches_Add : forall s k v r ls,
    NewRequirement k selection_Equals [v] = Ok r ->
    Matches (Selector_Add s r) ls = Matches s ls && bool_decide (ls !! k = Some v);
  NewRequirement_valid : forall k v,
    requirement_valid k v = true -> exists r, NewRequirement k selection_Equals [v] = Ok r;
  NewRequirement_invalid : forall k v,
    requirement_valid k v = false -> exists e, NewRequirement k selection_Equals [v] = Err e
}.

(** A concrete selector library, used to run the model. It accepts every value of
    at most 63 bytes. *)
Definition list_labels : LabelsAPI := {|
  Requirement := string * string;
  Selector := list (string * string);
  NewSelector := [];
  NewRequirement k op vs :=
    match vs with
    | [v] => if (String.length v <=? 63)%nat then Ok (k, v) else Err "invalid label value"
    | _ => Err "for exact match"
    end;
  Selector_Add s r := s ++ [r];
  Matches s ls := forallb (fun '(k, v) => bool_decide (ls !! k = Some v)) s;
  requirement_valid k v := (String.length v <=? 63)%nat;
  Set_String m :=
    String.concat "," (merge_sort String.le ((fun '(k, v) => k +:+ "=" +:+ v) <$> map_to_list m))
|}.

#[export] Instance list_labels_laws : LabelsLaws list_labels.
Proof.
  split; cbn.
  - done.
  - intros s k v r ls. destruct (_ <=? _)%nat; [intros [= <-]|done].
    rewrite forallb_app. cbn. by rewrite andb_true_r.
  - intros k v ->. by eexists.
  - intros k v ->. by eexists.
Qed.

(** ** Data *)

(** Only [MatchLabels] of [metav1.LabelSelector] is read by the program. *)
Record LabelSelector : Type := MkLabelSelector { MatchLabels : labels }.

(** A nil map is [None].

    [apis/resource/common/v1alpha1/labels.go:29-33 UserDefinedLabels] *)
Record UserDefinedLabels : Type := MkUserDefinedLabels { udl_Labels : option labels }.

(** [apis/resource/common/v1alpha1/labels.go:47-52 ClaimLabels] *)
Record ClaimLabels : Type := MkClaimLabels {
  cl_UserDefinedLabels : UserDefinedLabels;
  cl_Selector : option LabelSelector
}.

(** A map read: the zero value for an absent key. *)
Definition label_get (ls : labels) (k : string) : string := default "" (ls !! k).

(** ** Operations *)

(** [apis/resource/common/v1alpha1/labels.go:37-45 UserDefinedLabels.GetUserDefinedLabels] *)
Definition udl_GetUserDefinedLabels (r : UserDefinedLabels) : labels := default ∅ (udl_Labels r).

(** [apis/resource/common/v1alpha1/labels.go:56-58 ClaimLabels.GetUserDefinedLabels] *)
Definition GetUserDefinedLabels (r : ClaimLabels) : labels :=
  udl_GetUserDefinedLabels (cl_UserDefinedLabels r).

(** [apis/resource/common/v1alpha1/labels.go:62-70 ClaimLabels.GetSelectorLabels] *)
Definition GetSelectorLabels (r : ClaimLabels) : labels :=
  match cl_Selector r with Some s => MatchLabels s | None => ∅ end.

(** A selector label overrides a user defined label of the same key.

    [apis/resource/common/v1alpha1/labels.go:74-83 ClaimLabels.GetFullLabels] *)
Definition GetFullLabels (r : ClaimLabels) : labels := GetSelectorLabels r ∪ GetUserDefinedLabels r.

Section Selectors.
Context `{L : LabelsAPI}.

(** The loop that adds one equality requirement per label. *)
Fixpoint add_requirements (kvs : list (string * string)) (sel : Selector) : result Selector :=
  match kvs with
  | [] => Ok sel
  | (k, v) :: kvs' =>
      req ← NewRequirement k selection_Equals [v];
      add_requirements kvs' (Selector_Add sel req)
  end.

(** [map_to_list] stands for the unspecified iteration order of a Go map. *)
Definition selector_of_labels (l : labels) : result Selector :=
  add_requirements (map_to_list l) NewSelector.

(** [apis/resource/common/v1alpha1/labels.go:87-98 ClaimLabels.GetLabelSelector] *)
Definition GetLabelSelector (r : ClaimLabels) : result Selector :=
  selector_of_labels (GetSelectorLabels r).

(** The labels that identify the owner of a claim; a missing label reads as the
    empty string. *)
Definition owner_labels (ls : labels) : labels :=
  list_to_map ((fun k => (k, label_get ls k)) <$>
    [NephioNsnNameKey; NephioNsnNamespaceKey; NephioOwnerGvkKey; NephioOwnerNsnNameKey;
     NephioOwnerNsnNamespaceKey]).

(** [apis/resource/common/v1alpha1/labels.go:102-120 ClaimLabels.GetOwnerSelector] *)
Definition GetOwnerSelector (r : ClaimLabels) : result Selector :=
  selector_of_labels (owner_labels (default ∅ (udl_Labels (cl_UserDefinedLabels r)))).

End Selectors.

(** [apis/resource/common/v1alpha1/labels.go:159-164 getNamespace] *)
Definition getNamespace (ns : string) : string := if bool_decide (ns = "") then "default" else ns.

(** [apis/resource/common/v1alpha1/labels.go:122-149 GetHierOwnerLabelsFromCR] *)
Definition GetHierOwnerLabelsFromCR (cr : Object) : labels :=
  let ls := default ∅ (om_Labels (o_Meta cr)) in
  let crGVK := o_GVK cr in
  let ownerGVKValue :=
    match ls !! NephioOwnerGvkKey with Some v => v | None => GVKToString (o_GVK cr) end in
  let ownerName :=
    match ls !! NephioOwnerNsnNameKey with Some v => v | None => om_Name (o_Meta cr) end in
  let ownerNamespace :=
    match ls !! NephioOwnerNsnNamespaceKey with Some v => v | None => om_Namespace (o_Meta cr) end in
  list_to_map
    [(NephioOwnerGvkKey, ownerGVKValue);
     (NephioOwnerNsnNameKey, ownerName);
     (NephioOwnerNsnNamespaceKey, getNamespace ownerNamespace);
     (NephioGvkKey, GVKToString crGVK);
     (NephioNsnNameKey, om_Name (o_Meta cr));
     (NephioNsnNamespaceKey, getNamespace (om_Namespace (o_Meta cr)))].

(** [apis/resource/common/v1alpha1/labels.go:151-157 GetOwnerLabelsFromCR] *)
Definition GetOwnerLabelsFromCR (cr : Object) : labels :=
  list_to_map
    [(NephioOwnerGvkKey, GVKToString (o_GVK cr));
     (NephioOwnerNsnNameKey, om_Name (o_Meta cr));
     (NephioOwnerNsnNamespaceKey, getNamespace (om_Namespace (o_Meta cr)))].

(** The body shared by the [AddOwnerLabelsToCR] methods of the claim types. *)
Definition add_owner_labels (cr : Object) (cl : ClaimLabels) : ClaimLabels :=
  MkClaimLabels
    (MkUserDefinedLabels
       (Some (GetHierOwnerLabelsFromCR cr ∪ default ∅ (udl_Labels (cl_UserDefinedLabels cl)))))
    (cl_Selector cl).

(** [apis/resource/common/v1alpha1/cache_id.go:23-29 GetCacheID] *)
Definition GetCacheID (ref : ObjectReference) : ObjectReference :=
  let namespace := if bool_decide (ref_Namespace ref = "") then "default" else ref_Namespace ref in
  ObjRef "" namespace (ref_Name ref) "" "" "" "".

(** [apis/resource/common/v1alpha1/namespacename.go:23-23 seperator] *)
Definition seperator : string := "-".

(** [apis/resource/common/v1alpha1/namespacename.go:25-30 GetGenericNamespacedName] *)
Definition GetGenericNamespacedName (nsn : NamespacedName) : string :=
  if bool_decide (nsn_Namespace nsn = "") then nsn_Name nsn
  else nsn_Namespace nsn +:+ seperator +:+ nsn_Name nsn.

(** ** Properties *)

Section SelectorProps.
Context `{L : LabelsAPI} `{!LabelsLaws L}.

Lemma add_requirements_matches kvs : forall sel sel' ls,
  add_requirements kvs sel = Ok sel' ->
  Matches sel' ls = Matches sel ls && forallb (fun '(k, v) => bool_decide (ls !! k = Some v)) kvs.
Proof.
  induction kvs as [|[k v] kvs IH]; intros sel sel' ls; cbn.
  - intros [= ->]. by rewrite andb_true_r.
  - destruct (NewRequirement k selection_Equals [v]) as [req| |] eqn:Hr; cbn; [|done..].
    intros Hs. rewrite (IH _ _ _ Hs), (Matches_Add _ _ _ _ _ Hr). by rewrite andb_assoc.
Qed.

Lemma add_requirements_valid kvs : forall sel,
  forallb (fun '(k, v) => requirement_valid k v) kvs = true ->
  exists sel', add_requirements kvs sel = Ok sel'.
Proof.
  induction kvs as [|[k v] kvs IH]; intros sel; cbn; [by eexists|].
  rewrite andb_true_iff. intros [Hv Hs]. destruct (NewRequirement_valid _ _ Hv) as [r ->].
  by apply IH.
Qed.

Lemma forallb_lookup_subseteq (m ls : labels) kvs :
  kvs ≡ₚ map_to_list m ->
  forallb (fun '(k, v) => bool_decide (ls !! k = Some v)) kvs = bool_decide (m ⊆ ls).
Proof.
  intros Hp. apply eq_bool_prop_intro. rewrite bool_decide_spec, Is_true_true, forallb_forall.
  rewrite map_subseteq_spec. split.
  - intros Hall k v Hk. specialize (Hall (k, v)). cbn in Hall.
    apply bool_decide_eq_true in Hall; [done|]. apply list_elem_of_In. rewrite Hp.
    by apply elem_of_map_to_list.
  - intros Hsub [k v] Hin. apply bool_decide_eq_true, Hsub.
    apply list_elem_of_In in Hin. rewrite Hp in Hin. by apply elem_of_map_to_list.
Qed.

(** A selector built from equality requirements matches exactly the label sets
    that include the labels it was built from, whatever order the Go map is
    iterated in. *)
Lemma selector_order_independent (m ls : labels) kvs sel :
  kvs ≡ₚ map_to_list m -> add_requirements kvs NewSelector = Ok sel ->
  Matches sel ls = bool_decide (m ⊆ ls).
Proof.
  intros Hp Hs. rewrite (add_requirements_matches _ _ _ _ Hs), Matches_NewSelector.
  by rewrite (forallb_lookup_subseteq m).
Qed.

Lemma selector_of_labels_matches (m ls : labels) sel :
  selector_of_labels m = Ok sel -> Matches sel ls = bool_decide (m ⊆ ls).
Proof. by apply selector_order_independent. Qed.

Lemma selector_of_labels_valid (m : labels) :
  (forall k v, m !! k = Some v -> requirement_valid k v = true) ->
  exists sel, selector_of_labels m = Ok sel.
Proof.
  intros Hv. apply add_requirements_valid, forallb_forall. intros [k v] Hin.
  apply Hv, elem_of_map_to_list, list_elem_of_In, Hin.
Qed.

End SelectorProps.

(** ** Owners *)

Definition owner_keys : list string :=
  [NephioNsnNameKey; NephioNsnNamespaceKey; NephioOwnerGvkKey; NephioOwnerNsnNameKey;
   NephioOwnerNsnNamespaceKey].

(** The label set names its owner: the five owner labels are present. *)
Definition owned (ls : labels) : Prop := forall k, k ∈ owner_keys -> is_Some (ls !! k).

Lemma owner_keys_nodup : NoDup owner_keys.
Proof. apply (bool_decide_unpack _). vm_compute. exact I. Qed.

Lemma owner_labels_lookup ls k v :
  owner_labels ls !! k = Some v <-> k ∈ owner_keys /\ v = label_get ls k.
Proof.
  unfold owner_labels. rewrite <-elem_of_list_to_map.
  - rewrite list_elem_of_fmap. split.
    + intros (k' & [= -> ->] & Hk). done.
    + intros [Hk ->]. by exists k.
  - rewrite <-list_fmap_compose. cbn. apply (bool_decide_unpack _). vm_compute. exact I.
Qed.

(** The labels of an owned set include its owner labels. *)
Lemma owner_labels_subseteq ls : owned ls -> owner_labels ls ⊆ ls.
Proof.
  intros Ho. apply map_subseteq_spec. intros k v [Hk ->]%owner_labels_lookup.
  destruct (Ho k Hk) as [v Hv]. unfold label_get. by rewrite Hv.
Qed.

(** Two label sets have the same owner. *)
Lemma owner_labels_subseteq_iff ls ls' :
  owner_labels ls ⊆ ls' <-> owned ls' /\ owner_labels ls = owner_labels ls'.
Proof.
  split.
  - intros Hsub. rewrite map_subseteq_spec in Hsub.
    assert (forall k, k ∈ owner_keys -> ls' !! k = Some (label_get ls k)) as Hk.
    { intros k Hk. apply Hsub, owner_labels_lookup. done. }
    split; [intros k ?; rewrite Hk by done; by eexists|].
    apply map_eq. intros k. apply option_eq. intros v. rewrite !owner_labels_lookup.
    split; intros [Hin ->]; (split; [done|]); unfold label_get at 2; [|symmetry];
      unfold label_get at 1; rewrite Hk by done; done.
  - intros [Ho ->]. by apply owner_labels_subseteq.
Qed.

Lemma hier_owner_keys cr k : k ∈ owner_keys -> is_Some (GetHierOwnerLabelsFromCR cr !! k).
Proof.
  unfold owner_keys, GetHierOwnerLabelsFromCR. cbn [list_to_map foldr fst snd].
  rewrite !elem_of_cons, elem_of_nil. intros Hk.
  repeat (destruct Hk as [->|Hk]; [vm_compute; by eexists|]). done.
Qed.

Lemma add_owner_labels_owned cr cl : owned (GetUserDefinedLabels (add_owner_labels cr cl)).
Proof.
  intros k Hk. unfold GetUserDefinedLabels, udl_GetUserDefinedLabels, add_owner_labels. cbn.
  apply lookup_union_is_Some. left. by apply hier_owner_keys.
Qed.

(** The owner selector of a claim matches exactly the label sets that carry
    all five owner labels with the values of the claim. *)
Theorem GetOwnerSelector_spec `{L : LabelsAPI} `{!LabelsLaws L}
    (cl : ClaimLabels) (s : Selector) (ls : labels) :
  GetOwnerSelector cl = Ok s ->
  Matches s ls = true <->
  owned ls /\ owner_labels (GetUserDefinedLabels cl) = owner_labels ls.
Proof.
  intros Hs. rewrite (selector_of_labels_matches _ _ _ Hs), bool_decide_eq_true.
  apply owner_labels_subseteq_iff.
Qed.

Definition sample_cr : Object :=
  MkObject (GVK "vlan.resource.nephio.org" "v1alpha1" "VLANClaim")
    (MkObjectMeta "claim1" "" "" "" "" None None None [] []).

Definition sample_labels : ClaimLabels := add_owner_labels sample_cr (MkClaimLabels (MkUserDefinedLabels None) None).

Lemma GetOwnerSelector_spec_witness :
  exists s, GetOwnerSelector (L := list_labels) sample_labels = Ok s /\
    Matches s (GetUserDefinedLabels sample_labels) = true.
Proof.
  eexists. split; [vm_compute; reflexivity|].
  apply (GetOwnerSelector_spec (L := list_labels) sample_labels _ (GetUserDefinedLabels sample_labels)).
  - vm_compute. reflexivity.
  - split; [apply add_owner_labels_owned|reflexivity].
Defined.

Lemma GetOwnerSelector_own `{L : LabelsAPI} `{!LabelsLaws L} cl s :
  GetOwnerSelector cl = Ok s -> owned (GetUserDefinedLabels cl) ->
  Matches s (GetUserDefinedLabels cl) = true.
Proof.
  intros Hs Ho. rewrite (selector_of_labels_matches _ _ _ Hs).
  apply bool_decide_eq_true. by apply owner_labels_subseteq.
Qed.

Lemma GetCacheID_idemp ref : GetCacheID (GetCacheID ref) = GetCacheID ref.
Proof.
  unfold GetCacheID. cbn [ref_Namespace ref_Name].
  destruct (decide (ref_Namespace ref = "")) as [E|E].
  - by rewrite (bool_decide_true _ E).
  - by rewrite !(bool_decide_false _ E).
Qed.
