(* ===== verification/Conditions.v ===== *)
(** * apis/resource/common: status conditions

    Every resource reports its state as a list of conditions with at most one
    condition per type. *)

From S2P Require Import Prelude.

Local Open Scope Z_scope.

(** ** Condition types and reasons *)

(** [apis/resource/common/v1alpha1/condition.go:31-31 ConditionTypeSynced] *)
Definition ConditionTypeSynced : string := "Synced".
(** [apis/resource/common/v1alpha1/condition.go:33-33 ConditionTypeReady] *)
Definition ConditionTypeReady : string := "Ready".
(** [apis/resource/common/v1alpha1/condition.go:35-35 ConditionTypeWired] *)
Definition ConditionTypeWired : string := "Wired".
(** [apis/resource/common/v1alpha1/condition.go:37-37 ConditionTypeEPReady] *)
Definition ConditionTypeEPReady : string := "EPReady".
(** [apis/resource/common/v1alpha1/condition.go:45-45 ConditionReasonReady] *)
Definition ConditionReasonReady : string := "Ready".
(** [apis/resource/common/v1alpha1/condition.go:46-46 ConditionReasonFailed] *)
Definition ConditionReasonFailed : string := "Failed".
(** [apis/resource/common/v1alpha1/condition.go:47-47 ConditionReasonUnknown] *)
Definition ConditionReasonUnknown : string := "Unknown".
(** [apis/resource/common/v1alpha1/condition.go:48-48 ConditionReasonNotReady] *)
Definition ConditionReasonNotReady : string := "NotReady".
(** [apis/resource/common/v1alpha1/condition.go:49-49 ConditionReasonAction] *)
Definition ConditionReasonAction : string := "Action".
(** [apis/resource/common/v1alpha1/condition.go:54-54 ConditionReasonReconcileSuccess] *)
Definition ConditionReasonReconcileSuccess : string := "ReconcileSuccess".
(** [apis/resource/common/v1alpha1/condition.go:55-55 ConditionReasonReconcileFailure] *)
Definition ConditionReasonReconcileFailure : string := "ReconcileFailure".
(** [apis/resource/common/v1alpha1/condition.go:60-60 ConditionReasonWireSuccess] *)
Definition ConditionReasonWireSuccess : string := "Success".
(** [apis/resource/common/v1alpha1/condition.go:61-61 ConditionReasonWireFailure] *)
Definition ConditionReasonWireFailure : string := "Failure".
(** [apis/resource/common/v1alpha1/condition.go:62-62 ConditionReasonWireUnknown] *)
Definition ConditionReasonWireUnknown : string := "Unknown".
(** [apis/resource/common/v1alpha1/condition.go:63-63 ConditionReasonWireWiring] *)
Definition ConditionReasonWireWiring : string := "Wiring".

Definition ConditionTrue : string := "True".
Definition ConditionFalse : string := "False".

(** ** Data *)

(** The fields of the embedded [metav1.Condition].

    [apis/resource/common/v1alpha1/condition.go:66-68 Condition] *)
Record Condition : Type := Cond {
  c_Type : string;
  c_Status : string;
  c_ObservedGeneration : Z;
  c_LastTransitionTime : Z;
  c_Reason : string;
  c_Message : string
}.

(** [apis/resource/common/v1alpha1/condition.go:88-92 ConditionedStatus] *)
Record ConditionedStatus : Type := MkConditionedStatus { Conditions : list Condition }.

(** ** Operations *)

(** [apis/resource/common/v1alpha1/condition.go:72-77 Condition.Equal] *)
Definition Condition_Equal (c other : Condition) : bool :=
  bool_decide (c_Type c = c_Type other) && bool_decide (c_Status c = c_Status other) &&
  bool_decide (c_Reason c = c_Reason other) && bool_decide (c_Message c = c_Message other).

(** [apis/resource/common/v1alpha1/condition.go:81-84 Condition.WithMessage] *)
Definition WithMessage (c : Condition) (msg : string) : Condition :=
  Cond (c_Type c) (c_Status c) (c_ObservedGeneration c) (c_LastTransitionTime c) (c_Reason c) msg.

Fixpoint find_condition (t : string) (cs : list Condition) : option Condition :=
  match cs with
  | [] => None
  | c :: cs' => if bool_decide (c_Type c = t) then Some c else find_condition t cs'
  end.

(** [apis/resource/common/v1alpha1/condition.go:103-110 ConditionedStatus.GetCondition] *)
Definition GetCondition (r : ConditionedStatus) (t : string) : Condition :=
  match find_condition t (Conditions r) with
  | Some c => c
  | None => Cond t ConditionFalse 0 0 "" ""
  end.

(** One pass of the inner loop: conditions of the same type are replaced unless
    they are equal up to the transition time. *)
Definition set_condition (cs : list Condition) (new : Condition) : list Condition :=
  let cs' := (fun existing =>
    if bool_decide (c_Type existing <> c_Type new) then existing
    else if Condition_Equal existing new then existing else new) <$> cs in
  if existsb (fun existing => bool_decide (c_Type existing = c_Type new)) cs then cs'
  else cs' ++ [new].

(** [apis/resource/common/v1alpha1/condition.go:115-135 ConditionedStatus.SetConditions] *)
Definition SetConditions (r : ConditionedStatus) (c : list Condition) : ConditionedStatus :=
  MkConditionedStatus (foldl set_condition (Conditions r) c).

(** [apis/resource/common/v1alpha1/condition.go:95-99 NewConditionedStatus] *)
Definition NewConditionedStatus (c : list Condition) : ConditionedStatus :=
  SetConditions (MkConditionedStatus []) c.

Definition type_le (c d : Condition) : Prop := String.le (c_Type c) (c_Type d).

#[export] Instance type_le_dec c d : Decision (type_le c d).
Proof. unfold type_le. apply _. Defined.

(** Nil pointers are equal to each other only. [sort.Slice] orders by type.

    [apis/resource/common/v1alpha1/condition.go:139-164 ConditionedStatus.Equal] *)
Definition ConditionedStatus_Equal (r other : option ConditionedStatus) : bool :=
  match r, other with
  | Some r, Some other =>
      if bool_decide (length (Conditions other) <> length (Conditions r)) then false
      else
        let sc := merge_sort type_le (Conditions r) in
        let oc := merge_sort type_le (Conditions other) in
        forallb (fun '(s, o) => Condition_Equal s o) (zip sc oc)
  | None, None => true
  | _, _ => false
  end.

(** ** The conditions the controllers report, stamped with the current time *)

Section Stamped.
Variable now : Z.

(** [apis/resource/common/v1alpha1/condition.go:168-175 Ready] *)
Definition Ready : Condition := Cond ConditionTypeReady ConditionTrue 0 now ConditionReasonReady "".

(** [apis/resource/common/v1alpha1/condition.go:179-186 Unknown] *)
Definition Unknown : Condition := Cond ConditionTypeReady ConditionFalse 0 now ConditionReasonUnknown "".

(** [apis/resource/common/v1alpha1/condition.go:190-198 Action] *)
Definition Action (msg : string) : Condition := Cond ConditionTypeReady ConditionFalse 0 now ConditionReasonAction msg.

(** [apis/resource/common/v1alpha1/condition.go:202-210 NotReady] *)
Definition NotReady (msg : string) : Condition := Cond ConditionTypeReady ConditionFalse 0 now ConditionReasonNotReady msg.

(** [apis/resource/common/v1alpha1/condition.go:214-222 Failed] *)
Definition Failed (msg : string) : Condition := Cond ConditionTypeReady ConditionFalse 0 now ConditionReasonFailed msg.

(** [apis/resource/common/v1alpha1/condition.go:226-233 ReconcileSuccess] *)
Definition ReconcileSuccess : Condition := Cond ConditionTypeSynced ConditionTrue 0 now ConditionReasonReconcileSuccess "".

(** [apis/resource/common/v1alpha1/condition.go:237-245 ReconcileError] *)
Definition ReconcileError (err : string) : Condition := Cond ConditionTypeSynced ConditionFalse 0 now ConditionReasonReconcileFailure err.

(** [apis/resource/common/v1alpha1/condition.go:249-256 Wired] *)
Definition Wired : Condition := Cond ConditionTypeWired ConditionTrue 0 now ConditionReasonWireSuccess "".

(** [apis/resource/common/v1alpha1/condition.go:260-268 WiringFailed] *)
Definition WiringFailed (msg : string) : Condition := Cond ConditionTypeWired ConditionFalse 0 now ConditionReasonWireFailure msg.

(** [apis/resource/common/v1alpha1/condition.go:272-279 WiringUknown] *)
Definition WiringUknown : Condition := Cond ConditionTypeWired ConditionFalse 0 now ConditionReasonWireUnknown "".

(** [apis/resource/common/v1alpha1/condition.go:283-291 Wiring] *)
Definition Wiring (msg : string) : Condition := Cond ConditionTypeWired ConditionFalse 0 now ConditionReasonWireWiring msg.

(** [apis/resource/common/v1alpha1/condition.go:295-302 EPReady] *)
Definition EPReady : Condition := Cond ConditionTypeEPReady ConditionTrue 0 now ConditionReasonReady "".

(** [apis/resource/common/v1alpha1/condition.go:306-313 EPUnknown] *)
Definition EPUnknown : Condition := Cond ConditionTypeEPReady ConditionFalse 0 now ConditionReasonUnknown "".

(** [apis/resource/common/v1alpha1/condition.go:317-325 EPAction] *)
Definition EPAction (msg : string) : Condition := Cond ConditionTypeEPReady ConditionFalse 0 now ConditionReasonAction msg.

(** [apis/resource/common/v1alpha1/condition.go:329-337 EPNotReady] *)
Definition EPNotReady (msg : string) : Condition := Cond ConditionTypeEPReady ConditionFalse 0 now ConditionReasonNotReady msg.

(** [apis/resource/common/v1alpha1/condition.go:341-349 EPFailed] *)
Definition EPFailed (msg : string) : Condition := Cond ConditionTypeEPReady ConditionFalse 0 now ConditionReasonFailed msg.

End Stamped.

(** ** Properties *)

(** A condition without its transition time. *)
Definition essence (c : Condition) : string * string * string * string :=
  (c_Type c, c_Status c, c_Reason c, c_Message c).

Lemma Condition_Equal_spec c d : Condition_Equal c d = true <-> essence c = essence d.
Proof.
  unfold Condition_Equal, essence. rewrite !andb_true_iff, !bool_decide_eq_true.
  split; [by intros [[[-> ->] ->] ->]|by intros [= -> -> -> ->]].
Qed.

(** At most one condition of each type. *)
Definition unique_types (r : ConditionedStatus) : Prop := NoDup (c_Type <$> Conditions r).

Lemma existsb_type cs t :
  existsb (fun e => bool_decide (c_Type e = t)) cs = true <-> t ∈ c_Type <$> cs.
Proof.
  rewrite existsb_exists, list_elem_of_fmap. split.
  - intros (c & Hc%list_elem_of_In & Ht%bool_decide_eq_true). by exists c.
  - intros (c & -> & Hc). exists c. rewrite <-list_elem_of_In. split; [done|].
    by apply bool_decide_eq_true.
Qed.

Lemma set_condition_types cs new :
  c_Type <$> set_condition cs new =
  if bool_decide (c_Type new ∈ c_Type <$> cs) then c_Type <$> cs else (c_Type <$> cs) ++ [c_Type new].
Proof.
  unfold set_condition.
  assert (c_Type <$> ((fun existing =>
    if bool_decide (c_Type existing <> c_Type new) then existing
    else if Condition_Equal existing new then existing else new) <$> cs) = c_Type <$> cs) as Hmap.
  { rewrite <-list_fmap_compose. apply list_fmap_ext. intros i c _. cbn.
    case_bool_decide as Ht; [done|]. destruct (Condition_Equal c new); [done|].
    symmetry. done. }
  case_bool_decide as Hin.
  - apply existsb_type in Hin. by rewrite Hin.
  - destruct (existsb _ cs) eqn:E; [by apply existsb_type in E|].
    by rewrite fmap_app, Hmap.
Qed.

Lemma find_condition_set_other cs new t :
  t <> c_Type new -> find_condition t (set_condition cs new) = find_condition t cs.
Proof.
  intros Hne. unfold set_condition. destruct (existsb _ cs).
  - induction cs as [|c cs IH]; [done|]. cbn [fmap list_fmap find_condition]. rewrite IH.
    destruct (decide (c_Type c = c_Type new)) as [Ht|Ht].
    + rewrite (bool_decide_false (_ <> _)) by (by intros []).
      rewrite (bool_decide_false (c_Type c = t)) by congruence.
      destruct (Condition_Equal c new); rewrite bool_decide_false by congruence; done.
    + by rewrite (bool_decide_true (_ <> _)) by done.
  - induction cs as [|c cs IH].
    + cbn. by rewrite bool_decide_false by congruence.
    + cbn [fmap list_fmap find_condition app]. rewrite IH.
      destruct (decide (c_Type c = c_Type new)) as [Ht|Ht].
      * rewrite (bool_decide_false (_ <> _)) by (by intros []).
        rewrite (bool_decide_false (c_Type c = t)) by congruence.
        destruct (Condition_Equal c new); rewrite bool_decide_false by congruence; done.
      * by rewrite (bool_decide_true (_ <> _)) by done.
Qed.

Lemma find_condition_set_same cs new :
  exists c, find_condition (c_Type new) (set_condition cs new) = Some c /\ essence c = essence new.
Proof.
  unfold set_condition. destruct (existsb _ cs) eqn:E.
  - induction cs as [|c cs IH]; [done|]. cbn [fmap list_fmap find_condition existsb] in *.
    destruct (decide (c_Type c = c_Type new)) as [Ht|Ht].
    + rewrite (bool_decide_false (_ <> _)) by (by intros []).
      destruct (Condition_Equal c new) eqn:Eq.
      * rewrite bool_decide_true by done. exists c. split; [done|]. by apply Condition_Equal_spec.
      * rewrite bool_decide_true by done. by exists new.
    + rewrite (bool_decide_true (_ <> _)) by done. rewrite bool_decide_false in E |- * by done.
      by apply IH.
  - induction cs as [|c cs IH].
    + cbn. rewrite bool_decide_true by done. by exists new.
    + cbn [fmap list_fmap find_condition existsb app] in *. apply orb_false_iff in E as [Ht E].
      apply bool_decide_eq_false in Ht. rewrite (bool_decide_true (_ <> _)) by done.
      rewrite bool_decide_false by done. by apply IH.
Qed.

(** [SetConditions] keeps at most one condition per type. *)
Theorem SetConditions_unique (r : ConditionedStatus) (c : list Condition) :
  unique_types r -> unique_types (SetConditions r c).
Proof.
  unfold unique_types, SetConditions. cbn. destruct r as [cs]. cbn. revert cs.
  induction c as [|new c IH]; intros cs Hnd; [done|]. cbn. apply IH.
  rewrite set_condition_types. case_bool_decide as Hin; [done|].
  apply NoDup_app. split; [done|]. split; [|apply NoDup_singleton].
  by intros t Ht ->%list_elem_of_singleton.
Qed.

Lemma SetConditions_unique_witness :
  unique_types (SetConditions (MkConditionedStatus [Ready 1]) [ReconcileSuccess 2; Failed 3 "x"]).
Proof.
  apply (SetConditions_unique (MkConditionedStatus [Ready 1]) [ReconcileSuccess 2; Failed 3 "x"]).
  apply (bool_decide_unpack _). vm_compute. exact I.
Defined.

Lemma foldl_set_find_other c cs t :
  t ∉ c_Type <$> c -> find_condition t (foldl set_condition cs c) = find_condition t cs.
Proof.
  revert cs. induction c as [|new c IH]; intros cs Ht; [done|]. cbn in *.
  apply not_elem_of_cons in Ht as [Hne Ht]. by rewrite IH, find_condition_set_other.
Qed.

(** Reading back a condition that was set gives it, up to the transition
    time; a type that was not set keeps the condition it had. *)
Theorem GetCondition_SetConditions (r : ConditionedStatus) (c : list Condition) (new : Condition) :
  NoDup (c_Type <$> c) -> new ∈ c ->
  essence (GetCondition (SetConditions r c) (c_Type new)) = essence new /\
  (forall t, t ∉ c_Type <$> c -> GetCondition (SetConditions r c) t = GetCondition r t).
Proof.
  intros Hnd Hin. split.
  - apply list_elem_of_split in Hin as (c1 & c2 & ->). rewrite fmap_app in Hnd. cbn in Hnd.
    apply NoDup_app in Hnd as (_ & _ & [Hno _]%NoDup_cons).
    unfold GetCondition, SetConditions. cbn. rewrite foldl_app. cbn.
    rewrite foldl_set_find_other by done.
    destruct (find_condition_set_same (foldl set_condition (Conditions r) c1) new) as (c & -> & He).
    done.
  - intros t Ht. unfold GetCondition, SetConditions. cbn. by rewrite foldl_set_find_other.
Qed.

Lemma GetCondition_SetConditions_witness :
  essence (GetCondition (SetConditions (MkConditionedStatus [Ready 1]) [ReconcileSuccess 2; Failed 3 "x"])
             "Ready") = essence (Failed 3 "x").
Proof.
  apply (GetCondition_SetConditions (MkConditionedStatus [Ready 1]) [ReconcileSuccess 2; Failed 3 "x"]
           (Failed 3 "x")).
  - apply (bool_decide_unpack _). vm_compute. exact I.
  - right. left.
Defined.

(** Setting conditions that are already there changes nothing. *)
Lemma set_condition_noop cs new c :
  NoDup (c_Type <$> cs) -> c ∈ cs -> essence c = essence new -> set_condition cs new = cs.
Proof.
  intros Hnd Hc He. unfold set_condition.
  assert (c_Type c = c_Type new) as Ht by (unfold essence in He; congruence).
  assert (existsb (fun e => bool_decide (c_Type e = c_Type new)) cs = true) as ->.
  { apply existsb_type, list_elem_of_fmap. by exists c. }
  rewrite <-(list_fmap_id cs) at 2. apply list_fmap_ext. intros i d Hd. cbn.
  case_bool_decide as Hd'; [done|].
  assert (d = c) as ->.
  { apply (NoDup_fmap_elem c_Type cs); [done| |done|congruence]. by eapply list_elem_of_lookup_2. }
  by rewrite (proj2 (Condition_Equal_spec c new) He).
Qed.

#[export] Instance type_le_trans : Transitive type_le.
Proof. intros a b c. unfold type_le. by etrans. Qed.
#[export] Instance type_le_total : Total type_le.
Proof. intros a b. unfold type_le. apply (total String.le). Qed.

Lemma zip_equal_essence (l1 l2 : list Condition) :
  length l1 = length l2 ->
  forallb (fun '(s, o) => Condition_Equal s o) (zip l1 l2) = true <-> essence <$> l1 = essence <$> l2.
Proof.
  revert l2. induction l1 as [|c l1 IH]; intros [|d l2] Hl; cbn in *; try done.
  rewrite andb_true_iff, Condition_Equal_spec, IH by congruence.
  split; [by intros [-> ->]|]. generalize (essence c), (essence d). intros e e' [= -> ->]. done.
Qed.

(** The projection of an essence on its type. *)
Definition ess_le (x y : string * string * string * string) : Prop := String.le (x.1.1.1) (y.1.1.1).

Lemma sorted_essences l :
  StronglySorted ess_le (essence <$> merge_sort type_le l).
Proof.
  pose proof (StronglySorted_merge_sort type_le l) as Hs.
  induction Hs as [|c l' Hl IH Hc]; cbn; constructor; [done|].
  apply list.Forall_fmap. eapply list.Forall_impl; [exact Hc|]. intros d Hd. exact Hd.
Qed.

(** On statuses with unique condition types, [Equal] decides equality up to
    the order of the conditions and their transition times: it is true exactly
    when the conditions without their times are permutations of each other. *)
Theorem ConditionedStatus_Equal_spec (r o : ConditionedStatus) :
  unique_types r -> unique_types o ->
  ConditionedStatus_Equal (Some r) (Some o) = true <->
  (essence <$> Conditions r) ≡ₚ (essence <$> Conditions o).
Proof.
  unfold unique_types. destruct r as [cr], o as [co]. cbn [Conditions]. intros Hr Ho.
  unfold ConditionedStatus_Equal. cbn [Conditions].
  pose proof (merge_sort_Permutation type_le cr) as Hpr.
  pose proof (merge_sort_Permutation type_le co) as Hpo.
  destruct (decide (length co = length cr)) as [Hlen|Hlen].
  - rewrite (bool_decide_false (_ <> _)) by (by intros []).
    rewrite zip_equal_essence by (by rewrite Hpr, Hpo).
    rewrite <-Hpr at 2. rewrite <-Hpo at 2. split; [by intros ->|]. intros Hp.
    eapply (StronglySorted_unique_strong ess_le); [|apply sorted_essences..|done].
    intros x1 x2 Hx1 Hx2 H12 H21. rewrite <-Hp in Hx2.
    apply list_elem_of_fmap in Hx1 as (c1 & -> & Hc1), Hx2 as (c2 & -> & Hc2).
    rewrite Hpr in Hc1, Hc2. f_equal.
    assert (c_Type c1 = c_Type c2) as Ht by (by apply (anti_symm String.le)).
    by apply (NoDup_fmap_elem c_Type cr).
  - rewrite (bool_decide_true (_ <> _)) by done. split; [done|]. intros Hp%Permutation_length.
    rewrite !length_fmap in Hp. congruence.
Qed.

Lemma ConditionedStatus_Equal_spec_witness :
  ConditionedStatus_Equal (Some (MkConditionedStatus [Ready 1; ReconcileSuccess 2]))
    (Some (MkConditionedStatus [ReconcileSuccess 7; Ready 9])) = true.
Proof.
  apply ConditionedStatus_Equal_spec.
  - apply (bool_decide_unpack _). vm_compute. exact I.
  - apply (bool_decide_unpack _). vm_compute. exact I.
  - cbn. apply perm_swap.
Defined.
