(* ===== verification/KRM.v ===== *)
(** * Custom resources: the shape shared by the API types of the program

    Every API type is a Go struct with the Kubernetes type and object metadata, a
    spec and a status, and the status embeds a [ConditionedStatus]. *)

From S2P Require Import Prelude Meta Labels Conditions.

Record KRM (Spec Status : Type) : Type := MkKRM { krm_Object : Object; spec : Spec; status : Status }.
Arguments MkKRM {Spec Status} krm_Object spec status.
Arguments krm_Object {Spec Status} k.
Arguments spec {Spec Status} k.
Arguments status {Spec Status} k.

(** A status that embeds [ConditionedStatus]. *)
Class HasConditions (Status : Type) : Type := {
  conditioned : Status -> ConditionedStatus;
  with_conditioned : ConditionedStatus -> Status -> Status;
  conditioned_with : forall c s, conditioned (with_conditioned c s) = c
}.

Section KRM.
Context {Spec Status : Type}.
Implicit Types (r : KRM Spec Status).

Definition GetName r : string := om_Name (o_Meta (krm_Object r)).
Definition GetNamespace r : string := om_Namespace (o_Meta (krm_Object r)).
Definition with_spec (f : Spec -> Spec) r := MkKRM (krm_Object r) (f (spec r)) (status r).
Definition with_status (f : Status -> Status) r := MkKRM (krm_Object r) (spec r) (f (status r)).

Definition krm_nsn r : NamespacedName := NSN (GetNamespace r) (GetName r).

Context `{HasConditions Status}.

Definition krm_GetCondition r (t : string) : Condition := GetCondition (conditioned (status r)) t.
Definition krm_SetConditions r (c : list Condition) : KRM Spec Status :=
  with_status (fun s => with_conditioned (SetConditions (conditioned s) c) s) r.
Definition krm_GetGenericNamespacedName r : string := GetGenericNamespacedName (krm_nsn r).

End KRM.

(** [schema.GroupVersion] *)
Record GroupVersion : Type := MkGroupVersion { gv_Group : string; gv_Version : string }.
#[export] Instance GroupVersion_eq_dec : EqDecision GroupVersion.
Proof. solve_decision. Defined.
#[export] Instance GroupVersion_countable : Countable GroupVersion.
Proof.
  apply (inj_countable' (fun g => (gv_Group g, gv_Version g)) (fun '(g, v) => MkGroupVersion g v)).
  by intros [].
Defined.

(** [GroupVersionKind.GroupVersion] *)
Definition GroupVersion_of (g : GroupVersionKind) : GroupVersion := MkGroupVersion (Group g) (Version g).
Definition WithKind (g : GroupVersion) (kind : string) : GroupVersionKind :=
  GVK (gv_Group g) (gv_Version g) kind.
(** [GroupVersion.String]: the API version of a resource. *)
Definition Identifier (g : GroupVersion) : string :=
  if bool_decide (gv_Group g <> "") then gv_Group g +:+ "/" +:+ gv_Version g else gv_Version g.
