(* ===== verification/DB.v ===== *)
(** * pkg/db: the identifier database, and its VLAN and VXLAN instances

    [db] is a table of entries keyed by an integer type [T]. The VLAN and VXLAN
    backends allocate identifiers from it with the [FindFree*] operations. The
    integer type is a parameter: [uint16] for VLANs, [uint32] for VXLANs. *)

From S2P Require Import Prelude Meta Labels.
From stdpp Require Import relations.

Local Open Scope Z_scope.

(** ** Entries *)

(** [pkg/db/entry.go:16-19 entry] *)
Record entry : Type := MkEntry { ID : Z; Labels : labels }.

#[export] Instance entry_eq_dec : EqDecision entry.
Proof. solve_decision. Defined.

(** [pkg/db/entry.go:26-38 NewEntry] *)
Definition NewEntry (id : Z) (l : option labels) : entry :=
  match l with None => MkEntry id ∅ | Some l => MkEntry id l end.

(** [pkg/db/entry.go:21-24 entry.String] *)
Definition entry_String `{LabelsAPI} (v : entry) : string :=
  pretty (ID v) +:+ " " +:+ Set_String (Labels v).

(** [fmt]'s [%v] of a slice of entries. *)
Definition entries_string `{LabelsAPI} (l : list entry) : string :=
  "[" +:+ String.concat " " (entry_String <$> l) +:+ "]".

(** ** Iterators *)

(** [pkg/db/iterator.go:7-11 Iterator] *)
Record Iterator : Type := MkIterator { current : Z; keys : list Z; it_db : gmap Z entry }.

(** The keys of an iterator are keys of its map, so the map read never yields the
    nil entry; a nil entry would panic at its first method call.

    [pkg/db/iterator.go:13-15 Iterator.Value] *)
Definition Iterator_Value (r : Iterator) : result entry :=
  k ← index (keys r) (current r);
  deref (it_db r !! k).

(** [pkg/db/iterator.go:17-20 Iterator.Next] *)
Definition Iterator_Next (r : Iterator) : bool * Iterator :=
  let r' := MkIterator (wrap int64 (current r + 1)) (keys r) (it_db r) in
  (bool_decide (current r' < Z.of_nat (length (keys r'))), r').

(** [for it.Next() { body }]: the body goes on with a new loop state or returns
    from the enclosing function. The loop runs at most once per key and once
    more to end; [for_next_enough] shows that this fuel is enough. *)
Fixpoint for_next_fuel {S R : Type} (fuel : nat) (body : Iterator -> S -> result (S + R))
    (it : Iterator) (s : S) : result (S + R) :=
  match fuel with
  | O => Ok (inl s)
  | Datatypes.S fuel' =>
      let '(more, it') := Iterator_Next it in
      if more then
        r ← body it' s;
        match r with
        | inl s' => for_next_fuel fuel' body it' s'
        | inr x => Ok (inr x)
        end
      else Ok (inl s)
  end.

Definition for_next {S R : Type} (body : Iterator -> S -> result (S + R)) (it : Iterator) (s : S) :
    result (S + R) :=
  for_next_fuel (Datatypes.S (length (keys it))) body it s.

(** ** The database *)

(** [pkg/db/db.go:30-36 DBConfig] *)
Record DBConfig : Type := MkDBConfig {
  Offset : Z;
  MaxEntries : Z;
  InitEntries : list entry;
  SetValidation : option (Z -> error);
  DeleteValidation : option (Z -> error)
}.

(** [pkg/db/db.go:55-59 db] *)
Record db : Type := MkDB { store : gmap Z entry; cfg : DBConfig }.

(** [sort.Slice] on distinct keys: the sorted list is unique, so the sorting
    algorithm does not matter ([sort_keys_unique]). *)
Definition sort_keys (ks : list Z) : list Z := merge_sort Z.le ks.

Section DB.
Context (T : inttype).

(** [pkg/db/db.go:75-78 add] *)
Definition db_add (e : entry) (r : db) : db := MkDB (<[ID e := e]> (store r)) (cfg r).

(** [pkg/db/db.go:40-53 NewDB] *)
Definition NewDB (c : DBConfig) : db :=
  foldl (fun r e => db_add e r) (MkDB ∅ c) (InitEntries c).

(** [pkg/db/db.go:61-61 GetConfig] *)
Definition db_GetConfig (r : db) : Z * Z := (Offset (cfg r), MaxEntries (cfg r)).

(** [pkg/db/db.go:63-73 Set] *)
Definition db_Set (e : entry) : M db unit := fun r =>
  match SetValidation (cfg r) with
  | Some v =>
      match v (ID e) with
      | Some err => (r, Err err)
      | None => (db_add e r, Ok tt)
      end
  | None => (db_add e r, Ok tt)
  end.

(** [pkg/db/db.go:80-89 Get] *)
Definition db_Get (id : Z) (r : db) : result entry :=
  match store r !! id with
  | Some e => Ok e
  | None => Err ("no match found for: " +:+ pretty id)
  end.

(** [pkg/db/db.go:146-159 Iterate] *)
Definition db_Iterate (r : db) : Iterator :=
  MkIterator (-1) (sort_keys (map_to_list (store r)).*1) (store r).

(** The collecting loop of [GetAll] and [GetByLabel]. *)
Definition collect (keep : entry -> bool) (it : Iterator) : result (list entry) :=
  r ← for_next (R := Empty_set) (fun it entries =>
        v ← Iterator_Value it;
        Ok (inl (if keep v then entries ++ [v] else entries))) it [];
  match r with inl entries => Ok entries | inr x => match x : Empty_set with end end.

(** [pkg/db/db.go:91-104 GetByLabel] *)
Definition db_GetByLabel `{LabelsAPI} (selector : Selector) (r : db) : result (list entry) :=
  collect (fun v => Matches selector (Labels v)) (db_Iterate r).

(** [pkg/db/db.go:106-117 GetAll] *)
Definition db_GetAll (r : db) : result (list entry) := collect (fun _ => true) (db_Iterate r).

(** [pkg/db/db.go:119-124 Has] *)
Definition db_Has (id : Z) (r : db) : bool := bool_decide (is_Some (store r !! id)).

(** [pkg/db/db.go:126-137 Delete] *)
Definition db_Delete (id : Z) : M db unit := fun r =>
  match DeleteValidation (cfg r) with
  | Some v =>
      match v id with
      | Some err => (r, Err err)
      | None => (MkDB (delete id (store r)) (cfg r), Ok tt)
      end
  | None => (MkDB (delete id (store r)) (cfg r), Ok tt)
  end.

(** [pkg/db/db.go:139-144 Count] *)
Definition db_Count (r : db) : Z := Z.of_nat (base.size (store r)).

(** [Offset + MaxEntries] is computed in [T]; the loop counter is an [int].

    [pkg/db/db.go:163-184 IterateFree] *)
Definition db_IterateFree (r : db) : Iterator :=
  let lo := wrap int64 (Offset (cfg r)) in
  let hi := wrap int64 (wrap T (Offset (cfg r) + MaxEntries (cfg r))) in
  let ids := filter (fun id => store r !! wrap T id = None) (seqZ lo (hi - lo)) in
  let ks := wrap T <$> ids in
  MkIterator (-1) (sort_keys ks) (list_to_map ((fun k => (k, NewEntry k (Some ∅))) <$> ks)).

(** [pkg/db/db.go:186-193 FindFree] *)
Definition db_FindFree (r : db) : result entry :=
  let '(more, free) := Iterator_Next (db_IterateFree r) in
  if more then Iterator_Value free else Err "no free entry found".

(** An identifier that is in use is returned with its stored entry.

    [pkg/db/db.go:195-205 FindFreeID] *)
Definition db_FindFreeID (id : Z) (r : db) : result entry :=
  if bool_decide (wrap T (Offset (cfg r) + MaxEntries (cfg r) - 1) < id) then
    Err ("id " +:+ pretty id +:+ " is bigger then max allowed entries: " +:+
         pretty (wrap T (MaxEntries (cfg r) - 1)))
  else match store r !! id with
       | None => Ok (NewEntry id (Some ∅))
       | Some e => Ok e
       end.

(** [pkg/db/iterator.go:22-25 Iterator.IsConsecutive] *)
Definition Iterator_IsConsecutive (r : Iterator) : result bool :=
  prev ← index (keys r) (current r - 1);
  cur ← index (keys r) (current r);
  Ok (bool_decide (prev = wrap T (cur - 1))).

(** The body of the loop of [FindFreeRange]. *)
Definition range_body (start end_ : Z) (free : Iterator) (entries : list entry) :
    result (list entry + result (list entry)) :=
  v ← Iterator_Value free;
  if bool_decide (ID v < start) then Ok (inl entries)
  else if bool_decide (ID v = start) then Ok (inl (entries ++ [v]))
  else if bool_decide (start < ID v /\ ID v <= end_) then
    c ← Iterator_IsConsecutive free;
    if negb c then
      Ok (inr (Err ("entry " +:+ pretty (ID v) +:+ " in use in range: start: " +:+ pretty start +:+
                    ", end " +:+ pretty end_)))
    else Ok (inl (entries ++ [v]))
  else Ok (inr (Ok entries)).

(** [pkg/db/db.go:207-237 FindFreeRange] *)
Definition db_FindFreeRange (start size : Z) (r : db) : result (list entry) :=
  let end_ := wrap T (start + size - 1) in
  let last := wrap T (Offset (cfg r) + MaxEntries (cfg r) - 1) in
  let max := wrap T (MaxEntries (cfg r) - 1) in
  if bool_decide (last <= start) then
    Err ("start " +:+ pretty start +:+ " is bigger then max allowed entries: " +:+ pretty max)
  else if bool_decide (last <= end_) then
    Err ("end " +:+ pretty end_ +:+ " is bigger then max allowed entries: " +:+ pretty max)
  else
    x ← for_next (range_body start end_) (db_IterateFree r) [];
    match x with inl _ => Ok [] | inr res => res end.

(** [pkg/db/db.go:239-256 FindFreeSize] *)
Definition db_FindFreeSize (size : Z) (r : db) : result (list entry) :=
  if bool_decide (wrap T (Offset (cfg r) + MaxEntries (cfg r) - 1) <= size) then
    Err ("size " +:+ pretty size +:+ " is bigger then max allowed entries: " +:+
         pretty (wrap T (MaxEntries (cfg r) - 1)))
  else
    x ← for_next (fun free '(i, entries) =>
          v ← Iterator_Value free;
          let i' := wrap T (i + 1) in
          let entries' := entries ++ [v] in
          if bool_decide (size <= i') then Ok (inr entries') else Ok (inl (i', entries')))
        (db_IterateFree r) (0, []);
    match x with
    | inl _ => Err ("could not find free entries that fit in size " +:+ pretty size)
    | inr entries => Ok entries
    end.

End DB.

(** ** The VLAN database *)

(** [pkg/db/vlandb/vlandb.go:22-33 setVLANValidation] *)
Definition setVLANValidation (id : Z) : error :=
  if bool_decide (id = 0) then
    Some ("VLAN " +:+ pretty id +:+ " is the untagged VLAN, cannot be added to the database")
  else if bool_decide (id = 1) then
    Some ("VLAN " +:+ pretty id +:+ " is the default VLAN, cannot be added to the database")
  else if bool_decide (id = 4095) then
    Some ("VLAN " +:+ pretty id +:+ " is reserved, cannot be added to the database")
  else None.

(** [pkg/db/vlandb/vlandb.go:35-46 deleteVLANValidation] *)
Definition deleteVLANValidation (id : Z) : error :=
  if bool_decide (id = 0) then
    Some ("VLAN " +:+ pretty id +:+ " is the untagged VLAN, cannot be deleted from the database")
  else if bool_decide (id = 1) then
    Some ("VLAN " +:+ pretty id +:+ " is the default VLAN, cannot be deleted from the database")
  else if bool_decide (id = 4095) then
    Some ("VLAN " +:+ pretty id +:+ " is reserved, cannot be deleted from the database")
  else None.

Definition vlan_reserved : list entry :=
  [NewEntry 0 (Some {["type" := "untagged"; "status" := "reserved"]});
   NewEntry 1 (Some {["type" := "default"; "status" := "reserved"]});
   NewEntry 4095 (Some {["type" := "reserved"; "status" := "reserved"]})].

(** [pkg/db/vlandb/vlandb.go:9-20 New] *)
Definition vlandb_New : db :=
  NewDB (MkDBConfig 0 4096 vlan_reserved (Some setVLANValidation) (Some deleteVLANValidation)).

(** ** The VXLAN database *)

(** [pkg/db/vxlandb/vxlandb.go:9-12 Config] *)
Record vxlan_Config : Type := MkVxlanConfig { vx_Offset : Z; vx_MaxEntryID : Z }.

(** [pkg/db/vxlandb/vxlandb.go:28-36 vxlan.setVLANValidation] *)
Definition vxlan_setVLANValidation (c : vxlan_Config) (id : Z) : error :=
  if bool_decide (id < vx_Offset c) then
    Some ("VXLAN " +:+ pretty id +:+ " is lower than the lowest offset " +:+ pretty (vx_Offset c))
  else if bool_decide (vx_MaxEntryID c < id) then
    Some ("VXLAN " +:+ pretty id +:+ " is higher than the max offset " +:+ pretty (vx_MaxEntryID c))
  else None.

(** [pkg/db/vxlandb/vxlandb.go:38-46 vxlan.deleteVLANValidation] *)
Definition vxlan_deleteVLANValidation (c : vxlan_Config) (id : Z) : error :=
  if bool_decide (id < vx_Offset c) then
    Some ("VXLAN " +:+ pretty id +:+ " is lower than the lowest offset " +:+ pretty (vx_Offset c))
  else if bool_decide (vx_MaxEntryID c < id) then
    Some ("VXLAN " +:+ pretty id +:+ " is higher than the max offset " +:+ pretty (vx_MaxEntryID c))
  else None.

(** [pkg/db/vxlandb/vxlandb.go:14-22 New] *)
Definition vxlandb_New (c : vxlan_Config) : db :=
  NewDB (MkDBConfig (vx_Offset c) (wrap uint32 (vx_MaxEntryID c - vx_Offset c)) []
    (Some (vxlan_setVLANValidation c)) (Some (vxlan_deleteVLANValidation c))).

(** ** First runs of the model *)

Example vlandb_first_free : db_FindFree uint16 vlandb_New = Ok (NewEntry 2 (Some ∅)).
Proof. vm_compute. reflexivity. Qed.

Example vlandb_range_from_zero : db_FindFreeRange uint16 0 5 vlandb_New = Panic.
Proof. vm_compute. reflexivity. Qed.

(** ** Sorted keys *)

Lemma sort_keys_sorted ks : StronglySorted Z.le (sort_keys ks).
Proof. apply StronglySorted_merge_sort; apply _. Qed.

Lemma sort_keys_perm ks : sort_keys ks ≡ₚ ks.
Proof. apply merge_sort_Permutation. Qed.

(** Whatever order the keys are visited in and whatever algorithm sorts them,
    the sorted keys are the same list. *)
Lemma sort_keys_unique ks l :
  StronglySorted Z.le l -> l ≡ₚ ks -> l = sort_keys ks.
Proof.
  intros Hs Hp. eapply (StronglySorted_unique Z.le); [done|apply sort_keys_sorted|].
  by rewrite sort_keys_perm.
Qed.

Lemma sort_keys_id ks : StronglySorted Z.le ks -> sort_keys ks = ks.
Proof. intros. symmetry. by apply sort_keys_unique. Qed.

Lemma sorted_lt l : StronglySorted Z.le l -> NoDup l -> StronglySorted Z.lt l.
Proof.
  induction 1 as [|x l Hs IH Hx]; intros Hnd; [constructor|].
  apply NoDup_cons in Hnd as [Hn Hnd]. constructor; [by apply IH|].
  rewrite Forall_forall in Hx |- *. intros y Hy.
  specialize (Hx y Hy). assert (x <> y) by congruence. lia.
Qed.

Lemma sorted_lt_le l : StronglySorted Z.lt l -> StronglySorted Z.le l.
Proof.
  induction 1 as [|x l Hs IH Hx]; constructor; [done|].
  eapply Forall_impl; [done|]. cbn. lia.
Qed.

Lemma sorted_filter (P : Z -> Prop) `{!forall x, Decision (P x)} l :
  StronglySorted Z.lt l -> StronglySorted Z.lt (filter P l).
Proof.
  induction 1 as [|x l Hs IH Hx]; [constructor|].
  rewrite filter_cons. case_decide; [|done]. constructor; [done|].
  rewrite Forall_forall in Hx |- *. intros y [_ Hy]%list_elem_of_filter. by apply Hx.
Qed.

Lemma sorted_seqZ m n : StronglySorted Z.lt (seqZ m n).
Proof.
  destruct (decide (n < 0)) as [|Hn]; [rewrite seqZ_nil by lia; constructor|].
  revert m. pattern n. apply natlike_ind; [|clear n Hn|lia].
  - intros m. rewrite seqZ_nil by lia. constructor.
  - intros n Hn IH m. rewrite seqZ_cons by lia. rewrite Z.pred_succ. constructor; [done|].
    apply Forall_forall. intros y ?%elem_of_seqZ. lia.
Qed.

(** ** Loops over an iterator *)

(** The loop written by recursion on the keys that are left: at index [i], with
    [n] keys to go. *)
Fixpoint walk {S R : Type} (body : Iterator -> S -> result (S + R)) (ks : list Z)
    (m : gmap Z entry) (i : Z) (n : nat) (s : S) : result (S + R) :=
  match n with
  | O => Ok (inl s)
  | Datatypes.S n' =>
      r ← body (MkIterator i ks m) s;
      match r with
      | inl s' => walk body ks m (i + 1) n' s'
      | inr x => Ok (inr x)
      end
  end.

Lemma for_next_fuel_walk {S R} (body : Iterator -> S -> result (S + R)) ks m n : forall fuel i s,
  (n < fuel)%nat -> i + Z.of_nat n + 1 = Z.of_nat (length ks) ->
  -1 <= i -> Z.of_nat (length ks) <= it_max int64 ->
  for_next_fuel fuel body (MkIterator i ks m) s = walk body ks m (i + 1) n s.
Proof.
  induction n as [|n IH]; intros [|fuel] i s Hf Hi Hlo Hhi; try lia;
    cbn [for_next_fuel walk]; unfold Iterator_Next; cbn [current keys it_db];
    rewrite wrap_id by (unfold in_range; rewrite int64_min; lia).
  - rewrite bool_decide_eq_false_2 by lia. done.
  - rewrite bool_decide_eq_true_2 by lia.
    destruct (body _ s) as [[s'|x]| |]; cbn; try done.
    apply IH; lia.
Qed.

(** The fuel of [for_next] is enough: the loop ends by itself, at the end of the
    keys or by a return of its body. *)
Lemma for_next_enough {S R} (body : Iterator -> S -> result (S + R)) ks m s :
  Z.of_nat (length ks) <= it_max int64 ->
  for_next body (MkIterator (-1) ks m) s = walk body ks m 0 (length ks) s.
Proof. intros. unfold for_next. cbn [keys]. apply for_next_fuel_walk; lia. Qed.

Lemma index_nat {A} (l : list A) i x : l !! i = Some x -> index l (Z.of_nat i) = Ok x.
Proof. intros H. unfold index. rewrite bool_decide_eq_true_2 by lia. by rewrite Nat2Z.id, H. Qed.

Lemma Iterator_Value_at ks m i k e :
  ks !! i = Some k -> m !! k = Some e ->
  Iterator_Value (MkIterator (Z.of_nat i) ks m) = Ok e.
Proof. intros Hk He. unfold Iterator_Value. cbn. rewrite (index_nat _ _ _ Hk). cbn. by rewrite He. Qed.

Lemma walk_collect (keep : entry -> bool) ks m pre suf (acc : list entry) :
  ks = pre ++ suf -> (forall k, k ∈ ks -> is_Some (m !! k)) ->
  walk (R := Empty_set) (fun it entries =>
      v ← Iterator_Value it; Ok (inl (if keep v then entries ++ [v] else entries)))
    ks m (Z.of_nat (length pre)) (length suf) acc =
  Ok (inl (acc ++ filter keep (omap (m !!.) suf))).
Proof.
  revert pre acc. induction suf as [|k suf IH]; intros pre acc Hks Hm.
  - cbn. by rewrite app_nil_r.
  - destruct (Hm k) as [e He]; [rewrite Hks; set_solver|].
    cbn [walk length]. erewrite Iterator_Value_at; [|rewrite Hks; by apply list_lookup_middle|done].
    cbn [mbind result_bind omap list_omap]. rewrite He.
    replace (Z.of_nat (length pre) + 1) with (Z.of_nat (length (pre ++ [k])))
      by (rewrite length_app; cbn; lia).
    rewrite (IH (pre ++ [k])); [|by rewrite <-app_assoc|done].
    rewrite filter_cons. case_decide as Hk; destruct (keep e); try done.
    by rewrite <-app_assoc.
Qed.

Lemma collect_spec (keep : entry -> bool) ks m :
  Z.of_nat (length ks) <= it_max int64 -> (forall k, k ∈ ks -> is_Some (m !! k)) ->
  collect keep (MkIterator (-1) ks m) = Ok (filter keep (omap (m !!.) ks)).
Proof.
  intros Hlen Hm. unfold collect. rewrite for_next_enough by done.
  change 0 with (Z.of_nat (length (@nil Z))). by rewrite (walk_collect keep ks m [] ks []).
Qed.

(** ** Well-formed databases *)

Section Theorems.
Context (T : inttype) `{!Unsigned T}.

(** An entry is stored under its identifier, and identifiers are values of [T]. *)
Definition db_wf (r : db) : Prop :=
  map_Forall (fun k e => ID e = k /\ in_range T k) (store r).

(** The configuration of a database that does not overflow [T]. *)
Definition cfg_ok (c : DBConfig) : Prop :=
  0 <= Offset c /\ 0 < MaxEntries c /\ Offset c + MaxEntries c <= it_max T.

Lemma db_add_wf e r : in_range T (ID e) -> db_wf r -> db_wf (db_add e r).
Proof. intros He Hr. by apply map_Forall_insert_2. Qed.

Lemma NewDB_wf c : Forall (fun e => in_range T (ID e)) (InitEntries c) -> db_wf (NewDB c).
Proof.
  unfold NewDB. assert (Hwf : db_wf (MkDB ∅ c)) by apply map_Forall_empty.
  revert Hwf. generalize (MkDB ∅ c). induction (InitEntries c) as [|e l IH]; cbn; [done|].
  intros r Hr [He Hl]%Forall_cons. apply IH; [|done]. by apply db_add_wf.
Qed.

Lemma db_Set_wf e r : in_range T (ID e) -> db_wf r -> db_wf (db_Set e r).1.
Proof.
  intros He Hr. unfold db_Set. repeat case_match; simplify_eq/=; try done; by apply db_add_wf.
Qed.

Lemma db_Delete_wf id r : db_wf r -> db_wf (db_Delete id r).1.
Proof.
  intros Hr. unfold db_Delete. repeat case_match; simplify_eq/=; try done; by apply map_Forall_delete.
Qed.

Lemma store_keys_length r : db_wf r -> Z.of_nat (length (map_to_list (store r)).*1) <= it_size T.
Proof.
  intros Hr. pose proof (unsigned_size_le T) as Hsz.
  assert (Hsub : (map_to_list (store r)).*1 ⊆+ seqZ 0 (it_size T)).
  { apply NoDup_submseteq; [apply NoDup_fst_map_to_list|].
    intros k ([k' e]&->&He)%list_elem_of_fmap. apply elem_of_map_to_list in He.
    destruct (Hr _ _ He) as [_ Hk]. apply unsigned_in_range in Hk; [|done].
    apply elem_of_seqZ. cbn. lia. }
  apply submseteq_length in Hsub. rewrite length_seqZ in Hsub. lia.
Qed.

Lemma Iterate_collect keep r : db_wf r ->
  collect keep (db_Iterate r) =
  Ok (filter keep (omap (store r !!.) (sort_keys (map_to_list (store r)).*1))).
Proof.
  intros Hr. pose proof (unsigned_size_le T) as Hsz. unfold db_Iterate. apply collect_spec.
  - rewrite (Permutation_length (sort_keys_perm _)), int64_max.
    pose proof (store_keys_length r Hr). lia.
  - intros k. rewrite sort_keys_perm. intros ([k' e]&->&He)%list_elem_of_fmap.
    exists e. by apply elem_of_map_to_list in He.
Qed.

Lemma Iterate_values_ids r : db_wf r ->
  ID <$> omap (store r !!.) (sort_keys (map_to_list (store r)).*1) =
  sort_keys (map_to_list (store r)).*1.
Proof.
  intros Hr. assert (Hk : forall k, k ∈ sort_keys (map_to_list (store r)).*1 ->
    exists e, store r !! k = Some e /\ ID e = k).
  { intros k. rewrite sort_keys_perm. intros ([k' e]&->&He)%list_elem_of_fmap.
    apply elem_of_map_to_list in He. exists e. split; [done|]. by destruct (Hr _ _ He). }
  induction (sort_keys _) as [|k l IH]; [done|].
  destruct (Hk k) as (e&He&Hid); [by left|]. cbn. rewrite He. cbn. rewrite Hid. f_equal.
  apply IH. intros k' Hk'. apply Hk. by right.
Qed.

Lemma sorted_fmap_filter {A} (f : A -> Z) (P : A -> Prop) `{!forall x, Decision (P x)} l :
  StronglySorted Z.lt (f <$> l) -> StronglySorted Z.lt (f <$> filter P l).
Proof.
  induction l as [|x l IH]; [done|]. rewrite fmap_cons, filter_cons.
  intros [Hs Hx]%StronglySorted_inv. case_decide; [|by apply IH]. rewrite fmap_cons. constructor; [by apply IH|].
  rewrite Forall_forall in Hx |- *. intros y (z&->&[_ Hz]%list_elem_of_filter)%list_elem_of_fmap.
  apply Hx. by apply list_elem_of_fmap_2.
Qed.

Lemma collect_Iterate keep r : db_wf r ->
  exists l, collect keep (db_Iterate r) = Ok l /\
    (forall e, e ∈ l <-> store r !! ID e = Some e /\ keep e = true) /\
    StronglySorted Z.lt (ID <$> l).
Proof.
  intros Hr. eexists. split; [by apply Iterate_collect|]. split.
  - intros e. rewrite list_elem_of_filter, list_elem_of_omap. split.
    + intros [Hk (k&_&He)]. destruct (Hr _ _ He) as [<- _]. split; [done|by apply Is_true_true].
    + intros [He Hk]. split; [by apply Is_true_true|]. exists (ID e). split; [|done].
      rewrite sort_keys_perm. apply list_elem_of_fmap. exists (ID e, e).
      split; [done|]. by apply elem_of_map_to_list.
  - apply sorted_fmap_filter. rewrite Iterate_values_ids by done.
    apply sorted_lt; [apply sort_keys_sorted|]. rewrite sort_keys_perm. apply NoDup_fst_map_to_list.
Qed.

(** ** Free identifiers *)

(** The specification of [IterateFree]: the identifiers of the configured range
    that no entry uses, in ascending order. *)
Definition free_ids (r : db) : list Z :=
  filter (fun id => store r !! id = None) (seqZ (Offset (cfg r)) (MaxEntries (cfg r))).

Lemma elem_of_free_ids r id : id ∈ free_ids r <->
  store r !! id = None /\ Offset (cfg r) <= id < Offset (cfg r) + MaxEntries (cfg r).
Proof. unfold free_ids. rewrite list_elem_of_filter, elem_of_seqZ. done. Qed.

Lemma free_ids_sorted r : StronglySorted Z.lt (free_ids r).
Proof. apply sorted_filter, sorted_seqZ. Qed.

Lemma free_ids_length r : cfg_ok (cfg r) -> Z.of_nat (length (free_ids r)) <= it_max int64.
Proof.
  intros (?&?&?). pose proof (unsigned_size_le T). pose proof (unsigned_max T).
  unfold free_ids. pose proof (length_filter (fun id => store r !! id = None)
    (seqZ (Offset (cfg r)) (MaxEntries (cfg r)))) as Hl.
  rewrite length_seqZ in Hl. rewrite int64_max. lia.
Qed.

Definition free_entry (id : Z) : entry := NewEntry id (Some ∅).

Lemma IterateFree_spec r : cfg_ok (cfg r) ->
  db_IterateFree T r =
  MkIterator (-1) (free_ids r) (list_to_map ((fun k => (k, free_entry k)) <$> free_ids r)).
Proof.
  intros (Ho&Hm&Hmax). pose proof (unsigned_size_le T). pose proof (unsigned_max T).
  unfold db_IterateFree. rewrite (wrap_unsigned T (_ + _)) by lia.
  rewrite !wrap_int64 by lia.
  replace (Offset (cfg r) + MaxEntries (cfg r) - Offset (cfg r)) with (MaxEntries (cfg r)) by lia.
  assert (Hf : wrap T <$> filter (fun id => store r !! wrap T id = None)
      (seqZ (Offset (cfg r)) (MaxEntries (cfg r))) = free_ids r).
  { unfold free_ids. assert (Hl : forall z, z ∈ seqZ (Offset (cfg r)) (MaxEntries (cfg r)) -> wrap T z = z).
    { intros z ?%elem_of_seqZ. apply (wrap_unsigned T); lia. }
    induction (seqZ _ _) as [|z l IH]; [done|].
    rewrite !filter_cons, (Hl z) by by left.
    case_decide; cbn; rewrite ?(Hl z), IH by first [by left|intros; apply Hl; by right]; done. }
  rewrite Hf, sort_keys_id; [done|]. apply sorted_lt_le, free_ids_sorted.
Qed.

Lemma free_store_lookup r k : k ∈ free_ids r ->
  (list_to_map ((fun k => (k, free_entry k)) <$> free_ids r) : gmap Z entry) !! k = Some (free_entry k).
Proof.
  intros Hk. apply elem_of_list_to_map_1.
  - rewrite <-list_fmap_compose. cbn. rewrite list_fmap_id.
    apply NoDup_filter. apply NoDup_seqZ.
  - apply list_elem_of_fmap. by exists k.
Qed.

Lemma free_head r id rest : free_ids r = id :: rest ->
  id ∈ free_ids r /\ forall id', id' ∈ free_ids r -> id <= id'.
Proof.
  intros Hf. pose proof (free_ids_sorted r) as Hs. rewrite Hf in Hs |- *.
  apply StronglySorted_inv in Hs as [_ Hs]. split; [by left|].
  rewrite Forall_forall in Hs. intros id' [->|Hid]%elem_of_cons; [lia|].
  specialize (Hs _ Hid). lia.
Qed.

Lemma FindFree_free_ids r : cfg_ok (cfg r) ->
  db_FindFree T r = match free_ids r with
                    | [] => Err "no free entry found"
                    | id :: _ => Ok (free_entry id)
                    end.
Proof.
  intros Hc. unfold db_FindFree, Iterator_Next. rewrite IterateFree_spec by done.
  cbn [current keys it_db]. rewrite wrap_int64 by lia.
  destruct (free_ids r) as [|id rest] eqn:Hf; [done|].
  rewrite bool_decide_eq_true_2 by (cbn; lia). rewrite <-Hf.
  apply (Iterator_Value_at _ _ 0 id); [by rewrite Hf|]. apply free_store_lookup.
  rewrite Hf. by left.
Qed.

(** *** FindFreeSize *)

Definition size_body (size : Z) (free : Iterator) '(i, entries) :
    result (Z * list entry + list entry) :=
  v ← Iterator_Value free;
  let i' := wrap T (i + 1) in
  let entries' := entries ++ [v] in
  if bool_decide (size <= i') then Ok (inr entries') else Ok (inl (i', entries')).

Lemma walk_size size r pre suf acc : cfg_ok (cfg r) ->
  free_ids r = pre ++ suf -> Z.of_nat (length pre) < Z.max 1 size ->
  exists st, walk (size_body size) (free_ids r)
      (list_to_map ((fun k => (k, free_entry k)) <$> free_ids r))
      (Z.of_nat (length pre)) (length suf) (Z.of_nat (length pre), acc) =
    if bool_decide (Z.of_nat (length (free_ids r)) < Z.max 1 size) then Ok (inl st)
    else Ok (inr (acc ++ (free_entry <$> take (Z.to_nat (Z.max 1 size) - length pre) suf))).
Proof.
  intros Hc. revert pre acc. induction suf as [|k suf IH]; intros pre acc Hf Hlt.
  - rewrite app_nil_r in Hf. rewrite Hf, bool_decide_eq_true_2 by lia. by eexists.
  - assert (Hlen : Z.of_nat (length (free_ids r)) < it_size T).
    { destruct Hc as (?&?&?). pose proof (unsigned_max T). unfold free_ids.
      pose proof (length_filter (fun id => store r !! id = None)
        (seqZ (Offset (cfg r)) (MaxEntries (cfg r)))) as Hl.
      rewrite length_seqZ in Hl. lia. }
    assert (Hl : length (free_ids r) = (length pre + S (length suf))%nat)
      by (rewrite Hf, length_app; done).
    cbn [walk length size_body].
    erewrite Iterator_Value_at; [|rewrite Hf; by apply list_lookup_middle|].
    2:{ apply free_store_lookup. rewrite Hf. set_solver. }
    cbn [mbind result_bind]. rewrite (wrap_unsigned T) by lia.
    destruct (bool_decide_reflect (size <= Z.of_nat (length pre) + 1)) as [Hsz|Hsz]; cbn [mbind result_bind].
    + rewrite bool_decide_eq_false_2 by lia.
      replace (Z.to_nat (Z.max 1 size) - length pre)%nat with 1%nat by lia. by exists (0, []).
    + replace (Z.of_nat (length pre) + 1) with (Z.of_nat (length (pre ++ [k])))
        by (rewrite length_app; cbn; lia).
      destruct (IH (pre ++ [k]) (acc ++ [free_entry k])) as [st Hst];
        [by rewrite <-app_assoc|rewrite length_app; cbn; lia|].
      exists st. rewrite Hst. case_bool_decide; [done|].
      replace (Z.to_nat (Z.max 1 size) - length pre)%nat
        with (S (Z.to_nat (Z.max 1 size) - length (pre ++ [k])))
        by (rewrite length_app; cbn; lia).
      rewrite firstn_cons, fmap_cons, <-app_assoc. done.
Qed.

(** *** FindFreeRange *)

(** The scan of [FindFreeRange] on the free identifiers alone: [prev] is the free
    identifier before the current one. *)
Fixpoint range_scan (start end_ : Z) (prev : option Z) (acc ids : list Z) : result (list Z) :=
  match ids with
  | [] => Ok []
  | id :: ids' =>
      if bool_decide (id < start) then range_scan start end_ (Some id) acc ids'
      else if bool_decide (id = start) then range_scan start end_ (Some id) (acc ++ [id]) ids'
      else if bool_decide (id <= end_) then
        match prev with
        | None => Panic
        | Some p =>
            if bool_decide (p = id - 1) then range_scan start end_ (Some id) (acc ++ [id]) ids'
            else Err ("entry " +:+ pretty id +:+ " in use in range: start: " +:+ pretty start +:+
                      ", end " +:+ pretty end_)
        end
      else Ok acc
  end.

Lemma IsConsecutive_at ks m pre k suf : ks = pre ++ k :: suf -> 1 <= k < it_size T ->
  Iterator_IsConsecutive T (MkIterator (Z.of_nat (length pre)) ks m) =
  match last pre with None => Panic | Some p => Ok (bool_decide (p = k - 1)) end.
Proof.
  intros -> Hk. unfold Iterator_IsConsecutive. cbn [keys current].
  rewrite (index_nat _ (length pre) k) by by apply list_lookup_middle.
  destruct pre as [|p pre _] using rev_ind; [done|]. rewrite last_snoc, length_app. cbn [length].
  replace (Z.of_nat (length pre + 1) - 1) with (Z.of_nat (length pre)) by lia.
  rewrite (index_nat _ (length pre) p) by (rewrite <-app_assoc; by apply list_lookup_middle).
  cbn [mbind result_bind]. rewrite (wrap_unsigned T) by lia. done.
Qed.

Lemma walk_range start end_ r pre suf (acc : list Z) : cfg_ok (cfg r) -> 0 <= start ->
  free_ids r = pre ++ suf ->
  mbind (M := result) (fun x : list entry + result (list entry) =>
      match x with inl _ => Ok [] | inr res => res end)
    (walk (range_body T start end_) (free_ids r)
        (list_to_map ((fun k => (k, free_entry k)) <$> free_ids r))
        (Z.of_nat (length pre)) (length suf) (free_entry <$> acc)) =
  fmap (M := result) (fmap (M := list) free_entry) (range_scan start end_ (last pre) acc suf).
Proof.
  intros Hc Hstart. revert pre acc. induction suf as [|k suf IH]; intros pre acc Hf; [done|].
  assert (Hk : k ∈ free_ids r) by (rewrite Hf; set_solver).
  assert (Hkr : k < it_size T).
  { destruct Hc as (?&?&?). apply elem_of_free_ids in Hk. pose proof (unsigned_max T). lia. }
  cbn [walk length range_scan]. unfold range_body at 2.
  erewrite Iterator_Value_at; [|rewrite Hf; by apply list_lookup_middle|by apply free_store_lookup].
  replace (Z.of_nat (length pre) + 1) with (Z.of_nat (length (pre ++ [k])))
    by (rewrite length_app; cbn; lia).
  assert (Hstep : forall acc', _) by exact (fun acc' => IH (pre ++ [k]) acc' (eq_trans Hf (app_assoc pre [k] suf))).
  rewrite last_snoc in Hstep. cbn [mbind result_bind ID free_entry NewEntry].
  case_bool_decide; [apply Hstep|]. case_bool_decide as Heq.
  - specialize (Hstep (acc ++ [k])). rewrite fmap_app in Hstep. apply Hstep.
  - rewrite (bool_decide_ext _ (k <= end_)) by lia. case_bool_decide; [|done].
    rewrite (IsConsecutive_at _ _ pre k suf) by (done || lia).
    destruct (last pre) as [p|]; [|done]. cbn [mbind result_bind].
    case_bool_decide; cbn [negb]; [|done].
    specialize (Hstep (acc ++ [k])). rewrite fmap_app in Hstep. apply Hstep.
Qed.

Lemma sorted_split l x : StronglySorted Z.lt l ->
  l = filter (fun y => y < x) l ++ filter (fun y => x <= y) l.
Proof.
  induction 1 as [|y l Hs IH Hy]; [done|]. rewrite !filter_cons.
  destruct (decide (y < x)) as [Hlt|Hge].
  - rewrite decide_False by lia. cbn. by f_equal.
  - rewrite decide_True by lia. rewrite filter_none.
    + cbn. f_equal. rewrite filter_all; [done|]. intros z Hz.
      rewrite Forall_forall in Hy. specialize (Hy _ Hz). lia.
    + intros z Hz. rewrite Forall_forall in Hy. specialize (Hy _ Hz). lia.
Qed.

(** A sorted list in [[x, ∞)] starts with a run of consecutive numbers from [x]. *)
Lemma sorted_run l : forall x, StronglySorted Z.lt l -> Forall (fun y => x <= y) l ->
  exists n rest, 0 <= n /\ l = seqZ x n ++ rest /\
    match rest with [] => True | y :: _ => x + n < y end.
Proof.
  induction l as [|y l IH]; intros x Hs Hx.
  - exists 0, []. split; [lia|]. done.
  - apply StronglySorted_inv in Hs as [Hs Hy]. apply Forall_cons in Hx as [Hxy Hx].
    destruct (decide (x = y)) as [->|Hne].
    + destruct (IH (y + 1) Hs) as (n&rest&Hn&->&Hrest).
      { eapply Forall_impl; [exact Hy|]. cbn. lia. }
      exists (n + 1), rest. split; [lia|]. rewrite (seqZ_cons y (n + 1)) by lia.
      replace (Z.succ y) with (y + 1) by lia. replace (Z.pred (n + 1)) with n by lia.
      split; [done|]. destruct rest; [done|lia].
    + exists 0, (y :: l). split; [lia|]. split; [done|lia].
Qed.

Lemma scan_skip start end_ A l : forall prev acc, Forall (fun y => y < start) A ->
  range_scan start end_ prev acc (A ++ l) =
  range_scan start end_ (match last A with Some p => Some p | None => prev end) acc l.
Proof.
  induction A as [|y A IH]; intros prev acc HA; [done|]. apply Forall_cons in HA as [Hy HA].
  cbn [app range_scan]. rewrite bool_decide_eq_true_2 by lia. rewrite IH by done.
  rewrite last_cons. by destruct (last A).
Qed.

Lemma scan_run start end_ l n : 0 <= n -> forall x acc,
  start < x -> x + n - 1 <= end_ ->
  range_scan start end_ (Some (x - 1)) acc (seqZ x n ++ l) =
  range_scan start end_ (Some (x + n - 1)) (acc ++ seqZ x n) l.
Proof.
  intros Hn. pattern n. apply natlike_ind; [|clear n Hn|done].
  - intros x acc _ _. rewrite app_nil_r. do 2 f_equal. lia.
  - intros n Hn IH x acc Hx Hend. rewrite seqZ_cons, Z.pred_succ by lia. cbn [app range_scan].
    rewrite (bool_decide_eq_false_2 (x < start)), (bool_decide_eq_false_2 (x = start)) by lia.
    rewrite (bool_decide_eq_true_2 (x <= end_)), bool_decide_eq_true_2 by lia.
    replace x with (Z.succ x - 1) at 1 by lia. rewrite IH by lia. rewrite <-app_assoc.
    do 2 f_equal; lia.
Qed.

Lemma scan_first_run start end_ l n prev : 1 <= n -> start + n - 1 <= end_ ->
  range_scan start end_ prev [] (seqZ start n ++ l) =
  range_scan start end_ (Some (start + n - 1)) (seqZ start n) l.
Proof.
  intros Hn Hend. rewrite seqZ_cons by lia. cbn [app range_scan].
  rewrite (bool_decide_eq_false_2 (start < start)), bool_decide_eq_true_2 by lia.
  replace (Some start) with (Some (Z.succ start - 1)) by (f_equal; lia).
  rewrite scan_run by lia. do 2 f_equal; lia.
Qed.

Lemma scan_end start end_ l prev acc : start <= end_ -> Forall (fun y => end_ < y) l ->
  range_scan start end_ prev acc l = Ok (match l with [] => [] | _ => acc end).
Proof.
  intros Hse Hl. destruct l as [|y l]; [done|]. apply Forall_cons in Hl as [Hy _]. cbn [range_scan].
  by rewrite !bool_decide_eq_false_2 by lia.
Qed.

Lemma scan_gap start end_ y l prev acc : start < y <= end_ -> prev <> Some (y - 1) ->
  range_scan start end_ prev acc (y :: l) =
  match prev with
  | None => Panic
  | Some _ => Err ("entry " +:+ pretty y +:+ " in use in range: start: " +:+ pretty start +:+
                   ", end " +:+ pretty end_)
  end.
Proof.
  intros Hy Hp. cbn [range_scan].
  rewrite (bool_decide_eq_false_2 (y < start)), (bool_decide_eq_false_2 (y = start)) by lia.
  rewrite bool_decide_eq_true_2 by lia. destruct prev; [|done].
  rewrite bool_decide_eq_false_2 by congruence. done.
Qed.

(** The free identifiers below, in and above a range. *)
Lemma free_ids_split r start end_ : start <= end_ ->
  exists A Mid B, free_ids r = A ++ Mid ++ B /\
    Forall (fun y => y < start) A /\ Forall (fun y => start <= y <= end_) Mid /\
    Forall (fun y => end_ < y) B /\ StronglySorted Z.lt Mid.
Proof.
  intros Hse. pose proof (free_ids_sorted r) as Hs.
  set (G := filter (fun y => start <= y) (free_ids r)).
  assert (HG : StronglySorted Z.lt G) by by apply sorted_filter.
  exists (filter (fun y => y < start) (free_ids r)),
    (filter (fun y => y < end_ + 1) G), (filter (fun y => end_ + 1 <= y) G).
  split; [|split; [|split; [|split]]].
  - rewrite <-(sorted_split G) by done. by apply sorted_split.
  - apply Forall_forall. by intros y [? _]%list_elem_of_filter.
  - apply Forall_forall. intros y [? [? _]%list_elem_of_filter]%list_elem_of_filter. lia.
  - apply Forall_forall. intros y [? _]%list_elem_of_filter. lia.
  - by apply sorted_filter.
Qed.

Lemma FindFreeRange_scan r start size : cfg_ok (cfg r) ->
  0 <= start -> 1 <= size -> start + size < Offset (cfg r) + MaxEntries (cfg r) ->
  db_FindFreeRange T start size r =
  fmap (M := result) (fmap (M := list) free_entry)
    (range_scan start (start + size - 1) None [] (free_ids r)).
Proof.
  intros Hc Hstart Hsize Hend. pose proof Hc as (?&?&?). pose proof (unsigned_max T).
  unfold db_FindFreeRange. rewrite !(wrap_unsigned T (_ + _ - 1)) by lia.
  rewrite !bool_decide_eq_false_2 by lia.
  rewrite IterateFree_spec, for_next_enough by (done || by apply free_ids_length).
  exact (walk_range start (start + size - 1) r [] (free_ids r) [] Hc Hstart eq_refl).
Qed.

Lemma db_FindFreeSize_body size r :
  db_FindFreeSize T size r =
  if bool_decide (wrap T (Offset (cfg r) + MaxEntries (cfg r) - 1) <= size) then
    Err ("size " +:+ pretty size +:+ " is bigger then max allowed entries: " +:+
         pretty (wrap T (MaxEntries (cfg r) - 1)))
  else match for_next (size_body size) (db_IterateFree T r) (0, []) with
       | Ok (inl _) => Err ("could not find free entries that fit in size " +:+ pretty size)
       | Ok (inr entries) => Ok entries
       | Err e => Err e
       | Panic => Panic
       end.
Proof.
  unfold db_FindFreeSize. case_bool_decide; [done|].
  change (fun free '(i, entries) => _) with (size_body size).
  by destruct (for_next _ _ _) as [[]| |].
Qed.

(** The three ways a search of a range ends. *)
Lemma FindFreeRange_cases r start size : cfg_ok (cfg r) ->
  0 <= start -> 1 <= size -> start + size < Offset (cfg r) + MaxEntries (cfg r) ->
  exists A n rest B, free_ids r = A ++ (seqZ start n ++ rest) ++ B /\ 0 <= n <= size /\
    Forall (fun y => y < start) A /\ Forall (fun y => start <= y < start + size) rest /\
    Forall (fun y => start + size <= y) B /\
    match rest with
    | [] => db_FindFreeRange T start size r =
              Ok (match B with [] => [] | _ => free_entry <$> seqZ start n end)
    | y :: _ => start + n < y /\
        if bool_decide (A = [] /\ n = 0) then db_FindFreeRange T start size r = Panic
        else exists e, db_FindFreeRange T start size r = Err e
    end.
Proof.
  intros Hc Hs Hsize Hend. rewrite FindFreeRange_scan by done.
  destruct (free_ids_split r start (start + size - 1)) as (A&Mid&B&Hf&HA&HMid&HB&HS); [lia|].
  destruct (sorted_run Mid start HS) as (n&rest&Hn&->&Hrest).
  { eapply Forall_impl; [exact HMid|]. cbn. lia. }
  apply Forall_app in HMid as [HMn HMr].
  assert (Hns : n <= size).
  { destruct (decide (n = 0)); [lia|]. rewrite Forall_forall in HMn.
    specialize (HMn (start + n - 1)). rewrite elem_of_seqZ in HMn. lia. }
  exists A, n, rest, B. split; [done|]. split; [lia|]. split; [done|].
  split; [eapply Forall_impl; [exact HMr|cbn; lia]|].
  split; [eapply Forall_impl; [exact HB|cbn; lia]|].
  rewrite Hf, scan_skip by done. destruct rest as [|y rest].
  - rewrite app_nil_r. destruct (decide (n = 0)) as [->|].
    + rewrite (seqZ_nil start 0) by lia. cbn [app]. rewrite scan_end by (done || lia). by destruct B.
    + rewrite scan_first_run, scan_end by (done || lia). by destruct B.
  - split; [done|]. apply Forall_cons in HMr as [Hy _]. rewrite <-app_assoc.
    destruct (decide (n = 0)) as [->|Hn0].
    + rewrite Z.add_0_r in Hrest. rewrite (seqZ_nil start 0) by lia. cbn [app].
      assert (Hp : last A <> Some (y - 1)).
      { intros Hp. apply last_Some_elem_of in Hp. rewrite Forall_forall in HA.
        specialize (HA _ Hp). lia. }
      destruct (last A) as [p|] eqn:HlA; rewrite scan_gap by (done || lia).
      * rewrite bool_decide_eq_false_2 by (intros [-> _]; done). by eexists.
      * apply last_None in HlA as ->. done.
    + rewrite scan_first_run by lia. rewrite bool_decide_eq_false_2 by lia.
      cbn [app]. rewrite scan_gap by (lia || (intros [= ?]; lia)). by eexists.
Qed.

(** C38. [FindFree] returns the least unused identifier of the configured range,
    with an empty label set, and fails exactly when every identifier of the range
    is in use; it never panics. *)
Theorem FindFree_least r : cfg_ok (cfg r) ->
  (exists id, db_FindFree T r = Ok (MkEntry id ∅) /\
     Offset (cfg r) <= id < Offset (cfg r) + MaxEntries (cfg r) /\ store r !! id = None /\
     forall id', Offset (cfg r) <= id' < id -> is_Some (store r !! id')) \/
  (db_FindFree T r = Err "no free entry found" /\
     forall id, Offset (cfg r) <= id < Offset (cfg r) + MaxEntries (cfg r) ->
       is_Some (store r !! id)).
Proof.
  intros Hc. rewrite FindFree_free_ids by done. destruct (free_ids r) as [|id rest] eqn:Hf.
  - right. split; [done|]. intros id Hid. apply not_eq_None_Some. intros Hn.
    assert (id ∈ free_ids r) as Hin by by apply elem_of_free_ids.
    rewrite Hf in Hin. by apply not_elem_of_nil in Hin.
  - left. exists id. destruct (free_head _ _ _ Hf) as [Hid Hmin].
    apply elem_of_free_ids in Hid as [Hn Hr]. split; [done|]. split; [lia|]. split; [done|].
    intros id' Hid'. apply not_eq_None_Some. intros Hn'.
    assert (id <= id') by (apply Hmin, elem_of_free_ids; split; [done|lia]). lia.
Qed.

(** When the identifiers [start .. start+size-1] are all unused and some
    identifier above them is unused too, [FindFreeRange] returns exactly those
    identifiers, in order. *)
Theorem FindFreeRange_complete r start size z : cfg_ok (cfg r) ->
  Offset (cfg r) <= start -> 1 <= size ->
  (forall id, start <= id < start + size -> store r !! id = None) ->
  start + size <= z < Offset (cfg r) + MaxEntries (cfg r) -> store r !! z = None ->
  db_FindFreeRange T start size r = Ok (free_entry <$> seqZ start size).
Proof.
  intros Hc Hs Hsize Hfree Hz Hzf. pose proof Hc as (?&?&?).
  rewrite FindFreeRange_scan by (done || lia).
  destruct (free_ids_split r start (start + size - 1)) as (A&Mid&B&Hf&HA&HMid&HB&HS); [lia|].
  assert (HM : Mid = seqZ start size).
  { eapply (StronglySorted_unique Z.le); [by apply sorted_lt_le|apply sorted_lt_le, sorted_seqZ|].
    apply NoDup_Permutation; [|apply NoDup_seqZ|].
    - pose proof (NoDup_filter (fun id => store r !! id = None) _ (NoDup_seqZ (Offset (cfg r)) (MaxEntries (cfg r)))) as Hnd.
      change (NoDup (free_ids r)) in Hnd. rewrite Hf in Hnd.
      by apply NoDup_app in Hnd as (_&_&(?&_&_)%NoDup_app).
    - intros id. rewrite elem_of_seqZ. split.
      + intros Hid. rewrite Forall_forall in HMid. specialize (HMid _ Hid). lia.
      + intros Hid. assert (Hin : id ∈ free_ids r).
        { apply elem_of_free_ids. split; [apply Hfree; lia|lia]. }
        rewrite Hf, !elem_of_app in Hin. rewrite Forall_forall in HA. rewrite Forall_forall in HB.
        destruct Hin as [Hin|[Hin|Hin]]; [specialize (HA _ Hin); lia|done|specialize (HB _ Hin); lia]. }
  rewrite Hf, scan_skip by done. rewrite HM, scan_first_run, scan_end by (done || lia).
  destruct B as [|b B]; [|done]. exfalso.
  assert (Hin : z ∈ free_ids r) by (apply elem_of_free_ids; split; [done|lia]).
  rewrite Hf, app_nil_r, elem_of_app in Hin. rewrite Forall_forall in HA. rewrite Forall_forall in HMid.
  destruct Hin as [Hin|Hin]; [specialize (HA _ Hin)|specialize (HMid _ Hin)]; lia.
Qed.

(** What a search of a range returns is a run of unused identifiers that starts
    at [start] and is no longer than [size]. It may be shorter than asked without
    an error: when it is, either every other identifier of the range is in use, or
    nothing is returned because no identifier above the range is free. *)
Theorem FindFreeRange_sound r start size l : cfg_ok (cfg r) ->
  0 <= start -> 1 <= size -> start + size < Offset (cfg r) + MaxEntries (cfg r) ->
  db_FindFreeRange T start size r = Ok l ->
  exists n, 0 <= n <= size /\ l = free_entry <$> seqZ start n /\
    (forall id, start <= id < start + n -> store r !! id = None) /\
    ((forall id, Offset (cfg r) <= id -> start + n <= id < start + size -> is_Some (store r !! id)) \/
     n = 0 /\ forall id, Offset (cfg r) <= id ->
       start + size <= id < Offset (cfg r) + MaxEntries (cfg r) -> is_Some (store r !! id)).
Proof.
  intros Hc Hs Hsize Hend Hok.
  destruct (FindFreeRange_cases r start size Hc Hs Hsize Hend)
    as (A&n&rest&B&Hf&Hn&HA&Hr&HB&Hres).
  assert (Hin : forall id, id ∈ free_ids r <-> id ∈ A \/ start <= id < start + n \/ id ∈ rest \/ id ∈ B).
  { intros id. rewrite Hf, !elem_of_app, elem_of_seqZ. tauto. }
  rewrite Forall_forall in HA. rewrite Forall_forall in HB.
  destruct rest as [|y rest].
  2:{ destruct Hres as [_ Hres]. case_bool_decide; [congruence|]. destruct Hres. congruence. }
  rewrite Hres in Hok. injection Hok as <-. destruct B as [|b B].
  - exists 0. rewrite Z.add_0_r. split; [lia|]. split; [done|]. split; [lia|]. right. split; [done|].
    intros id Hoff Hid. apply not_eq_None_Some. intros Hnone.
    assert (Hid' : id ∈ free_ids r) by (apply elem_of_free_ids; split; [done|lia]).
    apply Hin in Hid' as [Hid'|[?|[Hid'|Hid']]]; [specialize (HA _ Hid'); lia|lia|..];
      by apply not_elem_of_nil in Hid'.
  - exists n. split; [done|]. split; [done|]. split.
    + intros id Hid. apply (elem_of_free_ids r id). apply Hin. auto.
    + left. intros id Hoff Hid. apply not_eq_None_Some. intros Hnone.
      assert (Hid' : id ∈ free_ids r) by (apply elem_of_free_ids; split; [done|lia]).
      apply Hin in Hid' as [Hid'|[?|[Hid'|Hid']]];
        [specialize (HA _ Hid'); lia|lia|by apply not_elem_of_nil in Hid'|specialize (HB _ Hid'); lia].
Qed.

(** [FindFreeRange] reads before the first free identifier, and panics, exactly
    when the first free identifier of the database lies inside the range but is not
    its start. *)
Theorem FindFreeRange_panic r start size : cfg_ok (cfg r) ->
  0 <= start -> 1 <= size -> start + size < Offset (cfg r) + MaxEntries (cfg r) ->
  db_FindFreeRange T start size r = Panic <->
  exists id, head (free_ids r) = Some id /\ start < id < start + size.
Proof.
  intros Hc Hs Hsize Hend.
  destruct (FindFreeRange_cases r start size Hc Hs Hsize Hend)
    as (A&n&rest&B&Hf&Hn&HA&Hr&HB&Hres).
  rewrite Hf. destruct rest as [|y rest].
  - rewrite Hres. split; [done|]. intros (id&Hid&Hlt). exfalso. rewrite app_nil_r in Hid.
    destruct A as [|a A]; cbn in Hid; [|apply Forall_cons in HA as [Ha _]; simplify_eq; lia].
    destruct (decide (n = 0)) as [->|Hn0].
    + rewrite (seqZ_nil start 0) in Hid by lia. destruct B as [|b B]; [done|]. apply Forall_cons in HB as [Hb _].
      cbn in Hid. simplify_eq. lia.
    + rewrite seqZ_cons in Hid by lia. cbn in Hid. simplify_eq. lia.
  - destruct Hres as [Hy Hres]. apply Forall_cons in Hr as [Hyr _]. case_bool_decide as Hd.
    + destruct Hd as [-> ->]. split; [|done]. intros _. exists y. cbn. split; [done|lia].
    + split; [destruct Hres; congruence|]. intros (id&Hid&Hlt). exfalso. apply Hd.
      destruct A as [|a A]; cbn in Hid; [|apply Forall_cons in HA as [Ha _]; simplify_eq; lia].
      split; [done|]. destruct (decide (n = 0)); [done|]. rewrite seqZ_cons in Hid by lia.
      cbn in Hid. simplify_eq. lia.
Qed.

(** [FindFreeSize] returns the [size] least unused identifiers (one when [size]
    is 0) when the range holds that many, and fails otherwise. *)
Theorem FindFreeSize_spec r size : cfg_ok (cfg r) ->
  0 <= size < Offset (cfg r) + MaxEntries (cfg r) - 1 ->
  db_FindFreeSize T size r =
    if bool_decide (Z.of_nat (length (free_ids r)) < Z.max 1 size) then
      Err ("could not find free entries that fit in size " +:+ pretty size)
    else Ok (free_entry <$> take (Z.to_nat (Z.max 1 size)) (free_ids r)).
Proof.
  intros Hc Hsize. pose proof Hc as (?&?&?). pose proof (unsigned_max T).
  rewrite db_FindFreeSize_body, (wrap_unsigned T) by lia. rewrite bool_decide_eq_false_2 by lia.
  rewrite IterateFree_spec, for_next_enough by (done || by apply free_ids_length).
  destruct (walk_size size r [] (free_ids r) [] Hc eq_refl) as [st Hst]; [cbn; lia|].
  change (Z.of_nat (length (@nil Z))) with 0 in Hst. rewrite Hst. case_bool_decide; [done|]. cbn [length]. by rewrite Nat.sub_0_r.
Qed.

(** [GetByLabel] returns exactly the stored entries whose labels the selector
    matches, each once, in ascending order of identifier. *)
Theorem GetByLabel_spec `{LabelsAPI} r sel : db_wf r ->
  exists l, db_GetByLabel sel r = Ok l /\
    (forall e, e ∈ l <-> store r !! ID e = Some e /\ Matches sel (Labels e) = true) /\
    StronglySorted Z.lt (ID <$> l).
Proof. intros. by apply collect_Iterate. Qed.

Lemma GetAll_spec r : db_wf r ->
  exists l, db_GetAll r = Ok l /\ (forall e, e ∈ l <-> store r !! ID e = Some e) /\
    StronglySorted Z.lt (ID <$> l).
Proof.
  intros Hr. destruct (collect_Iterate (fun _ => true) r Hr) as (l&Hl&Hin&Hs).
  exists l. split; [done|]. split; [|done]. intros e. rewrite Hin. tauto.
Qed.

(** The laws of the store as a map: what was set is read back, the other
    identifiers are untouched. *)
Lemma db_Set_accepted e r :
  (forall v, SetValidation (cfg r) = Some v -> v (ID e) = None) ->
  db_Set e r = (db_add e r, Ok tt).
Proof. intros Hv. unfold db_Set. destruct (SetValidation (cfg r)) as [v|]; [by rewrite Hv|done]. Qed.

Lemma db_Delete_accepted id r :
  (forall v, DeleteValidation (cfg r) = Some v -> v id = None) ->
  db_Delete id r = (MkDB (delete id (store r)) (cfg r), Ok tt).
Proof. intros Hv. unfold db_Delete. destruct (DeleteValidation (cfg r)) as [v|]; [by rewrite Hv|done]. Qed.

Lemma db_Get_add e r id :
  db_Get id (db_add e r) = if bool_decide (id = ID e) then Ok e else db_Get id r.
Proof.
  unfold db_Get, db_add. cbn. case_bool_decide as He.
  - by rewrite He, lookup_insert_eq.
  - by rewrite lookup_insert_ne by congruence.
Qed.

End Theorems.

(** ** Runs of a database *)

(** The operations that change a database, by any caller. *)
Inductive db_step (T : inttype) : db -> db -> Prop :=
| step_Set e r : in_range T (ID e) -> db_step T r (db_Set e r).1
| step_Delete id r : in_range T id -> db_step T r (db_Delete id r).1.

Lemma db_step_cfg T r r' : db_step T r r' -> cfg r' = cfg r.
Proof. intros []; unfold db_Set, db_Delete; repeat case_match; done. Qed.

Lemma db_steps_cfg T r r' : rtc (db_step T) r r' -> cfg r' = cfg r.
Proof. induction 1 as [|r1 r2 r3 Hs _ IH]; [done|]. by rewrite IH, (db_step_cfg _ _ _ Hs). Qed.

Lemma db_steps_wf T r r' : rtc (db_step T) r r' -> db_wf T r -> db_wf T r'.
Proof.
  induction 1 as [|r1 r2 r3 Hs _ IH]; [done|]. intros Hw. apply IH.
  destruct Hs; [by apply db_Set_wf|by apply db_Delete_wf].
Qed.

(** An entry that the validation functions protect is never changed. *)
Lemma db_steps_protected T r r' id :
  (exists v err, SetValidation (cfg r) = Some v /\ v id = Some err) ->
  (exists v err, DeleteValidation (cfg r) = Some v /\ v id = Some err) ->
  rtc (db_step T) r r' -> store r' !! id = store r !! id.
Proof.
  intros (sv&serr&Hsv&Hs) (dv&derr&Hdv&Hd). induction 1 as [|r1 r2 r3 Hstep _ IH]; [done|].
  pose proof (db_step_cfg _ _ _ Hstep) as Hc. rewrite IH by (by rewrite Hc). clear IH.
  destruct Hstep as [e r1 _|id' r1 _].
  - unfold db_Set. rewrite Hsv. destruct (sv (ID e)) eqn:He; [done|]. cbn.
    rewrite lookup_insert_ne; [done|]. congruence.
  - unfold db_Delete. rewrite Hdv. destruct (dv id') eqn:He; [done|]. cbn.
    rewrite lookup_delete_ne; [done|]. congruence.
Qed.

(** Identifiers that the validation functions refuse are never added. *)
Lemma db_steps_refused T r r' id :
  (exists v err, SetValidation (cfg r) = Some v /\ v id = Some err) ->
  rtc (db_step T) r r' -> store r !! id = None -> store r' !! id = None.
Proof.
  intros (sv&serr&Hsv&Hs). induction 1 as [|r1 r2 r3 Hstep _ IH]; [done|]. intros Hn.
  pose proof (db_step_cfg _ _ _ Hstep) as Hc. apply IH; [by rewrite Hc|].
  destruct Hstep as [e r1 _|id' r1 _].
  - unfold db_Set. rewrite Hsv. destruct (sv (ID e)) eqn:He; [done|]. cbn.
    rewrite lookup_insert_ne; [done|]. congruence.
  - unfold db_Delete. repeat case_match; cbn; rewrite ?lookup_delete_None; auto.
Qed.

(** ** VLANs and VXLANs *)

Lemma vlandb_cfg_ok r : rtc (db_step uint16) vlandb_New r -> cfg_ok uint16 (cfg r).
Proof. intros Hr. rewrite (db_steps_cfg _ _ _ Hr). split; [|split]; vm_compute; congruence. Qed.

Lemma vlandb_wf r : rtc (db_step uint16) vlandb_New r -> db_wf uint16 r.
Proof.
  intros Hr. eapply db_steps_wf; [done|]. apply NewDB_wf.
  apply (bool_decide_unpack _). vm_compute. exact I.
Qed.

Lemma vlandb_reserved_kept r id e : rtc (db_step uint16) vlandb_New r ->
  (id, e) ∈ ((fun e => (ID e, e)) <$> vlan_reserved) -> store r !! id = Some e.
Proof.
  intros Hr He. rewrite (db_steps_protected uint16 vlandb_New r id); [| | |done].
  all: repeat (apply elem_of_cons in He as [[= -> ->]|He]; [try (vm_compute; reflexivity);
    eexists _, _; split; vm_compute; reflexivity|]); by apply not_elem_of_nil in He.
Qed.

(** Storing a VLAN that is not reserved succeeds. *)
Lemma vlandb_Set r e : rtc (db_step uint16) vlandb_New r -> 2 <= ID e <= 4094 ->
  db_Set e r = (db_add e r, Ok tt).
Proof.
  intros Hr He. apply db_Set_accepted. rewrite (db_steps_cfg _ _ _ Hr). cbn. intros v [= <-].
  unfold setVLANValidation. by rewrite !bool_decide_eq_false_2 by lia.
Qed.

Lemma vlandb_Delete r id : rtc (db_step uint16) vlandb_New r -> 2 <= id <= 4094 ->
  db_Delete id r = (MkDB (delete id (store r)) (cfg r), Ok tt).
Proof.
  intros Hr He. apply db_Delete_accepted. rewrite (db_steps_cfg _ _ _ Hr). cbn. intros v [= <-].
  unfold deleteVLANValidation. by rewrite !bool_decide_eq_false_2 by lia.
Qed.

Lemma vlandb_free_range r id : rtc (db_step uint16) vlandb_New r -> id ∈ free_ids r -> 2 <= id <= 4094.
Proof.
  intros Hr [Hn Hid]%elem_of_free_ids. rewrite (db_steps_cfg _ _ _ Hr) in Hid. cbn in Hid.
  assert (Hne : forall z e', (z, e') ∈ ((fun e => (ID e, e)) <$> vlan_reserved) -> id <> z).
  { intros z e' He' ->. by rewrite (vlandb_reserved_kept r z e' Hr He') in Hn. }
  assert (id <> 0 /\ id <> 1 /\ id <> 4095) as (?&?&?).
  { split; [|split]; (eapply Hne; cbn; repeat (left || right)). }
  lia.
Qed.

Lemma vlandb_FindFree_range r e l : rtc (db_step uint16) vlandb_New r ->
  db_FindFree uint16 r = Ok e ->
  2 <= ID e <= 4094 /\ db_Set (MkEntry (ID e) l) r = (db_add (MkEntry (ID e) l) r, Ok tt).
Proof.
  intros Hr. rewrite (FindFree_free_ids uint16) by by apply vlandb_cfg_ok.
  destruct (free_ids r) as [|id rest] eqn:Hf; [done|]. intros [= <-].
  assert (Hid : 2 <= id <= 4094) by (apply (vlandb_free_range r); [done|]; rewrite Hf; by left).
  split; [done|]. by apply vlandb_Set.
Qed.

(** In every state that calls of [Set] and [Delete] reach, the VLAN database
    still holds the reserved VLANs 0, 1 and 4095 with their initial labels; so
    [FindFree] only offers VLANs from 2 to 4094, and storing the VLAN it offers,
    whatever its labels, succeeds. *)
Theorem vlandb_reserved r : rtc (db_step uint16) vlandb_New r ->
  Forall (fun e => store r !! ID e = Some e) vlan_reserved /\
  forall e l, db_FindFree uint16 r = Ok e ->
    2 <= ID e <= 4094 /\ (db_Set (MkEntry (ID e) l) r).2 = Ok tt.
Proof.
  intros Hr. split.
  - apply Forall_forall. intros e He. apply (vlandb_reserved_kept r); [done|].
    by apply (list_elem_of_fmap_2 (fun e => (ID e, e))).
  - intros e l He. destruct (vlandb_FindFree_range r e l Hr He) as [? ->]. done.
Qed.

Definition vxlan_cfg_ok (c : vxlan_Config) : Prop :=
  0 <= vx_Offset c < vx_MaxEntryID c /\ vx_MaxEntryID c <= it_max uint32.

Lemma vxlandb_cfg_ok c : vxlan_cfg_ok c -> cfg_ok uint32 (cfg (vxlandb_New c)).
Proof.
  intros [? Hmax]. rewrite (unsigned_max uint32) in Hmax. unfold cfg_ok.
  cbn. rewrite (wrap_unsigned uint32) by lia. rewrite (unsigned_max uint32). lia.
Qed.

(** C39. In every state that calls of [Set] and [Delete] reach, the VXLAN database
    only holds identifiers from [Offset] to [MaxEntryID]. [FindFree] only offers
    identifiers below [MaxEntryID]: the last identifier that [Set] accepts is never
    offered. *)
Theorem vxlandb_range c r : vxlan_cfg_ok c -> rtc (db_step uint32) (vxlandb_New c) r ->
  (forall id, is_Some (store r !! id) -> vx_Offset c <= id <= vx_MaxEntryID c) /\
  (forall e, db_FindFree uint32 r = Ok e ->
     vx_Offset c <= ID e < vx_MaxEntryID c /\ (db_Set e r).2 = Ok tt) /\
  (forall l, (db_Set (MkEntry (vx_MaxEntryID c) l) r).2 = Ok tt).
Proof.
  intros Hv Hr. pose proof (vxlandb_cfg_ok c Hv) as Hc0. pose proof (db_steps_cfg _ _ _ Hr) as Hcfg.
  destruct Hv as [? Hmax]. rewrite (unsigned_max uint32) in Hmax.
  assert (Hset : forall id l, vx_Offset c <= id <= vx_MaxEntryID c ->
    (db_Set (MkEntry id l) r).2 = Ok tt).
  { intros id l Hid. rewrite db_Set_accepted; [done|]. rewrite Hcfg. cbn. intros v [= <-].
    unfold vxlan_setVLANValidation. by rewrite !bool_decide_eq_false_2 by lia. }
  split; [|split].
  - intros id [e He]. destruct (decide (vx_Offset c <= id <= vx_MaxEntryID c)) as [|Hn]; [done|].
    rewrite (db_steps_refused uint32 (vxlandb_New c) r id) in He; [done| |done|done].
    exists (vxlan_setVLANValidation c). unfold vxlan_setVLANValidation.
    destruct (decide (id < vx_Offset c)); eexists; split; [done| |done|].
    + by rewrite bool_decide_eq_true_2.
    + by rewrite bool_decide_eq_false_2, bool_decide_eq_true_2 by lia.
  - intros e. rewrite (FindFree_free_ids uint32) by (rewrite Hcfg; done).
    destruct (free_ids r) as [|id rest] eqn:Hf; [done|]. intros [= <-].
    assert (Hid : id ∈ free_ids r) by (rewrite Hf; by left).
    apply elem_of_free_ids in Hid as [_ Hid]. rewrite Hcfg in Hid. cbn in Hid.
    rewrite (wrap_unsigned uint32) in Hid by lia. split; [cbn; lia|]. apply Hset. lia.
  - intros l. apply Hset. lia.
Qed.

(** ** Witnesses *)

(** A VLAN database in use: VLANs 2 and 12 are taken. *)
Definition sample_db : db :=
  (db_Set (MkEntry 12 {["owner" := "b"]}) (db_Set (MkEntry 2 {["owner" := "a"]}) vlandb_New).1).1.

Lemma sample_db_reachable : rtc (db_step uint16) vlandb_New sample_db.
Proof.
  eapply rtc_l; [|apply rtc_once]; apply step_Set; cbn; apply (bool_decide_unpack _); vm_compute; exact I.
Qed.

Lemma sample_db_cfg_ok : cfg_ok uint16 (cfg sample_db).
Proof. apply vlandb_cfg_ok, sample_db_reachable. Qed.

Lemma FindFree_least_witness :
  db_FindFree uint16 sample_db = Ok (MkEntry 3 ∅) /\ is_Some (store sample_db !! 2).
Proof.
  destruct (FindFree_least uint16 sample_db sample_db_cfg_ok) as [(id&Hid&_&_&_)|[Herr _]].
  - split; [|vm_compute; eauto]. rewrite Hid. vm_compute in Hid |- *. congruence.
  - exfalso. revert Herr. vm_compute. congruence.
Defined.

(** VLANs 5 to 9 are free. *)
Lemma FindFreeRange_complete_witness :
  db_FindFreeRange uint16 5 5 sample_db = Ok (free_entry <$> seqZ 5 5).
Proof.
  apply (FindFreeRange_complete uint16 sample_db 5 5 20 sample_db_cfg_ok); [by_compute|lia| |by_compute|by_compute].
  intros id Hid. assert (id = 5 \/ id = 6 \/ id = 7 \/ id = 8 \/ id = 9) as Hc by lia.
  repeat destruct Hc as [->|Hc]; subst; vm_compute; reflexivity.
Defined.

(** A search of the three VLANs from 10 gives two of them without an error: the
    last one is in use. *)
Lemma FindFreeRange_sound_witness : exists n, 0 <= n <= 3 /\
  db_FindFreeRange uint16 10 3 sample_db = Ok (free_entry <$> seqZ 10 n) /\ n = 2.
Proof.
  assert (Hr : db_FindFreeRange uint16 10 3 sample_db = Ok [free_entry 10; free_entry 11])
    by (vm_compute; reflexivity).
  destruct (FindFreeRange_sound uint16 sample_db 10 3 _ sample_db_cfg_ok
    ltac:(lia) ltac:(lia) ltac:(by_compute) Hr) as (n&Hn&Hl&_).
  exists n. split; [done|]. split; [by rewrite Hr, Hl|].
  apply (f_equal length) in Hl. rewrite length_fmap, length_seqZ in Hl. cbn in Hl. lia.
Defined.

(** A search from VLAN 0 panics: VLANs 0, 1 and 2 are in use, VLAN 3 is the first
    free one. *)
Lemma FindFreeRange_panic_witness : db_FindFreeRange uint16 0 5 sample_db = Panic.
Proof.
  apply (FindFreeRange_panic uint16 sample_db 0 5 sample_db_cfg_ok); [by_compute..|].
  exists 3. split; [vm_compute; reflexivity|lia].
Defined.

Lemma FindFreeSize_spec_witness :
  db_FindFreeSize uint16 3 sample_db = Ok [free_entry 3; free_entry 4; free_entry 5].
Proof.
  rewrite (FindFreeSize_spec uint16 sample_db 3 sample_db_cfg_ok) by by_compute.
  vm_compute. reflexivity.
Defined.

Lemma GetByLabel_spec_witness :
  exists l, db_GetByLabel (H := list_labels) [("status", "reserved")] sample_db = Ok l /\ ID <$> l = [0; 1; 4095].
Proof.
  destruct (GetByLabel_spec uint16 (H := list_labels) sample_db [("status", "reserved")]
    (vlandb_wf _ sample_db_reachable)) as (l&Hl&_).
  exists l. split; [done|]. vm_compute in Hl. injection Hl as <-. reflexivity.
Defined.

Lemma vlandb_reserved_witness :
  Forall (fun e => store sample_db !! ID e = Some e) vlan_reserved /\
  (db_Set (MkEntry 3 {["owner" := "c"]}) sample_db).2 = Ok tt.
Proof.
  destruct (vlandb_reserved sample_db sample_db_reachable) as [Hr Hset]. split; [done|].
  apply (Hset (free_entry 3)). vm_compute. reflexivity.
Defined.

Lemma vxlandb_range_witness :
  db_FindFree uint32 (vxlandb_New (MkVxlanConfig 10 12)) = Ok (free_entry 10) /\
  (db_Set (free_entry 10) (vxlandb_New (MkVxlanConfig 10 12))).2 = Ok tt.
Proof.
  assert (Hok : vxlan_cfg_ok (MkVxlanConfig 10 12))
    by (unfold vxlan_cfg_ok; cbn; split; [lia|vm_compute; congruence]).
  assert (Hf : db_FindFree uint32 (vxlandb_New (MkVxlanConfig 10 12)) = Ok (free_entry 10))
    by (vm_compute; reflexivity).
  destruct (vxlandb_range _ _ Hok (rtc_refl _ _)) as (_&Hset&_).
  split; [exact Hf|]. exact (proj2 (Hset _ Hf)).
Defined.
