(* ===== verification/Backend.v ===== *)
(** * pkg/backend: caches, persistence and application logic shared by the backends

    A backend keeps one in-memory database per index (a VLAN database or the
    routing table of a network instance) in a [caches] table. The databases are
    persisted in a config map per index by [cm], and the claims are processed by
    the four handlers of an [AppLogic]. *)

From S2P Require Import Prelude Meta Labels.

(** ** The cache of database instances *)

Section Cache.
Context {T1 : Type}.

(** [pkg/backend/cache.go:37-40 cacheContext] *)
Record cacheContext : Type := MkCacheContext { initialized : bool; instance : T1 }.

(** [pkg/backend/cache.go:30-35 newCacheContext] *)
Definition newCacheContext (i : T1) : cacheContext := MkCacheContext false i.

(** [pkg/backend/cache.go:42-44 cacheContext.Initialized] *)
Definition Initialized (r : cacheContext) : cacheContext := MkCacheContext true (instance r).

Abbreviation caches := (gmap ObjectReference cacheContext).

(** [pkg/backend/cache.go:58-67 NewCache] *)
Definition NewCache : caches := ∅.

(** [fmt]'s [%v] of an object reference. *)
Definition ref_string (id : ObjectReference) : string :=
  "{" +:+ String.concat " "
    [ref_Kind id; ref_Namespace id; ref_Name id; ref_UID id; ref_APIVersion id;
     ref_ResourceVersion id; ref_FieldPath id] +:+ "}".

(** [pkg/backend/cache.go:69-76 caches.Create] *)
Definition cache_Create (id : ObjectReference) (i : T1) (r : caches) : caches :=
  match r !! id with
  | Some _ => r
  | None => <[id := newCacheContext i]> r
  end.

(** [pkg/backend/cache.go:78-82 caches.Delete] *)
Definition cache_Delete (id : ObjectReference) (r : caches) : caches := delete id r.

(** [pkg/backend/cache.go:87-95 caches.IsInitialized] *)
Definition cache_IsInitialized (id : ObjectReference) (r : caches) : bool :=
  match r !! id with
  | Some dbCtx => initialized dbCtx
  | None => false
  end.

(** [pkg/backend/cache.go:98-107 caches.SetInitialized] *)
Definition cache_SetInitialized (id : ObjectReference) : M caches unit := fun r =>
  match r !! id with
  | None => (r, Err ("db not initialized: " +:+ ref_string id))
  | Some dbCtx => (<[id := Initialized dbCtx]> r, Ok tt)
  end.

(** [pkg/backend/cache.go:111-122 caches.Get] *)
Definition cache_Get (id : ObjectReference) (ignoreInitializing : bool) (r : caches) : result T1 :=
  match r !! id with
  | None => Err ("db not initialized: " +:+ ref_string id)
  | Some i =>
      if negb ignoreInitializing && negb (initialized i) then
        Err ("db is initializing: " +:+ ref_string id)
      else Ok (instance i)
  end.

(** The instances are pointers: an operation on an instance returned by [Get]
    is visible to the next [Get]. *)
Definition cache_update (id : ObjectReference) (i : T1) (r : caches) : caches :=
  alter (fun c => MkCacheContext (initialized c) i) id r.

(** *** Lemmas *)

Lemma cache_Get_Ok id b r i : cache_Get id b r = Ok i <->
  exists c, r !! id = Some c /\ instance c = i /\ (b = true \/ initialized c = true).
Proof.
  unfold cache_Get. destruct (r !! id) as [[ini j]|]; [|split; [done|by intros (?&?&_)]].
  destruct b, ini; cbn; split; try (intros [= <-]; eexists; split; [done|]; auto);
    try (by intros (?&[= <-]&<-&[?|?])); try done.
Qed.

Lemma cache_Get_update_ne id id' b i r : id <> id' ->
  cache_Get id b (cache_update id' i r) = cache_Get id b r.
Proof. intros. unfold cache_Get, cache_update. by rewrite lookup_alter_ne. Qed.

Lemma cache_Get_update id b i j r : cache_Get id b r = Ok j ->
  cache_Get id b (cache_update id i r) = Ok i.
Proof.
  intros (c&Hc&_&Hi)%cache_Get_Ok. apply cache_Get_Ok.
  exists (MkCacheContext (initialized c) i). unfold cache_update.
  by rewrite lookup_alter_eq, Hc.
Qed.

End Cache.
Arguments cacheContext : clear implicits.
Abbreviation caches T1 := (gmap ObjectReference (cacheContext T1)).

(** ** Persistence in config maps *)

(** [pkg/backend/storage_cm.go:17-17 ConfigMapKey] *)
Definition ConfigMapKey : string := "data".

(** The fields of [corev1.ConfigMap] the program sets or reads; a nil [Data] is
    the empty map, which reads the same. *)
Record ConfigMap : Type := MkConfigMap {
  cm_Namespace : string;
  cm_Name : string;
  cm_ResourceVersion : string;
  cm_Data : gmap string string
}.

(** The calls of [client.Client] on config maps, on the state [S] of the backend
    and of the API server. *)
Record CMClient (S : Type) : Type := MkCMClient {
  cmc_Get : NamespacedName -> S -> result ConfigMap;
  cmc_Create : ConfigMap -> M S unit;
  cmc_Update : ConfigMap -> M S unit;
  cmc_Delete : ConfigMap -> M S unit
}.
Arguments cmc_Get {S} c.
Arguments cmc_Create {S} c.
Arguments cmc_Update {S} c.
Arguments cmc_Delete {S} c.

(** The interface of a store: what a backend asks of its persistence.

    [pkg/backend/storage.go:25-35 Storage] *)
Record Storage (S T1 T2 : Type) : Type := MkStorage {
  st_Restore : ObjectReference -> M S unit;
  st_SaveAll : ObjectReference -> M S unit;
  st_Destroy : ObjectReference -> M S unit;
  st_Get : T1 -> M S (list T2);
  st_Set : T1 -> M S unit;
  st_Delete : T1 -> M S unit
}.
Arguments st_Restore {S T1 T2} s.
Arguments st_SaveAll {S T1 T2} s.
Arguments st_Destroy {S T1 T2} s.
Arguments st_Get {S T1 T2} s.
Arguments st_Set {S T1 T2} s.
Arguments st_Delete {S T1 T2} s.

(** [pkg/backend/storage.go:37-54 NewNopStorage] *)
Definition NewNopStorage {S T1 T2 : Type} : Storage S T1 T2 :=
  MkStorage S T1 T2 (fun _ => mret tt) (fun _ => mret tt) (fun _ => mret tt)
    (fun _ => mret []) (fun _ => mret tt) (fun _ => mret tt).

(** [pkg/backend/storage_cm.go:138-149 buildConfigMap] *)
Definition buildConfigMap (indexRef : ObjectReference) (prefix : string) : ConfigMap :=
  MkConfigMap (ref_Namespace indexRef) (prefix +:+ "-" +:+ ref_Name indexRef) "" ∅.

(** [pkg/backend/storage_cm.go:22-27 CMConfig] *)
Record CMConfig (S : Type) : Type := MkCMConfig {
  cfg_Client : option (CMClient S);
  cfg_GetData : option (ObjectReference -> M S string);
  cfg_RestoreData : option (ObjectReference -> ConfigMap -> M S unit);
  cfg_Prefix : string
}.
Arguments cfg_Client {S} c.
Arguments cfg_GetData {S} c.
Arguments cfg_RestoreData {S} c.
Arguments cfg_Prefix {S} c.

Section CM.
Context {S claim entry : Type} `{E : ErrorsAPI} (cfg : CMConfig S).

(** The object's key in the API server. *)
Definition cm_key (ref : ObjectReference) : NamespacedName :=
  NSN (ref_Namespace ref) (cfg_Prefix cfg +:+ "-" +:+ ref_Name ref).

(** [errors.Wrap] of the error of a call that returns only an error. *)
Definition wrap_call (m : M S unit) (msg : string) : M S unit := fun s =>
  match m s with
  | (s', Err e) => (s', match Wrap (Some e) msg with Some e' => Err e' | None => Ok tt end)
  | r => r
  end.

(** A call whose error is only logged. *)
Definition log_error (m : M S unit) : M S unit := fun s =>
  match m s with
  | (s', Err _) => (s', Ok tt)
  | r => r
  end.

(** A failure of [Get] other than a missing config map is not returned: the data
    is restored from the empty config map.

    [pkg/backend/storage_cm.go:51-74 cm.Restore] *)
Definition cm_Restore (RestoreData : ObjectReference -> ConfigMap -> M S unit)
    (ref : ObjectReference) : M S unit :=
  match cfg_Client cfg with
  | None => mret tt
  | Some c =>
      let cm := buildConfigMap ref (cfg_Prefix cfg) in
      fun s =>
        match cmc_Get c (cm_key ref) s with
        | Ok cm' => RestoreData ref cm' s
        | Err e =>
            if IsNotFound e then wrap_call (cmc_Create c cm) "cannot create configmap" s
            else RestoreData ref cm s
        | Panic => (s, Panic)
        end
  end.

(** When the config map does not exist it is created, without data. A failure of
    the update is only logged.

    [pkg/backend/storage_cm.go:77-108 cm.SaveAll] *)
Definition cm_SaveAll (GetData : ObjectReference -> M S string) (ref : ObjectReference) : M S unit :=
  match cfg_Client cfg with
  | None => mret tt
  | Some c =>
      let cm := buildConfigMap ref (cfg_Prefix cfg) in
      let save (cm : ConfigMap) : M S unit :=
        b ← GetData ref;
        log_error (cmc_Update c
          (MkConfigMap (cm_Namespace cm) (cm_Name cm) (cm_ResourceVersion cm) {[ConfigMapKey := b]})) in
      fun s =>
        match cmc_Get c (cm_key ref) s with
        | Ok cm' => save cm' s
        | Err e =>
            if IsNotFound e then wrap_call (cmc_Create c cm) "cannot create configmap" s
            else save cm s
        | Panic => (s, Panic)
        end
  end.

(** [pkg/backend/storage_cm.go:110-123 cm.Destroy] *)
Definition cm_Destroy (ref : ObjectReference) : M S unit :=
  match cfg_Client cfg with
  | None => mret tt
  | Some c => log_error (cmc_Delete c (buildConfigMap ref (cfg_Prefix cfg)))
  end.

(** The store operations on single claims do nothing.

    [pkg/backend/storage_cm.go:29-42 NewCMBackend] *)
Definition NewCMBackend : result (Storage S claim entry) :=
  match cfg_GetData cfg with
  | None => Err "get data callback fn is required"
  | Some GetData =>
      match cfg_RestoreData cfg with
      | None => Err "restore data callback fn is required"
      | Some RestoreData =>
          Ok (MkStorage S claim entry (cm_Restore RestoreData) (cm_SaveAll GetData) cm_Destroy
                (fun _ => mret []) (fun _ => mret tt) (fun _ => mret tt))
      end
  end.

End CM.

Lemma keeps_log_error {S} (I : S -> Prop) (m : M S unit) : keeps I m -> keeps I (log_error m).
Proof. intros Hm s Hs. specialize (Hm s Hs). unfold log_error. by destruct (m s) as [s' []]. Qed.

Lemma keeps_wrap_call `{ErrorsAPI} {S} (I : S -> Prop) (m : M S unit) msg :
  keeps I m -> keeps I (wrap_call m msg).
Proof. intros Hm s Hs. specialize (Hm s Hs). unfold wrap_call. by destruct (m s) as [s' []]. Qed.

#[export] Hint Resolve keeps_log_error keeps_wrap_call : keeps.

(** A store keeps every invariant that the client and the two callbacks keep. *)
Section StorageKeeps.
Context {S claim entry : Type} `{ErrorsAPI} (cfg : CMConfig S) (I : S -> Prop).
Context (Hclient : forall c cm, cfg_Client cfg = Some c ->
  keeps I (cmc_Create c cm) /\ keeps I (cmc_Update c cm) /\ keeps I (cmc_Delete c cm)).
Context (Hget : forall f ref, cfg_GetData cfg = Some f -> keeps I (f ref)).
Context (Hrestore : forall f ref cm, cfg_RestoreData cfg = Some f -> keeps I (f ref cm)).

Lemma keeps_SaveAll GetData ref : cfg_GetData cfg = Some GetData -> keeps I (cm_SaveAll cfg GetData ref).
Proof.
  intros Hgd. unfold cm_SaveAll. destruct (cfg_Client cfg) as [c|]; [|apply keeps_ret].
  intros s Hs. destruct (cmc_Get c _ s) as [cm|e|]; [| |done].
  2: destruct (IsNotFound e); [by apply keeps_wrap_call; [apply Hclient|]|].
  all: apply keeps_bind; [by apply Hget| |done]; intros b; apply keeps_log_error; by apply Hclient.
Qed.

Lemma keeps_storage (st : Storage S claim entry) ref : NewCMBackend cfg = Ok st ->
  keeps I (st_Restore st ref) /\ keeps I (st_SaveAll st ref) /\ keeps I (st_Destroy st ref).
Proof.
  pose proof keeps_SaveAll as Hsave.
  unfold NewCMBackend. destruct (cfg_GetData cfg) as [gd|]; [|done].
  destruct (cfg_RestoreData cfg) as [rd|]; [|done]. intros [= <-]. cbn.
  split; [|split; [by apply Hsave|]]; unfold cm_Restore, cm_Destroy;
    (destruct (cfg_Client cfg) as [c|]; [|apply keeps_ret]).
  - intros s Hs. destruct (cmc_Get c _ s) as [cm|e|]; [by eapply Hrestore| |done].
    destruct (IsNotFound e); [|by eapply Hrestore]. by apply keeps_wrap_call; [apply Hclient|].
  - apply keeps_log_error. by apply Hclient.
Qed.

End StorageKeeps.

(** ** Application logic *)

(** [pkg/backend/applogic.go:28-33 AppLogic] *)
Record AppLogic (S T1 : Type) : Type := MkAppLogic {
  al_Get : T1 -> M S T1;
  al_Validate : T1 -> M S string;
  al_Apply : T1 -> M S T1;
  al_Delete : T1 -> M S unit
}.
Arguments al_Get {S T1} a.
Arguments al_Validate {S T1} a.
Arguments al_Apply {S T1} a.
Arguments al_Delete {S T1} a.

(** [pkg/backend/applogic.go:40-45 ApplogicConfig] *)
Record ApplogicConfig (S T1 : Type) : Type := MkApplogicConfig {
  alc_GetHandler : option (T1 -> M S T1);
  alc_ValidateHandler : option (T1 -> M S string);
  alc_ApplyHandler : option (T1 -> M S T1);
  alc_DeleteHandler : option (T1 -> M S unit)
}.
Arguments alc_GetHandler {S T1} a.
Arguments alc_ValidateHandler {S T1} a.
Arguments alc_ApplyHandler {S T1} a.
Arguments alc_DeleteHandler {S T1} a.

(** The methods only log before they call their handler.

    [pkg/backend/applogic.go:47-96 NewApplogic] *)
Definition NewApplogic {S T1 : Type} (cfg : ApplogicConfig S T1) : result (AppLogic S T1) :=
  match alc_GetHandler cfg with
  | None => Err "cannot create applogic without a get handler"
  | Some g =>
      match alc_ValidateHandler cfg with
      | None => Err "cannot create applogic without a validate handler"
      | Some v =>
          match alc_ApplyHandler cfg with
          | None => Err "cannot create applogic without a apply handler"
          | Some a =>
              match alc_DeleteHandler cfg with
              | None => Err "cannot create applogic without a delete handler"
              | Some d => Ok (MkAppLogic S T1 g v a d)
              end
          end
      end
  end.

(** ** An API server that stores config maps

    The documented behaviour of the API server on config maps, used to state what
    is read back after a save. *)
Class CMClientLaws {S : Type} `{ErrorsAPI} (c : CMClient S) (view : S -> gmap NamespacedName ConfigMap) :
    Prop := {
  cmc_Get_found : forall s k cm, view s !! k = Some cm -> cmc_Get c k s = Ok cm;
  cmc_Get_missing : forall s k, view s !! k = None ->
    exists e, cmc_Get c k s = Err e /\ IsNotFound e = true;
  cmc_Update_found : forall s cm old, view s !! NSN (cm_Namespace cm) (cm_Name cm) = Some old ->
    exists s' v, cmc_Update c cm s = (s', Ok tt) /\
      view s' = <[NSN (cm_Namespace cm) (cm_Name cm) :=
        MkConfigMap (cm_Namespace cm) (cm_Name cm) v (cm_Data cm)]> (view s);
  cmc_keys : forall s k cm, view s !! k = Some cm -> k = NSN (cm_Namespace cm) (cm_Name cm)
}.

(** ** Serialization

    [encoding/json] and [sigs.k8s.io/yaml] on the types the backends store and
    exchange. *)
Record Codec (A : Type) : Type := MkCodec { Marshal : A -> result string; Unmarshal : string -> result A }.
Arguments Marshal {A} c.
Arguments Unmarshal {A} c.

Class CodecLaws {A} (c : Codec A) : Prop := {
  Unmarshal_Marshal : forall a, exists b, Marshal c a = Ok b /\ Unmarshal c b = Ok a
}.

(** ** Shared helpers *)

(** [errors.Wrap] of the error of a call that returns a value. *)
Definition wrap_result `{E : ErrorsAPI} {A} (m : result A) (msg : string) : result A :=
  match m with
  | Err e => match Wrap (Some e) msg with Some e' => Err e' | None => Panic end
  | r => r
  end.

(** An object of the list with the name and namespace in the labels. *)
Definition names_object (ls : labels) (name namespace : string) : bool :=
  bool_decide (label_get ls NephioNsnNameKey = name) &&
  bool_decide (label_get ls NephioNsnNamespaceKey = namespace).
