(* ===== verification/TestWorld.v ===== *)
(** * A concrete world

    An API server that keeps config maps in memory, and codecs, with which the
    models of the backends run. *)

From S2P Require Import Prelude Meta Labels Backend.

Local Open Scope Z_scope.

(** ** An API server in memory *)

Record api : Type := MkApi { api_cms : gmap NamespacedName ConfigMap }.

#[export] Instance test_errors : ErrorsAPI := {|
  Wrap e m := match e with Some e => Some (m +:+ ": " +:+ e) | None => None end;
  IsNotFound e := bool_decide (e = "not found")
|}.

Definition cm_nsn (cm : ConfigMap) : NamespacedName := NSN (cm_Namespace cm) (cm_Name cm).

Definition api_put (cm : ConfigMap) (w : api) : api :=
  MkApi (<[cm_nsn cm := cm]> (api_cms w)).

(** Config maps whose key is not their name are not served. *)
Definition api_view (w : api) : gmap NamespacedName ConfigMap :=
  filter (fun '(k, cm) => k = cm_nsn cm) (api_cms w).

Definition test_cms : CMClient api := {|
  cmc_Get k w := match api_view w !! k with Some cm => Ok cm | None => Err "not found" end;
  cmc_Create cm w := (api_put cm w, Ok tt);
  cmc_Update cm w :=
    if bool_decide (is_Some (api_view w !! cm_nsn cm)) then (api_put cm w, Ok tt) else (w, Err "not found");
  cmc_Delete cm w := (MkApi (delete (cm_nsn cm) (api_cms w)), Ok tt)
|}.

#[export] Instance test_cms_laws : CMClientLaws test_cms api_view.
Proof.
  split; cbn.
  - intros s k cm ->. done.
  - intros s k ->. by exists "not found".
  - intros s cm old Hold. exists (api_put cm s), (cm_ResourceVersion cm).
    rewrite bool_decide_eq_true_2 by by eexists. split; [done|].
    unfold api_view, api_put. cbn [api_cms]. rewrite map_filter_insert_True by done.
    by destruct cm.
  - intros s k cm Hk. by apply map_lookup_filter_Some in Hk as [_ Hk].
Qed.

(** ** Codecs *)

(** Any countable type, as a string of bits. *)
Fixpoint bits_of (p : positive) : string :=
  match p with
  | xH => EmptyString
  | xO p => String "0"%char (bits_of p)
  | xI p => String "1"%char (bits_of p)
  end.

Fixpoint of_bits (s : string) : option positive :=
  match s with
  | EmptyString => Some xH
  | String c s' =>
      if bool_decide (c = "0"%char) then xO <$> of_bits s'
      else if bool_decide (c = "1"%char) then xI <$> of_bits s' else None
  end.

Lemma of_bits_bits_of p : of_bits (bits_of p) = Some p.
Proof. induction p as [p IH|p IH|]; cbn; [by rewrite IH..|done]. Qed.

Definition bits_codec (A : Type) `{Countable A} : Codec A := {|
  Marshal a := Ok (bits_of (encode a));
  Unmarshal s := match of_bits s with
                 | Some p => match decode p with Some a => Ok a | None => Err "decode" end
                 | None => Err "decode"
                 end
|}.

#[export] Instance bits_codec_laws A `{Countable A} : CodecLaws (bits_codec A).
Proof.
  split. intros a. exists (bits_of (encode a)). cbn.
  by rewrite of_bits_bits_of, decode_encode.
Qed.

(** A decoder that always yields the same value. *)
Definition const_codec {A} (a : A) : Codec A := {| Marshal _ := Ok ""; Unmarshal _ := Ok a |}.
