(* ===== verification/VlanApi.v ===== *)
(** * apis/resource/vlan: the VLAN API types *)

From S2P Require Import Prelude Strconv Meta Labels Conditions KRM.

Local Open Scope Z_scope.

(** [apis/resource/vlan/v1alpha1/groupversion_info.go:28-35 GroupVersion] *)
Definition vlan_GroupVersion : GroupVersion := MkGroupVersion "vlan.resource.nephio.org" "v1alpha1".

(** ** VLANIndex *)

(** [apis/resource/vlan/v1alpha1/vlanindex_types.go:29-33 VLANIndexSpec] *)
Record VLANIndexSpec : Type := MkVLANIndexSpec { vis_UserDefinedLabels : UserDefinedLabels }.

(** [apis/resource/vlan/v1alpha1/vlanindex_types.go:36-43 VLANIndexStatus] *)
Record VLANIndexStatus : Type := MkVLANIndexStatus { vis_ConditionedStatus : ConditionedStatus }.

#[export, refine] Instance VLANIndexStatus_conditions : HasConditions VLANIndexStatus := {
  conditioned := vis_ConditionedStatus;
  with_conditioned := fun c _ => MkVLANIndexStatus c
}.
Proof. done. Defined.

(** [apis/resource/vlan/v1alpha1/vlanindex_types.go:52-58 VLANIndex] *)
Definition VLANIndex : Type := KRM VLANIndexSpec VLANIndexStatus.

(** [apis/resource/vlan/v1alpha1/vlanindex_types.go:73-83 VLANIndexKind] *)
Definition VLANIndexKind : string := "VLANIndex".

(** [apis/resource/vlan/v1alpha1/vlanindex_interfaces.go:27-29 VLANIndex.GetCondition] *)
Definition VLANIndex_GetCondition (r : VLANIndex) (ct : string) : Condition := krm_GetCondition r ct.

(** [apis/resource/vlan/v1alpha1/vlanindex_interfaces.go:33-35 VLANIndex.SetConditions] *)
Definition VLANIndex_SetConditions (r : VLANIndex) (c : list Condition) : VLANIndex :=
  krm_SetConditions r c.

(** [apis/resource/vlan/v1alpha1/vlanindex_interfaces.go:38-43 VLANIndex.GetNamespacedName] *)
Definition VLANIndex_GetNamespacedName (r : VLANIndex) : NamespacedName := krm_nsn r.

(** [apis/resource/vlan/v1alpha1/vlanindex_interfaces.go:47-52 VLANIndex.GetGenericNamespacedName] *)
Definition VLANIndex_GetGenericNamespacedName (r : VLANIndex) : string :=
  GetGenericNamespacedName (NSN (GetNamespace r) (GetName r)).

(** [apis/resource/vlan/v1alpha1/vlanindex_interfaces.go:55-57 VLANIndex.GetUserDefinedLabels] *)
Definition VLANIndex_GetUserDefinedLabels (r : VLANIndex) : labels :=
  udl_GetUserDefinedLabels (vis_UserDefinedLabels (spec r)).

(** [apis/resource/vlan/v1alpha1/vlanindex_interfaces.go:60-62 VLANIndex.GetCacheID] *)
Definition VLANIndex_GetCacheID (r : VLANIndex) : ObjectReference :=
  GetCacheID (ObjRef "" (GetNamespace r) (GetName r) "" "" "" "").

(** [apis/resource/vlan/v1alpha1/vlanindex_interfaces.go:66-76 BuildVLANIndex] *)
Definition BuildVLANIndex (m : ObjectMeta) (s : VLANIndexSpec) (st : VLANIndexStatus) : VLANIndex :=
  MkKRM (MkObject (WithKind vlan_GroupVersion VLANIndexKind) m) s st.

(** ** VLAN *)

(** [apis/resource/vlan/v1alpha1/vlan_types.go:30-40 VLANSpec] *)
Record VLANSpec : Type := MkVLANSpec {
  vs_VLANIndex : ObjectReference;
  vs_VLANID : option Z;
  vs_VLANRange : option string;
  vs_UserDefinedLabels : UserDefinedLabels
}.

(** [apis/resource/vlan/v1alpha1/vlan_types.go:43-54 VLANStatus] *)
Record VLANStatus : Type := MkVLANStatus {
  vst_ConditionedStatus : ConditionedStatus;
  vst_VLANID : option Z;
  vst_VLANRange : option string
}.

#[export, refine] Instance VLANStatus_conditions : HasConditions VLANStatus := {
  conditioned := vst_ConditionedStatus;
  with_conditioned := fun c s => MkVLANStatus c (vst_VLANID s) (vst_VLANRange s)
}.
Proof. done. Defined.

(** [apis/resource/vlan/v1alpha1/vlan_types.go:65-71 VLAN] *)
Definition VLAN : Type := KRM VLANSpec VLANStatus.

(** [apis/resource/vlan/v1alpha1/vlan_types.go:86-90 VLANKind] *)
Definition VLANKind : string := "VLAN".

(** [apis/resource/vlan/v1alpha1/vlan_types.go:91-96 VLANKindGVKString] *)
Definition VLANKindGVKString : string := GVKToString (WithKind vlan_GroupVersion VLANKind).

(** [apis/resource/vlan/v1alpha1/vlan_interfaces.go:26-28 VLAN.GetCondition] *)
Definition VLAN_GetCondition (r : VLAN) (t : string) : Condition := krm_GetCondition r t.

(** [apis/resource/vlan/v1alpha1/vlan_interfaces.go:32-34 VLAN.SetConditions] *)
Definition VLAN_SetConditions (r : VLAN) (c : list Condition) : VLAN := krm_SetConditions r c.

(** [apis/resource/vlan/v1alpha1/vlan_interfaces.go:38-43 VLAN.GetGenericNamespacedName] *)
Definition VLAN_GetGenericNamespacedName (r : VLAN) : string :=
  GetGenericNamespacedName (NSN (GetNamespace r) (GetName r)).

(** [apis/resource/vlan/v1alpha1/vlan_interfaces.go:46-48 VLAN.GetCacheID] *)
Definition VLAN_GetCacheID (r : VLAN) : ObjectReference := GetCacheID (vs_VLANIndex (spec r)).

(** [apis/resource/vlan/v1alpha1/vlan_interfaces.go:51-53 VLAN.GetUserDefinedLabels] *)
Definition VLAN_GetUserDefinedLabels (r : VLAN) : labels :=
  udl_GetUserDefinedLabels (vs_UserDefinedLabels (spec r)).

(** ** VLANClaim *)

(** [apis/resource/vlan/v1alpha1/vlanclaim_types.go:30-40 VLANClaimSpec] *)
Record VLANClaimSpec : Type := MkVLANClaimSpec {
  vcs_VLANIndex : ObjectReference;
  vcs_VLANID : option Z;
  vcs_VLANRange : option string;
  vcs_ClaimLabels : ClaimLabels
}.

(** [apis/resource/vlan/v1alpha1/vlanclaim_types.go:43-57 VLANClaimStatus] *)
Record VLANClaimStatus : Type := MkVLANClaimStatus {
  vct_ConditionedStatus : ConditionedStatus;
  vct_VLANID : option Z;
  vct_VLANRange : option string;
  vct_ExpiryTime : string
}.

#[export, refine] Instance VLANClaimStatus_conditions : HasConditions VLANClaimStatus := {
  conditioned := vct_ConditionedStatus;
  with_conditioned := fun c s => MkVLANClaimStatus c (vct_VLANID s) (vct_VLANRange s) (vct_ExpiryTime s)
}.
Proof. done. Defined.

(** [apis/resource/vlan/v1alpha1/vlanclaim_types.go:68-74 VLANClaim] *)
Definition VLANClaim : Type := KRM VLANClaimSpec VLANClaimStatus.

(** [apis/resource/vlan/v1alpha1/vlanclaim_types.go:89-93 VLANClaimKind] *)
Definition VLANClaimKind : string := "VLANClaim".

(** [apis/resource/vlan/v1alpha1/vlanclaim_types.go:94-99 VLANClaimKindGVKString] *)
Definition VLANClaimKindGVKString : string := GVKToString (WithKind vlan_GroupVersion VLANClaimKind).

(** [apis/resource/vlan/v1alpha1/vlanclaim_interfaces.go:32-34 VLANClaim.GetCondition] *)
Definition VLANClaim_GetCondition (r : VLANClaim) (t : string) : Condition := krm_GetCondition r t.

(** [apis/resource/vlan/v1alpha1/vlanclaim_interfaces.go:38-40 VLANClaim.SetConditions] *)
Definition VLANClaim_SetConditions (r : VLANClaim) (c : list Condition) : VLANClaim :=
  krm_SetConditions r c.

(** [apis/resource/vlan/v1alpha1/vlanclaim_interfaces.go:44-49 VLANClaim.GetGenericNamespacedName] *)
Definition VLANClaim_GetGenericNamespacedName (r : VLANClaim) : string :=
  GetGenericNamespacedName (NSN (GetNamespace r) (GetName r)).

(** [apis/resource/vlan/v1alpha1/vlanclaim_interfaces.go:52-54 VLANClaim.GetCacheID] *)
Definition VLANClaim_GetCacheID (r : VLANClaim) : ObjectReference := GetCacheID (vcs_VLANIndex (spec r)).

(** [apis/resource/vlan/v1alpha1/vlanclaim_interfaces.go:57-59 VLANClaim.GetUserDefinedLabels] *)
Definition VLANClaim_GetUserDefinedLabels (r : VLANClaim) : labels :=
  GetUserDefinedLabels (vcs_ClaimLabels (spec r)).

(** [apis/resource/vlan/v1alpha1/vlanclaim_interfaces.go:62-64 VLANClaim.GetSelectorLabels] *)
Definition VLANClaim_GetSelectorLabels (r : VLANClaim) : labels :=
  GetSelectorLabels (vcs_ClaimLabels (spec r)).

(** [apis/resource/vlan/v1alpha1/vlanclaim_interfaces.go:67-69 VLANClaim.GetFullLabels] *)
Definition VLANClaim_GetFullLabels (r : VLANClaim) : labels := GetFullLabels (vcs_ClaimLabels (spec r)).

(** [apis/resource/vlan/v1alpha1/vlanclaim_interfaces.go:72-74 VLANClaim.GetLabelSelector] *)
Definition VLANClaim_GetLabelSelector `{LabelsAPI} (r : VLANClaim) : result Selector :=
  GetLabelSelector (vcs_ClaimLabels (spec r)).

(** [apis/resource/vlan/v1alpha1/vlanclaim_interfaces.go:77-79 VLANClaim.GetOwnerSelector] *)
Definition VLANClaim_GetOwnerSelector `{LabelsAPI} (r : VLANClaim) : result Selector :=
  GetOwnerSelector (vcs_ClaimLabels (spec r)).

(** The four kinds of claim.

    [apis/resource/vlan/v1alpha1/vlan_claim_types.go:19-26 VLANClaimType] *)
Inductive VLANClaimType : Type :=
| VLANClaimTypeDynamic
| VLANClaimTypeStatic
| VLANClaimTypeSize
| VLANClaimTypeRange.

(** [apis/resource/vlan/v1alpha1/vlanclaim_interfaces.go:81-85 VLANClaimCtx] *)
Record VLANClaimCtx : Type := MkVLANClaimCtx { vctx_Kind : VLANClaimType; vctx_Start : Z; vctx_Size : Z }.

(** [apis/resource/vlan/v1alpha1/vlanclaim_interfaces.go:87-128 VLANClaim.GetVLANClaimCtx] *)
Definition GetVLANClaimCtx (r : VLANClaim) : result VLANClaimCtx :=
  match vcs_VLANID (spec r) with
  | Some id => Ok (MkVLANClaimCtx VLANClaimTypeStatic id 0)
  | None =>
      match vcs_VLANRange (spec r) with
      | Some range =>
          match split_on ":"%char range with
          | [a] =>
              s ← Atoi a;
              Ok (MkVLANClaimCtx VLANClaimTypeSize 0 (wrap uint16 s))
          | [a; b] =>
              s ← Atoi a;
              e ← Atoi b;
              if bool_decide (e < s) then
                Err ("VLAN range " +:+ range +:+ " end " +:+ pretty e +:+
                     " can not be smaller than start " +:+ pretty s)
              else
                Ok (MkVLANClaimCtx VLANClaimTypeRange (wrap uint16 s)
                      (wrap uint16 (wrap uint16 e - wrap uint16 s + 1)))
          | _ => Err ("VLAN range can either be start:end or size, got: " +:+ range)
          end
      | None => Ok (MkVLANClaimCtx VLANClaimTypeDynamic 0 0)
      end
  end.

(** [apis/resource/vlan/v1alpha1/vlanclaim_interfaces.go:132-139 VLANClaim.AddOwnerLabelsToCR] *)
Definition VLANClaim_AddOwnerLabelsToCR (r : VLANClaim) : VLANClaim :=
  with_spec (fun s => MkVLANClaimSpec (vcs_VLANIndex s) (vcs_VLANID s) (vcs_VLANRange s)
    (add_owner_labels (krm_Object r) (vcs_ClaimLabels s))) r.

(** [apis/resource/vlan/v1alpha1/vlanclaim_interfaces.go:143-153 BuildVLANClaim] *)
Definition BuildVLANClaim (m : ObjectMeta) (s : VLANClaimSpec) (st : VLANClaimStatus) : VLANClaim :=
  MkKRM (MkObject (WithKind vlan_GroupVersion VLANClaimKind) m) s st.

(** ** Properties *)

(** A claim for the VLANs [s] to [e], written the way a user writes it. *)
Definition range_string (s e : Z) : string := pretty s +:+ String ":"%char (pretty e).

(** A range claim [s:e] on VLANs is decoded to its start and the number of VLANs
    in it, when both ends are 16-bit numbers in order and the range is not the
    whole of the 16-bit numbers. *)
Theorem GetVLANClaimCtx_range r s e :
  vcs_VLANID (spec r) = None -> vcs_VLANRange (spec r) = Some (range_string s e) ->
  0 <= s <= e -> e < 65536 -> e - s + 1 < 65536 ->
  GetVLANClaimCtx r = Ok (MkVLANClaimCtx VLANClaimTypeRange s (e - s + 1)).
Proof.
  intros Hid Hr Hs He Hse. unfold GetVLANClaimCtx. rewrite Hid, Hr. unfold range_string.
  rewrite split_on_app, split_on_none by first [done|apply pretty_all_digits; lia].
  rewrite !Atoi_pretty by (rewrite int64_max; lia). cbn [mbind result_bind].
  rewrite bool_decide_eq_false_2 by lia.
  pose proof (wrap_unsigned uint16) as Hw. unfold it_size in Hw. cbn in Hw.
  rewrite !Hw by (rewrite ?Hw by lia; lia). done.
Qed.

(** Numbers in a claim that do not fit 16 bits are not refused but reduced modulo
    65536: a claim of [65536 + n] VLANs is processed as a claim of [n] VLANs. *)
Theorem GetVLANClaimCtx_size_truncated r n :
  vcs_VLANID (spec r) = None -> vcs_VLANRange (spec r) = Some (pretty (65536 + n)) ->
  0 <= n < 65536 ->
  GetVLANClaimCtx r = Ok (MkVLANClaimCtx VLANClaimTypeSize 0 n).
Proof.
  intros Hid Hr Hn. unfold GetVLANClaimCtx. rewrite Hid, Hr.
  rewrite split_on_none by first [done|apply pretty_all_digits; lia].
  rewrite Atoi_pretty by (rewrite int64_max; lia). cbn [mbind result_bind].
  unfold wrap, it_min, it_size. cbn. rewrite !Z.sub_0_r, Z.add_0_r.
  replace (65536 + n) with (n + 1 * 65536) by lia. rewrite Z.mod_add, Z.mod_small by lia. done.
Qed.

Definition sample_meta (ns n : string) : ObjectMeta :=
  MkObjectMeta n "" ns "" "" None None None [] [].

Definition sample_vlanclaim (ns n : string) (id : option Z) (range : option string) : VLANClaim :=
  VLANClaim_AddOwnerLabelsToCR
    (BuildVLANClaim (sample_meta ns n)
       (MkVLANClaimSpec (ObjRef "" "dummy" "a" "" "" "" "") id range
          (MkClaimLabels (MkUserDefinedLabels None) None))
       (MkVLANClaimStatus (MkConditionedStatus []) None None "")).

Lemma GetVLANClaimCtx_range_witness :
  GetVLANClaimCtx (sample_vlanclaim "dummy" "x" None (Some "100:199")) =
  Ok (MkVLANClaimCtx VLANClaimTypeRange 100 100).
Proof. apply (GetVLANClaimCtx_range _ 100 199); [done|by_compute|lia..]. Defined.

Lemma GetVLANClaimCtx_size_truncated_witness :
  GetVLANClaimCtx (sample_vlanclaim "dummy" "x" None (Some "65546")) =
  Ok (MkVLANClaimCtx VLANClaimTypeSize 0 10).
Proof. apply (GetVLANClaimCtx_size_truncated _ 10); [done|by_compute|lia]. Defined.
