(* ===== verification/VxlanApi.v ===== *)
(** * apis/resource/vxlan: the VXLAN API types

    The shape is that of the VLAN types; there is no backend for them yet. *)

From S2P Require Import Prelude Meta Labels Conditions KRM.

Local Open Scope Z_scope.

(** ** VXLANIndex *)

(** [apis/resource/vxlan/v1alpha1/groupversion_info.go:28-29 GroupVersion] *)
Definition vxlan_GroupVersion : GroupVersion := MkGroupVersion "vxlan.resource.nephio.org" "v1alpha1".

(** [apis/resource/vxlan/v1alpha1/vxlanindex_types.go:29-37 VXLANIndexSpec] *)
Record VXLANIndexSpec : Type := MkVXLANIndexSpec {
  xis_Offset : Z;
  xis_MaxEntryID : Z;
  xis_UserDefinedLabels : UserDefinedLabels
}.

(** [apis/resource/vxlan/v1alpha1/vxlanindex_types.go:40-47 VXLANIndexStatus] *)
Record VXLANIndexStatus : Type := MkVXLANIndexStatus { xis_ConditionedStatus : ConditionedStatus }.

#[export, refine] Instance VXLANIndexStatus_conditions : HasConditions VXLANIndexStatus := {
  conditioned := xis_ConditionedStatus;
  with_conditioned := fun c _ => MkVXLANIndexStatus c
}.
Proof. done. Defined.

(** [apis/resource/vxlan/v1alpha1/vxlanindex_types.go:56-62 VXLANIndex] *)
Definition VXLANIndex : Type := KRM VXLANIndexSpec VXLANIndexStatus.

(** [apis/resource/vxlan/v1alpha1/vxlanindex_types.go:78-78 VXLANIndexKind] *)
Definition VXLANIndexKind : string := "VXLANIndex".

(** [apis/resource/vxlan/v1alpha1/vxlanindex_types.go:82-86 VXLANIndexKindGVKString] *)
Definition VXLANIndexKindGVKString : string := GVKToString (WithKind vxlan_GroupVersion VXLANIndexKind).

(** [apis/resource/vxlan/v1alpha1/vxlanindex_interfaces.go:27-29 VXLANIndex.GetCondition] *)
Definition VXLANIndex_GetCondition (r : VXLANIndex) (t : string) : Condition := krm_GetCondition r t.

(** [apis/resource/vxlan/v1alpha1/vxlanindex_interfaces.go:33-35 VXLANIndex.SetConditions] *)
Definition VXLANIndex_SetConditions (r : VXLANIndex) (c : list Condition) : VXLANIndex := krm_SetConditions r c.

(** [apis/resource/vxlan/v1alpha1/vxlanindex_interfaces.go:38-43 VXLANIndex.GetNamespacedName] *)
Definition VXLANIndex_GetNamespacedName (r : VXLANIndex) : NamespacedName := NSN (GetNamespace r) (GetName r).

(** [apis/resource/vxlan/v1alpha1/vxlanindex_interfaces.go:47-52 VXLANIndex.GetGenericNamespacedName] *)
Definition VXLANIndex_GetGenericNamespacedName (r : VXLANIndex) : string :=
  GetGenericNamespacedName (NSN (GetNamespace r) (GetName r)).

(** [apis/resource/vxlan/v1alpha1/vxlanindex_interfaces.go:60-62 VXLANIndex.GetCacheID] *)
Definition VXLANIndex_GetCacheID (r : VXLANIndex) : ObjectReference :=
  GetCacheID (ObjRef "" (GetNamespace r) (GetName r) "" "" "" "").

(** [apis/resource/vxlan/v1alpha1/vxlanindex_interfaces.go:55-57 VXLANIndex.GetUserDefinedLabels] *)
Definition VXLANIndex_GetUserDefinedLabels (r : VXLANIndex) : labels :=
  udl_GetUserDefinedLabels (xis_UserDefinedLabels (spec r)).

(** [apis/resource/vxlan/v1alpha1/vxlanindex_interfaces.go:66-76 BuildVXLANIndex] *)
Definition BuildVXLANIndex (m : ObjectMeta) (s : VXLANIndexSpec) (st : VXLANIndexStatus) : VXLANIndex :=
  MkKRM (MkObject (WithKind vxlan_GroupVersion VXLANIndexKind) m) s st.

(** ** VXLANClaim *)

(** [apis/resource/vxlan/v1alpha1/vxlanclaim_types.go:30-36 VXLANClaimSpec] *)
Record VXLANClaimSpec : Type := MkVXLANClaimSpec {
  xcs_VXLANIndex : ObjectReference;
  xcs_ClaimLabels : ClaimLabels
}.

(** [apis/resource/vxlan/v1alpha1/vxlanclaim_types.go:39-51 VXLANClaimStatus] *)
Record VXLANClaimStatus : Type := MkVXLANClaimStatus {
  xct_ConditionedStatus : ConditionedStatus;
  xct_VXLANID : option Z;
  xct_ExpiryTime : string
}.

#[export, refine] Instance VXLANClaimStatus_conditions : HasConditions VXLANClaimStatus := {
  conditioned := xct_ConditionedStatus;
  with_conditioned := fun c s => MkVXLANClaimStatus c (xct_VXLANID s) (xct_ExpiryTime s)
}.
Proof. done. Defined.

(** [apis/resource/vxlan/v1alpha1/vxlanclaim_types.go:62-68 VXLANClaim] *)
Definition VXLANClaim : Type := KRM VXLANClaimSpec VXLANClaimStatus.

(** [apis/resource/vxlan/v1alpha1/vxlanclaim_types.go:84-84 VXLANClaimKind] *)
Definition VXLANClaimKind : string := "VXLANClaim".

(** [apis/resource/vxlan/v1alpha1/vxlanclaim_types.go:88-92 VXLANClaimKindGVKString] *)
Definition VXLANClaimKindGVKString : string := GVKToString (WithKind vxlan_GroupVersion VXLANClaimKind).

(** [apis/resource/vxlan/v1alpha1/vxlanclaim_interfaces.go:28-30 VXLANClaim.GetCondition] *)
Definition VXLANClaim_GetCondition (r : VXLANClaim) (t : string) : Condition := krm_GetCondition r t.

(** [apis/resource/vxlan/v1alpha1/vxlanclaim_interfaces.go:34-36 VXLANClaim.SetConditions] *)
Definition VXLANClaim_SetConditions (r : VXLANClaim) (c : list Condition) : VXLANClaim := krm_SetConditions r c.

(** [apis/resource/vxlan/v1alpha1/vxlanclaim_interfaces.go:40-45 VXLANClaim.GetGenericNamespacedName] *)
Definition VXLANClaim_GetGenericNamespacedName (r : VXLANClaim) : string :=
  GetGenericNamespacedName (NSN (GetNamespace r) (GetName r)).

(** [apis/resource/vxlan/v1alpha1/vxlanclaim_interfaces.go:48-50 VXLANClaim.GetCacheID] *)
Definition VXLANClaim_GetCacheID (r : VXLANClaim) : ObjectReference :=
  GetCacheID (xcs_VXLANIndex (spec r)).

(** [apis/resource/vxlan/v1alpha1/vxlanclaim_interfaces.go:53-55 VXLANClaim.GetUserDefinedLabels] *)
Definition VXLANClaim_GetUserDefinedLabels (r : VXLANClaim) : labels :=
  GetUserDefinedLabels (xcs_ClaimLabels (spec r)).

(** [apis/resource/vxlan/v1alpha1/vxlanclaim_interfaces.go:58-60 VXLANClaim.GetSelectorLabels] *)
Definition VXLANClaim_GetSelectorLabels (r : VXLANClaim) : labels := GetSelectorLabels (xcs_ClaimLabels (spec r)).

(** [apis/resource/vxlan/v1alpha1/vxlanclaim_interfaces.go:63-65 VXLANClaim.GetFullLabels] *)
Definition VXLANClaim_GetFullLabels (r : VXLANClaim) : labels := GetFullLabels (xcs_ClaimLabels (spec r)).

(** [apis/resource/vxlan/v1alpha1/vxlanclaim_interfaces.go:68-70 VXLANClaim.GetLabelSelector] *)
Definition VXLANClaim_GetLabelSelector `{LabelsAPI} (r : VXLANClaim) : result Selector :=
  GetLabelSelector (xcs_ClaimLabels (spec r)).

(** [apis/resource/vxlan/v1alpha1/vxlanclaim_interfaces.go:73-75 VXLANClaim.GetOwnerSelector] *)
Definition VXLANClaim_GetOwnerSelector `{LabelsAPI} (r : VXLANClaim) : result Selector :=
  GetOwnerSelector (xcs_ClaimLabels (spec r)).

(** [apis/resource/vxlan/v1alpha1/vxlanclaim_interfaces.go:79-86 VXLANClaim.AddOwnerLabelsToCR] *)
Definition VXLANClaim_AddOwnerLabelsToCR (r : VXLANClaim) : VXLANClaim :=
  with_spec (fun s => MkVXLANClaimSpec (xcs_VXLANIndex s)
    (add_owner_labels (krm_Object r) (xcs_ClaimLabels s))) r.

(** [apis/resource/vxlan/v1alpha1/vxlanclaim_interfaces.go:90-100 BuildVXLANClaim] *)
Definition BuildVXLANClaim (m : ObjectMeta) (s : VXLANClaimSpec) (st : VXLANClaimStatus) : VXLANClaim :=
  MkKRM (MkObject (WithKind vxlan_GroupVersion VXLANClaimKind) m) s st.

(** There is one kind of claim.

    [apis/resource/vxlan/v1alpha1/vxlanclaim_interfaces.go:112-119 VXLANClaimType] *)
Inductive VXLANClaimType : Type := VXLANClaimTypeDynamic.

(** [apis/resource/vxlan/v1alpha1/vxlanclaim_interfaces.go:106-110 VXLANClaimCtx] *)
Record VXLANClaimCtx : Type := MkVXLANClaimCtx { xctx_Kind : VXLANClaimType }.

(** [apis/resource/vxlan/v1alpha1/vxlanclaim_interfaces.go:102-104 VXLANClaim.GetVXLANClaimCtx] *)
Definition GetVXLANClaimCtx (r : VXLANClaim) : result VXLANClaimCtx := Ok (MkVXLANClaimCtx VXLANClaimTypeDynamic).

(** The labels of the owner win over labels of the user, and the others stay. *)
Lemma VXLANClaim_owner_labels (r : VXLANClaim) k :
  VXLANClaim_GetUserDefinedLabels (VXLANClaim_AddOwnerLabelsToCR r) !! k =
  match GetHierOwnerLabelsFromCR (krm_Object r) !! k with
  | Some v => Some v
  | None => VXLANClaim_GetUserDefinedLabels r !! k
  end.
Proof.
  destruct r as [o [i [[u] sel]] st]. cbn. rewrite lookup_union. destruct (_ !! k) as [v|]; [by destruct (_ !! k)|by destruct (_ !! k)].
Qed.
