(* ===== verification/VlanBackend.v ===== *)
(** * pkg/backend/vlan: the VLAN backend

    The backend serves claims on the VLAN databases of its cache. The handlers of
    a claim run on one database ([M db]); the backend operations run on the whole
    state: the cache and the API server. *)

From S2P Require Import Prelude Strconv Meta Labels Conditions KRM DB Backend VlanApi.
From stdpp Require Import relations.

Local Open Scope Z_scope.

(** ** Handlers *)

Definition set_VLANID (id : Z) (claim : VLANClaim) : VLANClaim :=
  with_status (fun s => MkVLANClaimStatus (vct_ConditionedStatus s) (Some id) (vct_VLANRange s)
    (vct_ExpiryTime s)) claim.
Definition set_VLANRange (range : string) (claim : VLANClaim) : VLANClaim :=
  with_status (fun s => MkVLANClaimStatus (vct_ConditionedStatus s) (vct_VLANID s) (Some range)
    (vct_ExpiryTime s)) claim.

Section Handlers.
Context `{L : LabelsAPI}.

(** [pkg/backend/vlan/applogic_get.go:11-18 getHandlerSingleVlan] *)
Definition getHandlerSingleVlan (entries : list entry) (claim : VLANClaim) : result VLANClaim :=
  if bool_decide (1 < length entries)%nat then
    Err ("get for single entry returned multiple: " +:+ entries_string entries)
  else
    e ← index entries 0;
    Ok (set_VLANID (ID e) claim).

(** [pkg/backend/vlan/applogic_get.go:20-23 getHandlerMultipleVlan] *)
Definition getHandlerMultipleVlan (entries : list entry) (claim : VLANClaim) : result VLANClaim :=
  Ok claim.

(** [pkg/backend/vlan/applogic_apply.go:11-18 applyHandlerDynamicVlan] *)
Definition applyHandlerDynamicVlan (entries : list entry) (claim : VLANClaim) : result VLANClaim :=
  if bool_decide (1 < length entries)%nat then
    Err ("claim for single entry returned multiple: " +:+ entries_string entries)
  else
    e ← index entries 0;
    Ok (set_VLANID (ID e) claim).

(** [pkg/backend/vlan/applogic_apply.go:20-32 applyHandlerStaticVlan] *)
Definition applyHandlerStaticVlan (entries : list entry) (claim : VLANClaim) : result VLANClaim :=
  if bool_decide (1 < length entries)%nat then
    Err ("claim for single entry returned multiple: " +:+ entries_string entries)
  else
    match vct_VLANID (status claim) with
    | None =>
        e ← index entries 0;
        Ok (set_VLANID (ID e) claim)
    | Some id =>
        e ← index entries 0;
        if bool_decide (id = ID e) then Ok (set_VLANID (ID e) claim)
        else Err "vlan claim with a different vlan ID"
    end.

(** [pkg/backend/vlan/applogic_apply.go:34-38 applyHandlerMultipleVlan] *)
Definition applyHandlerMultipleVlan (entries : list entry) (claim : VLANClaim) : result VLANClaim :=
  Ok claim.

(** [pkg/backend/vlan/applogic_apply.go:40-51 applyHandlerNewDynamicVlan] *)
Definition applyHandlerNewDynamicVlan (vctx : VLANClaimCtx) (claim : VLANClaim) : M db VLANClaim :=
  t ← get_state;
  e ← lift (db_FindFree uint16 t);
  let e := NewEntry (ID e) (Some (VLANClaim_GetUserDefinedLabels claim)) in
  _ ← db_Set e;
  mret (set_VLANID (ID e) claim).

(** [pkg/backend/vlan/applogic_apply.go:53-64 applyHandlerNewStaticVlan] *)
Definition applyHandlerNewStaticVlan (vctx : VLANClaimCtx) (claim : VLANClaim) : M db VLANClaim :=
  t ← get_state;
  e ← lift (db_FindFreeID uint16 (vctx_Start vctx) t);
  let e := NewEntry (ID e) (Some (VLANClaim_GetUserDefinedLabels claim)) in
  _ ← db_Set e;
  mret (set_VLANID (ID e) claim).

(** The identifiers found are not stored.

    [pkg/backend/vlan/applogic_apply.go:66-73 applyHandlerNewVlanRange] *)
Definition applyHandlerNewVlanRange (vctx : VLANClaimCtx) (claim : VLANClaim) : M db VLANClaim :=
  t ← get_state;
  _ ← lift (db_FindFreeRange uint16 (vctx_Start vctx) (vctx_Size vctx) t);
  mret (set_VLANRange (pretty (vctx_Start vctx) +:+ String ":"%char
    (pretty (wrap uint16 (vctx_Start vctx + vctx_Size vctx - 1)))) claim).

(** [pkg/backend/vlan/applogic_apply.go:75-82 applyHandlerNewVlanSize] *)
Definition applyHandlerNewVlanSize (vctx : VLANClaimCtx) (claim : VLANClaim) : M db VLANClaim :=
  t ← get_state;
  _ ← lift (db_FindFreeSize uint16 (vctx_Size vctx) t);
  mret (set_VLANRange "TBD update status " claim).

(** [pkg/backend/vlan/applogic.go:70-74 applogicFunctionConfig] *)
Record applogicFunctionConfig : Type := MkFunctionConfig {
  fc_getHandler : option (list entry -> VLANClaim -> result VLANClaim);
  fc_applyHandlerFound : option (list entry -> VLANClaim -> result VLANClaim);
  fc_applyHandlerNew : option (VLANClaimCtx -> VLANClaim -> M db VLANClaim)
}.

(** The handler table of [newVLANApplogic]. *)
Definition fnc (k : VLANClaimType) : applogicFunctionConfig :=
  match k with
  | VLANClaimTypeDynamic =>
      MkFunctionConfig (Some getHandlerSingleVlan) (Some applyHandlerDynamicVlan)
        (Some applyHandlerNewDynamicVlan)
  | VLANClaimTypeStatic =>
      MkFunctionConfig (Some getHandlerSingleVlan) (Some applyHandlerStaticVlan)
        (Some applyHandlerNewStaticVlan)
  | VLANClaimTypeRange =>
      MkFunctionConfig (Some getHandlerMultipleVlan) (Some applyHandlerMultipleVlan)
        (Some applyHandlerNewVlanRange)
  | VLANClaimTypeSize =>
      MkFunctionConfig (Some getHandlerMultipleVlan) (Some applyHandlerMultipleVlan)
        (Some applyHandlerNewVlanSize)
  end.

(** [pkg/backend/vlan/applogic.go:137-147 applogic.getEntriesByOwner] *)
Definition getEntriesByOwner (a : VLANClaim) : M db (list entry) :=
  ownerSelector ← lift (VLANClaim_GetOwnerSelector a);
  t ← get_state;
  lift (db_GetByLabel ownerSelector t).

(** [pkg/backend/vlan/applogic.go:76-91 applogic.GetHandler] *)
Definition vlan_GetHandler (vctx : VLANClaimCtx) (a : VLANClaim) : M db VLANClaim :=
  entries ← getEntriesByOwner a;
  match entries, fc_getHandler (fnc (vctx_Kind vctx)) with
  | _ :: _, Some h => lift (h entries a)
  | _, _ => mret a
  end.

(** [pkg/backend/vlan/applogic.go:93-96 applogic.ValidateHandler] *)
Definition vlan_ValidateHandler (vctx : VLANClaimCtx) (a : VLANClaim) : M db string := mret "".

(** [pkg/backend/vlan/applogic.go:98-121 applogic.ApplyHandler] *)
Definition vlan_ApplyHandler (vctx : VLANClaimCtx) (a : VLANClaim) : M db VLANClaim :=
  entries ← getEntriesByOwner a;
  let new :=
    match fc_applyHandlerNew (fnc (vctx_Kind vctx)) with
    | Some h => h vctx a
    | None => mret a
    end in
  match entries, fc_applyHandlerFound (fnc (vctx_Kind vctx)) with
  | _ :: _, Some h => lift (h entries a)
  | _, _ => new
  end.

(** [pkg/backend/vlan/applogic.go:123-135 applogic.DeleteHandler] *)
Definition vlan_DeleteHandler (vctx : VLANClaimCtx) (a : VLANClaim) : M db unit :=
  entries ← getEntriesByOwner a;
  forM entries (fun e => db_Delete (ID e)).

(** [pkg/backend/vlan/applogic.go:28-62 newVLANApplogic] *)
Definition newVLANApplogic (vctx : VLANClaimCtx) : result (AppLogic db VLANClaim) :=
  NewApplogic (MkApplogicConfig db VLANClaim
    (Some (vlan_GetHandler vctx)) (Some (vlan_ValidateHandler vctx))
    (Some (vlan_ApplyHandler vctx)) (Some (vlan_DeleteHandler vctx))).

End Handlers.

(** ** The backend *)

(** The API server, as the backend uses it. *)
Record VlanClient (W : Type) : Type := MkVlanClient {
  vc_ConfigMaps : CMClient W;
  vc_ListVLANs : W -> result (list VLAN);
  vc_ListVLANClaims : W -> result (list VLANClaim)
}.
Arguments vc_ConfigMaps {W} v.
Arguments vc_ListVLANs {W} v.
Arguments vc_ListVLANClaims {W} v.

Section Backend.
Context {W : Type} `{L : LabelsAPI} `{E : ErrorsAPI}.
Context (client : option (VlanClient W)).
Context (yaml : Codec (gmap Z labels)) (json_claim : Codec VLANClaim) (json_index : Codec VLANIndex).

(** The state a backend works on. *)
Record vstate : Type := MkVState { v_cache : caches db; v_world : W }.

Definition on_world {A} (m : M W A) : M vstate A := fun s =>
  let '(w, r) := m (v_world s) in (MkVState (v_cache s) w, r).
Definition on_cache {A} (m : M (caches db) A) : M vstate A := fun s =>
  let '(c, r) := m (v_cache s) in (MkVState c (v_world s), r).

(** An operation through the pointer the cache returned for [id]; it is only used
    after a [Get] of [id] has succeeded. *)
Definition on_table {A} (id : ObjectReference) (m : M db A) : M vstate A := fun s =>
  match v_cache s !! id with
  | Some c =>
      let '(t, r) := m (instance c) in
      (MkVState (<[id := MkCacheContext (initialized c) t]> (v_cache s)) (v_world s), r)
  | None => (s, Panic)
  end.

Definition lift_cm (c : CMClient W) : CMClient vstate :=
  MkCMClient vstate (fun k s => cmc_Get c k (v_world s)) (fun cm => on_world (cmc_Create c cm))
    (fun cm => on_world (cmc_Update c cm)) (fun cm => on_world (cmc_Delete c cm)).

(** *** Storage *)

(** A failure to marshal is only logged.

    [pkg/backend/vlan/storage_cm.go:78-95 cm.GetData] *)
Definition vlan_GetData (ref : ObjectReference) : M vstate string :=
  s ← get_state;
  ca ← lift (cache_Get ref false (v_cache s));
  entries ← lift (db_GetAll ca);
  let data := foldl (fun d e => <[ID e := Labels e]> d) (∅ : gmap Z labels) entries in
  match Marshal yaml data with
  | Ok b => mret b
  | Err _ => mret ""
  | Panic => panic
  end.

(** A mismatch of the VLAN identifiers is only logged. The error of [Set] is
    ignored.

    [pkg/backend/vlan/storage_cm.go:149-172 cm.restoreStaticVLANs] *)
Definition restoreStaticVLANs (vlanList : list VLAN) (vlanID : Z) (ls : labels) : M db unit :=
  forM vlanList (fun vlan =>
    if names_object ls (GetName vlan) (GetNamespace vlan) then
      _ ← lift (deref (vs_VLANID (spec vlan)));
      log_error (db_Set (NewEntry vlanID (Some ls)))
    else mret tt).

(** [pkg/backend/vlan/storage_cm.go:174-203 cm.restoreDynamicVLANs] *)
Definition restoreDynamicVLANs (claimList : list VLANClaim) (vlanID : Z) (ls : labels) : M db unit :=
  forM claimList (fun claim =>
    if names_object ls (GetName claim) (GetNamespace claim) then
      log_error (db_Set (NewEntry vlanID (Some ls)))
    else mret tt).

(** The two lists are handled by the two restore functions. [map_to_list] stands
    for the unspecified order in which Go iterates over the map.

    [pkg/backend/vlan/storage_cm.go:127-147 cm.restoreVLANs] *)
Definition restoreVLANs (claims : gmap Z labels) (ownerGVK : string)
    (restoreFunc : Z -> labels -> M db unit) : M db unit :=
  forM (map_to_list claims) (fun '(vlanID, ls) =>
    if bool_decide (label_get ls NephioOwnerGvkKey = ownerGVK) then restoreFunc vlanID ls
    else mret tt).

(** [pkg/backend/vlan/storage_cm.go:97-125 cm.RestoreData] *)
Definition vlan_RestoreData (c : VlanClient W) (ref : ObjectReference) (cm : ConfigMap) : M vstate unit :=
  claims ← lift (Unmarshal yaml (default "" (cm_Data cm !! ConfigMapKey)));
  s ← get_state;
  _ ← lift (cache_Get ref true (v_cache s));
  vlanList ← lift (wrap_result (vc_ListVLANs c (v_world s)) "cannot get vlan list");
  _ ← on_table ref (restoreVLANs claims VLANKindGVKString (restoreStaticVLANs vlanList));
  s ← get_state;
  vlanClaimList ← lift (wrap_result (vc_ListVLANClaims c (v_world s)) "cannot get vlan claim list");
  on_table ref (restoreVLANs claims VLANClaimKindGVKString (restoreDynamicVLANs vlanClaimList)).

(** [pkg/backend/vlan/storage_cm.go:46-65 newCMStorage] *)
Definition vlan_newCMStorage (c : VlanClient W) : result (Storage vstate VLANClaim (gmap string labels)) :=
  NewCMBackend (MkCMConfig vstate (Some (lift_cm (vc_ConfigMaps c))) (Some vlan_GetData)
    (Some (vlan_RestoreData c)) "vlan").

(** [pkg/backend/vlan/vlan.go:33-53 New] *)
Definition vlan_store : result (Storage vstate VLANClaim (gmap string labels)) :=
  match client with
  | None => Ok NewNopStorage
  | Some c => vlan_newCMStorage c
  end.

(** *** Operations *)

(** The logic of the claim on the instance its cache identifier names.

    [pkg/backend/vlan/applogic.go:11-26 be.newApplogic] *)
Definition vlan_newApplogic (cr : VLANClaim) (initializing : bool) :
    M vstate (AppLogic db VLANClaim) :=
  s ← get_state;
  _ ← lift (cache_Get (VLANClaim_GetCacheID cr) initializing (v_cache s));
  vctx ← lift (GetVLANClaimCtx cr);
  lift (newVLANApplogic vctx).

(** The field [watcher] is never set: the call on the nil interface panics.

    [pkg/backend/vlan/vlan.go:62-64 be.AddWatch] *)
Definition vlan_AddWatch (ownerGvkKey ownerGvk : string) : M vstate unit := panic.

(** [pkg/backend/vlan/vlan.go:65-67 be.DeleteWatch] *)
Definition vlan_DeleteWatch (ownerGvkKey ownerGvk : string) : M vstate unit := panic.

(** [pkg/backend/vlan/vlan.go:70-93 be.CreateIndex] *)
Definition vlan_CreateIndex (b : string) : M vstate unit :=
  cr ← lift (Unmarshal json_index b);
  store ← lift vlan_store;
  let cacheID := VLANIndex_GetCacheID cr in
  _ ← on_cache (modify (cache_Create cacheID vlandb_New));
  s ← get_state;
  if cache_IsInitialized cacheID (v_cache s) then mret tt
  else
    _ ← st_Restore store cacheID;
    on_cache (cache_SetInitialized cacheID).

(** [pkg/backend/vlan/vlan.go:96-114 be.DeleteIndex] *)
Definition vlan_DeleteIndex (b : string) : M vstate unit :=
  cr ← lift (Unmarshal json_index b);
  store ← lift vlan_store;
  let cacheID := VLANIndex_GetCacheID cr in
  _ ← on_cache (modify (cache_Delete cacheID));
  st_Destroy store cacheID.

(** [pkg/backend/vlan/vlan.go:117-131 be.List] *)
Definition vlan_List (b : string) : M vstate (list entry) :=
  cr ← lift (Unmarshal json_index b);
  s ← get_state;
  d ← lift (cache_Get (VLANIndex_GetCacheID cr) false (v_cache s));
  lift (db_GetAll d).

(** [pkg/backend/vlan/vlan.go:134-153 be.GetClaim] *)
Definition vlan_GetClaim (b : string) : M vstate string :=
  cr ← lift (Unmarshal json_claim b);
  al ← vlan_newApplogic cr false;
  cr' ← on_table (VLANClaim_GetCacheID cr) (al_Get al cr);
  lift (Marshal json_claim cr').

(** [pkg/backend/vlan/vlan.go:155-185 be.Claim] *)
Definition vlan_Claim (b : string) : M vstate string :=
  cr ← lift (Unmarshal json_claim b);
  store ← lift vlan_store;
  al ← vlan_newApplogic cr false;
  msg ← on_table (VLANClaim_GetCacheID cr) (al_Validate al cr);
  if bool_decide (msg <> "") then throw ("validation failed: " +:+ msg)
  else
    cr' ← on_table (VLANClaim_GetCacheID cr) (al_Apply al cr);
    _ ← st_SaveAll store (VLANClaim_GetCacheID cr');
    lift (Marshal json_claim cr').

(** [pkg/backend/vlan/vlan.go:188-206 be.DeleteClaim] *)
Definition vlan_DeleteClaim (b : string) : M vstate unit :=
  cr ← lift (Unmarshal json_claim b);
  store ← lift vlan_store;
  al ← vlan_newApplogic cr false;
  _ ← on_table (VLANClaim_GetCacheID cr) (al_Delete al cr);
  st_SaveAll store (VLANClaim_GetCacheID cr).

End Backend.
Arguments vstate : clear implicits.

(** ** Properties of the handlers *)

Section HandlerProps.
Context `{L : LabelsAPI} `{!LabelsLaws L}.

Abbreviation reachable := (rtc (db_step uint16) vlandb_New).

(** The VLAN entry belongs to the owner of the claim. *)
Definition owns (a : VLANClaim) (e : entry) : Prop :=
  owner_labels (VLANClaim_GetUserDefinedLabels a) ⊆ Labels e.

#[global] Instance owns_dec a e : Decision (owns a e).
Proof. unfold owns. apply _. Defined.

(** The owner labels of the claim are valid label values. *)
Definition claim_valid (a : VLANClaim) : Prop := exists s, VLANClaim_GetOwnerSelector a = Ok s.

Lemma getEntriesByOwner_state a r : (getEntriesByOwner a r).1 = r.
Proof.
  unfold getEntriesByOwner, mbind, M_bind, lift, get_state.
  by destruct (VLANClaim_GetOwnerSelector a).
Qed.

Lemma getEntriesByOwner_spec a r : claim_valid a -> db_wf uint16 r ->
  exists l, getEntriesByOwner a r = (r, Ok l) /\
    (forall e, e ∈ l <-> store r !! ID e = Some e /\ owns a e) /\ StronglySorted Z.lt (ID <$> l).
Proof.
  intros [s Hs] Hr.
  destruct (collect_Iterate uint16 (fun v => Matches s (Labels v)) r Hr) as (l&Hl&Hin&Hsort).
  exists l. split; [|split; [|done]].
  - unfold getEntriesByOwner, mbind, M_bind, lift, get_state. rewrite Hs.
    unfold db_GetByLabel. by rewrite Hl.
  - intros e. rewrite Hin. unfold owns.
    rewrite (selector_of_labels_matches _ _ _ Hs), bool_decide_eq_true. done.
Qed.

Lemma getEntriesByOwner_err a r : ~ claim_valid a ->
  exists res, getEntriesByOwner a r = (r, res) /\ forall l, res <> Ok l.
Proof.
  intros Hn. unfold getEntriesByOwner, mbind, M_bind, lift.
  unfold claim_valid in Hn. revert Hn. destruct (VLANClaim_GetOwnerSelector a) as [s|e|]; intros Hn.
  - destruct Hn. by exists s.
  - by exists (Err e).
  - by exists Panic.
Qed.

#[local] Opaque getEntriesByOwner.

Lemma claim_valid_dec a : claim_valid a \/ ~ claim_valid a.
Proof.
  unfold claim_valid. destruct (VLANClaim_GetOwnerSelector a); [left; by eexists|right..];
    by intros [??].
Qed.

Lemma no_entries_nil (a : VLANClaim) r l :
  (forall e, e ∈ l <-> store r !! ID e = Some e /\ owns a e) ->
  (forall e, store r !! ID e = Some e -> ~ owns a e) -> l = [].
Proof.
  intros Hin Hno. destruct l as [|e l]; [done|]. exfalso.
  assert (e ∈ e :: l) as [He Ho]%Hin by by left. by apply (Hno e).
Qed.

Lemma getEntriesByOwner_none a r : reachable r -> claim_valid a ->
  (forall e, store r !! ID e = Some e -> ~ owns a e) -> getEntriesByOwner a r = (r, Ok []).
Proof.
  intros Hr Ha Hn. destruct (getEntriesByOwner_spec a r Ha (vlandb_wf r Hr)) as (l&Hl&Hin&_).
  rewrite Hl. clear Hl. by rewrite (no_entries_nil a r l Hin Hn).
Qed.

Lemma one_entry_singleton (a : VLANClaim) r l e : StronglySorted Z.lt (ID <$> l) ->
  (forall e, e ∈ l <-> store r !! ID e = Some e /\ owns a e) ->
  store r !! ID e = Some e -> owns a e ->
  (forall e', store r !! ID e' = Some e' -> owns a e' -> e' = e) -> l = [e].
Proof.
  intros Hs Hin He Ho Hone.
  assert (Hall : forall e', e' ∈ l -> e' = e) by (intros e' [??]%Hin; by apply Hone).
  destruct l as [|x l]; [exfalso; apply (not_elem_of_nil e), Hin; exact (conj He Ho)|].
  rewrite (Hall x) in * by by left. f_equal. destruct l as [|y l]; [done|].
  rewrite (Hall y) in Hs by (right; by left). cbn in Hs.
  apply StronglySorted_inv in Hs as [_ [Hs _]%Forall_cons]. lia.
Qed.

(** What a new claim of a single VLAN does to the database. *)
Lemma applyHandlerNewDynamicVlan_spec vctx a r : reachable r ->
  applyHandlerNewDynamicVlan vctx a r =
  match free_ids r with
  | [] => (r, Err "no free entry found")
  | id :: _ => (db_add (MkEntry id (VLANClaim_GetUserDefinedLabels a)) r, Ok (set_VLANID id a))
  end.
Proof.
  intros Hr. unfold applyHandlerNewDynamicVlan, mbind, M_bind, get_state, lift.
  pose proof (vlandb_cfg_ok r Hr) as Hc.
  pose proof (fun e => vlandb_FindFree_range r e (VLANClaim_GetUserDefinedLabels a) Hr) as Hset. revert Hset.
  rewrite (FindFree_free_ids uint16) by done.
  destruct (free_ids r) as [|id rest]; [done|]. intros Hset. cbn [ID NewEntry free_entry].
  destruct (Hset _ eq_refl) as [_ Hok]. cbn [ID NewEntry free_entry] in Hok.
  by rewrite Hok.
Qed.

Lemma applyHandlerNewStaticVlan_spec vctx a r : reachable r -> in_range uint16 (vctx_Start vctx) ->
  if bool_decide (2 <= vctx_Start vctx <= 4094) then
    applyHandlerNewStaticVlan vctx a r =
      (db_add (MkEntry (vctx_Start vctx) (VLANClaim_GetUserDefinedLabels a)) r,
       Ok (set_VLANID (vctx_Start vctx) a))
  else exists err, applyHandlerNewStaticVlan vctx a r = (r, Err err).
Proof.
  intros Hr Hs. apply (unsigned_in_range uint16) in Hs. cbn in Hs.
  unfold applyHandlerNewStaticVlan, mbind, M_bind, get_state, lift.
  unfold db_FindFreeID. rewrite (db_steps_cfg _ _ _ Hr). cbn [cfg Offset MaxEntries].
  change (wrap uint16 (Offset (cfg vlandb_New) + MaxEntries (cfg vlandb_New) - 1)) with 4095.
  destruct (decide (4095 < vctx_Start vctx)).
  { rewrite (bool_decide_eq_true_2 (4095 < _)), bool_decide_eq_false_2 by lia. by eexists. }
  rewrite (bool_decide_eq_false_2 (4095 < _)) by lia.
  assert (Hid : exists e, match store r !! vctx_Start vctx with
      | Some e => Ok e | None => Ok (NewEntry (vctx_Start vctx) (Some ∅)) end = Ok e /\
      ID e = vctx_Start vctx).
  { destruct (store r !! vctx_Start vctx) as [e|] eqn:He; [|by eexists].
    exists e. split; [done|]. by destruct (vlandb_wf r Hr _ _ He). }
  destruct Hid as (e&->&He). cbn [NewEntry]. rewrite He. case_bool_decide.
  - by rewrite vlandb_Set.
  - unfold db_Set. rewrite (db_steps_cfg _ _ _ Hr). cbn [SetValidation cfg vlandb_New].
    assert (vctx_Start vctx = 0 \/ vctx_Start vctx = 1 \/ vctx_Start vctx = 4095) as [Hz|[Hz|Hz]] by lia;
      cbn [ID]; rewrite Hz; by eexists.
Qed.

Lemma vlan_ApplyHandler_new vctx a r : getEntriesByOwner a r = (r, Ok []) ->
  vlan_ApplyHandler vctx a r =
  match vctx_Kind vctx with
  | VLANClaimTypeDynamic => applyHandlerNewDynamicVlan vctx a r
  | VLANClaimTypeStatic => applyHandlerNewStaticVlan vctx a r
  | VLANClaimTypeRange => applyHandlerNewVlanRange vctx a r
  | VLANClaimTypeSize => applyHandlerNewVlanSize vctx a r
  end.
Proof.
  intros He. unfold vlan_ApplyHandler, mbind, M_bind. rewrite He. by destruct (vctx_Kind vctx).
Qed.

Lemma vlan_ApplyHandler_found vctx a r e l : getEntriesByOwner a r = (r, Ok (e :: l)) ->
  vlan_ApplyHandler vctx a r =
  (r, match vctx_Kind vctx with
      | VLANClaimTypeDynamic => applyHandlerDynamicVlan (e :: l) a
      | VLANClaimTypeStatic => applyHandlerStaticVlan (e :: l) a
      | _ => Ok a
      end).
Proof.
  intros He. unfold vlan_ApplyHandler, mbind, M_bind. rewrite He. by destruct (vctx_Kind vctx).
Qed.

Lemma new_range_spec vctx a r :
  applyHandlerNewVlanRange vctx a r =
  (r, fmap (M := result) (fun _ => set_VLANRange (pretty (vctx_Start vctx) +:+ String ":"%char
        (pretty (wrap uint16 (vctx_Start vctx + vctx_Size vctx - 1)))) a)
      (db_FindFreeRange uint16 (vctx_Start vctx) (vctx_Size vctx) r)).
Proof.
  unfold applyHandlerNewVlanRange, mbind, M_bind, get_state, lift.
  by destruct (db_FindFreeRange _ _ _ _).
Qed.

Lemma new_size_spec vctx a r :
  applyHandlerNewVlanSize vctx a r =
  (r, fmap (M := result) (fun _ => set_VLANRange "TBD update status " a)
      (db_FindFreeSize uint16 (vctx_Size vctx) r)).
Proof.
  unfold applyHandlerNewVlanSize, mbind, M_bind, get_state, lift.
  by destruct (db_FindFreeSize _ _ _).
Qed.

(** A claim either leaves the database as it is or adds one VLAN for an owner that
    has none. *)
Lemma vlan_ApplyHandler_state vctx a r : reachable r -> in_range uint16 (vctx_Start vctx) ->
  (vlan_ApplyHandler vctx a r).1 = r \/
  exists id, 2 <= id <= 4094 /\
    (vlan_ApplyHandler vctx a r).1 = db_add (MkEntry id (VLANClaim_GetUserDefinedLabels a)) r /\
    forall e, store r !! ID e = Some e -> ~ owns a e.
Proof.
  intros Hr Hs. destruct (claim_valid_dec a) as [Ha|Ha].
  2:{ left. destruct (getEntriesByOwner_err a r Ha) as (res&Hres&Hne).
      unfold vlan_ApplyHandler, mbind, M_bind. rewrite Hres. destruct res; [|done..]. by destruct (Hne a0). }
  destruct (getEntriesByOwner_spec a r) as (l&Hl&Hin&_); [done|by apply vlandb_wf|].
  destruct l as [|e l]; [|left; by rewrite (vlan_ApplyHandler_found _ _ _ _ _ Hl)].
  rewrite (vlan_ApplyHandler_new _ _ _ Hl). clear Hl.
  assert (Hno : forall e, store r !! ID e = Some e -> ~ owns a e).
  { intros e He Ho. apply (not_elem_of_nil e), Hin. exact (conj He Ho). }
  destruct (vctx_Kind vctx).
  - rewrite applyHandlerNewDynamicVlan_spec by done. destruct (free_ids r) as [|id rest] eqn:Hf; [by left|].
    right. exists id. split; [|done]. apply (vlandb_free_range r); [done|]. rewrite Hf. by left.
  - pose proof (applyHandlerNewStaticVlan_spec vctx a r Hr Hs) as Hst. case_bool_decide.
    + rewrite Hst. right. by eexists.
    + destruct Hst as [err ->]. by left.
  - left. by rewrite new_size_spec.
  - left. by rewrite new_range_spec.
Qed.

(** The reserved VLANs have no owner, so they can be deleted by no claim. *)
Lemma owns_not_reserved a r id e : reachable r -> store r !! id = Some e -> owns a e ->
  deleteVLANValidation id = None.
Proof.
  intros Hr He Ho.
  assert (Hres : forall z e', (z, e') ∈ ((fun e => (ID e, e)) <$> vlan_reserved) -> id <> z).
  { intros z e' Hz ->. rewrite (vlandb_reserved_kept r z e' Hr Hz) in He. injection He as <-.
    unfold owns in Ho. apply owner_labels_subseteq_iff in Ho as [Ho _].
    destruct (Ho NephioNsnNameKey) as [v Hv]; [left|]. clear Ho Hr. revert Hv.
    cbn in Hz. repeat (apply elem_of_cons in Hz as [[= -> ->]|Hz]; [vm_compute; congruence|]).
    by apply not_elem_of_nil in Hz. }
  assert (id <> 0 /\ id <> 1 /\ id <> 4095) as (?&?&?).
  { split; [|split]; (eapply Hres; cbn; repeat (left || right)). }
  unfold deleteVLANValidation. by rewrite !bool_decide_eq_false_2 by lia.
Qed.

Lemma forM_delete l : forall r, reachable r ->
  Forall (fun e => in_range uint16 (ID e) /\ deleteVLANValidation (ID e) = None) l ->
  forM l (fun e => db_Delete (ID e)) r =
  (MkDB (foldl (fun m e => delete (ID e) m) (store r) l) (cfg r), Ok tt).
Proof.
  induction l as [|e l IH]; intros r Hr Hl; [by destruct r|]. apply Forall_cons in Hl as [[Hrange He] Hl].
  assert (Hdel : db_Delete (ID e) r = (MkDB (delete (ID e) (store r)) (cfg r), Ok tt)).
  { apply db_Delete_accepted. rewrite (db_steps_cfg _ _ _ Hr). by intros v [= <-]. }
  cbn [forM]. unfold mbind, M_bind. rewrite Hdel, IH; [done| |done].
  eapply rtc_r; [done|]. replace (MkDB _ _) with (db_Delete (ID e) r).1 by by rewrite Hdel.
  by constructor.
Qed.

Lemma foldl_delete_lookup (l : list entry) (m : gmap Z entry) k :
  foldl (fun m e => delete (ID e) m) m l !! k =
  if bool_decide (k ∈ ID <$> l) then None else m !! k.
Proof.
  revert m. induction l as [|e l IH]; intros m; [done|]. cbn [foldl]. rewrite IH, fmap_cons.
  destruct (decide (k ∈ ID <$> l)) as [Hk|Hk].
  - rewrite !bool_decide_eq_true_2; [done|by right|done].
  - rewrite (bool_decide_eq_false_2 _ Hk). destruct (decide (k = ID e)) as [->|Hne].
    + rewrite lookup_delete_eq, bool_decide_eq_true_2 by by left. done.
    + rewrite lookup_delete_ne, bool_decide_eq_false_2 by (done || by intros [?|?]%elem_of_cons). done.
Qed.

(** What is left after the claims of an owner are deleted. *)
Lemma vlan_DeleteHandler_spec vctx a r : reachable r -> claim_valid a ->
  exists m, vlan_DeleteHandler vctx a r = (MkDB m (cfg r), Ok tt) /\
    forall id, m !! id = match store r !! id with
                         | Some e => if bool_decide (owns a e) then None else Some e
                         | None => None
                         end.
Proof.
  intros Hr Ha. pose proof (vlandb_wf r Hr) as Hwf.
  destruct (getEntriesByOwner_spec a r Ha Hwf) as (l&Hl&Hin&_).
  eexists. split.
  - unfold vlan_DeleteHandler, mbind, M_bind. rewrite Hl. apply forM_delete; [done|].
    apply Forall_forall. intros e [He Ho]%Hin. split.
    + by destruct (Hwf _ _ He).
    + by eapply owns_not_reserved.
  - clear Hl. intros id. rewrite foldl_delete_lookup. destruct (store r !! id) as [e|] eqn:He; [|by case_bool_decide].
    destruct (Hwf _ _ He) as [Hid _]. apply (f_equal (fun b : bool => if b then None else Some e)).
    apply bool_decide_ext. rewrite list_elem_of_fmap. split.
    + intros (e'&->&[He' Ho]%Hin). assert (e = e') as -> by congruence. exact Ho.
    + intros Ho. exists e. split; [done|]. apply Hin. rewrite Hid. exact (conj He Ho).
Qed.

Lemma db_add_reachable r e : reachable r -> 2 <= ID e <= 4094 -> reachable (db_add e r).
Proof.
  intros Hr He. eapply rtc_r; [done|].
  replace (db_add e r) with (db_Set e r).1 by by rewrite vlandb_Set.
  constructor. apply (unsigned_in_range uint16). change (it_size uint16) with 65536. lia.
Qed.

(** The entries of the owner after its new VLAN was stored. *)
Lemma getEntriesByOwner_added a r id : reachable r -> 2 <= id <= 4094 -> claim_valid a ->
  owned (VLANClaim_GetUserDefinedLabels a) ->
  (forall e, store r !! ID e = Some e -> ~ owns a e) ->
  let e := MkEntry id (VLANClaim_GetUserDefinedLabels a) in
  getEntriesByOwner a (db_add e r) = (db_add e r, Ok [e]).
Proof.
  intros Hr Hid Ha Ho Hno e.
  assert (Hr' : reachable (db_add e r)) by by apply db_add_reachable.
  destruct (getEntriesByOwner_spec a (db_add e r) Ha (vlandb_wf _ Hr')) as (l&Hl&Hin&Hs).
  rewrite Hl. clear Hl. do 2 f_equal. apply (one_entry_singleton a (db_add e r)); try done.
  - cbn. apply lookup_insert_eq.
  - by apply owner_labels_subseteq.
  - intros e' He' Ho'. cbn in He'. destruct (decide (ID e' = id)) as [Heq|Hne].
    + rewrite Heq, lookup_insert_eq in He'. by injection He' as <-.
    + rewrite lookup_insert_ne in He' by done. by destruct (Hno e').
Qed.

(** A dynamic claim of an owner without a VLAN is given the least VLAN from 2 to
    4094 that is not in use: the VLAN is reported in the status of the claim and
    stored with the claim's labels, and no other entry changes. It fails, without a
    change, exactly when all those VLANs are in use. *)
Theorem vlan_claim_dynamic vctx a r : reachable r -> claim_valid a ->
  vctx_Kind vctx = VLANClaimTypeDynamic -> (forall e, store r !! ID e = Some e -> ~ owns a e) ->
  (exists id, vlan_ApplyHandler vctx a r =
       (MkDB (<[id := MkEntry id (VLANClaim_GetUserDefinedLabels a)]> (store r)) (cfg r),
        Ok (set_VLANID id a)) /\
     2 <= id <= 4094 /\ store r !! id = None /\
     forall id', 2 <= id' < id -> is_Some (store r !! id')) \/
  (vlan_ApplyHandler vctx a r = (r, Err "no free entry found") /\
     forall id, 2 <= id <= 4094 -> is_Some (store r !! id)).
Proof.
  intros Hr Ha Hk Hno.
  rewrite (vlan_ApplyHandler_new _ _ _ (getEntriesByOwner_none a r Hr Ha Hno)), Hk.
  rewrite applyHandlerNewDynamicVlan_spec by done.
  assert (Hfree : forall id, 2 <= id <= 4094 -> store r !! id = None -> id ∈ free_ids r).
  { intros id Hid Hn. apply elem_of_free_ids. rewrite (db_steps_cfg _ _ _ Hr). split; [done|].
    cbn. lia. }
  destruct (free_ids r) as [|id rest] eqn:Hf.
  - right. split; [done|]. intros id Hid. apply not_eq_None_Some. intros Hn.
    by eapply not_elem_of_nil, Hfree.
  - left. exists id. destruct (free_head _ _ _ Hf) as [Hid Hmin]. split; [done|].
    pose proof (vlandb_free_range r id Hr Hid). split; [done|].
    split; [by apply elem_of_free_ids in Hid as [? _]|].
    intros id' Hid'. apply not_eq_None_Some. intros Hn.
    assert (id <= id'); [|lia]. apply Hmin. rewrite Hf. apply Hfree; [lia|done].
Qed.

(** Claims are idempotent: when a dynamic claim has succeeded, claiming again gives
    the same VLAN and changes nothing. *)
Lemma vlan_claim_idempotent vctx a r r1 a1 : reachable r -> claim_valid a ->
  owned (VLANClaim_GetUserDefinedLabels a) -> vctx_Kind vctx = VLANClaimTypeDynamic ->
  vlan_ApplyHandler vctx a r = (r1, Ok a1) ->
  vlan_ApplyHandler vctx a r1 = (r1, Ok a1).
Proof.
  intros Hr Ha Ho Hk.
  destruct (getEntriesByOwner_spec a r Ha (vlandb_wf r Hr)) as (l&Hl&Hin&_). destruct l as [|e l].
  - rewrite (vlan_ApplyHandler_new _ _ _ Hl), Hk. clear Hl.
    rewrite applyHandlerNewDynamicVlan_spec by done.
    destruct (free_ids r) as [|id rest] eqn:Hf; [done|]. intros [= <- <-].
    assert (Hid : 2 <= id <= 4094) by (apply (vlandb_free_range r); [done|]; rewrite Hf; by left).
    rewrite (vlan_ApplyHandler_found vctx a _ (MkEntry id (VLANClaim_GetUserDefinedLabels a)) []).
    + by rewrite Hk.
    + apply getEntriesByOwner_added; try done. intros e He Hoe.
      apply (not_elem_of_nil e), Hin. exact (conj He Hoe).
  - intros Happ. pose proof Happ as Happ'. rewrite (vlan_ApplyHandler_found _ _ _ _ _ Hl) in Happ'.
    injection Happ' as <- _. exact Happ.
Qed.

(** The database after the release of a claim: without the entries of its owner. *)
Definition vlan_released (a : VLANClaim) (d d' : db) : Prop :=
  cfg d' = cfg d /\ forall id e, store d' !! id = Some e <-> store d !! id = Some e /\ ~ owns a e.

(** Deleting a claim always succeeds and removes exactly the VLANs of its owner:
    the VLANs of the other owners and the reserved VLANs stay as they are. *)
Lemma vlan_delete_released vctx a r : reachable r -> claim_valid a ->
  exists r', vlan_DeleteHandler vctx a r = (r', Ok tt) /\ vlan_released a r r'.
Proof.
  intros Hr Ha. destruct (vlan_DeleteHandler_spec vctx a r Hr Ha) as (m&Hm&Hlook).
  exists (MkDB m (cfg r)). split; [exact Hm|]. split; [done|]. clear Hm. intros id e. cbn [store].
  rewrite Hlook. destruct (store r !! id) as [e'|]; [|split; [done|by intros [? _]]].
  case_bool_decide as Ho.
  - split; [done|]. by intros [[= ->] Hn].
  - split; [by intros [= <-]|]. by intros [[= <-] _].
Qed.

(** Releasing what a dynamic claim has allocated gives back the database as it was
    before the claim. *)
Lemma vlan_claim_release vctx a r r1 a1 : reachable r -> claim_valid a ->
  owned (VLANClaim_GetUserDefinedLabels a) -> vctx_Kind vctx = VLANClaimTypeDynamic ->
  (forall e, store r !! ID e = Some e -> ~ owns a e) ->
  vlan_ApplyHandler vctx a r = (r1, Ok a1) ->
  vlan_DeleteHandler vctx a r1 = (r, Ok tt).
Proof.
  intros Hr Ha Ho Hk Hno. pose proof (vlandb_wf r Hr) as Hwf.
  rewrite (vlan_ApplyHandler_new _ _ _ (getEntriesByOwner_none a r Hr Ha Hno)), Hk.
  rewrite applyHandlerNewDynamicVlan_spec by done.
  destruct (free_ids r) as [|id rest] eqn:Hf; [done|]. intros [= <- <-].
  assert (Hin : id ∈ free_ids r) by (rewrite Hf; by left).
  set (e := MkEntry id _).
  assert (Hr' : reachable (db_add e r)) by (apply db_add_reachable; [done|by apply (vlandb_free_range r)]).
  destruct (vlan_DeleteHandler_spec vctx a (db_add e r) Hr' Ha) as (m&Hm&Hlook).
  rewrite Hm. clear Hm. assert (m = store r) as ->; [|by destruct r].
  apply map_eq. intros k. rewrite Hlook. cbn [store db_add]. destruct (decide (k = id)) as [->|Hne].
  - rewrite lookup_insert_eq, bool_decide_eq_true_2 by by apply owner_labels_subseteq.
    by apply elem_of_free_ids in Hin as [-> _].
  - rewrite lookup_insert_ne by done. destruct (store r !! k) as [e'|] eqn:He'; [|done].
    rewrite bool_decide_eq_false_2; [done|]. apply Hno. by destruct (Hwf _ _ He') as [-> _].
Qed.

(** *** One VLAN per owner *)

(** The operations of the backend on a VLAN database. *)
Inductive vlan_step (r : db) : db -> Prop :=
| step_Apply vctx a : in_range uint16 (vctx_Start vctx) -> vlan_step r (vlan_ApplyHandler vctx a r).1
| step_DeleteClaim vctx a : vlan_step r (vlan_DeleteHandler vctx a r).1.

Definition one_per_owner (r : db) : Prop := forall ls e1 e2,
  store r !! ID e1 = Some e1 -> store r !! ID e2 = Some e2 ->
  owner_labels ls ⊆ Labels e1 -> owner_labels ls ⊆ Labels e2 -> e1 = e2.

Lemma vlan_DeleteHandler_state vctx a r : reachable r ->
  (vlan_DeleteHandler vctx a r).1 = r \/
  exists m, (vlan_DeleteHandler vctx a r).1 = MkDB m (cfg r) /\ m ⊆ store r.
Proof.
  intros Hr. destruct (claim_valid_dec a) as [Ha|Ha].
  - right. destruct (vlan_DeleteHandler_spec vctx a r Hr Ha) as (m&Hm&Hlook). exists m.
    rewrite Hm. clear Hm. split; [done|]. apply map_subseteq_spec. intros k e. rewrite Hlook.
    destruct (store r !! k); [|done]. by case_bool_decide.
  - left. destruct (getEntriesByOwner_err a r Ha) as (res&Hres&Hne).
    unfold vlan_DeleteHandler, mbind, M_bind. rewrite Hres. destruct res as [l| |]; [|done..].
    by destruct (Hne l).
Qed.

Lemma vlan_step_reachable r r' : vlan_step r r' -> reachable r -> reachable r'.
Proof.
  intros [vctx a Hs|vctx a] Hr.
  - destruct (vlan_ApplyHandler_state vctx a r Hr Hs) as [->|(id&Hid&->&_)]; [done|].
    by apply db_add_reachable.
  - destruct (claim_valid_dec a) as [Ha|Ha].
    + destruct (getEntriesByOwner_spec a r Ha (vlandb_wf r Hr)) as (l&Hl&Hin&_).
      unfold vlan_DeleteHandler, mbind, M_bind. rewrite Hl. clear Hl.
      assert (Hall : Forall (fun e => in_range uint16 (ID e)) l).
      { apply Forall_forall. intros e [He _]%Hin. by destruct (vlandb_wf r Hr _ _ He). }
      clear Hin. revert r Hr. induction Hall as [|e l He _ IH]; intros r Hr; [done|].
      cbn [forM]. unfold mbind, M_bind.
      pose proof (step_Delete uint16 (ID e) r He) as Hstep.
      destruct (db_Delete (ID e) r) as [r1 [[]| |]]; cbn in *; [apply IH|..]; by eapply rtc_r.
    + destruct (getEntriesByOwner_err a r Ha) as (res&Hres&Hne).
      unfold vlan_DeleteHandler, mbind, M_bind. rewrite Hres. destruct res as [l| |]; [|done..].
      by destruct (Hne l).
Qed.

Lemma one_per_owner_New : one_per_owner vlandb_New.
Proof.
  intros ls e1 e2 He1 He2 Ho1 Ho2. exfalso.
  apply owner_labels_subseteq_iff in Ho1 as [Ho1 _]. destruct (Ho1 NephioNsnNameKey) as [v Hv]; [left|].
  clear Ho1 Ho2 He2 ls e2. assert (Hin : (ID e1, e1) ∈ map_to_list (store vlandb_New))
    by by apply elem_of_map_to_list.
  clear He1. revert Hin Hv. generalize (ID e1). intros id Hin Hv.
  assert (Hall : Forall (fun p => Labels p.2 !! NephioNsnNameKey = None) (map_to_list (store vlandb_New)))
    by by_compute.
  rewrite Forall_forall in Hall. specialize (Hall _ Hin). cbn in Hall. congruence.
Qed.

Lemma one_per_owner_subseteq r m : db_wf uint16 r -> one_per_owner r -> m ⊆ store r ->
  one_per_owner (MkDB m (cfg r)).
Proof.
  intros Hwf Hone Hsub ls e1 e2 He1 He2. rewrite map_subseteq_spec in Hsub. cbn in He1, He2.
  apply Hone; by apply Hsub.
Qed.

Lemma one_per_owner_add a r id : one_per_owner r ->
  (forall e, store r !! ID e = Some e -> ~ owns a e) ->
  one_per_owner (db_add (MkEntry id (VLANClaim_GetUserDefinedLabels a)) r).
Proof.
  intros Hone Hno.
  assert (Hnew : forall ls e, owner_labels ls ⊆ VLANClaim_GetUserDefinedLabels a ->
    store r !! ID e = Some e -> ~ owner_labels ls ⊆ Labels e).
  { intros ls e [_ Heq]%owner_labels_subseteq_iff He Ho. apply (Hno e He). unfold owns. by rewrite <-Heq. }
  intros ls e1 e2. cbn [store db_add ID]. rewrite !lookup_insert_Some.
  intros [[Hi1 <-]|[Hi1 He1]] [[Hi2 <-]|[Hi2 He2]] Ho1 Ho2; [done| | |by eapply Hone].
  - by destruct (Hnew ls e2).
  - by destruct (Hnew ls e1).
Qed.

Lemma vlan_steps_inv r0 r : rtc vlan_step r0 r -> reachable r0 -> one_per_owner r0 ->
  reachable r /\ one_per_owner r.
Proof.
  induction 1 as [|r r1 r2 Hstep _ IH]; intros Hreach Hone; [done|].
  apply IH; [by eapply vlan_step_reachable|]. destruct Hstep as [vctx a Hs|vctx a].
  - destruct (vlan_ApplyHandler_state vctx a r Hreach Hs) as [->|(id&Hid&->&Hno)]; [done|].
    by apply one_per_owner_add.
  - destruct (vlan_DeleteHandler_state vctx a r Hreach) as [->|(m&->&Hsub)]; [done|].
    apply one_per_owner_subseteq; [by apply vlandb_wf|done|done].
Qed.

(** C35. Whatever claims are made and deleted, no owner ever holds two VLANs: any two
    entries that carry the same owner labels are the same entry. *)
Theorem vlan_one_per_owner r : rtc vlan_step vlandb_New r -> one_per_owner r.
Proof.
  intros Hr. apply (vlan_steps_inv vlandb_New r Hr); [apply rtc_refl|apply one_per_owner_New].
Qed.

(** A static claim by an owner without a VLAN takes the VLAN it names from the
    owner that holds it: any VLAN from 2 to 4094 in use is overwritten, without an
    error, and its previous owner loses it. *)
Theorem vlan_static_overwrites vctx a r id e : reachable r -> claim_valid a ->
  vctx_Kind vctx = VLANClaimTypeStatic -> vctx_Start vctx = id -> 2 <= id <= 4094 ->
  (forall e, store r !! ID e = Some e -> ~ owns a e) -> store r !! id = Some e ->
  exists r', vlan_ApplyHandler vctx a r = (r', Ok (set_VLANID id a)) /\
    store r' !! id = Some (MkEntry id (VLANClaim_GetUserDefinedLabels a)) /\
    forall b, owns b e -> (forall e', store r !! ID e' = Some e' -> owns b e' -> e' = e) ->
      ~ owns b (MkEntry id (VLANClaim_GetUserDefinedLabels a)) ->
      forall e', store r' !! ID e' = Some e' -> ~ owns b e'.
Proof.
  intros Hr Ha Hk Hs Hid Hno He.
  rewrite (vlan_ApplyHandler_new _ _ _ (getEntriesByOwner_none a r Hr Ha Hno)), Hk.
  pose proof (applyHandlerNewStaticVlan_spec vctx a r Hr) as Hst. rewrite Hs in Hst.
  rewrite bool_decide_eq_true_2 in Hst by lia. rewrite Hst.
  2:{ apply (unsigned_in_range uint16). change (it_size uint16) with 65536. lia. }
  clear Hst. eexists. split; [done|]. cbn [store db_add ID]. split; [apply lookup_insert_eq|].
  intros b Hb Hone Hnb e' He' Ho'. apply lookup_insert_Some in He' as [[_ <-]|[Hne He']]; [done|].
  rewrite (Hone e' He' Ho') in Hne. by destruct (vlandb_wf r Hr _ _ He) as [? _].
Qed.

(** A claim of a range of VLANs or of a number of VLANs never changes the database:
    the VLANs it reports as claimed are not recorded, so that the same claim by
    another owner is given the same VLANs. *)
Theorem vlan_range_not_recorded vctx a b r : reachable r ->
  vctx_Kind vctx = VLANClaimTypeRange \/ vctx_Kind vctx = VLANClaimTypeSize ->
  claim_valid a -> claim_valid b ->
  (forall e, store r !! ID e = Some e -> ~ owns a e) ->
  (forall e, store r !! ID e = Some e -> ~ owns b e) ->
  exists resa resb, vlan_ApplyHandler vctx a r = (r, resa) /\ vlan_ApplyHandler vctx b r = (r, resb) /\
    fmap (M := result) (vct_VLANRange ∘ status) resa = fmap (M := result) (vct_VLANRange ∘ status) resb.
Proof.
  intros Hr Hk Ha Hb Hna Hnb.
  rewrite (vlan_ApplyHandler_new _ _ _ (getEntriesByOwner_none a r Hr Ha Hna)).
  rewrite (vlan_ApplyHandler_new _ _ _ (getEntriesByOwner_none b r Hr Hb Hnb)).
  destruct Hk as [->| ->]; rewrite ?new_range_spec, ?new_size_spec;
    eexists _, _; (split; [reflexivity|]); (split; [reflexivity|]).
  - by destruct (db_FindFreeRange _ _ _ _).
  - by destruct (db_FindFreeSize _ _ _).
Qed.

End HandlerProps.

(** ** Properties of the backend *)

Section BackendProps.
Context {W : Type} `{L : LabelsAPI} `{!LabelsLaws L} `{E : ErrorsAPI}.
Context (client : option (VlanClient W)).
Context (yaml : Codec (gmap Z labels)) (json_claim : Codec VLANClaim) (json_index : Codec VLANIndex).

Abbreviation reachable := (rtc (db_step uint16) vlandb_New).

(** Decoding into a Go type yields values of the type: 16-bit VLAN identifiers. *)
Class DecodesTyped : Prop := {
  decode_claim : forall b a, Unmarshal json_claim b = Ok a ->
    match vcs_VLANID (spec a) with Some id => in_range uint16 id | None => True end;
  decode_yaml : forall b (m : gmap Z labels), Unmarshal yaml b = Ok m ->
    map_Forall (fun k _ => in_range uint16 k) m
}.

(** Every database of the cache is one that [Set] and [Delete] reach. *)
Definition cache_inv (s : vstate W) : Prop :=
  map_Forall (fun _ c => reachable (instance c)) (v_cache s).

Lemma keeps_on_world {A} (m : M W A) : keeps cache_inv (on_world m).
Proof. intros s Hs. unfold on_world. by destruct (m (v_world s)). Qed.

Lemma keeps_on_table {A} id (m : M db A) : keeps reachable m -> keeps cache_inv (on_table (W := W) id m).
Proof.
  intros Hm s Hs. unfold on_table. destruct (v_cache s !! id) as [c|] eqn:Hc; [|done].
  specialize (Hm (instance c) (Hs _ _ Hc)). destruct (m (instance c)) as [t r].
  by apply map_Forall_insert_2.
Qed.

Lemma keeps_on_cache {A} (m : M (caches db) A) :
  keeps (map_Forall (fun _ c => reachable (instance c))) m -> keeps cache_inv (on_cache (W := W) m).
Proof.
  intros Hm s Hs. specialize (Hm _ Hs). unfold on_cache. by destruct (m (v_cache s)).
Qed.

Lemma keeps_restore_set id ls : in_range uint16 id ->
  keeps reachable (log_error (db_Set (NewEntry id (Some ls)))).
Proof.
  intros Hid. apply keeps_log_error. intros r Hr. eapply rtc_r; [exact Hr|]. by constructor.
Qed.

Lemma keeps_restoreStaticVLANs vl id ls : in_range uint16 id ->
  keeps reachable (restoreStaticVLANs vl id ls).
Proof.
  intros Hid. apply keeps_forM. intros x _. destruct (names_object _ _ _); [|apply keeps_ret].
  apply keeps_bind_lift. intros _ _. by apply keeps_restore_set.
Qed.

Lemma keeps_restoreDynamicVLANs cl id ls : in_range uint16 id ->
  keeps reachable (restoreDynamicVLANs cl id ls).
Proof.
  intros Hid. apply keeps_forM. intros x _. destruct (names_object _ _ _); [|apply keeps_ret].
  by apply keeps_restore_set.
Qed.

Lemma keeps_restoreVLANs claims gvk f :
  map_Forall (fun k (_ : labels) => in_range uint16 k) claims ->
  (forall id ls, in_range uint16 id -> keeps reachable (f id ls)) ->
  keeps reachable (restoreVLANs claims gvk f).
Proof.
  intros Hc Hf. apply keeps_forM. intros [id ls] Hin. case_bool_decide; [|apply keeps_ret].
  apply Hf. apply elem_of_map_to_list in Hin. exact (Hc _ _ Hin).
Qed.

Lemma keeps_RestoreData `{!DecodesTyped} c ref cm : keeps cache_inv (vlan_RestoreData yaml c ref cm).
Proof.
  unfold vlan_RestoreData. apply keeps_bind_lift. intros claims Hty%decode_yaml. keeps_auto.
  - apply keeps_on_table, keeps_restoreVLANs; [done|]. intros. by apply keeps_restoreStaticVLANs.
  - apply keeps_on_table, keeps_restoreVLANs; [done|]. intros. by apply keeps_restoreDynamicVLANs.
Qed.

Lemma keeps_GetData ref : keeps cache_inv (vlan_GetData (W := W) yaml ref).
Proof. unfold vlan_GetData. keeps_auto. destruct (Marshal yaml _); keeps_auto. Qed.

Lemma keeps_store `{!DecodesTyped} st ref : vlan_store client yaml = Ok st ->
  keeps cache_inv (st_Restore st ref) /\ keeps cache_inv (st_SaveAll st ref) /\
  keeps cache_inv (st_Destroy st ref).
Proof.
  unfold vlan_store. destruct client as [c|].
  - unfold vlan_newCMStorage. apply keeps_storage; cbn.
    + intros c' cm [= <-]. cbn. by split; [|split]; apply keeps_on_world.
    + intros f ref' [= <-]. apply keeps_GetData.
    + intros f ref' cm [= <-]. apply keeps_RestoreData.
  - intros [= <-]. by split; [|split]; apply keeps_ret.
Qed.

(** The start of a decoded claim is a VLAN identifier. *)
Lemma GetVLANClaimCtx_Start `{!DecodesTyped} b a vctx :
  Unmarshal json_claim b = Ok a -> GetVLANClaimCtx a = Ok vctx -> in_range uint16 (vctx_Start vctx).
Proof.
  intros Hd%decode_claim. unfold GetVLANClaimCtx. destruct (vcs_VLANID (spec a)).
  - by intros [= <-].
  - assert (H0 : in_range uint16 0) by by_compute.
    destruct (vcs_VLANRange (spec a)); [|by intros [= <-]].
    destruct (split_on _ _) as [|x [|y [|]]]; try done.
    + destruct (Atoi x); [|done..]. by intros [= <-].
    + destruct (Atoi x); [|done..]. destruct (Atoi y); [|done..]. cbn.
      case_bool_decide; [done|]. intros [= <-]. by apply wrap_in_range.
Qed.

Lemma keeps_applogic vctx al a : in_range uint16 (vctx_Start vctx) -> newVLANApplogic vctx = Ok al ->
  keeps reachable (al_Get al a) /\ keeps reachable (al_Validate al a) /\
  keeps reachable (al_Apply al a) /\ keeps reachable (al_Delete al a).
Proof.
  intros Hs [= <-]. cbn [al_Get al_Validate al_Apply al_Delete]. repeat split.
  - intros r Hr. unfold vlan_GetHandler, mbind, M_bind. pose proof (getEntriesByOwner_state a r) as Hst.
    destruct (getEntriesByOwner a r) as [r' [l| |]]; cbn in Hst; subst r'; [|done..].
    by destruct l, (vctx_Kind vctx).
  - apply keeps_ret.
  - intros r Hr. eapply vlan_step_reachable; [|exact Hr]. by constructor.
  - intros r Hr. eapply vlan_step_reachable; [|exact Hr]. by constructor.
Qed.

(** The requests a backend serves. *)
Inductive be_step (s : vstate W) : vstate W -> Prop :=
| step_CreateIndex b : be_step s (vlan_CreateIndex client yaml json_index b s).1
| step_DeleteIndex b : be_step s (vlan_DeleteIndex client yaml json_index b s).1
| step_GetClaim b : be_step s (vlan_GetClaim json_claim b s).1
| step_Claim b : be_step s (vlan_Claim client yaml json_claim b s).1
| step_be_DeleteClaim b : be_step s (vlan_DeleteClaim client yaml json_claim b s).1.

Lemma keeps_newApplogic cr i : keeps cache_inv (vlan_newApplogic (W := W) cr i).
Proof. unfold vlan_newApplogic. keeps_auto. Qed.

(** The logic of a claim, and what its operations do to the cache. *)
Lemma keeps_with_applogic `{!DecodesTyped} {A} b cr (f : AppLogic db VLANClaim -> M (vstate W) A) :
  Unmarshal json_claim b = Ok cr ->
  (forall vctx al, in_range uint16 (vctx_Start vctx) -> newVLANApplogic vctx = Ok al ->
     keeps cache_inv (f al)) ->
  keeps cache_inv (mbind (M := M (vstate W)) f (vlan_newApplogic cr false)).
Proof.
  intros Hcr Hf s Hs. unfold vlan_newApplogic, mbind, M_bind, lift, get_state.
  destruct (cache_Get _ _ _); [|done..].
  destruct (GetVLANClaimCtx cr) as [vctx| |] eqn:Hctx; [|done..].
  eapply Hf; [by eapply GetVLANClaimCtx_Start|done|done].
Qed.

Lemma keeps_CreateIndex `{!DecodesTyped} b : keeps cache_inv (vlan_CreateIndex client yaml json_index b).
Proof.
  unfold vlan_CreateIndex. apply keeps_bind_lift. intros cr _. apply keeps_bind_lift. intros st Hst.
  apply keeps_bind.
  { apply keeps_on_cache, keeps_modify. intros c Hc. unfold cache_Create.
    destruct (c !! _); [done|]. apply map_Forall_insert_2; [apply rtc_refl|done]. }
  intros _. apply keeps_bind; [apply keeps_get|]. intros s. destruct (cache_IsInitialized _ _).
  { apply keeps_ret. }
  apply keeps_bind; [by eapply keeps_store|]. intros _. apply keeps_on_cache. intros c Hc.
  unfold cache_SetInitialized. destruct (c !! _) as [x|] eqn:Hx; [|done].
  apply map_Forall_insert_2; [exact (Hc _ _ Hx)|done].
Qed.

Lemma keeps_DeleteIndex `{!DecodesTyped} b : keeps cache_inv (vlan_DeleteIndex client yaml json_index b).
Proof.
  unfold vlan_DeleteIndex. apply keeps_bind_lift. intros cr _. apply keeps_bind_lift. intros st Hst.
  apply keeps_bind.
  { apply keeps_on_cache, keeps_modify. intros c Hc. by apply map_Forall_delete. }
  intros _. by eapply keeps_store.
Qed.

Lemma keeps_GetClaim `{!DecodesTyped} b : keeps cache_inv (vlan_GetClaim (W := W) json_claim b).
Proof.
  unfold vlan_GetClaim. apply keeps_bind_lift. intros cr Hcr.
  eapply keeps_with_applogic; [exact Hcr|]. intros vctx al Hv Hal.
  apply keeps_bind; [|keeps_auto]. apply keeps_on_table. by eapply keeps_applogic.
Qed.

Lemma keeps_Claim `{!DecodesTyped} b : keeps cache_inv (vlan_Claim client yaml json_claim b).
Proof.
  unfold vlan_Claim. apply keeps_bind_lift. intros cr Hcr. apply keeps_bind_lift. intros st Hst.
  eapply keeps_with_applogic; [exact Hcr|]. intros vctx al Hv Hal. apply keeps_bind.
  { apply keeps_on_table. by eapply keeps_applogic. }
  intros msg. case_bool_decide; [apply keeps_throw|]. apply keeps_bind.
  { apply keeps_on_table. by eapply keeps_applogic. }
  intros cr'. apply keeps_bind; [by eapply keeps_store|]. intros _. apply keeps_lift.
Qed.

Lemma keeps_DeleteClaim `{!DecodesTyped} b : keeps cache_inv (vlan_DeleteClaim client yaml json_claim b).
Proof.
  unfold vlan_DeleteClaim. apply keeps_bind_lift. intros cr Hcr. apply keeps_bind_lift. intros st Hst.
  eapply keeps_with_applogic; [exact Hcr|]. intros vctx al Hv Hal. apply keeps_bind.
  { apply keeps_on_table. by eapply keeps_applogic. }
  intros _. by eapply keeps_store.
Qed.

Lemma be_step_inv `{!DecodesTyped} s s' : be_step s s' -> cache_inv s -> cache_inv s'.
Proof.
  intros [b|b|b|b|b] Hs; by first
    [apply keeps_CreateIndex | apply keeps_DeleteIndex | apply keeps_GetClaim | apply keeps_Claim
    | apply keeps_DeleteClaim].
Qed.

(** C37. Whatever requests a backend has served since it started, restores from the
    API server included, every VLAN database it holds still contains the reserved
    VLANs 0, 1 and 4095 with their labels, and stores every entry under its own
    16-bit identifier. *)
Theorem vlan_backend_inv `{!DecodesTyped} s w : rtc be_step (MkVState NewCache w) s ->
  forall ref t, cache_Get ref true (v_cache s) = Ok t ->
  Forall (fun e => store t !! ID e = Some e) vlan_reserved /\ db_wf uint16 t.
Proof.
  intros Hs. assert (Hinv : cache_inv s).
  { assert (H0 : cache_inv (MkVState NewCache w)) by apply map_Forall_empty. revert H0.
    induction Hs as [|s s1 s2 Hstep _ IH]; [done|]. intros H0. apply IH. by eapply be_step_inv. }
  intros ref t (c&Hc&<-&_)%cache_Get_Ok. specialize (Hinv _ _ Hc). split; [|by apply vlandb_wf].
  apply Forall_forall. intros e He. apply (vlandb_reserved_kept _ (ID e) e Hinv).
  by apply (list_elem_of_fmap_2 (fun e => (ID e, e))).
Qed.

End BackendProps.
