(* ===== verification/VlanRestore.v ===== *)
(** * pkg/backend/vlan: what a restart keeps

    The backend keeps its databases in memory and saves each one in a config map
    after every claim. After a restart [CreateIndex] reads the config map, and
    restores the entries whose VLAN or VLANClaim still exists. *)

From S2P Require Import Prelude Strconv Meta Labels Conditions KRM DB Backend VlanApi VlanBackend.
From stdpp Require Import relations.

Local Open Scope Z_scope.

Abbreviation reachable := (rtc (db_step uint16) vlandb_New).

(** ** What is saved *)

Lemma foldl_labels_in (l : list entry) e : NoDup (ID <$> l) -> e ∈ l ->
  forall m : gmap Z labels, foldl (fun d e => <[ID e := Labels e]> d) m l !! ID e = Some (Labels e).
Proof.
  induction l as [|x l IH]; cbn [foldl]; [by intros _ ?%not_elem_of_nil|].
  rewrite fmap_cons. intros [Hx Hnd]%NoDup_cons [->|He]%elem_of_cons m; [|by apply IH].
  assert (Hout : forall m : gmap Z labels, foldl (fun d e => <[ID e := Labels e]> d) m l !! ID x = m !! ID x).
  { clear IH Hnd. induction l as [|y l IH]; [done|]. intros m'. cbn [foldl]. rewrite fmap_cons in Hx.
    apply not_elem_of_cons in Hx as [Hne Hx]. rewrite (IH Hx). by apply lookup_insert_ne. }
  rewrite Hout. apply lookup_insert_eq.
Qed.

Lemma foldl_labels_out (l : list entry) k : k ∉ ID <$> l ->
  forall m : gmap Z labels, foldl (fun d e => <[ID e := Labels e]> d) m l !! k = m !! k.
Proof.
  induction l as [|y l IH]; [done|]. rewrite fmap_cons. intros [Hne Hx]%not_elem_of_cons m. cbn [foldl].
  rewrite (IH Hx). by apply lookup_insert_ne.
Qed.

Lemma sorted_NoDup l : StronglySorted Z.lt l -> NoDup l.
Proof.
  induction 1 as [|x l _ IH Hx]; constructor; [|done].
  intros Hin. rewrite Forall_forall in Hx. specialize (Hx _ Hin). lia.
Qed.

(** The saved data are the labels of every entry, by identifier. *)
Lemma saved_data r l : db_wf uint16 r -> db_GetAll r = Ok l ->
  foldl (fun d e => <[ID e := Labels e]> d) (∅ : gmap Z labels) l = Labels <$> store r.
Proof.
  intros Hwf Hl. destruct (GetAll_spec uint16 r Hwf) as (l'&Hl'&Hin&Hs).
  rewrite Hl' in Hl. injection Hl as ->. clear Hl'. apply map_eq. intros k. rewrite lookup_fmap.
  destruct (store r !! k) as [e|] eqn:He; cbn.
  - destruct (Hwf _ _ He) as [<- _]. apply foldl_labels_in; [by apply sorted_NoDup|by apply Hin].
  - apply foldl_labels_out. intros (e&->&Hei%Hin)%list_elem_of_fmap. congruence.
Qed.

(** ** What is restored *)

Definition set_entry (id : Z) (ls : labels) (r : db) : db :=
  if bool_decide (setVLANValidation id = None) then db_add (MkEntry id ls) r else r.

Lemma log_Set_entry id ls r : cfg r = cfg vlandb_New ->
  log_error (db_Set (NewEntry id (Some ls))) r = (set_entry id ls r, Ok tt).
Proof.
  intros Hc. unfold log_error, set_entry, db_Set. rewrite Hc. cbn [SetValidation cfg vlandb_New NewDB ID NewEntry].
  change (SetValidation (cfg vlandb_New)) with (Some setVLANValidation).
  destruct (setVLANValidation id) eqn:Hv; cbn [NewEntry ID]; rewrite Hv; [|done].
  by rewrite bool_decide_eq_false_2.
Qed.

Lemma set_entry_cfg id ls r : cfg (set_entry id ls r) = cfg r.
Proof. unfold set_entry. by case_bool_decide. Qed.

Lemma set_entry_idemp id ls r : set_entry id ls (set_entry id ls r) = set_entry id ls r.
Proof.
  unfold set_entry. case_bool_decide; [|done]. unfold db_add. cbn. by rewrite insert_insert_eq.
Qed.

Definition names_any {Sp St} (ls : labels) (items : list (KRM Sp St)) : bool :=
  existsb (fun x => names_object ls (GetName x) (GetNamespace x)) items.

(** The loop over the objects of the API server restores the entry once. *)
Lemma restore_loop {Sp St} (items : list (KRM Sp St)) (f : KRM Sp St -> M db unit) id ls :
  (forall x r, x ∈ items -> cfg r = cfg vlandb_New -> f x r =
    (if names_object ls (GetName x) (GetNamespace x) then set_entry id ls r else r, Ok tt)) ->
  forall r, cfg r = cfg vlandb_New ->
  forM items f r = (if names_any ls items then set_entry id ls r else r, Ok tt).
Proof.
  induction items as [|x items IH]; intros Hf r Hr; [done|].
  cbn [forM names_any existsb]. unfold mbind, M_bind. rewrite Hf by (done || by left).
  assert (IH' : forall r, cfg r = cfg vlandb_New ->
    forM items f r = (if names_any ls items then set_entry id ls r else r, Ok tt)).
  { apply IH. intros y r' Hy. apply Hf. by right. }
  clear IH Hf. unfold names_any in IH'. destruct (names_object _ _ _); cbn [orb].
  - rewrite IH' by by rewrite set_entry_cfg. destruct (existsb _ _); by rewrite ?set_entry_idemp.
  - by rewrite IH'.
Qed.

Lemma restoreStaticVLANs_spec vl id ls r : Forall (fun v => is_Some (vs_VLANID (spec v))) vl ->
  cfg r = cfg vlandb_New ->
  restoreStaticVLANs vl id ls r = (if names_any ls vl then set_entry id ls r else r, Ok tt).
Proof.
  intros Hvl. apply restore_loop. intros v r' Hv Hr. destruct (names_object _ _ _); [|done].
  rewrite Forall_forall in Hvl. destruct (Hvl v Hv) as [z Hz].
  unfold mbind, M_bind, lift. rewrite Hz. by apply log_Set_entry.
Qed.

Lemma restoreDynamicVLANs_spec cl id ls r : cfg r = cfg vlandb_New ->
  restoreDynamicVLANs cl id ls r = (if names_any ls cl then set_entry id ls r else r, Ok tt).
Proof.
  apply restore_loop. intros v r' Hv Hr. destruct (names_object _ _ _); [|done]. by apply log_Set_entry.
Qed.

(** The outer loop, over the saved data. *)
Lemma restoreVLANs_spec (claims : gmap Z labels) gvk f (p : labels -> bool) r :
  (forall id ls r, cfg r = cfg vlandb_New ->
     f id ls r = (if p ls then set_entry id ls r else r, Ok tt)) ->
  cfg r = cfg vlandb_New ->
  exists r', restoreVLANs claims gvk f r = (r', Ok tt) /\ cfg r' = cfg vlandb_New /\
    forall k, store r' !! k =
      match claims !! k with
      | Some ls => if bool_decide (label_get ls NephioOwnerGvkKey = gvk) && p ls &&
                      bool_decide (setVLANValidation k = None)
                   then Some (MkEntry k ls) else store r !! k
      | None => store r !! k
      end.
Proof.
  intros Hf. unfold restoreVLANs. pose proof (NoDup_fst_map_to_list claims) as Hnd.
  assert (Hlook : forall k, claims !! k = (list_to_map (map_to_list claims) : gmap Z labels) !! k)
    by (intros k; by rewrite list_to_map_to_list).
  setoid_rewrite Hlook. clear Hlook. revert r. induction (map_to_list claims) as [|[id ls] kvs IH].
  - intros r Hr. exists r. split; [done|]. split; [done|]. intros k. cbn [list_to_map foldr]. by rewrite lookup_empty.
  - intros r Hr. cbn in Hnd. apply NoDup_cons in Hnd as [Hid Hnd]. cbn [forM]. unfold mbind, M_bind.
    set (r1 := if bool_decide (label_get ls NephioOwnerGvkKey = gvk) && p ls then set_entry id ls r else r).
    assert (Hr1 : cfg r1 = cfg vlandb_New).
    { subst r1. destruct (_ && _); [by rewrite set_entry_cfg|done]. }
    replace ((if bool_decide (label_get ls NephioOwnerGvkKey = gvk) then f id ls else mret ()) r)
      with (r1, Ok tt).
    2:{ subst r1. case_bool_decide; [by rewrite Hf|done]. }
    destruct (IH Hnd r1 Hr1) as (r'&Hr'&Hc'&Hlook). exists r'. split; [done|]. split; [done|].
    intros k. rewrite Hlook. cbn [list_to_map foldr fst snd uncurry]. destruct (decide (k = id)) as [->|Hne].
    + rewrite lookup_insert_eq, not_elem_of_list_to_map_1 by done. subst r1. unfold set_entry.
      destruct (bool_decide (_ = gvk) && p ls); cbn [andb]; [|done]. case_bool_decide; [|done].
      cbn. apply lookup_insert_eq.
    + rewrite lookup_insert_ne by done.
      assert (Hst : store r1 !! k = store r !! k).
      { subst r1. unfold set_entry. destruct (_ && _); [|done]. case_bool_decide; [|done].
        cbn. by apply lookup_insert_ne. }
      by rewrite Hst.
Qed.

(** ** The round trip *)

Section Restart.
Context {W : Type} `{L : LabelsAPI} `{!LabelsLaws L} `{E : ErrorsAPI}.
Context (c : VlanClient W) (view : W -> gmap NamespacedName ConfigMap).
Context `{!CMClientLaws (vc_ConfigMaps c) view}.
Context (yaml : Codec (gmap Z labels)) `{!CodecLaws yaml} (json_index : Codec VLANIndex).

(** The object that owns an entry still exists in the API server. *)
Definition owner_exists (w : W) (ls : labels) : Prop := exists vl cl,
  vc_ListVLANs c w = Ok vl /\ vc_ListVLANClaims c w = Ok cl /\
  (label_get ls NephioOwnerGvkKey = VLANKindGVKString /\ names_any ls vl = true \/
   label_get ls NephioOwnerGvkKey = VLANClaimKindGVKString /\ names_any ls cl = true).

(** The lists can be read, and the VLANs in them have an identifier. *)
Definition lists_ok (w : W) : Prop := exists vl cl,
  vc_ListVLANs c w = Ok vl /\ vc_ListVLANClaims c w = Ok cl /\
  Forall (fun v => is_Some (vs_VLANID (spec v))) vl.

Definition vlan_key (ref : ObjectReference) : NamespacedName :=
  NSN (ref_Namespace ref) ("vlan" +:+ "-" +:+ ref_Name ref).

Lemma GetData_spec s ref r b : v_cache s !! ref = Some (MkCacheContext true r) -> db_wf uint16 r ->
  Marshal yaml (Labels <$> store r) = Ok b ->
  vlan_GetData (W := W) yaml ref s = (s, Ok b).
Proof.
  intros Hr Hwf Hb. unfold vlan_GetData, mbind, M_bind, get_state, lift, cache_Get. rewrite Hr. cbn [negb andb instance initialized].
  destruct (GetAll_spec uint16 r Hwf) as (l&Hl&_). pose proof (saved_data r l Hwf Hl) as Hd.
  rewrite Hl, Hd, Hb. done.
Qed.

(** A save writes the labels of every entry into the config map of the index. *)
Lemma SaveAll_spec s ref r cm : v_cache s !! ref = Some (MkCacheContext true r) -> db_wf uint16 r ->
  view (v_world s) !! vlan_key ref = Some cm ->
  forall st, vlan_store (Some c) yaml = Ok st ->
  exists w b v, st_SaveAll st ref s = (MkVState (v_cache s) w, Ok tt) /\
    Unmarshal yaml b = Ok (Labels <$> store r) /\
    view w !! vlan_key ref = Some (MkConfigMap (cm_Namespace cm) (cm_Name cm) v {[ConfigMapKey := b]}).
Proof.
  intros Hr Hwf Hcm st [= <-]. destruct (Unmarshal_Marshal (Labels <$> store r)) as (b&Hm&Hu).
  pose proof (cmc_keys _ _ _ Hcm) as Hkey.
  destruct (cmc_Update_found (v_world s) (MkConfigMap (cm_Namespace cm) (cm_Name cm)
    (cm_ResourceVersion cm) {[ConfigMapKey := b]}) cm) as (w&v&Hup&Hview).
  { cbn. by rewrite <-Hkey. }
  cbn in Hview. rewrite <-Hkey in Hview. exists w, b, v.
  split; [|split; [done|by rewrite Hview, lookup_insert_eq]].
  cbn [st_SaveAll]. unfold cm_SaveAll. cbn [cfg_Client cfg_Prefix lift_cm cmc_Get].
  change (cm_key _ ref) with (vlan_key ref). rewrite (cmc_Get_found _ _ _ Hcm).
  unfold mbind, M_bind. rewrite (GetData_spec s ref r b) by done.
  unfold log_error. cbn [cmc_Update lift_cm]. unfold on_world. by rewrite Hup.
Qed.

(** ** Claiming *)

(** A dynamic claim of an owner without a VLAN, when a VLAN is free: the least one is
    stored with the labels of the claim, in the database and in the config map, and
    reported in the answer. *)
Lemma vlan_Claim_dynamic (json_claim : Codec VLANClaim) `{!CodecLaws json_claim} b a s d cm :
  let ref := VLANClaim_GetCacheID a in
  Unmarshal json_claim b = Ok a -> vcs_VLANID (spec a) = None -> vcs_VLANRange (spec a) = None ->
  v_cache s !! ref = Some (MkCacheContext true d) -> reachable d -> claim_valid a ->
  (forall e, store d !! ID e = Some e -> ~ owns a e) -> (exists id, 2 <= id <= 4094 /\ store d !! id = None) ->
  view (v_world s) !! vlan_key ref = Some cm ->
  exists id w b', let d' := db_add (MkEntry id (VLANClaim_GetUserDefinedLabels a)) d in
    vlan_Claim (Some c) yaml json_claim b s = (MkVState (<[ref := MkCacheContext true d']> (v_cache s)) w, Ok b') /\
    Unmarshal json_claim b' = Ok (set_VLANID id a) /\ 2 <= id <= 4094 /\ store d !! id = None /\
    (forall id', 2 <= id' < id -> is_Some (store d !! id')) /\
    exists cm' data, view w !! vlan_key ref = Some cm' /\ cm_Data cm' !! ConfigMapKey = Some data /\
      Unmarshal yaml data = Ok (Labels <$> store d').
Proof.
  intros ref Hb Hid Hrange Hd Hreach Hvalid Hno (i0&Hi0&Hfree) Hcm.
  destruct (vlan_claim_dynamic (MkVLANClaimCtx VLANClaimTypeDynamic 0 0) a d Hreach Hvalid eq_refl Hno)
    as [(id&Happ&Hr&Hn&Hleast)|[_ Hfull]]; [|destruct (Hfull i0 Hi0); congruence].
  set (d' := db_add (MkEntry id (VLANClaim_GetUserDefinedLabels a)) d).
  change (MkDB _ (cfg d)) with d' in Happ.
  assert (Hreach' : reachable d').
  { pose proof (vlan_step_reachable _ _ (step_Apply d (MkVLANClaimCtx VLANClaimTypeDynamic 0 0) a ltac:(by_compute)) Hreach) as H.
    by rewrite Happ in H. }
  set (s' := MkVState (<[ref := MkCacheContext true d']> (v_cache s)) (v_world s)).
  assert (exists st, vlan_store (Some c) yaml = Ok st) as [st Hst] by (eexists; reflexivity).
  destruct (SaveAll_spec s' ref d' cm (lookup_insert_eq _ _ _) (vlandb_wf d' Hreach') Hcm st Hst)
    as (w&data&v&Hsave&Hdata&Hview).
  destruct (Unmarshal_Marshal (set_VLANID id a)) as (b'&Hm&Hu).
  exists id, w, b'. cbn zeta. fold d'.
  split; [|split; [exact Hu|split; [exact Hr|split; [exact Hn|split; [exact Hleast|]]]]].
  2:{ eexists _, data. split; [exact Hview|]. split; [apply lookup_singleton_eq|exact Hdata]. }
  set (vctx := MkVLANClaimCtx VLANClaimTypeDynamic 0 0) in *.
  set (al := MkAppLogic db VLANClaim (vlan_GetHandler vctx) (vlan_ValidateHandler vctx) (vlan_ApplyHandler vctx)
    (vlan_DeleteHandler vctx)).
  assert (Hal : vlan_newApplogic a false s = (s, Ok al)).
  { unfold vlan_newApplogic. rewrite get_bind, (lift_ok _ _ _ d) by (unfold cache_Get; fold ref; by rewrite Hd).
    rewrite (lift_ok _ _ _ vctx) by (unfold GetVLANClaimCtx; by rewrite Hid, Hrange). reflexivity. }
  unfold vlan_Claim. rewrite (lift_ok _ _ _ _ Hb), (lift_ok _ _ _ _ Hst), (bind_ok _ _ _ _ _ Hal).
  assert (Hval : on_table ref (al_Validate al a) s = (s, Ok "")).
  { unfold on_table. rewrite Hd. cbn [al al_Validate vlan_ValidateHandler mret M_ret instance initialized].
    rewrite (insert_id _ _ _ Hd). by destruct s. }
  assert (Hap : on_table ref (al_Apply al a) s = (s', Ok (set_VLANID id a))).
  { unfold on_table. rewrite Hd. cbn [al al_Apply instance initialized]. by rewrite Happ. }
  fold ref. rewrite (bind_ok _ _ _ _ _ Hval). rewrite bool_decide_eq_false_2 by (intros []; done).
  rewrite (bind_ok _ _ _ _ _ Hap). change (VLANClaim_GetCacheID (set_VLANID id a)) with ref.
  rewrite (bind_ok _ _ _ _ _ Hsave). unfold lift. by rewrite Hm.
Qed.

Lemma vlan_released_added a d id e d' : vlan_released a (db_add (MkEntry id e) d) d' -> store d !! id = None ->
  db_wf uint16 d -> (forall e, store d !! ID e = Some e -> ~ owns a e) -> owns a (MkEntry id e) -> d' = d.
Proof.
  intros [Hc Hs] Hid Hwf Hno Ho. destruct d as [st cf], d' as [st' cf']. cbn in *. subst cf'. f_equal.
  apply map_eq. intros k. apply option_eq. intros x. rewrite Hs, lookup_insert_Some. split.
  - intros [[[_ <-]|[_ Hx]] Hnx]; [done|exact Hx].
  - intros Hx. split; [right; split; [intros ->; congruence|done]|]. apply Hno. by destruct (Hwf _ _ Hx) as [-> _].
Qed.

(** The release of a claim: it is decoded, the entries of its owner are deleted and the
    database is saved. *)
Lemma vlan_DeleteClaim_spec (json_claim : Codec VLANClaim) b a vctx s d cm :
  let ref := VLANClaim_GetCacheID a in
  Unmarshal json_claim b = Ok a -> GetVLANClaimCtx a = Ok vctx ->
  v_cache s !! ref = Some (MkCacheContext true d) -> reachable d -> claim_valid a ->
  view (v_world s) !! vlan_key ref = Some cm ->
  exists d' w, vlan_DeleteClaim (Some c) yaml json_claim b s = (MkVState (<[ref := MkCacheContext true d']> (v_cache s)) w, Ok tt) /\
    vlan_released a d d' /\
    exists cm' data, view w !! vlan_key ref = Some cm' /\ cm_Data cm' !! ConfigMapKey = Some data /\
      Unmarshal yaml data = Ok (Labels <$> store d').
Proof.
  intros ref Hb Hctx Hd Hreach Hvalid Hcm.
  destruct (vlan_delete_released vctx a d Hreach Hvalid) as (d'&Hdel&Hrel).
  assert (Hreach' : reachable d').
  { pose proof (vlan_step_reachable _ _ (step_DeleteClaim d vctx a) Hreach) as H. by rewrite Hdel in H. }
  set (s' := MkVState (<[ref := MkCacheContext true d']> (v_cache s)) (v_world s)).
  assert (exists st, vlan_store (Some c) yaml = Ok st) as [st Hst] by (eexists; reflexivity).
  destruct (SaveAll_spec s' ref d' cm (lookup_insert_eq _ _ _) (vlandb_wf d' Hreach') Hcm st Hst)
    as (w&data&v&Hsave&Hdata&Hview).
  exists d', w. split; [|split; [exact Hrel|]].
  - unfold vlan_DeleteClaim. rewrite (lift_ok _ _ _ _ Hb), (lift_ok _ _ _ _ Hst).
    set (al := MkAppLogic db VLANClaim (vlan_GetHandler vctx) (vlan_ValidateHandler vctx) (vlan_ApplyHandler vctx)
      (vlan_DeleteHandler vctx)).
    assert (Hal : vlan_newApplogic a false s = (s, Ok al)).
    { unfold vlan_newApplogic.
      rewrite get_bind, (lift_ok _ _ _ d) by (unfold cache_Get; fold ref; by rewrite Hd).
      rewrite (lift_ok _ _ _ vctx) by exact Hctx. reflexivity. }
    rewrite (bind_ok _ _ _ _ _ Hal). fold ref. cbn [al al_Delete].
    assert (Hon : on_table ref (vlan_DeleteHandler vctx a) s = (s', Ok tt)).
    { unfold on_table. rewrite Hd. cbn [instance initialized]. by rewrite Hdel. }
    rewrite (bind_ok _ _ _ _ _ Hon). exact Hsave.
  - eexists _, data. split; [exact Hview|]. split; [apply lookup_singleton_eq|exact Hdata].
Qed.

Lemma vlandb_New_lookup k : setVLANValidation k = None -> store vlandb_New !! k = None.
Proof.
  unfold setVLANValidation. intros Hk. apply eq_None_not_Some. intros [e He].
  assert (Hall : Forall (fun p => p.1 = 0 \/ p.1 = 1 \/ p.1 = 4095) (map_to_list (store vlandb_New)))
    by by_compute.
  rewrite Forall_forall in Hall. specialize (Hall (k, e)).
  destruct Hall as [Hz|[Hz|Hz]]; [by apply elem_of_map_to_list|cbn in Hz; subst k; discriminate Hk..].
Qed.

Lemma vlandb_reserved_lookup r k : reachable r -> setVLANValidation k <> None ->
  store vlandb_New !! k = store r !! k.
Proof.
  intros Hr Hk. symmetry. apply (db_steps_protected uint16); [| |exact Hr].
  - exists setVLANValidation. destruct (setVLANValidation k) as [err|]; [by exists err|done].
  - exists deleteVLANValidation. revert Hk. unfold setVLANValidation, deleteVLANValidation.
    repeat case_bool_decide; by eauto.
Qed.

(** The saved entries, restored into a new database. *)
Lemma RestoreData_spec w ref r b cm : reachable r -> lists_ok w ->
  (forall id e, setVLANValidation id = None -> store r !! id = Some e -> owner_exists w (Labels e)) ->
  Unmarshal yaml b = Ok (Labels <$> store r) -> cm_Data cm !! ConfigMapKey = Some b ->
  forall ca, v_cache ca = {[ref := MkCacheContext false vlandb_New]} -> v_world ca = w ->
  vlan_RestoreData yaml c ref cm ca =
  (MkVState {[ref := MkCacheContext false r]} w, Ok tt).
Proof.
  intros Hr (vl&cl&Hvl&Hcl&Hids) Hown Hu Hdata ca Hca Hw.
  set (data := Labels <$> store r) in *.
  destruct (restoreVLANs_spec data VLANKindGVKString (restoreStaticVLANs vl) (fun ls => names_any ls vl)
    vlandb_New) as (r1&Hr1&Hc1&Hl1); [intros; by apply restoreStaticVLANs_spec|done|].
  destruct (restoreVLANs_spec data VLANClaimKindGVKString (restoreDynamicVLANs cl)
    (fun ls => names_any ls cl) r1) as (r2&Hr2&Hc2&Hl2); [intros; by apply restoreDynamicVLANs_spec|done|].
  assert (r2 = r) as ->.
  { assert (cfg r2 = cfg r) as Hcfg by by rewrite Hc2, (db_steps_cfg _ _ _ Hr).
    destruct r2 as [m2 c2], r as [m cfg0]. cbn in Hcfg. subst c2. f_equal. apply map_eq. intros k.
    cbn [store] in Hl1, Hl2, Hown |- *. rewrite Hl2, Hl1. unfold data. rewrite lookup_fmap.
    change (store {| store := m; cfg := cfg0 |}) with m.
    destruct (decide (setVLANValidation k = None)) as [Hk|Hk].
    - rewrite (bool_decide_eq_true_2 _ Hk), (vlandb_New_lookup k Hk).
      destruct (m !! k) as [e|] eqn:He; [|done]. cbn [fmap option_fmap option_map]. rewrite !andb_true_r.
      assert (Hid : MkEntry k (Labels e) = e).
      { destruct (vlandb_wf _ Hr k e He) as [<- _]. by destruct e. }
      rewrite Hid. destruct (Hown k e Hk He) as (vl'&cl'&Hvl'&Hcl'&Ho).
      assert (vl' = vl) as -> by congruence. assert (cl' = cl) as -> by congruence.
      destruct Ho as [[Hg Hn]|[Hg Hn]]; rewrite Hg, Hn.
      + rewrite (bool_decide_eq_true_2 (_ = VLANKindGVKString)) by done. by destruct (_ && _).
      + by rewrite bool_decide_eq_true_2.
    - rewrite (bool_decide_eq_false_2 _ Hk).
      pose proof (vlandb_reserved_lookup _ k Hr Hk) as Hres. cbn [store] in Hres.
      rewrite Hres. destruct (m !! k); [|done]. cbn [fmap option_fmap option_map].
      by rewrite !andb_false_r. }
  unfold vlan_RestoreData, mbind, M_bind, lift, get_state. rewrite Hdata. cbn [from_option id].
  rewrite Hu. unfold cache_Get. rewrite Hca, lookup_singleton_eq. cbn [negb andb instance].
  rewrite Hw, Hvl. cbn [wrap_result]. unfold on_table at 1. rewrite Hca, lookup_singleton_eq. cbn [instance].
  rewrite Hr1. cbn [v_world]. rewrite Hw, Hcl. cbn [wrap_result]. unfold on_table. cbn [v_cache].
  rewrite lookup_insert_eq. cbn [instance initialized]. rewrite Hr2. cbn [v_world].
  by rewrite insert_insert_eq, insert_singleton_eq.
Qed.

(** C36. A restart loses nothing whose owner still exists: when a database was saved and
    every entry of it that is not reserved belongs to a VLAN or VLANClaim that the
    API server still lists, creating the index in a new process gives the same
    database. *)
Theorem vlan_restart s ref r cm s1 st b cr :
  v_cache s !! ref = Some (MkCacheContext true r) -> reachable r ->
  view (v_world s) !! vlan_key ref = Some cm ->
  vlan_store (Some c) yaml = Ok st -> st_SaveAll st ref s = (s1, Ok tt) ->
  lists_ok (v_world s1) ->
  (forall id e, setVLANValidation id = None -> store r !! id = Some e ->
     owner_exists (v_world s1) (Labels e)) ->
  Unmarshal json_index b = Ok cr -> VLANIndex_GetCacheID cr = ref ->
  exists s2, vlan_CreateIndex (Some c) yaml json_index b (MkVState NewCache (v_world s1)) = (s2, Ok tt) /\
    cache_Get ref false (v_cache s2) = Ok r.
Proof.
  intros Hr Hreach Hcm Hst Hsave Hlists Hown Hb Href. pose proof (vlandb_wf r Hreach) as Hwf.
  destruct (SaveAll_spec s ref r cm Hr Hwf Hcm st Hst) as (w&b'&v&Hsave'&Hu&Hview).
  rewrite Hsave in Hsave'. injection Hsave' as ->. cbn [v_world] in *.
  eexists. unfold vlan_CreateIndex, mbind, M_bind, lift. rewrite Hb, Hst, Href.
  unfold on_cache at 1. cbn [modify v_cache v_world].
  unfold cache_Create, NewCache. rewrite lookup_empty. unfold get_state.
  unfold cache_IsInitialized. cbn [v_cache]. rewrite lookup_insert_eq. cbn [initialized newCacheContext].
  injection Hst as <-. cbn [st_Restore]. unfold cm_Restore. cbn [cfg_Client cfg_Prefix lift_cm cmc_Get v_world].
  change (cm_key _ ref) with (vlan_key ref). rewrite (cmc_Get_found _ _ _ Hview).
  rewrite (RestoreData_spec w ref r b') by (done || cbn; by rewrite ?insert_empty, ?lookup_singleton_eq).
  unfold on_cache, cache_SetInitialized. cbn [v_cache v_world]. rewrite lookup_singleton_eq.
  split; [done|]. cbn [v_cache]. unfold cache_Get. rewrite lookup_insert_eq. done.
Qed.

End Restart.
