(* ===== verification/VlanWitness.v ===== *)
(** * The VLAN backend at concrete inputs

    Sample claims, served by the API server in memory, at which the theorems of
    [VlanBackend] and [VlanRestore] are applied. *)

From S2P Require Import Prelude Strconv Meta Labels Conditions KRM DB Backend TestWorld VlanApi VlanBackend VlanRestore.
From stdpp Require Import relations.

Local Open Scope Z_scope.
#[local] Existing Instance list_labels.

(** ** Codecs *)

(** A decoder of VLAN data refuses identifiers that are not 16-bit numbers. *)
Definition typed_yaml : Codec (gmap Z labels) := {|
  Marshal := Marshal (bits_codec (gmap Z labels));
  Unmarshal s :=
    m ← Unmarshal (bits_codec (gmap Z labels)) s;
    if decide (map_Forall (fun k _ => in_range uint16 k) m) then Ok m else Err "decode"
|}.

(** ** Sample claims and databases *)

Definition claim_x : VLANClaim := sample_vlanclaim "dummy" "x" None None.
Definition claim_y : VLANClaim := sample_vlanclaim "dummy" "y" (Some 2) None.
Definition dyn_ctx : VLANClaimCtx := MkVLANClaimCtx VLANClaimTypeDynamic 0 0.
Definition static_ctx : VLANClaimCtx := MkVLANClaimCtx VLANClaimTypeStatic 2 0.
Definition range_ctx : VLANClaimCtx := MkVLANClaimCtx VLANClaimTypeRange 100 100.

(** The database in which [x] has claimed VLAN 2. *)
Definition db_x : db := db_add (MkEntry 2 (VLANClaim_GetUserDefinedLabels claim_x)) vlandb_New.

(** The API server lists the claim [x]. *)
Definition test_client : VlanClient api := MkVlanClient api test_cms (fun _ => Ok []) (fun _ => Ok [claim_x]).

Lemma db_x_reachable : rtc (db_step uint16) vlandb_New db_x.
Proof. apply (db_add_reachable vlandb_New); [apply rtc_refl|cbn; lia]. Qed.

Lemma store_forall (P : entry -> Prop) r :
  Forall (fun p => P p.2) (map_to_list (store r)) -> forall e, store r !! ID e = Some e -> P e.
Proof.
  intros Hall e He. rewrite Forall_forall in Hall. apply (Hall (ID e, e)).
  by apply elem_of_map_to_list.
Qed.

Lemma claim_x_valid : claim_valid claim_x.
Proof. eexists. vm_compute. reflexivity. Qed.
Lemma claim_y_valid : claim_valid claim_y.
Proof. eexists. vm_compute. reflexivity. Qed.

Lemma claim_x_none e : store vlandb_New !! ID e = Some e -> ~ owns claim_x e.
Proof. revert e. apply store_forall. by_compute. Qed.
Lemma claim_y_none e : store vlandb_New !! ID e = Some e -> ~ owns claim_y e.
Proof. revert e. apply store_forall. by_compute. Qed.
Lemma claim_y_none_x e : store db_x !! ID e = Some e -> ~ owns claim_y e.
Proof. revert e. apply store_forall. by_compute. Qed.

Lemma claim_x_owned : owned (VLANClaim_GetUserDefinedLabels claim_x).
Proof. apply add_owner_labels_owned. Qed.

(** ** Witnesses of the handlers *)

Lemma apply_x : vlan_ApplyHandler dyn_ctx claim_x vlandb_New = (db_x, Ok (set_VLANID 2 claim_x)).
Proof.
  destruct (getEntriesByOwner_spec claim_x vlandb_New claim_x_valid) as (l&Hl&Hin&_).
  { apply vlandb_wf, rtc_refl. }
  rewrite (no_entries_nil claim_x vlandb_New l Hin claim_x_none) in Hl.
  rewrite (vlan_ApplyHandler_new _ _ _ Hl). cbn [vctx_Kind dyn_ctx].
  rewrite applyHandlerNewDynamicVlan_spec by apply rtc_refl.
  replace (free_ids vlandb_New) with (2 :: tail (free_ids vlandb_New)) by by_compute. reflexivity.
Qed.

Lemma vlan_claim_dynamic_witness : exists id,
  (vlan_ApplyHandler dyn_ctx claim_x vlandb_New).2 = Ok (set_VLANID id claim_x) /\ id = 2.
Proof.
  destruct (vlan_claim_dynamic dyn_ctx claim_x vlandb_New (rtc_refl _ _) claim_x_valid eq_refl
    claim_x_none) as [(id&Hid&_&_&_)|[Herr _]].
  - exists id. rewrite Hid. split; [reflexivity|]. rewrite apply_x in Hid. by injection Hid as _ <-.
  - rewrite apply_x in Herr. discriminate Herr.
Defined.

Lemma vlan_claim_idempotent_witness :
  vlan_ApplyHandler dyn_ctx claim_x db_x = (db_x, Ok (set_VLANID 2 claim_x)).
Proof.
  exact (vlan_claim_idempotent dyn_ctx claim_x vlandb_New db_x _ (rtc_refl _ _) claim_x_valid
    claim_x_owned eq_refl apply_x).
Defined.

Lemma vlan_claim_release_witness : vlan_DeleteHandler dyn_ctx claim_x db_x = (vlandb_New, Ok tt).
Proof.
  exact (vlan_claim_release dyn_ctx claim_x vlandb_New db_x _ (rtc_refl _ _) claim_x_valid
    claim_x_owned eq_refl claim_x_none apply_x).
Defined.

Lemma vlan_one_per_owner_witness : one_per_owner db_x /\ is_Some (store db_x !! 2).
Proof.
  split; [|by_compute]. apply vlan_one_per_owner. apply rtc_once.
  replace db_x with (vlan_ApplyHandler dyn_ctx claim_x vlandb_New).1 by by rewrite apply_x.
  constructor. by_compute.
Defined.

(** The static claim of VLAN 2 by [y] takes it from [x]. *)
Lemma vlan_static_overwrites_witness : exists r,
  vlan_ApplyHandler static_ctx claim_y db_x = (r, Ok (set_VLANID 2 claim_y)) /\
  forall e, store r !! ID e = Some e -> ~ owns claim_x e.
Proof.
  destruct (vlan_static_overwrites static_ctx claim_y db_x 2
    (MkEntry 2 (VLANClaim_GetUserDefinedLabels claim_x)) db_x_reachable claim_y_valid eq_refl eq_refl
    ltac:(lia) claim_y_none_x (lookup_insert_eq _ _ _)) as (r&Hr&_&Hlost).
  exists r. split; [exact Hr|]. apply Hlost.
  - apply owner_labels_subseteq, claim_x_owned.
  - intros e He Ho. cbn in He. apply lookup_insert_Some in He as [[_ <-]|[_ He]]; [done|].
    by destruct (claim_x_none e He).
  - apply (bool_decide_unpack _). vm_compute. exact I.
Defined.

Lemma vlan_range_not_recorded_witness : exists resa resb,
  vlan_ApplyHandler range_ctx claim_x vlandb_New = (vlandb_New, resa) /\
  vlan_ApplyHandler range_ctx claim_y vlandb_New = (vlandb_New, resb).
Proof.
  destruct (vlan_range_not_recorded range_ctx claim_x claim_y vlandb_New (rtc_refl _ _) (or_introl eq_refl)
    claim_x_valid claim_y_valid claim_x_none claim_y_none) as (resa&resb&Ha&Hb&_).
  exists resa, resb. split; [exact Ha|exact Hb].
Defined.

(** ** Witnesses of the backend *)

Definition index_a : VLANIndex :=
  BuildVLANIndex (sample_meta "dummy" "a") (MkVLANIndexSpec (MkUserDefinedLabels None))
    (MkVLANIndexStatus (MkConditionedStatus [])).

Definition ref_a : ObjectReference := ObjRef "" "dummy" "a" "" "" "" "".

#[local] Instance test_typed : DecodesTyped typed_yaml (const_codec claim_x).
Proof.
  split.
  - intros b a [= <-]. exact I.
  - intros b m. cbn. unfold mbind, result_bind.
    destruct (match of_bits b with Some p => _ | None => _ end) as [m'| |]; [|done..].
    case_decide as Hm; [|done]. intros [= ->]. exact Hm.
Qed.

Lemma vlan_backend_inv_witness : exists s,
  s = (vlan_CreateIndex (W := api) None typed_yaml (const_codec index_a) "" (MkVState NewCache (MkApi ∅))).1 /\
  exists t, cache_Get ref_a true (v_cache s) = Ok t /\
    Forall (fun e => store t !! ID e = Some e) vlan_reserved.
Proof.
  eexists. split; [reflexivity|]. exists vlandb_New.
  assert (Hget : cache_Get ref_a true (v_cache (vlan_CreateIndex (W := api) None typed_yaml
    (const_codec index_a) "" (MkVState NewCache (MkApi ∅))).1) = Ok vlandb_New)
    by (vm_compute; reflexivity).
  split; [exact Hget|].
  refine (proj1 (vlan_backend_inv None typed_yaml (const_codec claim_x) (const_codec index_a) _ _ _ ref_a _ Hget)).
  apply rtc_once. constructor.
Defined.

(** The API server after the first creation of the index, with the claim [x]. *)
Definition api_x : api :=
  MkApi {[NSN "dummy" "vlan-a" := MkConfigMap "dummy" "vlan-a" "" ∅]}.

Definition state_x : vstate api := MkVState {[ref_a := MkCacheContext true db_x]} api_x.

Lemma vlan_restart_witness : exists s1 s2,
  vlan_CreateIndex (Some test_client) (bits_codec _) (const_codec index_a) "" (MkVState NewCache (v_world s1)) =
    (s2, Ok tt) /\ cache_Get ref_a false (v_cache s2) = Ok db_x.
Proof.
  assert (Hcm : api_view (v_world state_x) !! vlan_key ref_a = Some (MkConfigMap "dummy" "vlan-a" "" ∅))
    by by_compute.
  destruct (SaveAll_spec test_client api_view (bits_codec _) state_x ref_a db_x
    _ (lookup_singleton_eq _ _) (vlandb_wf _ db_x_reachable) Hcm _ eq_refl) as (w&b&v&Hsave&_&_).
  exists (MkVState (v_cache state_x) w).
  apply (vlan_restart test_client api_view (bits_codec _) (const_codec index_a) state_x ref_a db_x
    _ _ _ "" index_a (lookup_singleton_eq _ _) db_x_reachable Hcm eq_refl Hsave).
  - exists [], [claim_x]. split; [reflexivity|]. split; [reflexivity|]. constructor.
  - intros id e Hid He. exists [], [claim_x]. split; [reflexivity|]. split; [reflexivity|]. right.
    unfold db_x, db_add in He. cbn [store ID] in He. apply lookup_insert_Some in He as [[_ <-]|[_ He]].
    + split; vm_compute; reflexivity.
    + rewrite (vlandb_New_lookup id Hid) in He. discriminate He.
  - reflexivity.
  - reflexivity.
Defined.
