(* ===== verification/NetIP.v ===== *)
(** * net/netip: addresses and prefixes

    The part of Go's standard library that the IPAM code computes with, and
    [netipx.PrefixLastIP] as a parameter. An address is a number of 32 or 128
    bits. Addresses with an IPv6 zone are left out: a prefix has none. *)

From S2P Require Import Prelude Strconv.

Local Open Scope Z_scope.

(** ** Addresses *)

Inductive Addr : Type :=
| InvalidAddr
| V4 (n : Z)
| V6 (n : Z).

#[export] Instance Addr_eq_dec : EqDecision Addr.
Proof. solve_decision. Defined.

#[export] Instance Addr_countable : Countable Addr.
Proof.
  apply (inj_countable
    (fun a => match a with InvalidAddr => None | V4 n => Some (inl n) | V6 n => Some (inr n) end)
    (fun x => match x with None => Some InvalidAddr | Some (inl n) => Some (V4 n) | Some (inr n) => Some (V6 n) end)).
  by intros [].
Defined.

Definition Addr_IsValid (a : Addr) : bool := match a with InvalidAddr => false | _ => true end.
Definition Is4 (a : Addr) : bool := match a with V4 _ => true | _ => false end.
(** IPv4-mapped IPv6 addresses included. *)
Definition Is6 (a : Addr) : bool := match a with V6 _ => true | _ => false end.
Definition BitLen (a : Addr) : Z := match a with InvalidAddr => 0 | V4 _ => 32 | V6 _ => 128 end.
Definition addr_num (a : Addr) : Z := match a with InvalidAddr => 0 | V4 n | V6 n => n end.
Definition with_num (a : Addr) (n : Z) : Addr :=
  match a with InvalidAddr => InvalidAddr | V4 _ => V4 n | V6 _ => V6 n end.

(** The number fits the family. *)
Definition addr_ok (a : Addr) : Prop := 0 <= addr_num a < 2 ^ BitLen a.

#[export] Instance addr_ok_dec a : Decision (addr_ok a).
Proof. unfold addr_ok. apply _. Defined.

(** ** Printing addresses *)

(** Field [i], counted from the left, of [n] fields of [w] bits. *)
Definition fields (w : Z) (n : nat) (x : Z) : list Z :=
  (fun i => Z.land (Z.shiftr x (w * Z.of_nat i)) (Z.ones w)) <$> reverse (seq 0 n).

Definition dotted (x : Z) : string := String.concat "." (pretty <$> fields 8 4 x).

Definition hex_digit (d : Z) : string :=
  String (Ascii.ascii_of_N (Z.to_N (if d <? 10 then 48 + d else 87 + d))) EmptyString.

(** A 16-bit field without leading zeros. *)
Definition hex16 (x : Z) : string :=
  let ds := fields 4 4 x in
  let fix strip l := match l with
    | [d] => hex_digit d
    | d :: l' => if d =? 0 then strip l' else String.concat "" (hex_digit <$> l)
    | [] => EmptyString
    end in
  strip ds.

Fixpoint zero_run (l : list Z) : nat :=
  match l with x :: l' => if x =? 0 then S (zero_run l') else O | [] => O end.

(** The first longest run of at least two zero fields, as a pair of its start and
    its length; the length is 0 if there is none. *)
Fixpoint longest_run (i : nat) (l : list Z) (best : nat * nat) : nat * nat :=
  match l with
  | [] => best
  | _ :: l' =>
      let n := zero_run l in
      longest_run (S i) l'
        (if (2 <=? n)%nat && (best.2 <? n)%nat then (i, n) else best)
  end.

Definition v6_string (x : Z) : string :=
  let fs := fields 16 8 x in
  match longest_run 0 fs (O, O) with
  | (_, O) => String.concat ":" (hex16 <$> fs)
  | (i, n) =>
      String.concat ":" (hex16 <$> take i fs) +:+ "::" +:+ String.concat ":" (hex16 <$> drop (i + n) fs)
  end.

(** [Addr.String] *)
Definition Addr_String (a : Addr) : string :=
  match a with
  | InvalidAddr => "invalid IP"
  | V4 x => dotted x
  | V6 x =>
      if Z.shiftr x 32 =? 65535 then "::ffff:" +:+ dotted (Z.land x (Z.ones 32))
      else v6_string x
  end.

(** ** Parsing addresses

    The texts of the errors of [net/netip] are abbreviated to their first part. *)

(** A decimal field: a number up to 255 without leading zeros. *)
Definition parse_octet (s : string) : option Z :=
  match s with
  | EmptyString => None
  | String "0"%char (String _ _) => None
  | _ => match parse_dec s 0 with
         | Some n => if n <=? 255 then Some n else None
         | None => None
         end
  end.

Definition of_fields (w : Z) (l : list Z) : Z := foldl (fun acc d => acc * 2 ^ w + d) 0 l.

Definition parse_v4 (s : string) : option Z :=
  match parse_octet <$> split_on "."%char s with
  | [Some a; Some b; Some c; Some d] => Some (of_fields 8 [a; b; c; d])
  | _ => None
  end.

Definition hex_value (c : ascii) : option Z :=
  let n := Z.of_N (Ascii.N_of_ascii c) in
  if byte_in 48 57 n then Some (n - 48)
  else if byte_in 97 102 n then Some (n - 87)
  else if byte_in 65 70 n then Some (n - 55)
  else None.

(** The leading hexadecimal digits of a string: their number, their value and the
    rest of the string. *)
Fixpoint hex_span (s : string) (len : nat) (acc : Z) : nat * Z * string :=
  match s with
  | String c s' =>
      match hex_value c with
      | Some d => hex_span s' (S len) (acc * 16 + d)
      | None => (len, acc, s)
      end
  | EmptyString => (len, acc, s)
  end.

(** The loop of [parseIPv6] on the fields that are left. It returns the fields read
    and the place of the ellipsis among them; each round reads at least one field,
    and there are at most eight. *)
Fixpoint parse_v6_fields (fuel : nat) (s : string) (got : list Z) (ell : option nat) :
    option (list Z * option nat) :=
  match fuel with
  | O => match s with EmptyString => Some (got, ell) | _ => None end
  | S fuel' =>
      match hex_span s 0 0 with
      | (O, _, _) => None
      | (n, v, rest) =>
          match rest with
          | String "."%char _ =>
              (* an IPv4 address takes the last two fields *)
              let i := length got in
              if (match ell with None => bool_decide (i <> 6%nat) | Some _ => false end) || (6 <? i)%nat
              then None
              else match parse_v4 s with
                   | Some x => Some (got ++ fields 16 2 x, ell)
                   | None => None
                   end
          | _ =>
              if (4 <? n)%nat then None
              else
                let got' := got ++ [v] in
                match rest with
                | EmptyString => Some (got', ell)
                | String ":"%char EmptyString => None
                | String ":"%char (String ":"%char rest') =>
                    match ell with
                    | Some _ => None
                    | None =>
                        match rest' with
                        | EmptyString => Some (got', Some (length got'))
                        | _ => parse_v6_fields fuel' rest' got' (Some (length got'))
                        end
                    end
                | String ":"%char rest' => parse_v6_fields fuel' rest' got' ell
                | _ => None
                end
          end
      end
  end.

Definition parse_v6 (s : string) : option Z :=
  let r :=
    match s with
    | String ":"%char (String ":"%char EmptyString) => Some ([], Some O)
    | String ":"%char (String ":"%char s') => parse_v6_fields 8 s' [] (Some O)
    | _ => parse_v6_fields 8 s [] None
    end in
  match r with
  | None => None
  | Some (fs, ell) =>
      match ell with
      | None => if bool_decide (length fs = 8%nat) then Some (of_fields 16 fs) else None
      | Some i =>
          if (length fs <? 8)%nat
          then Some (of_fields 16 (take i fs ++ replicate (8 - length fs) 0 ++ drop i fs))
          else None
      end
  end.

(** The first byte that tells the family of an address. *)
Fixpoint addr_kind (s : string) : option ascii :=
  match s with
  | EmptyString => None
  | String c s' =>
      if bool_decide (c = "."%char \/ c = ":"%char \/ c = "%"%char) then Some c else addr_kind s'
  end.

Definition ParseAddr (s : string) : result Addr :=
  let err := Err ("ParseAddr(" +:+ quote s +:+ "): unable to parse IP") in
  match addr_kind s with
  | Some "."%char => match parse_v4 s with Some x => Ok (V4 x) | None => err end
  | Some ":"%char => match parse_v6 s with Some x => Ok (V6 x) | None => err end
  | _ => err
  end.

(** ** Prefixes *)

(** [p_bits] is what [Bits] returns: -1 for an invalid prefix. *)
Record Prefix : Type := MkPrefix { p_addr : Addr; p_bits : Z }.

#[export] Instance Prefix_eq_dec : EqDecision Prefix.
Proof. solve_decision. Defined.

#[export] Instance Prefix_countable : Countable Prefix.
Proof.
  apply (inj_countable' (fun p => (p_addr p, p_bits p)) (fun '(a, b) => MkPrefix a b)). by intros [].
Defined.

Definition ZeroPrefix : Prefix := MkPrefix InvalidAddr (-1).

Definition PrefixFrom (a : Addr) (bits : Z) : Prefix :=
  if Addr_IsValid a && bool_decide (0 <= bits <= BitLen a) then MkPrefix a bits else MkPrefix a (-1).

Definition Prefix_IsValid (p : Prefix) : bool :=
  Addr_IsValid (p_addr p) && bool_decide (0 <= p_bits p <= BitLen (p_addr p)).

(** The bits of the host part, cleared. *)
Definition mask_num (len bits x : Z) : Z := Z.shiftl (Z.shiftr x (len - bits)) (len - bits).

(** [Prefix.Masked] *)
Definition Masked (p : Prefix) : Prefix :=
  if Prefix_IsValid p then
    MkPrefix (with_num (p_addr p) (mask_num (BitLen (p_addr p)) (p_bits p) (addr_num (p_addr p)))) (p_bits p)
  else ZeroPrefix.

Definition Prefix_String (p : Prefix) : string :=
  if Prefix_IsValid p then Addr_String (p_addr p) +:+ String "/"%char (pretty (p_bits p))
  else "invalid Prefix".

(** The text before the last slash, and the text after it. *)
Fixpoint cut_last (s : string) : option (string * string) :=
  match s with
  | EmptyString => None
  | String c s' =>
      match cut_last s' with
      | Some (a, b) => Some (String c a, b)
      | None => if bool_decide (c = "/"%char) then Some (EmptyString, s') else None
      end
  end.

Definition ParsePrefix (s : string) : result Prefix :=
  let err m := Err ("netip.ParsePrefix(" +:+ quote s +:+ "): " +:+ m) in
  match cut_last s with
  | None => err "no '/'"
  | Some (ip, bs) =>
      match ParseAddr ip with
      | Err e => err e
      | Panic => Panic
      | Ok a =>
          if (match bs with
              | String c (String _ _) => negb (byte_in 49 57 (Z.of_N (Ascii.N_of_ascii c)))
              | _ => false
              end)
          then err ("bad bits after slash: " +:+ quote bs)
          else
            match Atoi bs with
            | Ok bits =>
                if bool_decide (0 <= bits <= BitLen a) then Ok (MkPrefix a bits)
                else err "prefix length out of range"
            | _ => err ("bad bits after slash: " +:+ quote bs)
            end
      end
  end.

(** [netip.MustParsePrefix] panics on an error. *)
Definition MustParsePrefix (s : string) : result Prefix :=
  match ParsePrefix s with Ok p => Ok p | _ => Panic end.

(** ** The range of a prefix *)

Definition host_bits (p : Prefix) : Z := BitLen (p_addr p) - p_bits p.
Definition first_num (p : Prefix) : Z := addr_num (p_addr (Masked p)).
Definition last_num (p : Prefix) : Z := first_num p + 2 ^ host_bits p - 1.

(** [netipx.PrefixLastIP]: the last address of a prefix. *)
Class NetipxAPI : Type := { PrefixLastIP : Prefix -> Addr }.
Class NetipxLaws (N : NetipxAPI) : Prop := {
  PrefixLastIP_valid : forall p, Prefix_IsValid p = true ->
    PrefixLastIP p = with_num (p_addr p) (last_num p);
  PrefixLastIP_invalid : forall p, Prefix_IsValid p = false -> PrefixLastIP p = InvalidAddr
}.

Definition test_netipx : NetipxAPI := {|
  PrefixLastIP p := if Prefix_IsValid p then with_num (p_addr p) (last_num p) else InvalidAddr
|}.

#[export] Instance test_netipx_laws : NetipxLaws test_netipx.
Proof. split; intros p Hp; cbn; by rewrite Hp. Qed.

(** ** Runs of the model *)

Example parse_v4_ex : ParsePrefix "10.0.0.1/24" = Ok (MkPrefix (V4 167772161) 24).
Proof. by_compute. Qed.
Example parse_v6_ex : Prefix_String <$> ParsePrefix "2000:0:0::1/64" = Ok "2000::1/64".
Proof. by_compute. Qed.
Example masked_v6_ex : Prefix_String <$> (Masked <$> ParsePrefix "2001:db8:ffff:1::ffff/52") = Ok "2001:db8:ffff::/52".
Proof. by_compute. Qed.
Example mapped_ex : Prefix_String <$> ParsePrefix "::ffff:1.2.3.4/120" = Ok "::ffff:1.2.3.4/120".
Proof. by_compute. Qed.
Example embedded_ex : Prefix_String <$> ParsePrefix "1::1.2.3.4/120" = Ok "1::102:304/120".
Proof. by_compute. Qed.
Example unspecified_ex : Prefix_String <$> ParsePrefix "::/0" = Ok "::/0".
Proof. by_compute. Qed.
Example run_ex : Prefix_String <$> ParsePrefix "1:0:0:2:0:0:0:3/128" = Ok "1:0:0:2::3/128".
Proof. by_compute. Qed.
Example short_ex : ParseAddr "1.2.3" = Err ("ParseAddr(" +:+ quote "1.2.3" +:+ "): unable to parse IP").
Proof. by_compute. Qed.

(** ** Masks *)

Lemma mask_num_mod len bits x : bits <= len -> mask_num len bits x = x - x mod 2 ^ (len - bits).
Proof.
  intros Hb. unfold mask_num. rewrite Z.shiftl_mul_pow2, Z.shiftr_div_pow2 by lia.
  pose proof (Z.div_mod x (2 ^ (len - bits))) as Hd.
  assert (0 < 2 ^ (len - bits)) by (apply Z.pow_pos_nonneg; lia). lia.
Qed.

Lemma Prefix_IsValid_spec p : Prefix_IsValid p = true <->
  p_addr p <> InvalidAddr /\ 0 <= p_bits p <= BitLen (p_addr p).
Proof.
  unfold Prefix_IsValid. rewrite andb_true_iff, bool_decide_eq_true.
  destruct (p_addr p); cbn; intuition congruence.
Qed.

Lemma Masked_valid p : Prefix_IsValid p = true ->
  Masked p = MkPrefix (with_num (p_addr p) (first_num p)) (p_bits p).
Proof. intros Hp. unfold first_num, Masked. rewrite Hp. by destruct (p_addr p). Qed.

Lemma first_num_mod p : Prefix_IsValid p = true ->
  first_num p = addr_num (p_addr p) - addr_num (p_addr p) mod 2 ^ host_bits p.
Proof.
  intros Hp. pose proof Hp as [Ha Hb]%Prefix_IsValid_spec. unfold first_num, Masked, host_bits.
  rewrite Hp. cbn [p_addr]. rewrite mask_num_mod by lia. by destruct (p_addr p).
Qed.

Lemma with_num_num a n : a <> InvalidAddr -> addr_num (with_num a n) = n.
Proof. by destruct a. Qed.
Lemma with_num_BitLen a n : BitLen (with_num a n) = BitLen a.
Proof. by destruct a. Qed.
Lemma with_num_id a : with_num a (addr_num a) = a.
Proof. by destruct a. Qed.
Lemma with_num_with_num a n m : with_num (with_num a n) m = with_num a m.
Proof. by destruct a. Qed.
Lemma with_num_valid a n : Addr_IsValid (with_num a n) = Addr_IsValid a.
Proof. by destruct a. Qed.

Lemma Masked_IsValid p : Prefix_IsValid p = true -> Prefix_IsValid (Masked p) = true.
Proof.
  intros Hp. rewrite Masked_valid by done. revert Hp. unfold Prefix_IsValid. cbn.
  by rewrite with_num_valid, with_num_BitLen.
Qed.

Lemma host_pow_pos p : Prefix_IsValid p = true -> 0 < 2 ^ host_bits p.
Proof. intros [_ Hb]%Prefix_IsValid_spec. apply Z.pow_pos_nonneg; [lia|]. unfold host_bits. lia. Qed.

Lemma first_num_divide p : Prefix_IsValid p = true -> first_num p mod 2 ^ host_bits p = 0.
Proof.
  intros Hp. rewrite first_num_mod by done. pose proof (host_pow_pos p Hp).
  rewrite Zminus_mod_idemp_r, Z.sub_diag. apply Z.mod_0_l. lia.
Qed.

Lemma Masked_Masked p : Prefix_IsValid p = true -> Masked (Masked p) = Masked p.
Proof.
  intros Hp. pose proof (Masked_IsValid p Hp) as Hm. pose proof Hp as [Ha Hb]%Prefix_IsValid_spec.
  rewrite (Masked_valid (Masked p)) by done. rewrite (Masked_valid p) by done. cbn [p_addr p_bits].
  f_equal. rewrite with_num_with_num. f_equal.
  rewrite first_num_mod by by rewrite <-Masked_valid. unfold host_bits. cbn [p_addr p_bits].
  rewrite with_num_num, with_num_BitLen by done. fold (host_bits p).
  rewrite first_num_divide by done. lia.
Qed.

(** The addresses of a prefix lie between its first and its last address. *)
Lemma addr_in_range p : Prefix_IsValid p = true ->
  first_num p <= addr_num (p_addr p) <= last_num p.
Proof.
  intros Hp. unfold last_num. rewrite first_num_mod by done. pose proof (host_pow_pos p Hp) as Hpos.
  pose proof (Z.mod_pos_bound (addr_num (p_addr p)) _ Hpos). lia.
Qed.

Lemma range_bounds p : Prefix_IsValid p = true -> addr_ok (p_addr p) ->
  0 <= first_num p /\ last_num p < 2 ^ BitLen (p_addr p).
Proof.
  intros Hp Hok. pose proof Hp as [Ha Hb]%Prefix_IsValid_spec. pose proof (host_pow_pos p Hp) as Hpos.
  unfold last_num. rewrite first_num_mod by done. unfold addr_ok in Hok.
  set (x := addr_num (p_addr p)) in *. set (h := 2 ^ host_bits p) in *.
  assert (Hl : 2 ^ BitLen (p_addr p) = h * 2 ^ p_bits p).
  { unfold h, host_bits. rewrite <-Z.pow_add_r by lia. f_equal. lia. }
  rewrite Hl in Hok |- *. pose proof (Z.div_mod x h ltac:(lia)). pose proof (Z.mod_pos_bound x h Hpos).
  assert (x / h < 2 ^ p_bits p) by (apply Z.div_lt_upper_bound; lia).
  assert (0 <= x / h) by (apply Z.div_pos; lia). nia.
Qed.

(** ** Text of IPv4 prefixes *)

Lemma octets_ok : Forall (fun n => parse_octet (pretty n) = Some n) (seqZ 0 256).
Proof. by_compute. Qed.

Lemma parse_octet_pretty n : 0 <= n < 256 -> parse_octet (pretty n) = Some n.
Proof. intros Hn. pose proof octets_ok as Hall. rewrite Forall_forall in Hall. apply Hall, elem_of_seqZ. lia. Qed.

Lemma fields_v4 x : 0 <= x < 2 ^ 32 -> exists a b c d,
  fields 8 4 x = [a; b; c; d] /\ of_fields 8 [a; b; c; d] = x /\
  0 <= a < 256 /\ 0 <= b < 256 /\ 0 <= c < 256 /\ 0 <= d < 256.
Proof.
  intros Hx. unfold fields. cbn. eexists _, _, _, _. split; [reflexivity|].
  change (Z.pow_pos 2 8) with 256. change 255 with (Z.ones 8). rewrite !Z.land_ones by lia.
  rewrite !Z.shiftr_div_pow2 by lia. change (2 ^ 8) with 256.
  change (2 ^ (8 * Z.of_nat 3)) with 16777216. change (2 ^ (8 * Z.of_nat 2)) with 65536.
  change (2 ^ (8 * Z.of_nat 1)) with 256. change (2 ^ (8 * Z.of_nat 0)) with 1.
  change (2 ^ 32) with 4294967296 in Hx. rewrite Z.div_1_r. Z.to_euclidean_division_equations. lia.
Qed.

Lemma dotted_parts x a b c d : fields 8 4 x = [a; b; c; d] ->
  dotted x = pretty a +:+ String "."%char (pretty b +:+ String "."%char (pretty c +:+ String "."%char (pretty d))).
Proof. intros Hf. unfold dotted. rewrite Hf. done. Qed.

Lemma parse_v4_dotted x : 0 <= x < 2 ^ 32 -> parse_v4 (dotted x) = Some x.
Proof.
  intros Hx. destruct (fields_v4 x Hx) as (a&b&c&d&Hf&Ho&Ha&Hb&Hc&Hd).
  rewrite (dotted_parts x a b c d Hf). unfold parse_v4.
  rewrite !split_on_app by (done || (apply pretty_all_digits; lia)).
  rewrite split_on_none by (done || (apply pretty_all_digits; lia)).
  cbn [fmap list_fmap]. rewrite !parse_octet_pretty by lia. by rewrite Ho.
Qed.

(** A string of digits has no separator. *)
Lemma addr_kind_digits s t c : all_digits s -> c = "."%char \/ c = ":"%char \/ c = "%"%char ->
  addr_kind (s +:+ String c t) = Some c.
Proof.
  intros Hs Hc. induction s as [|x s IH].
  - change ("" +:+ String c t) with (String c t). cbn [addr_kind]. by rewrite bool_decide_eq_true_2.
  - apply all_digits_cons in Hs as [Hx Hs]. rewrite append_String. cbn [addr_kind].
    rewrite bool_decide_eq_false_2; [by apply IH|].
    intros [->|[->| ->]]; by destruct Hx.
Qed.

Lemma cut_last_digits s : all_digits s -> cut_last s = None.
Proof.
  induction s as [|c s IH]; [done|]. intros [Hc Hs]%all_digits_cons. cbn [cut_last]. rewrite (IH Hs).
  rewrite bool_decide_eq_false_2; [done|]. intros ->. by destruct Hc.
Qed.

Lemma cut_last_app a s : all_digits s -> cut_last (a +:+ String "/"%char s) = Some (a, s).
Proof.
  intros Hs. induction a as [|c a IH].
  - change ("" +:+ String "/"%char s) with (String "/"%char s). cbn [cut_last].
    by rewrite cut_last_digits by done.
  - rewrite append_String. cbn [cut_last]. by rewrite IH.
Qed.

Definition bad_bits (bs : string) : bool :=
  match bs with
  | String c (String _ _) => negb (byte_in 49 57 (Z.of_N (Ascii.N_of_ascii c)))
  | _ => false
  end.

Lemma bits_ok : Forall (fun b => bad_bits (pretty b) = false /\ Atoi (pretty b) = Ok b) (seqZ 0 129).
Proof. by_compute. Qed.

Lemma bits_pretty b : 0 <= b <= 128 -> bad_bits (pretty b) = false /\ Atoi (pretty b) = Ok b.
Proof.
  intros Hb. pose proof bits_ok as Hall. rewrite Forall_forall in Hall. apply Hall, elem_of_seqZ. lia.
Qed.

Lemma ParseAddr_v4 x : 0 <= x < 2 ^ 32 -> ParseAddr (Addr_String (V4 x)) = Ok (V4 x).
Proof.
  intros Hx. cbn [Addr_String]. unfold ParseAddr.
  destruct (fields_v4 x Hx) as (a&b&c&d&Hf&_&Ha&_).
  replace (addr_kind (dotted x)) with (Some "."%char).
  - by rewrite parse_v4_dotted.
  - rewrite (dotted_parts x a b c d Hf). symmetry. apply addr_kind_digits; [|by left].
    apply pretty_all_digits. lia.
Qed.
