(* ===== verification/NetIPText.v ===== *)
(** * The text of addresses and prefixes

    Printing an address and parsing it back, for both families: IPv6 addresses
    with the longest run of zero fields replaced by an ellipsis, and those that
    embed an IPv4 address. What the parser returns is a valid prefix whose address
    fits its family. *)

From S2P Require Import Prelude Strconv NetIP.

Local Open Scope Z_scope.

(** ** Fields *)

Section Fields.
Context (w : Z) (Hw : 0 <= w).

Abbreviation fold := (foldl (fun acc d => acc * 2 ^ w + d)).

Lemma fields_bound n x : Forall (fun d => 0 <= d < 2 ^ w) (fields w n x).
Proof.
  apply Forall_fmap, Forall_forall. intros i _. cbn. rewrite Z.land_ones by done.
  apply Z.mod_pos_bound, Z.pow_pos_nonneg; lia.
Qed.

Lemma fields_length n x : length (fields w n x) = n.
Proof. unfold fields. by rewrite length_fmap, length_reverse, length_seq. Qed.

Lemma fields_S n x :
  fields w (S n) x = Z.land (Z.shiftr x (w * Z.of_nat n)) (Z.ones w) :: fields w n x.
Proof. unfold fields. by rewrite seq_S, reverse_snoc. Qed.

Lemma fold_acc l : forall acc, fold acc l = acc * 2 ^ (w * Z.of_nat (length l)) + fold 0 l.
Proof.
  induction l as [|x l IH]; intros acc; cbn [foldl length].
  - rewrite Z.mul_0_r. lia.
  - rewrite IH, (IH (0 * _ + x)), Nat2Z.inj_succ, Z.mul_succ_r, Z.pow_add_r by lia. lia.
Qed.

Lemma of_fields_cons d l : of_fields w (d :: l) = d * 2 ^ (w * Z.of_nat (length l)) + of_fields w l.
Proof. unfold of_fields. cbn [foldl]. rewrite fold_acc. f_equal. Qed.

Lemma of_fields_app l l' : of_fields w (l ++ l') = of_fields w l * 2 ^ (w * Z.of_nat (length l')) + of_fields w l'.
Proof. unfold of_fields. by rewrite foldl_app, fold_acc. Qed.

Lemma of_fields_fields n x : of_fields w (fields w n x) = x mod 2 ^ (w * Z.of_nat n).
Proof.
  induction n as [|n IH]; [rewrite Z.mul_0_r, Z.mod_1_r; reflexivity|].
  rewrite fields_S, of_fields_cons, IH, fields_length, Z.land_ones, Z.shiftr_div_pow2 by lia.
  rewrite Nat2Z.inj_succ, Z.mul_succ_r, Z.pow_add_r by lia.
  rewrite Z.rem_mul_r by (apply Z.pow_nonzero || apply Z.pow_pos_nonneg; lia). lia.
Qed.

Lemma of_fields_bound l : Forall (fun d => 0 <= d < 2 ^ w) l -> 0 <= of_fields w l < 2 ^ (w * Z.of_nat (length l)).
Proof.
  induction 1 as [|d l Hd _ IH]; [rewrite Z.mul_0_r; done|].
  rewrite of_fields_cons. cbn [length]. rewrite Nat2Z.inj_succ, Z.mul_succ_r, Z.pow_add_r by lia.
  set (a := 2 ^ (w * Z.of_nat (length l))) in *. set (b := 2 ^ w) in *. nia.
Qed.

End Fields.

(** ** Hexadecimal fields *)

Lemma append_empty_r s : s +:+ "" = s.
Proof. induction s as [|c s IH]; [done|]. by rewrite append_String, IH. Qed.

(** A field ends where the next byte is not a hexadecimal digit. *)
Definition ends_field (s : string) : Prop := match s with String c _ => hex_value c = None | _ => True end.

Lemma hex_span_end s n acc : ends_field s -> hex_span s n acc = (n, acc, s).
Proof. destruct s as [|c s]; [done|]. cbn. by intros ->. Qed.

Lemma hex_digits_ok : Forall (fun d => match hex_digit d with
  | String c EmptyString => hex_value c = Some d /\ c <> ":"%char | _ => False end) (seqZ 0 16).
Proof. repeat (apply Forall_cons; split; [vm_compute; split; [reflexivity|discriminate]|]). by apply Forall_nil. Qed.

Lemma hex_digit_spec d : 0 <= d < 16 -> exists c, hex_digit d = String c EmptyString /\ hex_value c = Some d /\ c <> ":"%char.
Proof.
  intros Hd. pose proof hex_digits_ok as Hall. rewrite Forall_forall in Hall.
  specialize (Hall d). rewrite elem_of_seqZ in Hall. specialize (Hall ltac:(lia)).
  destruct (hex_digit d) as [|c [|]]; [done| |done]. by exists c.
Qed.

(** [s] is the text of a field of value [v]. *)
Definition hex_text (s : string) (v : Z) : Prop :=
  (exists c s', s = String c s' /\ c <> ":"%char) /\
  exists n, (n < 4)%nat /\ forall t, ends_field t -> hex_span (s +:+ t) 0 0 = (S n, v, t).

Lemma hex_span_digits ds : Forall (fun d => 0 <= d < 16) ds -> forall t n acc,
  hex_span (String.concat "" (hex_digit <$> ds) +:+ t) n acc =
  hex_span t (n + length ds) (foldl (fun acc d => acc * 16 + d) acc ds).
Proof.
  induction 1 as [|d ds Hd _ IH]; intros t n acc; [cbn; by rewrite Nat.add_0_r|].
  assert (String.concat "" (hex_digit <$> d :: ds) = hex_digit d +:+ String.concat "" (hex_digit <$> ds)) as ->.
  { destruct ds; [cbn; by rewrite append_empty_r|done]. }
  destruct (hex_digit_spec d Hd) as (c&->&Hc&_).
  rewrite append_assoc. change (String c "" +:+ ?x) with (String c x). cbn [hex_span]. rewrite Hc, IH.
  cbn [length foldl]. by rewrite Nat.add_succ_r.
Qed.

Lemma hex_text_digits ds v : ds <> [] -> (length ds <= 4)%nat -> Forall (fun d => 0 <= d < 16) ds ->
  of_fields 4 ds = v -> hex_text (String.concat "" (hex_digit <$> ds)) v.
Proof.
  intros Hne Hlen Hall <-. split.
  - destruct ds as [|d ds]; [done|]. apply Forall_cons in Hall as [Hd _].
    destruct (hex_digit_spec d Hd) as (c&Hc&_&Hcol). destruct ds as [|d' ds].
    + exists c, "". by rewrite <-Hc.
    + exists c, (String.concat "" (hex_digit <$> d' :: ds)). split; [|done]. cbn [fmap list_fmap].
      change (String.concat "" (hex_digit d :: ?l)) with (hex_digit d +:+ String.concat "" l). by rewrite Hc.
  - exists (pred (length ds)). destruct ds as [|d ds]; [done|]. cbn [length pred] in *. split; [lia|].
    intros t Ht. rewrite hex_span_digits, hex_span_end by done. reflexivity.
Qed.

Lemma hex16_text x : 0 <= x < 65536 -> hex_text (hex16 x) x.
Proof.
  intros Hx. pose proof (of_fields_fields 4 ltac:(lia) 4 x) as Hv. change (4 * Z.of_nat 4) with 16 in Hv.
  rewrite Z.mod_small in Hv by lia. pose proof (fields_bound 4 ltac:(lia) 4 x) as Hb.
  pose proof (fields_length 4 4 x) as Hl. unfold hex16.
  destruct (fields 4 4 x) as [|a [|b [|c [|d [|]]]]]; try done. clear Hl. change (2 ^ 4) with 16 in Hb.
  change (hex_digit d) with (String.concat "" (hex_digit <$> [d])).
  repeat match goal with |- context [if ?y =? 0 then _ else _] => destruct (Z.eqb_spec y 0) as [->|?] end.
  all: rewrite ?Forall_cons in Hb; apply hex_text_digits; [done|cbn; lia| |exact Hv].
  all: rewrite ?Forall_cons, ?Forall_nil; tauto.
Qed.

(** ** The fields of an IPv6 address *)

Abbreviation text16 l := (String.concat ":" (hex16 <$> l)).
Abbreviation fields_ok l := (Forall (fun d : Z => 0 <= d < 65536) l).

Lemma text16_cons x y l : text16 (x :: y :: l) = hex16 x +:+ String ":"%char (text16 (y :: l)).
Proof. done. Qed.

(** A text that does not start with a colon. *)
Definition no_colon (s : string) : Prop := exists c s', s = String c s' /\ c <> ":"%char.

Lemma no_colon_app s t : no_colon s -> no_colon (s +:+ t).
Proof. intros (c&s'&->&Hc). rewrite append_String. by exists c, (s' +:+ t). Qed.

Lemma no_colon_text16 x l t : 0 <= x < 65536 -> no_colon (text16 (x :: l) +:+ t).
Proof.
  intros Hx. destruct (hex16_text x Hx) as [Hc _]. apply no_colon_app. destruct l; [done|].
  rewrite text16_cons. by apply no_colon_app.
Qed.

Section Step.
Context (fuel : nat) (s : string) (got : list Z) (ell : option nat) (n : nat) (v : Z) (rest : string).
Context (Hn : (n < 4)%nat).

Lemma parse_last : hex_span s 0 0 = (S n, v, "") -> parse_v6_fields (S fuel) s got ell = Some (got ++ [v], ell).
Proof.
  intros Hs. cbn [parse_v6_fields]. rewrite Hs. assert ((4 <? S n)%nat = false) as -> by (apply Nat.ltb_ge; lia). done.
Qed.

Lemma parse_next : hex_span s 0 0 = (S n, v, String ":"%char rest) -> no_colon rest ->
  parse_v6_fields (S fuel) s got ell = parse_v6_fields fuel rest (got ++ [v]) ell.
Proof.
  intros Hs (c&s'&->&Hc). cbn [parse_v6_fields]. rewrite Hs.
  assert ((4 <? S n)%nat = false) as -> by (apply Nat.ltb_ge; lia).
  destruct c as [[] [] [] [] [] [] [] []]; done || by destruct Hc.
Qed.

Lemma parse_ellipsis : hex_span s 0 0 = (S n, v, "::" +:+ rest) -> ell = None ->
  parse_v6_fields (S fuel) s got ell =
  match rest with
  | EmptyString => Some (got ++ [v], Some (S (length got)))
  | _ => parse_v6_fields fuel rest (got ++ [v]) (Some (S (length got)))
  end.
Proof.
  intros Hs ->. cbn [parse_v6_fields]. rewrite Hs. change ("::" +:+ rest) with (String ":"%char (String ":"%char rest)).
  assert ((4 <? S n)%nat = false) as -> by (apply Nat.ltb_ge; lia).
  rewrite length_app. cbn [length]. by rewrite Nat.add_1_r.
Qed.

End Step.

Lemma parse_fields l : fields_ok l -> l <> [] -> forall fuel got ell, (length l <= fuel)%nat ->
  parse_v6_fields fuel (text16 l) got ell = Some (got ++ l, ell).
Proof.
  induction 1 as [|x l Hx Hl IH]; intros Hne [|fuel] got ell Hf; try (done || (cbn in Hf; lia)).
  destruct (hex16_text x Hx) as [_ (n&Hn&Hspan)]. destruct l as [|y l].
  - apply (parse_last _ _ _ _ n); [done|]. specialize (Hspan "" I). by rewrite append_empty_r in Hspan.
  - rewrite text16_cons. apply Forall_cons in Hl as Hy. destruct Hy as [Hy _].
    rewrite (parse_next _ _ _ _ n x (text16 (y :: l))); [|done|by apply Hspan|].
    + rewrite IH by (done || (cbn in *; lia)). by rewrite <-(assoc_L (++)).
    + rewrite <-(append_empty_r (text16 _)). by apply no_colon_text16.
Qed.

Lemma parse_fields_ellipsis l l' : fields_ok l -> fields_ok l' -> l <> [] ->
  forall fuel got, (length l + length l' <= fuel)%nat ->
  parse_v6_fields fuel (text16 l +:+ "::" +:+ text16 l') got None = Some (got ++ l ++ l', Some (length got + length l)%nat).
Proof.
  intros Hl Hl' Hne. induction Hl as [|x l Hx Hl IH]; [done|]; intros [|fuel] got Hf; [cbn in Hf; lia|].
  destruct (hex16_text x Hx) as [_ (n&Hn&Hspan)]. destruct l as [|y l].
  - rewrite (parse_ellipsis _ _ _ _ n x (text16 l')); [|done|by apply Hspan|done].
    rewrite Nat.add_1_r. destruct l' as [|z l']; [done|]. apply Forall_cons in Hl' as Hz. destruct Hz as [Hz _].
    destruct (no_colon_text16 z l' "" Hz) as (c&s'&He&_). rewrite append_empty_r in He. rewrite He, <-He.
    rewrite parse_fields by (done || (cbn in *; lia)). by rewrite <-(assoc_L (++)).
  - apply Forall_cons in Hl as Hy. destruct Hy as [Hy _].
    rewrite text16_cons, append_assoc, append_String.
    rewrite (parse_next _ _ _ _ n x (text16 (y :: l) +:+ "::" +:+ text16 l')); [|done|by apply Hspan|by apply no_colon_text16].
    rewrite IH by (done || (cbn in *; lia)). rewrite <-(assoc_L (++)), length_app. cbn [length]. do 3 f_equal. lia.
Qed.

(** ** The ellipsis *)

Lemma zero_run_spec l : l = replicate (zero_run l) 0 ++ drop (zero_run l) l.
Proof.
  induction l as [|x l IH]; [done|]. cbn [zero_run]. destruct (Z.eqb_spec x 0) as [->|]; [|done].
  cbn. by rewrite <-IH.
Qed.

(** The fields [i] to [i + n] are zero. *)
Definition zeros_at (fs : list Z) (b : nat * nat) : Prop :=
  b.2 = 0%nat \/ fs = take b.1 fs ++ replicate b.2 0 ++ drop (b.1 + b.2) fs.

Lemma longest_run_spec fs l : forall i best, drop i fs = l -> zeros_at fs best -> zeros_at fs (longest_run i l best).
Proof.
  induction l as [|x l IH]; intros i best Hd Hb; [done|]. cbn [longest_run]. apply IH.
  - by rewrite <-Nat.add_1_r, <-drop_drop, Hd.
  - destruct (_ && _); [|done]. right. cbn [fst snd]. rewrite <-drop_drop, Hd, <-zero_run_spec, <-Hd.
    by rewrite take_drop.
Qed.

(** The parts of the fields around the run. *)
Lemma v6_string_cases x : let fs := fields 16 8 x in
  v6_string x = text16 fs \/
  exists l m l', fs = l ++ replicate (S m) 0 ++ l' /\ v6_string x = text16 l +:+ "::" +:+ text16 l'.
Proof.
  cbn zeta. unfold v6_string. pose proof (longest_run_spec (fields 16 8 x) (fields 16 8 x) 0 (0, 0)%nat) as Hr.
  destruct (longest_run _ _ _) as [i [|m]]; [by left|right].
  destruct Hr as [?|Hr]; [done|by left|done|]. eexists _, m, _. split; [exact Hr|done].
Qed.

Lemma parse_v6_none s fs : no_colon s -> parse_v6_fields 8 s [] None = Some (fs, None) -> length fs = 8%nat ->
  parse_v6 s = Some (of_fields 16 fs).
Proof.
  intros (c&s'&->&Hc) Hp Hl. unfold parse_v6.
  destruct c as [[] [] [] [] [] [] [] []]; first [by destruct Hc|by rewrite Hp, bool_decide_eq_true_2].
Qed.

Lemma parse_v6_some s fs i : no_colon s -> parse_v6_fields 8 s [] None = Some (fs, Some i) -> (length fs < 8)%nat ->
  parse_v6 s = Some (of_fields 16 (take i fs ++ replicate (8 - length fs) 0 ++ drop i fs)).
Proof.
  intros (c&s'&->&Hc) Hp Hl%Nat.ltb_lt. unfold parse_v6.
  destruct c as [[] [] [] [] [] [] [] []]; first [by destruct Hc|by rewrite Hp, Hl].
Qed.

Lemma parse_v6_ellipsis s fs : no_colon s -> parse_v6_fields 8 s [] (Some 0%nat) = Some (fs, Some 0%nat) ->
  (length fs < 8)%nat -> parse_v6 ("::" +:+ s) = Some (of_fields 16 (replicate (8 - length fs) 0 ++ fs)).
Proof.
  intros (c&s'&->&_) Hp Hl%Nat.ltb_lt. unfold parse_v6.
  change ("::" +:+ String c s') with (String ":"%char (String ":"%char (String c s'))).
  cbv iota. by rewrite Hp, Hl.
Qed.

Lemma parse_v6_string x : 0 <= x < 2 ^ 128 -> parse_v6 (v6_string x) = Some x.
Proof.
  intros Hx. pose proof (of_fields_fields 16 ltac:(lia) 8 x) as Hv.
  change (16 * Z.of_nat 8) with 128 in Hv. rewrite Z.mod_small in Hv by exact Hx.
  pose proof (fields_length 16 8 x) as Hlen. pose proof (fields_bound 16 ltac:(lia) 8 x) as Hb.
  change (2 ^ 16) with 65536 in Hb. destruct (v6_string_cases x) as [->|(l&m&l'&Hfs&->)].
  - rewrite <-Hv at 2. apply parse_v6_none; [|by rewrite parse_fields by (done || lia || by destruct (fields 16 8 x))|done].
    destruct (fields 16 8 x) as [|y l]; [done|]. rewrite <-(append_empty_r (text16 _)). apply no_colon_text16.
    by apply Forall_cons in Hb as [? _].
  - rewrite Hfs in Hlen, Hb, Hv. rewrite !length_app, length_replicate in Hlen.
    rewrite !Forall_app in Hb. destruct Hb as (Hl&_&Hl').
    destruct l as [|y l].
    + change (text16 [] +:+ ?s) with s. cbn [length app] in *. destruct l' as [|z l'].
      { cbn in Hlen. assert (m = 7)%nat as -> by lia. by rewrite <-Hv. }
      rewrite (parse_v6_ellipsis _ (z :: l')).
      * rewrite <-Hv. do 4 f_equal. lia.
      * rewrite <-(append_empty_r (text16 _)). apply no_colon_text16. by apply Forall_cons in Hl' as [? _].
      * by rewrite parse_fields by (done || lia).
      * lia.
    + rewrite (parse_v6_some _ ((y :: l) ++ l') (length (y :: l))).
      * rewrite take_app_length, drop_app_length, length_app, <-Hv. do 5 f_equal. lia.
      * apply no_colon_text16. by apply Forall_cons in Hl as [? _].
      * by rewrite parse_fields_ellipsis by (done || lia).
      * rewrite length_app. lia.
Qed.

(** ** Round trip *)

(** Hexadecimal digits do not tell the family. *)
Lemma addr_kind_hex s : forall n acc, addr_kind (hex_span s n acc).2 = addr_kind s.
Proof.
  induction s as [|c s IH]; intros n acc; [done|]. cbn [hex_span]. destruct (hex_value c) as [d|] eqn:Hc; [|done].
  rewrite IH. cbn [addr_kind]. rewrite bool_decide_eq_false_2; [done|]. intros [->|[->| ->]]; done.
Qed.

Lemma addr_kind_text16 x t : 0 <= x < 65536 -> addr_kind (hex16 x +:+ String ":"%char t) = Some ":"%char.
Proof.
  intros Hx. destruct (hex16_text x Hx) as [_ (n&_&Hs)]. rewrite <-(addr_kind_hex _ 0 0).
  by rewrite (Hs (String ":"%char t) eq_refl).
Qed.

Lemma addr_kind_v6 x : addr_kind (v6_string x) = Some ":"%char.
Proof.
  pose proof (fields_length 16 8 x) as Hlen. pose proof (fields_bound 16 ltac:(lia) 8 x) as Hb.
  change (2 ^ 16) with 65536 in Hb. destruct (v6_string_cases x) as [->|(l&m&l'&Hfs&->)].
  - destruct (fields 16 8 x) as [|y [|z l]]; [done..|]. rewrite text16_cons. apply addr_kind_text16.
    by apply Forall_cons in Hb as [? _].
  - rewrite Hfs in Hb. destruct l as [|y [|z l]]; [done|..]; apply Forall_cons in Hb as [Hy _].
    + change ("::" +:+ ?s) with (String ":"%char (String ":"%char s)). by apply addr_kind_text16.
    + rewrite text16_cons, append_assoc, append_String. by apply addr_kind_text16.
Qed.

Definition octet_text_ok (a : Z) : bool :=
  match pretty a, hex_span (pretty a) 0 0 with
  | String c _, (S _, _, EmptyString) => bool_decide (c <> ":"%char)
  | _, _ => false
  end.

Lemma octet_texts : Forall (fun a => octet_text_ok a = true) (seqZ 0 256).
Proof. by_compute. Qed.

Lemma hex_span_app s t n v : ends_field t -> forall n0 acc, hex_span s n0 acc = (n, v, "") ->
  hex_span (s +:+ t) n0 acc = (n, v, t).
Proof.
  intros Ht. induction s as [|c s IH]; intros n0 acc.
  - cbn. intros [= <- <-]. by apply hex_span_end.
  - rewrite append_String. cbn [hex_span]. destruct (hex_value c); [apply IH|done].
Qed.

Lemma octet_text a t : 0 <= a < 256 -> ends_field t ->
  no_colon (pretty a +:+ t) /\ exists n v, hex_span (pretty a +:+ t) 0 0 = (S n, v, t).
Proof.
  intros Ha Ht. pose proof octet_texts as Hall. rewrite Forall_forall in Hall.
  specialize (Hall a). rewrite elem_of_seqZ in Hall. specialize (Hall ltac:(lia)). unfold octet_text_ok in Hall.
  destruct (pretty a) as [|c s] eqn:He; [done|].
  destruct (hex_span (String c s) 0 0) as [[[|n] v] [|]] eqn:Hs; try done.
  apply bool_decide_eq_true in Hall. split.
  - apply no_colon_app. by exists c, s.
  - exists n, v. by apply hex_span_app.
Qed.

Lemma parse_embedded fuel s got i n v t x : hex_span s 0 0 = (S n, v, String "."%char t) -> parse_v4 s = Some x ->
  (length got <= 6)%nat -> parse_v6_fields (S fuel) s got (Some i) = Some (got ++ fields 16 2 x, Some i).
Proof. intros Hs Hx Hl%Nat.ltb_ge. cbn [parse_v6_fields]. by rewrite Hs, Hl, Hx. Qed.

(** An address that embeds an IPv4 address. *)
Lemma parse_v6_mapped x y : 0 <= y < 2 ^ 32 -> x = 65535 * 2 ^ 32 + y ->
  parse_v6 ("::ffff:" +:+ dotted y) = Some x.
Proof.
  intros Hy ->. destruct (fields_v4 y Hy) as (a&b&c&d&Hf&_&Ha&_). pose proof (dotted_parts y a b c d Hf) as Hd.
  destruct (octet_text a (String "."%char (pretty b +:+ String "."%char (pretty c +:+ String "."%char (pretty d)))) Ha eq_refl)
    as [Hnc (n&v&Hs)]. rewrite <-Hd in Hs, Hnc. change ("::ffff:" +:+ dotted y) with ("::" +:+ ("ffff:" +:+ dotted y)).
  rewrite (parse_v6_ellipsis _ (65535 :: fields 16 2 y)).
  - f_equal. pose proof (of_fields_fields 16 ltac:(lia) 2 y) as Hv.
    change (16 * Z.of_nat 2) with 32 in Hv. rewrite Z.mod_small in Hv by exact Hy.
    cbn [length]. rewrite fields_length. change (8 - 3)%nat with 5%nat.
    rewrite of_fields_app, of_fields_cons, fields_length, Hv by lia. reflexivity.
  - by exists "f"%char, ("fff:" +:+ dotted y).
  - rewrite (parse_next 7 _ [] _ 3 65535 (dotted y)); [|lia|reflexivity|exact Hnc].
    apply (parse_embedded 6 _ [65535] _ _ _ _ y Hs); [by apply parse_v4_dotted|cbn; lia].
  - cbn [length]. rewrite fields_length. lia.
Qed.

Lemma ParseAddr_String a : a <> InvalidAddr -> addr_ok a -> ParseAddr (Addr_String a) = Ok a.
Proof.
  destruct a as [|x|x]; [done|intros _; apply ParseAddr_v4|]. intros _ Hx. unfold addr_ok in Hx. cbn in Hx.
  change (Z.pow_pos 2 128) with (2 ^ 128) in Hx. unfold ParseAddr. cbn [Addr_String].
  destruct (Z.eqb_spec (Z.shiftr x 32) 65535) as [He|_].
  - rewrite Z.shiftr_div_pow2 in He by lia. rewrite Z.land_ones by lia.
    change (addr_kind ("::ffff:" +:+ _)) with (Some ":"%char). cbv iota.
    rewrite (parse_v6_mapped x); [done|apply Z.mod_pos_bound; lia|].
    rewrite <-He, Z.mul_comm. apply Z.div_mod. lia.
  - rewrite addr_kind_v6. cbv iota. by rewrite parse_v6_string.
Qed.

Lemma Addr_String_inj a b : a <> InvalidAddr -> b <> InvalidAddr -> addr_ok a -> addr_ok b ->
  Addr_String a = Addr_String b -> a = b.
Proof. intros Ha Hb Hoa Hob He. pose proof (ParseAddr_String a Ha Hoa) as H. rewrite He, ParseAddr_String in H; congruence. Qed.

(** The text of a prefix is parsed back to the same prefix. *)
Theorem ParsePrefix_String p : Prefix_IsValid p = true -> addr_ok (p_addr p) ->
  ParsePrefix (Prefix_String p) = Ok p.
Proof.
  intros Hp Hok. pose proof Hp as [Ha Hb]%Prefix_IsValid_spec. unfold Prefix_String. rewrite Hp. unfold ParsePrefix.
  assert (0 <= p_bits p <= 128) by (destruct (p_addr p); cbn in Hb; lia).
  rewrite cut_last_app by (apply pretty_all_digits; lia). rewrite ParseAddr_String by done.
  destruct (bits_pretty (p_bits p)) as [Hbad Hat]; [done|].
  change (match pretty (p_bits p) with String c (String _ _) => _ | _ => _ end) with (bad_bits (pretty (p_bits p))).
  rewrite Hbad, Hat, bool_decide_eq_true_2 by done. by destruct p.
Qed.

Lemma Prefix_String_inj p q : Prefix_IsValid p = true -> Prefix_IsValid q = true ->
  addr_ok (p_addr p) -> addr_ok (p_addr q) -> Prefix_String p = Prefix_String q -> p = q.
Proof. intros Hp Hq Hop Hoq He. pose proof (ParsePrefix_String p Hp Hop) as H. rewrite He, ParsePrefix_String in H; congruence. Qed.

(** ** What the parser returns *)

Lemma hex_value_bound c d : hex_value c = Some d -> 0 <= d < 16.
Proof. destruct c as [[] [] [] [] [] [] [] []]; vm_compute; intros [= <-]; split; done. Qed.

Lemma hex_span_bound s : forall n acc n' v rest, 0 <= acc < 16 ^ Z.of_nat n -> hex_span s n acc = (n', v, rest) ->
  0 <= v < 16 ^ Z.of_nat n'.
Proof.
  induction s as [|c s IH]; intros n acc n' v rest Hacc; cbn [hex_span]; [by intros [= <- <- _]|].
  destruct (hex_value c) as [d|] eqn:Hc; [|by intros [= <- <- _]]. apply IH. apply hex_value_bound in Hc.
  rewrite Nat2Z.inj_succ, Z.pow_succ_r by lia. lia.
Qed.

Lemma digit_bound c d : digit c = Some d -> 0 <= d < 10.
Proof. unfold digit. destruct (Z.leb_spec 48 (Z.of_N (Ascii.N_of_ascii c))), (Z.leb_spec (Z.of_N (Ascii.N_of_ascii c)) 57); cbn; intros [= <-]; lia. Qed.

Lemma parse_dec_nonneg s : forall acc v, 0 <= acc -> parse_dec s acc = Some v -> 0 <= v.
Proof.
  induction s as [|c s IH]; intros acc v Hacc; cbn [parse_dec]; [by intros [= <-]|].
  destruct (digit c) as [d|] eqn:Hd; [|done]. apply IH. apply digit_bound in Hd. lia.
Qed.

Lemma parse_octet_bound s v : parse_octet s = Some v -> 0 <= v < 2 ^ 8.
Proof.
  intros Hs. assert (exists t, parse_dec t 0 = Some v /\ v <= 255) as (t&Ht&Hv).
  { unfold parse_octet in Hs. exists s.
    assert (match parse_dec s 0 with Some n => if n <=? 255 then Some n else None | None => None end = Some v) as H.
    { destruct s as [|[[] [] [] [] [] [] [] []] [|]]; done. }
    destruct (parse_dec s 0); [|done]. destruct (Z.leb_spec z 255); [|done]. by injection H as <-. }
  apply parse_dec_nonneg in Ht; lia.
Qed.

Lemma parse_v4_bound s x : parse_v4 s = Some x -> 0 <= x < 2 ^ 32.
Proof.
  unfold parse_v4. destruct (split_on _ s) as [|a [|b [|c [|d [|e l]]]]]; cbn [fmap list_fmap]; try done.
  all: destruct (parse_octet a) as [va|] eqn:Ha; try done.
  all: destruct (parse_octet b) as [vb|] eqn:Hb; try done.
  all: destruct (parse_octet c) as [vc|] eqn:Hc; try done.
  all: destruct (parse_octet d) as [vd|] eqn:Hd; try done.
  intros [= <-]. apply (of_fields_bound 8 ltac:(lia) [va; vb; vc; vd]).
  repeat (apply Forall_cons; split; [by eapply parse_octet_bound|]). by apply Forall_nil.
Qed.

Lemma parse_v6_fields_ok fuel : forall s got ell r, fields_ok got -> parse_v6_fields fuel s got ell = Some r -> fields_ok r.1.
Proof.
  induction fuel as [|fuel IH]; intros s got ell r Hgot; [destruct s; [by intros [= <-]|done]|].
  cbn [parse_v6_fields]. destruct (hex_span s 0 0) as [[[|n] v] rest] eqn:Hs; [done|].
  apply hex_span_bound in Hs; [|done].
  assert (Hv : (4 <? S n)%nat = false -> fields_ok (got ++ [v])).
  { intros Hn%Nat.ltb_ge. apply Forall_app. split; [done|]. apply Forall_cons. split; [|by apply Forall_nil].
    assert (16 ^ Z.of_nat (S n) <= 16 ^ 4) by (apply Z.pow_le_mono_r; lia). change (16 ^ 4) with 65536 in *. lia. }
  assert (Hx : forall x, fields_ok (got ++ fields 16 2 x)).
  { intros x. apply Forall_app. split; [done|]. apply (fields_bound 16). lia. }
  repeat (case_match; try discriminate; try (by intros [= <-]; cbn [fst]; auto); try (by apply IH; auto)).
Qed.

Lemma parse_v6_bound s x : parse_v6 s = Some x -> 0 <= x < 2 ^ 128.
Proof.
  unfold parse_v6. set (r := match s with String _ _ => _ | _ => _ end).
  destruct r as [[fs ell]|] eqn:Hr; [|done].
  assert (Hfs : fields_ok fs).
  { unfold r in Hr. repeat (case_match; try (by injection Hr as <- <-; apply Forall_nil);
      try (by apply (parse_v6_fields_ok _ _ _ _ (fs, ell) ltac:(by apply Forall_nil) Hr))). }
  assert (Hgen : forall l, fields_ok l -> length l = 8%nat -> 0 <= of_fields 16 l < 2 ^ 128).
  { intros l Hl Hlen. pose proof (of_fields_bound 16 ltac:(lia) l Hl) as Hb. rewrite Hlen in Hb. exact Hb. }
  destruct ell as [i|].
  - destruct (length fs <? 8)%nat eqn:Hlen; [|done]. apply Nat.ltb_lt in Hlen. intros [= <-]. apply Hgen.
    + rewrite !Forall_app. split; [by apply Forall_take|]. split; [|by apply Forall_drop].
      by apply Forall_replicate.
    + rewrite !length_app, length_replicate, length_take, length_drop. lia.
  - case_bool_decide; [|done]. intros [= <-]. by apply Hgen.
Qed.

(** What [ParsePrefix] returns is valid, and its address fits the family. *)
Lemma ParsePrefix_valid s p : ParsePrefix s = Ok p -> Prefix_IsValid p = true /\ addr_ok (p_addr p).
Proof.
  unfold ParsePrefix. destruct (cut_last s) as [[ip bs]|]; [|done].
  destruct (ParseAddr ip) as [a|e|] eqn:Ha; [|done..].
  assert (Hok : a <> InvalidAddr /\ addr_ok a).
  { unfold ParseAddr in Ha. repeat (case_match; try discriminate).
    all: injection Ha as <-; split; [done|].
    all: first [by eapply parse_v4_bound|by eapply parse_v6_bound]. }
  case_match; [done|]. destruct (Atoi bs) as [b|e|]; [|done..]. case_bool_decide as Hb; [|done].
  intros [= <-]. destruct Hok. split; [|done]. by apply Prefix_IsValid_spec.
Qed.
