(* ===== verification/IPUtil.v ===== *)
(** * pkg/iputil: what the IPAM code asks of a prefix *)

From S2P Require Import Prelude Strconv NetIP NetIPText.

Local Open Scope Z_scope.

(** [pkg/iputil/iputil.go:36-42 New] *)
Definition iputil_New (prefix : string) : result Prefix := ParsePrefix prefix.

(** [pkg/iputil/iputil.go:32-34 NewPrefixInfo] *)
Definition NewPrefixInfo (p : Prefix) : Prefix := p.

(** [pkg/iputil/iputil.go:44-46 Prefix.GetIPPrefix] *)
Definition GetIPPrefix (r : Prefix) : Prefix := r.

(** [pkg/iputil/iputil.go:48-50 Prefix.GetIPAddress] *)
Definition GetIPAddress (r : Prefix) : Addr := p_addr r.

(** [pkg/iputil/iputil.go:52-54 Prefix.GetIPAddressPrefix] *)
Definition GetIPAddressPrefix (r : Prefix) : Prefix := PrefixFrom (p_addr r) (BitLen (p_addr r)).

(** [pkg/iputil/iputil.go:56-58 Prefix.GetIPSubnet] *)
Definition GetIPSubnet (r : Prefix) : Prefix := Masked r.

(** [pkg/iputil/iputil.go:66-68 Prefix.GetFirstIPAddress] *)
Definition GetFirstIPAddress (r : Prefix) : Addr := p_addr (Masked r).

(** [pkg/iputil/iputil.go:70-72 Prefix.GetFirstIPPrefix] *)
Definition GetFirstIPPrefix (r : Prefix) : Prefix :=
  PrefixFrom (GetFirstIPAddress r) (BitLen (p_addr r)).

(** [pkg/iputil/iputil.go:150-152 PrefixLength.String] *)
Definition PrefixLength_String (l : Z) : string := pretty l.

(** [pkg/iputil/iputil.go:154-156 PrefixLength.Int] *)
Definition PrefixLength_Int (l : Z) : Z := l.

(** [pkg/iputil/iputil.go:82-84 Prefix.GetPrefixLength] *)
Definition GetPrefixLength (r : Prefix) : Z := p_bits r.

(** [pkg/iputil/iputil.go:87-89 Prefix.GetAddressPrefixLength] *)
Definition GetAddressPrefixLength (r : Prefix) : Z := BitLen (p_addr r).

(** [pkg/iputil/iputil.go:60-64 Prefix.GetSubnetName] *)
Definition GetSubnetName (r : Prefix) : string :=
  replace_all ":"%char "-"
    (Addr_String (GetFirstIPAddress r) +:+ "-" +:+ PrefixLength_String (GetPrefixLength r)).

(** [pkg/iputil/iputil.go:103-105 Prefix.IsIpv4] *)
Definition IsIpv4 (r : Prefix) : bool := Is4 (p_addr r).

(** [pkg/iputil/iputil.go:107-109 Prefix.IsIpv6] *)
Definition IsIpv6 (r : Prefix) : bool := Is6 (p_addr r).

(** [pkg/iputil/iputil.go:158-164 AddressFamily] *)
Definition AddressFamilyIpv4 : string := "ipv4".
Definition AddressFamilyIpv6 : string := "ipv6".
Definition AddressFamilyUnknown : string := "unknown".

(** [pkg/iputil/iputil.go:166-174 AddressFamily.String] *)
Definition AddressFamily_String (s : string) : string :=
  if bool_decide (s = AddressFamilyIpv4) then AddressFamilyIpv4
  else if bool_decide (s = AddressFamilyIpv6) then AddressFamilyIpv6
  else AddressFamilyUnknown.

(** [pkg/iputil/iputil.go:111-116 Prefix.GetAddressFamily] *)
Definition GetAddressFamily (r : Prefix) : string :=
  if IsIpv6 r then AddressFamilyIpv6 else AddressFamilyIpv4.

(** [pkg/iputil/iputil.go:118-126 Prefix.IsAddressPrefix] *)
Definition IsAddressPrefix (r : Prefix) : bool :=
  if IsIpv4 r && bool_decide (PrefixLength_String (GetPrefixLength r) = "32") then true
  else if IsIpv6 r && bool_decide (PrefixLength_String (GetPrefixLength r) = "128") then true
  else false.

Section Last.
Context `{N : NetipxAPI}.

(** [pkg/iputil/iputil.go:74-76 Prefix.GetLastIPAddress] *)
Definition GetLastIPAddress (r : Prefix) : Addr := PrefixLastIP r.

(** [pkg/iputil/iputil.go:78-80 Prefix.GetLastIPPrefix] *)
Definition GetLastIPPrefix (r : Prefix) : Prefix := PrefixFrom (GetLastIPAddress r) (BitLen (p_addr r)).

(** [pkg/iputil/iputil.go:91-93 Prefix.IsFirst] *)
Definition IsFirst (r : Prefix) : bool :=
  bool_decide (Addr_String (GetFirstIPAddress r) = Addr_String (GetIPAddress r)).

(** [pkg/iputil/iputil.go:95-97 Prefix.IsLast] *)
Definition IsLast (r : Prefix) : bool :=
  bool_decide (Addr_String (GetLastIPAddress r) = Addr_String (GetIPAddress r)).

(** [pkg/iputil/iputil.go:99-101 Prefix.IsNorLastNorFirst] *)
Definition IsNorLastNorFirst (r : Prefix) : bool := negb (IsFirst r) && negb (IsLast r).

(** [pkg/iputil/iputil.go:128-130 Prefix.GetIPPrefixWithPrefixLength] *)
Definition GetIPPrefixWithPrefixLength (r : Prefix) (pl : Z) : Prefix :=
  PrefixFrom (GetLastIPAddress r) pl.

(** [pkg/iputil/iputil.go:132-146 Prefix.IsPrefixPresentInSubnetMap] *)
Definition IsPrefixPresentInSubnetMap (r : Prefix) (prefix : string) : bool :=
  if bool_decide (Prefix_String (GetIPSubnet r) = prefix) then true
  else if bool_decide (Prefix_String (GetFirstIPPrefix r) = prefix) then true
  else if bool_decide (Prefix_String (GetLastIPPrefix r) = prefix) then true
  else if bool_decide (Prefix_String (GetIPAddressPrefix r) = prefix) then true
  else false.

End Last.

(** The prefixes of the claims of an address family, in the order they were added.

    [pkg/iputil/iputil.go:180-185 PrefixClaims.AddPrefix] *)
Definition AddPrefix (r : gmap bool (list (option string))) (isIPv6 : bool) (prefix : option string) :
    gmap bool (list (option string)) :=
  <[isIPv6 := default [] (r !! isIPv6) ++ [prefix]]> r.

(** ** Properties *)

Lemma IsAddressPrefix_spec r : Prefix_IsValid r = true ->
  IsAddressPrefix r = bool_decide (p_bits r = BitLen (p_addr r)).
Proof.
  intros [Ha Hb]%Prefix_IsValid_spec. unfold IsAddressPrefix, IsIpv4, IsIpv6, PrefixLength_String, GetPrefixLength.
  assert (Hp : forall n : Z, bool_decide (pretty (p_bits r) = pretty n) = bool_decide (p_bits r = n)).
  { intros n. apply bool_decide_ext. split; [by intros ?%(inj _)|by intros ->]. }
  change "32" with (pretty 32). change "128" with (pretty 128). rewrite !Hp.
  destruct (p_addr r); cbn [Is4 Is6 BitLen andb]; [done|..]; by case_bool_decide.
Qed.

(** The five texts of an address prefix. *)
Lemma GetIPAddressPrefix_valid r : Prefix_IsValid r = true ->
  GetIPAddressPrefix r = MkPrefix (p_addr r) (BitLen (p_addr r)).
Proof.
  intros [Ha _]%Prefix_IsValid_spec. unfold GetIPAddressPrefix, PrefixFrom.
  destruct (p_addr r); [done|..]; cbn; by rewrite bool_decide_eq_true_2.
Qed.

Lemma GetFirstIPPrefix_valid r : Prefix_IsValid r = true ->
  GetFirstIPPrefix r = MkPrefix (with_num (p_addr r) (first_num r)) (BitLen (p_addr r)).
Proof.
  intros Hr. pose proof Hr as [Ha _]%Prefix_IsValid_spec. unfold GetFirstIPPrefix, GetFirstIPAddress, PrefixFrom.
  rewrite Masked_valid by done. cbn [p_addr]. rewrite with_num_valid, with_num_BitLen.
  destruct (p_addr r); [done|..]; cbn; by rewrite bool_decide_eq_true_2.
Qed.

Lemma GetLastIPPrefix_valid `{N : NetipxAPI} `{!NetipxLaws N} r : Prefix_IsValid r = true ->
  GetLastIPPrefix r = MkPrefix (with_num (p_addr r) (last_num r)) (BitLen (p_addr r)).
Proof.
  intros Hr. pose proof Hr as [Ha _]%Prefix_IsValid_spec. unfold GetLastIPPrefix, GetLastIPAddress, PrefixFrom.
  rewrite PrefixLastIP_valid by done. rewrite with_num_valid, with_num_BitLen.
  destruct (p_addr r); [done|..]; cbn; by rewrite bool_decide_eq_true_2.
Qed.

Section Props.
Context `{N : NetipxAPI} `{!NetipxLaws N}.

(** An address of the range of a prefix has the text of another one only if it is
    this one. *)
Lemma text_in_range r n m : Prefix_IsValid r = true -> addr_ok (p_addr r) ->
  first_num r <= n <= last_num r -> first_num r <= m <= last_num r ->
  Addr_String (with_num (p_addr r) n) = Addr_String (with_num (p_addr r) m) <-> n = m.
Proof.
  intros Hr Hok Hn Hm. pose proof (range_bounds r Hr Hok) as [Hlo Hhi]. apply Prefix_IsValid_spec in Hr as [Ha _].
  split; [|by intros ->]. intros He. apply Addr_String_inj in He; [destruct (p_addr r); [done|by injection He..]|..].
  1,2: by destruct (p_addr r).
  all: unfold addr_ok; rewrite with_num_num, with_num_BitLen by done; lia.
Qed.

Lemma IsFirst_spec r : addr_ok (p_addr r) -> Prefix_IsValid r = true ->
  IsFirst r = bool_decide (addr_num (p_addr r) = first_num r).
Proof.
  intros Hok Hr. pose proof (addr_in_range r Hr). unfold IsFirst, GetFirstIPAddress, GetIPAddress.
  rewrite Masked_valid by done. cbn [p_addr]. apply bool_decide_ext.
  rewrite <-(with_num_id (p_addr r)) at 2. rewrite text_in_range by (done || lia). lia.
Qed.

Lemma IsLast_spec r : addr_ok (p_addr r) -> Prefix_IsValid r = true ->
  IsLast r = bool_decide (addr_num (p_addr r) = last_num r).
Proof.
  intros Hok Hr. pose proof (addr_in_range r Hr). unfold IsLast, GetLastIPAddress, GetIPAddress.
  rewrite PrefixLastIP_valid by done. apply bool_decide_ext.
  rewrite <-(with_num_id (p_addr r)) at 2. rewrite text_in_range by (done || lia). lia.
Qed.

End Props.

(** The text of an IPv4 address only has digits and dots. *)
Lemma has_char_dotted c x : 0 <= x < 2 ^ 32 -> digit c = None -> c <> "."%char -> has_char c (dotted x) = false.
Proof.
  intros Hx Hc Hdot. destruct (fields_v4 x Hx) as (a&b&d&e&Hf&_&Ha&Hb&Hd&He).
  rewrite (dotted_parts _ _ _ _ _ Hf).
  assert (Hp : forall n : Z, 0 <= n -> has_char c (pretty n) = false)
    by (intros; by apply has_char_digits, pretty_all_digits).
  assert (Hs : forall t, has_char c (String "."%char t) = has_char c t).
  { intros t. cbn. by rewrite bool_decide_eq_false_2. }
  repeat (rewrite has_char_app, Hs). by rewrite !Hp by lia.
Qed.

(** The name of an IPv4 subnet is its first address and its length. *)
Lemma GetSubnetName_v4 x b : 0 <= b <= 32 -> 0 <= x < 2 ^ 32 ->
  let r := MkPrefix (V4 x) b in
  0 <= first_num r < 2 ^ 32 /\ GetSubnetName r = dotted (first_num r) +:+ String "-"%char (pretty b).
Proof.
  intros Hb Hx r. assert (Hr : Prefix_IsValid r = true) by (apply Prefix_IsValid_spec; cbn; split; [done|lia]).
  pose proof (range_bounds r Hr Hx) as [Hlo Hhi]. pose proof (addr_in_range r Hr) as Hin.
  assert (Hf : 0 <= first_num r < 2 ^ 32) by (cbn [BitLen p_addr r] in Hhi; lia). split; [done|].
  unfold GetSubnetName, GetFirstIPAddress, PrefixLength_String, GetPrefixLength. rewrite Masked_valid by done.
  cbn [p_addr with_num Addr_String]. change (p_bits r) with b. apply replace_all_no_char.
  change (with_num (p_addr r) (first_num r)) with (V4 (first_num r)). cbn [Addr_String].
  rewrite has_char_app, has_char_dotted by done. cbn [has_char].
  rewrite has_char_digits by (done || (apply pretty_all_digits; lia)). done.
Qed.

(** The name of an IPv4 subnet identifies it: two prefixes have the same subnet
    name exactly when they have the same length and the same network address. The
    name is the label by which the gateway of a network is found. *)
Theorem GetSubnetName_inj p q : Is4 (p_addr p) = true -> Is4 (p_addr q) = true ->
  addr_ok (p_addr p) -> addr_ok (p_addr q) -> Prefix_IsValid p = true -> Prefix_IsValid q = true ->
  GetSubnetName p = GetSubnetName q <-> GetIPSubnet p = GetIPSubnet q.
Proof.
  intros Hp4 Hq4 Hpok Hqok Hp Hq.
  destruct p as [[|x|x] b]; try done. destruct q as [[|y|y] c]; try done.
  pose proof Hp as [_ Hb]%Prefix_IsValid_spec. pose proof Hq as [_ Hc]%Prefix_IsValid_spec. cbn in Hb, Hc.
  destruct (GetSubnetName_v4 x b Hb Hpok) as [Hfx ->]. destruct (GetSubnetName_v4 y c Hc Hqok) as [Hfy ->].
  unfold GetIPSubnet. rewrite !Masked_valid by done. cbn [p_addr p_bits with_num].
  split; [|intros [= -> ->]; done]. intros Heq. apply (f_equal (split_on "-"%char)) in Heq.
  rewrite !split_on_first in Heq by by apply has_char_dotted.
  injection Heq as Hd Hbc. rewrite !split_on_none in Hbc by (done || (apply pretty_all_digits; lia)).
  injection Hbc as Hbc. apply (inj pretty) in Hbc as ->.
  apply (Addr_String_inj (V4 _) (V4 _)) in Hd as [= ->]; done.
Qed.

(** The address of a prefix that is neither its first nor its last address lies
    strictly between the two, and the four prefixes that are stored for it (the
    network, and the three addresses) are distinct. *)
Theorem network_prefixes_distinct `{N : NetipxAPI} `{!NetipxLaws N} r :
  addr_ok (p_addr r) -> Prefix_IsValid r = true -> IsNorLastNorFirst r = true ->
  first_num r < addr_num (p_addr r) < last_num r /\
  NoDup [GetIPSubnet r; GetIPAddressPrefix r; GetFirstIPPrefix r; GetLastIPPrefix r].
Proof.
  intros Hok Hr Hn. pose proof (addr_in_range r Hr) as Hin. pose proof Hr as [Ha Hb]%Prefix_IsValid_spec.
  unfold IsNorLastNorFirst in Hn. rewrite IsFirst_spec, IsLast_spec in Hn by done.
  apply andb_true_iff in Hn as [Hf%negb_true_iff%bool_decide_eq_false Hl%negb_true_iff%bool_decide_eq_false].
  assert (Hlt : first_num r < addr_num (p_addr r) < last_num r) by lia. split; [done|].
  rewrite GetIPAddressPrefix_valid, GetFirstIPPrefix_valid, GetLastIPPrefix_valid by done.
  unfold GetIPSubnet. rewrite Masked_valid by done.
  assert (Hbits : p_bits r <> BitLen (p_addr r)).
  { intros He. unfold last_num, host_bits in Hlt. rewrite He, Z.sub_diag in Hlt. cbn in Hlt. lia. }
  destruct r as [[|x|x] b]; [done|..]; cbn [p_addr p_bits with_num BitLen addr_num] in *.
  all: repeat (apply NoDup_cons; split; [rewrite ?elem_of_cons, elem_of_nil; intros Hx; intuition (simplify_eq; lia)|]).
  all: constructor.
Qed.

Lemma GetSubnetName_inj_witness :
  GetSubnetName (MkPrefix (V4 167772161) 24) = GetSubnetName (MkPrefix (V4 167772290) 24).
Proof. apply GetSubnetName_inj; by_compute. Defined.

Lemma network_prefixes_distinct_witness :
  NoDup [GetIPSubnet (MkPrefix (V4 167772161) 24); GetIPAddressPrefix (MkPrefix (V4 167772161) 24);
         GetFirstIPPrefix (MkPrefix (V4 167772161) 24); GetLastIPPrefix (N := test_netipx) (MkPrefix (V4 167772161) 24)].
Proof. apply (network_prefixes_distinct (N := test_netipx)); by_compute. Defined.

(** The rows of the tests of the package. *)
Example subnet_name_v6 : GetSubnetName <$> iputil_New "2000::1/64" = Ok "2000---64".
Proof. by_compute. Qed.
Example last_v6 : (Addr_String ∘ GetLastIPAddress (N := test_netipx)) <$> iputil_New "2000::1/64" = Ok "2000::ffff:ffff:ffff:ffff".
Proof. by_compute. Qed.

(** The name of an IPv6 subnet whose address starts with [::] starts with a dash,
    which no label value may do. *)
Example subnet_name_dash : GetSubnetName <$> iputil_New "::1/64" = Ok "---64".
Proof. by_compute. Qed.
