(* ===== verification/Rib.v ===== *)
(** * The routing table of a network instance

    [table.RIB] of github.com/hansthienpondt/nipam: a table of routes, each a
    prefix with labels. The library is a parameter of the IPAM model: [RIBAPI] is
    what the program calls, [RIBSpec] what it relies on, over an abstract view of
    the table as a finite map. *)

From S2P Require Import Prelude Strconv Labels NetIP.

Local Open Scope Z_scope.

(** ** Routes *)

(** The data of a route is always empty in this program, and left out. *)
Record Route : Type := NewRoute { rt_Prefix : Prefix; rt_Labels : labels }.

#[export] Instance Route_eq_dec : EqDecision Route.
Proof. solve_decision. Defined.

(** ** Containment of prefixes *)

(** The addresses of [q] are addresses of [p]. *)
Definition contains_prefix (p q : Prefix) : bool :=
  Prefix_IsValid p && Prefix_IsValid q &&
  bool_decide (BitLen (p_addr p) = BitLen (p_addr q)) && bool_decide (p_bits p <= p_bits q) &&
  bool_decide (first_num (MkPrefix (p_addr q) (p_bits p)) = first_num p).

(** [q] is strictly more specific than [p]. *)
Definition more_specific (p q : Prefix) : bool := contains_prefix p q && bool_decide (p_bits p < p_bits q).

Definition overlaps (p q : Prefix) : bool := contains_prefix p q || contains_prefix q p.

(** Numbers that agree above bit [h] agree above every higher bit. *)
Lemma clear_low_mono a b h k : 0 <= h <= k -> a - a mod 2 ^ h = b - b mod 2 ^ h -> a - a mod 2 ^ k = b - b mod 2 ^ k.
Proof.
  intros Hk He. assert (0 < 2 ^ h) by (apply Z.pow_pos_nonneg; lia). assert (0 < 2 ^ (k - h)) by (apply Z.pow_pos_nonneg; lia).
  rewrite !Z.mod_eq in * by (try apply Z.pow_nonzero; lia).
  assert (Hd : a / 2 ^ h = b / 2 ^ h) by nia.
  replace (2 ^ k) with (2 ^ h * 2 ^ (k - h)) by (rewrite <-Z.pow_add_r by lia; f_equal; lia).
  rewrite <-!Z.div_div by lia. rewrite Hd. lia.
Qed.

Lemma contains_prefix_trans p q x : contains_prefix p q = true -> contains_prefix q x = true -> contains_prefix p x = true.
Proof.
  unfold contains_prefix. rewrite !andb_true_iff, !bool_decide_eq_true.
  intros [[[[Hp Hq] Hl] Hb] Hf] [[[[_ Hx] Hl'] Hb'] Hf']. split_and!; [done|done|lia|lia|]. rewrite <-Hf.
  apply Prefix_IsValid_spec in Hp as [_ Hp], Hx as [Hx0 Hx], Hq as [Hq0 Hq].
  rewrite !first_num_mod in * by (apply Prefix_IsValid_spec; cbn; split; [done|lia]).
  unfold host_bits in *. cbn [p_addr p_bits] in *. rewrite <-Hl' in *.
  apply (clear_low_mono _ _ (BitLen (p_addr q) - p_bits q)); [lia|done].
Qed.

Lemma more_specific_trans p q x : more_specific p q = true -> more_specific q x = true -> more_specific p x = true.
Proof.
  unfold more_specific. rewrite !andb_true_iff, !bool_decide_eq_true. intros [H1 H2] [H3 H4].
  split; [by eapply contains_prefix_trans|lia].
Qed.

(** A prefix the program stores: valid, with the host bits cleared. *)
Definition is_network (p : Prefix) : Prop :=
  Prefix_IsValid p = true /\ addr_ok (p_addr p) /\ Masked p = p.

Lemma is_network_Masked p : Prefix_IsValid p = true -> addr_ok (p_addr p) -> is_network (Masked p).
Proof.
  intros Hp Hok. split; [by apply Masked_IsValid|]. split; [|by apply Masked_Masked].
  rewrite Masked_valid by done. unfold addr_ok. cbn [p_addr].
  pose proof Hp as [Ha _]%Prefix_IsValid_spec. rewrite with_num_num, with_num_BitLen by done.
  destruct (range_bounds p Hp Hok). unfold last_num in *. pose proof (host_pow_pos p Hp). lia.
Qed.

Lemma is_network_address a : a <> InvalidAddr -> addr_ok a -> is_network (MkPrefix a (BitLen a)).
Proof.
  intros Ha Hok.
  assert (Hv : Prefix_IsValid (MkPrefix a (BitLen a)) = true)
    by (apply Prefix_IsValid_spec; cbn; destruct a; cbn; split; (done || lia)).
  split; [done|]. split; [done|]. rewrite Masked_valid by done. cbn [p_addr p_bits]. f_equal.
  rewrite first_num_mod by done. unfold host_bits. cbn [p_addr p_bits].
  rewrite Z.sub_diag, Z.mod_1_r, Z.sub_0_r. apply with_num_id.
Qed.

(** ** The library *)

Class RIBAPI `{L : LabelsAPI} : Type := {
  RIB : Type;
  NewRIB : RIB;
  Clone : RIB -> RIB;
  rib_Get : Prefix -> RIB -> option Route;
  rib_Add : Route -> M RIB unit;
  rib_Set : Route -> M RIB unit;
  rib_Delete : Route -> M RIB unit;
  rib_GetByLabel : Selector -> RIB -> list Route;
  rib_GetTable : RIB -> list Route;
  rib_Children : Route -> RIB -> list Route;
  rib_Parents : Route -> RIB -> list Route;
  rib_GetAvailablePrefixByBitLen : Prefix -> Z -> RIB -> Prefix;
  UpdateLabel : labels -> Route -> Route;
  Route_String : Route -> string;
  Routes_String : list Route -> string
}.

Section Spec.
Context `{L : LabelsAPI}.

(** [l] lists the routes of the map that satisfy [P], each once. *)
Definition lists_routes (m : gmap Prefix labels) (P : Route -> Prop) (l : list Route) : Prop :=
  NoDup l /\ forall r, r ∈ l <-> m !! rt_Prefix r = Some (rt_Labels r) /\ P r.

Class RIBSpec (R : RIBAPI) : Type := {
  view : RIB -> gmap Prefix labels;
  view_New : view NewRIB = ∅;
  view_Clone : forall r, view (Clone r) = view r;
  view_Get : forall p r, is_network p -> rib_Get p r = NewRoute p <$> view r !! p;
  view_Add_new : forall rt r, is_network (rt_Prefix rt) -> view r !! rt_Prefix rt = None ->
    exists r', rib_Add rt r = (r', Ok tt) /\ view r' = <[rt_Prefix rt := rt_Labels rt]> (view r);
  view_Add_dup : forall rt r, is_network (rt_Prefix rt) -> is_Some (view r !! rt_Prefix rt) ->
    exists e, rib_Add rt r = (r, Err e) /\ contains "already exists" e = true;
  view_Set : forall rt r, is_network (rt_Prefix rt) -> is_Some (view r !! rt_Prefix rt) ->
    exists r', rib_Set rt r = (r', Ok tt) /\ view r' = <[rt_Prefix rt := rt_Labels rt]> (view r);
  view_Delete : forall rt r, is_network (rt_Prefix rt) -> is_Some (view r !! rt_Prefix rt) ->
    exists r', rib_Delete rt r = (r', Ok tt) /\ view r' = delete (rt_Prefix rt) (view r);
  view_GetByLabel : forall s r,
    lists_routes (view r) (fun rt => Matches s (rt_Labels rt) = true) (rib_GetByLabel s r);
  view_GetTable : forall r, lists_routes (view r) (fun _ => True) (rib_GetTable r);
  view_Children : forall rt r, lists_routes (view r)
    (fun c => more_specific (rt_Prefix rt) (rt_Prefix c) = true) (rib_Children rt r);
  view_Parents : forall rt r, lists_routes (view r)
    (fun c => more_specific (rt_Prefix c) (rt_Prefix rt) = true) (rib_Parents rt r);
  (** An available prefix has the length asked for, lies in the prefix asked for,
      and overlaps no route inside it. *)
  view_Available : forall p len r q, rib_GetAvailablePrefixByBitLen p len r = q ->
    Prefix_IsValid q = true -> Prefix_IsValid p = true ->
    is_network q /\ p_bits q = len /\ contains_prefix p q = true /\
    forall s, is_Some (view r !! s) -> more_specific p s = true -> overlaps q s = false;
  (** A prefix without routes inside it is itself available. *)
  view_Available_self : forall p r, Prefix_IsValid p = true -> addr_ok (p_addr p) ->
    (forall s, is_Some (view r !! s) -> more_specific p s = false) ->
    rib_GetAvailablePrefixByBitLen p (p_bits p) r = Masked p;
  view_UpdateLabel : forall l rt, rt_Prefix (UpdateLabel l rt) = rt_Prefix rt
}.

End Spec.

(** ** A concrete table

    A finite map. The available prefix
    is the first one, counted from the first address. *)
Section Concrete.
Context `{L : LabelsAPI}.

(** The order of the table: by address, an enclosing prefix first. *)
Definition route_le (r r' : Route) : Prop :=
  addr_num (p_addr (rt_Prefix r)) < addr_num (p_addr (rt_Prefix r')) \/
  (addr_num (p_addr (rt_Prefix r)) = addr_num (p_addr (rt_Prefix r')) /\ p_bits (rt_Prefix r) <= p_bits (rt_Prefix r')).

#[export] Instance route_le_dec r r' : Decision (route_le r r').
Proof. unfold route_le. apply _. Defined.

Definition map_routes (m : gmap Prefix labels) : list Route :=
  merge_sort route_le ((fun '(p, l) => NewRoute p l) <$> map_to_list m).

(** The subnets of [p] of length [len], in order. *)
Definition subnets (p : Prefix) (len : Z) : list Prefix :=
  (fun i => MkPrefix (with_num (p_addr p) (first_num p + i * 2 ^ (BitLen (p_addr p) - len))) len)
  <$> seqZ 0 (2 ^ (len - p_bits p)).

Definition free_in (p : Prefix) (len : Z) (m : gmap Prefix labels) (q : Prefix) : Prop :=
  is_network q /\ p_bits q = len /\ contains_prefix p q = true /\
  Forall (fun s => more_specific p s = true -> overlaps q s = false) (map_to_list m).*1.

#[export] Instance free_in_dec p len m q : Decision (free_in p len m q).
Proof. unfold free_in, is_network. apply _. Defined.

Definition available (p : Prefix) (len : Z) (m : gmap Prefix labels) : Prefix :=
  default ZeroPrefix (head (filter (free_in p len m) (subnets p len))).

Definition map_rib : RIBAPI := {|
  RIB := gmap Prefix labels;
  NewRIB := ∅;
  Clone r := r;
  rib_Get p r := NewRoute p <$> r !! p;
  rib_Add rt r :=
    match r !! rt_Prefix rt with
    | Some _ => (r, Err ("prefix " +:+ Prefix_String (rt_Prefix rt) +:+ " already exists"))
    | None => (<[rt_Prefix rt := rt_Labels rt]> r, Ok tt)
    end;
  rib_Set rt r := (<[rt_Prefix rt := rt_Labels rt]> r, Ok tt);
  rib_Delete rt r :=
    match r !! rt_Prefix rt with
    | Some _ => (delete (rt_Prefix rt) r, Ok tt)
    | None => (r, Err ("prefix " +:+ Prefix_String (rt_Prefix rt) +:+ " not found"))
    end;
  rib_GetByLabel s r := filter (fun rt => Matches s (rt_Labels rt) = true) (map_routes r);
  rib_GetTable r := map_routes r;
  rib_Children rt r := filter (fun c => more_specific (rt_Prefix rt) (rt_Prefix c) = true) (map_routes r);
  rib_Parents rt r := filter (fun c => more_specific (rt_Prefix c) (rt_Prefix rt) = true) (map_routes r);
  rib_GetAvailablePrefixByBitLen p len r := available p len r;
  UpdateLabel l rt := NewRoute (rt_Prefix rt) l;
  Route_String rt := Prefix_String (rt_Prefix rt) +:+ " " +:+ Set_String (rt_Labels rt);
  Routes_String l := String.concat "," ((fun rt => Prefix_String (rt_Prefix rt)) <$> l)
|}.

Lemma elem_of_map_routes m r : r ∈ map_routes m <-> m !! rt_Prefix r = Some (rt_Labels r).
Proof.
  unfold map_routes. rewrite merge_sort_Permutation, list_elem_of_fmap. split.
  - intros ([p l]&->&Hin). by apply elem_of_map_to_list in Hin.
  - intros Hr. exists (rt_Prefix r, rt_Labels r). split; [by destruct r|]. by apply elem_of_map_to_list.
Qed.

Lemma NoDup_map_routes m : NoDup (map_routes m).
Proof.
  unfold map_routes. rewrite merge_sort_Permutation. apply NoDup_fmap_2; [|apply NoDup_map_to_list]. intros [p l] [p' l']. congruence.
Qed.

Lemma lists_routes_filter m (P : Route -> Prop) `{!forall r, Decision (P r)} :
  lists_routes m P (filter P (map_routes m)).
Proof.
  split; [apply NoDup_filter, NoDup_map_routes|]. intros r.
  rewrite list_elem_of_filter, elem_of_map_routes. tauto.
Qed.

Lemma contains_app a b s : contains s b = true -> contains s (a +:+ b) = true.
Proof.
  intros Hs. induction a as [|c a IH]; [done|]. rewrite append_String. cbn [contains].
  by rewrite IH, orb_true_r.
Qed.

Lemma available_spec p len m : Prefix_IsValid (available p len m) = true -> free_in p len m (available p len m).
Proof.
  unfold available. destruct (filter _ _) as [|q l] eqn:E; [by intros H; vm_compute in H|]. intros _. cbn.
  assert (Hq : q ∈ filter (free_in p len m) (subnets p len)) by (rewrite E; left).
  by apply list_elem_of_filter in Hq as [? _].
Qed.

Lemma contains_prefix_Masked p : Prefix_IsValid p = true -> contains_prefix p (Masked p) = true.
Proof.
  intros Hp. unfold contains_prefix. rewrite Masked_IsValid, Hp by done. cbn [andb].
  pose proof (Masked_Masked p Hp) as Hmm. pose proof (Masked_valid p Hp) as Hm.
  assert (MkPrefix (p_addr (Masked p)) (p_bits p) = Masked p) as -> by by rewrite Hm.
  assert (first_num (Masked p) = first_num p) as -> by (unfold first_num; by rewrite Hmm).
  rewrite Hm. cbn [p_addr p_bits]. rewrite with_num_BitLen. by rewrite !bool_decide_eq_true_2 by (done || lia).
Qed.

Lemma available_self p m : Prefix_IsValid p = true -> addr_ok (p_addr p) ->
  (forall s, is_Some (m !! s) -> more_specific p s = false) -> available p (p_bits p) m = Masked p.
Proof.
  intros Hp Hok Hm. unfold available, subnets. rewrite Z.sub_diag. change (2 ^ 0) with 1.
  change (seqZ 0 1) with [0]. cbn [fmap list_fmap]. rewrite Z.mul_0_l, Z.add_0_r, <-Masked_valid by done.
  rewrite filter_cons_True; [done|]. split; [by apply is_network_Masked|].
  split; [by rewrite Masked_valid|]. split; [by apply contains_prefix_Masked|].
  apply Forall_forall. intros s ([s' l]&->&Hs)%list_elem_of_fmap. cbn. apply elem_of_map_to_list in Hs.
  by rewrite Hm.
Qed.

#[export] Instance map_rib_spec : RIBSpec map_rib.
Proof.
  refine {| view := fun r : @RIB _ map_rib => (r : gmap Prefix labels) |}; cbn -[contains String.append map_routes more_specific].
  - done.
  - done.
  - done.
  - intros rt r _ Hn. rewrite Hn. by eexists.
  - intros rt r _ [l Hl]. rewrite Hl. eexists. split; [done|].
    rewrite <-append_assoc. by apply contains_app.
  - intros rt r _ _. by eexists.
  - intros rt r _ [l Hl]. rewrite Hl. by eexists.
  - intros s r. apply lists_routes_filter.
  - intros r. split; [apply NoDup_map_routes|]. intros rt. rewrite elem_of_map_routes. tauto.
  - intros rt r. apply lists_routes_filter.
  - intros rt r. apply lists_routes_filter.
  - intros p len r q <- Hq _. apply available_spec in Hq as (?&?&?&Hall). repeat split_and; try done.
    intros s [l Hl]. rewrite Forall_forall in Hall. apply Hall, list_elem_of_fmap.
    exists (s, l). by rewrite elem_of_map_to_list.
  - intros p r. apply available_self.
  - done.
Defined.

End Concrete.
