(* ===== verification/IpamApi.v ===== *)
(** * apis/resource/ipam: the IPAM API types

    An [IPClaim] asks for a prefix or an address of a network instance, an
    [IPPrefix] and the prefixes of a [NetworkInstance] declare prefixes. The
    backend only sees claims: the last two are turned into one. *)

From S2P Require Import Prelude Strconv Meta Labels Conditions KRM NetIP IPUtil Rib.

Local Open Scope Z_scope.

(** [apis/resource/ipam/v1alpha1/groupversion_info.go:29-35 GroupVersion] *)
Definition ipam_GroupVersion : GroupVersion := MkGroupVersion "ipam.resource.nephio.org" "v1alpha1".

(** ** Prefix kinds

    [PrefixKind] is a string type: any string can be decoded into it. *)

(** [apis/resource/ipam/v1alpha1/ipam_types.go:26-29 PrefixKindUnknown] *)
Definition PrefixKindUnknown : string := "unknown".
(** [apis/resource/ipam/v1alpha1/ipam_types.go:30-30 PrefixKindNetwork] *)
Definition PrefixKindNetwork : string := "network".
(** [apis/resource/ipam/v1alpha1/ipam_types.go:31-31 PrefixKindLoopback] *)
Definition PrefixKindLoopback : string := "loopback".
(** [apis/resource/ipam/v1alpha1/ipam_types.go:32-32 PrefixKindPool] *)
Definition PrefixKindPool : string := "pool".
(** [apis/resource/ipam/v1alpha1/ipam_types.go:33-33 PrefixKindAggregate] *)
Definition PrefixKindAggregate : string := "aggregate".

(** [apis/resource/ipam/v1alpha1/ipam_types.go:36-49 GetPrefixKindFromString] *)
Definition GetPrefixKindFromString (s : string) : string :=
  if bool_decide (s = PrefixKindNetwork) then PrefixKindNetwork
  else if bool_decide (s = PrefixKindLoopback) then PrefixKindLoopback
  else if bool_decide (s = PrefixKindPool) then PrefixKindPool
  else if bool_decide (s = PrefixKindAggregate) then PrefixKindAggregate
  else PrefixKindUnknown.

(** ** IPClaim *)

(** [apis/resource/ipam/v1alpha1/ipclaim_types.go:31-67 IPClaimSpec] *)
Record IPClaimSpec : Type := MkIPClaimSpec {
  ics_Kind : string;
  ics_NetworkInstance : ObjectReference;
  ics_AddressFamily : option string;
  ics_Prefix : option string;
  ics_PrefixLength : option Z;
  ics_Index : option Z;
  ics_CreatePrefix : option bool;
  ics_ClaimLabels : ClaimLabels
}.

(** [apis/resource/ipam/v1alpha1/ipclaim_types.go:70-87 IPClaimStatus] *)
Record IPClaimStatus : Type := MkIPClaimStatus {
  ict_ConditionedStatus : ConditionedStatus;
  ict_Prefix : option string;
  ict_Gateway : option string;
  ict_ExpiryTime : option string
}.

#[export, refine] Instance IPClaimStatus_conditions : HasConditions IPClaimStatus := {
  conditioned := ict_ConditionedStatus;
  with_conditioned := fun c s => MkIPClaimStatus c (ict_Prefix s) (ict_Gateway s) (ict_ExpiryTime s)
}.
Proof. done. Defined.

(** [apis/resource/ipam/v1alpha1/ipclaim_types.go:103-109 IPClaim] *)
Definition IPClaim : Type := KRM IPClaimSpec IPClaimStatus.

(** [apis/resource/ipam/v1alpha1/ipclaim_types.go:124-128 IPClaimKind] *)
Definition IPClaimKind : string := "IPClaim".
(** [apis/resource/ipam/v1alpha1/ipclaim_types.go:129-133 IPClaimKindGVKString] *)
Definition IPClaimKindGVKString : string := GVKToString (WithKind ipam_GroupVersion IPClaimKind).

(** [apis/resource/ipam/v1alpha1/ipclaim_interfaces.go:42-44 IPClaim.GetCondition] *)
Definition IPClaim_GetCondition (r : IPClaim) (t : string) : Condition := krm_GetCondition r t.

(** [apis/resource/ipam/v1alpha1/ipclaim_interfaces.go:48-50 IPClaim.SetConditions] *)
Definition IPClaim_SetConditions (r : IPClaim) (c : list Condition) : IPClaim := krm_SetConditions r c.

(** [apis/resource/ipam/v1alpha1/ipclaim_interfaces.go:54-59 IPClaim.GetGenericNamespacedName] *)
Definition IPClaim_GetGenericNamespacedName (r : IPClaim) : string :=
  GetGenericNamespacedName (NSN (GetNamespace r) (GetName r)).

(** [apis/resource/ipam/v1alpha1/ipclaim_interfaces.go:62-64 IPClaim.GetCacheID] *)
Definition IPClaim_GetCacheID (r : IPClaim) : ObjectReference := GetCacheID (ics_NetworkInstance (spec r)).

(** [apis/resource/ipam/v1alpha1/ipclaim_interfaces.go:68-73 IPClaim.GetPrefixLengthFromRoute] *)
Definition GetPrefixLengthFromRoute (r : IPClaim) (route : Route) : Z :=
  match ics_PrefixLength (spec r) with
  | Some l => l
  | None => BitLen (p_addr (rt_Prefix route))
  end.

(** [apis/resource/ipam/v1alpha1/ipclaim_interfaces.go:78-86 IPClaim.GetPrefixLengthFromClaim] *)
Definition GetPrefixLengthFromClaim (r : IPClaim) (route : Route) : Z :=
  match ics_PrefixLength (spec r) with
  | Some l => l
  | None => if Is4 (p_addr (rt_Prefix route)) then 32 else 128
  end.

(** [apis/resource/ipam/v1alpha1/ipclaim_interfaces.go:89-91 IPClaim.GetUserDefinedLabels] *)
Definition IPClaim_GetUserDefinedLabels (r : IPClaim) : labels :=
  GetUserDefinedLabels (ics_ClaimLabels (spec r)).

(** [apis/resource/ipam/v1alpha1/ipclaim_interfaces.go:94-96 IPClaim.GetSelectorLabels] *)
Definition IPClaim_GetSelectorLabels (r : IPClaim) : labels := GetSelectorLabels (ics_ClaimLabels (spec r)).

(** [apis/resource/ipam/v1alpha1/ipclaim_interfaces.go:99-101 IPClaim.GetFullLabels] *)
Definition IPClaim_GetFullLabels (r : IPClaim) : labels := GetFullLabels (ics_ClaimLabels (spec r)).

(** [apis/resource/ipam/v1alpha1/ipclaim_interfaces.go:105-114 IPClaim.GetDummyLabelsFromPrefix] *)
Definition GetDummyLabelsFromPrefix (r : IPClaim) (pi : Prefix) : labels :=
  <[NephioSubnetKey := GetSubnetName pi]> (<[NephioPrefixKindKey := ics_Kind (spec r)]>
    (IPClaim_GetUserDefinedLabels r)).

Section Selectors.
Context `{L : LabelsAPI}.

(** [apis/resource/ipam/v1alpha1/ipclaim_interfaces.go:117-119 IPClaim.GetLabelSelector] *)
Definition IPClaim_GetLabelSelector (r : IPClaim) : result Selector :=
  GetLabelSelector (ics_ClaimLabels (spec r)).

(** [apis/resource/ipam/v1alpha1/ipclaim_interfaces.go:122-124 IPClaim.GetOwnerSelector] *)
Definition IPClaim_GetOwnerSelector (r : IPClaim) : result Selector :=
  GetOwnerSelector (ics_ClaimLabels (spec r)).

(** [apis/resource/ipam/v1alpha1/ipclaim_interfaces.go:127-141 IPClaim.GetGatewayLabelSelector] *)
Definition GetGatewayLabelSelector (r : IPClaim) (subnetString : string) : result Selector :=
  selector_of_labels (<[NephioGatewayKey := "true"]> {[NephioSubnetKey := subnetString]}).

End Selectors.

(** A claim with [CreatePrefix] set, to true or to false, is a prefix claim.

    [apis/resource/ipam/v1alpha1/ipclaim_interfaces.go:149-183 IPClaim.IsCreatePrefixAllcationValid] *)
Definition IsCreatePrefixAllcationValid (r : IPClaim) : result bool :=
  match ics_CreatePrefix (spec r) with
  | Some _ =>
      match ics_Prefix (spec r) with
      | Some p =>
          pi ← iputil_New p;
          if IsAddressPrefix pi then
            Err ("create prefix is not allowed with /32 or /128, got: " +:+ Prefix_String (GetIPPrefix pi))
          else Ok true
      | None =>
          match ics_PrefixLength (spec r) with
          | Some _ => Ok true
          | None => Err "create prefix needs a prefixLength or prefix got none"
          end
      end
  | None =>
      match ics_Prefix (spec r) with
      | Some p =>
          pi ← iputil_New p;
          if negb (IsAddressPrefix pi) then
            Err ("create address is only allowed with /32 or .128, got: " +:+ Prefix_String (GetIPPrefix pi))
          else Ok false
      | None => Ok false
      end
  end.

(** [apis/resource/ipam/v1alpha1/ipclaim_interfaces.go:187-194 IPClaim.AddOwnerLabelsToCR] *)
Definition IPClaim_AddOwnerLabelsToCR (r : IPClaim) : IPClaim :=
  with_spec (fun s => MkIPClaimSpec (ics_Kind s) (ics_NetworkInstance s) (ics_AddressFamily s)
    (ics_Prefix s) (ics_PrefixLength s) (ics_Index s) (ics_CreatePrefix s)
    (add_owner_labels (krm_Object r) (ics_ClaimLabels s))) r.

(** [apis/resource/ipam/v1alpha1/ipclaim_interfaces.go:198-208 BuildIPClaim] *)
Definition BuildIPClaim (m : ObjectMeta) (s : IPClaimSpec) (st : IPClaimStatus) : IPClaim :=
  MkKRM (MkObject (WithKind ipam_GroupVersion IPClaimKind) m) s st.

(** ** IPPrefix *)

(** [apis/resource/ipam/v1alpha1/ipprefix_types.go:30-48 IPPrefixSpec] *)
Record IPPrefixSpec : Type := MkIPPrefixSpec {
  ips_Kind : string;
  ips_NetworkInstance : ObjectReference;
  ips_Prefix : string;
  ips_UserDefinedLabels : UserDefinedLabels
}.

(** [apis/resource/ipam/v1alpha1/ipprefix_types.go:51-61 IPPrefixStatus] *)
Record IPPrefixStatus : Type := MkIPPrefixStatus {
  ipt_ConditionedStatus : ConditionedStatus;
  ipt_Prefix : option string
}.

#[export, refine] Instance IPPrefixStatus_conditions : HasConditions IPPrefixStatus := {
  conditioned := ipt_ConditionedStatus;
  with_conditioned := fun c s => MkIPPrefixStatus c (ipt_Prefix s)
}.
Proof. done. Defined.

(** [apis/resource/ipam/v1alpha1/ipprefix_types.go:76-82 IPPrefix] *)
Definition IPPrefix : Type := KRM IPPrefixSpec IPPrefixStatus.

(** [apis/resource/ipam/v1alpha1/ipprefix_types.go:97-101 IPPrefixKind] *)
Definition IPPrefixKind : string := "IPPrefix".
(** [apis/resource/ipam/v1alpha1/ipprefix_types.go:102-106 IPPrefixKindGVKString] *)
Definition IPPrefixKindGVKString : string := GVKToString (WithKind ipam_GroupVersion IPPrefixKind).

(** [apis/resource/ipam/v1alpha1/ipprefix_interfaces.go:27-29 IPPrefix.GetCondition] *)
Definition IPPrefix_GetCondition (r : IPPrefix) (t : string) : Condition := krm_GetCondition r t.

(** [apis/resource/ipam/v1alpha1/ipprefix_interfaces.go:33-35 IPPrefix.SetConditions] *)
Definition IPPrefix_SetConditions (r : IPPrefix) (c : list Condition) : IPPrefix := krm_SetConditions r c.

(** [apis/resource/ipam/v1alpha1/ipprefix_interfaces.go:39-44 IPPrefix.GetGenericNamespacedName] *)
Definition IPPrefix_GetGenericNamespacedName (r : IPPrefix) : string :=
  GetGenericNamespacedName (NSN (GetNamespace r) (GetName r)).

(** [apis/resource/ipam/v1alpha1/ipprefix_interfaces.go:47-49 IPPrefix.GetCacheID] *)
Definition IPPrefix_GetCacheID (r : IPPrefix) : ObjectReference := GetCacheID (ips_NetworkInstance (spec r)).

(** [apis/resource/ipam/v1alpha1/ipprefix_interfaces.go:52-54 IPPrefix.GetUserDefinedLabels] *)
Definition IPPrefix_GetUserDefinedLabels (r : IPPrefix) : labels :=
  udl_GetUserDefinedLabels (ips_UserDefinedLabels (spec r)).

(** [apis/resource/ipam/v1alpha1/ipprefix_interfaces.go:58-68 BuildIPPrefix] *)
Definition BuildIPPrefix (m : ObjectMeta) (s : IPPrefixSpec) (st : IPPrefixStatus) : IPPrefix :=
  MkKRM (MkObject (WithKind ipam_GroupVersion IPPrefixKind) m) s st.

(** ** NetworkInstance *)

(** A prefix of a network instance.

    [apis/resource/ipam/v1alpha1/networkinstance_types.go:35-42 Prefix] *)
Record NIPrefix : Type := MkNIPrefix { nip_Prefix : string; nip_UserDefinedLabels : UserDefinedLabels }.

(** [apis/resource/ipam/v1alpha1/networkinstance_types.go:29-33 NetworkInstanceSpec] *)
Record NetworkInstanceSpec : Type := MkNetworkInstanceSpec { nis_Prefixes : list NIPrefix }.

(** [apis/resource/ipam/v1alpha1/networkinstance_types.go:45-54 NetworkInstanceStatus] *)
Record NetworkInstanceStatus : Type := MkNetworkInstanceStatus {
  nist_ConditionedStatus : ConditionedStatus;
  nist_Prefixes : list NIPrefix
}.

#[export, refine] Instance NetworkInstanceStatus_conditions : HasConditions NetworkInstanceStatus := {
  conditioned := nist_ConditionedStatus;
  with_conditioned := fun c s => MkNetworkInstanceStatus c (nist_Prefixes s)
}.
Proof. done. Defined.

(** [apis/resource/ipam/v1alpha1/networkinstance_types.go:69-75 NetworkInstance] *)
Definition NetworkInstance : Type := KRM NetworkInstanceSpec NetworkInstanceStatus.

(** [apis/resource/ipam/v1alpha1/networkinstance_types.go:90-94 NetworkInstanceKind] *)
Definition NetworkInstanceKind : string := "NetworkInstance".
(** [apis/resource/ipam/v1alpha1/networkinstance_types.go:95-99 NetworkInstanceKindGVKString] *)
Definition NetworkInstanceKindGVKString : string :=
  GVKToString (WithKind ipam_GroupVersion NetworkInstanceKind).

(** [apis/resource/ipam/v1alpha1/networkinstance_interfaces.go:30-32 NetworkInstancePrefixAggregate] *)
Definition NetworkInstancePrefixAggregate : string := "aggregate".

(** [apis/resource/ipam/v1alpha1/networkinstance_interfaces.go:35-37 NetworkInstance.GetCondition] *)
Definition NetworkInstance_GetCondition (r : NetworkInstance) (t : string) : Condition := krm_GetCondition r t.

(** [apis/resource/ipam/v1alpha1/networkinstance_interfaces.go:41-43 NetworkInstance.SetConditions] *)
Definition NetworkInstance_SetConditions (r : NetworkInstance) (c : list Condition) : NetworkInstance :=
  krm_SetConditions r c.

(** [apis/resource/ipam/v1alpha1/networkinstance_interfaces.go:46-51 NetworkInstance.GetNamespacedName] *)
Definition NetworkInstance_GetNamespacedName (r : NetworkInstance) : NamespacedName := krm_nsn r.

(** [apis/resource/ipam/v1alpha1/networkinstance_interfaces.go:61-68 GetNameFromPrefix] *)
Definition GetNameFromPrefix (prefix name suffix : string) : string :=
  let s := replace_all "/"%char "-" prefix +:+ "-" +:+ name in
  let s := replace_all ":"%char "-" s in
  if bool_decide (suffix <> "") then s +:+ "-" +:+ suffix else s.

(** [apis/resource/ipam/v1alpha1/networkinstance_interfaces.go:57-59 NetworkInstance.GetNameFromNetworkInstancePrefix] *)
Definition GetNameFromNetworkInstancePrefix (r : NetworkInstance) (prefix : string) : string :=
  GetNameFromPrefix prefix (GetName r) NetworkInstancePrefixAggregate.

(** [apis/resource/ipam/v1alpha1/networkinstance_interfaces.go:72-77 NetworkInstance.GetGenericNamespacedName] *)
Definition NetworkInstance_GetGenericNamespacedName (r : NetworkInstance) : string :=
  GetGenericNamespacedName (NSN (GetNamespace r) (GetName r)).

(** [apis/resource/ipam/v1alpha1/networkinstance_interfaces.go:80-82 NetworkInstance.GetCacheID] *)
Definition NetworkInstance_GetCacheID (r : NetworkInstance) : ObjectReference :=
  GetCacheID (ObjRef "" (GetNamespace r) (GetName r) "" "" "" "").

(** [apis/resource/ipam/v1alpha1/networkinstance_interfaces.go:85-95 BuildNetworkInstance] *)
Definition BuildNetworkInstance (m : ObjectMeta) (s : NetworkInstanceSpec) (st : NetworkInstanceStatus) :
    NetworkInstance :=
  MkKRM (MkObject (WithKind ipam_GroupVersion NetworkInstanceKind) m) s st.

(** [apis/resource/ipam/v1alpha1/networkinstance_interfaces.go:97-103 Prefix.GetPrefixKind] *)
Definition GetPrefixKind (r : NIPrefix) : string :=
  match default ∅ (udl_Labels (nip_UserDefinedLabels r)) !! NephioPrefixKindKey with
  | Some value => GetPrefixKindFromString value
  | None => PrefixKindNetwork
  end.

(** *** Names and selectors of the claims inside a prefix *)

(** [apis/resource/ipam/v1alpha1/networkinstance_interfaces.go:113-117 AddressClaimCOntext] *)
Record AddressClaimCOntext : Type := MkAddressClaimCOntext {
  AddressClaimName : string;
  AddressSelectorLabels : labels;
  AddressUserDefinedLabels : labels
}.

(** [apis/resource/ipam/v1alpha1/networkinstance_interfaces.go:105-111 PrefixClaimContext] *)
Record PrefixClaimContext : Type := MkPrefixClaimContext {
  PrefixClaimName : string;
  PrefixSelectorLabels : labels;
  PrefixUserDefinedLabels : labels;
  pcc_AddressClaimCOntext : AddressClaimCOntext
}.

(** [apis/resource/ipam/v1alpha1/networkinstance_interfaces.go:121-128 Labels.GetPurposeLabels] *)
Definition GetPurposeLabels (r : labels) (purpose : string) : labels := <[NephioPurposeKey := purpose]> r.

Definition nsn_labels (name namespace : string) : labels :=
  <[NephioNsnNameKey := name]> {[NephioNsnNamespaceKey := namespace]}.

(** [apis/resource/ipam/v1alpha1/networkinstance_interfaces.go:134-159 Prefix.GetPrefixClaimContext] *)
Definition GetPrefixClaimContext (r : NIPrefix) (rtName bdName linkName nodeName namespace : string)
    (ls : labels) : PrefixClaimContext :=
  let prefixClaimName := GetNameFromPrefix (nip_Prefix r) rtName NetworkInstancePrefixAggregate in
  let linkPrefixClaimName := GetNameFromPrefix (nip_Prefix r) bdName linkName in
  let linkAddressPrefixClaimName := linkPrefixClaimName +:+ "-" +:+ nodeName in
  MkPrefixClaimContext linkPrefixClaimName
    (nsn_labels prefixClaimName namespace)
    (GetPurposeLabels ls "link prefix")
    (MkAddressClaimCOntext linkAddressPrefixClaimName
       (nsn_labels linkPrefixClaimName namespace)
       (<[NephioGatewayKey := "true"]> {[NephioPurposeKey := "link address"]})).

(** [apis/resource/ipam/v1alpha1/networkinstance_interfaces.go:161-166 Prefix.GetPrefixSelectorLabels] *)
Definition GetPrefixSelectorLabels (r : NIPrefix) (name namespace : string) : labels :=
  nsn_labels (GetNameFromPrefix (nip_Prefix r) name NetworkInstancePrefixAggregate) namespace.

(** [apis/resource/ipam/v1alpha1/networkinstance_interfaces.go:168-173 Prefix.GetAddressSelectorLabels] *)
Definition GetAddressSelectorLabels (r : NIPrefix) (name namespace : string) : labels :=
  nsn_labels name namespace.

(** The map of the caller is changed, and returned.

    [apis/resource/ipam/v1alpha1/networkinstance_interfaces.go:175-178 Prefix.GetPrefixUserDefinedLabels] *)
Definition GetPrefixUserDefinedLabels (r : NIPrefix) (ls : labels) (value : string) : labels :=
  <[NephioPurposeKey := value]> ls.

(** [apis/resource/ipam/v1alpha1/networkinstance_interfaces.go:180-194 Prefix.GetAddressClaimContext] *)
Definition GetAddressClaimContext (r : NIPrefix) (rtName nodeName namespace : string) (ls : labels) :
    AddressClaimCOntext :=
  let prefixClaimName := GetNameFromPrefix (nip_Prefix r) rtName NetworkInstancePrefixAggregate in
  let addressClaimName := GetNameFromPrefix (nip_Prefix r) nodeName "system" in
  MkAddressClaimCOntext addressClaimName
    (nsn_labels prefixClaimName namespace)
    (<["inv.nephio.org/node-name" := nodeName]> {[NephioPurposeKey := "node loopback address"]}).
