(* ===== verification/IpamValidate.v ===== *)
(** * pkg/backend/ipam: validation of claims

    A claim is validated against a clone of the routing table of its network
    instance before it is applied. A validator answers [Ok ""] when the claim is
    accepted, [Ok msg] when it is refused, and an error when it cannot tell. *)

From S2P Require Import Prelude Strconv Meta Labels Conditions KRM NetIP IPUtil Rib IpamApi.

Local Open Scope Z_scope.

(** [pkg/backend/ipam/error.go:20-20 errValidateDuplicatePrefix] *)
Definition errValidateDuplicatePrefix : string := "cannot create prefix duplicate".
(** [pkg/backend/ipam/error.go:21-21 errValidateNetworkPrefixWoNetworkParent] *)
Definition errValidateNetworkPrefixWoNetworkParent : string :=
  "cannot create network prefix w/o parent network prefix".

(** ** Validation functions *)

(** The message for a prefix length without [CreatePrefix] ends with the address
    of the length, which [%d] prints for a pointer; it is left out.

    [pkg/backend/ipam/validator_functions.go:28-75 validateInput] *)
Definition validateInput (claim : IPClaim) (pi : option Prefix) : string :=
  let kind := ics_Kind (spec claim) in
  match pi with
  | None =>
      if bool_decide (kind = PrefixKindAggregate) then
        "a dynamic prefix claim is not supported for: " +:+ kind
      else
        match ics_CreatePrefix (spec claim) with
        | Some _ =>
            match ics_PrefixLength (spec claim) with
            | None => "a dynamic prefix claimation w/o a prefix length need a prefix length to be set"
            | Some _ => ""
            end
        | None =>
            match ics_PrefixLength (spec claim) with
            | Some _ => "a dynamic prefix claimation with prefixlength <> 0 need to set create prefix, got: "
            | None =>
                if bool_decide (kind = PrefixKindAggregate \/ kind = PrefixKindPool) then
                  "a dynamic claim of kind " +:+ kind +:+
                  " is not supported unless prefixlength and create prefix is set"
                else ""
            end
        end
  | Some pi =>
      if bool_decide (kind = PrefixKindAggregate \/ kind = PrefixKindNetwork) && IsAddressPrefix pi then
        "a prefix claim for kind " +:+ kind +:+
        " is not allowed with /32 for ipv4 or /128 for ipv6 notation"
      else if bool_decide (kind <> PrefixKindNetwork) &&
              bool_decide (Prefix_String (GetIPSubnet pi) <> Prefix_String (GetIPPrefix pi)) then
        "net <> address is not allowed for prefixkind: " +:+ kind
      else
        match ics_CreatePrefix (spec claim) with
        | Some _ =>
            if IsAddressPrefix pi then
              "create prefix is not allowed with /32 for ipv4 or /128 for ipv6, got: " +:+
              Prefix_String (GetIPPrefix pi)
            else ""
        | None => ""
        end
  end.

(** The labels that identify the claim a route belongs to. *)
Definition same_owner (l l' : labels) : bool :=
  bool_decide (label_get l NephioNsnNamespaceKey = label_get l' NephioNsnNamespaceKey) &&
  bool_decide (label_get l NephioNsnNameKey = label_get l' NephioNsnNameKey) &&
  bool_decide (label_get l NephioOwnerNsnNamespaceKey = label_get l' NephioOwnerNsnNamespaceKey) &&
  bool_decide (label_get l NephioOwnerNsnNameKey = label_get l' NephioOwnerNsnNameKey) &&
  bool_decide (label_get l NephioOwnerGvkKey = label_get l' NephioOwnerGvkKey).

(** [pkg/backend/ipam/validator_functions.go:77-93 validatePrefixOwner] *)
Definition validatePrefixOwner (route : Route) (claim : IPClaim) : string :=
  let get := label_get (rt_Labels route) in
  if negb (same_owner (rt_Labels route) (IPClaim_GetUserDefinedLabels claim)) then
    errValidateDuplicatePrefix +:+ " by owner gvk " +:+ get NephioOwnerGvkKey +:+ ", owner nsn " +:+
    get NephioOwnerNsnNamespaceKey +:+ "/" +:+ get NephioOwnerNsnNameKey +:+ " with nsn " +:+
    get NephioNsnNamespaceKey +:+ "/" +:+ get NephioNsnNameKey
  else "".

(** The name of the claim of a route, in messages. *)
Definition route_nsn (route : Route) : string :=
  label_get (rt_Labels route) NephioNsnNamespaceKey +:+ "/" +:+ label_get (rt_Labels route) NephioNsnNameKey.

(** The kind of a route. *)
Definition route_kind (route : Route) : string := label_get (rt_Labels route) NephioPrefixKindKey.

(** [pkg/backend/ipam/validator_functions.go:95-117 validateChildrenExist] *)
Definition validateChildrenExist (route : Route) (prefixKind : string) : string :=
  if bool_decide (prefixKind = PrefixKindNetwork) then
    if bool_decide (route_kind route <> PrefixKindNetwork) then
      "a child prefix of a " +:+ prefixKind +:+ " prefix, can be of the same kind"
    else if Is4 (p_addr (rt_Prefix route)) && bool_decide (p_bits (rt_Prefix route) <> 32) then
      "a child prefix of a " +:+ prefixKind +:+ " prefix, can only be an address prefix (/32), got: " +:+
      Prefix_String (rt_Prefix route)
    else if Is6 (p_addr (rt_Prefix route)) && bool_decide (p_bits (rt_Prefix route) <> 128) then
      "a child prefix of a " +:+ prefixKind +:+ " prefix, can only be an address prefix (/128), got: " +:+
      Prefix_String (rt_Prefix route)
    else ""
  else if bool_decide (prefixKind = PrefixKindAggregate) then ""
  else
    "a more specific prefix was already claimed " +:+ route_nsn route +:+
    ", nesting not allowed for " +:+ prefixKind.

(** [pkg/backend/ipam/validator_functions.go:119-126 validateNoParentExist] *)
Definition validateNoParentExist (prefixKind ownerGvk : string) : string :=
  if bool_decide (ownerGvk = NetworkInstanceKindGVKString) then ""
  else "an aggregate prefix is required".

Section Validators.
Context `{L : LabelsAPI} `{!RIBAPI}.

(** [pkg/backend/ipam/validator_functions.go:128-195 validateParentExist] *)
Definition validateParentExist (route : Route) (claim : IPClaim) (pi : Prefix) : string :=
  let kind := ics_Kind (spec claim) in
  if bool_decide (kind = PrefixKindAggregate) then
    if bool_decide (route_kind route <> PrefixKindAggregate) then
      "nesting aggregate prefixes with anything other than an aggregate prefix is not allowed, prefix nested with " +:+
      route_nsn route
    else ""
  else if bool_decide (kind = PrefixKindLoopback) then
    if bool_decide (route_kind route <> PrefixKindAggregate) &&
       bool_decide (route_kind route <> PrefixKindLoopback) then
      "nesting loopback prefixes with anything other than an aggregate/loopback prefix is not allowed, prefix nested with " +:+
      route_nsn route
    else if IsAddressPrefix pi &&
            negb (bool_decide (route_kind route = PrefixKindAggregate \/ route_kind route = PrefixKindLoopback)) then
      "nesting loopback prefixes only possible with address (/32, /128) based prefixes, got " +:+
      Prefix_String (GetIPPrefix pi)
    else if negb (IsAddressPrefix pi) && negb (bool_decide (route_kind route = PrefixKindAggregate)) then
      "nesting (none /32, /128)loopback prefixes only possible with aggregate prefixes, got " +:+
      Route_String route
    else ""
  else if bool_decide (kind = PrefixKindNetwork) then
    match ics_CreatePrefix (spec claim) with
    | Some _ =>
        if bool_decide (route_kind route <> PrefixKindAggregate) then
          "nesting network prefixes with anything other than an aggregate prefix is not allowed, prefix nested with " +:+
          route_nsn route +:+ " of kind " +:+ route_kind route
        else ""
    | None =>
        if bool_decide (route_kind route <> PrefixKindNetwork) then
          errValidateNetworkPrefixWoNetworkParent +:+ ", got " +:+ route_nsn route +:+ " of kind " +:+
          route_kind route
        else ""
    end
  else if bool_decide (kind = PrefixKindPool) then
    if bool_decide (route_kind route <> PrefixKindAggregate) &&
       bool_decide (route_kind route <> PrefixKindPool) then
      "nesting loopback prefixes with anything other than an aggregate/pool prefix is not allowed, prefix nested with " +:+
      route_nsn route
    else ""
  else "".

(** ** Validators *)

(** [pkg/backend/ipam/validator_prefix.go:35-45 PrefixValidatorFunctionConfig] *)
Record PrefixValidatorFunctionConfig : Type := MkPrefixValidatorFunctionConfig {
  validateInputFn : option (IPClaim -> option Prefix -> string);
  validateChildrenExistFn : Route -> string -> string;
  validateNoParentExistFn : string -> string -> string;
  validateParentExistFn : Route -> IPClaim -> Prefix -> string
}.

(** [pkg/backend/ipam/validator_prefix.go:47-69 prefixvalidator] *)
Record prefixvalidator : Type := NewPrefixValidator {
  pv_claim : IPClaim;
  pv_rib : RIB;
  pv_pi : Prefix;
  pv_fnc : option PrefixValidatorFunctionConfig
}.

(** [if msg := m; msg != "" { return msg, nil }] *)
Definition refuse (msg : string) (k : result string) : result string :=
  if bool_decide (msg <> "") then Ok msg else k.

(** [pkg/backend/ipam/validator_prefix.go:175-183 findParent] *)
Definition findParent (routes : list Route) : result Route :=
  r0 ← index routes 0;
  Ok (foldl (fun parentRoute route =>
    if bool_decide (p_bits (rt_Prefix route) > p_bits (rt_Prefix parentRoute)) then route else parentRoute)
    r0 routes).

(** The clone of the table is local to the validation. A kind without an entry in
    the table of validation functions has a nil configuration.

    [pkg/backend/ipam/validator_prefix.go:71-173 prefixvalidator.Validate] *)
Definition prefix_Validate (r : prefixvalidator) : result string :=
  fnc ← deref (pv_fnc r);
  let claim := pv_claim r in
  let pi := pv_pi r in
  refuse (match validateInputFn fnc with Some f => f claim (Some pi) | None => "" end) (
  let dryrunRib := Clone (pv_rib r) in
  match rib_Get (GetIPSubnet pi) dryrunRib with
  | Some route =>
      match ics_CreatePrefix (spec claim) with
      | Some _ => refuse (validatePrefixOwner route claim) (Ok "")
      | None =>
          if bool_decide (ics_Kind (spec claim) = PrefixKindNetwork) then
            if bool_decide (route_kind route <> PrefixKindNetwork) then
              Ok ("an address based prefix kind can only have parent prefix kind, got: " +:+ route_kind route)
            else
              match rib_Get (GetIPAddressPrefix pi) dryrunRib with
              | None => Ok ""
              | Some route => refuse (validatePrefixOwner route claim) (Ok "")
              end
          else refuse (validatePrefixOwner route claim) (Ok "")
      end
  | None =>
      let route := NewRoute (GetIPSubnet pi) (GetDummyLabelsFromPrefix claim pi) in
      let '(dryrunRib, added) := rib_Add route dryrunRib in
      _ ← added;
      match rib_Get (GetIPSubnet pi) dryrunRib with
      | None => Ok "route just added, but a new get does not find it"
      | Some route =>
          refuse (match rib_Children route dryrunRib with
                  | [] => ""
                  | c :: _ => validateChildrenExistFn fnc c (ics_Kind (spec claim))
                  end) (
          match rib_Parents route dryrunRib with
          | [] =>
              refuse (validateNoParentExistFn fnc (ics_Kind (spec claim))
                        (label_get (IPClaim_GetUserDefinedLabels claim) NephioOwnerGvkKey)) (Ok "")
          | routes =>
              parentRoute ← findParent routes;
              refuse (validateParentExistFn fnc parentRoute claim pi) (Ok "")
          end)
      end
  end).

(** [pkg/backend/ipam/validator_dynamic.go:28-30 DynamicValidatorFunctionConfig] *)
Record DynamicValidatorFunctionConfig : Type := MkDynamicValidatorFunctionConfig {
  dv_validateInputFn : IPClaim -> option Prefix -> string
}.

(** [pkg/backend/ipam/validator_dynamic.go:32-51 claimvalidator] *)
Record claimvalidator : Type := NewClaimValidator {
  cv_claim : IPClaim;
  cv_rib : RIB;
  cv_fnc : option DynamicValidatorFunctionConfig
}.

(** [pkg/backend/ipam/validator_dynamic.go:53-63 claimvalidator.Validate] *)
Definition claim_Validate (r : claimvalidator) : result string :=
  fnc ← deref (cv_fnc r);
  refuse (dv_validateInputFn fnc (cv_claim r) None) (Ok "").

(** *** The tables of validation functions *)

Definition known_kind (kind : string) : bool :=
  bool_decide (kind ∈ [PrefixKindNetwork; PrefixKindLoopback; PrefixKindPool; PrefixKindAggregate]).

Definition prefix_functions : PrefixValidatorFunctionConfig :=
  MkPrefixValidatorFunctionConfig (Some validateInput) validateChildrenExist validateNoParentExist
    validateParentExist.

(** The field [oc] of the prefix runtime: the same functions for the four kinds.

    [pkg/backend/ipam/runtime.go:83-114 newPrefixRuntime] *)
Definition prefix_oc (kind : string) : option PrefixValidatorFunctionConfig :=
  if known_kind kind then Some prefix_functions else None.

(** [pkg/backend/ipam/runtime.go:143-162 newDynamicRuntime] *)
Definition dynamic_oc (kind : string) : option DynamicValidatorFunctionConfig :=
  if known_kind kind then Some (MkDynamicValidatorFunctionConfig validateInput) else None.

End Validators.

(** ** Reference definitions *)

(** The kinds of prefix that may directly enclose a new prefix of a kind. A
    network prefix lies in an aggregate and its addresses in a network prefix; an
    address of kind loopback may also lie in a loopback prefix. *)
Definition may_nest (kind : string) (create addr : bool) (parent : string) : bool :=
  if bool_decide (kind = PrefixKindAggregate) then bool_decide (parent = PrefixKindAggregate)
  else if bool_decide (kind = PrefixKindLoopback) then
    bool_decide (parent = PrefixKindAggregate) || addr && bool_decide (parent = PrefixKindLoopback)
  else if bool_decide (kind = PrefixKindNetwork) then
    bool_decide (parent = if create then PrefixKindAggregate else PrefixKindNetwork)
  else if bool_decide (kind = PrefixKindPool) then
    bool_decide (parent = PrefixKindAggregate) || bool_decide (parent = PrefixKindPool)
  else true.

Definition has_create (claim : IPClaim) : bool :=
  match ics_CreatePrefix (spec claim) with Some _ => true | None => false end.

(** [r] is the most specific of the routes that enclose [q]. *)
Definition nearest_parent (m : gmap Prefix labels) (q : Prefix) (r : Route) : Prop :=
  m !! rt_Prefix r = Some (rt_Labels r) /\ more_specific (rt_Prefix r) q = true /\
  forall p, is_Some (m !! p) -> more_specific p q = true -> p_bits p <= p_bits (rt_Prefix r).

(** Every prefix of a table is stored with its host bits cleared. *)
Definition table_wf (m : gmap Prefix labels) : Prop := forall p, is_Some (m !! p) -> is_network p.

(** The place of a new prefix in the table is allowed. *)
Definition place_ok (m : gmap Prefix labels) (claim : IPClaim) (pi : Prefix) : Prop :=
  ((forall p, is_Some (m !! p) -> more_specific p (Masked pi) = false) /\
   label_get (IPClaim_GetUserDefinedLabels claim) NephioOwnerGvkKey = NetworkInstanceKindGVKString) \/
  exists r, nearest_parent m (Masked pi) r /\
    may_nest (ics_Kind (spec claim)) (has_create claim) (IsAddressPrefix pi) (route_kind r) = true.

(** ** Lemmas *)

Lemma refuse_Ok msg k : refuse msg k = Ok "" <-> msg = "" /\ k = Ok "".
Proof. unfold refuse. case_bool_decide as H; split; [intros [= ->]|intros []|..]; try done; tauto. Qed.

Lemma more_specific_irrefl p : more_specific p p = false.
Proof. unfold more_specific. rewrite (bool_decide_eq_false_2 (_ < _)) by lia. by rewrite andb_false_r. Qed.

(** Two networks of the same length that enclose a prefix are the same. *)
Lemma network_eq p q x : is_network p -> is_network q -> p_bits p = p_bits q ->
  contains_prefix p x = true -> contains_prefix q x = true -> p = q.
Proof.
  intros (Hp&_&Hmp) (Hq&_&Hmq) Hb Hpx Hqx. unfold contains_prefix in Hpx, Hqx.
  rewrite !andb_true_iff, !bool_decide_eq_true in Hpx, Hqx.
  destruct Hpx as [[[_ Hl] _] Hf]. destruct Hqx as [[[_ Hl'] _] Hf']. rewrite <-Hb in Hf'.
  rewrite <-Hmp, <-Hmq, !Masked_valid by done. f_equal; [|done].
  assert (first_num p = first_num q) as -> by congruence.
  apply Prefix_IsValid_spec in Hp as [Hp _], Hq as [Hq _].
  destruct (p_addr p), (p_addr q); cbn in *; congruence || lia.
Qed.

Lemma lists_routes_insert `{L : LabelsAPI} m q l (P : Route -> Prop) rs :
  m !! q = None -> (forall l, ~ P (NewRoute q l)) ->
  lists_routes (<[q := l]> m) P rs -> lists_routes m P rs.
Proof.
  intros Hq HP [Hnd Hrs]. split; [done|]. intros r. rewrite Hrs.
  destruct (decide (rt_Prefix r = q)) as [He|Hne]; [|by rewrite lookup_insert_ne].
  rewrite He, Hq. split; [|by intros [? _]]. intros [_ HPr]. destruct r; cbn in *; subst. by apply HP in HPr.
Qed.

Lemma findParent_spec routes r : r ∈ routes ->
  exists p, findParent routes = Ok p /\ p ∈ routes /\
    forall x, x ∈ routes -> p_bits (rt_Prefix x) <= p_bits (rt_Prefix p).
Proof.
  intros Hr. destruct routes as [|r0 rs]; [by apply not_elem_of_nil in Hr|].
  unfold findParent. cbn [index mbind result_bind]. eexists. split; [done|].
  set (f := fun parentRoute route : Route => _).
  assert (Hf : forall l a, foldl f a l ∈ a :: l /\
    forall x, x ∈ a :: l -> p_bits (rt_Prefix x) <= p_bits (rt_Prefix (foldl f a l))).
  { induction l as [|b l IH]; intros a; cbn [foldl].
    - split; [left|]. intros x Hx. apply list_elem_of_singleton in Hx as ->. lia.
    - destruct (IH (f a b)) as [Hin Hmax]. split.
      + apply elem_of_cons in Hin as [Hin|Hin]; [rewrite Hin|by do 2 right].
        unfold f. case_bool_decide; [right|]; left.
      + assert (Hab : p_bits (rt_Prefix a) <= p_bits (rt_Prefix (f a b)) /\
                      p_bits (rt_Prefix b) <= p_bits (rt_Prefix (f a b)))
          by (unfold f; case_bool_decide; lia).
        pose proof (Hmax (f a b) ltac:(left)).
        intros x [->|[->|Hx]%elem_of_cons]%elem_of_cons; [lia|lia|]. apply Hmax. by right. }
  destruct (Hf (r0 :: rs) r0) as [Hin Hmax]. split.
  - apply elem_of_cons in Hin as [->|Hin]; [left|done].
  - intros x Hx. apply Hmax. by right.
Qed.

Section Properties.
Context `{L : LabelsAPI} `{R : !RIBAPI} `{!RIBSpec R}.

Lemma validateParentExist_spec route claim pi : known_kind (ics_Kind (spec claim)) = true ->
  validateParentExist route claim pi = "" <->
  may_nest (ics_Kind (spec claim)) (has_create claim) (IsAddressPrefix pi) (route_kind route) = true.
Proof.
  intros Hk. unfold validateParentExist, may_nest, has_create.
  unfold known_kind in Hk. rewrite bool_decide_eq_true, !elem_of_cons, elem_of_nil in Hk.
  set (kind := ics_Kind (spec claim)) in *. set (pk := route_kind route). clearbody kind pk.
  generalize (route_nsn route) (Route_String route) (Prefix_String (GetIPPrefix pi)). intros n1 n2 n3.
  destruct (ics_CreatePrefix (spec claim)), (IsAddressPrefix pi); cbn [andb orb negb];
    repeat (case_bool_decide; cbn [andb orb negb]); split; intros; try done; exfalso; intuition congruence.
Qed.

Lemma validatePrefixOwner_spec route claim :
  validatePrefixOwner route claim = "" <->
  same_owner (rt_Labels route) (IPClaim_GetUserDefinedLabels claim) = true.
Proof. unfold validatePrefixOwner. by destruct (same_owner _ _). Qed.

Definition validator (claim : IPClaim) (rib : RIB) (pi : Prefix) : prefixvalidator :=
  NewPrefixValidator claim rib pi (prefix_oc (ics_Kind (spec claim))).

Lemma validator_fnc claim rib pi : known_kind (ics_Kind (spec claim)) = true ->
  pv_fnc (validator claim rib pi) = Some prefix_functions.
Proof. unfold validator, prefix_oc. cbn. by intros ->. Qed.

(** The parents of a prefix just added are the routes that enclose it. *)
Lemma parents_cases r r' route : view r !! rt_Prefix route = None ->
  view r' = <[rt_Prefix route := rt_Labels route]> (view r) -> table_wf (view r) ->
  (rib_Parents route r' = [] /\ forall p, is_Some (view r !! p) -> more_specific p (rt_Prefix route) = false) \/
  (exists x parents parent, rib_Parents route r' = x :: parents /\
     findParent (x :: parents) = Ok parent /\
     nearest_parent (view r) (rt_Prefix route) parent /\
     forall y, nearest_parent (view r) (rt_Prefix route) y -> y = parent).
Proof.
  intros Hnone Hr' Hwf. pose proof (view_Parents route r') as Hl. rewrite Hr' in Hl.
  apply lists_routes_insert in Hl as [_ Hl]; [|done|by intros l; cbn; rewrite more_specific_irrefl].
  assert (Hkey : forall p, is_Some (view r !! p) -> more_specific p (rt_Prefix route) = true ->
    exists x, x ∈ rib_Parents route r' /\ rt_Prefix x = p).
  { intros p [l Hp] Hm. exists (NewRoute p l). by rewrite Hl. }
  destruct (rib_Parents route r') as [|x parents] eqn:E.
  - left. split; [done|]. intros p Hp. destruct (more_specific p _) eqn:Hm; [|done].
    by destruct (Hkey p Hp Hm) as (y&?%not_elem_of_nil&_).
  - right. destruct (findParent_spec (x :: parents) x ltac:(left)) as (parent&Hf&Hin&Hmax).
    exists x, parents, parent. split; [done|]. split; [done|].
    apply Hl in Hin as [Hpl Hpm].
    assert (Hnear : forall p, is_Some (view r !! p) -> more_specific p (rt_Prefix route) = true ->
      p_bits p <= p_bits (rt_Prefix parent)).
    { intros p Hp Hm. destruct (Hkey p Hp Hm) as (y&Hy&<-). by apply Hmax. }
    split; [done|]. intros y (Hyl&Hym&Hymax).
    assert (Heq : rt_Prefix y = rt_Prefix parent).
    { apply network_eq with (x := rt_Prefix route); [by apply Hwf..| | |].
      - specialize (Hymax (rt_Prefix parent) ltac:(done) Hpm). specialize (Hnear (rt_Prefix y) ltac:(done) Hym). lia.
      - unfold more_specific in Hym. by apply andb_true_iff in Hym as [? _].
      - unfold more_specific in Hpm. by apply andb_true_iff in Hpm as [? _]. }
    rewrite Heq, Hpl in Hyl. destruct y, parent; cbn in *. congruence.
Qed.

(** C5. A claim for a prefix that is not in the table, and inside which there is
    none, is accepted exactly when its input is well formed and its place in the
    table is allowed: the most specific enclosing route has a kind that may
    enclose it, or nothing encloses it and it is owned by a network instance. *)
Theorem validate_new_prefix claim rib pi :
  known_kind (ics_Kind (spec claim)) = true ->
  Prefix_IsValid pi = true -> addr_ok (p_addr pi) -> table_wf (view rib) ->
  view rib !! Masked pi = None ->
  (forall p, is_Some (view rib !! p) -> more_specific (Masked pi) p = false) ->
  prefix_Validate (validator claim rib pi) = Ok "" <->
  validateInput claim (Some pi) = "" /\ place_ok (view rib) claim pi.
Proof.
  intros Hk Hv Hok Hwf Hnone Hchild. pose proof (is_network_Masked pi Hv Hok) as Hnet.
  unfold prefix_Validate. rewrite validator_fnc by done. cbn [deref mbind result_bind].
  change (pv_claim _) with claim. change (pv_rib _) with rib. change (pv_pi _) with pi.
  cbn [validateInputFn validateChildrenExistFn validateNoParentExistFn validateParentExistFn prefix_functions].
  rewrite refuse_Ok. apply and_iff_compat_l. unfold GetIPSubnet.
  rewrite view_Get, view_Clone, Hnone by done. cbn [fmap option_fmap option_map].
  set (route := NewRoute (Masked pi) _).
  destruct (view_Add_new route (Clone rib)) as (r'&->&Hr'); [done|by rewrite view_Clone|].
  rewrite view_Clone in Hr'. rewrite view_Get, Hr' by done. cbn [rt_Prefix route].
  rewrite lookup_insert_eq. cbn [fmap option_fmap option_map].
  change (NewRoute (Masked pi) (rt_Labels route)) with route.
  assert (rib_Children route r' = []) as ->.
  { pose proof (view_Children route r') as Hl. rewrite Hr' in Hl.
    apply lists_routes_insert in Hl as [_ Hl]; [|done|by intros l; cbn; rewrite more_specific_irrefl].
    destruct (rib_Children route r') as [|c cs]; [done|]. destruct (proj1 (Hl c) ltac:(left)) as [Hc Hm].
    cbn in Hm. by rewrite Hchild in Hm. }
  cbn [mbind result_bind]. rewrite refuse_Ok. unfold place_ok.
  destruct (parents_cases rib r' route Hnone Hr' Hwf) as [[-> Hp]|(x&ps&parent&->&Hf&Hnear&Huniq)].
  - rewrite refuse_Ok. unfold validateNoParentExist. case_bool_decide as Ho; [by intuition|].
    split; [by intros [_ [? _]]|]. intros [[_ ?]|(y&(Hy&Hym&_)&_)]; [done|].
    change (Masked pi) with (rt_Prefix route) in Hym. by rewrite Hp in Hym.
  - rewrite Hf. cbn [mbind result_bind]. rewrite refuse_Ok, validateParentExist_spec by done. split.
    + intros [_ [Hmay _]]. right. by exists parent.
    + intros [[Hno _]|(y&Hy&Hmay)].
      * destruct Hnear as (Hpl&Hpm&_). change (rt_Prefix route) with (Masked pi) in Hpm. by rewrite Hno in Hpm.
      * apply Huniq in Hy as ->. done.
Qed.

(** What a claim for a prefix whose subnet is in the table, with the labels [l], has to
    find: an address claim of kind network, a network route and an address that is free or
    its own; any other claim, a route of its own. *)
Definition existing_ok (m : gmap Prefix labels) (claim : IPClaim) (pi : Prefix) (l : labels) : Prop :=
  if bool_decide (has_create claim = false /\ ics_Kind (spec claim) = PrefixKindNetwork) then
    label_get l NephioPrefixKindKey = PrefixKindNetwork /\
    forall l', m !! GetIPAddressPrefix pi = Some l' -> same_owner l' (IPClaim_GetUserDefinedLabels claim) = true
  else same_owner l (IPClaim_GetUserDefinedLabels claim) = true.

(** C6. A claim of a known kind for a valid prefix whose subnet is already in the table is
    accepted exactly when
    its input is well formed and what it claims is its own, or a free address. For a claim that creates its
    prefix or is of another kind than network this is the route in the table, which has to
    belong to the same claim. For a claim of kind network that creates no prefix it is an
    address: the route of the subnet has to be one of kind network, of any owner, and the
    address has to be free or to belong to the same claim. *)
Theorem validate_existing_prefix claim rib pi l :
  known_kind (ics_Kind (spec claim)) = true -> Prefix_IsValid pi = true -> addr_ok (p_addr pi) ->
  view rib !! Masked pi = Some l ->
  prefix_Validate (validator claim rib pi) = Ok "" <->
  validateInput claim (Some pi) = "" /\ existing_ok (view rib) claim pi l.
Proof.
  intros Hk Hv Hok Hl. pose proof (is_network_Masked pi Hv Hok) as Hnet.
  assert (Hadd : is_network (GetIPAddressPrefix pi)).
  { rewrite GetIPAddressPrefix_valid by done. apply is_network_address; [by apply Prefix_IsValid_spec in Hv as [? _]|done]. }
  unfold prefix_Validate. rewrite validator_fnc by done. cbn [deref mbind result_bind].
  change (pv_claim _) with claim. change (pv_rib _) with rib. change (pv_pi _) with pi.
  cbn [validateInputFn prefix_functions]. rewrite refuse_Ok. apply and_iff_compat_l.
  unfold GetIPSubnet. rewrite (view_Get (Masked pi)), view_Clone, Hl by done. cbn [fmap option_fmap option_map].
  unfold existing_ok, has_create. destruct (ics_CreatePrefix (spec claim)) as [cp|].
  { rewrite refuse_Ok, bool_decide_eq_false_2 by (by intros [? _]). rewrite <- (validatePrefixOwner_spec (NewRoute (Masked pi) l)). tauto. }
  destruct (bool_decide_reflect (ics_Kind (spec claim) = PrefixKindNetwork)) as [Hn|Hn].
  2:{ rewrite refuse_Ok, bool_decide_eq_false_2 by (by intros [_ ?]). rewrite <- (validatePrefixOwner_spec (NewRoute (Masked pi) l)). tauto. }
  rewrite (bool_decide_eq_true_2 (_ /\ _)) by done. change (route_kind (NewRoute (Masked pi) l)) with (label_get l NephioPrefixKindKey).
  case_bool_decide as Hkind; [split; [by intros [=]|by intros [? _]]|].
  rewrite view_Get, view_Clone by done. destruct (view rib !! GetIPAddressPrefix pi) as [l'|]; cbn [fmap option_fmap option_map]; [|done].
  rewrite refuse_Ok, (validatePrefixOwner_spec (NewRoute (GetIPAddressPrefix pi) l')). cbn [rt_Labels]. split.
  - intros [Ho _]. split; [done|]. intros l'' [= <-]. exact Ho.
  - intros [_ Ho]. split; [by apply Ho|done].
Qed.

End Properties.
