(* ===== verification/IpamWatcher.v ===== *)
(** * pkg/backend/ipam/watcher.go: notification of the owners of routes

    A client registers a callback for the routes of an owner kind. When a prefix
    changes or is deleted, the owners of the routes inside it are called. *)

From S2P Require Import Prelude Meta Labels NetIP Rib.

(** [resourcepb.StatusCode] *)
Inductive StatusCode : Type := StatusCode_Valid | StatusCode_InValid | StatusCode_Unknown.

Section Watcher.
(** The functions clients register. A call is an event. *)
Context {Callback : Type}.

(** The field [d] of the watcher: the callbacks by owner key (a label key) and
    owner kind (its value). *)
Abbreviation watcher := (gmap string (gmap string Callback)).

(** A call of a callback with the routes and the status code. *)
Definition event : Type := (Callback * list Route * StatusCode)%type.

(** [pkg/backend/ipam/watcher.go:32-35 updateContext] *)
Record updateContext : Type := MkUpdateContext { uc_routes : list Route; callBackFn : Callback }.

(** [pkg/backend/ipam/watcher.go:43-47 newWatcher] *)
Definition newWatcher : watcher := ∅.

(** [pkg/backend/ipam/watcher.go:56-64 watcher.addWatch] *)
Definition addWatch (ownerGvkKey ownerGvk : string) (fn : Callback) (d : watcher) : watcher :=
  <[ownerGvkKey := <[ownerGvk := fn]> (default ∅ (d !! ownerGvkKey))]> d.

(** [pkg/backend/ipam/watcher.go:66-76 watcher.deleteWatch] *)
Definition deleteWatch (ownerGvkKey ownerGvk : string) (d : watcher) : watcher :=
  let d := alter (delete ownerGvk) ownerGvkKey d in
  if bool_decide (default ∅ (d !! ownerGvkKey) = ∅) then delete ownerGvkKey d else d.

(** One step of the inner loop: the route is filed under its owner kind. *)
Definition file_route (route : Route) (ownerGvkValue : string) (updateMap : gmap string updateContext)
    (kv : string * Callback) : gmap string updateContext :=
  let '(value, fn) := kv in
  if bool_decide (ownerGvkValue = value) then
    let c := default (MkUpdateContext [] fn) (updateMap !! ownerGvkValue) in
    <[ownerGvkValue := MkUpdateContext (uc_routes c ++ [route]) (callBackFn c)]> updateMap
  else updateMap.

(** The routes by owner kind. [map_to_list] stands for the unspecified order of
    Go's iteration over a map. *)
Definition updates (d : watcher) (routes : list Route) : gmap string updateContext :=
  foldl (fun um route =>
    foldl (fun um '(ownerGvkKey, values) =>
      match rt_Labels route !! ownerGvkKey with
      | Some ownerGvkValue => foldl (file_route route ownerGvkValue) um (map_to_list values)
      | None => um
      end) um (map_to_list d)) ∅ routes.

(** [pkg/backend/ipam/watcher.go:78-115 watcher.handleUpdate] *)
Definition handleUpdate (d : watcher) (routes : list Route) (statusCode : StatusCode) : list event :=
  (fun '(_, uc) => (callBackFn uc, uc_routes uc, statusCode)) <$> map_to_list (updates d routes).

(** ** Registration *)

(** The callback registered for an owner kind. *)
Definition watch_lookup (d : watcher) (k v : string) : option Callback := default ∅ (d !! k) !! v.

Lemma watch_lookup_add d k v fn k' v' :
  watch_lookup (addWatch k v fn d) k' v' =
  if decide (k = k' /\ v = v') then Some fn else watch_lookup d k' v'.
Proof.
  unfold watch_lookup, addWatch. destruct (decide (k = k')) as [->|Hk].
  - rewrite lookup_insert_eq. cbn. destruct (decide (v = v')) as [->|Hv].
    + rewrite lookup_insert_eq. by rewrite decide_True.
    + rewrite lookup_insert_ne by done. rewrite decide_False; [done|tauto].
  - rewrite lookup_insert_ne by done. rewrite decide_False; [done|tauto].
Qed.

Lemma watch_lookup_delete d k v k' v' :
  watch_lookup (deleteWatch k v d) k' v' =
  if decide (k = k' /\ v = v') then None else watch_lookup d k' v'.
Proof.
  unfold watch_lookup, deleteWatch.
  assert (Hw : default ∅ (alter (delete v) k d !! k') !! v' =
    if decide (k = k' /\ v = v') then None else default ∅ (d !! k') !! v').
  { destruct (decide (k = k')) as [->|Hk].
    - rewrite lookup_alter_eq. destruct (d !! k') as [m|]; cbn; [|rewrite lookup_empty; by destruct (decide _)].
      destruct (decide (v = v')) as [->|Hv].
      + rewrite lookup_delete_eq. by rewrite decide_True.
      + rewrite lookup_delete_ne by done. rewrite decide_False; [done|tauto].
    - rewrite lookup_alter_ne by done. rewrite decide_False; [done|tauto]. }
  rewrite <-Hw. case_bool_decide as He; [|done].
  destruct (decide (k = k')) as [->|Hk]; [|by rewrite lookup_delete_ne].
  rewrite lookup_delete_eq, He. done.
Qed.

(** ** Delivery *)

(** A watcher with the callbacks of one owner key. *)
Section OneKey.
Context (k : string) (values : gmap string Callback).

Definition owner_value (rt : Route) : option string := rt_Labels rt !! k.

Lemma file_route_none rt v l um : (forall fn, (v, fn) ∉ l) -> foldl (file_route rt v) um l = um.
Proof.
  revert um. induction l as [|[value fn] l IH]; intros um Hl; [done|]. cbn [foldl file_route].
  rewrite bool_decide_eq_false_2.
  - apply IH. intros fn' Hin. apply (Hl fn'). by right.
  - intros ->. apply (Hl fn). left.
Qed.

(** A route is filed once, under its owner kind. *)
Lemma file_route_values rt v um :
  foldl (file_route rt v) um (map_to_list values) =
  match values !! v with
  | Some fn =>
      let c := default (MkUpdateContext [] fn) (um !! v) in
      <[v := MkUpdateContext (uc_routes c ++ [rt]) (callBackFn c)]> um
  | None => um
  end.
Proof.
  destruct (values !! v) as [fn|] eqn:Hv.
  - pose proof (NoDup_fst_map_to_list values) as Hnd.
    apply elem_of_map_to_list in Hv.
    apply list_elem_of_split in Hv as (l1&l2&Hl). rewrite Hl in Hnd |- *.
    rewrite fmap_app, NoDup_app in Hnd. destruct Hnd as (_&Hd&Hnd). cbn in Hnd. apply NoDup_cons in Hnd as [Hn2 _].
    rewrite foldl_app. rewrite (file_route_none rt v l1).
    + cbn [foldl]. rewrite file_route_none.
      * unfold file_route. by rewrite bool_decide_eq_true_2.
      * intros fn' Hin. apply Hn2. apply list_elem_of_fmap. by exists (v, fn').
    + intros fn' Hin. apply (Hd v); [apply list_elem_of_fmap; by exists (v, fn')|left].
  - apply file_route_none. intros fn Hin. apply elem_of_map_to_list in Hin. congruence.
Qed.

Lemma updates_lookup routes v :
  updates {[k := values]} routes !! v =
  match values !! v, filter (fun rt => owner_value rt = Some v) routes with
  | Some fn, (_ :: _) as rs => Some (MkUpdateContext rs fn)
  | _, _ => None
  end.
Proof.
  unfold updates. rewrite map_to_list_singleton. induction routes as [|rt routes IH] using rev_ind.
  - cbn [foldl]. rewrite lookup_empty. by destruct (values !! v).
  - rewrite foldl_app. cbn [foldl]. set (um := foldl _ _ routes) in *. rewrite filter_app.
    change (rt_Labels rt !! k) with (owner_value rt).
    destruct (owner_value rt) as [w|] eqn:Hw.
    + rewrite file_route_values. destruct (decide (w = v)) as [->|Hne].
      * rewrite filter_cons_True by done. change (filter _ []) with (@nil Route).
        destruct (values !! v) as [fn|] eqn:Hv; [|done]. rewrite lookup_insert_eq, IH.
        destruct (filter _ routes) as [|x xs]; done.
      * rewrite filter_cons_False by congruence. change (filter _ []) with (@nil Route). rewrite app_nil_r.
        destruct (values !! w) as [fn|]; [by rewrite lookup_insert_ne|done].
    + rewrite filter_cons_False by congruence. change (filter _ []) with (@nil Route). by rewrite app_nil_r.
Qed.

Lemma NoDup_events routes (code : StatusCode) :
  NoDup ((fun '(_, uc) => (callBackFn uc, uc_routes uc, code)) <$> map_to_list (updates {[k := values]} routes)).
Proof.
  apply NoDup_fmap_2_strong; [|apply NoDup_map_to_list].
  intros [v uc] [w ud] Hv%elem_of_map_to_list Hw%elem_of_map_to_list [= Hfn Hrs].
  rewrite updates_lookup in Hv, Hw. destruct (values !! v) as [fv|]; [|done].
  destruct (values !! w) as [fw|]; [|done].
  destruct (filter (fun rt => owner_value rt = Some v) routes) as [|x xs] eqn:Ev; [done|].
  destruct (filter (fun rt => owner_value rt = Some w) routes) as [|y ys] eqn:Ew; [done|].
  injection Hv as <-. injection Hw as <-. cbn in *. injection Hrs as -> ->.
  assert (Hy : y ∈ filter (fun rt => owner_value rt = Some v) routes) by (rewrite Ev; left).
  assert (Hy' : y ∈ filter (fun rt => owner_value rt = Some w) routes) by (rewrite Ew; left).
  apply list_elem_of_filter in Hy as [Hy _], Hy' as [Hy' _]. congruence.
Qed.

(** With callbacks registered under one owner key, an update calls the callback
    of an owner kind exactly when some route belongs to that kind, once, with
    exactly the routes of that kind in their order. *)
Theorem handleUpdate_delivers routes code :
  NoDup (handleUpdate {[k := values]} routes code) /\
  forall fn rs, (fn, rs, code) ∈ handleUpdate {[k := values]} routes code <->
    exists v, values !! v = Some fn /\ rs = filter (fun rt => rt_Labels rt !! k = Some v) routes /\ rs <> [].
Proof.
  unfold handleUpdate. split; [apply NoDup_events|]. intros fn rs. rewrite list_elem_of_fmap. split.
  - intros ([v uc]&[= -> ->]&Hin). apply elem_of_map_to_list in Hin. rewrite updates_lookup in Hin.
    exists v. destruct (values !! v) as [fn'|]; [|done]. unfold owner_value in Hin.
    destruct (filter _ routes) eqn:Hf; [done|]. by injection Hin as <-.
  - intros (v&Hv&->&Hne). exists (v, MkUpdateContext (filter (fun rt => owner_value rt = Some v) routes) fn).
    split; [done|]. apply elem_of_map_to_list. rewrite updates_lookup, Hv. unfold owner_value in *.
    by destruct (filter _ routes).
Qed.

End OneKey.

End Watcher.
Abbreviation watcher Callback := (gmap string (gmap string Callback)).
Arguments event : clear implicits.
