(* ===== verification/IpamApply.v ===== *)
(** * pkg/backend/ipam: the applicator and the getter

    The applicator turns a validated claim into routes of the table of its network
    instance: [ApplyPrefix] for a claim of a given prefix, [ApplyDynamic] for a
    claim the backend chooses a prefix for, [Delete] for the release of a claim.
    It works on the claim, the table and the prefix it was created with, and
    changes all three. *)

From S2P Require Import Prelude Strconv Meta Labels Conditions KRM NetIP IPUtil Rib Backend IpamApi IpamValidate IpamWatcher.

Local Open Scope Z_scope.

(** [fmt]'s [%v] of a map: the entries in the order of the keys. *)
Definition go_map_string (m : labels) : string :=
  "map[" +:+ String.concat " " ((fun '(k, v) => k +:+ ":" +:+ v) <$>
    merge_sort (fun kv kv' => String.le kv.1 kv'.1) (map_to_list m)) +:+ "]".

Definition set_Prefix (p : string) (claim : IPClaim) : IPClaim :=
  with_status (fun s => MkIPClaimStatus (ict_ConditionedStatus s) (Some p) (ict_Gateway s) (ict_ExpiryTime s)) claim.
Definition set_Gateway (g : string) (claim : IPClaim) : IPClaim :=
  with_status (fun s => MkIPClaimStatus (ict_ConditionedStatus s) (ict_Prefix s) (Some g) (ict_ExpiryTime s)) claim.

Section Applicator.
Context `{L : LabelsAPI} `{R : !RIBAPI} `{N : NetipxAPI} `{E : ErrorsAPI} {Callback : Type}.

(** ** State *)

(** The claim, the table and the prefix are pointers, the watcher is called; the
    calls are collected in [a_events].

    [pkg/backend/ipam/apply_prefix.go:39-46 applicator] *)
Record applicator : Type := MkApplicator {
  a_initializing : bool;
  a_claim : IPClaim;
  a_rib : RIB;
  a_pi : option Prefix;
  a_watcher : watcher Callback;
  a_events : list (event Callback)
}.

(** [pkg/backend/ipam/apply_prefix.go:29-37 NewApplicator] *)
Definition NewApplicator (initializing : bool) (claim : IPClaim) (rib : RIB) (pi : option Prefix)
    (w : watcher Callback) : applicator :=
  MkApplicator initializing claim rib pi w [].

Definition set_claim (f : IPClaim -> IPClaim) : M applicator unit := modify (fun s =>
  MkApplicator (a_initializing s) (f (a_claim s)) (a_rib s) (a_pi s) (a_watcher s) (a_events s)).
Definition set_rib (rib : RIB) (s : applicator) : applicator :=
  MkApplicator (a_initializing s) (a_claim s) rib (a_pi s) (a_watcher s) (a_events s).
Definition set_pi (pi : Prefix) : M applicator unit := modify (fun s =>
  MkApplicator (a_initializing s) (a_claim s) (a_rib s) (Some pi) (a_watcher s) (a_events s)).

Definition on_rib {A} (m : M RIB A) : M applicator A := fun s =>
  let '(rib, r) := m (a_rib s) in (set_rib rib s, r).

(** A call of the watcher. *)
Definition notify (routes : list Route) : M applicator unit := modify (fun s =>
  MkApplicator (a_initializing s) (a_claim s) (a_rib s) (a_pi s) (a_watcher s)
    (a_events s ++ handleUpdate (a_watcher s) routes StatusCode_Unknown)).

(** The error of a change of the table is returned, wrapped, unless the route
    exists already. *)
Definition unless_exists (m : M applicator unit) (msg : string) : M applicator unit := fun s =>
  match m s with
  | (s', Err e) =>
      if contains "already exists" e then (s', Ok tt)
      else (s', match Wrap (Some e) msg with Some e' => Err e' | None => Ok tt end)
  | r => r
  end.

(** ** The gateway of a subnet *)

Definition gateway_of (claim : IPClaim) (rib : RIB) (prefix : string) : string :=
  match iputil_New prefix with
  | Ok pi =>
      match GetGatewayLabelSelector claim (GetSubnetName pi) with
      | Ok gatewaySelector =>
          match rib_GetByLabel gatewaySelector rib with
          | route :: _ => Addr_String (p_addr (rt_Prefix route))
          | [] => ""
          end
      | _ => ""
      end
  | _ => ""
  end.

(** [pkg/backend/ipam/applicator.go:253-272 applicator.getGateway] *)
Definition getGateway (prefix : string) (s : applicator) : string := gateway_of (a_claim s) (a_rib s) prefix.

(** ** Routes of a claim *)

(** [pkg/backend/ipam/applicator.go:175-183 applicator.mutateNetworkNetRoute] *)
Definition mutateNetworkNetRoute (pi : Prefix) (l : labels) : Route :=
  NewRoute (GetIPSubnet pi) (delete NephioGatewayKey l).

(** [pkg/backend/ipam/applicator.go:185-192 applicator.mutateNetworIPAddressRoute] *)
Definition mutateNetworIPAddressRoute (pi : Prefix) (l : labels) : Route :=
  NewRoute (GetIPAddressPrefix pi) l.

(** [pkg/backend/ipam/applicator.go:194-202 applicator.mutateNetworFirstAddressRoute] *)
Definition mutateNetworFirstAddressRoute (pi : Prefix) (l : labels) : Route :=
  NewRoute (GetFirstIPPrefix pi) (delete NephioGatewayKey l).

(** [pkg/backend/ipam/applicator.go:204-212 applicator.mutateNetworLastAddressRoute] *)
Definition mutateNetworLastAddressRoute (pi : Prefix) (l : labels) : Route :=
  NewRoute (GetLastIPPrefix pi) (delete NephioGatewayKey l).

(** The labels of the routes of a claim on the prefix [pi]. *)
Definition claim_labels (claim : IPClaim) (pi : Prefix) : labels :=
  <[NephioSubnetKey := GetSubnetName pi]> (<[NephioAddressFamilyKey := GetAddressFamily pi]>
    (<[NephioPrefixKindKey := ics_Kind (spec claim)]> (IPClaim_GetUserDefinedLabels claim))).

(** The routes of a network prefix: the subnet, the address, and the first and the
    last address of the subnet where they differ from it. *)
Definition network_routes (pi : Prefix) (ls : labels) : list Route :=
  if bool_decide (GetAddressFamily pi = AddressFamilyIpv4 /\ GetPrefixLength pi = 31 \/
                  GetAddressFamily pi = AddressFamilyIpv6 /\ GetPrefixLength pi = 127) then
    [mutateNetworkNetRoute pi ls]
  else if IsNorLastNorFirst pi then
    [mutateNetworkNetRoute pi ls; mutateNetworIPAddressRoute pi ls;
     mutateNetworFirstAddressRoute pi ls; mutateNetworLastAddressRoute pi ls]
  else if IsFirst pi then
    [mutateNetworkNetRoute pi ls; mutateNetworIPAddressRoute pi ls; mutateNetworLastAddressRoute pi ls]
  else if IsLast pi then
    [mutateNetworkNetRoute pi ls; mutateNetworIPAddressRoute pi ls; mutateNetworFirstAddressRoute pi ls]
  else [].

(** [pkg/backend/ipam/applicator.go:132-173 applicator.getMutatedRoutesWithLabels] *)
Definition getMutatedRoutesWithLabels (s : applicator) : result (list Route) :=
  let claim := a_claim s in
  pi ← deref (a_pi s);
  let ls := claim_labels claim pi in
  if bool_decide (ics_Kind (spec claim) = PrefixKindNetwork) then
    match ics_CreatePrefix (spec claim) with
    | Some _ => Ok (network_routes pi ls)
    | None => Ok [NewRoute (GetIPAddressPrefix pi) ls]
    end
  else Ok [NewRoute (GetIPPrefix pi) ls].

(** [pkg/backend/ipam/applicator.go:48-67 applicator.addRib] *)
Definition addRib : M applicator unit :=
  s ← get_state;
  routes ← lift (getMutatedRoutesWithLabels s);
  _ ← forM routes (fun route => unless_exists (on_rib (rib_Add route)) "cannot add prefix");
  pi ← lift (deref (a_pi s));
  _ ← set_claim (set_Prefix (Prefix_String (GetIPPrefix pi)));
  s ← get_state;
  if bool_decide (ics_Kind (spec (a_claim s)) = PrefixKindNetwork /\ ics_CreatePrefix (spec (a_claim s)) = None) then
    prefix ← lift (deref (ict_Prefix (status (a_claim s))));
    set_claim (set_Gateway (getGateway prefix s))
  else mret tt.

(** [pkg/backend/ipam/applicator.go:214-251 applicator.GetUpdatedLabels] *)
Definition GetUpdatedLabels (route : Route) : M applicator labels :=
  s ← get_state;
  let claim := a_claim s in
  let pi := NewPrefixInfo (rt_Prefix route) in
  let ls := claim_labels claim pi in
  ls ← (if bool_decide (ics_Kind (spec claim) = PrefixKindNetwork) then
          if IsAddressPrefix pi then
            match rib_Parents route (a_rib s) with
            | parent :: _ =>
                let rpi := NewPrefixInfo (PrefixFrom (GetIPAddress pi) (p_bits (rt_Prefix parent))) in
                _ ← set_pi rpi;
                let ls :=
                  if bool_decide (GetIPPrefix pi = GetFirstIPPrefix rpi \/ GetIPPrefix pi = GetLastIPPrefix rpi)
                  then delete NephioGatewayKey ls else ls in
                mret (<[NephioSubnetKey := GetSubnetName rpi]> ls)
            | [] => mret ls
            end
          else mret (<[NephioSubnetKey := GetSubnetName pi]> (delete NephioGatewayKey ls))
        else mret ls);
  mret (if bool_decide (ics_Kind (spec claim) = PrefixKindPool) then <[NephioPoolKey := "true"]> ls else ls).

(** The name of the claim of a route differs from the one in the labels of [claim]. *)
Definition other_nsn (claim : IPClaim) (route : Route) : bool :=
  bool_decide (label_get (rt_Labels route) NephioNsnNameKey <>
               label_get (IPClaim_GetFullLabels claim) NephioNsnNameKey \/
               label_get (rt_Labels route) NephioNsnNamespaceKey <>
               label_get (IPClaim_GetFullLabels claim) NephioNsnNamespaceKey).

(** The routes inside [route] that belong to other claims are deleted from the
    table, an error is only logged, and their owners are called. *)
Definition delete_children (route : Route) : M applicator unit :=
  s ← get_state;
  let childRoutesToBeUpdated := filter (fun c => other_nsn (a_claim s) c = true) (rib_Children route (a_rib s)) in
  _ ← forM childRoutesToBeUpdated (fun childRoute => log_error (on_rib (rib_Delete childRoute)));
  notify childRoutesToBeUpdated.

(** The body of the loop of [updateRib]. *)
Definition update_route (route : Route) : M applicator unit :=
  lbls ← GetUpdatedLabels route;
  if bool_decide (lbls = rt_Labels route) then mret tt
  else
    let route := UpdateLabel lbls route in
    _ ← unless_exists (on_rib (rib_Set route)) "cannot update prefix";
    s ← get_state;
    match a_pi s, ics_CreatePrefix (spec (a_claim s)) with
    | Some pi, Some _ =>
        if negb (a_initializing s) && negb (IsAddressPrefix pi) then delete_children route else mret tt
    | _, _ => mret tt
    end.

(** An empty list of routes is out of range when the status is updated.

    [pkg/backend/ipam/applicator.go:69-130 applicator.updateRib] *)
Definition updateRib (routes : list Route) : M applicator unit :=
  _ ← forM routes update_route;
  route0 ← lift (index routes 0);
  _ ← set_claim (set_Prefix (Prefix_String (rt_Prefix route0)));
  s ← get_state;
  if bool_decide (ics_Kind (spec (a_claim s)) = PrefixKindNetwork) then
    _ ← set_claim (set_Prefix
          (match ics_Prefix (spec (a_claim s)), a_pi s with
           | Some p, _ => p
           | None, Some pi => Prefix_String (GetIPPrefix pi)
           | None, None => Prefix_String (rt_Prefix route0)
           end));
    s ← get_state;
    match ics_CreatePrefix (spec (a_claim s)) with
    | None =>
        prefix ← lift (deref (ict_Prefix (status (a_claim s))));
        set_claim (set_Gateway (getGateway prefix s))
    | Some _ => mret tt
    end
  else mret tt.

(** ** Lookups *)

(** [pkg/backend/ipam/apply_dynamic.go:184-204 applicator.getRoutesByOwner] *)
Definition getRoutesByOwner (s : applicator) : result (list Route) :=
  ownerSelector ← IPClaim_GetOwnerSelector (a_claim s);
  let routes := rib_GetByLabel ownerSelector (a_rib s) in
  if bool_decide (1 < length routes)%nat &&
     negb (has_create (a_claim s) && bool_decide (ics_Kind (spec (a_claim s)) = PrefixKindNetwork)) then
    Err ("multiple prefixes match the nsn labelselector, " +:+ Routes_String routes)
  else Ok routes.

(** [pkg/backend/ipam/apply_dynamic.go:206-213 applicator.getRoutesByLabel] *)
Definition getRoutesByLabel (s : applicator) : list Route :=
  match IPClaim_GetLabelSelector (a_claim s) with
  | Ok labelSelector => rib_GetByLabel labelSelector (a_rib s)
  | _ => []
  end.

(** [pkg/backend/ipam/apply_dynamic.go:215-220 applicator.getPrefixLengthFromRoute] *)
Definition getPrefixLengthFromRoute (claim : IPClaim) (route : Route) : Z :=
  match ics_PrefixLength (spec claim) with
  | Some l => l
  | None => BitLen (p_addr (rt_Prefix route))
  end.

(** [pkg/backend/ipam/apply_dynamic.go:137-182 applicator.GetSelectedRouteWithPrefixLength] *)
Definition GetSelectedRouteWithPrefixLength (claim : IPClaim) (routes : list Route) (prefixLength : Z) :
    option Route :=
  let kind := ics_Kind (spec claim) in
  if bool_decide (prefixLength = 32 \/ prefixLength = 128) then
    let ownKindRoutes := filter (fun route =>
      kind ∈ [PrefixKindLoopback; PrefixKindNetwork; PrefixKindPool] /\ route_kind route = kind) routes in
    let otherKindRoutes := filter (fun route =>
      kind ∈ [PrefixKindLoopback; PrefixKindNetwork] /\ route_kind route = PrefixKindAggregate) routes in
    match ownKindRoutes with
    | route :: _ => Some route
    | [] => head otherKindRoutes
    end
  else head (filter (fun route => p_bits (rt_Prefix route) < prefixLength) routes).

(** [pkg/backend/ipam/apply_dynamic.go:222-232 applicator.updatePrefixInfo] *)
Definition updatePrefixInfo (claim : IPClaim) (pi p : Prefix) (prefixLength : Z) : Prefix :=
  if bool_decide (ics_Kind (spec claim) = PrefixKindNetwork) then
    match ics_CreatePrefix (spec claim) with
    | Some _ => NewPrefixInfo p
    | None => NewPrefixInfo (PrefixFrom (p_addr p) (GetPrefixLength pi))
    end
  else NewPrefixInfo (PrefixFrom (p_addr p) prefixLength).

(** ** Operations *)

(** The second half of [ApplyDynamic]: choose a route and a free prefix in it. *)
Definition claim_free_prefix (routes : list Route) : M applicator unit :=
  s ← get_state;
  route0 ← lift (index routes 0);
  let prefixLength := getPrefixLengthFromRoute (a_claim s) route0 in
  match GetSelectedRouteWithPrefixLength (a_claim s) routes (wrap uint8 prefixLength) with
  | None => throw ("no route found with requested prefixLength: " +:+ pretty prefixLength)
  | Some selectedRoute =>
      let pi := NewPrefixInfo (rt_Prefix selectedRoute) in
      let p := rib_GetAvailablePrefixByBitLen (GetIPPrefix pi) (wrap uint8 prefixLength) (a_rib s) in
      if negb (Prefix_IsValid p) then throw "no free prefix found"
      else
        _ ← set_pi (updatePrefixInfo (a_claim s) pi p prefixLength);
        addRib
  end.

(** [pkg/backend/ipam/apply_dynamic.go:32-135 applicator.ApplyDynamic] *)
Definition ApplyDynamic : M applicator unit :=
  s ← get_state;
  routes ← lift (getRoutesByOwner s);
  match routes with
  | _ :: _ => updateRib routes
  | [] =>
      let routes := getRoutesByLabel s in
      match routes with
      | [] =>
          throw ("dynamic claim: no available routes based on the selector labels " +:+
                 go_map_string (IPClaim_GetSelectorLabels (a_claim s)))
      | _ =>
          match ict_Prefix (status (a_claim s)) with
          | Some prefix =>
              pi ← lift (iputil_New prefix);
              let p := rib_GetAvailablePrefixByBitLen (GetIPPrefix pi) (wrap uint8 (GetPrefixLength pi)) (a_rib s) in
              if Prefix_IsValid p then
                _ ← set_pi pi;
                addRib
              else claim_free_prefix routes
          | None => claim_free_prefix routes
          end
      end
  end.

(** [pkg/backend/ipam/apply_prefix.go:48-91 applicator.ApplyPrefix] *)
Definition ApplyPrefix : M applicator unit :=
  s ← get_state;
  pi ← lift (deref (a_pi s));
  let found :=
    if bool_decide (ics_Kind (spec (a_claim s)) = PrefixKindNetwork) then
      match ics_CreatePrefix (spec (a_claim s)) with
      | None => rib_Get (GetIPAddressPrefix pi) (a_rib s)
      | Some _ => rib_Get (GetIPSubnet pi) (a_rib s)
      end
    else rib_Get (GetIPPrefix pi) (a_rib s) in
  match found with
  | Some _ =>
      routes ← lift (getRoutesByOwner s);
      updateRib routes
  | None => addRib
  end.

(** The body of the loop of [Delete]. *)
Definition delete_route (route : Route) : M applicator unit :=
  s ← get_state;
  _ ← (if negb (a_initializing s) && negb (IsAddressPrefix (NewPrefixInfo (rt_Prefix route))) &&
          has_create (a_claim s)
       then delete_children route else mret tt);
  _ ← on_rib (rib_Delete route);
  s ← get_state;
  if negb (a_initializing s) then notify (rib_Children route (a_rib s)) else mret tt.

(** [pkg/backend/ipam/delete_prefix.go:31-78 applicator.Delete] *)
Definition Delete : M applicator unit :=
  s ← get_state;
  ownerSelector ← lift (IPClaim_GetOwnerSelector (a_claim s));
  forM (rib_GetByLabel ownerSelector (a_rib s)) delete_route.

(** ** The getter *)

(** [pkg/backend/ipam/getter.go:73-91 getter.getGateway] *)
Definition getter_getGateway (claim : IPClaim) (rib : RIB) (prefix : string) : string :=
  gateway_of claim rib prefix.

(** The claim with its status. The routes are looked up with the label selector
    of the claim, not with its owner selector.

    [pkg/backend/ipam/getter.go:52-71 getter.GetIPClaim] *)
Definition GetIPClaim (claim : IPClaim) (rib : RIB) : result IPClaim :=
  labelSelector ← IPClaim_GetLabelSelector claim;
  match rib_GetByLabel labelSelector rib with
  | [] => Ok claim
  | route :: _ =>
      let claim := set_Prefix (Prefix_String (rt_Prefix route)) claim in
      if bool_decide (ics_Kind (spec claim) = PrefixKindNetwork) then
        match ics_CreatePrefix (spec claim) with
        | None =>
            prefix ← deref (ict_Prefix (status claim));
            Ok (set_Gateway (getter_getGateway claim rib prefix) claim)
        | Some _ => Ok claim
        end
      else Ok claim
  end.

End Applicator.
Arguments applicator {L R} Callback.
