(* ===== verification/IpamClaims.v ===== *)
(** * Properties of the applicator

    What the operations of an applicator do to the table, over the abstract view of
    the table as a map from prefixes to labels. *)

From S2P Require Import Prelude Strconv Meta Labels Conditions KRM NetIP IPUtil Rib Backend IpamApi IpamValidate IpamWatcher IpamApply.

Local Open Scope Z_scope.

Section Claims.
Context `{L : LabelsAPI} `{R : !RIBAPI} `{RS : !RIBSpec R} `{N : NetipxAPI} `{!NetipxLaws N}.
Context `{E : ErrorsAPI} {Callback : Type}.
Implicit Types (s : applicator Callback) (r : Route).

(** The table of an applicator. *)
Definition tab s : gmap Prefix labels := view (a_rib s).

Lemma set_rib_id s : set_rib (a_rib s) s = s.
Proof. by destruct s. Qed.

Definition routes_map (routes : list Route) : gmap Prefix labels :=
  list_to_map ((fun r => (rt_Prefix r, rt_Labels r)) <$> routes).

Lemma and_iff_compat_l_strong (P Q Q' : Prop) : (P -> Q <-> Q') -> P /\ Q <-> P /\ Q'.
Proof. tauto. Qed.

(** ** Adding routes *)

(** A route that is in the table already is kept. *)
Lemma add_route_spec r msg s : is_network (rt_Prefix r) ->
  exists rib, unless_exists (on_rib (rib_Add r)) msg s = (set_rib rib s, Ok tt) /\
    view rib = tab s ∪ {[rt_Prefix r := rt_Labels r]}.
Proof.
  intros Hn. unfold unless_exists, on_rib, tab. destruct (view (a_rib s) !! rt_Prefix r) as [l|] eqn:Hl.
  - destruct (view_Add_dup r (a_rib s)) as (e&->&->); [done|by rewrite Hl|].
    exists (a_rib s). split; [done|]. apply map_eq. intros p. rewrite lookup_union.
    destruct (decide (p = rt_Prefix r)) as [->|Hne].
    + by rewrite Hl, union_Some_l.
    + rewrite lookup_singleton_ne by done. by rewrite (right_id None union).
  - destruct (view_Add_new r (a_rib s)) as (rib&->&Hv); [done..|]. exists rib. split; [done|].
    rewrite Hv, insert_union_singleton_l. apply map_union_comm. by apply map_disjoint_singleton_l.
Qed.

Lemma add_routes_spec routes msg s : Forall (fun r => is_network (rt_Prefix r)) routes ->
  exists rib, forM routes (fun r => unless_exists (on_rib (rib_Add r)) msg) s = (set_rib rib s, Ok tt) /\
    view rib = tab s ∪ routes_map routes.
Proof.
  intros Hall. revert s. induction Hall as [|r routes Hr _ IH]; intros s.
  - exists (a_rib s). rewrite set_rib_id. split; [done|]. unfold routes_map, tab. cbn. by rewrite map_union_empty.
  - destruct (add_route_spec r msg s Hr) as (rib&Hadd&Hv). destruct (IH (set_rib rib s)) as (rib'&Hf&Hv').
    exists rib'. split.
    + cbn [forM]. unfold mbind, M_bind. rewrite Hadd, Hf. done.
    + rewrite Hv'. unfold tab. cbn [a_rib set_rib]. rewrite Hv, <-(assoc_L union). f_equal.
      symmetry. apply insert_union_singleton_l.
Qed.

(** What an operation of the applicator leaves alone. *)
Definition same_frame s s' : Prop :=
  krm_Object (a_claim s') = krm_Object (a_claim s) /\ spec (a_claim s') = spec (a_claim s) /\
  a_initializing s' = a_initializing s /\ a_watcher s' = a_watcher s.

Lemma addRib_spec s pi routes : a_pi s = Some pi -> getMutatedRoutesWithLabels s = Ok routes ->
  Forall (fun r => is_network (rt_Prefix r)) routes ->
  exists s', addRib s = (s', Ok tt) /\ tab s' = tab s ∪ routes_map routes /\ same_frame s s' /\
    a_events s' = a_events s /\ ict_Prefix (status (a_claim s')) = Some (Prefix_String pi).
Proof.
  intros Hpi Hr Hall. destruct (add_routes_spec routes "cannot add prefix" s Hall) as (rib&Hf&Hv).
  unfold addRib. unfold mbind, M_bind, get_state, lift. rewrite Hr, Hf, Hpi. cbn [deref].
  unfold set_claim, modify. cbn -[bool_decide]. case_bool_decide as Hk.
  - eexists. split; [reflexivity|]. cbn. by split.
  - eexists. split; [reflexivity|]. cbn. by split.
Qed.

(** ** The routes of a network prefix *)

Section Networks.
Context (pi : Prefix) (Hv : Prefix_IsValid pi = true) (Hok : addr_ok (p_addr pi)).

Lemma GetIPSubnet_network : is_network (GetIPSubnet pi).
Proof. by apply is_network_Masked. Qed.

Lemma GetIPAddressPrefix_network : is_network (GetIPAddressPrefix pi).
Proof. rewrite GetIPAddressPrefix_valid by done. apply is_network_address; [|done]. by apply Prefix_IsValid_spec in Hv as [? _]. Qed.

Lemma with_num_network n : first_num pi <= n <= last_num pi ->
  is_network (MkPrefix (with_num (p_addr pi) n) (BitLen (p_addr pi))).
Proof.
  intros Hn. rewrite <-(with_num_BitLen _ n). apply Prefix_IsValid_spec in Hv as Ha. destruct Ha as [Ha _].
  destruct (range_bounds pi Hv Hok). apply is_network_address; [by destruct (p_addr pi)|].
  unfold addr_ok. rewrite with_num_num, with_num_BitLen by done. lia.
Qed.

Lemma GetFirstIPPrefix_network : is_network (GetFirstIPPrefix pi).
Proof. rewrite GetFirstIPPrefix_valid by done. apply with_num_network. pose proof (addr_in_range pi Hv). lia. Qed.

Lemma GetLastIPPrefix_network : is_network (GetLastIPPrefix pi).
Proof. rewrite GetLastIPPrefix_valid by done. apply with_num_network. pose proof (addr_in_range pi Hv). lia. Qed.

Lemma network_routes_network ls : Forall (fun r => is_network (rt_Prefix r)) (network_routes pi ls).
Proof.
  pose proof GetIPSubnet_network. pose proof GetIPAddressPrefix_network.
  pose proof GetFirstIPPrefix_network. pose proof GetLastIPPrefix_network. unfold network_routes.
  repeat case_match; repeat (apply Forall_cons; split; [done|]); by apply Forall_nil.
Qed.

(** The prefixes stored for a network are the subnet, the address, and the
    first and the last address. *)
Lemma network_routes_prefixes ls : 1 < host_bits pi ->
  list_to_set (rt_Prefix <$> network_routes pi ls) =@{gset Prefix}
  {[GetIPSubnet pi; GetIPAddressPrefix pi; GetFirstIPPrefix pi; GetLastIPPrefix pi]}.
Proof.
  intros Hb. unfold host_bits in Hb. unfold network_routes, GetPrefixLength, GetAddressFamily, IsIpv6.
  rewrite bool_decide_eq_false_2.
  2:{ destruct (p_addr pi); cbn [Is6 BitLen] in *; intros [[? ?]|[? ?]]; lia || discriminate. }
  unfold IsNorLastNorFirst. rewrite IsFirst_spec, IsLast_spec by done.
  rewrite GetIPAddressPrefix_valid, GetFirstIPPrefix_valid, GetLastIPPrefix_valid by done.
  repeat case_bool_decide; cbn [andb negb fmap list_fmap list_to_set mutateNetworkNetRoute
    mutateNetworIPAddressRoute mutateNetworFirstAddressRoute mutateNetworLastAddressRoute rt_Prefix];
    rewrite ?GetIPAddressPrefix_valid, ?GetFirstIPPrefix_valid, ?GetLastIPPrefix_valid by done;
    try match goal with H : addr_num _ = first_num _ |- _ => rewrite <-H, with_num_id end;
    try match goal with H : addr_num _ = last_num _ |- _ => rewrite <-H, with_num_id end;
    apply set_eq; intros x; set_unfold; tauto.
Qed.

End Networks.

Lemma dom_routes_map routes : dom (routes_map routes) = list_to_set (rt_Prefix <$> routes).
Proof.
  unfold routes_map. rewrite dom_list_to_map_L, <-list_fmap_compose. done.
Qed.

(** C21. A claim that creates a network prefix with more than two addresses which is not
    in the table adds the routes of the subnet, of the address in the claim, and of
    the first and the last address of the subnet, and nothing else: the network and
    the broadcast address are taken. No route that was in the table is changed. *)
Theorem network_claim_reserves s pi :
  a_pi s = Some pi -> Prefix_IsValid pi = true -> addr_ok (p_addr pi) ->
  1 < host_bits pi -> ics_Kind (spec (a_claim s)) = PrefixKindNetwork -> has_create (a_claim s) = true ->
  tab s !! GetIPSubnet pi = None ->
  exists s', ApplyPrefix s = (s', Ok tt) /\ tab s ⊆ tab s' /\
    dom (tab s') = dom (tab s) ∪ {[GetIPSubnet pi; GetIPAddressPrefix pi; GetFirstIPPrefix pi; GetLastIPPrefix pi]} /\
    ict_Prefix (status (a_claim s')) = Some (Prefix_String pi) /\ a_events s' = a_events s.
Proof.
  intros Hpi Hv Hok Hb Hk Hc Hnone. unfold has_create in Hc.
  destruct (ics_CreatePrefix (spec (a_claim s))) as [cp|] eqn:Hcp; [clear Hc|done].
  set (ls := claim_labels (a_claim s) pi).
  assert (Hr : getMutatedRoutesWithLabels s = Ok (network_routes pi ls)).
  { unfold getMutatedRoutesWithLabels. rewrite Hpi. cbn [deref mbind result_bind].
    by rewrite bool_decide_eq_true_2, Hcp by done. }
  destruct (addRib_spec s pi _ Hpi Hr (network_routes_network pi Hv Hok ls)) as (s'&Hadd&Htab&_&Hev&Hst).
  exists s'. split.
  - unfold ApplyPrefix. unfold mbind, M_bind, get_state, lift. rewrite Hpi. cbn [deref].
    rewrite bool_decide_eq_true_2, Hcp, view_Get by (done || by apply GetIPSubnet_network).
    unfold tab in Hnone. by rewrite Hnone.
  - rewrite Htab. split; [apply map_union_subseteq_l|]. split; [|done].
    by rewrite dom_union_L, dom_routes_map, network_routes_prefixes.
Qed.

(** ** Dynamic claims *)

Lemma BitLen_bounds a : 0 <= BitLen a < 256.
Proof. by destruct a. Qed.

Lemma GetSelectedRoute_elem claim routes len r :
  GetSelectedRouteWithPrefixLength claim routes len = Some r ->
  r ∈ routes /\ (len = 32 \/ len = 128 -> route_kind r = ics_Kind (spec claim) \/ route_kind r = PrefixKindAggregate) /\
  (~ (len = 32 \/ len = 128) -> p_bits (rt_Prefix r) < len).
Proof.
  assert (Hhead : forall (P : Route -> Prop) `{!forall x, Decision (P x)} x,
    head (filter P routes) = Some x -> P x /\ x ∈ routes).
  { intros P HP x Hx. destruct (filter P routes) as [|y l] eqn:Hf; [done|]. injection Hx as ->.
    apply (list_elem_of_filter P). rewrite Hf. left. }
  unfold GetSelectedRouteWithPrefixLength. case_bool_decide as Hlen.
  - match goal with |- context [match filter ?P routes with _ => _ end] => set (Q := P) end.
    destruct (filter Q routes) as [|y l] eqn:Hf; intros Hr.
    + apply Hhead in Hr as [[_ Hk] Hin]. by split; [|split; [right|]].
    + injection Hr as ->. assert (Hin : r ∈ filter Q routes) by (rewrite Hf; left).
      apply list_elem_of_filter in Hin as [[_ Hk] Hin]. by split; [|split; [left|]].
  - intros [Hb Hin]%Hhead. by split; [|split].
Qed.

Lemma getRoutesByLabel_elem s r : r ∈ getRoutesByLabel s -> tab s !! rt_Prefix r = Some (rt_Labels r).
Proof.
  unfold getRoutesByLabel. destruct (IPClaim_GetLabelSelector _) as [sel|e|]; [|by intros ?%not_elem_of_nil..].
  by intros [? _]%view_GetByLabel.
Qed.

Lemma contains_prefix_refl p : Prefix_IsValid p = true -> contains_prefix p p = true.
Proof.
  intros Hp. unfold contains_prefix. rewrite Hp. cbn [andb].
  rewrite !bool_decide_eq_true_2 by (done || lia || by destruct p). done.
Qed.

(** A prefix that overlaps no route inside [p] is not in the table. *)
Lemma fresh_prefix (m : gmap Prefix labels) p q : Prefix_IsValid q = true -> more_specific p q = true ->
  (forall x, is_Some (m !! x) -> more_specific p x = true -> overlaps q x = false) -> m !! q = None.
Proof.
  intros Hq Hpq Hfree. apply eq_None_not_Some. intros Hs. specialize (Hfree q Hs Hpq).
  unfold overlaps in Hfree. by rewrite contains_prefix_refl in Hfree.
Qed.

(** The address prefix of [q], seen with the length of its subnet. *)
Lemma address_of_subnet q b : is_network q -> p_bits q = BitLen (p_addr q) -> 0 <= b <= BitLen (p_addr q) ->
  PrefixFrom (p_addr q) b = MkPrefix (p_addr q) b /\ Prefix_IsValid (MkPrefix (p_addr q) b) = true /\
  GetIPAddressPrefix (MkPrefix (p_addr q) b) = q.
Proof.
  intros (Hv&Hok&_) Hbits Hb. pose proof Hv as [Ha _]%Prefix_IsValid_spec.
  assert (Hq : Prefix_IsValid (MkPrefix (p_addr q) b) = true) by by apply Prefix_IsValid_spec.
  split.
  - unfold PrefixFrom. rewrite bool_decide_eq_true_2 by done. by destruct (p_addr q).
  - split; [done|]. rewrite GetIPAddressPrefix_valid by done. cbn [p_addr]. rewrite <-Hbits. by destruct q.
Qed.

(** The prefix shown to the user for the free prefix [q] found in [parent]. *)
Definition shown_prefix (claim : IPClaim) (parent : Route) (q : Prefix) : Prefix :=
  if bool_decide (ics_Kind (spec claim) = PrefixKindNetwork) then MkPrefix (p_addr q) (p_bits (rt_Prefix parent))
  else q.

Definition claim_length (claim : IPClaim) (fam : Z) : Z := default fam (ics_PrefixLength (spec claim)).

(** The prefix stored by [addRib] for [q], when the claim is stored as one route. *)
Lemma updatePrefixInfo_spec claim parent q : is_network q -> Prefix_IsValid (rt_Prefix parent) = true ->
  contains_prefix (rt_Prefix parent) q = true -> has_create claim = false \/ ics_Kind (spec claim) <> PrefixKindNetwork ->
  (ics_Kind (spec claim) = PrefixKindNetwork -> p_bits q = BitLen (p_addr q)) ->
  updatePrefixInfo claim (rt_Prefix parent) q (p_bits q) = shown_prefix claim parent q.
Proof.
  intros Hq Hp Hc Hk Hlen. unfold updatePrefixInfo, shown_prefix, has_create, NewPrefixInfo, GetPrefixLength in *.
  case_bool_decide as Hn.
  - destruct (ics_CreatePrefix (spec claim)); [by destruct Hk|]. specialize (Hlen Hn).
    apply address_of_subnet; [done..|]. apply Prefix_IsValid_spec in Hp as [_ Hb].
    unfold contains_prefix in Hc. rewrite !andb_true_iff, !bool_decide_eq_true in Hc.
    destruct Hc as [[[_ Hl] _] _]. by rewrite <-Hl.
  - destruct Hq as (Hv&_&_). apply Prefix_IsValid_spec in Hv as [Ha Hb]. unfold PrefixFrom.
    rewrite bool_decide_eq_true_2 by done. destruct q as [[] b]; done.
Qed.

Definition with_pi (pi : Prefix) s : applicator Callback := (set_pi pi s).1.

(** A claim stored as one route, after its prefix is chosen. *)
Lemma add_single s pi q : is_network q ->
  has_create (a_claim s) = false \/ ics_Kind (spec (a_claim s)) <> PrefixKindNetwork ->
  (if bool_decide (ics_Kind (spec (a_claim s)) = PrefixKindNetwork) then GetIPAddressPrefix pi else pi) = q ->
  exists s', addRib (with_pi pi s) = (s', Ok tt) /\
    tab s' = tab s ∪ {[q := claim_labels (a_claim s) pi]} /\ same_frame s s' /\ a_events s' = a_events s /\
    ict_Prefix (status (a_claim s')) = Some (Prefix_String pi).
Proof.
  intros Hn Hk Hq.
  assert (Hr : getMutatedRoutesWithLabels (with_pi pi s) = Ok [NewRoute q (claim_labels (a_claim s) pi)]).
  { unfold getMutatedRoutesWithLabels, has_create in *. cbn -[bool_decide]. case_bool_decide; subst q.
    - destruct (ics_CreatePrefix _); [by destruct Hk|done].
    - done. }
  destruct (addRib_spec (with_pi pi s) pi _ eq_refl Hr) as (s'&Hadd&Htab&Hf&Hev&Hst).
  { apply Forall_cons. split; [done|by apply Forall_nil]. }
  exists s'. split; [done|]. split; [|done]. rewrite Htab. unfold routes_map. cbn.
  by rewrite insert_empty.
Qed.

(** What a dynamic claim without routes does. *)
Lemma ApplyDynamic_fresh s fam parent q :
  table_wf (tab s) -> getRoutesByOwner s = Ok [] -> ict_Prefix (status (a_claim s)) = None ->
  has_create (a_claim s) = false \/ ics_Kind (spec (a_claim s)) <> PrefixKindNetwork ->
  Forall (fun r => BitLen (p_addr (rt_Prefix r)) = fam) (getRoutesByLabel s) ->
  match ics_PrefixLength (spec (a_claim s)) with
  | Some l => 0 <= l < 256 /\ ics_Kind (spec (a_claim s)) <> PrefixKindNetwork
  | None => True
  end ->
  GetSelectedRouteWithPrefixLength (a_claim s) (getRoutesByLabel s) (claim_length (a_claim s) fam) = Some parent ->
  rib_GetAvailablePrefixByBitLen (rt_Prefix parent) (claim_length (a_claim s) fam) (a_rib s) = q ->
  Prefix_IsValid q = true -> p_bits (rt_Prefix parent) < claim_length (a_claim s) fam ->
  exists s', ApplyDynamic s = (s', Ok tt) /\
    tab s' = <[q := claim_labels (a_claim s) (shown_prefix (a_claim s) parent q)]> (tab s) /\
    tab s !! q = None /\ is_network q /\ p_bits q = claim_length (a_claim s) fam /\
    more_specific (rt_Prefix parent) q = true /\ tab s !! rt_Prefix parent = Some (rt_Labels parent) /\
    (forall p, is_Some (tab s !! p) -> more_specific (rt_Prefix parent) p = true -> overlaps q p = false) /\
    ict_Prefix (status (a_claim s')) = Some (Prefix_String (shown_prefix (a_claim s) parent q)) /\
    same_frame s s' /\ a_events s' = a_events s.
Proof.
  intros Hwf Hown Hst Hk Hall Hlen Hsel Hq Hqv Hlt.
  destruct (GetSelectedRoute_elem _ _ _ _ Hsel) as [Hin _].
  pose proof (getRoutesByLabel_elem s parent Hin) as Hparent.
  assert (Hpn : is_network (rt_Prefix parent)) by by apply Hwf. pose proof Hpn as (Hpv&_&_).
  destruct (view_Available _ _ _ _ Hq Hqv Hpv) as (Hqn&Hqb&Hcont&Hfree).
  assert (Hms : more_specific (rt_Prefix parent) q = true).
  { unfold more_specific. rewrite Hcont, bool_decide_eq_true_2 by lia. done. }
  pose proof (fresh_prefix (tab s) _ q Hqv Hms Hfree) as Hnew.
  rewrite Forall_forall in Hall. pose proof (Hall _ Hin) as Hfam. cbn beta in Hfam.
  assert (Hlenq : ics_Kind (spec (a_claim s)) = PrefixKindNetwork -> p_bits q = BitLen (p_addr q)).
  { intros Hn. unfold claim_length in Hqb. destruct (ics_PrefixLength _); [destruct Hlen as [_ Hne]; destruct (Hne Hn)|].
    unfold contains_prefix in Hcont. rewrite !andb_true_iff, !bool_decide_eq_true in Hcont.
    destruct Hcont as [[[_ Hl] _] _]. cbn in Hqb. lia. }
  pose proof (updatePrefixInfo_spec (a_claim s) parent q Hqn Hpv Hcont Hk Hlenq) as Hupd.
  destruct (add_single s (shown_prefix (a_claim s) parent q) q Hqn Hk) as (s'&Hadd&Htab&Hframe&Hev&Hst').
  { unfold shown_prefix. case_bool_decide as Hn; [|reflexivity].
    specialize (Hlenq Hn). apply Prefix_IsValid_spec in Hpv as [_ ?].
    refine (proj2 (proj2 (address_of_subnet q _ Hqn Hlenq _))). lia. }
  exists s'. split.
  - unfold ApplyDynamic. rewrite get_bind, (lift_ok _ _ _ _ Hown), Hst.
    destruct (getRoutesByLabel s) as [|r0 rs] eqn:Hrs; [destruct (not_elem_of_nil parent Hin)|].
    assert (Hl0 : getPrefixLengthFromRoute (a_claim s) r0 = claim_length (a_claim s) fam).
    { unfold getPrefixLengthFromRoute, claim_length.
      destruct (ics_PrefixLength _); [reflexivity|]. exact (Hall r0 ltac:(left)). }
    assert (Hw : wrap uint8 (claim_length (a_claim s) fam) = claim_length (a_claim s) fam).
    { apply (wrap_unsigned uint8). change (it_size uint8) with 256. unfold claim_length in *.
      destruct (ics_PrefixLength _); [exact (proj1 Hlen)|]. cbn [default]. rewrite <-Hfam. apply BitLen_bounds. }
    unfold claim_free_prefix. rewrite get_bind, (lift_ok _ _ _ r0) by reflexivity. rewrite Hl0, Hw, Hsel.
    unfold NewPrefixInfo, GetIPPrefix. rewrite Hq, Hqv. cbn [negb]. rewrite <-Hqb, Hupd. exact Hadd.
  - split_and!; try assumption. rewrite Htab, insert_union_singleton_l. apply map_union_comm.
    apply map_disjoint_singleton_r. exact Hnew.
Qed.

(** C4. A dynamic claim without routes, in a table without host bits, that shows no prefix in
    its status (one that does is granted it even when it is taken, see
    [dynamic_refresh_duplicate]), that is stored as one route (it is not of kind network with
    a prefix to create, which adds the routes of a network), that gives no prefix length when
    it is of kind network, and whose selector matches routes of one address family: when the
    selected route is shorter than the length asked for and has a free prefix of that length,
    the claim succeeds and adds exactly one route. It lies strictly inside the selected
    route, has the length asked for (an address when none is asked for), was not in the
    table, and overlaps no other route inside the selected route. The status shows the
    prefix, for an address of kind network with the length of its subnet. *)
Theorem dynamic_claim_fresh s fam parent q :
  table_wf (tab s) -> getRoutesByOwner s = Ok [] -> ict_Prefix (status (a_claim s)) = None ->
  has_create (a_claim s) = false \/ ics_Kind (spec (a_claim s)) <> PrefixKindNetwork ->
  Forall (fun r => BitLen (p_addr (rt_Prefix r)) = fam) (getRoutesByLabel s) ->
  match ics_PrefixLength (spec (a_claim s)) with
  | Some l => 0 <= l < 256 /\ ics_Kind (spec (a_claim s)) <> PrefixKindNetwork
  | None => True
  end ->
  GetSelectedRouteWithPrefixLength (a_claim s) (getRoutesByLabel s) (claim_length (a_claim s) fam) = Some parent ->
  rib_GetAvailablePrefixByBitLen (rt_Prefix parent) (claim_length (a_claim s) fam) (a_rib s) = q ->
  Prefix_IsValid q = true -> p_bits (rt_Prefix parent) < claim_length (a_claim s) fam ->
  exists s', ApplyDynamic s = (s', Ok tt) /\
    tab s' = <[q := claim_labels (a_claim s) (shown_prefix (a_claim s) parent q)]> (tab s) /\
    tab s !! q = None /\ is_network q /\ p_bits q = claim_length (a_claim s) fam /\
    more_specific (rt_Prefix parent) q = true /\ tab s !! rt_Prefix parent = Some (rt_Labels parent) /\
    (forall p, is_Some (tab s !! p) -> more_specific (rt_Prefix parent) p = true -> overlaps q p = false) /\
    ict_Prefix (status (a_claim s')) = Some (Prefix_String (shown_prefix (a_claim s) parent q)).
Proof.
  intros H1 H2 H3 H4 H5 H6 H7 H8 H9 H10.
  destruct (ApplyDynamic_fresh s fam parent q H1 H2 H3 H4 H5 H6 H7 H8 H9 H10) as (s'&Hr&?&?&?&?&?&?&?&?&_).
  exists s'. split; [exact Hr|]. split_and!; assumption.
Qed.

(** Nothing is more specific than an address. *)
Lemma more_specific_address p q : p_bits p = BitLen (p_addr p) -> more_specific p q = false.
Proof.
  intros Hp. destruct (more_specific p q) eqn:Hm; [|done]. unfold more_specific, contains_prefix in Hm.
  rewrite !andb_true_iff, !bool_decide_eq_true in Hm.
  destruct Hm as [[[[[_ [_ Hv]%Prefix_IsValid_spec] Hl] _] _] Hb]. lia.
Qed.

(** A dynamic claim that comes with an address in its status and has no route
    yet is granted this address although it is in the table for another claim: the
    address counts as free, and the error of adding it again is ignored. The table
    does not change, and two claims hold the address. *)
Theorem dynamic_refresh_duplicate s prefix pi l :
  getRoutesByOwner s = Ok [] -> getRoutesByLabel s <> [] ->
  has_create (a_claim s) = false \/ ics_Kind (spec (a_claim s)) <> PrefixKindNetwork ->
  ict_Prefix (status (a_claim s)) = Some prefix -> iputil_New prefix = Ok pi ->
  Prefix_IsValid pi = true -> addr_ok (p_addr pi) -> p_bits pi = BitLen (p_addr pi) ->
  tab s !! pi = Some l ->
  exists s', ApplyDynamic s = (s', Ok tt) /\ tab s' = tab s /\
    ict_Prefix (status (a_claim s')) = Some (Prefix_String pi).
Proof.
  intros Hown Hlab Hk Hst Hpi Hv Hok Hb Hl. pose proof Hv as [Ha _]%Prefix_IsValid_spec.
  assert (Hn : is_network pi).
  { pose proof (is_network_address (p_addr pi) Ha Hok) as Hn. rewrite <-Hb in Hn. destruct pi. exact Hn. }
  destruct (add_single s pi pi Hn Hk) as (s'&Hadd&Htab&_&_&Hst').
  { case_bool_decide; [|reflexivity]. rewrite GetIPAddressPrefix_valid, <-Hb by exact Hv. by destruct pi. }
  exists s'. split; [|split; [|exact Hst']].
  - unfold ApplyDynamic. rewrite get_bind, (lift_ok _ _ _ _ Hown), Hst.
    destruct (getRoutesByLabel s) as [|r0 rs]; [destruct (Hlab eq_refl)|].
    rewrite (lift_ok _ _ _ _ Hpi). unfold GetIPPrefix, GetPrefixLength.
    rewrite (wrap_unsigned uint8) by (rewrite Hb; apply BitLen_bounds).
    rewrite view_Available_self; [|exact Hv|exact Hok|intros; by apply more_specific_address].
    rewrite Masked_IsValid by exact Hv. exact Hadd.
  - rewrite Htab. apply map_eq. intros p. rewrite lookup_union. destruct (decide (p = pi)) as [->|Hne].
    + by rewrite Hl, union_Some_l.
    + rewrite lookup_singleton_ne by done. by rewrite (right_id None union).
Qed.

(** ** Claims that have routes *)

Lemma getRoutesByOwner_elem s rs r : getRoutesByOwner s = Ok rs -> r ∈ rs ->
  tab s !! rt_Prefix r = Some (rt_Labels r).
Proof.
  unfold getRoutesByOwner. destruct (IPClaim_GetOwnerSelector _) as [sel|e|]; [|done..].
  cbn [mbind result_bind]. destruct (_ && _); [done|]. intros [= <-]. by intros [? _]%view_GetByLabel.
Qed.

Lemma GetUpdatedLabels_spec r s : exists ls pi,
  GetUpdatedLabels r s =
  (MkApplicator (a_initializing s) (a_claim s) (a_rib s) pi (a_watcher s) (a_events s), Ok ls) /\
  (ics_Kind (spec (a_claim s)) <> PrefixKindNetwork -> pi = a_pi s).
Proof.
  destruct s as [ini claim rib pi w ev]. unfold GetUpdatedLabels. rewrite get_bind.
  cbn [a_claim a_rib]. destruct (bool_decide_reflect (ics_Kind (spec claim) = PrefixKindNetwork)) as [Hk|Hk].
  - destruct (IsAddressPrefix _); [destruct (rib_Parents _ _)|]; eexists _, _; (split; [reflexivity|done]).
  - eexists _, _. split; [reflexivity|done].
Qed.

(** One route of a claim that does not create a prefix is updated in place. *)
Lemma update_route_spec s r : table_wf (tab s) -> tab s !! rt_Prefix r = Some (rt_Labels r) ->
  has_create (a_claim s) = false ->
  exists s' l, update_route r s = (s', Ok tt) /\ tab s' = <[rt_Prefix r := l]> (tab s) /\
    a_claim s' = a_claim s /\ a_events s' = a_events s /\ a_initializing s' = a_initializing s /\
    (ics_Kind (spec (a_claim s)) <> PrefixKindNetwork -> a_pi s' = a_pi s).
Proof.
  intros Hwf Hr Hc. unfold has_create in Hc. destruct (ics_CreatePrefix _) eqn:Hcp; [done|].
  unfold update_route. destruct (GetUpdatedLabels_spec r s) as (ls&pi&Hg&Hpi).
  unfold mbind, M_bind. rewrite Hg. case_bool_decide as He.
  - eexists _, (rt_Labels r). split; [reflexivity|]. unfold tab in *. cbn. rewrite insert_id by done. by split_and!.
  - unfold unless_exists, on_rib. cbn [a_rib].
    destruct (view_Set (UpdateLabel ls r) (a_rib s)) as (rib&->&Hv).
    { rewrite view_UpdateLabel. apply Hwf. by rewrite Hr. }
    { rewrite view_UpdateLabel. unfold tab in Hr. by rewrite Hr. }
    unfold get_state, set_rib. cbn [a_pi a_claim]. rewrite Hcp. rewrite view_UpdateLabel in Hv.
    eexists _, _. split; [by destruct pi|]. unfold tab. cbn. rewrite Hv. by split_and!.
Qed.

(** C24. A dynamic claim that has its route already keeps it: the claim succeeds, the
    prefixes of the table are the same and only the labels of the route of the claim
    may change, nobody is notified, and for the kinds other than network the status
    shows the prefix of the route. *)
Theorem dynamic_claim_stable s r :
  table_wf (tab s) -> getRoutesByOwner s = Ok [r] -> has_create (a_claim s) = false ->
  exists s' l, ApplyDynamic s = (s', Ok tt) /\ tab s' = <[rt_Prefix r := l]> (tab s) /\
    dom (tab s') = dom (tab s) /\ a_events s' = a_events s /\
    (ics_Kind (spec (a_claim s)) <> PrefixKindNetwork ->
     ict_Prefix (status (a_claim s')) = Some (Prefix_String (rt_Prefix r))).
Proof.
  intros Hwf Hown Hc.
  pose proof (getRoutesByOwner_elem s _ r Hown ltac:(left)) as Hr.
  destruct (update_route_spec s r Hwf Hr Hc) as (s1&l&Hu&Htab&Hcl&Hev&Hin&Hpi).
  assert (Hdom : dom (tab s1) = dom (tab s)).
  { rewrite Htab. apply dom_insert_lookup_L. by rewrite Hr. }
  unfold ApplyDynamic. rewrite get_bind, (lift_ok _ _ _ _ Hown). clear Hown.
  unfold updateRib. cbn [forM]. unfold mbind, M_bind. rewrite Hu.
  change (index [r] 0) with (Ok r). cbn -[bool_decide].
  rewrite Hcl. unfold has_create in Hc. destruct (ics_CreatePrefix (spec (a_claim s))) eqn:Hcp; [done|].
  case_bool_decide as Hk; cbn [a_claim spec set_Prefix with_status]; rewrite ?Hcp.
  - eexists _, l. split; [reflexivity|]. split_and!; [exact Htab|exact Hdom|exact Hev|done].
  - eexists _, l. split; [reflexivity|]. split_and!; [exact Htab|exact Hdom|exact Hev|done].
Qed.

(** C34. A claim for a prefix that is in the table makes the backend panic when no
    route has the owner labels of the claim: the list of its routes is empty, and
    its first element is read. This is reached after validation: the address of a
    network claim is only looked up in the table when its subnet is in it. *)
Theorem ApplyPrefix_panics s pi l :
  a_pi s = Some pi -> Prefix_IsValid pi = true -> addr_ok (p_addr pi) ->
  ics_Kind (spec (a_claim s)) = PrefixKindNetwork -> has_create (a_claim s) = false ->
  tab s !! GetIPAddressPrefix pi = Some l -> getRoutesByOwner s = Ok [] ->
  (ApplyPrefix s).2 = Panic.
Proof.
  intros Hpi Hv Hok Hk Hc Hl Hown. unfold has_create in Hc.
  destruct (ics_CreatePrefix (spec (a_claim s))) eqn:Hcp; [discriminate Hc|].
  unfold ApplyPrefix. rewrite get_bind, (lift_ok _ _ _ pi) by (rewrite Hpi; reflexivity).
  rewrite bool_decide_eq_true_2, Hcp by exact Hk. rewrite view_Get by (apply GetIPAddressPrefix_network; assumption).
  unfold tab in Hl. rewrite Hl. cbn [fmap option_fmap option_map].
  rewrite (lift_ok _ _ _ _ Hown). reflexivity.
Qed.

(** ** Deletion *)

Lemma lists_routes_prefixes (m : gmap Prefix labels) P rs : lists_routes m P rs -> NoDup (rt_Prefix <$> rs).
Proof.
  intros [Hnd Hrs]. apply NoDup_fmap_2_strong; [|done].
  intros x y [Hx _]%Hrs [Hy _]%Hrs He. rewrite He in Hx. destruct x, y; cbn in *. congruence.
Qed.

Lemma delete_list_spec rs s : table_wf (tab s) -> NoDup (rt_Prefix <$> rs) ->
  Forall (fun r => is_Some (tab s !! rt_Prefix r)) rs ->
  exists rib, forM rs (fun c => log_error (on_rib (rib_Delete c))) s = (set_rib rib s, Ok tt) /\
    forall p l, view rib !! p = Some l <-> tab s !! p = Some l /\ p ∉ rt_Prefix <$> rs.
Proof.
  revert s. induction rs as [|r rs IH]; intros s Hwf Hnd Hall.
  - exists (a_rib s). rewrite set_rib_id. split; [done|]. intros p l. unfold tab.
    split; [|tauto]. intros Hp. split; [done|]. apply not_elem_of_nil.
  - apply Forall_cons in Hall as [Hr Hall]. cbn in Hnd. apply NoDup_cons in Hnd as [Hnin Hnd].
    destruct (view_Delete r (a_rib s)) as (rib&Hd&Hv); [by apply Hwf|done|].
    destruct (IH (set_rib rib s)) as (rib'&Hf&Hv').
    + intros p Hp. apply Hwf. unfold tab in *. cbn in Hp. rewrite Hv in Hp.
      apply lookup_delete_is_Some in Hp as [_ Hp]. done.
    + done.
    + apply Forall_forall. intros x Hx. unfold tab. cbn. rewrite Hv.
      rewrite lookup_delete_ne; [by eapply Forall_forall in Hall|].
      intros He. apply Hnin. apply list_elem_of_fmap. by exists x.
    + exists rib'. split.
      * cbn [forM]. unfold mbind, M_bind, log_error at 1, on_rib at 1. rewrite Hd. cbn. rewrite Hf. by destruct s.
      * intros p l. rewrite Hv'. unfold tab. cbn. rewrite Hv, lookup_delete_Some, not_elem_of_cons.
        intuition congruence.
Qed.

(** Deleting the route [r] of [claim] deletes the route [c] inside it too: the table is not
    being restored, the claim created a prefix, [r] is not an address, and the name of the
    claim in the labels of [c] is not the one in the full labels of [claim]. *)
Definition cut_by (initializing : bool) (claim : IPClaim) (r c : Route) : Prop :=
  initializing = false /\ has_create claim = true /\ IsAddressPrefix (rt_Prefix r) = false /\
  more_specific (rt_Prefix r) (rt_Prefix c) = true /\ other_nsn claim c = true.

#[local] Instance cut_by_dec ini claim r c : Decision (cut_by ini claim r c).
Proof. unfold cut_by. apply _. Defined.

(** Of a list of routes, none is deleted with one that comes before it. *)
Definition apart (initializing : bool) (claim : IPClaim) (rs : list Route) : Prop :=
  ForallOrdPairs (fun r c => ~ cut_by initializing claim r c) rs.

Definition cuts s (r : Route) : bool :=
  negb (a_initializing s) && negb (IsAddressPrefix (NewPrefixInfo (rt_Prefix r))) && has_create (a_claim s).

Lemma cut_by_cuts s r c : cut_by (a_initializing s) (a_claim s) r c <->
  cuts s r = true /\ more_specific (rt_Prefix r) (rt_Prefix c) = true /\ other_nsn (a_claim s) c = true.
Proof. unfold cut_by, cuts, NewPrefixInfo. rewrite !andb_true_iff, !negb_true_iff. tauto. Qed.

Definition survives s (r : Route) (p : Prefix) (l : labels) : Prop :=
  p <> rt_Prefix r /\ ~ cut_by (a_initializing s) (a_claim s) r (NewRoute p l).

Definition same_context s s' : Prop :=
  a_claim s' = a_claim s /\ a_initializing s' = a_initializing s /\ a_watcher s' = a_watcher s.

Lemma delete_children_spec r s : table_wf (tab s) ->
  exists s', delete_children r s = (s', Ok tt) /\ same_context s s' /\
    forall p l, tab s' !! p = Some l <-> tab s !! p = Some l /\
      ~ (more_specific (rt_Prefix r) p = true /\ other_nsn (a_claim s) (NewRoute p l) = true).
Proof.
  intros Hwf. unfold delete_children. rewrite get_bind.
  pose proof (view_Children r (a_rib s)) as [Hnd Hch].
  set (cs := filter _ _).
  assert (Hcs : lists_routes (tab s) (fun c => more_specific (rt_Prefix r) (rt_Prefix c) = true /\
    other_nsn (a_claim s) c = true) cs).
  { split; [by apply NoDup_filter|]. intros c. unfold cs. rewrite list_elem_of_filter, Hch. unfold tab. tauto. }
  destruct (delete_list_spec cs s Hwf) as (rib&Hf&Hv).
  - by eapply lists_routes_prefixes.
  - apply Forall_forall. intros c Hc. destruct Hcs as [_ Hcs]. apply Hcs in Hc as [Hc _]. by rewrite Hc.
  - unfold mbind, M_bind. rewrite Hf. eexists. split; [reflexivity|]. split; [done|].
    intros p l. unfold tab at 1. cbn. rewrite Hv. apply and_iff_compat_l_strong. intros Hp.
    destruct Hcs as [_ Hcs]. rewrite list_elem_of_fmap. split.
    + intros Hnot [Hm Ho]. apply Hnot. exists (NewRoute p l). split; [done|]. by apply Hcs.
    + intros Hnot (c&->&Hc). apply Hcs in Hc as [Hcl [Hm Ho]]. apply Hnot. split; [done|].
      assert (l = rt_Labels c) as -> by congruence. by destruct c.
Qed.

(** The routes inside [r] that are deleted before [r] itself. *)
Lemma delete_cut_spec r s : table_wf (tab s) ->
  exists s1, (if cuts s r then delete_children r else mret tt) s = (s1, Ok tt) /\ same_context s s1 /\
    forall p l, tab s1 !! p = Some l <-> tab s !! p = Some l /\ ~ cut_by (a_initializing s) (a_claim s) r (NewRoute p l).
Proof.
  intros Hwf. setoid_rewrite cut_by_cuts. destruct (cuts s r).
  - destruct (delete_children_spec r s Hwf) as (s1&H1&Hctx&Ht). exists s1. split; [done|]. split; [done|].
    intros p l. rewrite Ht. cbn [rt_Prefix]. intuition.
  - exists s. split; [done|]. split; [done|]. intros p l. intuition congruence.
Qed.

Lemma delete_route_spec r s : table_wf (tab s) -> is_Some (tab s !! rt_Prefix r) ->
  exists s', delete_route r s = (s', Ok tt) /\ same_context s s' /\
    forall p l, tab s' !! p = Some l <-> tab s !! p = Some l /\ survives s r p l.
Proof.
  intros Hwf [lr Hr]. destruct (delete_cut_spec r s Hwf) as (s1&H1&(Hcl&Hin&Hw)&Ht1).
  destruct (view_Delete r (a_rib s1)) as (rib&Hd&Hv).
  - apply Hwf. by rewrite Hr.
  - exists lr. apply Ht1. split; [done|]. intros (_&_&_&Hms&_). cbn [rt_Prefix] in Hms. by rewrite more_specific_irrefl in Hms.
  - unfold delete_route. rewrite get_bind. fold (cuts s r). unfold mbind, M_bind. rewrite H1.
    unfold on_rib. rewrite Hd. unfold get_state. cbn [a_initializing set_rib].
    destruct (negb (a_initializing s1)).
    all: eexists; split; [reflexivity|]; split; [done|]; intros p l; unfold tab at 1; cbn; rewrite Hv;
      rewrite lookup_delete_Some; fold (tab s1); rewrite Ht1; unfold survives; intuition congruence.
Qed.

Lemma survives_context s s' r p l : same_context s s' -> survives s' r p l <-> survives s r p l.
Proof. intros (Hcl&Hin&_). unfold survives. by rewrite Hcl, Hin. Qed.

Lemma same_context_trans s1 s2 s3 : same_context s1 s2 -> same_context s2 s3 -> same_context s1 s3.
Proof. intros (?&?&?) (?&?&?). split_and!; congruence. Qed.

Lemma delete_step_wf s s' r : table_wf (tab s) ->
  (forall p l, tab s' !! p = Some l <-> tab s !! p = Some l /\ survives s r p l) -> table_wf (tab s').
Proof. intros Hwf Ht p [l Hl]. apply Ht in Hl as [Hl _]. apply Hwf. by rewrite Hl. Qed.

(** The routes of a claim are deleted one by one. *)
Lemma delete_routes_spec rs s : table_wf (tab s) -> NoDup (rt_Prefix <$> rs) -> apart (a_initializing s) (a_claim s) rs ->
  Forall (fun r => tab s !! rt_Prefix r = Some (rt_Labels r)) rs ->
  exists s', forM rs delete_route s = (s', Ok tt) /\ same_context s s' /\
    forall p l, tab s' !! p = Some l <-> tab s !! p = Some l /\ Forall (fun r => survives s r p l) rs.
Proof.
  revert s. induction rs as [|r rs IH]; intros s Hwf Hnd Hap Hall.
  - exists s. split; [done|]. split; [done|]. intros p l. rewrite Forall_nil. tauto.
  - apply Forall_cons in Hall as [Hr Hall]. cbn in Hnd. apply NoDup_cons in Hnd as [Hnin Hnd].
    inversion_clear Hap as [|? ? Hcut Hap'].
    destruct (delete_route_spec r s Hwf) as (s1&H1&Hctx&Ht1); [by rewrite Hr|].
    destruct (IH s1) as (s2&H2&Hctx2&Ht2); [by eapply delete_step_wf|done|by destruct Hctx as (->&->&_)| |].
    + rewrite Forall_forall in Hall, Hcut |- *. intros x Hx. apply Ht1. split; [by apply Hall|]. split.
      * intros He. apply Hnin. apply list_elem_of_fmap. by exists x.
      * destruct x. by apply Hcut.
    + exists s2. split; [cbn [forM]; unfold mbind, M_bind; by rewrite H1|].
      split; [by eapply same_context_trans|]. intros p l. rewrite Ht2, Ht1, Forall_cons.
      assert (Forall (fun r => survives s1 r p l) rs <-> Forall (fun r => survives s r p l) rs) as ->.
      { apply Forall_iff. intros x. by apply survives_context. }
      tauto.
Qed.

(** *** A route that is gone before it is deleted *)

(** The table reports the deletion of a route it does not have. *)
Definition reports_missing : Prop := forall rt rib, view rib !! rt_Prefix rt = None -> exists rib' e, rib_Delete rt rib = (rib', Err e).

Lemma delete_route_missing r s : reports_missing -> table_wf (tab s) -> tab s !! rt_Prefix r = None ->
  exists s' e, delete_route r s = (s', Err e).
Proof.
  intros Hmiss Hwf Hr. destruct (delete_cut_spec r s Hwf) as (s1&H1&_&Ht1).
  destruct (Hmiss r (a_rib s1)) as (rib&e&Hd).
  { apply eq_None_not_Some. intros [l [Hl _]%Ht1]. congruence. }
  unfold delete_route. rewrite get_bind. fold (cuts s r). unfold mbind, M_bind. rewrite H1.
  unfold on_rib. rewrite Hd. by eexists _, e.
Qed.

Lemma delete_routes_missing rs s : reports_missing -> table_wf (tab s) ->
  Exists (fun r => tab s !! rt_Prefix r = None) rs -> exists s' e, forM rs delete_route s = (s', Err e).
Proof.
  intros Hmiss. revert s. induction rs as [|r rs IH]; intros s Hwf Hex; [by apply Exists_nil in Hex|].
  cbn [forM]. unfold mbind, M_bind. destruct (tab s !! rt_Prefix r) as [l|] eqn:Hr.
  - destruct (delete_route_spec r s Hwf) as (s1&H1&_&Ht1); [by rewrite Hr|]. rewrite H1.
    apply IH; [by eapply delete_step_wf|]. apply Exists_cons in Hex as [Hex|Hex]; [congruence|].
    eapply Exists_impl; [exact Hex|]. intros c Hc. apply eq_None_not_Some. intros [l' [Hl' _]%Ht1]. congruence.
  - destruct (delete_route_missing r s Hmiss Hwf Hr) as (s'&e&->). by eexists _, e.
Qed.

Lemma delete_routes_fail rs s : reports_missing -> table_wf (tab s) -> NoDup (rt_Prefix <$> rs) -> ~ apart (a_initializing s) (a_claim s) rs ->
  Forall (fun r => tab s !! rt_Prefix r = Some (rt_Labels r)) rs -> exists s' e, forM rs delete_route s = (s', Err e).
Proof.
  intros Hmiss. revert s. induction rs as [|r rs IH]; intros s Hwf Hnd Hap Hall; [by destruct Hap; constructor|].
  apply Forall_cons in Hall as [Hr Hall]. cbn in Hnd. apply NoDup_cons in Hnd as [Hnin Hnd].
  destruct (delete_route_spec r s Hwf) as (s1&H1&Hctx&Ht1); [by rewrite Hr|].
  pose proof (delete_step_wf _ _ _ Hwf Ht1) as Hwf1. cbn [forM]. unfold mbind, M_bind. rewrite H1.
  destruct (decide (Exists (fun c => cut_by (a_initializing s) (a_claim s) r c) rs)) as [Hex|Hno%not_Exists_Forall]; [| |apply _].
  - apply delete_routes_missing; [done|done|]. apply Exists_exists in Hex as (c&Hc&Hcut). apply Exists_exists. exists c. split; [done|].
    apply eq_None_not_Some. rewrite Forall_forall in Hall. intros [l [Hl [_ Hs]]%Ht1]. rewrite (Hall c Hc) in Hl. injection Hl as <-.
    apply Hs. by destruct c.
  - apply IH; [done|done| |].
    + intros Hap'. apply Hap. constructor; [exact Hno|]. by destruct Hctx as (<-&<-&_).
    + rewrite Forall_forall in Hall, Hno |- *. intros x Hx. apply Ht1. split; [by apply Hall|]. split.
      * intros He. apply Hnin. apply list_elem_of_fmap. by exists x.
      * destruct x. by apply Hno.
Qed.

Context `{!LabelsLaws L}.

(** The selector of a claim does not name the claim it belongs to. *)
Definition plain_selector (claim : IPClaim) : Prop :=
  IPClaim_GetSelectorLabels claim !! NephioNsnNameKey = None /\
  IPClaim_GetSelectorLabels claim !! NephioNsnNamespaceKey = None.

Lemma owned_nsn claim sel r : IPClaim_GetOwnerSelector claim = Ok sel -> plain_selector claim ->
  Matches sel (rt_Labels r) = true -> other_nsn claim r = false.
Proof.
  intros Hs [Hn Hns] Hm. rewrite (selector_of_labels_matches _ _ _ Hs), bool_decide_eq_true in Hm.
  apply owner_labels_subseteq_iff in Hm as [_ Ho].
  assert (Hk : forall k, k ∈ owner_keys -> IPClaim_GetSelectorLabels claim !! k = None ->
    label_get (rt_Labels r) k = label_get (IPClaim_GetFullLabels claim) k).
  { intros k Hk Hnone. pose proof (proj2 (owner_labels_lookup (rt_Labels r) k _) (conj Hk eq_refl)) as Hl.
    rewrite <-Ho in Hl. apply owner_labels_lookup in Hl as [_ Hl]. rewrite Hl.
    unfold IPClaim_GetFullLabels, GetFullLabels. unfold label_get at 2.
    rewrite lookup_union_r by exact Hnone. reflexivity. }
  pose proof (Hk NephioNsnNameKey ltac:(left) Hn) as H1.
  pose proof (Hk NephioNsnNamespaceKey ltac:(right; left) Hns) as H2. clear Hk Ho Hs.
  unfold other_nsn. apply bool_decide_eq_false. tauto.
Qed.

(** *** When the routes of a claim are apart *)

Lemma apart_intro ini claim rs : (forall r c, r ∈ rs -> c ∈ rs -> ~ cut_by ini claim r c) -> apart ini claim rs.
Proof.
  induction rs as [|r rs IH]; intros H; constructor.
  - apply Forall_forall. intros c Hc. apply H; [left|by right].
  - apply IH. intros x c Hx Hc. apply H; by right.
Qed.

(** Claims that created no prefix. *)
Lemma apart_no_create ini claim rs : has_create claim = false -> apart ini claim rs.
Proof. intros Hc. apply apart_intro. intros r c _ _ (_&H&_). congruence. Qed.

(** Claims whose selector does not name a claim. *)
Lemma apart_plain ini claim sel rib : IPClaim_GetOwnerSelector claim = Ok sel -> plain_selector claim ->
  apart ini claim (rib_GetByLabel sel rib).
Proof.
  intros Hs Hp. apply apart_intro. intros r c _ [_ Hm]%view_GetByLabel (_&_&_&_&Ho). by rewrite (owned_nsn _ _ _ Hs Hp Hm) in Ho.
Qed.

(** Claims with one route. *)
Lemma apart_single ini claim sel rib q : (forall p l, view rib !! p = Some l -> Matches sel l = true -> p = q) ->
  apart ini claim (rib_GetByLabel sel rib).
Proof.
  intros Hq. apply apart_intro. intros r c [Hr Hmr]%view_GetByLabel [Hc Hmc]%view_GetByLabel (_&_&_&Hms&_).
  rewrite (Hq _ _ Hr Hmr), (Hq _ _ Hc Hmc), more_specific_irrefl in Hms. done.
Qed.

(** ** The release of a claim *)

Lemma owner_routes sel s : let rs := rib_GetByLabel sel (a_rib s) in
  NoDup (rt_Prefix <$> rs) /\ Forall (fun r => tab s !! rt_Prefix r = Some (rt_Labels r)) rs.
Proof.
  pose proof (view_GetByLabel sel (a_rib s)) as Hl. split; [by eapply lists_routes_prefixes|].
  apply Forall_forall. by intros r [Hr _]%(proj2 Hl).
Qed.

Lemma Delete_routes s sel : IPClaim_GetOwnerSelector (a_claim s) = Ok sel ->
  apart (a_initializing s) (a_claim s) (rib_GetByLabel sel (a_rib s)) -> table_wf (tab s) ->
  exists s', Delete s = (s', Ok tt) /\ same_context s s' /\
    forall p l, tab s' !! p = Some l <-> tab s !! p = Some l /\
      Forall (fun r => survives s r p l) (rib_GetByLabel sel (a_rib s)).
Proof.
  intros Hs Hap Hwf. destruct (owner_routes sel s) as [Hnd Hall].
  destruct (delete_routes_spec (rib_GetByLabel sel (a_rib s)) s Hwf Hnd Hap Hall) as (s'&Hd&Hctx&Ht).
  exists s'. split; [|exact (conj Hctx Ht)]. unfold Delete. rewrite get_bind, (lift_ok _ _ _ _ Hs). exact Hd.
Qed.

(** The table after the release of a claim: without its routes and, when the claim
    created a prefix, without the routes of other claims inside its prefixes. *)
Definition after_release (initializing : bool) (claim : IPClaim) sel (m m' : gmap Prefix labels) : Prop :=
  forall p l, m' !! p = Some l <->
    m !! p = Some l /\ Matches sel l = false /\
    ~ (exists p' l', m !! p' = Some l' /\ Matches sel l' = true /\ cut_by initializing claim (NewRoute p' l') (NewRoute p l)).

Lemma Delete_spec s sel : IPClaim_GetOwnerSelector (a_claim s) = Ok sel ->
  apart (a_initializing s) (a_claim s) (rib_GetByLabel sel (a_rib s)) -> table_wf (tab s) ->
  exists s', Delete s = (s', Ok tt) /\ same_context s s' /\ after_release (a_initializing s) (a_claim s) sel (tab s) (tab s').
Proof.
  intros Hs Hap Hwf. destruct (Delete_routes s sel Hs Hap Hwf) as (s'&Hd&Hctx&Ht). clear Hs Hap.
  exists s'. split; [exact Hd|]. split; [exact Hctx|]. clear Hd Hctx. intros p l. rewrite Ht. apply and_iff_compat_l_strong. intros Hl.
  pose proof (view_GetByLabel sel (a_rib s)) as [_ Hown]. rewrite Forall_forall. split.
  - intros Hall. split.
    + destruct (Matches sel l) eqn:Hm; [|done]. destruct (Hall (NewRoute p l)) as [Hne _]; [|done]. by apply Hown.
    + intros (p'&l'&Hl'&Hm'&Hcut). destruct (Hall (NewRoute p' l')) as [_ Hn]; [by apply Hown|]. by apply Hn.
  - intros [Hm Hn] r [Hr Hmr]%Hown. split; [intros ->; unfold tab in Hl; congruence|].
    intros Hcut. apply Hn. exists (rt_Prefix r), (rt_Labels r). split_and!; [done..|]. by destruct r.
Qed.

Lemma after_release_wf ini claim sel m m' : after_release ini claim sel m m' -> table_wf m -> table_wf m'.
Proof. intros Hm Hwf p [l [Hl _]%Hm]. apply Hwf. by rewrite Hl. Qed.

(** A table to which a claim without routes added one route, after its release. *)
Lemma after_release_added ini claim sel q lq m m' : after_release ini claim sel (<[q := lq]> m) m' -> m !! q = None ->
  Matches sel lq = true -> (forall p l, m !! p = Some l -> Matches sel l = false) ->
  forall p l, m' !! p = Some l <-> m !! p = Some l /\ ~ cut_by ini claim (NewRoute q lq) (NewRoute p l).
Proof.
  intros Hm Hq Hmq Hfree p l. rewrite (Hm p l), lookup_insert_Some. split.
  - intros ([[<- <-]|[_ Hl]]&Hno&Hn); [congruence|]. split; [done|]. intros Hcut. apply Hn. exists q, lq.
    by rewrite lookup_insert_eq.
  - intros [Hl Hn]. split; [right; split; [intros ->; congruence|done]|]. split; [by eapply Hfree|].
    intros (p'&l'&[[<- <-]|[_ Hl']]%lookup_insert_Some&Hml&Hcut); [done|by rewrite (Hfree _ _ Hl') in Hml].
Qed.

Lemma after_release_single ini claim sel q lq m m' : after_release ini claim sel (<[q := lq]> m) m' -> m !! q = None ->
  Matches sel lq = true -> (forall p l, m !! p = Some l -> Matches sel l = false) ->
  has_create claim = false \/ (forall p, is_Some (m !! p) -> more_specific q p = false) -> m' = m.
Proof.
  intros Hm Hq Hmq Hfree Hin. apply map_eq. intros p. apply option_eq. intros l.
  rewrite (after_release_added _ _ _ _ _ _ _ Hm Hq Hmq Hfree p l). split; [by intros [? _]|]. intros Hl. split; [done|].
  intros (_&Hc&_&Hms&_). cbn [rt_Prefix] in Hms. destruct Hin as [Hc'|Hin]; [congruence|]. rewrite Hin in Hms by by exists l. done.
Qed.

(** C19. The release of a claim, whatever its selector, in a table without host bits
    ([ipam_tables_typed] says when the backend only reaches such tables). It succeeds when no route of the
    claim is deleted with another one that the table lists before it, and then removes
    exactly the routes of the claim and, when the claim created a prefix and the table is not
    being restored, the routes inside its prefixes that count as those of other claims. Every
    other route is kept with its labels. Otherwise it fails, if the table reports the
    deletion of a route it does not have: a route of the claim is gone before it is deleted
    itself. A route counts as that of another claim when its labels for the name and the
    namespace of the claim differ from the full labels of the claim; as the selector comes
    first in these, the own routes of a claim count when its selector names another claim,
    so a claim that created a network prefix through such a selector can fail to be
    released. The routes are never in each other's way when the claim created no prefix, has
    one route, or has a selector that does not name a claim. *)
Theorem Delete_exact s sel :
  IPClaim_GetOwnerSelector (a_claim s) = Ok sel -> table_wf (tab s) ->
  let rs := rib_GetByLabel sel (a_rib s) in
  (apart (a_initializing s) (a_claim s) rs ->
    exists s', Delete s = (s', Ok tt) /\
      forall p l, tab s' !! p = Some l <->
        tab s !! p = Some l /\ Matches sel l = false /\
        ~ (exists p' l', tab s !! p' = Some l' /\ Matches sel l' = true /\
             cut_by (a_initializing s) (a_claim s) (NewRoute p' l') (NewRoute p l))) /\
  (~ apart (a_initializing s) (a_claim s) rs -> reports_missing -> exists s' e, Delete s = (s', Err e)) /\
  (has_create (a_claim s) = false \/ length rs = 1%nat \/ plain_selector (a_claim s) -> apart (a_initializing s) (a_claim s) rs).
Proof.
  intros Hs Hwf rs. split; [|split].
  - intros Hap. destruct (Delete_spec s sel Hs Hap Hwf) as (s'&Hd&_&Hm). exists s'. split; [exact Hd|exact Hm].
  - intros Hap Hmiss. destruct (owner_routes sel s) as [Hnd Hall].
    unfold Delete. rewrite get_bind, (lift_ok _ _ _ _ Hs). by apply delete_routes_fail.
  - intros [Hc|[Hlen|Hp]]; [by apply apart_no_create| |by apply apart_plain].
    unfold rs in *. destruct (rib_GetByLabel sel (a_rib s)) as [|r [|]]; [done| |done]. repeat constructor.
Qed.

(** The routes of a claim are found by its owner selector. *)
Lemma claim_labels_owner claim pi sel : IPClaim_GetOwnerSelector claim = Ok sel ->
  owned (IPClaim_GetUserDefinedLabels claim) -> Matches sel (claim_labels claim pi) = true.
Proof.
  intros Hs Ho. rewrite (selector_of_labels_matches _ _ _ Hs), bool_decide_eq_true. clear Hs.
  apply map_subseteq_spec. intros k v Hk.
  pose proof (proj1 (map_subseteq_spec _ _) (owner_labels_subseteq _ Ho) k v Hk) as Hv.
  apply owner_labels_lookup in Hk as [Hk _]. unfold claim_labels.
  rewrite !lookup_insert_ne; [exact Hv|..]; intros <-; revert Hk; apply (bool_decide_unpack _); by vm_compute.
Qed.

Lemma owner_selector_spec claim claim' : spec claim' = spec claim ->
  IPClaim_GetOwnerSelector claim' = IPClaim_GetOwnerSelector claim.
Proof. intros Hs. unfold IPClaim_GetOwnerSelector. by rewrite Hs. Qed.

(** The release of a claim with the single route [q]. *)
Lemma Delete_single s sel q lq m : IPClaim_GetOwnerSelector (a_claim s) = Ok sel ->
  tab s = <[q := lq]> m -> m !! q = None -> is_network q -> table_wf m ->
  Matches sel lq = true -> (forall p l, m !! p = Some l -> Matches sel l = false) ->
  exists s', Delete s = (s', Ok tt) /\ after_release (a_initializing s) (a_claim s) sel (<[q := lq]> m) (tab s').
Proof.
  intros Hs Htab Hq Hn Hwf Hm Hfree. destruct (Delete_spec s sel Hs) as (s'&Hd&_&Hrel).
  - apply (apart_single _ _ _ _ q). intros p l Hl Hml. unfold tab in Htab. rewrite Htab in Hl.
    apply lookup_insert_Some in Hl as [[<- _]|[_ Hl]]; [done|]. by rewrite (Hfree _ _ Hl) in Hml.
  - rewrite Htab. intros p [l [[<- _]|[_ Hl]]%lookup_insert_Some]; [exact Hn|]. apply Hwf. by rewrite Hl.
  - exists s'. split; [exact Hd|]. by rewrite <-Htab.
Qed.

(** C20. A claim with a given prefix that is stored as one route (that is, it is not of kind
    network or creates no prefix), by a claim that carries its owner labels and has no routes,
    in a table without host bits, when the route has no host bits and is not in the table: it
    adds exactly this route, with labels that name the
    claim. Releasing the claim afterwards succeeds, whatever its selector, and leaves the
    table as it was before the claim but for the routes of other claims inside the prefix,
    which go with it when the claim created the prefix and the table is not being restored.
    The table is as it was when the claim created no prefix or no route is inside it. *)
Theorem prefix_claim_release s pi q sel :
  a_pi s = Some pi -> has_create (a_claim s) = false \/ ics_Kind (spec (a_claim s)) <> PrefixKindNetwork ->
  (if bool_decide (ics_Kind (spec (a_claim s)) = PrefixKindNetwork) then GetIPAddressPrefix pi else pi) = q ->
  is_network q -> table_wf (tab s) -> tab s !! q = None ->
  IPClaim_GetOwnerSelector (a_claim s) = Ok sel -> owned (IPClaim_GetUserDefinedLabels (a_claim s)) ->
  (forall p l, tab s !! p = Some l -> Matches sel l = false) ->
  let lq := claim_labels (a_claim s) pi in
  exists s1, ApplyPrefix s = (s1, Ok tt) /\
    tab s1 = <[q := lq]> (tab s) /\
    ict_Prefix (status (a_claim s1)) = Some (Prefix_String pi) /\
    exists s2, Delete (NewApplicator (a_initializing s) (a_claim s1) (a_rib s1) None (a_watcher s)) = (s2, Ok tt) /\
      (forall p l, tab s2 !! p = Some l <->
        tab s !! p = Some l /\ ~ cut_by (a_initializing s) (a_claim s) (NewRoute q lq) (NewRoute p l)) /\
      (has_create (a_claim s) = false \/ (forall p, is_Some (tab s !! p) -> more_specific q p = false) -> tab s2 = tab s).
Proof.
  intros Hpi Hk Hq Hn Hwf Hnone Hs Ho Hfree lq.
  destruct (add_single s pi q Hn Hk Hq) as (s1&Hadd&Htab&(_&Hspec&_)&_&Hst).
  assert (Hself : with_pi pi s = s) by (destruct s; cbn in Hpi; by rewrite Hpi).
  assert (Htab1 : tab s1 = <[q := lq]> (tab s)).
  { rewrite Htab, insert_union_singleton_l. apply map_union_comm. by apply map_disjoint_singleton_r. }
  exists s1. split; [|split; [exact Htab1|split; [exact Hst|]]].
  - rewrite Hself in Hadd. unfold ApplyPrefix. rewrite get_bind, (lift_ok _ _ _ pi) by (rewrite Hpi; reflexivity).
    unfold has_create in Hk. clear Hs. unfold tab in Hnone. case_bool_decide as Hkind; subst q.
    + destruct (ics_CreatePrefix _); [by destruct Hk|]. rewrite view_Get, Hnone by exact Hn. exact Hadd.
    + unfold GetIPPrefix. rewrite view_Get, Hnone by exact Hn. exact Hadd.
  - pose proof (claim_labels_owner (a_claim s) pi sel Hs Ho) as Hmq. fold lq in Hmq.
    destruct (Delete_single (NewApplicator (a_initializing s) (a_claim s1) (a_rib s1) None (a_watcher s)) sel q lq (tab s)) as (s2&Hd&Hrel);
      cbn [a_claim a_initializing NewApplicator] in *; [rewrite (owner_selector_spec _ _ Hspec); exact Hs|assumption..|].
    assert (Hcut : forall r c, cut_by (a_initializing s) (a_claim s1) r c <-> cut_by (a_initializing s) (a_claim s) r c)
      by (intros; unfold cut_by, has_create, other_nsn, IPClaim_GetFullLabels; by rewrite Hspec).
    exists s2. split; [exact Hd|]. split.
    + intros p l. rewrite (after_release_added _ _ _ _ _ _ _ Hrel Hnone Hmq Hfree p l). by rewrite Hcut.
    + intros Hin. apply (after_release_single _ _ _ _ _ _ _ Hrel Hnone Hmq Hfree). unfold has_create in *. by rewrite Hspec.
Qed.

End Claims.
