(* ===== verification/IpamBackend.v ===== *)
(** * pkg/backend/ipam: the IPAM backend

    The backend keeps a routing table per network instance in its cache. A claim is
    served by a runtime, which binds the claim to its table and offers the four
    operations on it; the table is saved in a config map after each change and
    restored from it when the network instance is created again. *)

From S2P Require Import Prelude Strconv Meta Labels Conditions KRM NetIP IPUtil Rib Backend IpamApi IpamValidate IpamWatcher IpamApply.

Local Open Scope Z_scope.

(** The API server, as the backend uses it. *)
Record IpamClient (W : Type) : Type := MkIpamClient {
  ic_ConfigMaps : CMClient W;
  ic_ListIPPrefixes : W -> result (list IPPrefix);
  ic_ListIPClaims : W -> result (list IPClaim)
}.
Arguments ic_ConfigMaps {W} i.
Arguments ic_ListIPPrefixes {W} i.
Arguments ic_ListIPClaims {W} i.

(** A loop with [break]: the body tells whether to leave the loop. *)
Fixpoint forM_break {S A} (l : list A) (f : A -> M S bool) : M S unit :=
  match l with
  | [] => mret tt
  | x :: l' =>
      stop ← f x;
      if (stop : bool) then mret tt else forM_break l' f
  end.

Section Backend.
Context {W : Type} `{L : LabelsAPI} `{R : !RIBAPI} `{N : NetipxAPI} `{E : ErrorsAPI} {Callback : Type}.
Context (client : option (IpamClient W)).
Context (yaml : Codec (gmap string labels)) (json_claim : Codec IPClaim) (json_ni : Codec NetworkInstance).

(** ** State *)

(** The cache, the registered callbacks with the calls made to them, and the API
    server.

    [pkg/backend/ipam/ipam.go:62-69 be] *)
Record istate : Type := MkIState {
  i_cache : caches RIB;
  i_watcher : watcher Callback;
  i_events : list (event Callback);
  i_world : W
}.

Definition set_cache (c : caches RIB) (s : istate) : istate := MkIState c (i_watcher s) (i_events s) (i_world s).
Definition set_watcher (w : watcher Callback) (s : istate) : istate :=
  MkIState (i_cache s) w (i_events s) (i_world s).

Definition i_on_world {A} (m : M W A) : M istate A := fun s =>
  let '(w, r) := m (i_world s) in (MkIState (i_cache s) (i_watcher s) (i_events s) w, r).
Definition i_on_cache {A} (m : M (caches RIB) A) : M istate A := fun s =>
  let '(c, r) := m (i_cache s) in (set_cache c s, r).

(** An operation through the pointer the cache returned for [id]. *)
Definition i_on_table {A} (id : ObjectReference) (m : M RIB A) : M istate A := fun s =>
  match i_cache s !! id with
  | Some c =>
      let '(t, r) := m (instance c) in
      (set_cache (<[id := MkCacheContext (initialized c) t]> (i_cache s)) s, r)
  | None => (s, Panic)
  end.

Definition i_lift_cm (c : CMClient W) : CMClient istate :=
  MkCMClient istate (fun k s => cmc_Get c k (i_world s)) (fun cm => i_on_world (cmc_Create c cm))
    (fun cm => i_on_world (cmc_Update c cm)) (fun cm => i_on_world (cmc_Delete c cm)).

(** ** Runtimes *)

(** The table is named by the cache identifier of the claim.

    [pkg/backend/ipam/runtime_prefix.go:49-57 prefixRuntime] *)
Record prefixRuntime : Type := MkPrefixRuntime {
  pr_initializing : bool;
  pr_claim : IPClaim;
  pr_pi : Prefix;
  pr_fnc : option PrefixValidatorFunctionConfig
}.

(** [pkg/backend/ipam/runtime_dynamic.go:43-50 claimRuntime] *)
Record claimRuntime : Type := MkClaimRuntime {
  cr_initializing : bool;
  cr_claim : IPClaim;
  cr_fnc : option DynamicValidatorFunctionConfig
}.

(** [pkg/backend/ipam/runtime.go:60-65 Runtime] *)
Inductive Runtime : Type :=
| PrefixRuntime (r : prefixRuntime)
| DynamicRuntime (r : claimRuntime).

(** [pkg/backend/ipam/runtime_prefix.go:30-47 NewPrefixRuntime] *)
Definition NewPrefixRuntime (initializing : bool) (claim : IPClaim)
    (fnc : option PrefixValidatorFunctionConfig) : result Runtime :=
  prefix ← deref (ics_Prefix (spec claim));
  pi ← iputil_New prefix;
  Ok (PrefixRuntime (MkPrefixRuntime initializing claim pi fnc)).

(** [pkg/backend/ipam/runtime_dynamic.go:29-41 NewDynamicRuntime] *)
Definition NewDynamicRuntime (initializing : bool) (claim : IPClaim)
    (fnc : option DynamicValidatorFunctionConfig) : result Runtime :=
  Ok (DynamicRuntime (MkClaimRuntime initializing claim fnc)).

(** [pkg/backend/ipam/runtime.go:123-141 ipamPrefixRuntime.Get] *)
Definition ipamPrefixRuntime_Get (claim : IPClaim) (initializing : bool) (s : istate) : result Runtime :=
  _ ← cache_Get (IPClaim_GetCacheID claim) initializing (i_cache s);
  NewPrefixRuntime initializing claim (prefix_oc (ics_Kind (spec claim))).

(** [pkg/backend/ipam/runtime.go:171-187 ipamDynamicRuntime.Get] *)
Definition ipamDynamicRuntime_Get (claim : IPClaim) (initializing : bool) (s : istate) : result Runtime :=
  _ ← cache_Get (IPClaim_GetCacheID claim) initializing (i_cache s);
  NewDynamicRuntime initializing claim (dynamic_oc (ics_Kind (spec claim))).

(** [pkg/backend/ipam/runtime.go:49-54 runtimes.Get] *)
Definition runtimes_Get (claim : IPClaim) (initializing : bool) : M istate Runtime := fun s =>
  (s, match ics_Prefix (spec claim) with
      | None => ipamDynamicRuntime_Get claim initializing s
      | Some _ => ipamPrefixRuntime_Get claim initializing s
      end).

Definition runtime_claim (r : Runtime) : IPClaim :=
  match r with PrefixRuntime r => pr_claim r | DynamicRuntime r => cr_claim r end.

(** The table of a runtime. *)
Definition runtime_rib (r : Runtime) (s : istate) : result RIB :=
  match i_cache s !! IPClaim_GetCacheID (runtime_claim r) with
  | Some c => Ok (instance c)
  | None => Panic
  end.

(** An applicator on the table of the claim; the claim is the one it changed. *)
Definition run_applicator (initializing : bool) (claim : IPClaim) (pi : option Prefix)
    (m : M (applicator Callback) unit) : M istate IPClaim := fun s =>
  match i_cache s !! IPClaim_GetCacheID claim with
  | Some c =>
      let '(a, r) := m (NewApplicator initializing claim (instance c) pi (i_watcher s)) in
      (MkIState (<[IPClaim_GetCacheID claim := MkCacheContext (initialized c) (a_rib a)]> (i_cache s))
         (i_watcher s) (i_events s ++ a_events a) (i_world s),
       match r with Ok _ => Ok (a_claim a) | Err e => Err e | Panic => Panic end)
  | None => (s, Panic)
  end.

(** [pkg/backend/ipam/runtime_prefix.go:59-72 prefixRuntime.Get] *)
Definition prefixRuntime_Get (r : prefixRuntime) : M istate IPClaim := fun s =>
  (s, rib ← runtime_rib (PrefixRuntime r) s; GetIPClaim (pr_claim r) rib).

(** [pkg/backend/ipam/runtime_prefix.go:74-84 prefixRuntime.Validate] *)
Definition prefixRuntime_Validate (r : prefixRuntime) : M istate string := fun s =>
  (s, rib ← runtime_rib (PrefixRuntime r) s;
      prefix_Validate (NewPrefixValidator (pr_claim r) rib (pr_pi r) (pr_fnc r))).

(** [pkg/backend/ipam/runtime_prefix.go:86-108 prefixRuntime.Apply] *)
Definition prefixRuntime_Apply (r : prefixRuntime) : M istate IPClaim :=
  prefix ← lift (deref (ics_Prefix (spec (pr_claim r))));
  pi ← lift (iputil_New prefix);
  run_applicator (pr_initializing r) (pr_claim r) (Some pi) ApplyPrefix.

(** [pkg/backend/ipam/runtime_prefix.go:109-125 prefixRuntime.Delete] *)
Definition prefixRuntime_Delete (r : prefixRuntime) : M istate unit :=
  _ ← run_applicator (pr_initializing r) (pr_claim r) None Delete;
  mret tt.

(** [pkg/backend/ipam/runtime_dynamic.go:52-65 claimRuntime.Get] *)
Definition claimRuntime_Get (r : claimRuntime) : M istate IPClaim := fun s =>
  (s, rib ← runtime_rib (DynamicRuntime r) s; GetIPClaim (cr_claim r) rib).

(** [pkg/backend/ipam/runtime_dynamic.go:67-76 claimRuntime.Validate] *)
Definition claimRuntime_Validate (r : claimRuntime) : M istate string := fun s =>
  (s, rib ← runtime_rib (DynamicRuntime r) s; claim_Validate (NewClaimValidator (cr_claim r) rib (cr_fnc r))).

(** [pkg/backend/ipam/runtime_dynamic.go:78-95 claimRuntime.Apply] *)
Definition claimRuntime_Apply (r : claimRuntime) : M istate IPClaim :=
  run_applicator (cr_initializing r) (cr_claim r) None ApplyDynamic.

(** [pkg/backend/ipam/runtime_dynamic.go:96-111 claimRuntime.Delete] *)
Definition claimRuntime_Delete (r : claimRuntime) : M istate unit :=
  _ ← run_applicator (cr_initializing r) (cr_claim r) None Delete;
  mret tt.

(** The methods of the interface. *)
Definition rt_Get (r : Runtime) : M istate IPClaim :=
  match r with PrefixRuntime r => prefixRuntime_Get r | DynamicRuntime r => claimRuntime_Get r end.
Definition rt_Validate (r : Runtime) : M istate string :=
  match r with PrefixRuntime r => prefixRuntime_Validate r | DynamicRuntime r => claimRuntime_Validate r end.
Definition rt_Apply (r : Runtime) : M istate IPClaim :=
  match r with PrefixRuntime r => prefixRuntime_Apply r | DynamicRuntime r => claimRuntime_Apply r end.
Definition rt_Delete (r : Runtime) : M istate unit :=
  match r with PrefixRuntime r => prefixRuntime_Delete r | DynamicRuntime r => claimRuntime_Delete r end.

(** ** Storage *)

(** A failure to marshal is only logged.

    [pkg/backend/ipam/storage_cm.go:84-101 cm.GetData] *)
Definition ipam_GetData (ref : ObjectReference) : M istate string :=
  s ← get_state;
  rib ← lift (cache_Get ref false (i_cache s));
  let data := foldl (fun d route => <[Prefix_String (rt_Prefix route) := rt_Labels route]> d)
    (∅ : gmap string labels) (rib_GetTable rib) in
  match Marshal yaml data with
  | Ok b => mret b
  | Err _ => mret ""
  | Panic => panic
  end.

(** [rib.Add(table.NewRoute(netip.MustParsePrefix(prefix), labels, ...))], whose
    error is ignored. *)
Definition restore_route (prefix : string) (ls : labels) : M RIB unit :=
  p ← lift (MustParsePrefix prefix);
  log_error (rib_Add (NewRoute p ls)).

(** A stored prefix that is not the one in the spec is only logged.

    [pkg/backend/ipam/storage_cm.go:173-197 cm.restoreNetworkInstancePrefixes] *)
Definition restoreNetworkInstancePrefixes (cr : NetworkInstance) (prefix : string) (ls : labels) : M RIB unit :=
  forM (nis_Prefixes (spec cr)) (fun ipPrefix =>
    if names_object ls (GetNameFromNetworkInstancePrefix cr (nip_Prefix ipPrefix)) (GetNamespace cr)
    then restore_route prefix ls else mret tt).

(** A prefix of kind network that cannot be parsed ends the loop.

    [pkg/backend/ipam/storage_cm.go:199-240 cm.restoreIPPrefixes] *)
Definition restoreIPPrefixes (ipPrefixList : list IPPrefix) (prefix : string) (ls : labels) : M RIB unit :=
  forM_break ipPrefixList (fun ipPrefix =>
    if names_object ls (GetName ipPrefix) (GetNamespace ipPrefix) then
      if bool_decide (ips_Kind (spec ipPrefix) = PrefixKindNetwork) then
        match iputil_New (ips_Prefix (spec ipPrefix)) with
        | Ok _ => _ ← restore_route prefix ls; mret false
        | Err _ => mret true
        | Panic => panic
        end
      else _ ← restore_route prefix ls; mret false
    else mret false).

(** [pkg/backend/ipam/storage_cm.go:242-292 cm.restorIPClaims] *)
Definition restorIPClaims (ipClaimList : list IPClaim) (prefix : string) (ls : labels) : M RIB unit :=
  forM_break ipClaimList (fun claim =>
    if names_object ls (GetName claim) (GetNamespace claim) then
      let claimedPrefix :=
        match ics_Prefix (spec claim) with
        | Some p => Some p
        | None => ict_Prefix (status claim)
        end in
      if bool_decide (ics_Kind (spec claim) = PrefixKindNetwork) then
        match claimedPrefix with
        | Some p =>
            match iputil_New p with
            | Ok _ => _ ← restore_route prefix ls; mret false
            | Err _ => mret true
            | Panic => panic
            end
        | None => _ ← restore_route prefix ls; mret false
        end
      else _ ← restore_route prefix ls; mret false
    else mret false).

(** The input of [restorePrefixes] selects the owner kind and the function that
    restores its prefixes. *)
Inductive restoreInput : Type :=
| RestoreNetworkInstance (cr : NetworkInstance)
| RestoreIPPrefixList (l : list IPPrefix)
| RestoreIPClaimList (l : list IPClaim).

(** [map_to_list] stands for the unspecified order of Go's iteration over a map.

    [pkg/backend/ipam/storage_cm.go:146-171 cm.restorePrefixes] *)
Definition restorePrefixes (claims : gmap string labels) (input : restoreInput) : M RIB unit :=
  let '(ownerGVK, restoreFunc) :=
    match input with
    | RestoreNetworkInstance cr => (NetworkInstanceKindGVKString, restoreNetworkInstancePrefixes cr)
    | RestoreIPPrefixList l => (IPPrefixKindGVKString, restoreIPPrefixes l)
    | RestoreIPClaimList l => (IPClaimKindGVKString, restorIPClaims l)
    end in
  forM (map_to_list claims) (fun '(prefix, ls) =>
    if bool_decide (label_get ls NephioOwnerGvkKey = ownerGVK) then restoreFunc prefix ls else mret tt).

(** The network instance built for the restoration of its prefixes: it has a name
    and no prefixes. *)
Definition restored_ni (ref : ObjectReference) : NetworkInstance :=
  MkKRM (MkObject (GVK "" "" "") (MkObjectMeta (ref_Name ref) "" (ref_Namespace ref) "" "" None None None [] []))
    (MkNetworkInstanceSpec []) (MkNetworkInstanceStatus (MkConditionedStatus []) []).

(** [pkg/backend/ipam/storage_cm.go:103-144 cm.RestoreData] *)
Definition ipam_RestoreData (c : IpamClient W) (ref : ObjectReference) (cm : ConfigMap) : M istate unit :=
  claims ← lift (Unmarshal yaml (default "" (cm_Data cm !! ConfigMapKey)));
  s ← get_state;
  _ ← lift (cache_Get ref true (i_cache s));
  _ ← i_on_table ref (restorePrefixes claims (RestoreNetworkInstance (restored_ni ref)));
  s ← get_state;
  ipPrefixList ← lift (wrap_result (ic_ListIPPrefixes c (i_world s)) "cannot get ip prefix list");
  _ ← i_on_table ref (restorePrefixes claims (RestoreIPPrefixList ipPrefixList));
  s ← get_state;
  ipClaimList ← lift (wrap_result (ic_ListIPClaims c (i_world s)) "cannot get ip claim list");
  i_on_table ref (restorePrefixes claims (RestoreIPClaimList ipClaimList)).

(** [pkg/backend/ipam/storage_cm.go:50-70 newCMStorage] *)
Definition ipam_newCMStorage (c : IpamClient W) : result (Storage istate IPClaim (gmap string labels)) :=
  NewCMBackend (MkCMConfig istate (Some (i_lift_cm (ic_ConfigMaps c))) (Some ipam_GetData)
    (Some (ipam_RestoreData c)) "ipam").

(** [pkg/backend/ipam/ipam.go:32-60 New] *)
Definition ipam_store : result (Storage istate IPClaim (gmap string labels)) :=
  match client with
  | None => Ok NewNopStorage
  | Some c => ipam_newCMStorage c
  end.

(** ** Operations *)

(** [pkg/backend/ipam/ipam.go:71-73 be.AddWatch] *)
Definition ipam_AddWatch (ownerGvkKey ownerGvk : string) (fn : Callback) : M istate unit :=
  modify (fun s => set_watcher (addWatch ownerGvkKey ownerGvk fn (i_watcher s)) s).

(** [pkg/backend/ipam/ipam.go:74-76 be.DeleteWatch] *)
Definition ipam_DeleteWatch (ownerGvkKey ownerGvk : string) : M istate unit :=
  modify (fun s => set_watcher (deleteWatch ownerGvkKey ownerGvk (i_watcher s)) s).

(** [pkg/backend/ipam/ipam.go:79-101 be.CreateIndex] *)
Definition ipam_CreateIndex (b : string) : M istate unit :=
  cr ← lift (Unmarshal json_ni b);
  store ← lift ipam_store;
  let cacheID := NetworkInstance_GetCacheID cr in
  _ ← i_on_cache (modify (cache_Create cacheID NewRIB));
  s ← get_state;
  if cache_IsInitialized cacheID (i_cache s) then mret tt
  else
    _ ← st_Restore store cacheID;
    i_on_cache (cache_SetInitialized cacheID).

(** [pkg/backend/ipam/ipam.go:104-122 be.DeleteIndex] *)
Definition ipam_DeleteIndex (b : string) : M istate unit :=
  cr ← lift (Unmarshal json_ni b);
  store ← lift ipam_store;
  let cacheID := NetworkInstance_GetCacheID cr in
  _ ← i_on_cache (modify (cache_Delete cacheID));
  st_Destroy store cacheID.

(** [pkg/backend/ipam/ipam.go:124-138 be.List] *)
Definition ipam_List (b : string) : M istate (list Route) :=
  cr ← lift (Unmarshal json_ni b);
  s ← get_state;
  rib ← lift (cache_Get (NetworkInstance_GetCacheID cr) false (i_cache s));
  mret (rib_GetTable rib).

(** [pkg/backend/ipam/ipam.go:140-164 be.GetClaim] *)
Definition ipam_GetClaim (b : string) : M istate string :=
  cr ← lift (Unmarshal json_claim b);
  op ← runtimes_Get cr false;
  claimedPrefix ← rt_Get op;
  lift (Marshal json_claim claimedPrefix).

(** [pkg/backend/ipam/ipam.go:167-203 be.Claim] *)
Definition ipam_Claim (b : string) : M istate string :=
  cr ← lift (Unmarshal json_claim b);
  store ← lift ipam_store;
  op ← runtimes_Get cr false;
  msg ← rt_Validate op;
  if bool_decide (msg <> "") then throw ("validated failed: " +:+ msg)
  else
    cr ← rt_Apply op;
    _ ← st_SaveAll store (IPClaim_GetCacheID cr);
    lift (Marshal json_claim cr).

(** [pkg/backend/ipam/ipam.go:205-229 be.DeleteClaim] *)
Definition ipam_DeleteClaim (b : string) : M istate unit :=
  cr ← lift (Unmarshal json_claim b);
  store ← lift ipam_store;
  rt ← runtimes_Get cr false;
  _ ← rt_Delete rt;
  st_SaveAll store (IPClaim_GetCacheID cr).

End Backend.
Arguments istate W {L R} Callback.
