(* ===== verification/IpamRestore.v ===== *)
(** * Properties of the IPAM backend: isolation of tables, and save and restore *)

From S2P Require Import Prelude Strconv Meta Labels Conditions KRM NetIP NetIPText IPUtil Rib Backend IpamApi IpamValidate IpamWatcher IpamApply IpamBackend.

Local Open Scope Z_scope.

Section Restore.
Context {W : Type} `{L : LabelsAPI} `{R : !RIBAPI} `{RS : !RIBSpec R} `{N : NetipxAPI} `{E : ErrorsAPI}.
Context {Callback : Type}.

(** ** Adding stored routes *)

(** [m] adds the route [p] with labels [l] when [b], and nothing otherwise, to a
    table in which [p] is absent or has the labels [l]. *)
Definition inserts (p : Prefix) (l : labels) (b : bool) (m : M RIB unit) : Prop :=
  forall r, view r !! p = None \/ view r !! p = Some l ->
  exists r', m r = (r', Ok tt) /\ view r' = if b then <[p := l]> (view r) else view r.

Lemma inserts_after p l (r : RIB) (b : bool) :
  view r !! p = None \/ view r !! p = Some l ->
  (if b then <[p := l]> (view r) else view r) !! p = None \/
  (if b then <[p := l]> (view r) else view r) !! p = Some l.
Proof. intros Hp. destruct b; [|done]. right. apply lookup_insert_eq. Qed.

Lemma restore_route_inserts p l : is_network p -> ParsePrefix (Prefix_String p) = Ok p ->
  inserts p l true (restore_route (Prefix_String p) l).
Proof.
  intros Hn Hp r Hr. unfold restore_route, MustParsePrefix, mbind, M_bind, lift, log_error. rewrite Hp.
  destruct Hr as [Hr|Hr].
  - destruct (view_Add_new (NewRoute p l) r Hn Hr) as (r'&->&Hv). by exists r'.
  - destruct (view_Add_dup (NewRoute p l) r Hn) as (e&->&_); [cbn; by rewrite Hr|].
    exists r. split; [done|]. cbn. by rewrite insert_id.
Qed.

(** A loop that adds the same route for each selected element. *)
Lemma forM_break_inserts {A} (sel : A -> bool) (xs : list A) (f : A -> M RIB bool) p l :
  (forall x r, x ∈ xs -> view r !! p = None \/ view r !! p = Some l ->
     exists r', f x r = (r', Ok false) /\ view r' = if sel x then <[p := l]> (view r) else view r) ->
  inserts p l (existsb sel xs) (forM_break xs f).
Proof.
  induction xs as [|x xs IH]; intros Hf r Hr; [by exists r|].
  destruct (Hf x r ltac:(left) Hr) as (r1&H1&Hv1).
  destruct (IH (fun y r Hy => Hf y r ltac:(by right)) r1) as (r2&H2&Hv2).
  { rewrite Hv1. by apply inserts_after. }
  exists r2. split; [cbn [forM_break]; unfold mbind, M_bind; by rewrite H1|].
  rewrite Hv2, Hv1. cbn [existsb]. destruct (sel x), (existsb sel xs); cbn; try done.
  by rewrite insert_insert_eq.
Qed.

(** ** The restoration of a kind of owner *)

Definition named {A} (name namespace : A -> string) (l : labels) (x : A) : bool :=
  names_object l (name x) (namespace x).

(** A prefix of kind network in the list can be parsed. *)
Definition prefix_readable (x : IPPrefix) : Prop :=
  ips_Kind (spec x) = PrefixKindNetwork -> exists pi, iputil_New (ips_Prefix (spec x)) = Ok pi.

Definition claim_readable (x : IPClaim) : Prop :=
  ics_Kind (spec x) = PrefixKindNetwork -> forall t,
  match ics_Prefix (spec x) with Some p => Some p | None => ict_Prefix (status x) end = Some t ->
  exists pi, iputil_New t = Ok pi.

Lemma restoreIPPrefixes_inserts xs p l : Forall prefix_readable xs -> is_network p ->
  ParsePrefix (Prefix_String p) = Ok p ->
  inserts p l (existsb (named GetName GetNamespace l) xs) (restoreIPPrefixes xs (Prefix_String p) l).
Proof.
  intros Hx Hn Hp. apply forM_break_inserts. intros x r Hin Hr. unfold named.
  destruct (names_object _ _ _); [|by exists r].
  destruct (restore_route_inserts p l Hn Hp r Hr) as (r'&H1&Hv). exists r'. split; [|done].
  unfold mbind, M_bind. case_bool_decide as Hk; [|by rewrite H1].
  rewrite Forall_forall in Hx. destruct (Hx x Hin Hk) as [pi ->]. by rewrite H1.
Qed.

Lemma restorIPClaims_inserts xs p l : Forall claim_readable xs -> is_network p ->
  ParsePrefix (Prefix_String p) = Ok p ->
  inserts p l (existsb (named GetName GetNamespace l) xs) (restorIPClaims xs (Prefix_String p) l).
Proof.
  intros Hx Hn Hp. apply forM_break_inserts. intros x r Hin Hr. unfold named.
  destruct (names_object _ _ _); [|by exists r].
  destruct (restore_route_inserts p l Hn Hp r Hr) as (r'&H1&Hv). exists r'. split; [|done].
  unfold mbind, M_bind. case_bool_decide as Hk; [|by rewrite H1].
  rewrite Forall_forall in Hx. specialize (Hx x Hin Hk).
  destruct (match ics_Prefix (spec x) with Some _ => _ | None => _ end) as [t|]; [|by rewrite H1].
  destruct (Hx t eq_refl) as [pi ->]. by rewrite H1.
Qed.

(** One pass over stored routes of the table [T]: the selected ones are added. *)
Lemma pass_spec (T : gmap Prefix labels) (sel : labels -> bool) (f : string -> labels -> M RIB unit)
    (kvs : list (string * labels)) r :
  (forall k l, (k, l) ∈ kvs -> exists p, k = Prefix_String p /\ T !! p = Some l /\ inserts p l (sel l) (f k l)) ->
  view r ⊆ T ->
  exists r', forM kvs (fun '(k, l) => f k l) r = (r', Ok tt) /\ view r' ⊆ T /\
    (forall p l, view r' !! p = Some l ->
       view r !! p = Some l \/ ((Prefix_String p, l) ∈ kvs /\ T !! p = Some l /\ sel l = true)) /\
    view r ⊆ view r' /\
    (forall k l, (k, l) ∈ kvs -> sel l = true -> exists p, k = Prefix_String p /\ view r' !! p = Some l).
Proof.
  revert r. induction kvs as [|[k l] kvs IH]; intros r Hf HT.
  - exists r. split_and!; try done; [by left|]. by intros k l ?%not_elem_of_nil.
  - destruct (Hf k l ltac:(left)) as (p&->&HTp&Hins).
    destruct (Hins r) as (r1&H1&Hv1).
    { destruct (view r !! p) as [l'|] eqn:Hr; [|by left]. right.
      pose proof (lookup_weaken _ _ _ _ Hr HT). congruence. }
    assert (Hsub : view r ⊆ view r1 /\ view r1 ⊆ T).
    { rewrite Hv1. destruct (sel l); [|done]. split; [|by apply insert_subseteq_l].
      apply map_subseteq_spec. intros q lq Hq. destruct (decide (p = q)) as [<-|Hne].
      - rewrite lookup_insert_eq. pose proof (lookup_weaken _ _ _ _ Hq HT). congruence.
      - by rewrite lookup_insert_ne. }
    destruct (IH r1) as (r2&H2&HT2&Hin2&Hsub2&Hall2); [by intros; apply Hf; right|apply Hsub|].
    exists r2. split; [cbn [forM]; unfold mbind, M_bind; by rewrite H1|]. split_and!; [done|..].
    + intros q lq Hq. apply Hin2 in Hq as [Hq|(?&?&?)]; [|right; by split_and!; [right|..]].
      rewrite Hv1 in Hq. destruct (sel l) eqn:Hs; [|by left].
      apply lookup_insert_Some in Hq as [[<- <-]|[_ Hq]]; [|by left]. right. by split_and!; [left|..].
    + etrans; [apply Hsub|done].
    + intros k' l' [[= -> ->]|Hin]%elem_of_cons Hs; [|by apply Hall2].
      exists p. split; [done|]. apply (lookup_weaken (view r1)); [|done].
      rewrite Hv1, Hs. apply lookup_insert_eq.
Qed.

(** The data that is saved for the table [T]. *)
Definition data_of (T : gmap Prefix labels) (claims : gmap string labels) : Prop :=
  forall k l, claims !! k = Some l <-> exists p, k = Prefix_String p /\ T !! p = Some l.

(** The texts of the prefixes of a table are parsed back to them. *)
Lemma table_wf_parse T p : table_wf T -> is_Some (T !! p) -> is_network p /\ ParsePrefix (Prefix_String p) = Ok p.
Proof. intros HT (Hv&Hok&Hm)%HT. split; [done|]. by apply ParsePrefix_String. Qed.

Lemma table_wf_inj T p q : table_wf T -> is_Some (T !! p) -> is_Some (T !! q) ->
  Prefix_String p = Prefix_String q -> p = q.
Proof. intros HT (Hp&Hop&_)%HT (Hq&Hoq&_)%HT. by apply Prefix_String_inj. Qed.

(** The routes that a pass restores: those of the owner kind whose object exists. *)
Definition selected (input : restoreInput) (l : labels) : bool :=
  match input with
  | RestoreNetworkInstance cr =>
      bool_decide (label_get l NephioOwnerGvkKey = NetworkInstanceKindGVKString) &&
      existsb (fun x => names_object l (GetNameFromNetworkInstancePrefix cr (nip_Prefix x)) (GetNamespace cr))
        (nis_Prefixes (spec cr))
  | RestoreIPPrefixList xs =>
      bool_decide (label_get l NephioOwnerGvkKey = IPPrefixKindGVKString) && existsb (named GetName GetNamespace l) xs
  | RestoreIPClaimList xs =>
      bool_decide (label_get l NephioOwnerGvkKey = IPClaimKindGVKString) && existsb (named GetName GetNamespace l) xs
  end.

Definition readable (input : restoreInput) : Prop :=
  match input with
  | RestoreNetworkInstance _ => True
  | RestoreIPPrefixList xs => Forall prefix_readable xs
  | RestoreIPClaimList xs => Forall claim_readable xs
  end.

Lemma restoreNetworkInstancePrefixes_inserts cr p l : is_network p -> ParsePrefix (Prefix_String p) = Ok p ->
  inserts p l (existsb (fun x => names_object l (GetNameFromNetworkInstancePrefix cr (nip_Prefix x)) (GetNamespace cr))
    (nis_Prefixes (spec cr))) (restoreNetworkInstancePrefixes cr (Prefix_String p) l).
Proof.
  intros Hn Hp. unfold restoreNetworkInstancePrefixes. induction (nis_Prefixes (spec cr)) as [|x xs IH]; intros r Hr.
  - by exists r.
  - cbn [existsb forM]. unfold mbind, M_bind. destruct (names_object _ _ _).
    + destruct (restore_route_inserts p l Hn Hp r Hr) as (r1&->&Hv1).
      destruct (IH r1) as (r2&->&Hv2); [rewrite Hv1; by apply (inserts_after p l r true)|].
      exists r2. split; [done|]. rewrite Hv2, Hv1. cbn [orb]. destruct (existsb _ _); [|done].
      by rewrite insert_insert_eq.
    + apply IH. exact Hr.
Qed.

Lemma restorePrefixes_spec T claims input r : data_of T claims -> table_wf T -> readable input -> view r ⊆ T ->
  exists r', restorePrefixes claims input r = (r', Ok tt) /\ view r' ⊆ T /\
    forall p l, view r' !! p = Some l <-> view r !! p = Some l \/ (T !! p = Some l /\ selected input l = true).
Proof.
  intros Hd HT Hi Hr.
  set (restoreFunc := match input with
    | RestoreNetworkInstance cr => restoreNetworkInstancePrefixes cr
    | RestoreIPPrefixList l => restoreIPPrefixes l
    | RestoreIPClaimList l => restorIPClaims l end).
  set (gvk := match input with
    | RestoreNetworkInstance _ => NetworkInstanceKindGVKString
    | RestoreIPPrefixList _ => IPPrefixKindGVKString
    | RestoreIPClaimList _ => IPClaimKindGVKString end).
  set (f := fun k ls => if bool_decide (label_get ls NephioOwnerGvkKey = gvk) then restoreFunc k ls else mret tt).
  destruct (pass_spec T (selected input) f (map_to_list claims) r) as (r'&Hf&Hsub&Hin&Hmono&Hall); [|done|].
  { intros k l Hkl%elem_of_map_to_list. apply Hd in Hkl as (p&->&Hp). exists p. split; [done|]. split; [done|].
    destruct (table_wf_parse T p HT) as [Hn Hparse]; [by rewrite Hp|]. unfold f, restoreFunc, gvk, selected.
    destruct input as [cr|xs|xs]; case_bool_decide; cbn [andb]; try (intros r0 _; by exists r0).
    - by apply restoreNetworkInstancePrefixes_inserts.
    - by apply restoreIPPrefixes_inserts.
    - by apply restorIPClaims_inserts. }
  exists r'. split; [|split; [done|]].
  - rewrite <-Hf. unfold restorePrefixes, f, gvk, restoreFunc. by destruct input.
  - intros p l. split.
    + intros [?|(_&?&?)]%Hin; [by left|by right].
    + intros [Hp|[Hp Hs]]; [by apply (lookup_weaken (view r))|].
      destruct (Hall (Prefix_String p) l) as (q&Hq&Hv); [|done|].
      * apply elem_of_map_to_list, Hd. by exists p.
      * assert (p = q) as ->; [|done]. apply (table_wf_inj T); [done|by rewrite Hp| |done].
        by rewrite (lookup_weaken _ _ _ _ Hv Hsub).
Qed.

(** ** Saving *)

Definition table_data (routes : list Route) : gmap string labels :=
  foldl (fun d route => <[Prefix_String (rt_Prefix route) := rt_Labels route]> d) (∅ : gmap string labels) routes.

Lemma table_data_spec (T : gmap Prefix labels) routes : table_wf T -> lists_routes T (fun _ => True) routes ->
  data_of T (table_data routes).
Proof.
  intros HT [_ Hl].
  assert (Hgen : forall rs, rs ⊆ routes -> forall k l, table_data rs !! k = Some l <->
    exists x, x ∈ rs /\ k = Prefix_String (rt_Prefix x) /\ rt_Labels x = l).
  { intros rs. induction rs as [|y rs IH] using rev_ind; intros Hsub k l.
    - unfold table_data. cbn. rewrite lookup_empty. split; [done|]. by intros (x&?%not_elem_of_nil&_).
    - assert (Hrs : rs ⊆ routes) by (intros x Hx; apply Hsub, elem_of_app; by left).
      assert (Hy : y ∈ routes) by (apply Hsub, elem_of_app; right; left).
      unfold table_data. rewrite foldl_app. cbn [foldl]. fold (table_data rs).
      rewrite lookup_insert_Some, IH by done. split.
      + intros [[<- <-]|[_ (x&Hx&->&<-)]]; [exists y|exists x]; rewrite elem_of_app, ?list_elem_of_singleton; tauto.
      + intros (x&[Hx| ->%list_elem_of_singleton]%elem_of_app&->&<-); [|by left].
        destruct (decide (Prefix_String (rt_Prefix y) = Prefix_String (rt_Prefix x))) as [He|Hne].
        * left. split; [done|]. pose proof (Hrs x Hx) as Hx'. apply Hl in Hx' as [Hx' _]. apply Hl in Hy as [Hy _].
          assert (He' : rt_Prefix y = rt_Prefix x)
            by (apply (table_wf_inj T); [done|by rewrite Hy|by rewrite Hx'|done]).
          rewrite He' in Hy. congruence.
        * right. split; [done|]. by exists x. }
  intros k l. rewrite (Hgen routes) by done. split.
  - intros (x&[Hx _]%Hl&->&<-). by exists (rt_Prefix x).
  - intros (p&->&Hp). exists (NewRoute p l). split; [by apply Hl|done].
Qed.

Context (yaml : Codec (gmap string labels)) `{!CodecLaws yaml}.
Implicit Types (s : istate W Callback).

(** The routes that come back after a restart: those owned by an IPPrefix or an
    IPClaim that still exists. *)
Definition comes_back (prefixes : list IPPrefix) (claims : list IPClaim) (l : labels) : Prop :=
  label_get l NephioOwnerGvkKey = IPPrefixKindGVKString /\ existsb (named GetName GetNamespace l) prefixes = true \/
  label_get l NephioOwnerGvkKey = IPClaimKindGVKString /\ existsb (named GetName GetNamespace l) claims = true.

Lemma on_table_run ref (m : M RIB unit) s b r r' : i_cache s !! ref = Some (MkCacheContext b r) ->
  m r = (r', Ok tt) ->
  i_on_table ref m s = (set_cache (<[ref := MkCacheContext b r']> (i_cache s)) s, Ok tt).
Proof. intros Hs Hm. unfold i_on_table. rewrite Hs. cbn. by rewrite Hm. Qed.

(** C22. The data saved for a table restores, into an empty table, exactly the routes
    of the table that are owned by an IPPrefix or an IPClaim that still exists, with
    their labels. The routes owned by the network instance itself, its aggregates,
    are saved and not restored. *)
Theorem ipam_save_restore (c : IpamClient W) ref s rib s' prefixes claims :
  cache_Get ref false (i_cache s) = Ok rib -> table_wf (view rib) ->
  i_cache s' !! ref = Some (MkCacheContext false NewRIB) ->
  ic_ListIPPrefixes c (i_world s') = Ok prefixes -> ic_ListIPClaims c (i_world s') = Ok claims ->
  Forall prefix_readable prefixes -> Forall claim_readable claims ->
  exists b, ipam_GetData yaml ref s = (s, Ok b) /\
    forall cm, cm_Data cm !! ConfigMapKey = Some b ->
    exists s'' rib', ipam_RestoreData yaml c ref cm s' = (s'', Ok tt) /\
      i_cache s'' !! ref = Some (MkCacheContext false rib') /\
      forall p l, view rib' !! p = Some l <-> view rib !! p = Some l /\ comes_back prefixes claims l.
Proof.
  intros Hget HT Hs' Hpl Hcl Hpr Hcr. set (data := table_data (rib_GetTable rib)).
  pose proof (table_data_spec (view rib) (rib_GetTable rib) HT (view_GetTable rib)) as Hd. fold data in Hd.
  destruct (Unmarshal_Marshal data) as (b&Hm&Hu). exists b. split.
  { unfold ipam_GetData, mbind, M_bind, get_state, lift. rewrite Hget. fold (table_data (rib_GetTable rib)).
    fold data. by rewrite Hm. }
  intros cm Hcm.
  assert (H0 : view NewRIB ⊆ view rib) by (rewrite view_New; apply map_empty_subseteq).
  destruct (restorePrefixes_spec _ _ (RestoreNetworkInstance (restored_ni ref)) _ Hd HT I H0) as (r1&H1&Hs1&Hv1).
  destruct (restorePrefixes_spec _ _ (RestoreIPPrefixList prefixes) _ Hd HT Hpr Hs1) as (r2&H2&Hs2&Hv2).
  destruct (restorePrefixes_spec _ _ (RestoreIPClaimList claims) _ Hd HT Hcr Hs2) as (r3&H3&Hs3&Hv3).
  eexists _, r3. split_and!.
  - unfold ipam_RestoreData, mbind, M_bind, lift, get_state. rewrite Hcm. cbn [default from_option id]. rewrite Hu.
    assert (cache_Get ref true (i_cache s') = Ok NewRIB) as -> by (apply cache_Get_Ok; by eexists; split; [|split; [|left]]).
    rewrite (on_table_run _ _ _ _ _ _ Hs' H1). cbn [i_world set_cache]. rewrite Hpl. cbn [wrap_result].
    erewrite on_table_run; [|apply lookup_insert_eq|exact H2]. cbn [i_world set_cache]. rewrite Hcl. cbn [wrap_result].
    erewrite on_table_run; [reflexivity|apply lookup_insert_eq|exact H3].
  - apply lookup_insert_eq.
  - intros p l. rewrite Hv3, Hv2, Hv1, view_New, lookup_empty. unfold selected, comes_back. cbn [restored_ni spec nis_Prefixes existsb].
    rewrite !andb_true_iff, !bool_decide_eq_true. intuition done.
Qed.

End Restore.

(** ** Isolation of the network instances *)

Section Isolation.
Context {W : Type} `{L : LabelsAPI} `{R : !RIBAPI} `{N : NetipxAPI} `{E : ErrorsAPI} {Callback : Type}.
Context (client : option (IpamClient W)).
Context (yaml : Codec (gmap string labels)) (json_claim : Codec IPClaim).
Context (id : ObjectReference) (t : option (cacheContext RIB)).

(** The table of [id] is [t]. *)
Definition table_is (s : istate W Callback) : Prop := i_cache s !! id = t.

Lemma keeps_ipam_GetData ref : keeps table_is (ipam_GetData yaml ref).
Proof. unfold ipam_GetData. keeps_auto. destruct (Marshal yaml _); keeps_auto. Qed.

Lemma keeps_i_on_world {A} (m : M W A) : keeps table_is (i_on_world m).
Proof. intros s Hs. unfold i_on_world. by destruct (m (i_world s)). Qed.

Lemma keeps_ipam_SaveAll st ref : ipam_store client yaml = Ok st -> keeps table_is (st_SaveAll st ref).
Proof.
  unfold ipam_store, ipam_newCMStorage, NewCMBackend. destruct client as [c|]; [|intros [= <-]; apply keeps_ret].
  cbn [cfg_GetData cfg_RestoreData]. intros [= <-]. cbn [st_SaveAll]. apply keeps_SaveAll; [..|done].
  - intros c' cm [= <-]. cbn. by split; [|split]; apply keeps_i_on_world.
  - intros f ref' [= <-]. apply keeps_ipam_GetData.
Qed.

Lemma keeps_run_applicator ini claim pi m : IPClaim_GetCacheID claim <> id ->
  keeps table_is (run_applicator ini claim pi m).
Proof.
  intros Hne s Hs. unfold run_applicator. destruct (i_cache s !! IPClaim_GetCacheID claim) as [c|]; [|done].
  destruct (m _) as [a [?|?|]]; unfold table_is; cbn; by rewrite lookup_insert_ne.
Qed.

Lemma runtimes_Get_claim claim ini (s : istate W Callback) op : (runtimes_Get claim ini s).2 = Ok op ->
  runtime_claim op = claim.
Proof.
  unfold runtimes_Get, ipamDynamicRuntime_Get, ipamPrefixRuntime_Get, NewPrefixRuntime, NewDynamicRuntime. cbn [snd].
  destruct (ics_Prefix (spec claim)); cbn [deref]; destruct (cache_Get _ _ _); cbn; try done.
  - destruct (iputil_New _); cbn; [|done..]. by intros [= <-].
  - by intros [= <-].
Qed.

Lemma keeps_runtimes_Get {A} claim ini (f : Runtime -> M (istate W Callback) A) :
  (forall op, runtime_claim op = claim -> keeps table_is (f op)) -> keeps table_is (runtimes_Get claim ini ≫= f).
Proof.
  intros Hf s Hs. unfold mbind, M_bind. pose proof (runtimes_Get_claim claim ini s) as Hop.
  assert ((runtimes_Get claim ini s).1 = s) as Hst by done.
  destruct (runtimes_Get claim ini s) as [s' [op|e|]]; cbn in *; subst s'; [|done..]. apply Hf; [by apply Hop|done].
Qed.

(** What a runtime does stays in the table of its claim. *)
Lemma keeps_runtime op : IPClaim_GetCacheID (runtime_claim op) <> id ->
  keeps table_is (rt_Validate (W := W) op) /\ keeps table_is (rt_Apply (W := W) op) /\
  keeps table_is (rt_Delete (W := W) op).
Proof.
  intros Hne. destruct op as [r|r]; cbn [rt_Validate rt_Apply rt_Delete runtime_claim] in *.
  - split; [by intros s Hs|]. unfold prefixRuntime_Apply, prefixRuntime_Delete.
    split; keeps_auto; by apply keeps_run_applicator.
  - split; [by intros s Hs|]. unfold claimRuntime_Apply, claimRuntime_Delete.
    split; keeps_auto; by apply keeps_run_applicator.
Qed.

(** C23. The network instances are isolated: claiming and releasing in one network
    instance leaves the table of every other network instance as it was, whether the
    operation succeeds, fails or panics. *)
Theorem ipam_isolation b cr s :
  Unmarshal json_claim b = Ok cr -> id <> IPClaim_GetCacheID cr -> i_cache s !! id = t ->
  i_cache (ipam_Claim (Callback := Callback) client yaml json_claim b s).1 !! id = t /\
  i_cache (ipam_DeleteClaim (Callback := Callback) client yaml json_claim b s).1 !! id = t.
Proof.
  intros Hb Hid. revert s.
  enough (keeps table_is (ipam_Claim client yaml json_claim b) /\
          keeps table_is (ipam_DeleteClaim client yaml json_claim b)) as [H1 H2]
    by (intros s Hs; split; [by apply H1|by apply H2]).
  unfold ipam_Claim, ipam_DeleteClaim. split; apply keeps_bind_lift; rewrite Hb; intros cr' [= <-];
    apply keeps_bind_lift; intros st Hst; apply keeps_runtimes_Get; intros op Hop;
    (destruct (keeps_runtime op) as (Hv&Ha&Hd); [congruence|]).
  - apply keeps_bind; [done|]. intros msg. case_bool_decide; [apply keeps_throw|].
    apply keeps_bind; [done|]. intros cr'. apply keeps_bind; [by apply keeps_ipam_SaveAll|]. intros _. apply keeps_lift.
  - apply keeps_bind; [done|]. intros _. by apply keeps_ipam_SaveAll.
Qed.

End Isolation.
