(* ===== verification/IpamInvariant.v ===== *)
(** * pkg/backend/ipam: the tables stay well formed

    Every route of a table is stored under a valid prefix of its family with the
    host bits cleared. The applicator keeps this for claims that were validated,
    and so does the backend, whatever requests it serves, restarts and restores
    from its own config maps included. *)

From stdpp Require Import relations.
From S2P Require Import Prelude Strconv Meta Labels Conditions KRM NetIP NetIPText IPUtil Rib Backend IpamApi IpamValidate IpamWatcher IpamApply IpamClaims IpamBackend IpamRestore.

Local Open Scope Z_scope.

(** ** The applicator *)

Section Applicator.
Context `{L : LabelsAPI} `{!LabelsLaws L} `{R : !RIBAPI} `{RS : !RIBSpec R} `{N : NetipxAPI} `{!NetipxLaws N}.
Context `{E : ErrorsAPI} {Callback : Type}.
Implicit Types (s : applicator Callback) (r : Route).

Definition awf s : Prop := table_wf (tab s).

Lemma keeps_set_claim f : keeps awf (set_claim (Callback := Callback) f).
Proof. by apply keeps_modify. Qed.

Lemma table_wf_sub m m' : table_wf m -> (forall p, is_Some (m' !! p) -> is_Some (m !! p)) -> table_wf m'.
Proof. intros Hm Hsub p Hp. by apply Hm, Hsub. Qed.

(** A route whose labels are updated is in the table, and so are the routes that
    are updated after it: the routes inside it that are deleted belong to other
    claims. *)
Definition mine s r : Prop := tab s !! rt_Prefix r = Some (rt_Labels r) /\ other_nsn (a_claim s) r = false.

Lemma update_route_keeps r s : awf s -> is_Some (tab s !! rt_Prefix r) ->
  exists s', update_route r s = (s', Ok tt) /\ awf s' /\ a_claim s' = a_claim s /\
    forall x, rt_Prefix x <> rt_Prefix r -> mine s x -> mine s' x.
Proof.
  intros Hwf Hr. unfold update_route, mine. destruct (GetUpdatedLabels_spec r s) as (ls&pi&Hg&_).
  unfold mbind, M_bind. rewrite Hg. case_bool_decide as He; [by eexists; split|].
  unfold unless_exists, on_rib. cbn [a_rib].
  destruct (view_Set (UpdateLabel ls r) (a_rib s)) as (rib&->&Hv);
    [rewrite view_UpdateLabel; by apply Hwf|by rewrite view_UpdateLabel|]. rewrite view_UpdateLabel in Hv.
  set (s1 := set_rib rib _).
  assert (Ht : tab s1 = <[rt_Prefix r := rt_Labels (UpdateLabel ls r)]> (tab s)) by exact Hv.
  assert (Hwf1 : awf s1).
  { apply (table_wf_sub (tab s) _ Hwf). intros p. rewrite Ht. destruct (decide (rt_Prefix r = p)) as [<-|Hne]; [done|].
    by rewrite lookup_insert_ne. }
  assert (Hmine : forall x, rt_Prefix x <> rt_Prefix r -> mine s x -> mine s1 x).
  { intros x Hne [Hx Ho]. split; [|done]. by rewrite Ht, lookup_insert_ne. }
  assert (Hend : forall m : M (applicator Callback) unit, m = mret tt \/ m = delete_children (UpdateLabel ls r) ->
    exists s', m s1 = (s', Ok tt) /\ awf s' /\ a_claim s' = a_claim s /\
      forall x, rt_Prefix x <> rt_Prefix r -> mine s x -> mine s' x).
  { intros m [->| ->]; [by exists s1|].
    destruct (delete_children_spec (UpdateLabel ls r) s1 Hwf1) as (s2&H2&(Hc&_&_)&Ht2). exists s2. split_and!; [done|..|done|].
    - apply (table_wf_sub (tab s1) _ Hwf1). intros p [l Hl]. apply Ht2 in Hl as [Hl _]. by exists l.
    - intros x Hne Hx%(Hmine x Hne). destruct Hx as [Hx Ho]. split; [|by rewrite Hc]. apply Ht2. split; [done|].
      intros [_ Hx']. destruct x; cbn in *. congruence. }
  unfold get_state. destruct (a_pi s1), (ics_CreatePrefix (spec (a_claim s1))); try (by apply Hend; left).
  destruct (_ && _); apply Hend; [by right|by left].
Qed.

Lemma update_routes_keeps rs : forall s, awf s -> NoDup (rt_Prefix <$> rs) -> Forall (mine s) rs ->
  exists s', forM rs update_route s = (s', Ok tt) /\ awf s' /\ a_claim s' = a_claim s.
Proof.
  induction rs as [|r rs IH]; intros s Hwf Hnd Hall; [by exists s|].
  apply Forall_cons in Hall as [[Hr _] Hall]. cbn in Hnd. apply NoDup_cons in Hnd as [Hnin Hnd].
  destruct (update_route_keeps r s Hwf) as (s1&H1&Hwf1&Hc1&Hmine); [by rewrite Hr|].
  destruct (IH s1 Hwf1 Hnd) as (s2&H2&Hwf2&Hc2).
  - rewrite Forall_forall in Hall |- *. intros x Hx. apply Hmine; [|by apply Hall].
    intros He. apply Hnin. rewrite <-He. by apply list_elem_of_fmap_2.
  - exists s2. split; [cbn [forM]; unfold mbind, M_bind; by rewrite H1|]. split; [done|]. congruence.
Qed.

(** The routes with the owner labels of a claim are its own. *)
Lemma routes_mine s rs : plain_selector (a_claim s) -> getRoutesByOwner s = Ok rs ->
  NoDup (rt_Prefix <$> rs) /\ Forall (mine s) rs.
Proof.
  intros Hp. unfold getRoutesByOwner. destruct (IPClaim_GetOwnerSelector (a_claim s)) as [sel|e|] eqn:Hs; [|done..].
  cbn [mbind result_bind]. destruct (_ && _); [done|]. intros [= <-].
  pose proof (view_GetByLabel sel (a_rib s)) as Hl. split; [by eapply lists_routes_prefixes|].
  apply Forall_forall. intros r [Hr Hm]%(proj2 Hl). split; [done|]. by eapply owned_nsn.
Qed.

Lemma updateRib_keeps s rs : awf s -> plain_selector (a_claim s) -> getRoutesByOwner s = Ok rs ->
  awf (updateRib rs s).1.
Proof.
  intros Hwf Hp [Hnd Hall]%routes_mine; [|done]. destruct (update_routes_keeps rs s Hwf Hnd Hall) as (s1&H1&Hwf1&_).
  unfold updateRib. unfold mbind at 1, M_bind. rewrite H1.
  match goal with |- awf (?m s1).1 => enough (Hk : keeps awf m) by by apply Hk end.
  keeps_auto; auto using keeps_set_claim.
  all: try (destruct (ics_CreatePrefix _); keeps_auto; apply keeps_set_claim).
Qed.

(** The prefix a claim is stored under: host bits are allowed in the prefix of a
    network, whose subnet and addresses are stored. *)
Definition stored_prefix_ok (claim : IPClaim) (pi : Prefix) : Prop :=
  Prefix_IsValid pi = true /\ addr_ok (p_addr pi) /\ (ics_Kind (spec claim) <> PrefixKindNetwork -> Masked pi = pi).

Lemma addRib_keeps s pi : awf s -> a_pi s = Some pi -> stored_prefix_ok (a_claim s) pi -> awf (addRib s).1.
Proof.
  intros Hwf Hpi (Hv&Hok&Hm).
  assert (Hr : exists routes, getMutatedRoutesWithLabels s = Ok routes /\ Forall (fun r => is_network (rt_Prefix r)) routes).
  { unfold getMutatedRoutesWithLabels. rewrite Hpi. cbn [deref mbind result_bind]. case_bool_decide as Hk.
    - destruct (ics_CreatePrefix _); eexists; (split; [reflexivity|]); [by apply network_routes_network|].
      apply Forall_cons. split; [by apply GetIPAddressPrefix_network|by apply Forall_nil].
    - eexists. split; [reflexivity|]. apply Forall_cons. split; [|by apply Forall_nil]. by split_and!; auto. }
  destruct Hr as (routes&Hr&Hall). destruct (addRib_spec s pi routes Hpi Hr Hall) as (s'&->&Htab&_).
  intros p [l Hp]. cbn [fst] in Hp. rewrite Htab, lookup_union_Some_raw in Hp. destruct Hp as [Hp|[_ Hp]].
  - apply Hwf. by exists l.
  - apply elem_of_list_to_map_2, list_elem_of_fmap in Hp as (r&[= -> ->]&Hin). rewrite Forall_forall in Hall. by apply Hall.
Qed.

(** ** Claims *)

(** A claim as it is decoded and sent: its selector does not name a claim, its
    prefix length is a byte, and the prefix in its status has no host bits. *)
Record claim_ok (claim : IPClaim) : Prop := {
  ok_plain : plain_selector claim;
  ok_length : match ics_PrefixLength (spec claim) with Some l => in_range uint8 l | None => True end;
  ok_status : forall prefix pi, ict_Prefix (status claim) = Some prefix -> iputil_New prefix = Ok pi ->
    ics_Kind (spec claim) <> PrefixKindNetwork -> Masked pi = pi
}.

Lemma ApplyPrefix_keeps s pi : awf s -> a_pi s = Some pi -> stored_prefix_ok (a_claim s) pi ->
  plain_selector (a_claim s) -> awf (ApplyPrefix s).1.
Proof.
  intros Hwf Hpi Hst Hp. unfold ApplyPrefix. rewrite get_bind, (lift_ok _ _ _ pi) by by rewrite Hpi.
  match goal with |- context [match ?x with Some _ => _ | None => addRib end] => destruct x end; [|by eapply addRib_keeps].
  unfold mbind, M_bind, lift. destruct (getRoutesByOwner s) as [rs|e|] eqn:Hrs; [|done..]. by apply updateRib_keeps.
Qed.

Lemma claim_free_prefix_keeps s : awf s -> claim_ok (a_claim s) -> awf (claim_free_prefix (getRoutesByLabel s) s).1.
Proof.
  intros Hwf Hc. unfold claim_free_prefix. rewrite get_bind. unfold mbind at 1, M_bind at 1, lift.
  destruct (index (getRoutesByLabel s) 0) as [r0|e|]; [|done..].
  set (len := getPrefixLengthFromRoute (a_claim s) r0).
  destruct (GetSelectedRouteWithPrefixLength _ _ _) as [parent|] eqn:Hsel; [|done].
  apply GetSelectedRoute_elem in Hsel as [Hin%getRoutesByLabel_elem _].
  assert (Hn : is_network (rt_Prefix parent)) by (apply Hwf; by rewrite Hin). destruct Hn as (Hpv&_&_).
  unfold NewPrefixInfo, GetIPPrefix. set (q := rib_GetAvailablePrefixByBitLen _ _ _).
  destruct (Prefix_IsValid q) eqn:Hq; [cbn [negb]|done].
  destruct (view_Available _ _ _ q eq_refl Hq Hpv) as (Hqn&Hqb&Hcont&_).
  eapply addRib_keeps; [exact Hwf|reflexivity|]. cbn [a_claim]. pose proof Hqn as (_&Hqok&Hqm).
  pose proof Hq as [Ha Hqbits]%Prefix_IsValid_spec.
  assert (Hlen : wrap uint8 len = len).
  { apply (wrap_unsigned uint8). change (it_size uint8) with 256. unfold len, getPrefixLengthFromRoute.
    pose proof (ok_length _ Hc) as Hl. destruct (ics_PrefixLength _) as [l|]; [|apply BitLen_bounds].
    unfold in_range in Hl. change (it_min uint8) with 0 in Hl. change (it_max uint8) with 255 in Hl. lia. }
  unfold stored_prefix_ok, updatePrefixInfo. case_bool_decide as Hk; [destruct (ics_CreatePrefix _)|].
  - by split_and!.
  - unfold contains_prefix in Hcont. rewrite !andb_true_iff, !bool_decide_eq_true in Hcont.
    destruct Hcont as [[[_ Hfam] _] _]. apply Prefix_IsValid_spec in Hpv as [_ Hpb].
    unfold NewPrefixInfo, GetPrefixLength, PrefixFrom. rewrite Hfam in Hpb. rewrite bool_decide_eq_true_2 by exact Hpb.
    assert (Addr_IsValid (p_addr q) = true) as -> by by destruct (p_addr q).
    split_and!; [by apply Prefix_IsValid_spec|done|done].
  - assert (PrefixFrom (p_addr q) len = q) as ->; [|by split_and!].
    rewrite Hlen in Hqb. unfold PrefixFrom. rewrite <-Hqb, bool_decide_eq_true_2 by done.
    destruct q as [[] ?]; done.
Qed.

Lemma ApplyDynamic_keeps s : awf s -> claim_ok (a_claim s) -> awf (ApplyDynamic s).1.
Proof.
  intros Hwf Hc. unfold ApplyDynamic. rewrite get_bind. unfold mbind at 1, M_bind at 1, lift.
  destruct (getRoutesByOwner s) as [[|r rs]|e|] eqn:Hrs; [|by apply updateRib_keeps; [|apply Hc|]|done..].
  pose proof (claim_free_prefix_keeps s Hwf Hc) as Hfree.
  destruct (getRoutesByLabel s) as [|r0 rs]; [done|].
  destruct (ict_Prefix _) as [prefix|] eqn:Hst; [|done]. unfold mbind at 1, M_bind at 1.
  destruct (iputil_New prefix) as [pi|e|] eqn:Hpi; [|done..]. destruct (Prefix_IsValid _); [|done].
  pose proof (ParsePrefix_valid _ _ Hpi) as [Hv Hok].
  eapply addRib_keeps; [exact Hwf|reflexivity|]. split_and!; [done..|]. by eapply ok_status.
Qed.

Lemma Delete_keeps s : awf s -> plain_selector (a_claim s) -> awf (Delete s).1.
Proof.
  intros Hwf Hp. destruct (IPClaim_GetOwnerSelector (a_claim s)) as [sel|e|] eqn:Hs.
  - destruct (Delete_routes s sel Hs (apart_plain _ _ _ _ Hs Hp) Hwf) as (s'&->&_&Ht). apply (table_wf_sub (tab s) _ Hwf).
    intros p [l Hl]. apply Ht in Hl as [Hl _]. by exists l.
  - unfold Delete. rewrite get_bind. unfold mbind, M_bind, lift. by rewrite Hs.
  - unfold Delete. rewrite get_bind. unfold mbind, M_bind, lift. by rewrite Hs.
Qed.

End Applicator.

(** ** Validation *)

(** A prefix claim that passes validation has no host bits, unless it is for a
    network. *)
Lemma validated_prefix `{L : LabelsAPI} `{R : !RIBAPI} claim (rib : RIB) prefix pi :
  iputil_New prefix = Ok pi ->
  prefix_Validate (NewPrefixValidator claim rib pi (prefix_oc (ics_Kind (spec claim)))) = Ok "" ->
  stored_prefix_ok claim pi.
Proof.
  intros [Hv Hok]%ParsePrefix_valid. unfold prefix_Validate, prefix_oc. cbn [pv_fnc].
  destruct (known_kind _); [|done]. cbn [deref mbind result_bind validateInputFn prefix_functions pv_claim pv_pi].
  intros [Hin _]%refuse_Ok. split; [done|]. split; [done|]. intros Hk. unfold validateInput in Hin.
  destruct (_ && IsAddressPrefix pi); [done|]. rewrite (bool_decide_eq_true_2 (_ <> _)) in Hin by exact Hk.
  unfold GetIPSubnet, GetIPPrefix in Hin. cbn [andb] in Hin. case_bool_decide as Hs; [done|].
  destruct (is_network_Masked pi Hv Hok) as (Hmv&Hmok&_). apply Prefix_String_inj; try done.
Qed.

(** ** The backend *)

(** What is read from an API server after a write is what was read before or what
    was written. *)
Class CMReads {S : Type} (c : CMClient S) : Prop := {
  reads_Create : forall cm s k cm', cmc_Get c k (cmc_Create c cm s).1 = Ok cm' ->
    cmc_Get c k s = Ok cm' \/ cm_Data cm' = cm_Data cm;
  reads_Update : forall cm s k cm', cmc_Get c k (cmc_Update c cm s).1 = Ok cm' ->
    cmc_Get c k s = Ok cm' \/ cm_Data cm' = cm_Data cm;
  reads_Delete : forall cm s k cm', cmc_Get c k (cmc_Delete c cm s).1 = Ok cm' -> cmc_Get c k s = Ok cm'
}.

Section Backend.
Context {W : Type} `{L : LabelsAPI} `{!LabelsLaws L} `{R : !RIBAPI} `{RS : !RIBSpec R} `{N : NetipxAPI} `{!NetipxLaws N}.
Context `{E : ErrorsAPI} {Callback : Type} (client : option (IpamClient W)).
Context (yaml : Codec (gmap string labels)) `{!CodecLaws yaml}.
Context (json_claim : Codec IPClaim) (json_ni : Codec NetworkInstance).
(** An empty document holds no entries. *)
Context (Hempty : forall m, Unmarshal yaml "" = Ok m -> m = ∅).
Context (Hreads : forall c, client = Some c -> CMReads (ic_ConfigMaps c)).
Implicit Types (s : istate W Callback) (w : W).

(** Saved data whose keys are the texts of networks. *)
Definition text_ok (b : string) : Prop := forall m, Unmarshal yaml b = Ok m ->
  map_Forall (fun k _ => forall p, ParsePrefix k = Ok p -> is_network p) m.

Definition data_ok (cm : ConfigMap) : Prop := text_ok (default "" (cm_Data cm !! ConfigMapKey)).

(** The config maps the backend restores from. *)
Definition stored_ok w : Prop := forall c ref cm, client = Some c ->
  cmc_Get (ic_ConfigMaps c) (NSN (ref_Namespace ref) ("ipam-" +:+ ref_Name ref)) w = Ok cm -> data_ok cm.

Definition tables_wf s : Prop := map_Forall (fun _ c => table_wf (view (instance c))) (i_cache s).

(** The invariant of the backend. *)
Definition ipam_inv s : Prop := tables_wf s /\ stored_ok (i_world s).

Lemma data_ok_empty ref prefix : data_ok (buildConfigMap ref prefix).
Proof. intros m ->%Hempty. apply map_Forall_empty. Qed.

(** *** Saving *)

Lemma text_ok_data b (data : gmap string labels) : Marshal yaml data = Ok b ->
  map_Forall (fun k _ => exists p, k = Prefix_String p /\ is_network p) data -> text_ok b.
Proof.
  intros Hb Hd m Hm. destruct (Unmarshal_Marshal data) as (b'&Hb'&Hu).
  rewrite Hb in Hb'. injection Hb' as <-. rewrite Hm in Hu. injection Hu as ->.
  intros k l (q&->&(Hv&Hok&Hmask))%Hd p. rewrite ParsePrefix_String by done. by intros [= <-].
Qed.

Lemma GetData_ok ref s : ipam_inv s -> (ipam_GetData yaml ref s).1 = s /\
  forall b, (ipam_GetData yaml ref s).2 = Ok b -> text_ok b.
Proof.
  intros [Hwf _]. unfold ipam_GetData. rewrite get_bind. unfold mbind, M_bind, lift.
  destruct (cache_Get ref false (i_cache s)) as [rib|e|] eqn:Hg; [|done..].
  apply cache_Get_Ok in Hg as (c&Hc&<-&_). specialize (Hwf _ _ Hc).
  set (data := foldl _ _ _). destruct (Marshal yaml data) as [b|e|] eqn:Hm; (split; [done|]); [|..|done].
  - intros ? [= <-]. apply (text_ok_data _ data Hm). intros k l Hk.
    pose proof (table_data_spec _ _ Hwf (view_GetTable (instance c))) as Hd. apply Hd in Hk as (p&->&Hp).
    exists p. split; [done|]. apply Hwf. by exists l.
  - intros ? [= <-] m ->%Hempty. apply map_Forall_empty.
Qed.

Lemma keeps_write (m : M W unit) : (forall w, stored_ok w -> stored_ok (m w).1) ->
  keeps ipam_inv (i_on_world (Callback := Callback) m).
Proof. intros Hm s [Hwf Hst]. specialize (Hm _ Hst). unfold i_on_world. destruct (m (i_world s)). by split. Qed.

Lemma keeps_Create_cm c cm : client = Some c -> data_ok cm ->
  keeps ipam_inv (i_on_world (Callback := Callback) (cmc_Create (ic_ConfigMaps c) cm)).
Proof.
  intros Hc Hd. apply keeps_write. intros w Hw c' ref cm' Hc' Hg. rewrite Hc in Hc'. injection Hc' as <-.
  apply (@reads_Create _ _ (Hreads c Hc)) in Hg as [Hg|Hg]; [by eapply Hw|]. unfold data_ok. by rewrite Hg.
Qed.

Lemma keeps_Update_cm c cm : client = Some c -> data_ok cm ->
  keeps ipam_inv (i_on_world (Callback := Callback) (cmc_Update (ic_ConfigMaps c) cm)).
Proof.
  intros Hc Hd. apply keeps_write. intros w Hw c' ref cm' Hc' Hg. rewrite Hc in Hc'. injection Hc' as <-.
  apply (@reads_Update _ _ (Hreads c Hc)) in Hg as [Hg|Hg]; [by eapply Hw|]. unfold data_ok. by rewrite Hg.
Qed.

Lemma keeps_Delete_cm c cm : client = Some c ->
  keeps ipam_inv (i_on_world (Callback := Callback) (cmc_Delete (ic_ConfigMaps c) cm)).
Proof.
  intros Hc. apply keeps_write. intros w Hw c' ref cm' Hc' Hg. rewrite Hc in Hc'. injection Hc' as <-.
  apply (@reads_Delete _ _ (Hreads c Hc)) in Hg. by eapply Hw.
Qed.

Lemma keeps_save c cm ref : client = Some c ->
  keeps ipam_inv (ipam_GetData (Callback := Callback) yaml ref ≫= fun b => log_error (i_on_world (cmc_Update (ic_ConfigMaps c)
    (MkConfigMap (cm_Namespace cm) (cm_Name cm) (cm_ResourceVersion cm) {[ConfigMapKey := b]})))).
Proof.
  intros Hc s Hs. destruct (GetData_ok ref s Hs) as [Hst Hb]. unfold mbind, M_bind.
  destruct (ipam_GetData yaml ref s) as [s' [b|e|]]; cbn in Hst; subst s'; [|done..].
  apply keeps_log_error; [|done]. apply keeps_Update_cm; [done|]. unfold data_ok. cbn [cm_Data].
  rewrite lookup_singleton_eq. by apply Hb.
Qed.

(** *** Restoring *)

Definition rwf (rib : RIB) : Prop := table_wf (view rib).

Lemma keeps_forM_break {S A} (I : S -> Prop) (l : list A) (f : A -> M S bool) :
  (forall x, keeps I (f x)) -> keeps I (forM_break l f).
Proof.
  intros Hf. induction l as [|x l IH]; [apply keeps_ret|]. cbn [forM_break]. apply keeps_bind; [done|].
  intros []; [apply keeps_ret|done].
Qed.

Section Route.
Context (k : string) (ls : labels) (Hk : forall p, ParsePrefix k = Ok p -> is_network p).

Lemma keeps_restore_route : keeps rwf (restore_route k ls).
Proof.
  apply keeps_bind_lift. intros p Hp. apply keeps_log_error.
  assert (Hn : is_network p).
  { apply Hk. unfold MustParsePrefix in Hp. destruct (ParsePrefix k); [by injection Hp as ->|done..]. }
  intros rib Hrib. destruct (view rib !! p) as [l|] eqn:Hl.
  - destruct (view_Add_dup (NewRoute p ls) rib) as (e&->&_); [done|by exists l|done].
  - destruct (view_Add_new (NewRoute p ls) rib) as (rib'&->&Hv); [done..|]. intros q. cbn [fst]. rewrite Hv. cbn [rt_Prefix].
    destruct (decide (p = q)) as [<-|Hne]; [done|]. rewrite lookup_insert_ne by done. apply Hrib.
Qed.

Lemma keeps_restore_once (b : bool) : keeps rwf (_ ← restore_route k ls; mret (M := M RIB) b).
Proof. apply keeps_bind; [apply keeps_restore_route|]. intros _. apply keeps_ret. Qed.

Lemma keeps_restorers : (forall cr, keeps rwf (restoreNetworkInstancePrefixes cr k ls)) /\
  (forall l, keeps rwf (restoreIPPrefixes l k ls)) /\ (forall l, keeps rwf (restorIPClaims l k ls)).
Proof.
  pose proof keeps_restore_route as H1. pose proof keeps_restore_once as H2.
  unfold restoreNetworkInstancePrefixes, restoreIPPrefixes, restorIPClaims. split_and!; intros l.
  - apply keeps_forM. intros x _. destruct (names_object _ _ _); [done|apply keeps_ret].
  - apply keeps_forM_break. intros x. destruct (names_object _ _ _); [|apply keeps_ret].
    case_bool_decide; [|done]. destruct (iputil_New _); [done|apply keeps_ret|apply keeps_panic].
  - apply keeps_forM_break. intros x. destruct (names_object _ _ _); [|apply keeps_ret].
    cbv zeta. case_bool_decide; [|done]. destruct (match ics_Prefix _ with Some _ => _ | None => _ end); [|done].
    destruct (iputil_New _); [done|apply keeps_ret|apply keeps_panic].
Qed.

End Route.

Lemma keeps_restorePrefixes claims input :
  map_Forall (fun k (_ : labels) => forall p, ParsePrefix k = Ok p -> is_network p) claims ->
  keeps rwf (restorePrefixes claims input).
Proof.
  intros Hc. unfold restorePrefixes. destruct input; apply keeps_forM; intros [k ls] Hin%elem_of_map_to_list;
    (case_bool_decide; [|apply keeps_ret]); by apply (keeps_restorers k ls (Hc _ _ Hin)).
Qed.

Lemma keeps_i_on_table {A} id (m : M RIB A) : keeps rwf m -> keeps ipam_inv (i_on_table (W := W) (Callback := Callback) id m).
Proof.
  intros Hm s [Hwf Hst]. unfold i_on_table. destruct (i_cache s !! id) as [c|] eqn:Hc; [|done].
  specialize (Hm (instance c) (Hwf _ _ Hc)). destruct (m (instance c)) as [t r]. split; [|done].
  by apply map_Forall_insert_2.
Qed.

Lemma keeps_i_on_cache (f : caches RIB -> caches RIB) :
  (forall c, map_Forall (fun _ c => table_wf (view (instance c))) c -> map_Forall (fun _ c => table_wf (view (instance c))) (f c)) ->
  keeps ipam_inv (i_on_cache (W := W) (Callback := Callback) (modify f)).
Proof. intros Hf s [Hwf Hst]. split; [|done]. by apply Hf. Qed.

Lemma keeps_ipam_RestoreData c ref cm : data_ok cm -> keeps ipam_inv (ipam_RestoreData (Callback := Callback) yaml c ref cm).
Proof.
  intros Hd. unfold ipam_RestoreData. apply keeps_bind_lift. intros claims Hcl%Hd.
  repeat first [apply keeps_bind_lift; intros ? _ | apply keeps_bind; [|intros ?] | apply keeps_get].
  all: by apply keeps_i_on_table, keeps_restorePrefixes.
Qed.

Lemma keeps_cm_store c st ref : client = Some c -> ipam_newCMStorage yaml c = Ok st ->
  keeps ipam_inv (st_Restore (S := istate W Callback) st ref) /\ keeps ipam_inv (st_SaveAll st ref) /\
  keeps ipam_inv (st_Destroy st ref).
Proof.
  intros Hc [= <-]. cbn [st_Restore st_SaveAll st_Destroy]. split_and!.
  - unfold cm_Restore. cbn [cfg_Client cfg_Prefix i_lift_cm cmc_Get cmc_Create]. intros s Hs.
    destruct (cmc_Get _ _ (i_world s)) as [cm|e|] eqn:Hg; [| |done].
    + apply keeps_ipam_RestoreData; [|done]. destruct Hs as [_ Hst]. eapply (Hst c ref); [done|exact Hg].
    + destruct (IsNotFound e); [|apply keeps_ipam_RestoreData; [apply data_ok_empty|done]].
      apply keeps_wrap_call; [|done]. apply keeps_Create_cm; [done|apply data_ok_empty].
  - unfold cm_SaveAll. cbn [cfg_Client cfg_Prefix i_lift_cm cmc_Get cmc_Create cmc_Update]. intros s Hs.
    destruct (cmc_Get _ _ (i_world s)) as [cm|e|]; [by apply keeps_save| |done].
    destruct (IsNotFound e); [|by apply keeps_save].
    apply keeps_wrap_call; [|done]. apply keeps_Create_cm; [done|apply data_ok_empty].
  - unfold cm_Destroy. cbn [cfg_Client i_lift_cm cmc_Delete]. apply keeps_log_error. by apply keeps_Delete_cm.
Qed.

Lemma keeps_ipam_store st ref : ipam_store client yaml = Ok st ->
  keeps ipam_inv (st_Restore (S := istate W Callback) st ref) /\ keeps ipam_inv (st_SaveAll st ref) /\
  keeps ipam_inv (st_Destroy st ref).
Proof.
  pose proof keeps_cm_store as Hcm. unfold ipam_store. destruct client as [c|]; [by apply Hcm|].
  intros [= <-]. split_and!; apply keeps_ret.
Qed.

(** *** Claims *)

Lemma keeps_applicator ini claim pi m s : ipam_inv s ->
  (forall a : applicator Callback, awf a -> a_claim a = claim -> a_pi a = pi -> awf (m a).1) ->
  ipam_inv (run_applicator (W := W) ini claim pi m s).1.
Proof.
  intros [Hwf Hst] Hm. unfold run_applicator. destruct (i_cache s !! _) as [c|] eqn:Hc; [|done].
  specialize (Hm (NewApplicator ini claim (instance c) pi (i_watcher s)) (Hwf _ _ Hc) eq_refl eq_refl).
  destruct (m _) as [a r]. split; [|done]. by apply map_Forall_insert_2.
Qed.

(** A runtime of a claim, and its answer to the validation. *)
Lemma runtime_applies claim op s : claim_ok claim -> (runtimes_Get claim false s).2 = Ok op ->
  (rt_Validate op s).1 = s /\ ((rt_Validate op s).2 = Ok "" -> ipam_inv s -> ipam_inv (rt_Apply op s).1) /\
  (ipam_inv s -> ipam_inv (rt_Delete op s).1).
Proof.
  intros Hok. unfold runtimes_Get, ipamDynamicRuntime_Get, ipamPrefixRuntime_Get. cbn [snd].
  assert (Hdel : forall ini, ipam_inv s -> ipam_inv (run_applicator ini claim None Delete s).1).
  { intros ini Hs. apply keeps_applicator; [done|]. intros a Ha Hcl _. apply Delete_keeps; [done|]. rewrite Hcl. apply Hok. }
  destruct (ics_Prefix (spec claim)) as [prefix|] eqn:Hpre; (destruct (cache_Get _ _ _) as [rib|e|]; [|done..]); cbn [mbind result_bind].
  - unfold NewPrefixRuntime. rewrite Hpre. cbn [deref mbind result_bind]. destruct (iputil_New prefix) as [pi|e|] eqn:Hpi; [|done..].
    cbn [mbind result_bind]. intros [= <-]. split; [done|]. cbn [rt_Validate rt_Apply rt_Delete]. split.
    + unfold prefixRuntime_Validate, runtime_rib. cbn [snd runtime_claim pr_claim pr_pi pr_fnc].
      destruct (i_cache s !! _) as [c|]; [|done]. cbn [mbind result_bind]. intros Hval Hs.
      pose proof (validated_prefix claim (instance c) prefix pi Hpi Hval) as Hsp.
      unfold prefixRuntime_Apply. cbn [pr_claim pr_initializing].
      rewrite (lift_ok _ _ _ prefix) by by rewrite Hpre. rewrite (lift_ok _ _ _ pi) by exact Hpi.
      apply keeps_applicator; [done|]. intros a Ha <- Hap. apply (ApplyPrefix_keeps _ pi); [done..|apply Hok].
    + intros Hs. unfold prefixRuntime_Delete, mbind, M_bind. cbn [pr_claim pr_initializing].
      specialize (Hdel false Hs). by destruct (run_applicator _ _ _ _ s) as [s' []].
  - intros [= <-]. split; [done|]. cbn [rt_Validate rt_Apply rt_Delete]. split.
    + intros _ Hs. apply keeps_applicator; [done|]. cbn [cr_claim]. intros a Ha <- _. by apply ApplyDynamic_keeps.
    + intros Hs. unfold claimRuntime_Delete, mbind, M_bind. cbn [cr_claim cr_initializing].
      specialize (Hdel false Hs). by destruct (run_applicator _ _ _ _ s) as [s' []].
Qed.

(** *** Requests *)

(** The requests a backend serves, and changes of the API server by others, who do
    not write the config maps of the backend. *)
Inductive ipam_step s : istate W Callback -> Prop :=
| istep_CreateIndex b : ipam_step s (ipam_CreateIndex client yaml json_ni b s).1
| istep_DeleteIndex b : ipam_step s (ipam_DeleteIndex client yaml json_ni b s).1
| istep_GetClaim b : ipam_step s (ipam_GetClaim json_claim b s).1
| istep_Claim b : (forall cr, Unmarshal json_claim b = Ok cr -> claim_ok cr) ->
    ipam_step s (ipam_Claim client yaml json_claim b s).1
| istep_DeleteClaim b : (forall cr, Unmarshal json_claim b = Ok cr -> claim_ok cr) ->
    ipam_step s (ipam_DeleteClaim client yaml json_claim b s).1
| istep_AddWatch k v fn : ipam_step s (ipam_AddWatch k v fn s).1
| istep_DeleteWatch k v : ipam_step s (ipam_DeleteWatch k v s).1
| istep_world w : stored_ok w -> ipam_step s (MkIState (i_cache s) (i_watcher s) (i_events s) w)
| istep_restart : ipam_step s (MkIState NewCache ∅ [] (i_world s)).

Lemma keeps_ipam_CreateIndex b : keeps ipam_inv (ipam_CreateIndex (Callback := Callback) client yaml json_ni b).
Proof.
  unfold ipam_CreateIndex. apply keeps_bind_lift. intros cr _. apply keeps_bind_lift. intros st Hst.
  apply keeps_bind.
  { apply keeps_i_on_cache. intros c Hc. unfold cache_Create. destruct (c !! _); [done|].
    apply map_Forall_insert_2; [|done]. cbn. rewrite view_New. intros p [l Hp]. by rewrite lookup_empty in Hp. }
  intros _. apply keeps_bind; [apply keeps_get|]. intros s. destruct (cache_IsInitialized _ _); [apply keeps_ret|].
  apply keeps_bind; [by eapply keeps_ipam_store|]. intros _ s' [Hwf Hw]. unfold i_on_cache, cache_SetInitialized.
  destruct (i_cache s' !! _) as [x|] eqn:Hx; [|done]. split; [|done]. apply map_Forall_insert_2; [exact (Hwf _ _ Hx)|done].
Qed.

Lemma keeps_ipam_DeleteIndex b : keeps ipam_inv (ipam_DeleteIndex (Callback := Callback) client yaml json_ni b).
Proof.
  unfold ipam_DeleteIndex. apply keeps_bind_lift. intros cr _. apply keeps_bind_lift. intros st Hst.
  apply keeps_bind; [|intros _; by eapply keeps_ipam_store]. apply keeps_i_on_cache. intros c Hc. by apply map_Forall_delete.
Qed.

Lemma GetClaim_state b s : (ipam_GetClaim json_claim b s).1 = s.
Proof.
  unfold ipam_GetClaim, mbind, M_bind, lift. destruct (Unmarshal json_claim b); [|done..].
  unfold runtimes_Get. match goal with |- context [match ?r with Ok _ => _ | Err _ => _ | Panic => _ end] => destruct r as [[]| |] end.
  - cbn [rt_Get]. unfold prefixRuntime_Get. by destruct (_ ≫= _).
  - cbn [rt_Get]. unfold claimRuntime_Get. by destruct (_ ≫= _).
  - done.
  - done.
Qed.

Section Request.
Context (b : string) (Hb : forall cr, Unmarshal json_claim b = Ok cr -> claim_ok cr).

Lemma keeps_ipam_Claim : keeps ipam_inv (ipam_Claim (Callback := Callback) client yaml json_claim b).
Proof.
  unfold ipam_Claim. apply keeps_bind_lift. intros cr Hcr%Hb. apply keeps_bind_lift. intros st Hst s Hs.
  unfold mbind at 1, M_bind at 1. pose proof (runtime_applies cr) as Hrt.
  assert (Hget : (runtimes_Get cr false s).1 = s) by done.
  destruct (runtimes_Get cr false s) as [s' [op|e|]] eqn:Hop; cbn in Hget; subst s'; [|done..].
  destruct (Hrt op s Hcr) as (Hv&Ha&_); [by rewrite Hop|]. unfold mbind at 1, M_bind at 1.
  destruct (rt_Validate op s) as [s' [msg|e|]]; cbn in Hv, Ha; subst s'; [|done..].
  case_bool_decide as Hm; [done|]. subst msg. specialize (Ha eq_refl Hs).
  unfold mbind at 1, M_bind at 1. destruct (rt_Apply op s) as [s' [cr'|e|]]; [|done..].
  apply keeps_bind; [by eapply keeps_ipam_store| |done]. intros _. apply keeps_lift.
Qed.

Lemma keeps_ipam_DeleteClaim : keeps ipam_inv (ipam_DeleteClaim (Callback := Callback) client yaml json_claim b).
Proof.
  unfold ipam_DeleteClaim. apply keeps_bind_lift. intros cr Hcr%Hb. apply keeps_bind_lift. intros st Hst s Hs.
  unfold mbind at 1, M_bind at 1. assert (Hget : (runtimes_Get cr false s).1 = s) by done.
  destruct (runtimes_Get cr false s) as [s' [op|e|]] eqn:Hop; cbn in Hget; subst s'; [|done..].
  destruct (runtime_applies cr op s Hcr) as (_&_&Hd); [by rewrite Hop|]. specialize (Hd Hs).
  unfold mbind, M_bind. destruct (rt_Delete op s) as [s' [u|e|]]; [|done..]. by apply (keeps_ipam_store st _ Hst).
Qed.

End Request.

Lemma ipam_step_inv s s' : ipam_step s s' -> ipam_inv s -> ipam_inv s'.
Proof.
  intros [b|b|b|b Hb|b Hb|k v fn|k v|w Hw|] Hs.
  - by apply keeps_ipam_CreateIndex.
  - by apply keeps_ipam_DeleteIndex.
  - by rewrite GetClaim_state.
  - by apply keeps_ipam_Claim.
  - by apply keeps_ipam_DeleteClaim.
  - done.
  - done.
  - by destruct Hs.
  - destruct Hs as [_ Hw]. split; [apply map_Forall_empty|done].
Qed.

(** C7. Whatever requests a backend has served since it started, with restarts and
    restores from its config maps, every route of every table it holds is stored
    under a valid prefix of its family with the host bits cleared, and so are the
    prefixes in the config maps it would restore from. The claims it is sent have a
    selector that names no claim, and a prefix in their status without host bits;
    nobody else writes its config maps. *)
Theorem ipam_tables_typed s w : stored_ok w -> rtc ipam_step (MkIState NewCache ∅ [] w) s ->
  (forall ref ini rib, cache_Get ref ini (i_cache s) = Ok rib -> table_wf (view rib)) /\ stored_ok (i_world s).
Proof.
  intros Hw Hs. assert (Hinv : ipam_inv s).
  { assert (H0 : ipam_inv (MkIState NewCache ∅ [] w)) by (split; [apply map_Forall_empty|done]). revert H0.
    clear Hw. induction Hs as [|s s1 s2 Hstep _ IH]; [done|]. intros H0. apply IH. by eapply ipam_step_inv. }
  destruct Hinv as [Hwf Hst]. split; [|done]. intros ref ini rib (c&Hc&<-&_)%cache_Get_Ok. exact (Hwf _ _ Hc).
Qed.

End Backend.
