(* ===== verification/IpamServe.v ===== *)
(** * pkg/backend/ipam: a claim and its release, from the request to the config map

    The operations of the backend put together. A claim that the backend chooses a
    prefix for is decoded, validated and applied to the table of its network instance,
    the table is saved, and the claim with its prefix is the answer. A release is
    decoded and applied to the table, and the table is saved. *)

From S2P Require Import Prelude Strconv Meta Labels Conditions KRM NetIP NetIPText IPUtil Rib Backend IpamApi IpamValidate IpamWatcher IpamApply IpamClaims IpamBackend IpamRestore.

Local Open Scope Z_scope.

Section Serve.
Context {W : Type} `{L : LabelsAPI} `{R : !RIBAPI} `{RS : !RIBSpec R} `{N : NetipxAPI} `{!NetipxLaws N} `{E : ErrorsAPI}.
Context {Callback : Type}.
Context (c : IpamClient W) (cms : W -> gmap NamespacedName ConfigMap) `{!CMClientLaws (ic_ConfigMaps c) cms}.
Context (yaml : Codec (gmap string labels)) `{!CodecLaws yaml} (json_claim : Codec IPClaim) `{!CodecLaws json_claim}.
Implicit Types (s : istate W Callback).

Definition ipam_key (ref : ObjectReference) : NamespacedName :=
  NSN (ref_Namespace ref) ("ipam" +:+ "-" +:+ ref_Name ref).

(** A save writes the routes of the table into the config map. *)
Lemma ipam_SaveAll_spec s ref rib cm : i_cache s !! ref = Some (MkCacheContext true rib) -> table_wf (view rib) ->
  cms (i_world s) !! ipam_key ref = Some cm ->
  forall st, ipam_store (Some c) yaml = Ok st ->
  exists w cm' b data, st_SaveAll st ref s = (MkIState (i_cache s) (i_watcher s) (i_events s) w, Ok tt) /\
    cms w !! ipam_key ref = Some cm' /\ cm_Data cm' !! ConfigMapKey = Some b /\
    Unmarshal yaml b = Ok data /\ data_of (view rib) data.
Proof.
  intros Hr Hwf Hcm st [= <-]. set (data := table_data (rib_GetTable rib)).
  destruct (Unmarshal_Marshal data) as (b&Hm&Hu). pose proof (cmc_keys _ _ _ Hcm) as Hkey.
  destruct (cmc_Update_found (i_world s) (MkConfigMap (cm_Namespace cm) (cm_Name cm)
    (cm_ResourceVersion cm) {[ConfigMapKey := b]}) cm) as (w&v&Hup&Hview).
  { cbn. by rewrite <-Hkey. }
  cbn in Hview. rewrite <-Hkey in Hview. exists w, (MkConfigMap (cm_Namespace cm) (cm_Name cm) v {[ConfigMapKey := b]}), b, data.
  split; [|split; [by rewrite Hview, lookup_insert_eq|split; [apply lookup_singleton_eq|split; [done|]]]].
  2:{ apply table_data_spec; [done|apply view_GetTable]. }
  cbn [st_SaveAll]. unfold cm_SaveAll. cbn [cfg_Client cfg_Prefix i_lift_cm cmc_Get].
  change (cm_key _ ref) with (ipam_key ref). rewrite (cmc_Get_found _ _ _ Hcm).
  assert (Hget : ipam_GetData yaml ref s = (s, Ok b)).
  { unfold ipam_GetData. rewrite get_bind, (lift_ok _ _ _ rib) by (unfold cache_Get; by rewrite Hr).
    fold (table_data (rib_GetTable rib)). fold data. by rewrite Hm. }
  rewrite (bind_ok _ _ _ _ _ Hget). unfold log_error. cbn [cmc_Update i_lift_cm]. unfold i_on_world. by rewrite Hup.
Qed.

(** The claim has no routes, and the route its selector finds has a free prefix of
    the length it asks for. *)
Record free_place (claim : IPClaim) (rib : RIB) (fam : Z) (parent : Route) (q : Prefix) : Prop := {
  fp_wf : table_wf (view rib);
  fp_new : getRoutesByOwner (NewApplicator (Callback := Callback) false claim rib None ∅) = Ok [];
  fp_status : ict_Prefix (status claim) = None;
  fp_single : has_create claim = false \/ ics_Kind (spec claim) <> PrefixKindNetwork;
  fp_family : Forall (fun r => BitLen (p_addr (rt_Prefix r)) = fam)
    (getRoutesByLabel (NewApplicator (Callback := Callback) false claim rib None ∅));
  fp_length : match ics_PrefixLength (spec claim) with
    | Some l => 0 <= l < 256 /\ ics_Kind (spec claim) <> PrefixKindNetwork | None => True end;
  fp_parent : GetSelectedRouteWithPrefixLength claim
    (getRoutesByLabel (NewApplicator (Callback := Callback) false claim rib None ∅)) (claim_length claim fam) = Some parent;
  fp_free : rib_GetAvailablePrefixByBitLen (rt_Prefix parent) (claim_length claim fam) rib = q;
  fp_valid : Prefix_IsValid q = true;
  fp_inside : p_bits (rt_Prefix parent) < claim_length claim fam
}.

(** What the prefix that is handed out is to the table. *)
Definition fresh_in (m : gmap Prefix labels) (parent : Route) (q : Prefix) : Prop :=
  m !! q = None /\ is_network q /\ more_specific (rt_Prefix parent) q = true /\
  m !! rt_Prefix parent = Some (rt_Labels parent) /\
  forall p, is_Some (m !! p) -> more_specific (rt_Prefix parent) p = true -> overlaps q p = false.

Lemma ipam_Claim_dynamic b claim s rib cm fam parent q :
  let ref := IPClaim_GetCacheID claim in
  Unmarshal json_claim b = Ok claim -> ics_Prefix (spec claim) = None ->
  known_kind (ics_Kind (spec claim)) = true -> validateInput claim None = "" ->
  i_cache s !! ref = Some (MkCacheContext true rib) -> cms (i_world s) !! ipam_key ref = Some cm ->
  free_place claim rib fam parent q ->
  exists w rib' b' claim',
    ipam_Claim (Some c) yaml json_claim b s =
      (MkIState (<[ref := MkCacheContext true rib']> (i_cache s)) (i_watcher s) (i_events s) w, Ok b') /\
    Unmarshal json_claim b' = Ok claim' /\
    ict_Prefix (status claim') = Some (Prefix_String (shown_prefix claim parent q)) /\
    p_bits q = claim_length claim fam /\ fresh_in (view rib) parent q /\
    view rib' = <[q := claim_labels claim (shown_prefix claim parent q)]> (view rib) /\
    exists cm' text data, cms w !! ipam_key ref = Some cm' /\ cm_Data cm' !! ConfigMapKey = Some text /\
      Unmarshal yaml text = Ok data /\ data_of (view rib') data.
Proof.
  intros ref Hb Hp Hk Hval Hr Hcm [F1 F2 F3 F4 F5 F6 F7 F8 F9 F10].
  set (a := NewApplicator false claim rib None (i_watcher s)).
  destruct (ApplyDynamic_fresh a fam parent q F1 F2 F3 F4 F5 F6 F7 F8 F9 F10)
    as (a'&Happ&Htab&Hnone&Hnet&Hbits&Hms&Hpar&Hfree&Hst&(Hobj&Hspec&_)&Hev).
  set (s' := MkIState (<[ref := MkCacheContext true (a_rib a')]> (i_cache s)) (i_watcher s) (i_events s) (i_world s)).
  assert (Hwf' : table_wf (view (a_rib a'))).
  { intros p Hpp. unfold tab in Htab. rewrite Htab in Hpp. destruct (decide (q = p)) as [<-|Hne]; [done|].
    rewrite lookup_insert_ne in Hpp by done. by apply F1. }
  assert (exists st, ipam_store (Callback := Callback) (Some c) yaml = Ok st) as [st Hstore] by (eexists; reflexivity).
  destruct (ipam_SaveAll_spec s' ref (a_rib a') cm (lookup_insert_eq _ _ _) Hwf' Hcm st Hstore)
    as (w&cm'&text&data&Hsave&Hcm'&Htext&Hu&Hdata).
  destruct (Unmarshal_Marshal (a_claim a')) as (b'&Hm&Hu').
  exists w, (a_rib a'), b', (a_claim a').
  split; [|split; [exact Hu'|split; [exact Hst|split; [exact Hbits|split; [|split; [exact Htab|]]]]]].
  - set (op := DynamicRuntime (MkClaimRuntime false claim (dynamic_oc (ics_Kind (spec claim))))).
    assert (Hget : runtimes_Get claim false s = (s, Ok op)).
    { unfold runtimes_Get, ipamDynamicRuntime_Get. rewrite Hp. fold ref. unfold cache_Get. by rewrite Hr. }
    assert (Hv : rt_Validate op s = (s, Ok "")).
    { cbn [op rt_Validate]. unfold claimRuntime_Validate, runtime_rib. cbn [runtime_claim cr_claim cr_fnc]. fold ref. rewrite Hr.
      cbn [mbind result_bind]. unfold claim_Validate, dynamic_oc. cbn [cv_fnc]. rewrite Hk.
      cbn [deref mbind result_bind dv_validateInputFn cv_claim]. by rewrite Hval. }
    assert (Ha : rt_Apply op s = (s', Ok (a_claim a'))).
    { cbn [op rt_Apply]. unfold claimRuntime_Apply, run_applicator. cbn [cr_claim cr_initializing]. fold ref. rewrite Hr.
      cbn [instance initialized]. fold a. rewrite Happ, Hev. cbn [a a_events NewApplicator]. by rewrite app_nil_r. }
    unfold ipam_Claim. rewrite (lift_ok _ _ _ _ Hb), (lift_ok _ _ _ _ Hstore), (bind_ok _ _ _ _ _ Hget), (bind_ok _ _ _ _ _ Hv).
    rewrite bool_decide_eq_false_2 by (intros []; done). rewrite (bind_ok _ _ _ _ _ Ha).
    assert (IPClaim_GetCacheID (a_claim a') = ref) as -> by (unfold IPClaim_GetCacheID; by rewrite Hspec).
    rewrite (bind_ok _ _ _ _ _ Hsave). unfold lift. by rewrite Hm.
  - exact (conj Hnone (conj Hnet (conj Hms (conj Hpar Hfree)))).
  - exists cm', text, data. exact (conj Hcm' (conj Htext (conj Hu Hdata))).
Qed.

(** The release of a claim: it is decoded, its routes are taken out of the table of
    its network instance and the table is saved. None of them is deleted with another one. *)
Lemma ipam_DeleteClaim_spec `{!LabelsLaws L} b claim s rib cm sel :
  let ref := IPClaim_GetCacheID claim in
  Unmarshal json_claim b = Ok claim ->
  (forall p, ics_Prefix (spec claim) = Some p -> exists pi, iputil_New p = Ok pi) ->
  i_cache s !! ref = Some (MkCacheContext true rib) -> cms (i_world s) !! ipam_key ref = Some cm ->
  IPClaim_GetOwnerSelector claim = Ok sel -> apart false claim (rib_GetByLabel sel rib) -> table_wf (view rib) ->
  exists w rib' evs,
    ipam_DeleteClaim (Some c) yaml json_claim b s =
      (MkIState (<[ref := MkCacheContext true rib']> (i_cache s)) (i_watcher s) (i_events s ++ evs) w, Ok tt) /\
    after_release false claim sel (view rib) (view rib') /\
    exists cm' text data, cms w !! ipam_key ref = Some cm' /\ cm_Data cm' !! ConfigMapKey = Some text /\
      Unmarshal yaml text = Ok data /\ data_of (view rib') data.
Proof.
  intros ref Hb Hpre Hr Hcm Hsel Hap Hwf.
  set (a := NewApplicator false claim rib None (i_watcher s)).
  destruct (Delete_spec a sel Hsel Hap Hwf) as (a'&Hdel&_&Hrel).
  set (s' := MkIState (<[ref := MkCacheContext true (a_rib a')]> (i_cache s)) (i_watcher s) (i_events s ++ a_events a') (i_world s)).
  assert (exists st, ipam_store (Callback := Callback) (Some c) yaml = Ok st) as [st Hstore] by (eexists; reflexivity).
  destruct (ipam_SaveAll_spec s' ref (a_rib a') cm (lookup_insert_eq _ _ _) (after_release_wf _ _ _ _ _ Hrel Hwf) Hcm st Hstore)
    as (w&cm'&text&data&Hsave&Hcm'&Htext&Hu&Hdata).
  exists w, (a_rib a'), (a_events a'). split; [|split; [exact Hrel|]].
  2:{ exists cm', text, data. exact (conj Hcm' (conj Htext (conj Hu Hdata))). }
  assert (Hrun : run_applicator false claim None Delete s = (s', Ok (a_claim a'))).
  { unfold run_applicator. fold ref. rewrite Hr. cbn [instance initialized]. fold a. by rewrite Hdel. }
  assert (exists op, runtimes_Get claim false s = (s, Ok op) /\ rt_Delete op s = (s', Ok tt)) as (op&Hop&Hrt).
  { unfold runtimes_Get, ipamDynamicRuntime_Get, ipamPrefixRuntime_Get, cache_Get. fold ref. rewrite Hr.
    destruct (ics_Prefix (spec claim)) as [p|] eqn:Hp; [destruct (Hpre p eq_refl) as [pi Hpi]|]; eexists; split.
    1: { cbn [mbind result_bind initialized instance negb andb]. unfold NewPrefixRuntime. rewrite Hp.
         cbn [deref mbind result_bind]. rewrite Hpi. reflexivity. }
    2: reflexivity.
    all: cbn [rt_Delete]; unfold prefixRuntime_Delete, claimRuntime_Delete; cbn [pr_initializing pr_claim cr_initializing cr_claim];
      by rewrite (bind_ok _ _ _ _ _ Hrun). }
  unfold ipam_DeleteClaim. rewrite (lift_ok _ _ _ _ Hb), (lift_ok _ _ _ _ Hstore), (bind_ok _ _ _ _ _ Hop), (bind_ok _ _ _ _ _ Hrt).
  exact Hsave.
Qed.

End Serve.
