(* ===== verification/IpamWitness.v ===== *)
(** * The IPAM backend at concrete inputs

    Sample claims on a table kept as a finite map, at which the theorems of
    [IpamValidate], [IpamClaims], [IpamRestore] and
    [IpamInvariant] are applied. *)

From stdpp Require Import relations.
From S2P Require Import Prelude Strconv Meta Labels Conditions KRM NetIP IPUtil Rib Backend TestWorld IpamApi IpamValidate IpamWatcher IpamApply IpamClaims IpamBackend IpamRestore IpamInvariant.

Local Open Scope Z_scope.
#[local] Existing Instance list_labels.
#[local] Existing Instance map_rib.
#[local] Existing Instance map_rib_spec.
#[local] Existing Instance test_netipx.

(** ** Sample claims *)

Definition vpc : ObjectReference := ObjRef "" "dummy" "vpc" "" "" "" "".

(** A claim of the object [name] of the kind [owner]. *)
Definition sample_ipclaim (owner kind name : string) (prefix : option string) (len : option Z) (create : option bool)
    (sel : labels) (st : option string) : IPClaim :=
  IPClaim_AddOwnerLabelsToCR (BuildIPClaim
    (MkObjectMeta name "" "dummy" "" "" None (Some {[NephioOwnerGvkKey := owner]}) None [] [])
    (MkIPClaimSpec kind vpc None prefix len None create
       (MkClaimLabels (MkUserDefinedLabels None) (Some (MkLabelSelector sel))))
    (MkIPClaimStatus (MkConditionedStatus []) st None None)).

(** The aggregate of the network instance, a network prefix in it, addresses. *)
Definition claim_aggregate : IPClaim :=
  sample_ipclaim NetworkInstanceKindGVKString PrefixKindAggregate "agg" (Some "10.0.0.0/16") None (Some true) ∅ None.
Definition claim_network : IPClaim :=
  sample_ipclaim IPPrefixKindGVKString PrefixKindNetwork "net" (Some "10.0.0.10/24") None (Some true) ∅ None.
Definition claim_address : IPClaim :=
  sample_ipclaim IPClaimKindGVKString PrefixKindNetwork "addr" None None None {[NephioPrefixKindKey := "network"]} None.
Definition claim_loopback : IPClaim :=
  sample_ipclaim IPClaimKindGVKString PrefixKindLoopback "lo" None None None {[NephioPrefixKindKey := "aggregate"]} None.

(** The routes of a table, in text. *)
Definition show (m : gmap Prefix labels) : list (string * string) :=
  (fun '(p, l) => (Prefix_String p, label_get l NephioNsnNameKey)) <$> map_to_list m.

Definition as_rib (m : gmap Prefix labels) : @RIB list_labels map_rib := m.

(** One claim after the other, by the applicator. *)
Definition claim_static (cl : IPClaim) (p : string) (m : gmap Prefix labels) : applicator nat * result unit :=
  match ParsePrefix p with
  | Ok pi => ApplyPrefix (NewApplicator false cl (as_rib m) (Some pi) ∅)
  | _ => (NewApplicator false cl (as_rib m) None ∅, Panic)
  end.

Definition claim_dynamic (cl : IPClaim) (m : gmap Prefix labels) : applicator nat * result unit :=
  ApplyDynamic (NewApplicator false cl (as_rib m) None ∅).

Definition table_1 : gmap Prefix labels := a_rib (claim_static claim_aggregate "10.0.0.0/16" ∅).1.
Definition table_2 : gmap Prefix labels := a_rib (claim_static claim_network "10.0.0.10/24" table_1).1.

(** A small aggregate, with an address claimed in it. *)
Definition table_3 : gmap Prefix labels := a_rib (claim_static claim_aggregate "10.1.0.0/28" ∅).1.
Definition table_4 : gmap Prefix labels := a_rib (claim_dynamic claim_loopback table_3).1.

(** A claim of a given prefix of kind loopback, and one for an address of the
    network with another mask. *)
Definition claim_lo_static : IPClaim :=
  sample_ipclaim IPClaimKindGVKString PrefixKindLoopback "lo" (Some "10.1.0.3/32") None None ∅ None.
Definition claim_other_mask : IPClaim :=
  sample_ipclaim IPClaimKindGVKString PrefixKindNetwork "other" (Some "10.0.0.10/25") None None ∅ None.
Definition claim_refresh : IPClaim :=
  sample_ipclaim IPClaimKindGVKString PrefixKindLoopback "lo2" None None None
    {[NephioPrefixKindKey := "aggregate"]} (Some "10.1.0.0/32").

Definition P (n b : Z) : Prefix := MkPrefix (V4 n) b.
Definition net10 : Z := 10 * 2 ^ 24.
Definition net10_1 : Z := net10 + 2 ^ 16.

Definition app (cl : IPClaim) (m : gmap Prefix labels) (pi : option Prefix) : applicator nat :=
  NewApplicator false cl (as_rib m) pi ∅.

(** *** Facts about all routes of a table, by evaluation *)

Lemma table_all (Q : Prefix -> labels -> Prop) (m : gmap Prefix labels) :
  Forall (fun kv => Q kv.1 kv.2) (map_to_list m) -> forall p l, m !! p = Some l -> Q p l.
Proof. intros Hall p l Hp. rewrite Forall_forall in Hall. by apply (Hall (p, l)), elem_of_map_to_list. Qed.

Lemma table_keys (Q : Prefix -> Prop) (m : gmap Prefix labels) :
  Forall (fun kv => Q kv.1) (map_to_list m) -> forall p, is_Some (m !! p) -> Q p.
Proof. intros Hall p [l Hp]. by apply (table_all (fun p _ => Q p) m Hall p l). Qed.

#[local] Instance is_network_dec p : Decision (is_network p).
Proof. unfold is_network. apply _. Defined.

(** ** Witnesses: validation *)

Lemma validate_new_prefix_witness :
  prefix_Validate (validator claim_network (as_rib table_1) (P (net10 + 10) 24)) = Ok "".
Proof.
  apply (validate_new_prefix claim_network (as_rib table_1) (P (net10 + 10) 24)).
  - by_compute.
  - by_compute.
  - by_compute.
  - refine (table_keys is_network table_1 _). by_compute.
  - by_compute.
  - refine (table_keys (fun p => more_specific (Masked (P (net10 + 10) 24)) p = false) table_1 _). by_compute.
  - split; [by_compute|]. right.
    exists (NewRoute (P net10 16) (default ∅ (table_1 !! P net10 16))). split; [split; [|split]|].
    + by_compute.
    + by_compute.
    + refine (table_keys (fun p => more_specific p (Masked (P (net10 + 10) 24)) = true -> p_bits p <= 16) table_1 _).
      by_compute.
    + by_compute.
Defined.

(** An address that another claim has is refused. *)
Lemma validate_existing_prefix_witness :
  prefix_Validate (validator claim_lo_static (as_rib table_2) (P (net10 + 10) 32)) <> Ok "".
Proof.
  intros [_ Ho]%(validate_existing_prefix claim_lo_static (as_rib table_2) (P (net10 + 10) 32)
    (default ∅ (table_2 !! P (net10 + 10) 32))).
  - by vm_compute in Ho.
  - by_compute.
  - by_compute.
  - by_compute.
  - by_compute.
Defined.

(** ** Witnesses: claims *)

Lemma network_claim_reserves_witness :
  exists s', ApplyPrefix (app claim_network table_1 (Some (P (net10 + 10) 24))) = (s', Ok tt) /\
    P (net10 + 255) 32 ∈ dom (tab s').
Proof.
  destruct (network_claim_reserves (app claim_network table_1 (Some (P (net10 + 10) 24))) (P (net10 + 10) 24))
    as (s'&Hs'&_&Hdom&_).
  - reflexivity.
  - by_compute.
  - by_compute.
  - by_compute.
  - by_compute.
  - by_compute.
  - by_compute.
  - exists s'. split; [exact Hs'|]. rewrite Hdom. apply elem_of_union_r.
    assert (P (net10 + 255) 32 = GetLastIPPrefix (P (net10 + 10) 24)) as -> by by_compute.
    apply elem_of_union_r, elem_of_singleton. reflexivity.
Defined.

Lemma dynamic_claim_fresh_witness :
  exists s', ApplyDynamic (app claim_loopback table_3 None) = (s', Ok tt) /\
    ict_Prefix (status (a_claim s')) = Some "10.1.0.0/32".
Proof.
  destruct (dynamic_claim_fresh (app claim_loopback table_3 None) 32
    (NewRoute (P net10_1 28) (default ∅ (table_3 !! P net10_1 28))) (P net10_1 32)) as (s'&Hs'&_&_&_&_&_&_&_&Hst).
  - refine (table_keys is_network table_3 _). by_compute.
  - vm_compute. reflexivity.
  - reflexivity.
  - left. reflexivity.
  - by_compute.
  - exact I.
  - vm_compute. reflexivity.
  - by_compute.
  - by_compute.
  - by_compute.
  - exists s'. split; [exact Hs'|]. rewrite Hst. by_compute.
Defined.

Lemma dynamic_refresh_duplicate_witness :
  exists s', ApplyDynamic (app claim_refresh table_4 None) = (s', Ok tt) /\ tab s' = table_4 /\
    ict_Prefix (status (a_claim s')) = Some "10.1.0.0/32".
Proof.
  destruct (dynamic_refresh_duplicate (app claim_refresh table_4 None) "10.1.0.0/32" (P net10_1 32)
    (default ∅ (table_4 !! P net10_1 32))) as (s'&Hs'&Ht&Hst).
  - vm_compute. reflexivity.
  - by vm_compute.
  - left. reflexivity.
  - reflexivity.
  - by_compute.
  - by_compute.
  - by_compute.
  - by_compute.
  - by_compute.
  - exists s'. split; [exact Hs'|]. split; [exact Ht|]. rewrite Hst. by_compute.
Defined.

Lemma dynamic_claim_stable_witness :
  exists s' l, ApplyDynamic (app claim_loopback table_4 None) = (s', Ok tt) /\ tab s' = <[P net10_1 32 := l]> table_4 /\
    ict_Prefix (status (a_claim s')) = Some "10.1.0.0/32".
Proof.
  destruct (dynamic_claim_stable (app claim_loopback table_4 None)
    (NewRoute (P net10_1 32) (default ∅ (table_4 !! P net10_1 32)))) as (s'&l&Hs'&Ht&_&_&Hst).
  - refine (table_keys is_network table_4 _). by_compute.
  - vm_compute. reflexivity.
  - reflexivity.
  - exists s', l. split; [exact Hs'|]. split; [exact Ht|]. rewrite Hst; by_compute.
Defined.

(** An address in use is claimed with another mask: the claim is accepted by the
    validation, and panics. *)
Lemma ApplyPrefix_panics_witness :
  prefix_Validate (validator claim_other_mask (as_rib table_2) (P (net10 + 10) 25)) = Ok "" /\
  (ApplyPrefix (app claim_other_mask table_2 (Some (P (net10 + 10) 25)))).2 = Panic.
Proof.
  split; [by_compute|].
  apply (ApplyPrefix_panics _ (P (net10 + 10) 25) (default ∅ (table_2 !! P (net10 + 10) 32))).
  - reflexivity.
  - by_compute.
  - by_compute.
  - by_compute.
  - by_compute.
  - by_compute.
  - vm_compute. reflexivity.
Defined.

(** A network prefix that is created through a selector that names the claim of the
    aggregate, as the selectors of link prefixes do, and the table with its routes. *)
Definition claim_link : IPClaim :=
  sample_ipclaim IPClaimKindGVKString PrefixKindNetwork "link" (Some "10.0.0.10/24") None (Some true)
    {[NephioNsnNameKey := "agg"; NephioNsnNamespaceKey := "dummy"]} None.
Definition table_link : gmap Prefix labels := a_rib (claim_static claim_link "10.0.0.10/24" table_1).1.

Lemma map_rib_reports_missing : reports_missing (R := map_rib).
Proof. intros rt rib Hr. cbn in Hr |- *. rewrite Hr. by eexists _, _. Qed.

#[local] Instance apart_dec ini claim rs : Decision (apart ini claim rs).
Proof.
  induction rs as [|r rs [IH|IH]]; [left; constructor| |right; by inversion 1].
  destruct (decide (Forall (fun c => ~ (ini = false /\ has_create claim = true /\ IsAddressPrefix (rt_Prefix r) = false /\
    more_specific (rt_Prefix r) (rt_Prefix c) = true /\ other_nsn claim c = true)) rs)) as [Hr|Hr].
  - left. by constructor.
  - right. by inversion 1.
Defined.

(** A network is released with all its routes; the network of a link is not released: its
    addresses are deleted with its subnet, and deleting them again fails. *)
Lemma Delete_exact_witness :
  (exists s', Delete (app claim_network table_2 None) = (s', Ok tt) /\ tab s' !! P net10 24 = None /\
    is_Some (tab s' !! P net10 16)) /\
  exists s' e, Delete (app claim_link table_link None) = (s', Err e).
Proof.
  split.
  - destruct (IPClaim_GetOwnerSelector claim_network) as [sel|e|] eqn:Hsel; [|by vm_compute in Hsel..].
    destruct (Delete_exact (app claim_network table_2 None) sel Hsel) as (Hok&_&Hap).
    { refine (table_keys is_network table_2 _). by_compute. }
    destruct Hok as (s'&Hs'&Ht); [apply Hap; right; right; split; by_compute|].
    exists s'. split; [exact Hs'|]. vm_compute in Hsel. injection Hsel as <-. split.
    + apply eq_None_not_Some. intros [l Hl]. apply Ht in Hl as (Hl&Hm&_). change (table_2 !! P net10 24 = Some l) in Hl.
      assert (l = default ∅ (table_2 !! P net10 24)) as -> by (rewrite Hl; reflexivity). clear Hl.
      vm_compute in Hm. discriminate Hm.
    + exists (default ∅ (table_2 !! P net10 16)). apply Ht. split; [by_compute|]. split; [by_compute|].
      intros (p'&l'&Hl'&_&_&_&_&Hms&_). revert Hms. cbn [rt_Prefix].
      assert (Hno : more_specific p' (P net10 16) = false).
      { refine (table_keys (fun p => more_specific p (P net10 16) = false) table_2 _ p' _); [by_compute|].
        exists l'. exact Hl'. }
      by rewrite Hno.
  - destruct (IPClaim_GetOwnerSelector claim_link) as [sel|e|] eqn:Hsel; [|by vm_compute in Hsel..].
    destruct (Delete_exact (app claim_link table_link None) sel Hsel) as (_&Hfail&_).
    { refine (table_keys is_network table_link _). by_compute. }
    apply Hfail; [|exact map_rib_reports_missing]. vm_compute in Hsel. injection Hsel as <-. by_compute.
Defined.

Lemma prefix_claim_release_witness :
  exists s1, ApplyPrefix (app claim_lo_static table_3 (Some (P (net10_1 + 3) 32))) = (s1, Ok tt) /\
    exists s2, Delete (NewApplicator (Callback := nat) false (a_claim s1) (a_rib s1) None ∅) = (s2, Ok tt) /\ tab s2 = table_3.
Proof.
  destruct (IPClaim_GetOwnerSelector claim_lo_static) as [sel|e|] eqn:Hsel; [|by vm_compute in Hsel..].
  destruct (prefix_claim_release (app claim_lo_static table_3 (Some (P (net10_1 + 3) 32)))
    (P (net10_1 + 3) 32) (P (net10_1 + 3) 32) sel) as (s1&H1&_&_&s2&H2&_&Ht).
  - reflexivity.
  - left. reflexivity.
  - by_compute.
  - by_compute.
  - refine (table_keys is_network table_3 _). by_compute.
  - by_compute.
  - exact Hsel.
  - apply add_owner_labels_owned.
  - vm_compute in Hsel. injection Hsel as <-. refine (table_all (fun _ l => Matches _ l = false) table_3 _). by_compute.
  - exists s1. split; [exact H1|]. exists s2. split; [exact H2|]. apply Ht. left. reflexivity.
Defined.

(** ** Witnesses: the backend *)

Definition test_ipam : IpamClient api := MkIpamClient api test_cms (fun _ => Ok []) (fun _ => Ok [claim_loopback]).
Definition yaml_codec : Codec (gmap string labels) := bits_codec (gmap string labels).
#[local] Instance yaml_codec_laws : CodecLaws yaml_codec := bits_codec_laws _.

(** The backend before a restart, and after it, before the table is restored. *)
Definition state_with (ini : bool) (m : gmap Prefix labels) : istate api nat :=
  MkIState {[vpc := MkCacheContext ini (as_rib m)]} ∅ [] (MkApi ∅).

(** After a restart the address of the claim is back, the aggregate is not. *)
Lemma ipam_save_restore_witness :
  exists b, ipam_GetData yaml_codec vpc (state_with true table_4) = (state_with true table_4, Ok b) /\
  exists s'' rib', ipam_RestoreData yaml_codec test_ipam vpc (MkConfigMap "" "" "" {[ConfigMapKey := b]})
      (state_with false ∅) = (s'', Ok tt) /\
    i_cache s'' !! vpc = Some (MkCacheContext false rib') /\
    is_Some (view rib' !! P net10_1 32) /\ view rib' !! P net10_1 28 = None.
Proof.
  destruct (ipam_save_restore yaml_codec test_ipam vpc (state_with true table_4) (as_rib table_4)
    (state_with false ∅) [] [claim_loopback]) as (b&Hb&Hr).
  - reflexivity.
  - refine (table_keys is_network table_4 _). by_compute.
  - reflexivity.
  - reflexivity.
  - reflexivity.
  - constructor.
  - constructor; [|constructor]. intros Hk. by vm_compute in Hk.
  - exists b. split; [exact Hb|]. clear Hb.
    destruct (Hr (MkConfigMap "" "" "" {[ConfigMapKey := b]})) as (s''&rib'&Hrun&Hc&Hv); [reflexivity|].
    exists s'', rib'. split; [exact Hrun|]. split; [exact Hc|]. clear Hr Hrun Hc. split.
    + exists (default ∅ (table_4 !! P net10_1 32)). apply Hv. split; [by_compute|]. right. split; by_compute.
    + apply eq_None_not_Some. intros [l Hl]. apply Hv in Hl as [Hl Hback].
      change (table_4 !! P net10_1 28 = Some l) in Hl.
      assert (l = default ∅ (table_4 !! P net10_1 28)) as -> by (rewrite Hl; reflexivity). clear Hl Hv.
      destruct Hback as [[Ho _]|[Ho _]]; vm_compute in Ho; discriminate Ho.
Defined.

Definition other_ni : ObjectReference := ObjRef "" "dummy" "other" "" "" "" "".
Definition two_tables : istate api nat :=
  MkIState (<[other_ni := MkCacheContext true (as_rib table_2)]> {[vpc := MkCacheContext true (as_rib table_3)]})
    ∅ [] (MkApi ∅).

Lemma ipam_isolation_witness :
  i_cache (ipam_Claim (Some test_ipam) yaml_codec (const_codec claim_loopback) "" two_tables).1 !! other_ni =
  Some (MkCacheContext true (as_rib table_2)).
Proof.
  destruct (ipam_isolation (Some test_ipam) yaml_codec (const_codec claim_loopback) other_ni
    (Some (MkCacheContext true (as_rib table_2))) "" claim_loopback two_tables) as [H _].
  - reflexivity.
  - by_compute.
  - reflexivity.
  - exact H.
Defined.

(** The whole backend: the network instance is created, its aggregate and then an
    address are claimed, and the address is saved. *)
Example ipam_run :
  let claim c := ipam_Claim (Some test_ipam) yaml_codec (const_codec c) "" in
  let s0 := state_with true table_3 in
  let '(s1, r1) := claim claim_loopback s0 in
  let '(s2, r2) := claim claim_refresh s1 in
  let '(s3, r3) := ipam_DeleteClaim (Some test_ipam) yaml_codec (const_codec claim_loopback) "" s2 in
  (r1, r2, r3, (fun c => show (instance c)) <$> i_cache s3 !! vpc) =
  (Ok "", Ok "", Ok tt, Some [("10.1.0.0/28", "agg")]).
Proof. vm_compute. reflexivity. Qed.

(** The table of a network instance after the claim of its aggregate. *)
Definition sample_ni : NetworkInstance := restored_ni vpc.
Definition after_aggregate : istate api nat :=
  (ipam_Claim (Some test_ipam) yaml_codec (const_codec claim_aggregate) ""
    (ipam_CreateIndex (Some test_ipam) yaml_codec (const_codec sample_ni) "" (MkIState NewCache ∅ [] (MkApi ∅))).1).1.

#[local] Instance test_cms_reads : CMReads test_cms.
Proof.
  assert (Hput : forall cm w k cm', api_view (api_put cm w) !! k = Some cm' -> api_view w !! k = Some cm' \/ cm' = cm).
  { intros cm w k cm'. unfold api_view, api_put. cbn [api_cms]. rewrite !map_lookup_filter_Some.
    intros [[[<- <-]|[Hne Hk]]%lookup_insert_Some Hn]; [by right|by left]. }
  split; cbn.
  - intros cm w k cm'. destruct (api_view (api_put cm w) !! k) as [x|] eqn:Hx; [|done]. intros [= <-].
    destruct (Hput _ _ _ _ Hx) as [->| ->]; [by left|by right].
  - intros cm w k cm'. case_bool_decide; [|by left]. cbn.
    destruct (api_view (api_put cm w) !! k) as [x|] eqn:Hx; [|done]. intros [= <-].
    destruct (Hput _ _ _ _ Hx) as [->| ->]; [by left|by right].
  - intros cm w k cm'. destruct (api_view (MkApi _) !! k) as [x|] eqn:Hx; [|done]. intros [= <-].
    unfold api_view in *. cbn [api_cms] in Hx. rewrite map_lookup_filter_Some in Hx.
    destruct Hx as [[_ Hx]%lookup_delete_Some Hn]. by erewrite (proj2 (map_lookup_filter_Some _ _ _ _)) by exact (conj Hx Hn).
Qed.

Lemma ipam_tables_typed_witness :
  cache_Get vpc false (i_cache after_aggregate) = Ok (as_rib table_1) /\ is_Some (table_1 !! P net10 16) /\
  table_wf table_1.
Proof.
  assert (Hrib : cache_Get vpc false (i_cache after_aggregate) = Ok (as_rib table_1)) by (vm_compute; reflexivity).
  split; [exact Hrib|]. split; [by_compute|].
  refine (proj1 (ipam_tables_typed (Some test_ipam) yaml_codec (const_codec claim_aggregate) (const_codec sample_ni)
    _ _ after_aggregate (MkApi ∅) _ _) vpc false (as_rib table_1) Hrib).
  - intros m Hm. vm_compute in Hm. injection Hm as <-. reflexivity.
  - intros c [= <-]. exact test_cms_reads.
  - intros c ref cm [= <-] Hg. discriminate Hg.
  - eapply rtc_l; [apply (istep_CreateIndex _ _ _ _ _ "")|]. apply rtc_once.
    apply (istep_Claim _ _ _ _ _ ""). intros cr [= <-]. split.
    + split; by_compute.
    + exact I.
    + intros prefix pi Hst. discriminate Hst.
Defined.
