(* ===== verification/ServerProxy.v ===== *)
(** * pkg/proxy/serverproxy and internal/grpcserver: the server side of the resource service

    A request names a resource kind in its header and carries the resource, in
    JSON, in its spec. The server proxy forwards it to the backend registered for
    the group and version of the kind. A watch registers the stream of a client as
    a callback of a backend for an owner kind. *)

From S2P Require Import Prelude Meta Labels KRM Rib IpamWatcher.

Local Open Scope Z_scope.

(** ** Messages

    The fields that are messages are pointers. *)

(** [pkg/proto/resourcepb/resource.pb.go:385-393 Header] *)
Record Header : Type := MkHeader {
  h_Gvk : option PbGVK;
  h_Nsn : option PbNSN;
  h_OwnerGvk : option PbGVK;
  h_OwnerNsn : option PbNSN
}.

(** [pkg/proto/resourcepb/resource.pb.go:100-107 ClaimRequest] *)
Record ClaimRequest : Type := MkClaimRequest {
  rq_Header : option Header;
  rq_Spec : string;
  rq_ExpiryTime : string
}.

(** [pkg/proto/resourcepb/resource.pb.go:202-211 ClaimResponse] *)
Record ClaimResponse : Type := MkClaimResponse {
  rp_Header : option Header;
  rp_Spec : string;
  rp_Status : string;
  rp_StatusCode : StatusCode;
  rp_ExpiryTime : string
}.

(** [pkg/proto/resourcepb/resource.pb.go:281-289 WatchResponse] *)
Record WatchResponse : Type := MkWatchResponse { wr_Header : option Header; wr_StatusCode : StatusCode }.

(** [pkg/proto/resourcepb/resource.pb.go:338-343 WatchRequest] *)
Record WatchRequest : Type := MkWatchRequest { wq_Header : option Header }.

#[export] Instance StatusCode_eq_dec : EqDecision StatusCode.
Proof. solve_decision. Defined.

(** ** Backends *)

(** What a backend offers to the proxy.

    [pkg/backend/backend.go:23-40 Backend] *)
Record Backend (S Callback Any : Type) : Type := MkBackend {
  be_CreateIndex : string -> M S unit;
  be_DeleteIndex : string -> M S unit;
  be_List : string -> M S Any;
  be_AddWatch : string -> string -> Callback -> M S unit;
  be_DeleteWatch : string -> string -> M S unit;
  be_GetClaim : string -> M S string;
  be_Claim : string -> M S string;
  be_DeleteClaim : string -> M S unit
}.
Arguments MkBackend {S Callback Any} be_CreateIndex be_DeleteIndex be_List be_AddWatch be_DeleteWatch
  be_GetClaim be_Claim be_DeleteClaim.
Arguments be_CreateIndex {S Callback Any} b.
Arguments be_DeleteIndex {S Callback Any} b.
Arguments be_List {S Callback Any} b.
Arguments be_AddWatch {S Callback Any} b.
Arguments be_DeleteWatch {S Callback Any} b.
Arguments be_GetClaim {S Callback Any} b.
Arguments be_Claim {S Callback Any} b.
Arguments be_DeleteClaim {S Callback Any} b.

(** A backend on a part of the state. *)
Definition zoom_backend {S T Callback Any} (get : S -> T) (put : T -> S -> S) (b : Backend T Callback Any) :
    Backend S Callback Any :=
  MkBackend (fun x => zoom get put (be_CreateIndex b x)) (fun x => zoom get put (be_DeleteIndex b x))
    (fun x => zoom get put (be_List b x)) (fun k v fn => zoom get put (be_AddWatch b k v fn))
    (fun k v => zoom get put (be_DeleteWatch b k v)) (fun x => zoom get put (be_GetClaim b x))
    (fun x => zoom get put (be_Claim b x)) (fun x => zoom get put (be_DeleteClaim b x)).

(** ** Streams and their contexts *)

(** The server side of a watch. [str_peer] is the address of the client, if the
    context of the stream has one. *)
Record Stream : Type := MkStream { str_id : nat; str_peer : option string }.

(** [pkg/proxy/serverproxy/serverproxystate.go:28-31 clientContext] *)
Record clientContext : Type := MkClientContext { cc_stream : Stream; cc_cancel : nat }.

(** [for range ctx.Done()]: the channel of a context is closed when the context is
    done and nothing is ever sent on it; the loop ends without a turn. *)
Definition done_values : list unit := [].
Definition range_done {S} (body : M S unit) : M S unit := forM done_values (fun _ => body).

Section ServerProxy.
Context {S Any : Type}.
(** [String] of a protobuf message, used in error texts. *)
Context (pb_String : PbGVK -> string).
Context (backends : gmap GroupVersion (Backend S Stream Any)).

(** A watch that was accepted and whose handler waits for the end of its context. *)
Record watchCall : Type := MkWatchCall {
  wc_context : nat; wc_client : string; wc_ownerGvk : string; wc_gv : GroupVersion
}.

#[local] Instance watchCall_eq_dec : EqDecision watchCall.
Proof. solve_decision. Defined.

(** The backends, the registered clients, and the contexts created with
    [context.WithCancel], numbered, with the ones that were cancelled.

    [pkg/proxy/serverproxy/serverproxystate.go:17-22 ProxyState] *)
Record proxyState : Type := MkProxyState {
  ps_backends : S;
  ps_clients : gmap string clientContext;
  ps_contexts : nat;
  ps_cancelled : gset nat;
  ps_watches : list watchCall
}.

(** [pkg/proxy/serverproxy/serverproxystate.go:33-39 NewProxyState] *)
Definition NewProxyState (s : S) : proxyState := MkProxyState s ∅ 0 ∅ [].

Definition set_backends (b : S) (s : proxyState) : proxyState :=
  MkProxyState b (ps_clients s) (ps_contexts s) (ps_cancelled s) (ps_watches s).
Definition set_clients (c : gmap string clientContext) (s : proxyState) : proxyState :=
  MkProxyState (ps_backends s) c (ps_contexts s) (ps_cancelled s) (ps_watches s).

Definition on_backends {A} (m : M S A) : M proxyState A := zoom ps_backends set_backends m.

(** ** Requests *)

(** [r.backends[meta.GetSchemaGVKFromResourcePbGVK(h.Gvk).GroupVersion()]] *)
Definition header_gvk (h : option Header) : result PbGVK := h ← deref h; deref (h_Gvk h).

Definition header_gv (h : option Header) : result GroupVersion :=
  gvk ← header_gvk h;
  Ok (GroupVersion_of (GetSchemaGVKFromResourcePbGVK gvk)).

Definition find_backend (h : option Header) : result (Backend S Stream Any) :=
  gvk ← header_gvk h;
  match backends !! GroupVersion_of (GetSchemaGVKFromResourcePbGVK gvk) with
  | Some be => Ok be
  | None => Err ("backend not registered, got: " +:+ pb_String gvk)
  end.

(** [pkg/proxy/serverproxy/serverproxy.go:40-54 serverproxy.CreateIndex] *)
Definition server_CreateIndex (claim : ClaimRequest) : M proxyState unit :=
  be ← lift (find_backend (rq_Header claim));
  on_backends (be_CreateIndex be (rq_Spec claim)).

(** [pkg/proxy/serverproxy/serverproxy.go:56-70 serverproxy.DeleteIndex] *)
Definition server_DeleteIndex (claim : ClaimRequest) : M proxyState unit :=
  be ← lift (find_backend (rq_Header claim));
  on_backends (be_DeleteIndex be (rq_Spec claim)).

(** [pkg/proxy/serverproxy/serverproxy.go:72-89 serverproxy.GetClaim] *)
Definition server_GetClaim (claim : ClaimRequest) : M proxyState ClaimResponse :=
  be ← lift (find_backend (rq_Header claim));
  b ← on_backends (be_GetClaim be (rq_Spec claim));
  mret (MkClaimResponse (rq_Header claim) (rq_Spec claim) b StatusCode_Valid (rq_ExpiryTime claim)).

(** [pkg/proxy/serverproxy/serverproxy.go:91-109 serverproxy.Claim] *)
Definition server_Claim (claim : ClaimRequest) : M proxyState ClaimResponse :=
  be ← lift (find_backend (rq_Header claim));
  b ← on_backends (be_Claim be (rq_Spec claim));
  mret (MkClaimResponse (rq_Header claim) (rq_Spec claim) b StatusCode_Valid (rq_ExpiryTime claim)).

(** [pkg/proxy/serverproxy/serverproxy.go:111-125 serverproxy.DeleteClaim] *)
Definition server_DeleteClaim (claim : ClaimRequest) : M proxyState unit :=
  be ← lift (find_backend (rq_Header claim));
  on_backends (be_DeleteClaim be (rq_Spec claim)).

(** ** Watches *)

Definition client_key (addr ownerGVK : string) : string := addr +:+ ":::" +:+ ownerGVK.

(** [pkg/proxy/serverproxy/serverproxystate.go:72-77 ProxyState.DeleteCallBackFn] *)
Definition DeleteCallBackFn (clientName ownerGvk : string) (gv : GroupVersion) : M proxyState unit :=
  be ← lift (deref (backends !! gv));
  _ ← on_backends (be_DeleteWatch be NephioOwnerGvkKey ownerGvk);
  modify (fun s => set_clients (delete (client_key clientName ownerGvk) (ps_clients s)) s).

(** The client is stored with a new context; the context of the stream it had for
    the same owner kind is cancelled. *)
Definition register_client (key : string) (stream : Stream) : M proxyState nat := fun s =>
  let cancelled :=
    match ps_clients s !! key with
    | Some c => {[cc_cancel c]} ∪ ps_cancelled s
    | None => ps_cancelled s
    end in
  let ctx := ps_contexts s in
  (MkProxyState (ps_backends s) (<[key := MkClientContext stream ctx]> (ps_clients s))
     (Datatypes.S ctx) cancelled (ps_watches s), Ok ctx).

(** The part of [AddCallBackFn] before it waits for the end of the context. The
    callback that is registered is the stream.

    [pkg/proxy/serverproxy/serverproxystate.go:41-63 ProxyState.AddCallBackFn] *)
Definition AddCallBackFn (header : Header) (stream : Stream) : M proxyState unit :=
  ownerGvk ← lift (deref (h_OwnerGvk header));
  let ownerGVK := ResourcePbGVKTostring ownerGvk in
  addr ← lift (deref (str_peer stream));
  ctx ← register_client (client_key addr ownerGVK) stream;
  gv ← lift (header_gv (Some header));
  be ← lift (deref (backends !! gv));
  _ ← on_backends (be_AddWatch be NephioOwnerGvkKey ownerGVK stream);
  modify (fun s => MkProxyState (ps_backends s) (ps_clients s) (ps_contexts s) (ps_cancelled s)
    (ps_watches s ++ [MkWatchCall ctx addr ownerGVK gv])).

(** The part of [AddCallBackFn] after the wait; the call then returns.

    [pkg/proxy/serverproxy/serverproxystate.go:65-70 ProxyState.AddCallBackFn] *)
Definition AddCallBackFn_done (w : watchCall) : M proxyState unit :=
  _ ← range_done (DeleteCallBackFn (wc_client w) (wc_ownerGvk w) (wc_gv w));
  modify (fun s => MkProxyState (ps_backends s) (ps_clients s) (ps_contexts s) (ps_cancelled s)
    (filter (fun w' => w' <> w) (ps_watches s))).

(** [pkg/proxy/serverproxy/serverproxy.go:127-145 serverproxy.Watch] *)
Definition server_Watch (in_ : WatchRequest) (stream : Stream) : M proxyState unit :=
  header ← lift (deref (wq_Header in_));
  _ ← lift (find_backend (Some header));
  AddCallBackFn header stream.

(** The owner of a route, as its labels name it. *)
Definition route_Header (ls : labels) : Header :=
  MkHeader (Some (StringToResourcePbGVK (label_get ls NephioGvkKey)))
    (Some (ResourcePbNSN (label_get ls NephioNsnNamespaceKey) (label_get ls NephioNsnNameKey)))
    (Some (StringToResourcePbGVK (label_get ls NephioOwnerGvkKey)))
    (Some (ResourcePbNSN (label_get ls NephioOwnerNsnNamespaceKey) (label_get ls NephioOwnerNsnNameKey))).

(** The messages sent on the stream when the callback is called. An error of
    [Send] is only logged.

    [pkg/proxy/serverproxy/serverproxystate.go:79-107 ProxyState.CreateCallBackFn] *)
Definition CreateCallBackFn (routes : list Route) (statusCode : StatusCode) : list WatchResponse :=
  (fun route => MkWatchResponse (Some (route_Header (rt_Labels route))) statusCode) <$> routes.

(** ** The server as a state machine *)

Inductive sp_step (s : proxyState) : proxyState -> Prop :=
| sp_CreateIndex rq : sp_step s (server_CreateIndex rq s).1
| sp_DeleteIndex rq : sp_step s (server_DeleteIndex rq s).1
| sp_GetClaim rq : sp_step s (server_GetClaim rq s).1
| sp_Claim rq : sp_step s (server_Claim rq s).1
| sp_DeleteClaim rq : sp_step s (server_DeleteClaim rq s).1
| sp_Watch rq stream : sp_step s (server_Watch rq stream s).1
| sp_Watch_done w : w ∈ ps_watches s -> sp_step s (AddCallBackFn_done w s).1.

(** ** Properties *)

(** A header that names a kind of a registered group and version. *)
Lemma find_backend_found h gvk be : h_Gvk h = Some gvk ->
  backends !! GroupVersion_of (GetSchemaGVKFromResourcePbGVK gvk) = Some be -> find_backend (Some h) = Ok be.
Proof. intros Hg Hbe. unfold find_backend, header_gvk. cbn. rewrite Hg. cbn. by rewrite Hbe. Qed.

(** *** What the backends keep *)

Section Inv.
Context (I : S -> Prop).
(** The operations of the backends other than [DeleteWatch] keep [I]. *)
Definition backend_keeps (be : Backend S Stream Any) : Prop :=
  (forall b, keeps I (be_CreateIndex be b)) /\ (forall b, keeps I (be_DeleteIndex be b)) /\
  (forall b, keeps I (be_GetClaim be b)) /\ (forall b, keeps I (be_Claim be b)) /\
  (forall b, keeps I (be_DeleteClaim be b)) /\ (forall k v fn, keeps I (be_AddWatch be k v fn)).

Context (HI : forall gv be, backends !! gv = Some be -> backend_keeps be).

Definition on_I (s : proxyState) : Prop := I (ps_backends s).

Lemma keeps_on_backends {A} (m : M S A) : keeps I m -> keeps on_I (on_backends m).
Proof.
  intros Hm s Hs. unfold on_backends, zoom, on_I. specialize (Hm _ Hs).
  by destruct (m (ps_backends s)).
Qed.

Lemma find_backend_Ok h be : find_backend h = Ok be -> backend_keeps be.
Proof.
  unfold find_backend. destruct (header_gvk h) as [gvk| |]; cbn; [|done..].
  destruct (backends !! _) as [be'|] eqn:Hbe; [|done]. intros [= <-]. by eapply HI.
Qed.

Lemma keeps_Watch rq stream : keeps on_I (server_Watch rq stream).
Proof.
  unfold server_Watch, AddCallBackFn. do 4 (apply keeps_bind_lift; intros ? _).
  apply keeps_bind; [by intros s Hs|]. intros ctx. apply keeps_bind_lift. intros gv _.
  apply keeps_bind_lift. intros be Hbe. destruct (backends !! gv) as [be'|] eqn:Hgv; [|done].
  injection Hbe as ->. apply keeps_bind; [|by intros _ s Hs]. apply keeps_on_backends, (HI _ _ Hgv).
Qed.

Lemma sp_step_keeps s s' : sp_step s s' -> on_I s -> on_I s'.
Proof.
  intros Hstep Hs. destruct Hstep as [rq|rq|rq|rq|rq|rq stream|w Hw].
  1-5: unfold server_CreateIndex, server_DeleteIndex, server_DeleteClaim, server_GetClaim, server_Claim;
    apply (keeps_bind_lift on_I); [|done]; intros be (?&?&?&?&?&_)%find_backend_Ok.
  1,2,5: by apply keeps_on_backends.
  1,2: apply keeps_bind; [by apply keeps_on_backends|intros b; apply keeps_ret].
  - by apply keeps_Watch.
  - done.
Qed.

End Inv.

(** *** Watches are never removed *)

(** A client that is registered. *)
Definition registered (key : string) (s : proxyState) : Prop := is_Some (ps_clients s !! key).

Lemma registered_on_backends key {A} (m : M S A) : keeps (registered key) (on_backends m).
Proof. intros s Hs. unfold on_backends, zoom. by destruct (m (ps_backends s)). Qed.

Lemma registered_register key k stream : keeps (registered key) (register_client k stream).
Proof.
  intros s Hs. unfold registered, register_client. cbn. destruct (decide (k = key)) as [->|Hk].
  - rewrite lookup_insert_eq. by eexists.
  - by rewrite lookup_insert_ne.
Qed.

#[local] Hint Resolve registered_on_backends registered_register : keeps.

Lemma sp_step_registered key s s' : sp_step s s' -> registered key s -> registered key s'.
Proof.
  intros Hstep. enough (forall A (m : M proxyState A), keeps (registered key) m -> registered key s ->
    registered key (m s).1) as Hk.
  { destruct Hstep; apply Hk; clear Hk.
    1-2,5: unfold server_CreateIndex, server_DeleteIndex, server_DeleteClaim; keeps_auto.
    1-2: unfold server_GetClaim, server_Claim; keeps_auto.
    - unfold server_Watch, AddCallBackFn. keeps_auto.
    - unfold AddCallBackFn_done. by intros s0. }
  intros A m Hm. apply Hm.
Qed.

End ServerProxy.
Arguments proxyState : clear implicits.
