(* ===== verification/Health.v ===== *)
(** * internal/healthhandler: the gRPC health service

    The statuses of the services, and the watches on them. A watch registers a channel,
    then its goroutine sends the statuses that arrive on the channel to its stream until
    the stream ends. Streams are numbered; a channel is the list of what is in it. The
    part of a watch under the lock is one step, and so is each turn of its loop. *)

From S2P Require Import Prelude.

(** The statuses of the health protocol. *)
Inductive ServingStatus : Type := UNKNOWN | SERVING | NOT_SERVING | SERVICE_UNKNOWN.
#[export] Instance ServingStatus_eq_dec : EqDecision ServingStatus.
Proof. solve_decision. Defined.

(** [internal/healthhandler/subserver.go:40-45 subServer] *)
Record subServer : Type := MkSubServer {
  statusMap : gmap string ServingStatus;
  updates : gmap string (gmap nat (list ServingStatus))
}.

(** [internal/healthhandler/subserver.go:31-38 New] *)
Definition health_New : subServer := MkSubServer {["" := SERVING]} ∅.

(** The service of the request is not looked at.

    [internal/healthhandler/health_handler.go:29-41 subServer.Check] *)
Definition health_Check (in_Service : string) : M subServer ServingStatus := fun s =>
  (s, match statusMap s !! "" with
      | Some servingStatus => Ok servingStatus
      | None => Err "rpc error: code = NotFound desc = unknown service"
      end).

(** The channels of the empty service, which is the one that is used. *)
Definition channels (s : subServer) : gmap nat (list ServingStatus) := default ∅ (updates s !! "").
Definition set_channels (c : gmap nat (list ServingStatus)) (s : subServer) : subServer :=
  MkSubServer (statusMap s) (<[("" : string) := c]> (updates s)).

(** Up to the loop: the first status is put in the channel and the channel is registered.

    [internal/healthhandler/health_handler.go:44-69 subServer.Watch] *)
Definition health_Watch_start (in_Service : string) (stream : nat) : M subServer unit := modify (fun s =>
  let update := [match statusMap s !! "" with Some servingStatus => servingStatus | None => SERVICE_UNKNOWN end] in
  set_channels (<[stream := update]> (channels s)) s).

(** The deferred function. Deleting from a missing map does nothing.

    [internal/healthhandler/health_handler.go:64-68 subServer.Watch] *)
Definition health_Watch_stop (stream : nat) (s : subServer) : subServer :=
  match updates s !! "" with
  | Some m => set_channels (delete stream m) s
  | None => s
  end.

(** What a turn of the loop is given: a status from the channel, and whether the send on
    the stream succeeds, or the end of the context of the stream. *)
Inductive turn : Type := Received (send_ok : bool) | ContextDone.

(** A turn of the loop with [lastSentStatus]; [None] stands for the value -1, which is not
    a status. The turn gives the status it sent, and either the new [lastSentStatus] or,
    when the watch ends, its error. With nothing in the channel the turn waits.

    [internal/healthhandler/health_handler.go:71-89 subServer.Watch] *)
Definition health_Watch_turn (stream : nat) (t : turn) (lastSentStatus : option ServingStatus) (s : subServer) :
    option (subServer * option ServingStatus * (option ServingStatus + string)) :=
  let ended := inr "rpc error: code = Canceled desc = Stream has ended." in
  match t with
  | ContextDone => Some (health_Watch_stop stream s, None, ended)
  | Received send_ok =>
      match channels s !! stream with
      | Some (servingStatus :: rest) =>
          let s := set_channels (<[stream := rest]> (channels s)) s in
          if bool_decide (lastSentStatus = Some servingStatus) then Some (s, None, inl lastSentStatus)
          else if send_ok then Some (s, Some servingStatus, inl (Some servingStatus))
          else Some (health_Watch_stop stream s, None, ended)
      | _ => None
      end
  end.

(** ** The service as a state machine

    The subserver, the running watches with their [lastSentStatus], and what was sent. *)
Record healthState : Type := MkHealthState {
  hs_server : subServer;
  hs_watches : gmap nat (option ServingStatus);
  hs_sent : list (nat * ServingStatus)
}.
Definition health_init : healthState := MkHealthState health_New ∅ [].

(** Checks and watches of any services; every watch has a stream of its own. *)
Inductive health_step (st : healthState) : healthState -> Prop :=
| hs_check service : health_step st (MkHealthState (health_Check service (hs_server st)).1 (hs_watches st) (hs_sent st))
| hs_start service stream : hs_watches st !! stream = None ->
    (forall x, x ∈ hs_sent st -> x.1 <> stream) ->
    health_step st (MkHealthState (health_Watch_start service stream (hs_server st)).1 (<[stream := None]> (hs_watches st)) (hs_sent st))
| hs_turn stream t last s sent next : hs_watches st !! stream = Some last ->
    health_Watch_turn stream t last (hs_server st) = Some (s, sent, next) ->
    health_step st (MkHealthState s
      match next with inl last => <[stream := last]> (hs_watches st) | inr _ => delete stream (hs_watches st) end
      (hs_sent st ++ match sent with Some x => [(stream, x)] | None => [] end)).

(** The status never changes, a channel is registered exactly while its watch runs, and it
    holds the status or the status has been sent. *)
Record health_inv (st : healthState) : Prop := {
  hi_status : statusMap (hs_server st) = {["" := SERVING]};
  hi_watch : forall stream last, hs_watches st !! stream = Some last ->
    (last = None /\ channels (hs_server st) !! stream = Some [SERVING] /\ forall x, x ∈ hs_sent st -> x.1 <> stream) \/
    (last = Some SERVING /\ channels (hs_server st) !! stream = Some []);
  hi_idle : forall stream, hs_watches st !! stream = None -> channels (hs_server st) !! stream = None;
  hi_sent : forall x, x ∈ hs_sent st -> x.2 = SERVING;
  hi_once : NoDup (hs_sent st).*1
}.

Lemma channels_set c s : channels (set_channels c s) = c.
Proof. unfold channels, set_channels. cbn. by rewrite lookup_insert_eq. Qed.

Lemma stop_channels stream s : channels (health_Watch_stop stream s) = delete stream (channels s) /\
  statusMap (health_Watch_stop stream s) = statusMap s.
Proof.
  unfold health_Watch_stop, channels. destruct (updates s !! "") as [m|] eqn:Hm; cbn.
  - by rewrite lookup_insert_eq.
  - rewrite Hm. by rewrite delete_empty.
Qed.

Lemma not_sent_snoc (l : list (nat * ServingStatus)) stream x stream' :
  (forall y, y ∈ l -> y.1 <> stream') -> stream <> stream' -> forall y, y ∈ l ++ [(stream, x)] -> y.1 <> stream'.
Proof. intros Hl Hne y [Hy|Hy]%elem_of_app; [by apply Hl|]. apply list_elem_of_singleton in Hy as ->. exact Hne. Qed.

(** The registration of a stream. *)
Lemma inv_start service stream st : health_inv st -> hs_watches st !! stream = None ->
  (forall x, x ∈ hs_sent st -> x.1 <> stream) ->
  health_inv (MkHealthState (health_Watch_start service stream (hs_server st)).1 (<[stream := None]> (hs_watches st)) (hs_sent st)).
Proof.
  intros [Hst Hw Hidle Hsent Honce] Hnew Hfresh. unfold health_Watch_start, modify. cbn [fst]. rewrite Hst, lookup_singleton_eq.
  split; cbn [hs_server hs_watches hs_sent]; rewrite ?channels_set; [done| | |done|done].
  - intros stream' last Hl. destruct (decide (stream = stream')) as [<-|Hne].
    + rewrite lookup_insert_eq in Hl. rewrite lookup_insert_eq. injection Hl as <-. by left.
    + rewrite lookup_insert_ne in Hl by done. rewrite lookup_insert_ne by done. by apply Hw.
  - intros stream' Hl. destruct (decide (stream = stream')) as [<-|Hne]; [by rewrite lookup_insert_eq in Hl|].
    rewrite lookup_insert_ne in Hl by done. rewrite lookup_insert_ne by done. by apply Hidle.
Qed.

(** The end of a watch. *)
Lemma inv_stop stream s st : health_inv st -> statusMap s = statusMap (hs_server st) ->
  delete stream (channels s) = delete stream (channels (hs_server st)) ->
  health_inv (MkHealthState (health_Watch_stop stream s) (delete stream (hs_watches st)) (hs_sent st ++ [])).
Proof.
  intros [Hst Hw Hidle Hsent Honce] Hs Hc. destruct (stop_channels stream s) as [Hsc Hss]. rewrite app_nil_r.
  split; cbn [hs_server hs_watches hs_sent]; [congruence| | |done|done]; rewrite Hsc, Hc; intros stream'.
  - intros last [Hne Hl]%lookup_delete_Some. rewrite lookup_delete_ne by done. by apply Hw.
  - destruct (decide (stream = stream')) as [<-|Hne]; [intros _; apply lookup_delete_eq|]. rewrite !lookup_delete_ne by done. apply Hidle.
Qed.

(** The first status of a watch is sent. *)
Lemma inv_send stream st : health_inv st -> hs_watches st !! stream = Some None -> channels (hs_server st) !! stream = Some [SERVING] ->
  (forall x, x ∈ hs_sent st -> x.1 <> stream) ->
  health_inv (MkHealthState (set_channels (<[stream := []]> (channels (hs_server st))) (hs_server st))
    (<[stream := Some SERVING]> (hs_watches st)) (hs_sent st ++ [(stream, SERVING)])).
Proof.
  intros [Hst Hw Hidle Hsent Honce] Hl Hc Hfresh.
  split; cbn [hs_server hs_watches hs_sent]; rewrite ?channels_set; [done| | | |].
  - intros stream' last Hl'. destruct (decide (stream = stream')) as [<-|Hne].
    + rewrite lookup_insert_eq in Hl'. rewrite lookup_insert_eq. injection Hl' as <-. by right.
    + rewrite lookup_insert_ne in Hl' by done. rewrite lookup_insert_ne by done. destruct (Hw _ _ Hl') as [(-> & Hc' & Hf)|[-> Hc']]; [left|by right].
      split; [done|]. split; [done|]. by apply not_sent_snoc.
  - intros stream' Hl'. destruct (decide (stream = stream')) as [<-|Hne]; [by rewrite lookup_insert_eq in Hl'|].
    rewrite lookup_insert_ne in Hl' by done. rewrite lookup_insert_ne by done. by apply Hidle.
  - intros x [Hx|Hx]%elem_of_app; [by apply Hsent|]. by apply list_elem_of_singleton in Hx as ->.
  - rewrite fmap_app. apply NoDup_app. split; [done|]. split; [|apply NoDup_singleton].
    intros y (x & -> & Hx)%list_elem_of_fmap Hy. apply list_elem_of_singleton in Hy. by apply (Hfresh x).
Qed.

Lemma health_step_inv st st' : health_step st st' -> health_inv st -> health_inv st'.
Proof.
  intros [service|service stream Hnew Hfresh|stream t last s sent next Hl Ht] Hi.
  - by destruct st.
  - by apply inv_start.
  - unfold health_Watch_turn in Ht. destruct t as [send_ok|].
    2:{ injection Ht as <- <- <-. by apply inv_stop. }
    destruct (hi_watch _ Hi _ _ Hl) as [(-> & Hc & Hfresh)|[-> Hc]]; rewrite Hc in Ht; [|discriminate Ht].
    rewrite bool_decide_false in Ht by done. destruct send_ok; injection Ht as <- <- <-.
    + by apply inv_send.
    + apply inv_stop; [done|done|]. rewrite channels_set. by rewrite delete_insert_eq.
Qed.

Lemma health_init_inv : health_inv health_init.
Proof.
  split; [done| |by intros ?| |constructor].
  - intros stream last Hl. cbn [health_init hs_watches] in Hl. by rewrite lookup_empty in Hl.
  - intros x Hx. by apply elem_of_nil in Hx.
Qed.

Lemma health_rtc_inv st st' : rtc health_step st st' -> health_inv st -> health_inv st'.
Proof. induction 1 as [|st1 st2 st3 H _ IH]; [done|]. intros Hi. by eapply IH, health_step_inv. Qed.

(** In every interleaving of checks and watches, every check answers SERVING whatever
    the service; a stream is sent at most one message, which says SERVING; and the channels
    that are registered are those of the watches that run, so that a watch that ended
    leaves nothing behind. *)
Theorem health_reachable st : rtc health_step health_init st ->
  (forall service, (health_Check service (hs_server st)).2 = Ok SERVING) /\
  (forall x, x ∈ hs_sent st -> x.2 = SERVING) /\ NoDup (hs_sent st).*1 /\
  (forall stream, is_Some (channels (hs_server st) !! stream) <-> is_Some (hs_watches st !! stream)).
Proof.
  intros Hst. pose proof (health_rtc_inv _ _ Hst health_init_inv) as Hi. destruct Hi as [Hs Hw Hidle Hsent Honce]. split; [intros service; unfold health_Check; cbn; by rewrite Hs|].
  split; [done|]. split; [done|]. intros stream. destruct (hs_watches st !! stream) as [last|] eqn:Hl.
  - destruct (Hw _ _ Hl) as [(_ & Hc & _)|[_ Hc]]; rewrite Hc; split; by eexists.
  - rewrite (Hidle _ Hl). split; by intros [? [=]].
Qed.

(** A watch that was sent its status, and whose stream ended. *)
Lemma health_reachable_witness :
  let st := MkHealthState (set_channels ∅ health_New) ∅ [(7%nat, SERVING)] in
  (health_Check "ipam" (hs_server st)).2 = Ok SERVING /\ forall stream, channels (hs_server st) !! stream = None.
Proof.
  assert (H : rtc health_step health_init (MkHealthState (set_channels ∅ health_New) ∅ [(7%nat, SERVING)])).
  { eapply rtc_l; [exact (hs_start health_init "ipam" 7 eq_refl (fun x Hx => False_ind _ (not_elem_of_nil x Hx)))|].
    eapply rtc_l; [eapply (hs_turn _ 7 (Received true) None); reflexivity|].
    eapply rtc_l; [eapply (hs_turn _ 7 ContextDone (Some SERVING)); reflexivity|]. apply rtc_refl. }
  destruct (health_reachable _ H) as (Hc & _ & _ & Hch). split; [apply Hc|].
  intros stream. apply eq_None_not_Some. rewrite Hch. cbn [hs_watches]. rewrite lookup_empty. by intros [? [=]].
Defined.
