(* ===== verification/GrpcServer.v ===== *)
(** * internal/grpcserver: the gRPC endpoint of the resource service

    Every call takes a slot of a semaphore for as long as its handler runs; a watch
    keeps its slot until its stream ends, and a call that finds no slot waits. The calls are
    given twice: interleaved, as the steps of their goroutines ([grpc_step]), and run alone
    ([grpc_Claim] and the other methods), which is how the client proxy uses them in the
    theorems on the path of a claim; [call_alone] relates the two. The semaphore is that of
    golang.org/x/sync, of which its documented behaviour is used: [Acquire] blocks until a
    slot is free or the context has ended, and then gives the error of the context and leaves
    the semaphore as it was. The listener, the file system, the certificate watcher and the
    gRPC library are parameters. *)

From S2P Require Import Prelude Meta ServerProxy Health.

Local Open Scope Z_scope.

(** [internal/grpcserver/config.go:29-54 Config] *)
Record Config : Type := MkConfig {
  c_Address : string;
  c_Insecure : bool;
  c_MaxRPC : Z;
  c_Timeout : Z;
  c_CertDir : string;
  c_CertName : string;
  c_KeyName : string;
  c_CaName : string
}.

(** [internal/grpcserver/config.go:24-24 defaultAddress] *)
Definition defaultAddress : string := ":9999".
(** [internal/grpcserver/config.go:25-25 defaultMaxRPC] *)
Definition defaultMaxRPC : Z := 600.
(** In nanoseconds.

    [internal/grpcserver/config.go:26-26 defaultTimeout] *)
Definition defaultTimeout : Z := 60 * 1000000000.

(** [internal/grpcserver/config.go:56-83 Config.setDefaults] *)
Definition setDefaults (c : Config) : Config :=
  MkConfig (if bool_decide (c_Address c = "") then ":" +:+ defaultAddress else c_Address c)
    (c_Insecure c)
    (if bool_decide (c_MaxRPC c <= 0) then defaultMaxRPC else c_MaxRPC c)
    (if bool_decide (c_Timeout c <= 0) then defaultTimeout else c_Timeout c)
    (c_CertDir c) (c_CertName c) (c_KeyName c) (c_CaName c).

(** The context of a call: the error it already has when the call arrives, and the
    error it gets when it ends while the call waits for a slot. *)
Record callContext : Type := MkCallContext { ctx_Err : option string; ctx_expired : string }.

Section Server.
Context {P : Type}.

(** The functions registered with the options of [New]. The handlers of the health service
    work on its own state.

    [internal/grpcserver/grpc_server.go:33-56 GrpcServer] *)
Record GrpcServer : Type := MkGrpcServer {
  gs_config : Config;
  createIndexHandler : option (ClaimRequest -> M P unit);
  deleteIndexHandler : option (ClaimRequest -> M P unit);
  getClaimHandler : option (ClaimRequest -> M P ClaimResponse);
  claimHandler : option (ClaimRequest -> M P ClaimResponse);
  deleteClaimHandler : option (ClaimRequest -> M P unit);
  watchClaimHandler : option (WatchRequest -> Stream -> M P unit);
  checkHandler : option (string -> M subServer ServingStatus);
  watchHandler : option (string -> nat -> M subServer unit)
}.

(** [internal/grpcserver/grpc_server.go:78-91 New] *)
Definition grpc_New (c : Config) (opts : list (GrpcServer -> GrpcServer)) : GrpcServer :=
  foldl (fun s o => o s) (MkGrpcServer (setDefaults c) None None None None None None None None) opts.

(** [internal/grpcserver/grpc_server.go:129-133 WithCheckHandler] *)
Definition WithCheckHandler (h : string -> M subServer ServingStatus) (s : GrpcServer) : GrpcServer :=
  MkGrpcServer (gs_config s) (createIndexHandler s) (deleteIndexHandler s) (getClaimHandler s) (claimHandler s) (deleteClaimHandler s) (watchClaimHandler s) (Some h) (watchHandler s).
(** [internal/grpcserver/grpc_server.go:135-139 WithWatchHandler] *)
Definition WithWatchHandler (h : string -> nat -> M subServer unit) (s : GrpcServer) : GrpcServer :=
  MkGrpcServer (gs_config s) (createIndexHandler s) (deleteIndexHandler s) (getClaimHandler s) (claimHandler s) (deleteClaimHandler s) (watchClaimHandler s) (checkHandler s) (Some h).
(** [internal/grpcserver/grpc_server.go:141-145 WithCreateIndexHandler] *)
Definition WithCreateIndexHandler (h : ClaimRequest -> M P unit) (s : GrpcServer) : GrpcServer :=
  MkGrpcServer (gs_config s) (Some h) (deleteIndexHandler s) (getClaimHandler s) (claimHandler s) (deleteClaimHandler s) (watchClaimHandler s) (checkHandler s) (watchHandler s).
(** [internal/grpcserver/grpc_server.go:147-151 WithDeleteIndexHandler] *)
Definition WithDeleteIndexHandler (h : ClaimRequest -> M P unit) (s : GrpcServer) : GrpcServer :=
  MkGrpcServer (gs_config s) (createIndexHandler s) (Some h) (getClaimHandler s) (claimHandler s) (deleteClaimHandler s) (watchClaimHandler s) (checkHandler s) (watchHandler s).
(** [internal/grpcserver/grpc_server.go:153-157 WithGetClaimHandler] *)
Definition WithGetClaimHandler (h : ClaimRequest -> M P ClaimResponse) (s : GrpcServer) : GrpcServer :=
  MkGrpcServer (gs_config s) (createIndexHandler s) (deleteIndexHandler s) (Some h) (claimHandler s) (deleteClaimHandler s) (watchClaimHandler s) (checkHandler s) (watchHandler s).
(** [internal/grpcserver/grpc_server.go:159-163 WithClaimHandler] *)
Definition WithClaimHandler (h : ClaimRequest -> M P ClaimResponse) (s : GrpcServer) : GrpcServer :=
  MkGrpcServer (gs_config s) (createIndexHandler s) (deleteIndexHandler s) (getClaimHandler s) (Some h) (deleteClaimHandler s) (watchClaimHandler s) (checkHandler s) (watchHandler s).
(** [internal/grpcserver/grpc_server.go:165-169 WithDeleteClaimHandler] *)
Definition WithDeleteClaimHandler (h : ClaimRequest -> M P unit) (s : GrpcServer) : GrpcServer :=
  MkGrpcServer (gs_config s) (createIndexHandler s) (deleteIndexHandler s) (getClaimHandler s) (claimHandler s) (Some h) (watchClaimHandler s) (checkHandler s) (watchHandler s).
(** [internal/grpcserver/grpc_server.go:171-175 WithWatchClaimHandler] *)
Definition WithWatchClaimHandler (h : WatchRequest -> Stream -> M P unit) (s : GrpcServer) : GrpcServer :=
  MkGrpcServer (gs_config s) (createIndexHandler s) (deleteIndexHandler s) (getClaimHandler s) (claimHandler s) (deleteClaimHandler s) (Some h) (checkHandler s) (watchHandler s).

(** The slots of the semaphore in use, the state of the handlers and of the health service. *)
Record grpcState : Type := MkGrpcState { g_held : Z; g_handlers : P; g_health : subServer }.

Definition on_handlers {A} (m : M P A) : M grpcState A :=
  zoom g_handlers (fun p s => MkGrpcState (g_held s) p (g_health s)) m.
Definition on_health {A} (m : M subServer A) : M grpcState A :=
  zoom g_health (fun h s => MkGrpcState (g_held s) (g_handlers s) h) m.

(** The slot of a call is taken and given back. *)
Definition take : grpcState -> grpcState := fun g => MkGrpcState (g_held g + 1) (g_handlers g) (g_health g).
Definition release : grpcState -> grpcState := fun g => MkGrpcState (g_held g - 1) (g_handlers g) (g_health g).

(** What asking for a slot comes to: the slot, a wait, or the error of the context. *)
Inductive acquisition : Type := Acquired | Waits | Denied (e : string).

Context (s : GrpcServer).

(** A call whose context has ended is denied before it asks the semaphore. [Acquire] gives a
    free slot at once and otherwise waits; a call that waits gets a slot later, or the error
    of its context if that ends first ([gst_granted] and [gst_expired] below; in which order
    the calls that wait are served is left open).

    [internal/grpcserver/grpc_server.go:177-184 GrpcServer.acquireSem] *)
Definition acquireSem (ctx : callContext) (g : grpcState) : grpcState * acquisition :=
  match ctx_Err ctx with
  | Some e => (g, Denied e)
  | None => if bool_decide (g_held g < c_MaxRPC (gs_config s)) then (take g, Acquired) else (g, Waits)
  end.

(** A call that runs alone, with no step of another call between its own: it takes a slot,
    runs, and gives the slot back on every outcome. No other call gives a slot back
    meanwhile, so a call that waits does so until its context ends. [call_alone] relates it
    to the interleaved calls below. *)
Definition under_sem {A} (ctx : callContext) (m : M grpcState A) : M grpcState A := fun g =>
  match acquireSem ctx g with
  | (g, Acquired) => let '(g, r) := m g in (release g, r)
  | (g, Waits) => (g, Err (ctx_expired ctx))
  | (g, Denied e) => (g, Err e)
  end.
Definition with_sem {A} (ctx : callContext) (m : M P A) : M grpcState A := under_sem ctx (on_handlers m).

(** A handler that was not registered is a nil function. *)
Definition run_handler {X A} (h : option (X -> M P A)) (x : X) : M P A :=
  match h with Some f => f x | None => panic end.

(** [internal/grpcserver/resource.go:27-40 GrpcServer.CreateIndex] *)
Definition grpc_CreateIndex (ctx : callContext) (req : ClaimRequest) : M grpcState unit :=
  with_sem ctx (run_handler (createIndexHandler s) req).
(** [internal/grpcserver/resource.go:42-55 GrpcServer.DeleteIndex] *)
Definition grpc_DeleteIndex (ctx : callContext) (req : ClaimRequest) : M grpcState unit :=
  with_sem ctx (run_handler (deleteIndexHandler s) req).
(** [internal/grpcserver/resource.go:57-70 GrpcServer.GetClaim] *)
Definition grpc_GetClaim (ctx : callContext) (req : ClaimRequest) : M grpcState ClaimResponse :=
  with_sem ctx (run_handler (getClaimHandler s) req).
(** [internal/grpcserver/resource.go:72-85 GrpcServer.Claim] *)
Definition grpc_Claim (ctx : callContext) (req : ClaimRequest) : M grpcState ClaimResponse :=
  with_sem ctx (run_handler (claimHandler s) req).
(** [internal/grpcserver/resource.go:87-100 GrpcServer.DeleteClaim] *)
Definition grpc_DeleteClaim (ctx : callContext) (req : ClaimRequest) : M grpcState unit :=
  with_sem ctx (run_handler (deleteClaimHandler s) req).

(** The part of a watch under its slot, up to the wait for the end of the stream. The
    handler tested for presence is the one of the health watch.

    [internal/grpcserver/resource.go:109-112 GrpcServer.WatchClaim] *)
Definition WatchClaim_handler (in_ : WatchRequest) (stream : Stream) : M grpcState unit :=
  if bool_decide (is_Some (watchHandler s)) then
    on_handlers (match watchClaimHandler s with Some f => f in_ stream | None => panic end)
  else lift (Err "rpc error: code = Unimplemented desc = ").

(** ** The health service *)

(** The response without a handler has the zero status.

    [internal/grpcserver/health.go:37-41 GrpcServer.Check] *)
Definition Check_handler (in_ : string) : M grpcState ServingStatus :=
  on_health (match checkHandler s with Some h => h in_ | None => mret UNKNOWN end).

(** [internal/grpcserver/health.go:28-42 GrpcServer.Check] *)
Definition grpc_Check (ctx : callContext) (in_ : string) : M grpcState ServingStatus :=
  under_sem ctx (Check_handler in_).

(** The part of a health watch under its slot, up to its loop.

    [internal/grpcserver/health.go:52-55 GrpcServer.Watch] *)
Definition Watch_handler (in_ : string) (stream : nat) : M grpcState unit :=
  match watchHandler s with
  | Some h => on_health (h in_ stream)
  | None => lift (Err "rpc error: code = Unimplemented desc = ")
  end.

(** A turn of the loop of a health watch, on the state of the server. *)
Definition grpc_Watch_turn (stream : nat) (t : turn) (last : option ServingStatus) (g : grpcState) :
    option (grpcState * option ServingStatus * (option ServingStatus + string)) :=
  match health_Watch_turn stream t last (g_health g) with
  | Some (h, sent, next) => Some (MkGrpcState (g_held g) (g_handlers g) h, sent, next)
  | None => None
  end.

(** ** The calls of the server, interleaved

    Every call runs in a goroutine of its own. Its steps are the request for a slot, the
    wait, the handler, the wait of a watch for the end of its stream, and the return, which
    gives the slot back; steps of other calls come in between. *)

Inductive call : Type :=
| CallCreateIndex (req : ClaimRequest) | CallDeleteIndex (req : ClaimRequest) | CallGetClaim (req : ClaimRequest)
| CallClaim (req : ClaimRequest) | CallDeleteClaim (req : ClaimRequest) | CallWatchClaim (in_ : WatchRequest) (stream : Stream)
| CallCheck (in_ : string) | CallWatch (in_ : string) (stream : nat).
Inductive reply : Type := EmptyReply | ClaimReply (resp : ClaimResponse) | StatusReply (status : ServingStatus).

Definition replied {A} (f : A -> reply) (m : M grpcState A) : M grpcState reply := a ← m; mret (f a).

(** The handler of a call, which runs while the call holds its slot. *)
Definition handler (c : call) : M grpcState reply :=
  let empty (_ : unit) := EmptyReply in
  match c with
  | CallCreateIndex req => replied empty (on_handlers (run_handler (createIndexHandler s) req))
  | CallDeleteIndex req => replied empty (on_handlers (run_handler (deleteIndexHandler s) req))
  | CallGetClaim req => replied ClaimReply (on_handlers (run_handler (getClaimHandler s) req))
  | CallClaim req => replied ClaimReply (on_handlers (run_handler (claimHandler s) req))
  | CallDeleteClaim req => replied empty (on_handlers (run_handler (deleteClaimHandler s) req))
  | CallWatchClaim in_ stream => replied empty (WatchClaim_handler in_ stream)
  | CallCheck in_ => replied StatusReply (Check_handler in_)
  | CallWatch in_ stream => replied empty (Watch_handler in_ stream)
  end.

Definition is_watch (c : call) : bool := match c with CallWatchClaim _ _ | CallWatch _ _ => true | _ => false end.

(** Where a call is: waiting for a slot, ended without one, with its slot and before its
    handler, in a watch that was accepted (with the [lastSentStatus] of a health watch),
    after its handler and before the deferred release, and ended. *)
Inductive phase : Type :=
| Waiting | Refused (e : string) | Holding | Streaming (last : option ServingStatus)
| Returned (r : result reply) | Answered (r : result reply).

Record callState : Type := MkCallState { cl_ctx : callContext; cl_call : call; cl_phase : phase }.

(** The server, its calls by number, and the calls whose handler has run, in the order of
    the runs. *)
Record grpcSys : Type := MkGrpcSys { sy_grpc : grpcState; sy_calls : gmap nat callState; sy_ran : list nat }.

Definition put_call (id : nat) (ctx : callContext) (c : call) (ph : phase) (g : grpcState) (x : grpcSys) : grpcSys :=
  MkGrpcSys g (<[id := MkCallState ctx c ph]> (sy_calls x)) (sy_ran x).

(** A call arrives and asks for its slot; [defer s.sem.Release(1)] is reached with a slot
    only.

    [internal/grpcserver/resource.go:75-79 GrpcServer.Claim] *)
Definition arrive (id : nat) (ctx : callContext) (c : call) (x : grpcSys) : grpcSys :=
  let '(g, a) := acquireSem ctx (sy_grpc x) in
  put_call id ctx c (match a with Acquired => Holding | Waits => Waiting | Denied e => Refused e end) g x.

(** After its handler a call returns, but for a watch that was accepted.

    [internal/grpcserver/resource.go:80-84 GrpcServer.Claim] *)
Definition after_handler (c : call) (r : result reply) : phase :=
  match r with
  | Ok _ => if is_watch c then Streaming None else Returned r
  | _ => Returned r
  end.

(** Any call may arrive at any time, and any call may take its next step. The rest [m] of the
    handler of a claim watch runs when its stream ends. A handler that panics ends the
    process; the system goes on, which only adds states. *)
Inductive grpc_step (x : grpcSys) : grpcSys -> Prop :=
| gst_arrive id ctx c : sy_calls x !! id = None -> grpc_step x (arrive id ctx c x)
| gst_granted id ctx c : sy_calls x !! id = Some (MkCallState ctx c Waiting) ->
    g_held (sy_grpc x) < c_MaxRPC (gs_config s) ->
    grpc_step x (put_call id ctx c Holding (take (sy_grpc x)) x)
| gst_expired id ctx c : sy_calls x !! id = Some (MkCallState ctx c Waiting) ->
    grpc_step x (put_call id ctx c (Refused (ctx_expired ctx)) (sy_grpc x) x)
| gst_handled id ctx c g r : sy_calls x !! id = Some (MkCallState ctx c Holding) -> handler c (sy_grpc x) = (g, r) ->
    grpc_step x (MkGrpcSys g (<[id := MkCallState ctx c (after_handler c r)]> (sy_calls x)) (sy_ran x ++ [id]))
| gst_stream_ended id ctx in_ stream last (m : M P unit) g r :
    sy_calls x !! id = Some (MkCallState ctx (CallWatchClaim in_ stream) (Streaming last)) ->
    replied (fun _ => EmptyReply) (on_handlers m) (sy_grpc x) = (g, r) ->
    grpc_step x (put_call id ctx (CallWatchClaim in_ stream) (Returned r) g x)
| gst_health_turn id ctx in_ stream last t g sent next :
    sy_calls x !! id = Some (MkCallState ctx (CallWatch in_ stream) (Streaming last)) ->
    grpc_Watch_turn stream t last (sy_grpc x) = Some (g, sent, next) ->
    grpc_step x (put_call id ctx (CallWatch in_ stream) (match next with inl last => Streaming last | inr e => Returned (Err e) end) g x)
| gst_released id ctx c r : sy_calls x !! id = Some (MkCallState ctx c (Returned r)) ->
    grpc_step x (put_call id ctx c (Answered r) (release (sy_grpc x)) x).

Definition grpc_start (p : P) (h : subServer) : grpcSys := MkGrpcSys (MkGrpcState 0 p h) ∅ [].

(** The calls with a slot, and the watches among them. *)
Definition has_slot (c : callState) : bool :=
  match cl_phase c with Holding | Streaming _ | Returned _ => true | _ => false end.
Definition with_slot (m : gmap nat callState) : gmap nat callState := filter (fun e => has_slot e.2 = true) m.
Definition holders (x : grpcSys) : gmap nat callState := with_slot (sy_calls x).
Definition watches (x : grpcSys) : gmap nat callState := filter (fun e => is_watch (cl_call e.2) = true) (holders x).

(** ** The semaphore *)

Lemma setDefaults_pos c : 0 < c_MaxRPC (setDefaults c) /\ 0 < c_Timeout (setDefaults c).
Proof.
  unfold setDefaults, defaultMaxRPC, defaultTimeout. cbn.
  split.
  - destruct (bool_decide_reflect (c_MaxRPC c <= 0)); lia.
  - destruct (bool_decide_reflect (c_Timeout c <= 0)); lia.
Qed.

(** A call that runs alone is its handler when a slot is free, and otherwise changes
    nothing; it gives its slot back either way. *)
Lemma with_sem_spec {A} ctx (m : M P A) g :
  with_sem ctx m g =
  match ctx_Err ctx with
  | Some e => (g, Err e)
  | None =>
      if bool_decide (g_held g < c_MaxRPC (gs_config s)) then
        (MkGrpcState (g_held g) (m (g_handlers g)).1 (g_health g), (m (g_handlers g)).2)
      else (g, Err (ctx_expired ctx))
  end.
Proof.
  unfold with_sem, under_sem, acquireSem. destruct (ctx_Err ctx); [done|]. case_bool_decide; [|done].
  unfold on_handlers, zoom, release. cbn. destruct (m (g_handlers g)). cbn. do 2 f_equal. lia.
Qed.

(** *** A handler leaves the slots alone *)

Lemma on_handlers_held {A} (m : M P A) g : g_held (on_handlers m g).1 = g_held g.
Proof. unfold on_handlers, zoom. by destruct (m _). Qed.
Lemma on_health_held {A} (m : M subServer A) g : g_held (on_health m g).1 = g_held g.
Proof. unfold on_health, zoom. by destruct (m _). Qed.
Lemma replied_held {A} (f : A -> reply) (m : M grpcState A) g : g_held (m g).1 = g_held g -> g_held (replied f m g).1 = g_held g.
Proof. unfold replied, mbind, M_bind. by destruct (m g) as [g1 [a|e|]]. Qed.

Lemma handler_held c g : g_held (handler c g).1 = g_held g.
Proof.
  destruct c; apply replied_held; unfold WatchClaim_handler, Check_handler, Watch_handler;
    try case_bool_decide; try destruct (watchHandler s); first [apply on_handlers_held|apply on_health_held|done].
Qed.

(** *** The number of calls with a slot *)

Definition slot_of (c : option callState) : nat := match c with Some c => if has_slot c then 1 else 0 | None => 0 end.

Lemma with_slot_insert id c m : with_slot (<[id := c]> m) = if has_slot c then <[id := c]> (with_slot m) else delete id (with_slot m).
Proof.
  unfold with_slot. destruct (has_slot c) eqn:Hs; [by apply map_filter_insert_True|].
  rewrite map_filter_insert_False by (cbn [snd]; congruence). apply map_filter_delete.
Qed.

Lemma with_slot_lookup id m : with_slot m !! id = match m !! id with Some c => if has_slot c then Some c else None | None => None end.
Proof.
  unfold with_slot. destruct (m !! id) as [c|] eqn:Hc; [destruct (has_slot c) eqn:Hs|].
  - by apply map_lookup_filter_Some.
  - apply map_lookup_filter_None. right. intros c' Hc'. cbn [snd]. congruence.
  - apply map_lookup_filter_None. by left.
Qed.

(** Taking a step changes the number of calls with a slot by the slot of the call that
    takes it. *)
Lemma slots_insert id c m : (size (with_slot (<[id := c]> m)) + slot_of (m !! id) = size (with_slot m) + slot_of (Some c))%nat.
Proof.
  pose proof (with_slot_lookup id m) as Hl. rewrite with_slot_insert. unfold slot_of.
  assert (Hp : is_Some (with_slot m !! id) -> size (with_slot m) <> 0%nat).
  { intros [c' Hc'] H0%map_size_empty_iff. by rewrite H0, lookup_empty in Hc'. }
  destruct (has_slot c); rewrite ?map_size_insert, ?map_size_delete; destruct (m !! id) as [c'|]; [destruct (has_slot c')| |destruct (has_slot c')|]; rewrite Hl in Hp |- *;
    try (specialize (Hp ltac:(by eexists))); unfold Datatypes.id; lia.
Qed.

(** *** What every interleaving keeps *)

(** The error of a context that has ended: the one it arrived with, or the one it got. *)
Definition ctx_error (ctx : callContext) : string := default (ctx_expired ctx) (ctx_Err ctx).

Definition call_ok (ran : list nat) (id : nat) (c : callState) : Prop :=
  match cl_phase c with
  | Waiting => ctx_Err (cl_ctx c) = None /\ id ∉ ran
  | Refused e => e = ctx_error (cl_ctx c) /\ id ∉ ran
  | Holding => id ∉ ran
  | Streaming _ => is_watch (cl_call c) = true /\ id ∈ ran
  | Returned _ | Answered _ => id ∈ ran
  end.

Record grpc_inv (x : grpcSys) : Prop := {
  gi_held : g_held (sy_grpc x) = Z.of_nat (size (holders x));
  gi_max : g_held (sy_grpc x) <= c_MaxRPC (gs_config s);
  gi_call : forall id c, sy_calls x !! id = Some c -> call_ok (sy_ran x) id c;
  gi_once : NoDup (sy_ran x);
  gi_known : forall id, id ∈ sy_ran x -> is_Some (sy_calls x !! id)
}.

(** A step of a call that is not the run of its handler. *)
Lemma put_call_inv id ctx c ph g x : grpc_inv x ->
  g_held g + Z.of_nat (slot_of (sy_calls x !! id)) = g_held (sy_grpc x) + Z.of_nat (slot_of (Some (MkCallState ctx c ph))) ->
  g_held g <= c_MaxRPC (gs_config s) -> call_ok (sy_ran x) id (MkCallState ctx c ph) ->
  grpc_inv (put_call id ctx c ph g x).
Proof.
  intros [Hh Hm Hc Ho Hk] Hg Hmax Hok. split; cbn [put_call sy_grpc sy_calls sy_ran]; [|done| |done|].
  - unfold holders in *. cbn [put_call sy_calls].
    pose proof (slots_insert id (MkCallState ctx c ph) (sy_calls x)). lia.
  - intros id' c'. destruct (decide (id = id')) as [<-|Hne]; [|rewrite lookup_insert_ne by done; apply Hc].
    rewrite lookup_insert_eq. by intros [= <-].
  - intros id' Hid. destruct (decide (id = id')) as [<-|Hne]; [rewrite lookup_insert_eq; by eexists|].
    rewrite lookup_insert_ne by done. by apply Hk.
Qed.

Lemma after_handler_slot ctx c r : slot_of (Some (MkCallState ctx c (after_handler c r))) = 1%nat.
Proof. unfold after_handler. destruct r; [destruct (is_watch c)|..]; reflexivity. Qed.

Lemma after_handler_ok ran id ctx c r : id ∈ ran -> call_ok ran id (MkCallState ctx c (after_handler c r)).
Proof. intros Hid. unfold after_handler. destruct r; [destruct (is_watch c) eqn:Hw|..]; done. Qed.

Lemma call_ok_snoc ran id id' c : id <> id' -> call_ok ran id c -> call_ok (ran ++ [id']) id c.
Proof. intros Hne. unfold call_ok. destruct (cl_phase c); rewrite elem_of_app, list_elem_of_singleton; tauto. Qed.

(** The run of a handler. *)
Lemma handled_inv id ctx c g r x : grpc_inv x -> sy_calls x !! id = Some (MkCallState ctx c Holding) ->
  g_held g = g_held (sy_grpc x) ->
  grpc_inv (MkGrpcSys g (<[id := MkCallState ctx c (after_handler c r)]> (sy_calls x)) (sy_ran x ++ [id])).
Proof.
  intros [Hh Hm Hc Ho Hk] Hid Hg. pose proof (Hc _ _ Hid) as Hnew. cbn in Hnew.
  split; cbn [sy_grpc sy_calls sy_ran].
  - unfold holders in *. cbn [sy_calls]. pose proof (slots_insert id (MkCallState ctx c (after_handler c r)) (sy_calls x)) as Hs.
    rewrite Hid, after_handler_slot in Hs. cbn in Hs. lia.
  - lia.
  - intros id' c'. destruct (decide (id = id')) as [<-|Hne].
    + rewrite lookup_insert_eq. intros [= <-]. apply after_handler_ok. apply elem_of_app. right. by apply list_elem_of_singleton.
    + rewrite lookup_insert_ne by done. intros Hc'. by apply call_ok_snoc, Hc.
  - apply NoDup_app. split; [done|]. split; [|apply NoDup_singleton]. intros y Hy Hy'%list_elem_of_singleton. by subst y.
  - intros id' [Hid'|Hid'%list_elem_of_singleton]%elem_of_app; [|subst id'; rewrite lookup_insert_eq; by eexists].
    destruct (decide (id = id')) as [<-|Hne]; [rewrite lookup_insert_eq; by eexists|]. rewrite lookup_insert_ne by done. by apply Hk.
Qed.

Lemma arrive_inv id ctx c x : grpc_inv x -> sy_calls x !! id = None -> grpc_inv (arrive id ctx c x).
Proof.
  intros Hi Hid. assert (Hran : id ∉ sy_ran x).
  { intros Hin. destruct (gi_known _ Hi _ Hin) as [c' Hc']. congruence. }
  pose proof (gi_max _ Hi) as Hmax. unfold arrive, acquireSem. destruct (ctx_Err ctx) as [e|] eqn:He; [|case_bool_decide].
  all: apply put_call_inv; [done|rewrite Hid; cbn; lia|cbn; lia|unfold call_ok, ctx_error; cbn; rewrite ?He; done].
Qed.

Lemma grpc_step_inv x y : grpc_step x y -> grpc_inv x -> grpc_inv y.
Proof.
  intros Hs Hi. pose proof (gi_max _ Hi) as Hmax.
  assert (Hok := fun id c => gi_call _ Hi id c).
  destruct Hs as [id ctx c Hid|id ctx c Hid Hlt|id ctx c Hid|id ctx c g r Hid Hr|id ctx in_ stream last m g r Hid Hr|id ctx in_ stream last t g sent next Hid Hr|id ctx c r Hid].
  - by apply arrive_inv.
  - pose proof (Hok _ _ Hid) as [Hctx Hran]. apply put_call_inv; [done|rewrite Hid; cbn; lia|cbn; lia|exact Hran].
  - pose proof (Hok _ _ Hid) as [Hctx Hran]. apply put_call_inv; [done|rewrite Hid; cbn; lia|done|].
    split; [|exact Hran]. unfold ctx_error. cbn in Hctx |- *. by rewrite Hctx.
  - apply handled_inv; [done|done|]. pose proof (handler_held c (sy_grpc x)) as H. by rewrite Hr in H.
  - pose proof (replied_held (fun _ : unit => EmptyReply) (on_handlers m) (sy_grpc x) (on_handlers_held _ _)) as H. rewrite Hr in H. cbn [fst] in H.
    apply put_call_inv; [done|rewrite Hid; cbn; lia|lia|exact (proj2 (Hok _ _ Hid))].
  - unfold grpc_Watch_turn in Hr. destruct (health_Watch_turn _ _ _ _) as [[[h sent'] next']|]; [|done]. injection Hr as <- <- <-.
    apply put_call_inv; [done|rewrite Hid; destruct next'; cbn; lia|done|destruct (Hok _ _ Hid); by destruct next'].
  - apply put_call_inv; [done|rewrite Hid; cbn; lia|cbn; lia|exact (Hok _ _ Hid)].
Qed.

Lemma grpc_rtc_inv x y : rtc grpc_step x y -> grpc_inv x -> grpc_inv y.
Proof. induction 1 as [|a b c H _ IH]; [done|]. intros Hx. by eapply IH, grpc_step_inv. Qed.

Lemma grpc_start_inv p h : 0 < c_MaxRPC (gs_config s) -> grpc_inv (grpc_start p h).
Proof.
  intros Hpos. split; cbn; [done|lia| |constructor|].
  - intros id c. by rewrite lookup_empty.
  - intros id Hid. by apply elem_of_nil in Hid.
Qed.

(** *** How a call arrives, waits and is served *)

(** Whether a slot is free. *)
Definition slot_free (x : grpcSys) : Prop := Z.of_nat (size (holders x)) < c_MaxRPC (gs_config s).

(** Where a call is after it has asked for its slot. *)
Definition arrived (x y : grpcSys) (c : callState) : Prop :=
  sy_ran y = sy_ran x /\
  match ctx_Err (cl_ctx c) with
  | Some e => cl_phase c = Refused e /\ sy_grpc y = sy_grpc x
  | None => (slot_free x /\ cl_phase c = Holding) \/ (~ slot_free x /\ cl_phase c = Waiting /\ sy_grpc y = sy_grpc x)
  end.

(** Where a call that waits is after a step, its own or that of another call. *)
Definition still_waits (x y : grpcSys) (id : nat) (ctx : callContext) (c : call) : Prop := exists ph,
  sy_calls y !! id = Some (MkCallState ctx c ph) /\
  (ph = Waiting \/ (slot_free x /\ ph = Holding) \/ (ph = Refused (ctx_expired ctx) /\ sy_grpc y = sy_grpc x)).

Lemma step_arrived x y id c : grpc_inv x -> grpc_step x y -> sy_calls x !! id = None -> sy_calls y !! id = Some c -> arrived x y c.
Proof.
  intros Hi Hs Hx. pose proof (gi_held _ Hi) as Hh. destruct Hs as [id' ctx c' Hid| | | | | | ].
  2-7: cbn [put_call sy_calls]; rewrite lookup_insert_ne by congruence; congruence.
  unfold arrived, slot_free, arrive, acquireSem. rewrite <- Hh. destruct (ctx_Err ctx) as [e|] eqn:He; [|case_bool_decide].
  all: cbn [put_call sy_calls]; (destruct (decide (id' = id)) as [<-|Hne]; [|rewrite lookup_insert_ne by done; congruence]);
    rewrite lookup_insert_eq; intros [= <-]; cbn [cl_ctx cl_phase put_call sy_ran sy_grpc]; rewrite He; auto.
Qed.

Lemma step_waits x y id ctx c : grpc_inv x -> grpc_step x y -> sy_calls x !! id = Some (MkCallState ctx c Waiting) ->
  still_waits x y id ctx c.
Proof.
  intros Hi Hs Hx. pose proof (gi_held _ Hi) as Hh. unfold still_waits, slot_free. rewrite <- Hh.
  destruct Hs as [id' ctx' c' Hid|id' ctx' c' Hid Hlt|id' ctx' c' Hid|id' ctx' c' g r Hid|id' ctx' in_ stream last m g r Hid|id' ctx' in_ stream last t g sent next Hid|id' ctx' c' r Hid].
  1: unfold arrive; destruct (acquireSem ctx' (sy_grpc x)) as [g a].
  all: cbn [put_call sy_calls sy_grpc]; (destruct (decide (id' = id)) as [->|Hne]; [|exists Waiting; rewrite lookup_insert_ne by done; by auto]);
    rewrite Hx in Hid; try discriminate Hid; injection Hid as <- <-.
  - exists Holding. rewrite lookup_insert_eq. auto.
  - exists (Refused (ctx_expired ctx)). rewrite lookup_insert_eq. auto.
Qed.

(** A call that is not a watch gives its slot back, whatever the other calls do. *)
Lemma unary_returns x id ctx c ph : grpc_inv x -> sy_calls x !! id = Some (MkCallState ctx c ph) ->
  has_slot (MkCallState ctx c ph) = true -> is_watch c = false ->
  exists y, rtc grpc_step x y /\ g_held (sy_grpc y) = g_held (sy_grpc x) - 1 /\
    forall id', id <> id' -> sy_calls y !! id' = sy_calls x !! id'.
Proof.
  intros Hi Hid Hs Hw.
  assert (Hret : forall x r, sy_calls x !! id = Some (MkCallState ctx c (Returned r)) ->
    grpc_step x (put_call id ctx c (Answered r) (release (sy_grpc x)) x)) by (intros; by apply gst_released).
  destruct ph as [|e| |last|r|r]; try discriminate Hs.
  - pose proof (gst_handled x id ctx c (handler c (sy_grpc x)).1 (handler c (sy_grpc x)).2 Hid (surjective_pairing _)) as Hh.
    assert (Ha : after_handler c (handler c (sy_grpc x)).2 = Returned (handler c (sy_grpc x)).2) by (unfold after_handler; rewrite Hw; by destruct (handler c (sy_grpc x)).2).
    rewrite Ha in Hh. eexists. split; [eapply rtc_l; [exact Hh|]; apply rtc_once, Hret; cbn; apply lookup_insert_eq|].
    cbn. split; [by rewrite handler_held|]. intros id' Hne. by rewrite !lookup_insert_ne.
  - destruct (gi_call _ Hi _ _ Hid) as [Hw' _]. cbn in Hw'. congruence.
  - eexists. split; [apply rtc_once, Hret; exact Hid|]. cbn. split; [done|]. intros id' Hne. by rewrite lookup_insert_ne.
Qed.

(** When not all calls with a slot are watches, one is not. *)
Lemma unary_holder x : (size (watches x) < size (holders x))%nat -> exists id c, holders x !! id = Some c /\ is_watch (cl_call c) = false.
Proof.
  intros Hlt. destruct (decide (map_Forall (fun _ c => is_watch (cl_call c) = true) (holders x))) as [Hall|Hnot].
  - unfold watches in Hlt. rewrite map_filter_id in Hlt; [lia|]. intros id c Hc. by apply Hall in Hc.
  - apply map_not_Forall in Hnot as (id & c & Hc & Hw); [|apply _]. exists id, c. split; [done|]. by destruct (is_watch _).
Qed.

(** A call that waits can get its slot as long as the watches do not hold all of them. *)
Lemma waiting_served x id ctx c : grpc_inv x -> sy_calls x !! id = Some (MkCallState ctx c Waiting) ->
  Z.of_nat (size (watches x)) < c_MaxRPC (gs_config s) ->
  exists y, rtc grpc_step x y /\ sy_calls y !! id = Some (MkCallState ctx c Holding).
Proof.
  intros Hi Hid Hlt. assert (Hg : forall y, sy_calls y !! id = Some (MkCallState ctx c Waiting) -> g_held (sy_grpc y) < c_MaxRPC (gs_config s) ->
    exists z, rtc grpc_step y z /\ sy_calls z !! id = Some (MkCallState ctx c Holding)).
  { intros y Hy Hf. eexists. split; [by apply rtc_once, (gst_granted y id ctx c)|]. cbn. apply lookup_insert_eq. }
  destruct (decide (g_held (sy_grpc x) < c_MaxRPC (gs_config s))) as [Hf|Hfull]; [by apply Hg|].
  pose proof (gi_max _ Hi) as Hmax. pose proof (gi_held _ Hi) as Hh.
  destruct (unary_holder x) as (id' & [ctx' c' ph'] & Hc' & Hw); [lia|]. unfold holders in Hc'. rewrite with_slot_lookup in Hc'.
  destruct (sy_calls x !! id') as [cs|] eqn:Hid'; [|done]. destruct (has_slot cs) eqn:Hs; [|done]. injection Hc' as ->.
  destruct (unary_returns x id' ctx' c' ph' Hi Hid' Hs Hw) as (y & Hy & Hheld & Hsame).
  assert (Hne : id' <> id) by (intros ->; rewrite Hid in Hid'; by injection Hid' as <- <- <-).
  destruct (Hg y) as (z & Hz & Hzc); [by rewrite Hsame|lia|]. exists z. split; [by etrans|done].
Qed.

(** ** The calls that run alone *)

(** The call that [under_sem] runs alone. *)
Definition grpc_call (ctx : callContext) (c : call) : M grpcState reply := under_sem ctx (handler c).

(** A call that runs alone is a run of the interleaved system, unless it has to wait, when
    it is one of its runs: it arrives, has its handler run and returns, or is refused. *)
Lemma call_alone x id ctx c g r : sy_calls x !! id = None -> is_watch c = false -> grpc_call ctx c (sy_grpc x) = (g, r) ->
  exists y ph, rtc grpc_step x y /\ sy_grpc y = g /\ sy_calls y !! id = Some (MkCallState ctx c ph) /\
    (ph = Answered r \/ exists e, ph = Refused e /\ r = Err e /\ g = sy_grpc x).
Proof.
  intros Hid Hw. pose proof (gst_arrive x id ctx c Hid) as Ha. unfold arrive, grpc_call, under_sem in *.
  unfold acquireSem in *. destruct (ctx_Err ctx) as [e|]; [|case_bool_decide].
  - intros [= <- <-]. eexists _, (Refused e). split; [by apply rtc_once|]. cbn. rewrite lookup_insert_eq. eauto 7.
  - intros Hr. destruct (handler c (take (sy_grpc x))) as [g1 r1] eqn:Hh. injection Hr as <- <-.
    pose proof (gst_handled (put_call id ctx c Holding (take (sy_grpc x)) x) id ctx c g1 r1 (lookup_insert_eq _ _ _) Hh) as H1.
    assert (Haf : after_handler c r1 = Returned r1) by (unfold after_handler; rewrite Hw; by destruct r1). rewrite Haf in H1.
    match type of H1 with grpc_step _ ?z => pose proof (gst_released z id ctx c r1 (lookup_insert_eq _ _ _)) as H2 end.
    eexists _, (Answered r1). split; [eapply rtc_l; [exact Ha|]; eapply rtc_l; [exact H1|]; apply rtc_once; exact H2|].
    cbn. rewrite lookup_insert_eq. eauto.
  - intros [= <- <-]. pose proof (gst_expired (put_call id ctx c Waiting (sy_grpc x) x) id ctx c (lookup_insert_eq _ _ _)) as H1.
    eexists _, (Refused (ctx_expired ctx)). split; [eapply rtc_l; [exact Ha|]; apply rtc_once; exact H1|].
    cbn. rewrite lookup_insert_eq. eauto 7.
Qed.

(** The methods of the server are the calls that run alone. *)
Lemma grpc_call_methods ctx req service g :
  grpc_call ctx (CallCreateIndex req) g = replied (fun _ => EmptyReply) (grpc_CreateIndex ctx req) g /\
  grpc_call ctx (CallDeleteIndex req) g = replied (fun _ => EmptyReply) (grpc_DeleteIndex ctx req) g /\
  grpc_call ctx (CallGetClaim req) g = replied ClaimReply (grpc_GetClaim ctx req) g /\
  grpc_call ctx (CallClaim req) g = replied ClaimReply (grpc_Claim ctx req) g /\
  grpc_call ctx (CallDeleteClaim req) g = replied (fun _ => EmptyReply) (grpc_DeleteClaim ctx req) g /\
  grpc_call ctx (CallCheck service) g = replied StatusReply (grpc_Check ctx service) g.
Proof.
  assert (H : forall A (f : A -> reply) (m : M grpcState A), under_sem ctx (replied f m) g = replied f (under_sem ctx m) g).
  { intros A f m. unfold replied, under_sem, mbind, M_bind. destruct (acquireSem ctx g) as [g1 [| |e]]; [|done..].
    by destruct (m g1) as [g2 [a|e|]]. }
  unfold grpc_call, handler, grpc_CreateIndex, grpc_DeleteIndex, grpc_GetClaim, grpc_Claim, grpc_DeleteClaim, grpc_Check, with_sem.
  rewrite !H. done.
Qed.

(** C29. Whatever calls of both services have arrived, waited, run and ended in any
    interleaving, the slots in use are those of the calls between their [acquireSem] and
    their [Release] and never more than the configured maximum. A call that arrives with an
    ended context is refused with its error; with a live one it gets a slot when one is free
    and waits otherwise. A call that waits goes on waiting, or gets a slot when one is free,
    or is refused with the error its context gets; its handler does not run before it has
    its slot. It can be refused in this way at any time, and it can get its slot from any
    state where watches do not hold all slots. Every handler runs at most once, it has run
    for every call that was answered, and it never runs for one that was refused, which got
    exactly the error of its context and left the server as it was. *)
Theorem grpc_slots p h x : 0 < c_MaxRPC (gs_config s) -> rtc grpc_step (grpc_start p h) x ->
  g_held (sy_grpc x) = Z.of_nat (size (holders x)) /\ g_held (sy_grpc x) <= c_MaxRPC (gs_config s) /\
  (forall y id c, grpc_step x y -> sy_calls x !! id = None -> sy_calls y !! id = Some c -> arrived x y c) /\
  (forall id ctx c, sy_calls x !! id = Some (MkCallState ctx c Waiting) ->
    (id ∉ sy_ran x) /\ (forall y, grpc_step x y -> still_waits x y id ctx c) /\
    grpc_step x (put_call id ctx c (Refused (ctx_expired ctx)) (sy_grpc x) x) /\
    (Z.of_nat (size (watches x)) < c_MaxRPC (gs_config s) ->
      exists y, rtc grpc_step x y /\ sy_calls y !! id = Some (MkCallState ctx c Holding))) /\
  NoDup (sy_ran x) /\
  (forall id ctx c e, sy_calls x !! id = Some (MkCallState ctx c (Refused e)) -> e = ctx_error ctx /\ id ∉ sy_ran x) /\
  (forall id ctx c r, sy_calls x !! id = Some (MkCallState ctx c (Answered r)) -> id ∈ sy_ran x).
Proof.
  intros Hpos Hx. pose proof (grpc_rtc_inv _ _ Hx (grpc_start_inv p h Hpos)) as Hi.
  split; [exact (gi_held _ Hi)|]. split; [exact (gi_max _ Hi)|]. split; [intros y id c; exact (step_arrived x y id c Hi)|].
  split; [|split; [exact (gi_once _ Hi)|split]].
  - intros id ctx c Hid. destruct (gi_call _ Hi _ _ Hid) as [_ Hran]. split; [exact Hran|].
    split; [intros y Hs; exact (step_waits x y id ctx c Hi Hs Hid)|]. split; [by apply gst_expired|]. exact (waiting_served x id ctx c Hi Hid).
  - intros id ctx c e Hid. exact (gi_call _ Hi _ _ Hid).
  - intros id ctx c r Hid. exact (gi_call _ Hi _ _ Hid).
Qed.

End Server.
Arguments grpcState : clear implicits.
Arguments grpcSys : clear implicits.
Arguments GrpcServer : clear implicits.

(** ** Start-up *)

(** The certificate and its key are read again by a watcher when they change. *)
Record TLSConfig : Type := MkTLSConfig { tls_cert : string; tls_key : string; tls_RootCAs : option string }.
Inductive ServerOption : Type := InsecureCreds | TLSCreds (c : TLSConfig).

Section Start.
Context `{E : ErrorsAPI} (Join : string -> string -> string) (ReadFile : string -> result string).
Context (certwatcher_New : string -> string -> error) (Listen : string -> error) (Serve : list ServerOption -> error).
Context (c : Config).

(** [internal/grpcserver/options.go:50-83 GrpcServer.createTLSConfig] *)
Definition createTLSConfig : result TLSConfig :=
  match ReadFile (Join (c_CertDir c) (c_CaName c)) with
  | Err e => Err ("failed to read client CA cert: " +:+ e)
  | Panic => Panic
  | Ok ca =>
      let certPath := Join (c_CertDir c) (c_CertName c) in
      let keyPath := Join (c_CertDir c) (c_KeyName c) in
      match certwatcher_New certPath keyPath with
      | Some e => Err e
      | None => Ok (MkTLSConfig certPath keyPath (if bool_decide (ca = "") then None else Some ca))
      end
  end.

(** [internal/grpcserver/options.go:33-48 GrpcServer.serverOpts] *)
Definition serverOpts : result (list ServerOption) :=
  if c_Insecure c then Ok [InsecureCreds]
  else tlsConfig ← createTLSConfig; Ok [TLSCreds tlsConfig].

(** The services are registered with the gRPC library, which runs until it fails.

    [internal/grpcserver/grpc_server.go:93-127 GrpcServer.Start] *)
Definition grpc_Start : result unit :=
  match Listen (c_Address c) with
  | Some e => match Wrap (Some e) "cannot listen" with Some e => Err e | None => Ok tt end
  | None =>
      opts ← serverOpts;
      match Serve opts with Some e => Err e | None => Ok tt end
  end.

(** A secure server is served with the certificate and key of the directory or not at all. *)
Lemma serverOpts_secure opts : c_Insecure c = false -> serverOpts = Ok opts ->
  exists ca, ReadFile (Join (c_CertDir c) (c_CaName c)) = Ok ca /\
    opts = [TLSCreds (MkTLSConfig (Join (c_CertDir c) (c_CertName c)) (Join (c_CertDir c) (c_KeyName c)) (if bool_decide (ca = "") then None else Some ca))].
Proof.
  unfold serverOpts, createTLSConfig. intros ->. destruct (ReadFile _) as [ca|e|]; [|done..].
  destruct (certwatcher_New _ _); [done|]. intros [= <-]. by exists ca.
Qed.

End Start.

(** ** A server with one slot *)

Definition one_slot : GrpcServer unit :=
  grpc_New (MkConfig ":9999" true 1 0 "" "" "" "") [WithWatchHandler health_Watch_start; WithClaimHandler (fun _ => panic)].
Definition in_time : callContext := MkCallContext None "context deadline exceeded".
Definition test_claim : call := CallClaim (MkClaimRequest None "" "").

(** A health watch takes the slot, and a claim arrives and waits. *)
Definition watch_and_claim : grpcSys unit :=
  let g := MkGrpcState 1 () (health_Watch_start "ipam" 7 health_New).1 in
  MkGrpcSys g {[ 0%nat := MkCallState in_time (CallWatch "ipam" 7) (Streaming None); 1%nat := MkCallState in_time test_claim Waiting ]} [0%nat].

Lemma watch_and_claim_reached : rtc (grpc_step one_slot) (grpc_start () health_New) watch_and_claim.
Proof.
  eapply rtc_l; [apply (gst_arrive one_slot (grpc_start () health_New) 0 in_time (CallWatch "ipam" 7)); reflexivity|].
  eapply rtc_l; [eapply (gst_handled one_slot _ 0 in_time (CallWatch "ipam" 7)); reflexivity|].
  eapply rtc_l; [apply (gst_arrive one_slot _ 1 in_time test_claim); reflexivity|]. apply rtc_refl.
Qed.

(** The claim can only go on waiting or be refused. *)
Lemma grpc_slots_witness : size (holders watch_and_claim) = 1%nat /\ (1%nat ∉ sy_ran watch_and_claim) /\
  (forall y, grpc_step one_slot watch_and_claim y -> still_waits one_slot watch_and_claim y 1 in_time test_claim) /\
  grpc_step one_slot watch_and_claim (put_call 1 in_time test_claim (Refused "context deadline exceeded") (sy_grpc watch_and_claim) watch_and_claim).
Proof.
  destruct (grpc_slots one_slot () health_New watch_and_claim eq_refl watch_and_claim_reached) as (Hheld & _ & _ & Hw & _).
  destruct (Hw 1%nat in_time test_claim eq_refl) as (Hran & Hstep & Href & _).
  split; [apply (inj Z.of_nat); symmetry; exact Hheld|]. split; [exact Hran|]. split; [exact Hstep|exact Href].
Defined.

(** When the watch ends, the claim gets the slot. *)
Lemma claim_after_watch : exists y, rtc (grpc_step one_slot) watch_and_claim y /\
  sy_calls y !! 1%nat = Some (MkCallState in_time test_claim Holding) /\ g_held (sy_grpc y) = 1.
Proof.
  eexists. split.
  - eapply rtc_l; [eapply (gst_health_turn one_slot _ 0 in_time "ipam" 7 None ContextDone); reflexivity|].
    eapply rtc_l; [eapply (gst_released one_slot _ 0); reflexivity|].
    eapply rtc_l; [eapply (gst_granted one_slot _ 1 in_time test_claim); reflexivity|]. apply rtc_refl.
  - split; reflexivity.
Qed.
