(* ===== verification/ClientProxy.v ===== *)
(** * pkg/proxy/clientproxy: the client side of the resource service

    The proxy turns a Kubernetes object into a claim request, sends it to the server
    and decodes the answer. It keeps a cache of answers, refreshed before they
    expire, and an informer that tells the controllers which objects to reconcile
    again. *)

From S2P Require Import Prelude Meta Labels KRM Backend IpamWatcher ServerProxy.

Local Open Scope Z_scope.

(** ** Cache *)

(** [pkg/proxy/clientproxy/cache.go:45-48 ObjectKindKey] *)
Record ObjectKindKey : Type := MkObjectKindKey { key_gvk : GroupVersionKind; key_nsn : NamespacedName }.

#[export] Instance ObjectKindKey_eq_dec : EqDecision ObjectKindKey.
Proof. solve_decision. Defined.
#[export] Instance ObjectKindKey_countable : Countable ObjectKindKey.
Proof.
  apply (inj_countable' (fun k => (key_gvk k, key_nsn k)) (fun '(g, n) => MkObjectKindKey g n)).
  by intros [].
Defined.

(** The cache: the answers by key. *)
Abbreviation respCache := (gmap ObjectKindKey ClaimResponse).

(** [pkg/proxy/clientproxy/cache.go:38-42 NewCache] *)
Definition NewCache : respCache := ∅.

(** [pkg/proxy/clientproxy/cache.go:56-63 cache.Get] *)
Definition cache_Get (key : ObjectKindKey) (c : respCache) : option ClaimResponse := c !! key.

(** [pkg/proxy/clientproxy/cache.go:65-69 cache.Add] *)
Definition cache_Add (key : ObjectKindKey) (claimRsp : ClaimResponse) (c : respCache) : respCache :=
  <[key := claimRsp]> c.

(** [pkg/proxy/clientproxy/cache.go:71-75 cache.Delete] *)
Definition cache_Delete (key : ObjectKindKey) (c : respCache) : respCache := delete key c.

(** [pkg/proxy/clientproxy/cache.go:77-89 getKey] *)
Definition getKey (claim : ClaimRequest) : result ObjectKindKey :=
  h ← deref (rq_Header claim);
  gvk ← deref (h_Gvk h);
  nsn ← deref (h_Nsn h);
  Ok (MkObjectKindKey (GVK (pb_Group gvk) (pb_Version gvk) (pb_Kind gvk)) (NSN (pb_Namespace nsn) (pb_Name nsn))).

(** [pkg/proxy/clientproxy/cache.go:91-99 isCacheDataValid] *)
Definition isCacheDataValid (cacheResp : ClaimResponse) (claim : ClaimRequest) : bool :=
  if bool_decide (rp_Spec cacheResp <> rq_Spec claim) then false
  else if bool_decide (rp_StatusCode cacheResp <> StatusCode_Valid) then false
  else true.

(** Times in nanoseconds and their text, in RFC 3339. *)
Class TimeAPI : Type := {
  MarshalText : Z -> result string;
  ParseRFC3339 : string -> result Z
}.

Definition Minute : Z := 60 * 1000000000.

Section Expiry.
Context `{T : TimeAPI}.

(** One turn of the loop. An expiry time that cannot be parsed is skipped. *)
Definition to_refresh (now : Z) (r : ClaimResponse) : bool :=
  if bool_decide (rp_ExpiryTime r <> "never" /\ rp_StatusCode r = StatusCode_Valid) then
    match ParseRFC3339 (rp_ExpiryTime r) with
    | Ok t => bool_decide (t - (now + Minute * 59) < 0)
    | _ => false
    end
  else false.

(** [pkg/proxy/clientproxy/cache.go:101-122 cache.ValidateExpiryTime] *)
Definition ValidateExpiryTime (now : Z) (c : respCache) : respCache :=
  foldl (fun acc '(key, r) => if to_refresh now r then <[key := r]> acc else acc) ∅ (map_to_list c).

End Expiry.

(** ** Informer *)

(** [unstructured.Unstructured], as far as it is filled here. *)
Record Unstructured : Type := MkUnstructured {
  u_APIVersion : string; u_Kind : string; u_Namespace : string; u_Name : string
}.

(** [pkg/meta/unstructured.go:25-31 GetUnstructuredFromGVK] *)
Definition GetUnstructuredFromGVK (gvk : GroupVersionKind) : Unstructured :=
  MkUnstructured (Identifier (GroupVersion_of gvk)) (Kind gvk) "" "".

(** The channels, by the kind of the owner, and the events sent on them. The
    channels are numbered.

    [pkg/proxy/clientproxy/informer.go:54-60 informer] *)
Record informer : Type := MkInformer {
  inf_eventCh : gmap GroupVersionKind nat;
  inf_sent : list (nat * Unstructured)
}.

(** [pkg/proxy/clientproxy/informer.go:38-44 NewNopInformer] *)
Definition NewNopInformer : informer := MkInformer ∅ [].
(** [pkg/proxy/clientproxy/informer.go:46-52 NewInformer] *)
Definition NewInformer (EventChannels : gmap GroupVersionKind nat) : informer := MkInformer EventChannels [].
(** [pkg/proxy/clientproxy/informer.go:62-66 informer.Add] *)
Definition informer_Add (gvk : GroupVersionKind) (ch : nat) (r : informer) : informer :=
  MkInformer (<[gvk := ch]> (inf_eventCh r)) (inf_sent r).
(** [pkg/proxy/clientproxy/informer.go:68-72 informer.Delete] *)
Definition informer_Delete (gvk : GroupVersionKind) (r : informer) : informer :=
  MkInformer (delete gvk (inf_eventCh r)) (inf_sent r).

(** [pkg/proxy/clientproxy/informer.go:74-90 informer.NotifyClient] *)
Definition NotifyClient (ownerGvk : GroupVersionKind) (ownerNsn : NamespacedName) (r : informer) : informer :=
  let u := GetUnstructuredFromGVK ownerGvk in
  let u := MkUnstructured (u_APIVersion u) (u_Kind u) (nsn_Namespace ownerNsn) (nsn_Name ownerNsn) in
  match inf_eventCh r !! ownerGvk with
  | Some eventCh => MkInformer (inf_eventCh r) (inf_sent r ++ [(eventCh, u)])
  | None => r
  end.

(** [map_to_list] stands for the unspecified order of Go's iteration over a map.

    [pkg/proxy/clientproxy/informer.go:92-100 informer.GetGVK] *)
Definition GetGVK (r : informer) : list GroupVersionKind := (map_to_list (inf_eventCh r)).*1.

(** ** Response validators *)

(** [pkg/proxy/clientproxy/resp_validator.go:25-25 RefreshRespValidatorFn] *)
Definition RefreshRespValidatorFn : Type := ClaimResponse -> ClaimResponse -> bool.
Abbreviation respValidator := (gmap string RefreshRespValidatorFn).
(** [pkg/proxy/clientproxy/resp_validator.go:33-37 NewResponseValidator] *)
Definition NewResponseValidator : respValidator := ∅.
(** [pkg/proxy/clientproxy/resp_validator.go:44-48 respValidator.Add] *)
Definition validator_Add (key : string) (fn : RefreshRespValidatorFn) (r : respValidator) : respValidator :=
  <[key := fn]> r.
(** [pkg/proxy/clientproxy/resp_validator.go:50-54 respValidator.Get] *)
Definition validator_Get (key : string) (r : respValidator) : option RefreshRespValidatorFn := r !! key.

(** ** Requests *)

(** [pkg/proxy/clientproxy/clientproxy.go:324-355 BuildResourcePb] *)
Definition BuildResourcePb (o : Object) (nsnName specBody expiryTime : string) (gvk : GroupVersionKind) :
    ClaimRequest :=
  let ownerGVK :=
    match default ∅ (om_Labels (o_Meta o)) !! NephioOwnerGvkKey with
    | Some ownerGVKValue => StringToGVK ownerGVKValue
    | None => o_GVK o
    end in
  MkClaimRequest
    (Some (MkHeader (Some (ResourcePbGVK (Group gvk) (Version gvk) (Kind gvk)))
             (Some (ResourcePbNSN (om_Namespace (o_Meta o)) nsnName))
             (Some (ResourcePbGVK (Group ownerGVK) (Version ownerGVK) (Kind ownerGVK)))
             (Some (ResourcePbNSN (om_Namespace (o_Meta o)) (om_Name (o_Meta o))))))
    specBody expiryTime.

(** The client of the resource service, generated from its description; the state
    [R] is the one of the server. *)
Record ResourceClient (R : Type) : Type := MkResourceClient {
  rc_CreateIndex : ClaimRequest -> M R unit;
  rc_DeleteIndex : ClaimRequest -> M R unit;
  rc_GetClaim : ClaimRequest -> M R ClaimResponse;
  rc_Claim : ClaimRequest -> M R ClaimResponse;
  rc_DeleteClaim : ClaimRequest -> M R unit
}.
Arguments MkResourceClient {R} rc_CreateIndex rc_DeleteIndex rc_GetClaim rc_Claim rc_DeleteClaim.
Arguments rc_CreateIndex {R} r.
Arguments rc_DeleteIndex {R} r.
Arguments rc_GetClaim {R} r.
Arguments rc_Claim {R} r.
Arguments rc_DeleteClaim {R} r.

(** What a controller uses of the service: the operations on the state [S] of the
    service; [O] holds the objects the caller passes by reference, which the
    operation may change. A nil object is [None].

    [pkg/proxy/clientproxy/clientproxy.go:37-49 Proxy] *)
Record Proxy (S O T1 T2 : Type) : Type := MkProxy {
  p_CreateIndex : T1 -> M S unit;
  p_DeleteIndex : T1 -> M S unit;
  p_GetClaim : M (S * O) (option T2);
  p_Claim : M (S * O) (option T2);
  p_DeleteClaim : M (S * O) unit
}.
Arguments MkProxy {S O T1 T2} p_CreateIndex p_DeleteIndex p_GetClaim p_Claim p_DeleteClaim.
Arguments p_CreateIndex {S O T1 T2} p.
Arguments p_DeleteIndex {S O T1 T2} p.
Arguments p_GetClaim {S O T1 T2} p.
Arguments p_Claim {S O T1 T2} p.
Arguments p_DeleteClaim {S O T1 T2} p.

Definition on_service {S O A} (m : M S A) : M (S * O) A := zoom fst (fun s x => (s, x.2)) m.
Definition on_args {S O A} (m : M O A) : M (S * O) A := zoom snd (fun o x => (x.1, o)) m.

Section ClientProxy.
Context {R O T1 T2 : Type} `{T : TimeAPI}.
(** The object of an index, and the codecs. *)
Context (object_of : T1 -> Object) (json_index : Codec T1) (json_claim : Codec T2).
(** [Config.Normalizefn], on the objects of the caller. *)
Context (normalizeFn : M O ClaimRequest).

(** The watches: not asked for, about to be started by their goroutine, or running
    for some kinds. *)
Inductive watching : Type := WatchNone | WatchPending | Watching (gvks : list GroupVersionKind).

(** [pkg/proxy/clientproxy/clientproxy.go:79-97 clientproxy] *)
Record clientproxy : Type := MkClientproxy {
  cp_resourceClient : option (ResourceClient R);
  cp_cache : respCache;
  cp_informer : informer;
  cp_validator : respValidator;
  cp_watches : watching;
  cp_server : R
}.

Definition set_client c r := MkClientproxy c (cp_cache r) (cp_informer r) (cp_validator r) (cp_watches r) (cp_server r).
Definition set_cache c r := MkClientproxy (cp_resourceClient r) c (cp_informer r) (cp_validator r) (cp_watches r) (cp_server r).
Definition set_informer i r := MkClientproxy (cp_resourceClient r) (cp_cache r) i (cp_validator r) (cp_watches r) (cp_server r).
Definition set_watches w r := MkClientproxy (cp_resourceClient r) (cp_cache r) (cp_informer r) (cp_validator r) w (cp_server r).
Definition set_server s r := MkClientproxy (cp_resourceClient r) (cp_cache r) (cp_informer r) (cp_validator r) (cp_watches r) s.

Definition on_server {A} (m : M R A) : M clientproxy A := zoom cp_server set_server m.

(** *** Connection *)

(** [pkg/proxy/clientproxy/resource_client.go:27-34 clientproxy.getClient] *)
Definition getClient : M clientproxy (ResourceClient R) := fun r =>
  (r, match cp_resourceClient r with
      | None => Err "backend server unreachable"
      | Some c => Ok c
      end).

(** The start of the goroutine.

    [pkg/proxy/clientproxy/watch.go:33-36 clientproxy.startWatches] *)
Definition startWatches : M clientproxy unit := modify (set_watches WatchPending).

(** The goroutine: it runs once, some time after it was started.

    [pkg/proxy/clientproxy/watch.go:36-46 clientproxy.startWatches] *)
Definition startWatches_go : M clientproxy unit := modify (fun r =>
  match cp_watches r with
  | WatchPending => set_watches (Watching (GetGVK (cp_informer r))) r
  | _ => r
  end).

(** [pkg/proxy/clientproxy/watch.go:49-51 clientproxy.stopWatches] *)
Definition stopWatches : M clientproxy unit := modify (set_watches WatchNone).

(** [dial] is the result of [resource.New].

    [pkg/proxy/clientproxy/resource_client.go:51-69 clientproxy.createClient] *)
Definition createClient (dial : result (ResourceClient R)) : M clientproxy unit :=
  match dial with
  | Ok c => _ ← startWatches; modify (set_client (Some c))
  | Err e => _ ← modify (set_client None); throw e
  | Panic => panic
  end.

(** [close] is the result of [Delete] on the client.

    [pkg/proxy/clientproxy/resource_client.go:36-49 clientproxy.deleteClient] *)
Definition deleteClient (close : result unit) : M clientproxy unit :=
  r ← get_state;
  _ ← match cp_resourceClient r with
      | Some _ => _ ← stopWatches; lift close
      | None => mret tt
      end;
  modify (set_client None).

(** An error of [createClient] is only logged.

    [pkg/proxy/clientproxy/clientproxy.go:61-77 New] *)
Definition clientproxy_New (group : string) (ValidateFn : RefreshRespValidatorFn)
    (dial : result (ResourceClient R)) (server : R) : clientproxy :=
  (log_error (createClient dial)
    (MkClientproxy None NewCache NewNopInformer (validator_Add group ValidateFn NewResponseValidator) WatchNone server)).1.

(** [pkg/proxy/clientproxy/clientproxy.go:100-102 clientproxy.AddEventChs] *)
Definition AddEventChs (eventChannels : gmap GroupVersionKind nat) : M clientproxy unit :=
  modify (set_informer (NewInformer eventChannels)).

(** *** Claims *)

(** The flag is overwritten and an answer is not added to the cache.

    [pkg/proxy/clientproxy/clientproxy.go:268-303 clientproxy.claim] *)
Definition cp_claim (claim : ClaimRequest) (refresh : bool) : M clientproxy ClaimResponse :=
  resourceClient ← getClient;
  let refresh := false in
  key ← lift (getKey claim);
  r ← get_state;
  let cacheData := if negb refresh then cache_Get key (cp_cache r) else None in
  match cacheData with
  | Some d => if isCacheDataValid d claim then mret d else on_server (rc_Claim resourceClient claim)
  | None => on_server (rc_Claim resourceClient claim)
  end.

(** [pkg/proxy/clientproxy/clientproxy.go:202-204 clientproxy.refreshClaim] *)
Definition refreshClaim (claim : ClaimRequest) : M clientproxy ClaimResponse := cp_claim claim true.

(** [pkg/proxy/clientproxy/clientproxy.go:188-200 clientproxy.CreateIndex] *)
Definition cp_CreateIndex (cr : T1) : M clientproxy unit :=
  b ← lift (Marshal json_index cr);
  let o := object_of cr in
  let req := BuildResourcePb o (om_Name (o_Meta o)) b "never" (GetGVKFromObject o) in
  resourceClient ← getClient;
  on_server (rc_CreateIndex resourceClient req).

(** [pkg/proxy/clientproxy/clientproxy.go:206-218 clientproxy.DeleteIndex] *)
Definition cp_DeleteIndex (cr : T1) : M clientproxy unit :=
  b ← lift (Marshal json_index cr);
  let o := object_of cr in
  let req := BuildResourcePb o (om_Name (o_Meta o)) b "never" (GetGVKFromObject o) in
  resourceClient ← getClient;
  on_server (rc_DeleteIndex resourceClient req).

(** An answer that is not valid gives a nil object and no error.

    [pkg/proxy/clientproxy/clientproxy.go:220-244 clientproxy.GetClaim] *)
Definition cp_GetClaim : M (clientproxy * O) (option T2) :=
  req ← on_args normalizeFn;
  resourceClient ← on_service getClient;
  resp ← on_service (on_server (rc_GetClaim resourceClient req));
  if bool_decide (rp_StatusCode resp <> StatusCode_Valid) then mret None
  else
    x ← lift (Unmarshal json_claim (rp_Status resp));
    mret (Some x).

(** [pkg/proxy/clientproxy/clientproxy.go:246-265 clientproxy.Claim] *)
Definition cp_Claim : M (clientproxy * O) (option T2) :=
  req ← on_args normalizeFn;
  resp ← on_service (cp_claim req false);
  x ← lift (Unmarshal json_claim (rp_Status resp));
  mret (Some x).

(** [pkg/proxy/clientproxy/clientproxy.go:305-322 clientproxy.DeleteClaim] *)
Definition cp_DeleteClaim : M (clientproxy * O) unit :=
  req ← on_args normalizeFn;
  resourceClient ← on_service getClient;
  _ ← on_service (on_server (rc_DeleteClaim resourceClient req));
  key ← lift (getKey req);
  on_service (modify (fun r => set_cache (cache_Delete key (cp_cache r)) r)).

Definition cp_proxy : Proxy clientproxy O T1 T2 :=
  MkProxy cp_CreateIndex cp_DeleteIndex cp_GetClaim cp_Claim cp_DeleteClaim.

(** *** Refresh *)

(** The getters of the generated messages give the zero value on nil. *)
Definition header_ownerGvk (h : option Header) : GroupVersionKind :=
  match h ≫= h_OwnerGvk with Some g => GVK (pb_Group g) (pb_Version g) (pb_Kind g) | None => GVK "" "" "" end.
Definition header_ownerNsn (h : option Header) : NamespacedName :=
  match h ≫= h_OwnerNsn with Some n => NSN (pb_Namespace n) (pb_Name n) | None => NSN "" "" end.
Definition header_group (h : option Header) : string :=
  match h ≫= h_Gvk with Some g => pb_Group g | None => "" end.

(** The entry is dropped and its owner reconciled again. *)
Definition invalidate (objKey : ObjectKindKey) (h : option Header) : M clientproxy unit :=
  modify (fun r => set_informer (NotifyClient (header_ownerGvk h) (header_ownerNsn h) (cp_informer r))
    (set_cache (cache_Delete objKey (cp_cache r)) r)).

(** One entry, with its goroutine run to its end. A time that cannot be marshalled is
    only logged.

    [pkg/proxy/clientproxy/clientproxy.go:130-177 clientproxy.start] *)
Definition refresh_entry (now : Z) (objKey : ObjectKindKey) (orig : ClaimResponse) : M clientproxy unit := fun r =>
  let b := match MarshalText (now + Minute * 60) with Ok b => b | _ => "" end in
  let req := MkClaimRequest (rp_Header orig) (rp_Spec orig) b in
  match refreshClaim req r with
  | (r, Err _) => invalidate objKey (rp_Header orig) r
  | (r, Panic) => (r, Panic)
  | (r, Ok resp) =>
      match validator_Get (header_group (rp_Header orig)) (cp_validator r) with
      | Some fn => if negb (fn orig resp) then invalidate objKey (rp_Header orig) r else (r, Ok tt)
      | None => (r, Ok tt)
      end
  end.

(** What happens every 900 seconds; the goroutines of the entries run one after the
    other, in any order.

    [pkg/proxy/clientproxy/clientproxy.go:123-180 clientproxy.start] *)
Definition refresh (now : Z) : M clientproxy unit :=
  r ← get_state;
  forM (map_to_list (ValidateExpiryTime now (cp_cache r))) (fun '(objKey, resp) => refresh_entry now objKey resp).

(** A message of a watch.

    [pkg/proxy/clientproxy/watch.go:99-112 clientproxy.startWatch] *)
Definition watch_response (response : WatchResponse) : M clientproxy unit :=
  h ← lift (deref (wr_Header response));
  _ ← (if bool_decide (wr_StatusCode response = StatusCode_Unknown) then
         gvk ← lift (deref (h_Gvk h));
         nsn ← lift (deref (h_Nsn h));
         modify (fun r => set_cache (cache_Delete
           (MkObjectKindKey (GetSchemaGVKFromResourcePbGVK gvk) (GetTypeNSNFromResourcePbNSN nsn)) (cp_cache r)) r)
       else mret tt);
  ownerGvk ← lift (deref (h_OwnerGvk h));
  ownerNsn ← lift (deref (h_OwnerNsn h));
  modify (fun r => set_informer (NotifyClient (GetSchemaGVKFromResourcePbGVK ownerGvk)
    (GetTypeNSNFromResourcePbNSN ownerNsn) (cp_informer r)) r).

(** ** Properties *)

(** The proxy as a state machine. The requests come with the objects of a caller. *)
Inductive cp_step (r : clientproxy) : clientproxy -> Prop :=
| cps_AddEventChs chs : cp_step r (AddEventChs chs r).1
| cps_startWatches : cp_step r (startWatches_go r).1
| cps_createClient dial : cp_step r (createClient dial r).1
| cps_deleteClient close : cp_step r (deleteClient close r).1
| cps_CreateIndex cr : cp_step r (cp_CreateIndex cr r).1
| cps_DeleteIndex cr : cp_step r (cp_DeleteIndex cr r).1
| cps_GetClaim o : cp_step r (cp_GetClaim (r, o)).1.1
| cps_Claim o : cp_step r (cp_Claim (r, o)).1.1
| cps_DeleteClaim o : cp_step r (cp_DeleteClaim (r, o)).1.1
| cps_refresh now : cp_step r (refresh now r).1
| cps_watch w : cp_step r (watch_response w r).1
| cps_server s : cp_step r (set_server s r).

Lemma foldl_refresh now l acc :
  foldl (fun (acc : respCache) '(key, r) => if to_refresh now r then <[key := r]> acc else acc) acc l =
  list_to_map (reverse (filter (fun kr => to_refresh now kr.2 = true) l)) ∪ acc.
Proof.
  revert acc. induction l as [|[k r] l IH]; intros acc; cbn [foldl].
  - rewrite filter_nil, reverse_nil, list_to_map_nil. by rewrite (left_id_L ∅ (∪)).
  - rewrite IH. destruct (to_refresh now r) eqn:Hr.
    + rewrite filter_cons_True by done. rewrite reverse_cons, list_to_map_app, <-(assoc_L (∪)). f_equal.
      rewrite insert_union_singleton_l. done.
    + rewrite filter_cons_False by (cbn; congruence). done.
Qed.

(** The entries to refresh, whatever the order in which the cache is walked. *)
Lemma ValidateExpiryTime_lookup now c k r :
  ValidateExpiryTime now c !! k = Some r <-> c !! k = Some r /\ to_refresh now r = true.
Proof.
  unfold ValidateExpiryTime. rewrite foldl_refresh, (right_id_L ∅ (∪)).
  assert (Hnd : NoDup (filter (fun kr => to_refresh now kr.2 = true) (map_to_list c)).*1).
  { eapply sublist_NoDup; [apply (NoDup_fst_map_to_list c)|]. apply (fmap_sublist fst), sublist_filter. }
  rewrite <-elem_of_list_to_map by (by rewrite fmap_reverse, reverse_Permutation).
  rewrite elem_of_reverse, list_elem_of_filter, elem_of_map_to_list. cbn. tauto.
Qed.

(** Invariants of the proxy under an operation that also changes the objects of its
    caller. *)
Definition on_proxy (I : clientproxy -> Prop) (x : clientproxy * O) : Prop := I x.1.

Lemma keeps_on_args I {A} (m : M O A) : keeps (on_proxy I) (on_args m).
Proof. intros x Hx. unfold on_args, zoom. by destruct (m x.2). Qed.
Lemma keeps_on_service I {A} (m : M clientproxy A) : keeps I m -> keeps (on_proxy I) (on_service m).
Proof.
  intros Hm [r o] Hx. unfold on_service, zoom, on_proxy in *. specialize (Hm _ Hx). cbn in *.
  by destruct (m r).
Qed.

(** An empty cache. *)
Definition cache_empty (r : clientproxy) : Prop := cp_cache r = ∅.

Lemma cache_empty_server {A} (m : M R A) : keeps cache_empty (on_server m).
Proof. intros r Hr. unfold on_server, zoom. by destruct (m (cp_server r)). Qed.

Lemma cache_empty_getClient : keeps cache_empty getClient.
Proof. by intros r. Qed.

Lemma cache_empty_delete f k : (forall r, cp_cache (f r) = cache_Delete k (cp_cache r)) ->
  keeps cache_empty (modify f).
Proof. intros Hf r Hr. unfold cache_empty. cbn. rewrite Hf, Hr. apply delete_empty. Qed.

Lemma cache_empty_same f : (forall r, cp_cache (f r) = cp_cache r) -> keeps cache_empty (modify f).
Proof. intros Hf r Hr. unfold cache_empty. cbn. by rewrite Hf. Qed.

#[local] Hint Resolve keeps_on_args keeps_on_service cache_empty_server cache_empty_getClient : keeps.

Lemma cache_empty_claim rq b : keeps cache_empty (cp_claim rq b).
Proof.
  unfold cp_claim. keeps_auto. cbn [negb]. destruct (cache_Get _ _) as [d|]; [|eauto with keeps].
  destruct (isCacheDataValid d rq); eauto with keeps.
Qed.

#[local] Hint Resolve cache_empty_claim : keeps.

Lemma cache_empty_calls : keeps (on_proxy cache_empty) cp_GetClaim /\ keeps (on_proxy cache_empty) cp_Claim /\
  keeps (on_proxy cache_empty) cp_DeleteClaim.
Proof.
  split_and!; unfold cp_GetClaim, cp_Claim, cp_DeleteClaim; keeps_auto.
  apply keeps_on_service. by eapply cache_empty_delete.
Qed.

Lemma cache_empty_refresh now : keeps cache_empty (refresh now).
Proof.
  intros r Hr. unfold refresh, mbind, M_bind, get_state. rewrite Hr.
  by unfold ValidateExpiryTime; rewrite map_to_list_empty.
Qed.

Lemma cp_step_cache_empty r r' : cp_step r r' -> cache_empty r -> cache_empty r'.
Proof.
  intros Hstep Hr. destruct cache_empty_calls as (Hg&Hc&Hd). destruct Hstep as [chs| |d|c|cr|cr|o|o|o|now|w|s].
  - done.
  - cbn. by destruct (cp_watches r).
  - unfold createClient. by destruct d.
  - unfold deleteClient, mbind, M_bind, get_state. destruct (cp_resourceClient r); [|done]. cbn. by destruct c.
  - unfold cp_CreateIndex. apply (keeps_bind cache_empty); [..|done]; keeps_auto.
  - unfold cp_DeleteIndex. apply (keeps_bind cache_empty); [..|done]; keeps_auto.
  - by apply (Hg (r, o)).
  - by apply (Hc (r, o)).
  - by apply (Hd (r, o)).
  - by apply cache_empty_refresh.
  - revert Hr. apply (keeps_bind_lift cache_empty). intros h _. apply keeps_bind.
    + case_bool_decide; [|apply keeps_ret]. keeps_auto. by eapply cache_empty_delete.
    + keeps_auto.
  - done.
Qed.

Lemma cache_empty_New group fn dial s : cache_empty (clientproxy_New group fn dial s).
Proof. unfold clientproxy_New, log_error, createClient. by destruct dial. Qed.

Lemma cp_steps_cache_empty r0 r : rtc cp_step r0 r -> cache_empty r0 -> cache_empty r.
Proof. induction 1 as [|r0 r1 r Hs _ IH]; [done|]. intros H0. by eapply IH, cp_step_cache_empty. Qed.

Lemma cp_claim_uncached rq b r : cache_empty r ->
  cp_claim rq b r =
  match cp_resourceClient r with
  | None => (r, Err "backend server unreachable")
  | Some c => match getKey rq with
              | Ok _ => on_server (rc_Claim c rq) r
              | Err e => (r, Err e)
              | Panic => (r, Panic)
              end
  end.
Proof.
  intros Hr. unfold cp_claim, mbind, M_bind, getClient, lift, get_state.
  destruct (cp_resourceClient r) as [c|]; [|done]. destruct (getKey rq) as [key| |]; [|done..].
  cbn [negb]. unfold cache_Get. by rewrite Hr, lookup_empty.
Qed.

(** The cache of a proxy is never filled: in every state a proxy reaches, whatever
    requests, refreshes, watch messages and reconnections it has gone through, a claim
    with or without the refresh flag is sent to the server when there is a client, and
    the periodic refresh does nothing. *)
Theorem clientproxy_never_caches group fn dial s r :
  rtc cp_step (clientproxy_New group fn dial s) r ->
  (forall now, refresh now r = (r, Ok tt)) /\
  (forall rq b c key, cp_resourceClient r = Some c -> getKey rq = Ok key ->
    cp_claim rq b r = on_server (rc_Claim c rq) r).
Proof.
  intros Hr. assert (cache_empty r) as He by (by eapply cp_steps_cache_empty, cache_empty_New). split.
  - intros now. unfold refresh, mbind, M_bind, get_state. rewrite He.
    by unfold ValidateExpiryTime; rewrite map_to_list_empty.
  - intros rq b c key Hc Hk. by rewrite cp_claim_uncached, Hc, Hk.
Qed.

End ClientProxy.
Arguments clientproxy : clear implicits.
