(* ===== verification/WatchLoop.v ===== *)
(** * pkg/proxy/clientproxy/watch.go: the loop of a watch

    A goroutine per kind subscribes to the server and passes the messages of the stream to
    the informer. A turn of its loop is a function of what the gRPC library answers to it.
    The errors of the library are of two kinds: those that [errors.Is] takes for
    [context.Canceled], and all others. *)

From S2P Require Import Prelude Meta KRM IpamApi IpamWatcher ServerProxy ClientProxy.

Section WatchLoop.
Context {R : Type}.

(** The proxy, the stream, the subscriptions that were made and the messages received. *)
Record watchState : Type := MkWatchState {
  ws_proxy : clientproxy R;
  ws_stream : option nat;
  ws_requests : list WatchRequest;
  ws_received : list WatchResponse
}.

Inductive answer (A : Type) : Type := Answer (a : A) | Failure (is_canceled : bool).
Arguments Answer {A} a.
Arguments Failure {A} is_canceled.

(** The kind of the owner is that of the watch, the kind of the resource is fixed. *)
Definition watch_request (gvk : GroupVersionKind) : WatchRequest :=
  MkWatchRequest (Some (MkHeader (Some (GetResourcePbGVKFromSchemaGVK (WithKind ipam_GroupVersion IPClaimKind))) None
    (Some (GetResourcePbGVKFromSchemaGVK gvk)) None)).

(** What a turn does with its stream: an error that is not a cancellation clears the
    stream; after a cancellation the message is nil and its fields are read.

    [pkg/proxy/clientproxy/watch.go:83-112 clientproxy.startWatch] *)
Definition watch_receive (received : answer WatchResponse) : M watchState unit := fun s =>
  match received with
  | Answer response =>
      let '(p, r) := watch_response response (ws_proxy s) in
      (MkWatchState p (ws_stream s) (ws_requests s) (ws_received s ++ [response]), r)
  | Failure true => (s, Panic)
  | Failure false => (MkWatchState (ws_proxy s) None (ws_requests s) (ws_received s), Ok tt)
  end.

(** A turn; a cancelled subscription leaves a nil stream, on which [Recv] is called.

    [pkg/proxy/clientproxy/watch.go:53-114 clientproxy.startWatch] *)
Definition watch_turn (gvk : GroupVersionKind) (x : answer nat * answer WatchResponse) : M watchState unit := fun s =>
  match cp_resourceClient (ws_proxy s) with
  | None => (s, Ok tt)
  | Some _ =>
      match ws_stream s with
      | Some _ => watch_receive x.2 s
      | None =>
          let asked stream := MkWatchState (ws_proxy s) stream (ws_requests s ++ [watch_request gvk]) (ws_received s) in
          match x.1 with
          | Answer stream => watch_receive x.2 (asked (Some stream))
          | Failure false => (asked None, Ok tt)
          | Failure true => (asked None, Panic)
          end
      end
  end.

(** The loop, for as many turns as there are answers. Nothing ends it but a panic.

    [pkg/proxy/clientproxy/watch.go:57-114 clientproxy.startWatch] *)
Definition startWatch (gvk : GroupVersionKind) (l : list (answer nat * answer WatchResponse)) : M watchState unit :=
  forM l (watch_turn gvk).

(** ** What the answers to a watch amount to

    Independently of the proxy: the stream a turn receives on, which is the one it has or
    else the one of its subscription, and the stream it leaves, which is none after a
    failure. *)

Definition stream_of (stream : option nat) (sub : answer nat) : option nat :=
  match stream, sub with
  | None, Answer n => Some n
  | None, Failure _ => None
  | Some n, _ => Some n
  end.
Definition stream_left (stream : option nat) (x : answer nat * answer WatchResponse) : option nat :=
  match x.2 with Answer _ => stream_of stream x.1 | Failure _ => None end.

Fixpoint stream_end (stream : option nat) (l : list (answer nat * answer WatchResponse)) : option nat :=
  match l with [] => stream | x :: l => stream_end (stream_left stream x) l end.

(** The messages: those that are answered to a turn that has a stream. *)
Fixpoint messages (stream : option nat) (l : list (answer nat * answer WatchResponse)) : list WatchResponse :=
  match l with
  | [] => []
  | x :: l =>
      match stream_of stream x.1, x.2 with Some _, Answer m => [m] | _, _ => [] end ++ messages (stream_left stream x) l
  end.

(** The subscriptions: one in every turn that begins without a stream, so in the first one
    and after every failure. *)
Fixpoint subscriptions (stream : option nat) (l : list (answer nat * answer WatchResponse)) : nat :=
  match l with
  | [] => 0
  | x :: l => (match stream with None => 1 | Some _ => 0 end + subscriptions (stream_left stream x) l)%nat
  end.

(** ** What a watch delivers *)

Lemma forM_app {S A} (l k : list A) (f : A -> M S unit) s s1 :
  forM l f s = (s1, Ok tt) -> forM (l ++ k) f s = forM k f s1.
Proof.
  revert s. induction l as [|x l IH]; intros s; cbn [forM app]; [by intros [= <-]|].
  unfold mbind at 1 2, M_bind at 1 2. destruct (f x s) as [s2 [[]|e|]]; [apply IH|done..].
Qed.

(** A message with the headers the server sends is handled without a panic. *)
Definition complete_message (m : WatchResponse) : Prop :=
  exists gvk nsn ogvk onsn, wr_Header m = Some (MkHeader (Some gvk) (Some nsn) (Some ogvk) (Some onsn)).

(** An answer that is not a cancellation, and whose message has its headers. *)
Definition regular (x : answer nat * answer WatchResponse) : Prop :=
  x.1 <> Failure true /\ match x.2 with Answer m => complete_message m | Failure c => c = false end.

Lemma watch_response_total m (p : clientproxy R) : complete_message m ->
  exists p', watch_response m p = (p', Ok tt) /\ cp_resourceClient p' = cp_resourceClient p.
Proof.
  intros (gvk & nsn & ogvk & onsn & Hm). unfold watch_response. rewrite Hm. unfold mbind, M_bind, lift. cbn.
  case_bool_decide; by eexists.
Qed.

(** A turn: its subscription if it has no stream, and its message if it then has one. *)
Lemma watch_turn_exact gvk x s : is_Some (cp_resourceClient (ws_proxy s)) -> regular x -> exists p,
  let ms := match stream_of (ws_stream s) x.1, x.2 with Some _, Answer m => [m] | _, _ => [] end in
  forM ms watch_response (ws_proxy s) = (p, Ok tt) /\ cp_resourceClient p = cp_resourceClient (ws_proxy s) /\
  watch_turn gvk x s = (MkWatchState p (stream_left (ws_stream s) x)
    (ws_requests s ++ replicate (match ws_stream s with None => 1 | Some _ => 0 end) (watch_request gvk)) (ws_received s ++ ms), Ok tt).
Proof.
  destruct x as [sub recv]. intros [c Hc] [Hsub Hrecv]. unfold watch_turn, watch_receive, stream_left. rewrite Hc. cbn [fst snd] in *.
  assert (Hm : forall m, complete_message m -> exists p, watch_response m (ws_proxy s) = (p, Ok tt) /\
    forM [m] watch_response (ws_proxy s) = (p, Ok tt) /\ cp_resourceClient p = Some c).
  { intros m [p [Hp Hpc]]%(fun m H => watch_response_total m (ws_proxy s) H). exists p. split; [done|]. split; [|congruence].
    cbn [forM]. unfold mbind, M_bind. by rewrite Hp. }
  destruct recv as [m|f]; [destruct (Hm m Hrecv) as (p & Hp & Hf & Hpc)|subst f].
  - destruct (ws_stream s) as [n|]; cbn [stream_of replicate ws_proxy ws_stream]; [|destruct sub as [n|[]]; [|done|]; cbn [ws_proxy ws_stream]]; rewrite ?Hp, ?app_nil_r;
      [exists p|exists p|exists (ws_proxy s)]; done.
  - exists (ws_proxy s). destruct (ws_stream s) as [n|]; cbn [stream_of replicate]; [|destruct sub as [n|[]]; [|done|]]; rewrite ?app_nil_r; done.
Qed.

Lemma startWatch_exact gvk l : Forall regular l -> forall s, is_Some (cp_resourceClient (ws_proxy s)) -> exists p,
  forM (messages (ws_stream s) l) watch_response (ws_proxy s) = (p, Ok tt) /\
  startWatch gvk l s = (MkWatchState p (stream_end (ws_stream s) l)
    (ws_requests s ++ replicate (subscriptions (ws_stream s) l) (watch_request gvk)) (ws_received s ++ messages (ws_stream s) l), Ok tt).
Proof.
  unfold startWatch. induction 1 as [|x l Hx Hl IH]; intros s Hc; cbn [forM messages subscriptions stream_end].
  { exists (ws_proxy s). rewrite !app_nil_r. by destruct s. }
  destruct (watch_turn_exact gvk x s Hc Hx) as (p1 & Hp1 & Hc1 & Ht). unfold mbind, M_bind. rewrite Ht.
  destruct (IH (MkWatchState p1 (stream_left (ws_stream s) x)
    (ws_requests s ++ replicate (match ws_stream s with None => 1 | Some _ => 0 end) (watch_request gvk))
    (ws_received s ++ match stream_of (ws_stream s) x.1, x.2 with Some _, Answer m => [m] | _, _ => [] end))) as (p & Hp & Hs).
  { cbn [ws_proxy]. by rewrite Hc1. }
  cbn [ws_proxy ws_stream ws_requests ws_received] in Hp, Hs. exists p. rewrite (forM_app _ _ _ _ _ Hp1). split; [exact Hp|].
  rewrite Hs, replicate_add, !app_assoc. done.
Qed.

(** A proxy that is not connected asks for nothing. *)
Lemma startWatch_unconnected gvk l s : cp_resourceClient (ws_proxy s) = None -> startWatch gvk l s = (s, Ok tt).
Proof.
  intros Hc. unfold startWatch. induction l as [|x l IH]; cbn [forM]; [done|].
  unfold mbind, M_bind, watch_turn. rewrite Hc. exact IH.
Qed.

(** C26. A watch whose calls to the gRPC library are not cancelled and whose messages have
    the headers the server sends never stops and never panics, and what it does is fixed by
    the answers of the library. Without a connection it does nothing. With one it subscribes
    once in every turn that begins without a stream, that is at first and after every failed
    subscription and every broken stream, each time for the kind of the watch; it receives
    exactly the messages that are answered to the turns that have a stream, in their order;
    every one of them is handled, so the proxy ends in the state it has after they were
    handled one after the other; and it is left with the last stream, unless that broke. *)
Theorem watch_loop_delivers gvk l s : Forall regular l ->
  match cp_resourceClient (ws_proxy s) with
  | None => startWatch gvk l s = (s, Ok tt)
  | Some _ => exists p, forM (messages (ws_stream s) l) watch_response (ws_proxy s) = (p, Ok tt) /\
      startWatch gvk l s = (MkWatchState p (stream_end (ws_stream s) l)
        (ws_requests s ++ replicate (subscriptions (ws_stream s) l) (watch_request gvk))
        (ws_received s ++ messages (ws_stream s) l), Ok tt)
  end.
Proof.
  intros Hl. destruct (cp_resourceClient (ws_proxy s)) as [c|] eqn:Hc; [|by apply startWatch_unconnected].
  apply startWatch_exact; [done|]. rewrite Hc. by eexists.
Qed.

End WatchLoop.
Arguments Answer {A} a.
Arguments Failure {A} is_canceled.

(** ** A watch that resubscribes *)

Definition test_message : WatchResponse :=
  MkWatchResponse (Some (MkHeader (Some (ResourcePbGVK "g" "v" "k")) (Some (ResourcePbNSN "ns" "c"))
    (Some (ResourcePbGVK "g" "v" "owner")) (Some (ResourcePbNSN "ns" "o")))) StatusCode_Valid.
Definition connected : clientproxy unit :=
  MkClientproxy (Some (MkResourceClient (fun _ => panic) (fun _ => panic) (fun _ => panic) (fun _ => panic) (fun _ => panic)))
    ∅ (NewInformer {[GVK "g" "v" "owner" := 3%nat]}) NewResponseValidator (Watching [GVK "g" "v" "owner"]) tt.

(** A subscription fails, a message arrives, the stream breaks, and another message arrives
    on a new one. *)
Definition test_answers : list (answer nat * answer WatchResponse) :=
  [(Failure false, Failure false); (Answer 1%nat, Answer test_message); (Failure false, Failure false); (Answer 2%nat, Answer test_message)].

Lemma watch_loop_delivers_witness : exists p, forM [test_message; test_message] watch_response connected = (p, Ok tt) /\
  startWatch (GVK "g" "v" "owner") test_answers (MkWatchState connected None [] []) =
  (MkWatchState p (Some 2%nat) (replicate 3 (watch_request (GVK "g" "v" "owner"))) [test_message; test_message], Ok tt).
Proof.
  apply (watch_loop_delivers (GVK "g" "v" "owner") test_answers (MkWatchState connected None [] [])).
  unfold test_answers. repeat constructor; try discriminate; by eexists _, _, _, _.
Defined.

(** A subscription that is cancelled panics. *)
Lemma startWatch_cancelled : (startWatch (GVK "g" "v" "owner") [(Failure true, Failure true)] (MkWatchState connected None [] [])).2 = Panic.
Proof. reflexivity. Qed.
