(* ===== verification/Dial.v ===== *)
(** * pkg/proto/resource: the connection of a client proxy to the server

    Dialling, the generated client and closing are those of the gRPC library. *)

From S2P Require Import Prelude Meta ServerProxy ClientProxy.

(** [pkg/proto/resource/config.go:19-31 Config] *)
Record DialConfig : Type := MkDialConfig {
  dc_Address : string;
  dc_Username : string;
  dc_Password : string;
  dc_Proxy : bool;
  dc_NoTLS : bool;
  dc_TLSCA : string;
  dc_TLSCert : string;
  dc_TLSKey : string;
  dc_SkipVerify : bool;
  dc_Insecure : bool;
  dc_MaxMsgSize : Z
}.

(** The transport credentials: none, or TLS with or without verification of the server. *)
Inductive DialOption : Type := DialInsecure | DialTLS (InsecureSkipVerify : bool).

Section Dial.
Context {R Conn : Type} (DialContext : string -> list DialOption -> result Conn).
Context (NewResourceClient : Conn -> ResourceClient R) (Close : Conn -> error).

(** [pkg/proto/resource/client.go:48-52 client] *)
Record rclient : Type := MkRClient {
  rcl_cfg : option DialConfig;
  rcl_conn : option Conn;
  rcl_resourcePbClient : option (ResourceClient R)
}.

(** [pkg/proto/resource/client.go:95-105 client.newTLS] *)
Definition newTLS (cfg : DialConfig) : DialOption := DialTLS (dc_SkipVerify cfg).

(** [pkg/proto/resource/client.go:54-82 client.create] *)
Definition rclient_create : M rclient unit := fun r =>
  match rcl_cfg r with
  | None => (r, Err "must provide non-nil Configw")
  | Some cfg =>
      let opts := [if dc_Insecure cfg then DialInsecure else newTLS cfg] in
      match DialContext (dc_Address cfg) opts with
      | Ok conn => (MkRClient (Some cfg) (Some conn) (Some (NewResourceClient conn)), Ok tt)
      | Err e => (MkRClient (Some cfg) None (rcl_resourcePbClient r), Err e)
      | Panic => (r, Panic)
      end
  end.

(** [pkg/proto/resource/client.go:41-46 New] *)
Definition rclient_New (cfg : option DialConfig) : rclient * result unit := rclient_create (MkRClient cfg None None).

(** [pkg/proto/resource/client.go:84-86 client.Get] *)
Definition rclient_Get (r : rclient) : option (ResourceClient R) := rcl_resourcePbClient r.

(** [pkg/proto/resource/client.go:88-93 client.Delete] *)
Definition rclient_Delete (r : rclient) : error := match rcl_conn r with Some conn => Close conn | None => None end.

(** What a client proxy dials: the address of the server, without TLS. *)
Definition proxy_config (address : string) : DialConfig := MkDialConfig address "" "" false false "" "" "" false true 0.
Definition proxy_dial (address : string) : result (ResourceClient R) :=
  match rclient_New (Some (proxy_config address)) with
  | (r, Ok _) => deref (rclient_Get r)
  | (_, Err e) => Err e
  | (_, Panic) => Panic
  end.

(** The client of a proxy is that of an insecure connection to its address, and the proxy
    has none when dialling fails. *)
Lemma proxy_dial_exact address : proxy_dial address = NewResourceClient <$> DialContext address [DialInsecure].
Proof. unfold proxy_dial, rclient_New, rclient_create. cbn. by destruct (DialContext _ _). Qed.

(** Closing a client that failed to connect does nothing; otherwise its connection is closed. *)
Lemma rclient_Delete_exact cfg r : rclient_New cfg = (r, Ok tt) ->
  exists c conn, cfg = Some c /\ DialContext (dc_Address c) [if dc_Insecure c then DialInsecure else DialTLS (dc_SkipVerify c)] = Ok conn /\
    rclient_Get r = Some (NewResourceClient conn) /\ rclient_Delete r = Close conn.
Proof.
  unfold rclient_New, rclient_create. cbn. destruct cfg as [c|]; [|done]. unfold newTLS.
  destruct (DialContext _ _) as [conn|e|] eqn:Hd; [|done..]. intros [= <-]. by exists c, conn.
Qed.

(** A proxy that is made while its server cannot be reached answers every claim with an
    error and keeps its state, until a new connection is made. *)
Lemma unreachable_proxy address group v server e : DialContext address [DialInsecure] = Err e ->
  forall rq, let r := clientproxy_New group v (proxy_dial address) server in
  cp_claim rq false r = (r, Err "backend server unreachable").
Proof. intros Hd rq r. subst r. rewrite proxy_dial_exact, Hd. reflexivity. Qed.

End Dial.
