(* ===== verification/ClientNormalize.v ===== *)
(** * pkg/proxy/clientproxy/ipam, pkg/proxy/clientproxy/vlan and pkg/proxy/beclient

    How the objects of the controllers become claim requests, and the clients made of
    the proxies. A Go map is shared by the values that were copied from it: the labels
    of the caller's object are those of the claim built from it, and what is added to
    the claim appears in the object. *)

From S2P Require Import Prelude Strconv Meta Labels Conditions KRM Backend NetIP IPUtil Rib IpamApi VlanApi ServerProxy ClientProxy.

Local Open Scope Z_scope.

(** ** Objects *)

(** A [client.Object]: a pointer to one of the API types of the two resource groups, or
    to another type with its name. *)
Inductive KObject : Type :=
| KIPPrefix (r : IPPrefix)
| KIPClaim (r : IPClaim)
| KNetworkInstance (r : NetworkInstance)
| KVLAN (r : VLAN)
| KVLANClaim (r : VLANClaim)
| KVLANIndex (r : VLANIndex)
| KObj (type : string) (r : Object).

Definition k_Object (o : KObject) : Object :=
  match o with
  | KIPPrefix r => krm_Object r | KIPClaim r => krm_Object r | KNetworkInstance r => krm_Object r
  | KVLAN r => krm_Object r | KVLANClaim r => krm_Object r | KVLANIndex r => krm_Object r
  | KObj _ r => r
  end.
Definition k_Kind (o : KObject) : string := Kind (o_GVK (k_Object o)).
Definition k_Group (o : KObject) : string := Group (o_GVK (k_Object o)).
Definition k_Name (o : KObject) : string := om_Name (o_Meta (k_Object o)).

(** [reflect.TypeOf] *)
Definition TypeOf (o : KObject) : string :=
  match o with
  | KIPPrefix _ => "*v1alpha1.IPPrefix" | KIPClaim _ => "*v1alpha1.IPClaim"
  | KNetworkInstance _ => "*v1alpha1.NetworkInstance" | KVLAN _ => "*v1alpha1.VLAN"
  | KVLANClaim _ => "*v1alpha1.VLANClaim" | KVLANIndex _ => "*v1alpha1.VLANIndex"
  | KObj t _ => t
  end.

(** The argument of type [any]. *)
Inductive Arg : Type := ArgPrefix (p : NIPrefix) | ArgNone.

(** The objects a call works on. *)
Definition args : Type := (KObject * Arg)%type.

Definition set_meta {Spec Status} (m : ObjectMeta) (r : KRM Spec Status) : KRM Spec Status :=
  MkKRM (MkObject (o_GVK (krm_Object r)) m) (spec r) (status r).

(** [objectMeta := cr.ObjectMeta], whose label map is the one of [cr], then the owner
    label is set; a map without labels is replaced by a new one first. The labels of
    the copy and those of [cr] afterwards. *)
Definition label_copy (ls : option labels) (k v : string) : labels * option labels :=
  if bool_decide (default ∅ ls = ∅) then ({[k := v]}, ls)
  else (<[k := v]> (default ∅ ls), Some (<[k := v]> (default ∅ ls))).

(** A label map the owner labels of [cr] were added to through a copy of it. *)
Definition owner_labels_shared (cr : Object) (ul : UserDefinedLabels) : UserDefinedLabels :=
  MkUserDefinedLabels ((fun l => GetHierOwnerLabelsFromCR cr ∪ l) <$> udl_Labels ul).

Definition no_IPClaimStatus : IPClaimStatus := MkIPClaimStatus (MkConditionedStatus []) None None None.
Definition no_VLANClaimStatus : VLANClaimStatus := MkVLANClaimStatus (MkConditionedStatus []) None None "".

(** [util.PointerUint8] *)
Definition PointerUint8 (i : Z) : option Z := Some (wrap uint8 i).

Section Normalize.
Context `{T : TimeAPI} (now : Z).
Context (json_ipclaim : Codec IPClaim) (json_vlanclaim : Codec VLANClaim).

Definition cast_error (o : KObject) : string :=
  "unexpected error casting object expected: " +:+ k_Kind o +:+ ", got: " +:+ TypeOf o.

(** ** IPAM *)

(** The claim of an IP prefix, and the IP prefix afterwards. *)
Definition claim_of_IPPrefix (cr : IPPrefix) : result (IPClaim * IPPrefix) :=
  pi ← iputil_New (ips_Prefix (spec cr));
  let m := o_Meta (krm_Object cr) in
  let '(copied, kept) := label_copy (om_Labels m) NephioOwnerGvkKey IPPrefixKindGVKString in
  let claim := BuildIPClaim (set_Labels (Some copied) m)
    (MkIPClaimSpec (ips_Kind (spec cr)) (ips_NetworkInstance (spec cr)) None (Some (ips_Prefix (spec cr)))
       (PointerUint8 (GetPrefixLength pi)) None (Some true)
       (MkClaimLabels (ips_UserDefinedLabels (spec cr)) None))
    no_IPClaimStatus in
  let cr := set_meta (set_Labels kept m) cr in
  Ok (IPClaim_AddOwnerLabelsToCR claim,
      with_spec (fun s => MkIPPrefixSpec (ips_Kind s) (ips_NetworkInstance s) (ips_Prefix s)
        (owner_labels_shared (krm_Object claim) (ips_UserDefinedLabels s))) cr).

Definition set_Name (n : string) (o : ObjectMeta) : ObjectMeta :=
  MkObjectMeta n (om_GenerateName o) (om_Namespace o) (om_UID o) (om_ResourceVersion o)
    (om_DeletionTimestamp o) (om_Labels o) (om_Annotations o) (om_OwnerReferences o) (om_Finalizers o).

(** The claim of a prefix of a network instance, the network instance and the prefix
    afterwards. The label is set before the prefix is parsed. *)
Definition claim_of_NIPrefix (cr : NetworkInstance) (prefix : NIPrefix) :
    NetworkInstance * NIPrefix * result IPClaim :=
  let m := o_Meta (krm_Object cr) in
  let '(copied, kept) := label_copy (om_Labels m) NephioOwnerGvkKey NetworkInstanceKindGVKString in
  let objectMeta := set_Labels (Some copied) (set_Name (GetNameFromNetworkInstancePrefix cr (nip_Prefix prefix)) m) in
  let cr' := set_meta (set_Labels kept m) cr in
  match iputil_New (nip_Prefix prefix) with
  | Ok pi =>
      let claim := BuildIPClaim objectMeta
        (MkIPClaimSpec PrefixKindAggregate (ObjRef "" (GetNamespace cr) (GetName cr) "" "" "" "") None
           (Some (nip_Prefix prefix)) (PointerUint8 (GetPrefixLength pi)) None (Some true)
           (MkClaimLabels (nip_UserDefinedLabels prefix) None))
        no_IPClaimStatus in
      (cr', MkNIPrefix (nip_Prefix prefix) (owner_labels_shared (krm_Object claim) (nip_UserDefinedLabels prefix)),
       Ok (IPClaim_AddOwnerLabelsToCR claim))
  | Err e => (cr', prefix, Err e)
  | Panic => (cr', prefix, Panic)
  end.

(** The bytes, the expiry time and the name of the claim.

    [pkg/proxy/clientproxy/ipam/ipam.go:109-208 NormalizeKRM] *)
Definition NormalizeKRM : M args (string * string * string) := fun x =>
  let '(o, d) := x in
  let nsnName := k_Name o in
  if bool_decide (k_Kind o = IPPrefixKind) then
    match o with
    | KIPPrefix cr =>
        match claim_of_IPPrefix cr with
        | Ok (claim, cr') => ((KIPPrefix cr', d), b ← Marshal json_ipclaim claim; Ok (b, "never", nsnName))
        | Err e => (x, Err e)
        | Panic => (x, Panic)
        end
    | _ => (x, Err (cast_error o))
    end
  else if bool_decide (k_Kind o = IPClaimKind) then
    match o with
    | KIPClaim cr =>
        (x, expiryTime ← MarshalText (now + Minute * 60);
            b ← Marshal json_ipclaim (IPClaim_AddOwnerLabelsToCR cr);
            Ok (b, expiryTime, nsnName))
    | _ => (x, Err (cast_error o))
    end
  else if bool_decide (k_Kind o = NetworkInstanceKind) then
    match o with
    | KNetworkInstance cr =>
        match d with
        | ArgPrefix prefix =>
            let '(cr', prefix', claim) := claim_of_NIPrefix cr prefix in
            ((KNetworkInstance cr', ArgPrefix prefix'),
             claim ← claim; b ← Marshal json_ipclaim claim;
             Ok (b, "never", GetNameFromNetworkInstancePrefix cr (nip_Prefix prefix)))
        | ArgNone => (x, Err "unexpected error casting object to Ip Prefix failed")
        end
    | _ => (x, Err (cast_error o))
    end
  else (x, Err ("cannot claim prefix for unknown kind, got " +:+ k_Kind o)).

(** [pkg/proxy/clientproxy/ipam/ipam.go:97-103 NormalizeKRMToBytes] *)
Definition NormalizeKRMToBytes : M args string :=
  r ← NormalizeKRM;
  let '(b, _, _) := r in mret b.

(** [pkg/proxy/clientproxy/ipam/ipam.go:83-95 NormalizeKRMToResourcePb] *)
Definition ipam_NormalizeKRMToResourcePb : M args ClaimRequest :=
  r ← NormalizeKRM;
  let '(b, expiryTime, nsnName) := r in
  x ← get_state;
  mret (BuildResourcePb (k_Object x.1) nsnName b expiryTime (WithKind ipam_GroupVersion IPClaimKind)).

(** Both claims are decoded from the original response.

    [pkg/proxy/clientproxy/ipam/ipam.go:51-77 ValidateResponse] *)
Definition ipam_ValidateResponse (origResp newResp : ClaimResponse) : bool :=
  match Unmarshal json_ipclaim (rp_Status origResp) with
  | Ok origClaim =>
      match Unmarshal json_ipclaim (rp_Status origResp) with
      | Ok newClaim =>
          let same (f : IPClaimStatus -> option string) :=
            match f (status origClaim) with
            | Some a => match f (status newClaim) with Some b => bool_decide (a = b) | None => false end
            | None => true
            end in
          if negb (same ict_Prefix) then false else same ict_Gateway
      | _ => false
      end
  | _ => false
  end.

(** ** VLAN *)

(** The labels of the spec of a VLAN are not copied to its claim. *)
Definition claim_of_VLAN (cr : VLAN) : VLANClaim * VLAN :=
  let m := o_Meta (krm_Object cr) in
  let '(copied, kept) := label_copy (om_Labels m) NephioOwnerGvkKey VLANKindGVKString in
  (VLANClaim_AddOwnerLabelsToCR (BuildVLANClaim (set_Labels (Some copied) m)
     (MkVLANClaimSpec (vs_VLANIndex (spec cr)) (vs_VLANID (spec cr)) (vs_VLANRange (spec cr))
        (MkClaimLabels (MkUserDefinedLabels None) None))
     no_VLANClaimStatus),
   set_meta (set_Labels kept m) cr).

(** [pkg/proxy/clientproxy/vlan/vlan.go:79-136 NormalizeKRMToResourcePb] *)
Definition vlan_NormalizeKRMToResourcePb : M args ClaimRequest := fun x =>
  let '(o, d) := x in
  let nsnName := k_Name o in
  let build (o : KObject) (claim : VLANClaim) (expiryTime : string) : result ClaimRequest :=
    b ← Marshal json_vlanclaim claim;
    Ok (BuildResourcePb (k_Object o) nsnName b expiryTime (WithKind vlan_GroupVersion VLANClaimKind)) in
  if bool_decide (k_Kind o = VLANKind) then
    match o with
    | KVLAN cr =>
        let '(claim, cr') := claim_of_VLAN cr in
        ((KVLAN cr', d), build (KVLAN cr') claim "never")
    | _ => (x, Err "unexpected error casting object to IPPrefix failed")
    end
  else if bool_decide (k_Kind o = VLANClaimKind) then
    match o with
    | KVLANClaim cr =>
        (x, expiryTime ← MarshalText (now + Minute * 60);
            build o (VLANClaim_AddOwnerLabelsToCR cr) expiryTime)
    | _ => (x, Err "unexpected error casting object to VLANClaim  failed")
    end
  else (x, Err ("cannot claimate resource for unknown kind, got " +:+ k_Kind o)).

(** [pkg/proxy/clientproxy/vlan/vlan.go:46-73 ValidateResponse] *)
Definition vlan_ValidateResponse (origResp newResp : ClaimResponse) : bool :=
  match Unmarshal json_vlanclaim (rp_Status origResp) with
  | Ok origClaim =>
      match Unmarshal json_vlanclaim (rp_Status origResp) with
      | Ok newClaim =>
          let same_id :=
            match vct_VLANID (status origClaim) with
            | Some a => match vct_VLANID (status newClaim) with Some b => bool_decide (a = b) | None => false end
            | None => true
            end in
          let same_range :=
            match vct_VLANRange (status origClaim) with
            | Some a => match vct_VLANRange (status newClaim) with Some b => bool_decide (a = b) | None => false end
            | None => true
            end in
          if negb same_id then false else same_range
      | _ => false
      end
  | _ => false
  end.

End Normalize.

(** ** In-process clients

    Proxies that call a backend directly. *)

Section Local.
Context {S Callback Any : Type} `{T : TimeAPI} (now : Z).
Context (json_ni : Codec NetworkInstance) (json_ipclaim : Codec IPClaim).
Context (be : Backend S Callback Any).

(** [pkg/proxy/clientproxy/ipam/ipam_backend_mock.go:43-49 bemock.CreateIndex] *)
Definition bemock_CreateIndex (cr : NetworkInstance) : M S unit :=
  b ← lift (Marshal json_ni cr);
  be_CreateIndex be b.
(** [pkg/proxy/clientproxy/ipam/ipam_backend_mock.go:51-57 bemock.DeleteIndex] *)
Definition bemock_DeleteIndex (cr : NetworkInstance) : M S unit :=
  b ← lift (Marshal json_ni cr);
  be_DeleteIndex be b.
(** [pkg/proxy/clientproxy/ipam/ipam_backend_mock.go:59-74 bemock.GetClaim] *)
Definition bemock_GetClaim : M (S * args) (option IPClaim) :=
  b ← on_args (NormalizeKRMToBytes now json_ipclaim);
  b ← on_service (be_GetClaim be b);
  a ← lift (Unmarshal json_ipclaim b);
  mret (Some a).
(** [pkg/proxy/clientproxy/ipam/ipam_backend_mock.go:76-90 bemock.Claim] *)
Definition bemock_Claim : M (S * args) (option IPClaim) :=
  b ← on_args (NormalizeKRMToBytes now json_ipclaim);
  b ← on_service (be_Claim be b);
  a ← lift (Unmarshal json_ipclaim b);
  mret (Some a).
(** [pkg/proxy/clientproxy/ipam/ipam_backend_mock.go:92-98 bemock.DeleteClaim] *)
Definition bemock_DeleteClaim : M (S * args) unit :=
  b ← on_args (NormalizeKRMToBytes now json_ipclaim);
  on_service (be_DeleteClaim be b).

(** [pkg/proxy/clientproxy/ipam/ipam_backend_mock.go:31-35 NewBackendMock] *)
Definition NewBackendMock : Proxy S args NetworkInstance IPClaim :=
  MkProxy bemock_CreateIndex bemock_DeleteIndex bemock_GetClaim bemock_Claim bemock_DeleteClaim.

End Local.

(** ** pkg/proxy/beclient: a client of both resource groups *)

Section BeClient.
Context {Si Sv : Type} (ipam : Proxy Si args NetworkInstance IPClaim) (vlan : Proxy Sv args VLANIndex VLANClaim).

Definition on_ipam {A} (m : M Si A) : M (Si * Sv) A := zoom fst (fun s x => (s, x.2)) m.
Definition on_vlan {A} (m : M Sv A) : M (Si * Sv) A := zoom snd (fun s x => (x.1, s)) m.
Definition on_ipam_args {A} (m : M (Si * args) A) : M (Si * Sv * args) A :=
  zoom (fun x => (x.1.1, x.2)) (fun s x => (s.1, x.1.2, s.2)) m.
Definition on_vlan_args {A} (m : M (Sv * args) A) : M (Si * Sv * args) A :=
  zoom (fun x => (x.1.2, x.2)) (fun s x => (x.1.1, s.1, s.2)) m.

(** The error of a failed cast is made from the nil pointer the cast gives.

    [pkg/proxy/beclient/client.go:28-45 cl.CreateIndex] *)
Definition beclient_CreateIndex (cr : KObject) : M (Si * Sv) unit :=
  if bool_decide (k_Group cr = gv_Group ipam_GroupVersion) then
    match cr with KNetworkInstance cr => on_ipam (p_CreateIndex ipam cr) | _ => panic end
  else if bool_decide (k_Group cr = gv_Group vlan_GroupVersion) then
    match cr with KVLANIndex cr => on_vlan (p_CreateIndex vlan cr) | _ => panic end
  else throw "unsupported".

(** [pkg/proxy/beclient/client.go:48-65 cl.DeleteIndex] *)
Definition beclient_DeleteIndex (cr : KObject) : M (Si * Sv) unit :=
  if bool_decide (k_Group cr = gv_Group ipam_GroupVersion) then
    match cr with KNetworkInstance cr => on_ipam (p_DeleteIndex ipam cr) | _ => panic end
  else if bool_decide (k_Group cr = gv_Group vlan_GroupVersion) then
    match cr with KVLANIndex cr => on_vlan (p_DeleteIndex vlan cr) | _ => panic end
  else throw "unsupported".

(** [pkg/proxy/beclient/client.go:68-77 cl.GetClaim] *)
Definition beclient_GetClaim : M (Si * Sv * args) (option KObject) :=
  x ← get_state;
  if bool_decide (k_Group x.2.1 = gv_Group ipam_GroupVersion) then
    r ← on_ipam_args (p_GetClaim ipam); mret (KIPClaim <$> r)
  else if bool_decide (k_Group x.2.1 = gv_Group vlan_GroupVersion) then
    r ← on_vlan_args (p_GetClaim vlan); mret (KVLANClaim <$> r)
  else throw "unsupported".

(** [pkg/proxy/beclient/client.go:80-89 cl.Claim] *)
Definition beclient_Claim : M (Si * Sv * args) (option KObject) :=
  x ← get_state;
  if bool_decide (k_Group x.2.1 = gv_Group ipam_GroupVersion) then
    r ← on_ipam_args (p_Claim ipam); mret (KIPClaim <$> r)
  else if bool_decide (k_Group x.2.1 = gv_Group vlan_GroupVersion) then
    r ← on_vlan_args (p_Claim vlan); mret (KVLANClaim <$> r)
  else throw "unsupported".

(** [pkg/proxy/beclient/client.go:92-101 cl.DeleteClaim] *)
Definition beclient_DeleteClaim : M (Si * Sv * args) unit :=
  x ← get_state;
  if bool_decide (k_Group x.2.1 = gv_Group ipam_GroupVersion) then on_ipam_args (p_DeleteClaim ipam)
  else if bool_decide (k_Group x.2.1 = gv_Group vlan_GroupVersion) then on_vlan_args (p_DeleteClaim vlan)
  else throw "unsupported".

End BeClient.
