(* ===== verification/Mocks.v ===== *)
(** * Test doubles of the client proxies

    The in-process client of the VLAN backend, and the mocks that answer every claim with
    constants. A mock writes its answer into the object of the caller and returns that
    object. *)

From S2P Require Import Prelude Strconv Meta Labels Conditions KRM Backend NetIP IPUtil Rib IpamApi VlanApi ServerProxy ClientProxy ClientNormalize.

Local Open Scope Z_scope.

(** ** The in-process client of the VLAN backend

    It marshals the object of the caller as it is. *)

Section VlanLocal.
Context {S Callback Any : Type} (json_index : Codec VLANIndex) (json_vlanclaim : Codec VLANClaim).
Context (Marshal_object : KObject -> result string) (be : Backend S Callback Any).

(** [pkg/proxy/clientproxy/vlan/vlan_backend_mock.go:43-49 bemock.CreateIndex] *)
Definition vlan_bemock_CreateIndex (cr : VLANIndex) : M S unit :=
  b ← lift (Marshal json_index cr);
  be_CreateIndex be b.
(** [pkg/proxy/clientproxy/vlan/vlan_backend_mock.go:51-57 bemock.DeleteIndex] *)
Definition vlan_bemock_DeleteIndex (cr : VLANIndex) : M S unit :=
  b ← lift (Marshal json_index cr);
  be_DeleteIndex be b.

Definition marshal_caller : M args string := fun x => (x, Marshal_object x.1).

(** [pkg/proxy/clientproxy/vlan/vlan_backend_mock.go:59-74 bemock.GetClaim] *)
Definition vlan_bemock_GetClaim : M (S * args) (option VLANClaim) :=
  b ← on_args marshal_caller;
  b ← on_service (be_GetClaim be b);
  a ← lift (Unmarshal json_vlanclaim b);
  mret (Some a).
(** [pkg/proxy/clientproxy/vlan/vlan_backend_mock.go:76-90 bemock.Claim] *)
Definition vlan_bemock_Claim : M (S * args) (option VLANClaim) :=
  b ← on_args marshal_caller;
  b ← on_service (be_Claim be b);
  a ← lift (Unmarshal json_vlanclaim b);
  mret (Some a).
(** [pkg/proxy/clientproxy/vlan/vlan_backend_mock.go:92-98 bemock.DeleteClaim] *)
Definition vlan_bemock_DeleteClaim : M (S * args) unit :=
  b ← on_args marshal_caller;
  on_service (be_DeleteClaim be b).

(** [pkg/proxy/clientproxy/vlan/vlan_backend_mock.go:31-35 NewBackendMock] *)
Definition vlan_NewBackendMock : Proxy S args VLANIndex VLANClaim :=
  MkProxy vlan_bemock_CreateIndex vlan_bemock_DeleteIndex vlan_bemock_GetClaim vlan_bemock_Claim vlan_bemock_DeleteClaim.

End VlanLocal.

(** ** Constant answers *)

(** The answer of a mock for the object of the caller: the object afterwards and the claim. *)
Definition mock_answer {S A} (answer : KObject -> result (KObject * A)) : M (S * args) (option A) := fun '(s, (o, d)) =>
  match answer o with
  | Ok (o', a) => ((s, (o', d)), Ok (Some a))
  | Err e => ((s, (o, d)), Err e)
  | Panic => ((s, (o, d)), Panic)
  end.

(** [pkg/proxy/clientproxy/vlan/vlan_mock.go:49-56 mock.getClaim] *)
Definition vlan_mock_getClaim (cr : KObject) : result (KObject * VLANClaim) :=
  match cr with
  | KVLANClaim claim =>
      let st := status claim in
      let claim := MkKRM (krm_Object claim) (spec claim)
        (MkVLANClaimStatus (vct_ConditionedStatus st) (Some 10) (vct_VLANRange st) (vct_ExpiryTime st)) in
      Ok (KVLANClaim claim, claim)
  | _ => Err ("expecting VLANClaim, got: " +:+ TypeOf cr)
  end.

(** [pkg/proxy/clientproxy/vlan/vlan_mock.go:32-47 NewMock] *)
Definition vlan_NewMock {S} : Proxy S args VLANIndex VLANClaim :=
  MkProxy (fun _ => mret tt) (fun _ => mret tt) (mock_answer vlan_mock_getClaim) (mock_answer vlan_mock_getClaim) (mret tt).

(** [pkg/proxy/clientproxy/ipam/ipam_mock.go:50-80 mock.getClaim] *)
Definition ipam_mock_getClaim (cr : KObject) : result (KObject * IPClaim) :=
  match cr with
  | KIPClaim claim =>
      let v6 := bool_decide (ics_AddressFamily (spec claim) = Some AddressFamilyIpv6) in
      let answer (p : string) (gw : option string) :=
        let claim := MkKRM (krm_Object claim) (spec claim) (MkIPClaimStatus (MkConditionedStatus []) (Some p) gw None) in
        Ok (KIPClaim claim, claim) in
      let kind := ics_Kind (spec claim) in
      if bool_decide (kind = PrefixKindNetwork) then
        if v6 then answer "1000::2/64" (Some "1000::1") else answer "10.0.0.10/24" (Some "10.0.0.1")
      else if bool_decide (kind = PrefixKindLoopback) then
        if v6 then answer "2000::2/128" None else answer "172.0.0.10/32" None
      else if bool_decide (kind = PrefixKindPool) then
        if v6 then answer "3000::/32" None else answer "172.0.0.0/8" None
      else Err ("unexpected prefix kind: got: " +:+ kind)
  | _ => Err ("expecting IPClaim, got: " +:+ TypeOf cr)
  end.

(** [pkg/proxy/clientproxy/ipam/ipam_mock.go:33-48 NewMock] *)
Definition ipam_NewMock {S} : Proxy S args NetworkInstance IPClaim :=
  MkProxy (fun _ => mret tt) (fun _ => mret tt) (mock_answer ipam_mock_getClaim) (mock_answer ipam_mock_getClaim) (mret tt).

(** The mock of the client of both groups. *)
Section BeMock.
Context {Si Sv : Type}.
Abbreviation ipam := (ipam_NewMock (S := Si)).
Abbreviation vlan := (vlan_NewMock (S := Sv)).

(** [pkg/proxy/beclient/client_mock.go:27-29 mock.CreateIndex] *)
Definition mock_CreateIndex (cr : KObject) : M (Si * Sv) unit := throw "unsupported".
(** [pkg/proxy/beclient/client_mock.go:32-34 mock.DeleteIndex] *)
Definition mock_DeleteIndex (cr : KObject) : M (Si * Sv) unit := throw "unsupported".
(** [pkg/proxy/beclient/client_mock.go:37-46 mock.GetClaim] *)
Definition mock_GetClaim : M (Si * Sv * args) (option KObject) := beclient_GetClaim ipam vlan.
(** [pkg/proxy/beclient/client_mock.go:49-58 mock.Claim] *)
Definition mock_Claim : M (Si * Sv * args) (option KObject) := beclient_Claim ipam vlan.
(** [pkg/proxy/beclient/client_mock.go:61-63 mock.DeleteClaim] *)
Definition mock_DeleteClaim : M (Si * Sv * args) unit := throw "unsupported".

End BeMock.

(** ** What the doubles do *)

(** The in-process VLAN client sends the claim of the caller without the labels of its
    owner, which the client proxy adds. *)
Lemma vlan_bemock_forgets_owner {S Callback Any} (json_index : Codec VLANIndex) (json_vlanclaim : Codec VLANClaim)
    (Marshal_object : KObject -> result string) (be : Backend S Callback Any) (c : VLANClaim) b s d :
  CodecLaws json_vlanclaim -> Marshal_object (KVLANClaim c) = Marshal json_vlanclaim c -> Marshal json_vlanclaim c = Ok b ->
  Unmarshal json_vlanclaim b = Ok c /\
  p_DeleteClaim (vlan_NewBackendMock json_index json_vlanclaim Marshal_object be) (s, (KVLANClaim c, d)) =
    let '(s', r) := be_DeleteClaim be b s in ((s', (KVLANClaim c, d)), r).
Proof.
  intros HL Ho Hb. split; [destruct (Unmarshal_Marshal c) as (b' & Hb' & Hu); congruence|].
  cbn. unfold vlan_bemock_DeleteClaim, marshal_caller, on_args, on_service, zoom, mbind, M_bind. cbn. rewrite Ho, Hb. cbn.
  by destruct (be_DeleteClaim be b s) as [s' [[]|e|]].
Qed.

(** Every address the IPAM mock hands out is a prefix the program accepts, and it is
    written into the object of the caller. *)
Lemma ipam_mock_answers (cr : KObject) (o' : KObject) (a : IPClaim) : ipam_mock_getClaim cr = Ok (o', a) ->
  o' = KIPClaim a /\ exists p pi, ict_Prefix (status a) = Some p /\ iputil_New p = Ok pi.
Proof.
  unfold ipam_mock_getClaim. destruct cr; try done. cbn zeta. repeat case_bool_decide; intros [= <- <-];
    (split; [reflexivity|]); eexists _, _; (split; [reflexivity|]); vm_compute; reflexivity.
Qed.
