(* ===== verification/ProxyRefine.v ===== *)
(** * The path of a claim: client proxy, gRPC, server proxy, backend

    The handlers of the server proxy are those of the gRPC server, as main.go wires
    them, and the client of a client proxy calls that server. A controller that uses
    the client proxy sees the backend as if it called it in its own process, except
    for the text of the errors that cross the wire. *)

From S2P Require Import Prelude Meta Labels KRM Backend Rib IpamApi VlanApi IpamWatcher ServerProxy Health GrpcServer ClientProxy ClientNormalize.

Local Open Scope Z_scope.

Section Wire.
Context {S Any : Type} (pb_String : PbGVK -> string) (backends : gmap GroupVersion (Backend S Stream Any)).
Context (cfg : Config).

(** [main.go:181-194 main] *)
Definition main_server : GrpcServer (proxyState S) :=
  grpc_New cfg
    [WithCreateIndexHandler (server_CreateIndex pb_String backends);
     WithDeleteIndexHandler (server_DeleteIndex pb_String backends);
     WithGetClaimHandler (server_GetClaim pb_String backends);
     WithClaimHandler (server_Claim pb_String backends);
     WithDeleteClaimHandler (server_DeleteClaim pb_String backends);
     WithWatchClaimHandler (server_Watch pb_String backends);
     WithWatchHandler health_Watch_start;
     WithCheckHandler health_Check].

(** The generated client: an error of the handler arrives as a status error, whose
    text is made by the gRPC library. *)
Context (rpc_error : string -> string) (ctx : callContext).

Abbreviation server_state := (grpcState (proxyState S)).

Definition rpc {A} (m : M server_state A) : M server_state A := fun g =>
  match m g with (g, Err e) => (g, Err (rpc_error e)) | r => r end.

Definition grpc_client : ResourceClient server_state :=
  MkResourceClient (fun rq => rpc (grpc_CreateIndex main_server ctx rq))
    (fun rq => rpc (grpc_DeleteIndex main_server ctx rq)) (fun rq => rpc (grpc_GetClaim main_server ctx rq))
    (fun rq => rpc (grpc_Claim main_server ctx rq)) (fun rq => rpc (grpc_DeleteClaim main_server ctx rq)).

(** ** The simulation *)

(** A proxy that is connected to the server whose backends are in state [s], with a
    slot free for the call. *)
Record linked (r : clientproxy server_state) (s : S) : Prop := {
  linked_client : cp_resourceClient r = Some grpc_client;
  linked_cache : cp_cache r = ∅;
  linked_slot : g_held (cp_server r) < c_MaxRPC (gs_config main_server);
  linked_backends : ps_backends (g_handlers (cp_server r)) = s
}.

(** The same value, the same panic, or an error whose text may have been changed by
    the gRPC library. *)
Definition same_outcome {A} (remote local : result A) : Prop :=
  match remote, local with
  | Ok a, Ok b => a = b
  | Err e, Err e' => e = e' \/ e = rpc_error e'
  | Panic, Panic => True
  | _, _ => False
  end.

Definition simulates {A} (remote : M (clientproxy server_state) A) (local : M S A) : Prop :=
  forall r s, linked r s ->
    linked (remote r).1 (local s).1 /\ same_outcome (remote r).2 (local s).2.

(** For the operations that also change the objects of the caller. *)
Definition simulates_args {O A} (remote : M (clientproxy server_state * O) A) (local : M (S * O) A) : Prop :=
  forall r s x, linked r s ->
    linked (remote (r, x)).1.1 (local (s, x)).1.1 /\
    (remote (r, x)).1.2 = (local (s, x)).1.2 /\
    same_outcome (remote (r, x)).2 (local (s, x)).2.

(** The context of the call has not ended. *)
Context (Hctx : ctx_Err ctx = None).

(** The server in a state of the backends. *)
Definition with_backends (s : S) (r : clientproxy server_state) : clientproxy server_state :=
  set_server (MkGrpcState (g_held (cp_server r)) (set_backends s (g_handlers (cp_server r))) (g_health (cp_server r))) r.

Lemma linked_with r s s' : linked r s -> linked (with_backends s' r) s'.
Proof. by intros []. Qed.

Definition wire {A} (res : result A) : result A := match res with Err e => Err (rpc_error e) | res => res end.

Lemma same_outcome_wire {A} (res : result A) : same_outcome (wire res) res.
Proof. destruct res; cbn; auto. Qed.

(** A call, through the wire, of a handler that finds the backend [be], runs the
    operation [f] of it and answers with [g]. *)
Lemma rpc_call {A B} h be (f : Backend S Stream Any -> M S A) (g : A -> B) r s :
  find_backend pb_String backends h = Ok be -> linked r s ->
  on_server (rpc (with_sem main_server ctx (be ← lift (find_backend pb_String backends h);
                                            a ← on_backends (f be); mret (g a)))) r =
  (with_backends (f be s).1 r, wire (g <$> (f be s).2)).
Proof.
  intros Hbe Hl. unfold on_server, zoom, rpc. rewrite with_sem_spec, Hctx, bool_decide_eq_true_2 by apply Hl.
  unfold mbind, M_bind, lift. rewrite Hbe. unfold on_backends, zoom. rewrite (linked_backends _ _ Hl).
  by destruct (f be s) as [s' [a|e|]].
Qed.

Lemma rpc_call_unit h be (f : Backend S Stream Any -> M S unit) r s :
  find_backend pb_String backends h = Ok be -> linked r s ->
  on_server (rpc (with_sem main_server ctx (be ← lift (find_backend pb_String backends h); on_backends (f be)))) r =
  (with_backends (f be s).1 r, wire (f be s).2).
Proof.
  intros Hbe Hl. unfold on_server, zoom, rpc. rewrite with_sem_spec, Hctx, bool_decide_eq_true_2 by apply Hl.
  unfold mbind, M_bind, lift. rewrite Hbe. unfold on_backends, zoom. rewrite (linked_backends _ _ Hl).
  by destruct (f be s) as [s' [a|e|]].
Qed.

(** ** A client of a backend

    [direct] makes the same requests and gives them to the backend in the same process. *)

Section Client.
Context {T1 T2 : Type} `{T : TimeAPI} (object_of : T1 -> Object) (json_index : Codec T1) (json_claim : Codec T2).
Context (normalize : M args ClaimRequest) (gv : GroupVersion).
Context (be : Backend S Stream Any) (Hbe : backends !! gv = Some be).
(** The requests are for a kind of the group. *)
Context (Hnormalize : forall x x' rq, normalize x = (x', Ok rq) ->
  exists o n b e kind, rq = BuildResourcePb o n b e (WithKind gv kind)).

Definition remote : Proxy (clientproxy server_state) args T1 T2 := cp_proxy object_of json_index json_claim normalize.

Definition direct_claim {A} (op : string -> M S A) : M (S * args) A := rq ← on_args normalize; on_service (op (rq_Spec rq)).
Definition direct_answer (op : string -> M S string) : M (S * args) (option T2) :=
  b ← direct_claim op; a ← lift (Unmarshal json_claim b); mret (Some a).
Definition direct_index (op : string -> M S unit) (cr : T1) : M S unit := b ← lift (Marshal json_index cr); op b.
Definition direct : Proxy S args T1 T2 :=
  MkProxy (direct_index (be_CreateIndex be)) (direct_index (be_DeleteIndex be))
    (direct_answer (be_GetClaim be)) (direct_answer (be_Claim be)) (direct_claim (be_DeleteClaim be)).

(** A request built for a kind of the group. *)
Lemma build_backend o n b e kind :
  find_backend pb_String backends (rq_Header (BuildResourcePb o n b e (WithKind gv kind))) = Ok be.
Proof. apply find_backend_found with (ResourcePbGVK (gv_Group gv) (gv_Version gv) kind); [done|]. by destruct gv. Qed.

(** The calls the claims are made of, on a request [rq] for the backend. *)
Section Calls.
Context (rq : ClaimRequest) (Hrq : find_backend pb_String backends (rq_Header rq) = Ok be).

Definition answer (b : string) : ClaimResponse :=
  MkClaimResponse (rq_Header rq) (rq_Spec rq) b StatusCode_Valid (rq_ExpiryTime rq).

Lemma call_Claim r s : linked r s ->
  on_server (rc_Claim grpc_client rq) r =
  (with_backends (be_Claim be (rq_Spec rq) s).1 r, wire (answer <$> (be_Claim be (rq_Spec rq) s).2)).
Proof. exact (rpc_call _ _ (fun be => be_Claim be (rq_Spec rq)) answer r s Hrq). Qed.

Lemma call_GetClaim r s : linked r s ->
  on_server (rc_GetClaim grpc_client rq) r =
  (with_backends (be_GetClaim be (rq_Spec rq) s).1 r, wire (answer <$> (be_GetClaim be (rq_Spec rq) s).2)).
Proof. exact (rpc_call _ _ (fun be => be_GetClaim be (rq_Spec rq)) answer r s Hrq). Qed.

Lemma call_DeleteClaim r s : linked r s ->
  on_server (rc_DeleteClaim grpc_client rq) r =
  (with_backends (be_DeleteClaim be (rq_Spec rq) s).1 r, wire (be_DeleteClaim be (rq_Spec rq) s).2).
Proof. exact (rpc_call_unit _ _ (fun be => be_DeleteClaim be (rq_Spec rq)) r s Hrq). Qed.

Lemma call_CreateIndex r s : linked r s ->
  on_server (rc_CreateIndex grpc_client rq) r =
  (with_backends (be_CreateIndex be (rq_Spec rq) s).1 r, wire (be_CreateIndex be (rq_Spec rq) s).2).
Proof. exact (rpc_call_unit _ _ (fun be => be_CreateIndex be (rq_Spec rq)) r s Hrq). Qed.

Lemma call_DeleteIndex r s : linked r s ->
  on_server (rc_DeleteIndex grpc_client rq) r =
  (with_backends (be_DeleteIndex be (rq_Spec rq) s).1 r, wire (be_DeleteIndex be (rq_Spec rq) s).2).
Proof. exact (rpc_call_unit _ _ (fun be => be_DeleteIndex be (rq_Spec rq)) r s Hrq). Qed.

End Calls.

(** Both clients start by the same normalization. *)
Lemma simulates_normalize {A} (f : ClaimRequest -> M (clientproxy server_state * args) A) (g : ClaimRequest -> M (S * args) A) :
  (forall rq, find_backend pb_String backends (rq_Header rq) = Ok be -> (exists key, getKey rq = Ok key) ->
    simulates_args (f rq) (g rq)) ->
  simulates_args (on_args normalize ≫= f) (on_args normalize ≫= g).
Proof.
  intros Hfg r s x Hl. unfold on_args, zoom, mbind, M_bind. cbn [fst snd].
  destruct (normalize x) as [x' [rq|err|]] eqn:Hn; cbn [fst snd].
  - apply Hnormalize in Hn as (o & n & b & e & kind & ->).
    refine (Hfg (BuildResourcePb _ _ _ _ _) _ _ r s x' Hl); [apply build_backend|by eexists].
  - by split_and!; [|done|left].
  - done.
Qed.

Lemma bind_assoc {X A B C} (m : M X A) (f : A -> M X B) (g : B -> M X C) x :
  mbind (M := M X) g (mbind (M := M X) f m) x = mbind (M := M X) (fun a => mbind (M := M X) g (f a)) m x.
Proof. unfold mbind, M_bind. by destruct (m x) as [x' [a|e|]]. Qed.

Lemma simulates_Claim : simulates_args (p_Claim remote) (p_Claim direct).
Proof.
  intros r0 s0 x0 Hl0. cbn [p_Claim remote direct cp_proxy]. unfold cp_Claim, direct_answer, direct_claim. rewrite bind_assoc.
  revert r0 s0 x0 Hl0. apply simulates_normalize. intros rq Hrq [key Hkey] r s x Hl.
  unfold mbind, M_bind, on_service, zoom, lift, mret, M_ret. cbn [fst snd].
  rewrite cp_claim_uncached, (linked_client _ _ Hl), Hkey by apply Hl. rewrite (call_Claim rq Hrq _ _ Hl).
  pose proof (linked_with _ _ (be_Claim be (rq_Spec rq) s).1 Hl) as Hl'.
  destruct (be_Claim be (rq_Spec rq) s) as [s' [b|e|]]; cbn [fst snd wire answer fmap result_fmap rp_Status] in *.
  - destruct (Unmarshal json_claim b); cbn; auto.
  - cbn; auto.
  - cbn; auto.
Qed.

(** A claim that the backend accepts. *)
Lemma remote_Claim r s x x' rq s' b resp : linked r s -> normalize x = (x', Ok rq) ->
  be_Claim be (rq_Spec rq) s = (s', Ok b) -> Unmarshal json_claim b = Ok resp ->
  exists r', p_Claim remote (r, x) = ((r', x'), Ok (Some resp)) /\ linked r' s'.
Proof.
  intros Hl Hn Hb Hu. pose proof (simulates_Claim r s x Hl) as Hsim.
  assert (Hd : p_Claim direct (s, x) = ((s', x'), Ok (Some resp))).
  { cbn [p_Claim direct]. unfold direct_answer, direct_claim. rewrite bind_assoc.
    unfold mbind, M_bind, on_args, on_service, zoom, lift. cbn [fst snd]. rewrite Hn. cbn [fst snd]. rewrite Hb. by rewrite Hu. }
  rewrite Hd in Hsim. destruct Hsim as (Hl'&Hx&Ho). destruct (p_Claim remote (r, x)) as [[r' y] res] eqn:Hcall.
  cbn [fst snd] in *. subst y. exists r'. split; [|exact Hl']. destruct res; [|destruct Ho..]. by rewrite Ho.
Qed.

Lemma simulates_GetClaim : simulates_args (p_GetClaim remote) (p_GetClaim direct).
Proof.
  intros r0 s0 x0 Hl0. cbn [p_GetClaim remote direct cp_proxy]. unfold cp_GetClaim, direct_answer, direct_claim. rewrite bind_assoc.
  revert r0 s0 x0 Hl0. apply simulates_normalize. intros rq Hrq _ r s x Hl.
  unfold mbind, M_bind, on_service, zoom, lift, mret, M_ret, getClient. cbn [fst snd].
  rewrite (linked_client _ _ Hl), (call_GetClaim rq Hrq _ _ Hl).
  pose proof (linked_with _ _ (be_GetClaim be (rq_Spec rq) s).1 Hl) as Hl'.
  destruct (be_GetClaim be (rq_Spec rq) s) as [s' [b|e|]]; cbn [fst snd wire answer fmap result_fmap rp_Status rp_StatusCode] in *;
    [rewrite bool_decide_eq_false_2 by (intros []; done); destruct (Unmarshal json_claim b)|..]; cbn; auto.
Qed.

Lemma simulates_DeleteClaim : simulates_args (p_DeleteClaim remote) (p_DeleteClaim direct).
Proof.
  cbn [p_DeleteClaim remote direct cp_proxy]. unfold cp_DeleteClaim, direct_claim. apply simulates_normalize. intros rq Hrq [key Hkey] r s x Hl.
  unfold mbind, M_bind, on_service, zoom, lift, getClient. cbn [fst snd].
  rewrite (linked_client _ _ Hl), (call_DeleteClaim rq Hrq _ _ Hl), Hkey.
  pose proof (linked_with _ _ (be_DeleteClaim be (rq_Spec rq) s).1 Hl) as Hl'.
  destruct (be_DeleteClaim be (rq_Spec rq) s) as [s' [[]|e|]]; cbn [fst snd wire] in *; [|cbn; auto..].
  split_and!; [|done..]. destruct Hl' as [H1 H2 H3 H4]. split; cbn in *; [done| |done..]. rewrite H2. apply delete_empty.
Qed.

(** A release that the backend accepts. *)
Lemma remote_DeleteClaim r s x x' rq s' : linked r s -> normalize x = (x', Ok rq) ->
  be_DeleteClaim be (rq_Spec rq) s = (s', Ok tt) ->
  exists r', p_DeleteClaim remote (r, x) = ((r', x'), Ok tt) /\ linked r' s'.
Proof.
  intros Hl Hn Hb. pose proof (simulates_DeleteClaim r s x Hl) as Hsim.
  assert (Hd : p_DeleteClaim direct (s, x) = ((s', x'), Ok tt)).
  { cbn [p_DeleteClaim direct]. unfold direct_claim, mbind, M_bind, on_args, on_service, zoom. cbn [fst snd].
    rewrite Hn. cbn [fst snd]. by rewrite Hb. }
  rewrite Hd in Hsim. destruct Hsim as (Hl'&Hx&Ho). destruct (p_DeleteClaim remote (r, x)) as [[r' y] res] eqn:Hcall.
  cbn [fst snd] in *. subst y. exists r'. split; [|exact Hl']. destruct res as [[]| |]; [done|destruct Ho..].
Qed.

Lemma build_index o n b e : GroupVersion_of (o_GVK o) = gv ->
  find_backend pb_String backends (rq_Header (BuildResourcePb o n b e (GetGVKFromObject o))) = Ok be.
Proof. intros Hgv. eapply find_backend_found; [reflexivity|]. rewrite <-Hbe, <-Hgv. reflexivity. Qed.

(** The operations on an index, whose kind is one of the group. *)
Lemma simulates_Index (cr : T1) : GroupVersion_of (o_GVK (object_of cr)) = gv ->
  simulates (p_CreateIndex remote cr) (p_CreateIndex direct cr) /\ simulates (p_DeleteIndex remote cr) (p_DeleteIndex direct cr).
Proof.
  intros Hgv. split; intros r s Hl; cbn [p_CreateIndex p_DeleteIndex remote cp_proxy direct]; unfold cp_CreateIndex, cp_DeleteIndex, direct_index,
    mbind, M_bind, lift, getClient; (destruct (Marshal json_index cr) as [b|e|]; [|cbn; auto..]);
    rewrite (linked_client _ _ Hl); cbv beta iota zeta.
  - rewrite (call_CreateIndex _ (build_index _ _ b "never" Hgv) _ _ Hl).
    split; [exact (linked_with _ _ _ Hl)|apply same_outcome_wire].
  - rewrite (call_DeleteIndex _ (build_index _ _ b "never" Hgv) _ _ Hl).
    split; [exact (linked_with _ _ _ Hl)|apply same_outcome_wire].
Qed.

(** Every operation of the proxy simulates the one of the direct client. *)
Lemma remote_refines : simulates_args (p_GetClaim remote) (p_GetClaim direct) /\
  simulates_args (p_Claim remote) (p_Claim direct) /\ simulates_args (p_DeleteClaim remote) (p_DeleteClaim direct) /\
  forall cr : T1, GroupVersion_of (o_GVK (object_of cr)) = gv ->
    simulates (p_CreateIndex remote cr) (p_CreateIndex direct cr) /\ simulates (p_DeleteIndex remote cr) (p_DeleteIndex direct cr).
Proof. split_and!; [apply simulates_GetClaim|apply simulates_Claim|apply simulates_DeleteClaim|apply simulates_Index]. Qed.

End Client.

(** ** The two clients *)

Context `{T : TimeAPI} (now : Z).

Section Ipam.
Context (json_ni : Codec NetworkInstance) (json_ipclaim : Codec IPClaim).

(** [pkg/proxy/clientproxy/ipam/ipam.go:38-47 New] *)
Definition ipam_client : Proxy (clientproxy server_state) args NetworkInstance IPClaim :=
  cp_proxy (T1 := NetworkInstance) krm_Object json_ni json_ipclaim (ipam_NormalizeKRMToResourcePb now json_ipclaim).

Context (be : Backend S Stream Any) (Hbe : backends !! ipam_GroupVersion = Some be).

Lemma ipam_requests x x' rq : ipam_NormalizeKRMToResourcePb now json_ipclaim x = (x', Ok rq) ->
  exists o n b e kind, rq = BuildResourcePb o n b e (WithKind ipam_GroupVersion kind).
Proof.
  unfold ipam_NormalizeKRMToResourcePb, mbind, M_bind, get_state, mret, M_ret.
  destruct (NormalizeKRM _ _ x) as [y [[[b e] n]|err|]]; [|done..]. intros [= <- <-]. by eexists _, _, _, _, _.
Qed.

(** The in-process client of the repository is the direct client. *)
Lemma mock_direct {A} (op : string -> M S A) y :
  (b ← on_args (S := S) (NormalizeKRMToBytes now json_ipclaim); on_service (op b)) y =
  direct_claim (ipam_NormalizeKRMToResourcePb now json_ipclaim) op y.
Proof.
  unfold direct_claim, NormalizeKRMToBytes, ipam_NormalizeKRMToResourcePb, on_args, zoom, mbind, M_bind, get_state, mret, M_ret.
  by destruct (NormalizeKRM _ _ _) as [z [[[b e] n]|err|]].
Qed.

Lemma mock_answer (op : string -> M S string) y :
  (b ← on_args (S := S) (NormalizeKRMToBytes now json_ipclaim); b ← on_service (op b); a ← lift (Unmarshal json_ipclaim b); mret (Some a)) y =
  direct_answer json_ipclaim (ipam_NormalizeKRMToResourcePb now json_ipclaim) op y.
Proof.
  unfold direct_answer, direct_claim, NormalizeKRMToBytes, ipam_NormalizeKRMToResourcePb, on_args, zoom, mbind, M_bind, get_state, mret, M_ret.
  by destruct (NormalizeKRM _ _ _) as [z [[[b e] n]|err|]].
Qed.

(** C8. The IPAM client proxy, over gRPC and the server proxy, refines the in-process
    client of the backend: from related states every operation reaches related states,
    leaves the objects of its caller in the same state, and returns the same claim, or
    an error for an error. The relation says that the proxy is connected, that a slot
    of the server is free and that the backends of the server are in the state of the
    in-process client. *)
Theorem ipam_client_refines :
  simulates_args (p_GetClaim ipam_client) (p_GetClaim (NewBackendMock now json_ni json_ipclaim be)) /\
  simulates_args (p_Claim ipam_client) (p_Claim (NewBackendMock now json_ni json_ipclaim be)) /\
  simulates_args (p_DeleteClaim ipam_client) (p_DeleteClaim (NewBackendMock now json_ni json_ipclaim be)) /\
  forall cr : NetworkInstance, GroupVersion_of (o_GVK (krm_Object cr)) = ipam_GroupVersion ->
    simulates (p_CreateIndex ipam_client cr) (p_CreateIndex (NewBackendMock now json_ni json_ipclaim be) cr) /\
    simulates (p_DeleteIndex ipam_client cr) (p_DeleteIndex (NewBackendMock now json_ni json_ipclaim be) cr).
Proof.
  destruct (remote_refines krm_Object json_ni json_ipclaim _ ipam_GroupVersion be Hbe ipam_requests) as (Hg & Hc & Hd & Hi).
  split_and!; [..|exact Hi]; intros r s x Hl; cbn [p_GetClaim p_Claim p_DeleteClaim NewBackendMock].
  - unfold bemock_GetClaim. rewrite mock_answer. by apply Hg.
  - unfold bemock_Claim. rewrite mock_answer. by apply Hc.
  - unfold bemock_DeleteClaim. rewrite mock_direct. by apply Hd.
Qed.

End Ipam.

Section Vlan.
Context (json_index : Codec VLANIndex) (json_vlanclaim : Codec VLANClaim).

(** [pkg/proxy/clientproxy/vlan/vlan.go:33-42 New] *)
Definition vlan_client : Proxy (clientproxy server_state) args VLANIndex VLANClaim :=
  cp_proxy (T1 := VLANIndex) krm_Object json_index json_vlanclaim (vlan_NormalizeKRMToResourcePb now json_vlanclaim).

Context (be : Backend S Stream Any) (Hbe : backends !! vlan_GroupVersion = Some be).

Lemma vlan_requests x x' rq : vlan_NormalizeKRMToResourcePb now json_vlanclaim x = (x', Ok rq) ->
  exists o n b e kind, rq = BuildResourcePb o n b e (WithKind vlan_GroupVersion kind).
Proof.
  unfold vlan_NormalizeKRMToResourcePb, mbind, result_bind. destruct x as [o d]. repeat case_bool_decide; [| |done].
  - destruct o; try done. destruct (claim_of_VLAN _) as [claim cr']. destruct (Marshal _ _); [|done..]. intros [= <- <-]. by eexists _, _, _, _, _.
  - destruct o; try done. destruct (MarshalText _); [|done..]. destruct (Marshal _ _); [|done..]. intros [= <- <-]. by eexists _, _, _, _, _.
Qed.

(** C9. The VLAN client proxy, over gRPC and the server proxy, refines a client that gives
    the same requests to the VLAN backend in its own process: every operation reaches
    related states, leaves the objects of its caller in the same state, and returns the
    same claim, or an error for an error. *)
Theorem vlan_client_refines : let local := direct json_index json_vlanclaim (vlan_NormalizeKRMToResourcePb now json_vlanclaim) be in
  simulates_args (p_GetClaim vlan_client) (p_GetClaim local) /\
  simulates_args (p_Claim vlan_client) (p_Claim local) /\
  simulates_args (p_DeleteClaim vlan_client) (p_DeleteClaim local) /\
  forall cr : VLANIndex, GroupVersion_of (o_GVK (krm_Object cr)) = vlan_GroupVersion ->
    simulates (p_CreateIndex vlan_client cr) (p_CreateIndex local cr) /\
    simulates (p_DeleteIndex vlan_client cr) (p_DeleteIndex local cr).
Proof. exact (remote_refines krm_Object json_index json_vlanclaim _ vlan_GroupVersion be Hbe vlan_requests). Qed.

End Vlan.

End Wire.
