(* ===== verification/NormalizeProps.v ===== *)
(** * Properties of the claim requests

    What the requests built from the objects of the controllers carry, and that
    building them again from the objects they have changed gives the same requests. *)

From S2P Require Import Prelude Strconv Meta Labels Conditions KRM Backend NetIP IPUtil Rib IpamApi VlanApi IpamWatcher ServerProxy ClientProxy ClientNormalize.

Local Open Scope Z_scope.

(** ** Shared label maps *)

Lemma label_copy_stable ls k v copied kept : label_copy ls k v = (copied, kept) -> label_copy kept k v = (copied, kept).
Proof.
  unfold label_copy. destruct (bool_decide_reflect (default ∅ ls = ∅)) as [He|He].
  - intros [= <- <-]. by rewrite bool_decide_eq_true_2.
  - intros [= <- <-]. cbn. rewrite bool_decide_eq_false_2 by apply insert_non_empty.
    by rewrite insert_insert_eq.
Qed.

Lemma label_copy_owner ls k v : (label_copy ls k v).1 !! k = Some v.
Proof.
  unfold label_copy. case_bool_decide; cbn; [by rewrite lookup_singleton_eq|by rewrite lookup_insert_eq].
Qed.

Lemma add_owner_labels_shared cr ul sel :
  add_owner_labels cr (MkClaimLabels (owner_labels_shared cr ul) sel) = add_owner_labels cr (MkClaimLabels ul sel).
Proof.
  unfold add_owner_labels, owner_labels_shared. cbn. destruct ul as [[l|]]; [|done]. cbn.
  by rewrite (assoc_L (∪)), (idemp_L (∪)).
Qed.

Lemma owner_labels_shared_idemp cr ul : owner_labels_shared cr (owner_labels_shared cr ul) = owner_labels_shared cr ul.
Proof.
  unfold owner_labels_shared. destruct ul as [[l|]]; [|done]. cbn. by rewrite (assoc_L (∪)), (idemp_L (∪)).
Qed.

Lemma set_Labels_twice a b m : set_Labels a (set_Labels b m) = set_Labels a m.
Proof. done. Qed.

(** ** Stability *)

Lemma claim_of_IPPrefix_stable cr claim cr' :
  claim_of_IPPrefix cr = Ok (claim, cr') -> claim_of_IPPrefix cr' = Ok (claim, cr').
Proof.
  unfold claim_of_IPPrefix. destruct (iputil_New (ips_Prefix (spec cr))) as [pi| |] eqn:Hpi; cbn; [|done..].
  destruct (label_copy _ _ _) as [copied kept] eqn:Hl. intros [= <- <-]. cbn [spec set_meta with_spec ips_Prefix].
  rewrite Hpi. cbn. rewrite (label_copy_stable _ _ _ _ _ Hl). unfold IPClaim_AddOwnerLabelsToCR, with_spec. cbn.
  rewrite add_owner_labels_shared, owner_labels_shared_idemp. done.
Qed.

Lemma claim_of_NIPrefix_stable cr p cr' p' claim :
  claim_of_NIPrefix cr p = (cr', p', Ok claim) -> claim_of_NIPrefix cr' p' = (cr', p', Ok claim).
Proof.
  unfold claim_of_NIPrefix. destruct (label_copy _ _ _) as [copied kept] eqn:Hl.
  destruct (iputil_New (nip_Prefix p)) as [pi| |] eqn:Hpi; [|done..]. intros [= <- <- <-].
  cbn [krm_Object set_meta o_Meta set_Labels om_Labels nip_Prefix]. rewrite (label_copy_stable _ _ _ _ _ Hl), Hpi.
  unfold IPClaim_AddOwnerLabelsToCR, with_spec. cbn.
  rewrite add_owner_labels_shared, owner_labels_shared_idemp. done.
Qed.

Lemma claim_of_VLAN_stable cr claim cr' : claim_of_VLAN cr = (claim, cr') -> claim_of_VLAN cr' = (claim, cr').
Proof.
  unfold claim_of_VLAN. destruct (label_copy _ _ _) as [copied kept] eqn:Hl. intros [= <- <-].
  cbn. by rewrite (label_copy_stable _ _ _ _ _ Hl).
Qed.

Section Requests.
Context `{T : TimeAPI} (now : Z) (json_ipclaim : Codec IPClaim) (json_vlanclaim : Codec VLANClaim).

Lemma NormalizeKRM_stable x x' r :
  NormalizeKRM now json_ipclaim x = (x', Ok r) -> NormalizeKRM now json_ipclaim x' = (x', Ok r).
Proof.
  destruct x as [o d]. unfold NormalizeKRM. destruct (bool_decide_reflect (k_Kind o = IPPrefixKind)) as [Hk|Hk].
  { destruct o as [cr| | | | | |]; try (intros [=]; fail). destruct (claim_of_IPPrefix cr) as [[claim cr']| |] eqn:Hc; [|intros [=]..].
    intros [= <- Hb]. pose proof Hc as Hc'. apply claim_of_IPPrefix_stable in Hc'. rewrite Hc'.
    unfold claim_of_IPPrefix in Hc. destruct (iputil_New _); [|done..]. cbn in Hc. destruct (label_copy _ _ _).
    injection Hc as <- <-. rewrite bool_decide_eq_true_2 by exact Hk. by rewrite <-Hb. }
  destruct (bool_decide_reflect (k_Kind o = IPClaimKind)) as [Hk2|Hk2].
  { destruct o; try (intros [=]; fail). intros [= <- Hb].
    rewrite (bool_decide_eq_false_2 _ Hk), (bool_decide_eq_true_2 _ Hk2). by rewrite Hb. }
  destruct (bool_decide_reflect (k_Kind o = NetworkInstanceKind)) as [Hk3|Hk3]; [|intros [=]].
  destruct o as [| |cr| | | |]; try (intros [=]; fail). destruct d as [p|]; [|intros [=]].
  destruct (claim_of_NIPrefix cr p) as [[cr' p'] [claim| |]] eqn:Hc; [|intros [=]..]. intros [= <- Hb].
  pose proof Hc as Hc'. apply claim_of_NIPrefix_stable in Hc'. rewrite Hc'.
  unfold claim_of_NIPrefix in Hc. destruct (label_copy _ _ _). destruct (iputil_New _); [|done..].
  injection Hc as <- <- <-. rewrite (bool_decide_eq_false_2 (k_Kind (KNetworkInstance _) = IPPrefixKind)) by exact Hk.
  rewrite (bool_decide_eq_false_2 (k_Kind (KNetworkInstance _) = IPClaimKind)) by exact Hk2.
  rewrite (bool_decide_eq_true_2 (k_Kind (KNetworkInstance _) = NetworkInstanceKind)) by exact Hk3.
  rewrite <-Hb. done.
Qed.

(** C27. Building a request changes the labels of the caller's object, but only once:
    building it again from the changed object changes nothing more and gives the same
    request, for every kind of object of both resource groups. A release that follows a
    claim in the same reconciliation therefore carries the claim that was made. *)
Theorem normalize_stable x x' rq :
  (ipam_NormalizeKRMToResourcePb now json_ipclaim x = (x', Ok rq) ->
   ipam_NormalizeKRMToResourcePb now json_ipclaim x' = (x', Ok rq)) /\
  (vlan_NormalizeKRMToResourcePb now json_vlanclaim x = (x', Ok rq) ->
   vlan_NormalizeKRMToResourcePb now json_vlanclaim x' = (x', Ok rq)).
Proof.
  split.
  - unfold ipam_NormalizeKRMToResourcePb, mbind, M_bind, get_state, mret, M_ret.
    destruct (NormalizeKRM now json_ipclaim x) as [x1 [[[b e] n]| |]] eqn:Hn; [|intros [=]..]. intros [= <- <-].
    by rewrite (NormalizeKRM_stable _ _ _ Hn).
  - destruct x as [o d]. unfold vlan_NormalizeKRMToResourcePb.
    destruct (bool_decide_reflect (k_Kind o = VLANKind)) as [Hk|Hk].
    { destruct o as [| | |cr| | |]; try (intros [=]; fail). destruct (claim_of_VLAN cr) as [claim cr'] eqn:Hc.
      intros [= <- Hb]. pose proof Hc as Hc'. apply claim_of_VLAN_stable in Hc'. rewrite Hc'.
      unfold claim_of_VLAN in Hc. destruct (label_copy _ _ _). injection Hc as <- <-.
      rewrite bool_decide_eq_true_2 by exact Hk. by rewrite <-Hb. }
    destruct (bool_decide_reflect (k_Kind o = VLANClaimKind)) as [Hk2|Hk2]; [|intros [=]].
    destruct o; try (intros [=]; fail). intros [= <- Hb].
    rewrite (bool_decide_eq_false_2 _ Hk), (bool_decide_eq_true_2 _ Hk2). by rewrite <-Hb.
Qed.

(** *** What the claim of a request carries *)

(** The owner kind a request is made for. *)
Definition owner_gvk (o : KObject) : string :=
  match o with
  | KIPPrefix _ => IPPrefixKindGVKString
  | KNetworkInstance _ => NetworkInstanceKindGVKString
  | KVLAN _ => VLANKindGVKString
  | o => default (GVKToString (o_GVK (k_Object o))) (default ∅ (om_Labels (o_Meta (k_Object o))) !! NephioOwnerGvkKey)
  end.

Lemma hier_labels_values o k : k ∈ [NephioOwnerGvkKey; NephioNsnNameKey; NephioNsnNamespaceKey] ->
  GetHierOwnerLabelsFromCR o !! k = Some (
    if bool_decide (k = NephioOwnerGvkKey) then
      default (GVKToString (o_GVK o)) (default ∅ (om_Labels (o_Meta o)) !! NephioOwnerGvkKey)
    else if bool_decide (k = NephioNsnNameKey) then om_Name (o_Meta o)
    else getNamespace (om_Namespace (o_Meta o))).
Proof.
  unfold GetHierOwnerLabelsFromCR. rewrite !elem_of_cons, elem_of_nil. intros [->|[->|[->|[]]]].
  - cbn [list_to_map foldr fst snd]. rewrite lookup_insert_eq, bool_decide_eq_true_2 by done.
    by destruct (default ∅ _ !! NephioOwnerGvkKey).
  - cbn [list_to_map foldr fst snd]. do 4 (rewrite lookup_insert_ne by done). by rewrite lookup_insert_eq.
  - cbn [list_to_map foldr fst snd]. do 5 (rewrite lookup_insert_ne by done). by rewrite lookup_insert_eq.
Qed.

(** A claim that belongs to an object [o] under the name [n]. *)
Record belongs (o : KObject) (n : string) (ls : labels) : Prop := {
  belongs_owned : owned ls;
  belongs_gvk : ls !! NephioOwnerGvkKey = Some (owner_gvk o);
  belongs_name : ls !! NephioNsnNameKey = Some n;
  belongs_namespace : ls !! NephioNsnNamespaceKey = Some (getNamespace (om_Namespace (o_Meta (k_Object o))))
}.

Lemma belongs_add o n cr cl : om_Name (o_Meta cr) = n -> om_Namespace (o_Meta cr) = om_Namespace (o_Meta (k_Object o)) ->
  default (GVKToString (o_GVK cr)) (default ∅ (om_Labels (o_Meta cr)) !! NephioOwnerGvkKey) = owner_gvk o ->
  belongs o n (GetUserDefinedLabels (add_owner_labels cr cl)).
Proof.
  intros <- Hns Hgvk. split; [apply add_owner_labels_owned|..];
    unfold GetUserDefinedLabels, udl_GetUserDefinedLabels, add_owner_labels; cbn [default udl_Labels cl_UserDefinedLabels from_option id];
    apply lookup_union_Some_l; rewrite hier_labels_values by (rewrite !elem_of_cons; auto).
  - by rewrite bool_decide_eq_true_2, Hgvk.
  - done.
  - by rewrite <-Hns.
Qed.

(** The claim inside a request. *)
Definition claim_for (o : KObject) (n : string) (claim : IPClaim) : Prop :=
  GetName claim = n /\ GetNamespace claim = om_Namespace (o_Meta (k_Object o)) /\
  belongs o n (IPClaim_GetUserDefinedLabels claim).

Lemma claim_of_IPPrefix_for cr claim cr' : claim_of_IPPrefix cr = Ok (claim, cr') ->
  claim_for (KIPPrefix cr) (GetName cr) claim.
Proof.
  unfold claim_of_IPPrefix. destruct (iputil_New _); cbn; [|done..].
  pose proof (label_copy_owner (om_Labels (o_Meta (krm_Object cr))) NephioOwnerGvkKey IPPrefixKindGVKString) as Hl.
  destruct (label_copy _ _ _) as [copied kept]. cbn in Hl. intros [= <- <-]. split_and!; [done..|].
  apply belongs_add; [done..|]. cbn. by rewrite Hl.
Qed.

Lemma claim_of_NIPrefix_for cr p cr' p' claim : claim_of_NIPrefix cr p = (cr', p', Ok claim) ->
  claim_for (KNetworkInstance cr) (GetNameFromNetworkInstancePrefix cr (nip_Prefix p)) claim.
Proof.
  unfold claim_of_NIPrefix. set (n := GetNameFromNetworkInstancePrefix cr (nip_Prefix p)).
  pose proof (label_copy_owner (om_Labels (o_Meta (krm_Object cr))) NephioOwnerGvkKey NetworkInstanceKindGVKString) as Hl.
  destruct (label_copy _ _ _) as [copied kept]. cbn in Hl. destruct (iputil_New _); [|intros [=]..].
  intros [= <- <- <-]. split_and!; [done..|]. apply belongs_add; [done..|]. cbn. by rewrite Hl.
Qed.

Lemma NormalizeKRM_claim x x' b e n : NormalizeKRM now json_ipclaim x = (x', Ok (b, e, n)) ->
  exists claim, Marshal json_ipclaim claim = Ok b /\ claim_for x.1 n claim.
Proof.
  destruct x as [o d]. unfold NormalizeKRM. case_bool_decide as Hk.
  { destruct o as [cr| | | | | |]; try (intros [=]; fail).
    destruct (claim_of_IPPrefix cr) as [[claim cr']| |] eqn:Hc; [|intros [=]..]. intros [= _ Hb].
    destruct (Marshal json_ipclaim claim) as [b'| |] eqn:Hm; cbn in Hb; [|discriminate Hb..]. injection Hb as -> _ <-.
    exists claim. split; [done|]. by eapply claim_of_IPPrefix_for. }
  case_bool_decide as Hk2.
  { destruct o as [|cr| | | | |]; try (intros [=]; fail). intros [= _ Hb].
    destruct (MarshalText _) as [t| |]; cbn in Hb; [|discriminate Hb..].
    destruct (Marshal json_ipclaim (IPClaim_AddOwnerLabelsToCR cr)) as [b'| |] eqn:Hm; cbn in Hb; [|discriminate Hb..].
    injection Hb as -> _ <-. exists (IPClaim_AddOwnerLabelsToCR cr). split; [done|]. split_and!; [done..|].
    by apply belongs_add. }
  case_bool_decide as Hk3; [|intros [=]]. destruct o as [| |cr| | | |]; try (intros [=]; fail).
  destruct d as [p|]; [|intros [=]]. destruct (claim_of_NIPrefix cr p) as [[cr' p'] [claim| |]] eqn:Hc; [|intros [=]..].
  intros [= _ Hb]. destruct (Marshal json_ipclaim claim) as [b'| |] eqn:Hm; cbn in Hb; [|discriminate Hb..].
  injection Hb as -> _ <-. exists claim. split; [done|]. by eapply claim_of_NIPrefix_for.
Qed.

(** Two label sets with the same owner belong to the same object. *)
Lemma belongs_same o1 n1 l1 o2 n2 l2 : belongs o1 n1 l1 -> belongs o2 n2 l2 -> owner_labels l1 = owner_labels l2 ->
  owner_gvk o1 = owner_gvk o2 /\ n1 = n2 /\
  getNamespace (om_Namespace (o_Meta (k_Object o1))) = getNamespace (om_Namespace (o_Meta (k_Object o2))).
Proof.
  intros H1 H2 He.
  assert (Hk : forall k v1 v2, k ∈ owner_keys -> l1 !! k = Some v1 -> l2 !! k = Some v2 -> v1 = v2).
  { intros k v1 v2 Hin E1 E2. assert (Hv : owner_labels l1 !! k = Some v1).
    { apply owner_labels_lookup. unfold label_get. by rewrite E1. }
    rewrite He in Hv. apply owner_labels_lookup in Hv as [_ ->]. unfold label_get. by rewrite E2. }
  split_and!; (eapply Hk; [|apply H1|apply H2]); unfold owner_keys; rewrite !elem_of_cons; auto.
Qed.

(** C18. The requests of different objects never touch each other's routes: when the
    owner selector of the claim in one request matches the labels of the claim in
    another, both were made for the same owner kind, the same claim name and the same
    namespace (an empty namespace counts as "default"). The claim in every request
    carries the five owner labels, the name of the request and the namespace of the
    object. *)
Theorem normalize_separates `{L : LabelsAPI} `{!LabelsLaws L} `{!CodecLaws json_ipclaim}
    x1 x1' b1 e1 n1 x2 x2' b2 e2 n2 :
  NormalizeKRM now json_ipclaim x1 = (x1', Ok (b1, e1, n1)) ->
  NormalizeKRM now json_ipclaim x2 = (x2', Ok (b2, e2, n2)) ->
  exists c1 c2, Unmarshal json_ipclaim b1 = Ok c1 /\ Unmarshal json_ipclaim b2 = Ok c2 /\
    claim_for x1.1 n1 c1 /\ claim_for x2.1 n2 c2 /\
    forall sel, IPClaim_GetOwnerSelector c1 = Ok sel -> Matches sel (IPClaim_GetUserDefinedLabels c2) = true ->
      owner_gvk x1.1 = owner_gvk x2.1 /\ n1 = n2 /\
      getNamespace (GetNamespace c1) = getNamespace (GetNamespace c2).
Proof.
  intros (c1&Hm1&Hc1)%NormalizeKRM_claim (c2&Hm2&Hc2)%NormalizeKRM_claim. exists c1, c2.
  destruct (Unmarshal_Marshal c1) as (b1'&Hb1&Hu1), (Unmarshal_Marshal c2) as (b2'&Hb2&Hu2).
  rewrite Hm1 in Hb1. rewrite Hm2 in Hb2. injection Hb1 as <-. injection Hb2 as <-. split_and!; [done..|].
  intros sel Hsel Hmatch. destruct Hc1 as (_&Hns1&Ho1), Hc2 as (_&Hns2&Ho2).
  rewrite (selector_of_labels_matches _ _ _ Hsel), bool_decide_eq_true in Hmatch.
  apply owner_labels_subseteq_iff in Hmatch as [_ He]. rewrite Hns1, Hns2.
  by apply (belongs_same _ _ _ _ _ _ Ho1 Ho2 He).
Qed.

(** *** Validation of a refreshed answer *)

(** The validators of refreshed answers ignore the new answer: whatever prefix,
    gateway, VLAN or range it carries, an original answer that can be decoded is found
    unchanged. *)
Theorem ValidateResponse_ignores_new orig new :
  (forall c, Unmarshal json_ipclaim (rp_Status orig) = Ok c -> ipam_ValidateResponse json_ipclaim orig new = true) /\
  (forall c, Unmarshal json_vlanclaim (rp_Status orig) = Ok c -> vlan_ValidateResponse json_vlanclaim orig new = true).
Proof.
  unfold ipam_ValidateResponse, vlan_ValidateResponse. split; intros c ->.
  - destruct (ict_Prefix (status c)); [rewrite bool_decide_eq_true_2 by done|]; cbn [negb];
      (destruct (ict_Gateway (status c)); [by apply bool_decide_eq_true_2|done]).
  - destruct (vct_VLANID (status c)); [rewrite bool_decide_eq_true_2 by done|]; cbn [negb];
      (destruct (vct_VLANRange (status c)); [by apply bool_decide_eq_true_2|done]).
Qed.

End Requests.

(** ** Notifications *)

(** C25. A route that carries the owner labels of an object reaches the controller of that
    object: the message the server sends for it makes the client proxy of a watcher
    put one event on the channel of the owner kind, which names the object. An object
    without a namespace is named in the namespace "default". *)
Theorem watch_notifies_owner {R} (r : clientproxy R) (o : Object) rt code ch :
  let g := o_GVK o in
  Kind g <> "" -> no_char "."%char (Kind g) -> Version g <> "" -> no_char "."%char (Version g) -> Group g <> "" ->
  om_Labels (o_Meta o) = None -> GetHierOwnerLabelsFromCR o ⊆ rt_Labels rt ->
  inf_eventCh (cp_informer r) !! g = Some ch ->
  exists msg r', CreateCallBackFn [rt] code = [msg] /\ watch_response msg r = (r', Ok tt) /\
    inf_sent (cp_informer r') = inf_sent (cp_informer r) ++
      [(ch, MkUnstructured (Identifier (GroupVersion_of g)) (Kind g)
              (getNamespace (om_Namespace (o_Meta o))) (om_Name (o_Meta o)))].
Proof.
  intros g Hk Hkd Hv Hvd Hg Hl Hsub Hch.
  assert (Hget : forall k v, GetHierOwnerLabelsFromCR o !! k = Some v -> label_get (rt_Labels rt) k = v).
  { intros k v Hkv. unfold label_get. by rewrite (lookup_weaken _ _ _ _ Hkv Hsub). }
  assert (Hh : label_get (rt_Labels rt) NephioOwnerGvkKey = GVKToString g /\
    label_get (rt_Labels rt) NephioOwnerNsnNameKey = om_Name (o_Meta o) /\
    label_get (rt_Labels rt) NephioOwnerNsnNamespaceKey = getNamespace (om_Namespace (o_Meta o))).
  { split_and!; apply Hget; unfold GetHierOwnerLabelsFromCR; rewrite Hl; reflexivity. }
  destruct Hh as (H1&H2&H3).
  destruct (bool_decide (code = StatusCode_Unknown)) eqn:Hcode; eexists _, _; (split; [reflexivity|]);
    unfold watch_response, mbind, M_bind, lift, deref;
    cbn [wr_Header wr_StatusCode route_Header h_Gvk h_Nsn h_OwnerGvk h_OwnerNsn];
    rewrite Hcode, H1, H2, H3, (StringToResourcePbGVK_schema (GVKToString g)), (StringToGVK_GVKToString g) by done;
    (split; [reflexivity|]); cbn; unfold NotifyClient; cbn; by rewrite Hch.
Qed.

(** ** The prefixes of a network instance *)

Lemma length_append (s1 s2 : string) : String.length (s1 +:+ s2) = (String.length s1 + String.length s2)%nat.
Proof. induction s1 as [|c s1 IH]; [done|]. change (String c s1 +:+ s2) with (String c (s1 +:+ s2)). cbn. by rewrite IH. Qed.

Lemma length_replace_all c d s : String.length (replace_all c (String d EmptyString) s) = String.length s.
Proof.
  induction s as [|a s IH]; [done|]. cbn. case_bool_decide; [|cbn; by rewrite IH].
  change (String d EmptyString +:+ replace_all c (String d EmptyString) s)
    with (String d (replace_all c (String d EmptyString) s)). cbn. by rewrite IH.
Qed.

(** The claim of a prefix of a network instance is owned, by its labels, by an object
    named like the claim, which is not the network instance: a notification for its route
    does not reach the network instance. *)
Theorem NIPrefix_owner_name cr p cr' p' claim :
  claim_of_NIPrefix cr p = (cr', p', Ok claim) ->
  default ∅ (om_Labels (o_Meta (krm_Object cr))) !! NephioOwnerNsnNameKey = None ->
  IPClaim_GetUserDefinedLabels claim !! NephioOwnerNsnNameKey =
    Some (GetNameFromNetworkInstancePrefix cr (nip_Prefix p)) /\
  GetNameFromNetworkInstancePrefix cr (nip_Prefix p) <> GetName cr.
Proof.
  intros Hc Hl. split.
  - revert Hc. unfold claim_of_NIPrefix. set (n := GetNameFromNetworkInstancePrefix cr (nip_Prefix p)).
    assert (Hcopy : (label_copy (om_Labels (o_Meta (krm_Object cr))) NephioOwnerGvkKey NetworkInstanceKindGVKString).1
      !! NephioOwnerNsnNameKey = None).
    { unfold label_copy. case_bool_decide; cbn; [done|]. by rewrite lookup_insert_ne. }
    destruct (label_copy _ _ _) as [copied kept]. cbn in Hcopy. destruct (iputil_New _); [|intros [=]..].
    intros [= <- <- <-]. unfold IPClaim_GetUserDefinedLabels, GetUserDefinedLabels, udl_GetUserDefinedLabels.
    cbn [with_spec IPClaim_AddOwnerLabelsToCR spec ics_ClaimLabels add_owner_labels cl_UserDefinedLabels udl_Labels default from_option id].
    apply lookup_union_Some_l. unfold GetHierOwnerLabelsFromCR. cbn [list_to_map foldr fst snd].
    rewrite lookup_insert_ne by done. rewrite lookup_insert_eq. cbn. by rewrite Hcopy.
  - unfold GetNameFromNetworkInstancePrefix, GetNameFromPrefix. rewrite bool_decide_eq_true_2 by done.
    intros He. apply (f_equal String.length) in He. rewrite !length_append, !length_replace_all in He.
    rewrite !length_append in He. cbn in He. lia.
Qed.
