(* ===== verification/Codecs.v ===== *)
(** * Codecs of the API types

    The API types are countable, which gives each of them a codec that decodes what it
    has encoded; the models run with these in place of JSON. A record is encoded as the
    list of its encoded fields. *)

From S2P Require Import Prelude Meta Labels Conditions KRM TestWorld IpamApi VlanApi.

Ltac solve_record := intros []; cbn; rewrite ?decode_encode; reflexivity.

#[export] Instance OwnerReference_eq_dec : EqDecision OwnerReference.
Proof. solve_decision. Defined.
#[export] Instance OwnerReference_countable : Countable OwnerReference.
Proof.
  refine (inj_countable
    (fun r => [encode (or_APIVersion r); encode (or_Kind r); encode (or_Name r); encode (or_UID r);
               encode (or_Controller r); encode (or_BlockOwnerDeletion r)])
    (fun l => match l with
     | [a; b; c; d; e; f] =>
         a ← decode a; b ← decode b; c ← decode c; d ← decode d; e ← decode e; f ← decode f;
         Some (MkOwnerReference a b c d e f)
     | _ => None
     end) _).
  solve_record.
Defined.

#[export] Instance ObjectMeta_eq_dec : EqDecision ObjectMeta.
Proof. solve_decision. Defined.
#[export] Instance ObjectMeta_countable : Countable ObjectMeta.
Proof.
  refine (inj_countable
    (fun m => [encode (om_Name m); encode (om_GenerateName m); encode (om_Namespace m); encode (om_UID m);
               encode (om_ResourceVersion m); encode (om_DeletionTimestamp m); encode (om_Labels m);
               encode (om_Annotations m); encode (om_OwnerReferences m); encode (om_Finalizers m)])
    (fun l => match l with
     | [a; b; c; d; e; f; g; h; i; j] =>
         a ← decode a; b ← decode b; c ← decode c; d ← decode d; e ← decode e; f ← decode f;
         g ← decode g; h ← decode h; i ← decode i; j ← decode j;
         Some (MkObjectMeta a b c d e f g h i j)
     | _ => None
     end) _).
  solve_record.
Defined.

#[export] Instance Object_eq_dec : EqDecision Object.
Proof. solve_decision. Defined.
#[export] Instance Object_countable : Countable Object.
Proof.
  refine (inj_countable (fun o => [encode (o_GVK o); encode (o_Meta o)])
    (fun l => match l with [a; b] => a ← decode a; b ← decode b; Some (MkObject a b) | _ => None end) _).
  solve_record.
Defined.

#[export] Instance Condition_eq_dec : EqDecision Condition.
Proof. solve_decision. Defined.
#[export] Instance Condition_countable : Countable Condition.
Proof.
  refine (inj_countable
    (fun c => [encode (c_Type c); encode (c_Status c); encode (c_ObservedGeneration c);
               encode (c_LastTransitionTime c); encode (c_Reason c); encode (c_Message c)])
    (fun l => match l with
     | [a; b; c; d; e; f] =>
         a ← decode a; b ← decode b; c ← decode c; d ← decode d; e ← decode e; f ← decode f;
         Some (Cond a b c d e f)
     | _ => None
     end) _).
  solve_record.
Defined.

#[export] Instance ConditionedStatus_eq_dec : EqDecision ConditionedStatus.
Proof. solve_decision. Defined.
#[export] Instance ConditionedStatus_countable : Countable ConditionedStatus.
Proof. apply (inj_countable' Conditions MkConditionedStatus). by intros []. Defined.

#[export] Instance UserDefinedLabels_eq_dec : EqDecision UserDefinedLabels.
Proof. solve_decision. Defined.
#[export] Instance UserDefinedLabels_countable : Countable UserDefinedLabels.
Proof. apply (inj_countable' udl_Labels MkUserDefinedLabels). by intros []. Defined.

#[export] Instance LabelSelector_eq_dec : EqDecision LabelSelector.
Proof. solve_decision. Defined.
#[export] Instance LabelSelector_countable : Countable LabelSelector.
Proof. apply (inj_countable' MatchLabels MkLabelSelector). by intros []. Defined.

#[export] Instance ClaimLabels_eq_dec : EqDecision ClaimLabels.
Proof. solve_decision. Defined.
#[export] Instance ClaimLabels_countable : Countable ClaimLabels.
Proof.
  refine (inj_countable (fun o => [encode (cl_UserDefinedLabels o); encode (cl_Selector o)])
    (fun l => match l with [a; b] => a ← decode a; b ← decode b; Some (MkClaimLabels a b) | _ => None end) _).
  solve_record.
Defined.

(** A resource, from its three parts. *)
#[export] Instance KRM_eq_dec {A B} `{EqDecision A, EqDecision B} : EqDecision (KRM A B).
Proof. solve_decision. Defined.
#[export] Instance KRM_countable {A B} `{Countable A, Countable B} : Countable (KRM A B).
Proof.
  refine (inj_countable (fun r => [encode (krm_Object r); encode (spec r); encode (status r)])
    (fun l => match l with
     | [a; b; c] => a ← decode a; b ← decode b; c ← decode c; Some (MkKRM a b c)
     | _ => None
     end) _).
  solve_record.
Defined.

#[export] Instance IPClaimSpec_eq_dec : EqDecision IPClaimSpec.
Proof. solve_decision. Defined.
#[export] Instance IPClaimSpec_countable : Countable IPClaimSpec.
Proof.
  refine (inj_countable
    (fun s => [encode (ics_Kind s); encode (ics_NetworkInstance s); encode (ics_AddressFamily s);
               encode (ics_Prefix s); encode (ics_PrefixLength s); encode (ics_Index s);
               encode (ics_CreatePrefix s); encode (ics_ClaimLabels s)])
    (fun l => match l with
     | [a; b; c; d; e; f; g; h] =>
         a ← decode a; b ← decode b; c ← decode c; d ← decode d; e ← decode e; f ← decode f;
         g ← decode g; h ← decode h; Some (MkIPClaimSpec a b c d e f g h)
     | _ => None
     end) _).
  solve_record.
Defined.

#[export] Instance IPClaimStatus_eq_dec : EqDecision IPClaimStatus.
Proof. solve_decision. Defined.
#[export] Instance IPClaimStatus_countable : Countable IPClaimStatus.
Proof.
  refine (inj_countable
    (fun s => [encode (ict_ConditionedStatus s); encode (ict_Prefix s); encode (ict_Gateway s); encode (ict_ExpiryTime s)])
    (fun l => match l with
     | [a; b; c; d] => a ← decode a; b ← decode b; c ← decode c; d ← decode d; Some (MkIPClaimStatus a b c d)
     | _ => None
     end) _).
  solve_record.
Defined.

#[export] Instance NIPrefix_eq_dec : EqDecision NIPrefix.
Proof. solve_decision. Defined.
#[export] Instance NIPrefix_countable : Countable NIPrefix.
Proof. apply (inj_countable' (fun p => (nip_Prefix p, nip_UserDefinedLabels p)) (fun '(a, b) => MkNIPrefix a b)). by intros []. Defined.

#[export] Instance NetworkInstanceSpec_eq_dec : EqDecision NetworkInstanceSpec.
Proof. solve_decision. Defined.
#[export] Instance NetworkInstanceSpec_countable : Countable NetworkInstanceSpec.
Proof. apply (inj_countable' nis_Prefixes MkNetworkInstanceSpec). by intros []. Defined.

#[export] Instance NetworkInstanceStatus_eq_dec : EqDecision NetworkInstanceStatus.
Proof. solve_decision. Defined.
#[export] Instance NetworkInstanceStatus_countable : Countable NetworkInstanceStatus.
Proof.
  apply (inj_countable' (fun s => (nist_ConditionedStatus s, nist_Prefixes s))
    (fun '(a, b) => MkNetworkInstanceStatus a b)). by intros [].
Defined.

#[export] Instance VLANClaimSpec_eq_dec : EqDecision VLANClaimSpec.
Proof. solve_decision. Defined.
#[export] Instance VLANClaimSpec_countable : Countable VLANClaimSpec.
Proof.
  refine (inj_countable
    (fun s => [encode (vcs_VLANIndex s); encode (vcs_VLANID s); encode (vcs_VLANRange s); encode (vcs_ClaimLabels s)])
    (fun l => match l with
     | [a; b; c; d] => a ← decode a; b ← decode b; c ← decode c; d ← decode d; Some (MkVLANClaimSpec a b c d)
     | _ => None
     end) _).
  solve_record.
Defined.

#[export] Instance VLANClaimStatus_eq_dec : EqDecision VLANClaimStatus.
Proof. solve_decision. Defined.
#[export] Instance VLANClaimStatus_countable : Countable VLANClaimStatus.
Proof.
  refine (inj_countable
    (fun s => [encode (vct_ConditionedStatus s); encode (vct_VLANID s); encode (vct_VLANRange s); encode (vct_ExpiryTime s)])
    (fun l => match l with
     | [a; b; c; d] => a ← decode a; b ← decode b; c ← decode c; d ← decode d; Some (MkVLANClaimStatus a b c d)
     | _ => None
     end) _).
  solve_record.
Defined.

#[export] Instance IPClaim_eq_dec : EqDecision IPClaim := KRM_eq_dec.
#[export] Instance IPClaim_countable : Countable IPClaim := KRM_countable.
#[export] Instance NetworkInstance_eq_dec : EqDecision NetworkInstance := KRM_eq_dec.
#[export] Instance NetworkInstance_countable : Countable NetworkInstance := KRM_countable.
#[export] Instance VLANClaim_eq_dec : EqDecision VLANClaim := KRM_eq_dec.
#[export] Instance VLANClaim_countable : Countable VLANClaim := KRM_countable.

Definition ipclaim_codec : Backend.Codec IPClaim := bits_codec IPClaim.
Definition ni_codec : Backend.Codec NetworkInstance := bits_codec NetworkInstance.
Definition vlanclaim_codec : Backend.Codec VLANClaim := bits_codec VLANClaim.
