(* ===== verification/System.v ===== *)
(** * The resource server: both backends behind one server proxy

    The backends main.go registers, on one API server, and what their watches do over
    the life of the server. *)

From S2P Require Import Prelude Meta Labels KRM Backend DB NetIP IPUtil Rib IpamApi IpamWatcher IpamBackend VlanApi VlanBackend ServerProxy.

Local Open Scope Z_scope.

Section System.
Context {W : Type} `{L : LabelsAPI} `{R : !RIBAPI} `{N : NetipxAPI} `{E : ErrorsAPI}.
Context (ipam_api : option (IpamClient W)) (vlan_api : option (VlanClient W)).
Context (yaml_ipam : Codec (gmap string labels)) (yaml_vlan : Codec (gmap Z labels)).
Context (json_ipclaim : Codec IPClaim) (json_ni : Codec NetworkInstance).
Context (json_vlanclaim : Codec VLANClaim) (json_index : Codec VLANIndex).

(** What [List] returns, of type [any]. *)
Definition AnyList : Type := (list Route + list entry)%type.

Definition ipam_backend : Backend (istate W Stream) Stream AnyList :=
  MkBackend (ipam_CreateIndex ipam_api yaml_ipam json_ni) (ipam_DeleteIndex ipam_api yaml_ipam json_ni)
    (fun b => l ← ipam_List json_ni b; mret (inl l)) ipam_AddWatch ipam_DeleteWatch
    (ipam_GetClaim json_ipclaim) (ipam_Claim ipam_api yaml_ipam json_ipclaim)
    (ipam_DeleteClaim ipam_api yaml_ipam json_ipclaim).

Definition vlan_backend : Backend (vstate W) Stream AnyList :=
  MkBackend (vlan_CreateIndex vlan_api yaml_vlan json_index) (vlan_DeleteIndex vlan_api yaml_vlan json_index)
    (fun b => l ← vlan_List json_index b; mret (inr l)) (fun k v _ => vlan_AddWatch k v) vlan_DeleteWatch
    (vlan_GetClaim json_vlanclaim) (vlan_Claim vlan_api yaml_vlan json_vlanclaim)
    (vlan_DeleteClaim vlan_api yaml_vlan json_vlanclaim).

(** The state of both backends; the API server is shared. *)
Record server : Type := MkServer {
  sv_ipam : caches RIB;
  sv_watcher : watcher Stream;
  sv_events : list (event Stream);
  sv_vlan : caches db;
  sv_world : W
}.

Definition get_ipam (s : server) : istate W Stream :=
  MkIState (sv_ipam s) (sv_watcher s) (sv_events s) (sv_world s).
Definition put_ipam (i : istate W Stream) (s : server) : server :=
  MkServer (i_cache i) (i_watcher i) (i_events i) (sv_vlan s) (i_world i).
Definition get_vlan (s : server) : vstate W := MkVState (sv_vlan s) (sv_world s).
Definition put_vlan (v : vstate W) (s : server) : server :=
  MkServer (sv_ipam s) (sv_watcher s) (sv_events s) (v_cache v) (v_world v).

(** [main.go:173-178 main] *)
Definition main_backends : gmap GroupVersion (Backend server Stream AnyList) :=
  <[ipam_GroupVersion := zoom_backend get_ipam put_ipam ipam_backend]>
    {[vlan_GroupVersion := zoom_backend get_vlan put_vlan vlan_backend]}.

(** ** Watches *)

Section Watched.
Context (P : watcher Stream -> Prop).
Context (Padd : forall k v fn w, P w -> P (addWatch k v fn w)).

Definition i_watched (s : istate W Stream) : Prop := P (i_watcher s).

Lemma watched_on_world {A} (m : M W A) : keeps i_watched (i_on_world m).
Proof. intros s Hs. unfold i_on_world. by destruct (m (i_world s)). Qed.
Lemma watched_on_cache {A} (m : M (caches RIB) A) : keeps i_watched (i_on_cache m).
Proof. intros s Hs. unfold i_on_cache. by destruct (m (i_cache s)). Qed.
Lemma watched_on_table {A} id (m : M RIB A) : keeps i_watched (i_on_table (W := W) id m).
Proof.
  intros s Hs. unfold i_on_table. destruct (i_cache s !! id) as [c|]; [|done]. by destruct (m (instance c)).
Qed.
Lemma watched_GetData ref : keeps i_watched (ipam_GetData yaml_ipam ref).
Proof. unfold ipam_GetData. keeps_auto. destruct (Marshal yaml_ipam _); keeps_auto. Qed.
Lemma watched_applicator ini claim pi m : keeps i_watched (run_applicator (W := W) ini claim pi m).
Proof.
  intros s Hs. unfold run_applicator. destruct (i_cache s !! _) as [c|]; [|done]. by destruct (m _).
Qed.
Lemma watched_Get claim ini : keeps i_watched (runtimes_Get (W := W) claim ini).
Proof. by intros s Hs. Qed.

#[local] Hint Resolve watched_on_world watched_on_cache watched_on_table watched_GetData watched_applicator
  watched_Get : keeps.

Lemma watched_RestoreData c ref cm : keeps i_watched (ipam_RestoreData yaml_ipam c ref cm).
Proof. unfold ipam_RestoreData. keeps_auto. Qed.

Lemma watched_store st ref : ipam_store ipam_api yaml_ipam = Ok st ->
  keeps i_watched (st_Restore st ref) /\ keeps i_watched (st_SaveAll st ref) /\ keeps i_watched (st_Destroy st ref).
Proof.
  unfold ipam_store. destruct ipam_api as [c|]; [|intros [= <-]; split_and!; apply keeps_ret].
  apply keeps_storage.
  - intros c' cm [= <-]. cbn. split_and!; apply watched_on_world.
  - intros f ref' [= <-]. apply watched_GetData.
  - intros f ref' cm [= <-]. apply watched_RestoreData.
Qed.

Lemma watched_runtime op : keeps i_watched (rt_Get (W := W) op) /\ keeps i_watched (rt_Validate (W := W) op) /\
  keeps i_watched (rt_Apply (W := W) op) /\ keeps i_watched (rt_Delete (W := W) op).
Proof.
  destruct op; cbn; unfold prefixRuntime_Apply, prefixRuntime_Delete, claimRuntime_Apply, claimRuntime_Delete;
    split_and!; keeps_auto; by intros s Hs.
Qed.

(** No operation of the IPAM backend but [DeleteWatch] takes a watch away. *)
Lemma watched_ipam : backend_keeps i_watched ipam_backend.
Proof.
  unfold backend_keeps. cbn [ipam_backend be_CreateIndex be_DeleteIndex be_GetClaim be_Claim be_DeleteClaim be_AddWatch].
  unfold ipam_CreateIndex, ipam_DeleteIndex, ipam_GetClaim, ipam_Claim, ipam_DeleteClaim, ipam_AddWatch.
  split_and!; intros b.
  1,2,4,5: apply keeps_bind_lift; intros cr _; apply keeps_bind_lift; intros st Hst.
  - destruct (watched_store st (NetworkInstance_GetCacheID cr) Hst) as (H1&_&_). keeps_auto.
  - destruct (watched_store st (NetworkInstance_GetCacheID cr) Hst) as (_&_&H3). keeps_auto.
  - apply keeps_bind; [auto with keeps|]. intros op. destruct (watched_runtime op) as (_&Hv&Ha&_).
    apply keeps_bind; [done|]. intros msg. case_bool_decide; [auto with keeps|]. apply keeps_bind; [done|].
    intros cr'. destruct (watched_store st (IPClaim_GetCacheID cr') Hst) as (_&H2&_). keeps_auto.
  - apply keeps_bind; [auto with keeps|]. intros op. destruct (watched_runtime op) as (_&_&_&Hd).
    apply keeps_bind; [done|]. intros _. apply (watched_store st _ Hst).
  - apply keeps_bind_lift; intros cr _. apply keeps_bind; [auto with keeps|]. intros op.
    destruct (watched_runtime op) as (Hg&_). keeps_auto.
  - intros v fn. apply keeps_modify. intros s. apply Padd.
Qed.

Definition watched (s : server) : Prop := P (sv_watcher s).

Lemma watched_main gv be : main_backends !! gv = Some be -> backend_keeps watched be.
Proof.
  unfold main_backends. destruct (decide (gv = ipam_GroupVersion)) as [->|Hne].
  - rewrite lookup_insert_eq. intros [= <-]. destruct watched_ipam as (H1&H2&H3&H4&H5&H6).
    split_and!; intros; by eapply (keeps_zoom watched i_watched).
  - rewrite lookup_insert_ne by done. intros [_ <-]%lookup_singleton_Some.
    split_and!; intros; by apply (keeps_zoom watched (fun _ => True)).
Qed.

End Watched.

(** ** Watches outlive their streams *)

Context (pb_String : PbGVK -> string).
Abbreviation step := (sp_step pb_String main_backends).

Lemma steps_keep (I : proxyState server -> Prop) s s' :
  (forall a b, step a b -> I a -> I b) -> rtc step s s' -> I s -> I s'.
Proof. intros Hstep. induction 1; eauto. Qed.

(** A watch is never removed. Once a client has registered a watch for an owner kind of
    the IPAM group, its registration and a callback of the backend for that kind exist in
    every later state of the server, also after the stream of the client has ended and
    whatever other requests, watches and ends of streams happen: the loop that should
    clean up after the end of the stream has no turn. *)
Theorem watch_never_removed in_ stream s s1 s2 ownerGvk addr h :
  wq_Header in_ = Some h -> h_OwnerGvk h = Some ownerGvk -> str_peer stream = Some addr ->
  header_gv (Some h) = Ok ipam_GroupVersion ->
  server_Watch pb_String main_backends in_ stream s = (s1, Ok tt) -> rtc step s1 s2 ->
  let g := ResourcePbGVKTostring ownerGvk in
  is_Some (ps_clients s2 !! client_key addr g) /\
  is_Some (watch_lookup (sv_watcher (ps_backends s2)) NephioOwnerGvkKey g).
Proof.
  intros Hin Hog Hpeer Hgv Hw Hsteps g.
  assert (H1 : registered (client_key addr g) s1 /\
    is_Some (watch_lookup (sv_watcher (ps_backends s1)) NephioOwnerGvkKey g)).
  { revert Hw. unfold server_Watch, AddCallBackFn, mbind, M_bind, lift. rewrite Hin. cbn [deref].
    destruct (find_backend _ _ _); [|intros [=]..]. rewrite Hog, Hpeer. cbn [deref]. cbn [register_client].
    rewrite Hgv. unfold main_backends. rewrite lookup_insert_eq. cbn. intros [= <-]. split.
    - unfold registered. cbn. rewrite lookup_insert_eq. by eexists.
    - change (is_Some (watch_lookup (addWatch NephioOwnerGvkKey g stream (sv_watcher (ps_backends s))) NephioOwnerGvkKey g)).
      rewrite watch_lookup_add, decide_True by done. by eexists. }
  destruct H1 as [Hc Hl]. split.
  - revert Hsteps Hc. apply steps_keep, sp_step_registered.
  - set (P := fun w : watcher Stream => is_Some (watch_lookup w NephioOwnerGvkKey g)).
    refine (steps_keep (on_I (watched P)) _ _ _ Hsteps Hl). intros a b. apply sp_step_keeps, watched_main.
    intros k v fn w HP. unfold P. rewrite watch_lookup_add. by destruct (decide _).
Qed.

End System.
Arguments server W {L R}.
