(* ===== verification/ProxyWitness.v ===== *)
(** * The resource service at concrete inputs

    A client proxy, a gRPC server and both backends on an API server in memory, at
    which the theorems on the proxies are applied. *)

From S2P Require Import Prelude Strconv Meta Labels Conditions KRM NetIP IPUtil Rib Backend DB TestWorld IpamApi IpamWatcher IpamBackend IpamWitness VlanApi VlanBackend ServerProxy Health GrpcServer ClientProxy ClientNormalize ProxyRefine NormalizeProps Codecs System.

Local Open Scope Z_scope.
#[local] Existing Instance list_labels.
#[local] Existing Instance map_rib.
#[local] Existing Instance test_netipx.

#[local] Instance test_time : TimeAPI := {| MarshalText t := Ok (pretty t); ParseRFC3339 := Atoi |}.

Definition show_gvk (g : PbGVK) : string := ResourcePbGVKTostring g.
Definition rpc_status (e : string) : string := "rpc error: code = Unknown desc = " +:+ e.
Definition open_context : callContext := MkCallContext None "context deadline exceeded".
Definition test_config : Config := MkConfig ":9999" true 0 0 "" "" "" "".

Definition test_backends : gmap GroupVersion (Backend (server api) Stream AnyList) :=
  main_backends (Some test_ipam) None yaml_codec (const_codec ∅) ipclaim_codec ni_codec vlanclaim_codec
    (const_codec (BuildVLANIndex (sample_meta "" "") (MkVLANIndexSpec (MkUserDefinedLabels None))
       (MkVLANIndexStatus (MkConditionedStatus [])))).

Definition test_rpc : ResourceClient (grpcState (proxyState (server api))) :=
  grpc_client show_gvk test_backends test_config rpc_status open_context.

Definition server_0 : server api := MkServer ∅ ∅ [] ∅ (MkApi ∅).
Definition client_0 : clientproxy (grpcState (proxyState (server api))) :=
  clientproxy_New (gv_Group ipam_GroupVersion) (ipam_ValidateResponse ipclaim_codec) (Ok test_rpc)
    (MkGrpcState 0 (NewProxyState server_0) health_New).

Definition test_client := ipam_client (S := server api) (T := test_time) 0 ni_codec ipclaim_codec.

Definition ni_prefix : NIPrefix := MkNIPrefix "10.1.0.0/28" (MkUserDefinedLabels None).
Definition ni_vpc : NetworkInstance :=
  BuildNetworkInstance (sample_meta "dummy" "vpc") (MkNetworkInstanceSpec [ni_prefix])
    (MkNetworkInstanceStatus (MkConditionedStatus []) []).
Definition ipc_lo : IPClaim :=
  BuildIPClaim (sample_meta "dummy" "lo")
    (MkIPClaimSpec PrefixKindLoopback vpc None None None None None
       (MkClaimLabels (MkUserDefinedLabels None) (Some (MkLabelSelector {[NephioPrefixKindKey := "aggregate"]}))))
    no_IPClaimStatus.

Definition status_prefix (r : result (option IPClaim)) : result (option string) :=
  match r with Ok (Some c) => Ok (ict_Prefix (status c)) | Ok None => Ok None | Err e => Err e | Panic => Panic end.

(** A network instance, its prefix and an address, through the client proxy, the server
    and the backend. *)
Example claim_run :
  let '(c1, r1) := p_CreateIndex test_client ni_vpc client_0 in
  let '((c2, _), r2) := p_Claim test_client (c1, (KNetworkInstance ni_vpc, ArgPrefix ni_prefix)) in
  let '((c3, _), r3) := p_Claim test_client (c2, (KIPClaim ipc_lo, ArgNone)) in
  let '((c4, _), r4) := p_Claim test_client (c3, (KIPClaim ipc_lo, ArgNone)) in
  let '((c5, _), r5) := p_DeleteClaim test_client (c4, (KIPClaim ipc_lo, ArgNone)) in
  let table c := (fun c => show (instance c)) <$> sv_ipam (ps_backends (g_handlers (cp_server c))) !! vpc in
  (r1, status_prefix r2, status_prefix r3, status_prefix r4, table c4, r5, table c5) =
  (Ok tt, Ok (Some "10.1.0.0/28"), Ok (Some "10.1.0.0/32"), Ok (Some "10.1.0.0/32"),
   Some [("10.1.0.0/28", "10.1.0.0-28-vpc-aggregate"); ("10.1.0.0/32", "lo")], Ok tt,
   Some [("10.1.0.0/28", "10.1.0.0-28-vpc-aggregate")]).
Proof. vm_compute. reflexivity. Qed.

(** ** Witnesses *)

Lemma client_0_linked : linked show_gvk test_backends test_config rpc_status open_context client_0 server_0.
Proof. split; [reflexivity|reflexivity|vm_compute; reflexivity|reflexivity]. Qed.

Definition test_be : Backend (server api) Stream AnyList :=
  zoom_backend get_ipam put_ipam (ipam_backend (Some test_ipam) yaml_codec ipclaim_codec ni_codec).

(** The network instance is created in the server as the in-process client would. *)
Lemma ipam_client_refines_witness :
  linked show_gvk test_backends test_config rpc_status open_context
    (p_CreateIndex test_client ni_vpc client_0).1
    (p_CreateIndex (NewBackendMock 0 ni_codec ipclaim_codec test_be) ni_vpc server_0).1.
Proof.
  destruct (ipam_client_refines show_gvk test_backends test_config rpc_status open_context eq_refl 0
    ni_codec ipclaim_codec test_be (lookup_insert_eq _ _ _)) as (_&_&_&H).
  destruct (H ni_vpc eq_refl) as [Hc _]. destruct (Hc client_0 server_0 client_0_linked) as [Hl _]. exact Hl.
Defined.

Definition vlanindex_codec : Codec VLANIndex :=
  const_codec (BuildVLANIndex (sample_meta "" "") (MkVLANIndexSpec (MkUserDefinedLabels None)) (MkVLANIndexStatus (MkConditionedStatus []))).
Definition vlan_5 : VLANClaim :=
  BuildVLANClaim (sample_meta "dummy" "v") (MkVLANClaimSpec (ObjRef "" "dummy" "a" "" "" "" "") (Some 5) None (MkClaimLabels (MkUserDefinedLabels None) None))
    no_VLANClaimStatus.

(** A claim of a VLAN, in the server and in the process of the client. *)
Lemma vlan_client_refines_witness : exists be : Backend (server api) Stream AnyList, test_backends !! vlan_GroupVersion = Some be /\
  linked show_gvk test_backends test_config rpc_status open_context
    (p_Claim (vlan_client (T := test_time) 0 vlanindex_codec vlanclaim_codec) (client_0, (KVLANClaim vlan_5, ArgNone))).1.1
    (p_Claim (direct vlanindex_codec vlanclaim_codec (vlan_NormalizeKRMToResourcePb (T := test_time) 0 vlanclaim_codec) be)
      (server_0, (KVLANClaim vlan_5, ArgNone))).1.1.
Proof.
  eexists. split; [reflexivity|].
  destruct (vlan_client_refines show_gvk test_backends test_config rpc_status open_context eq_refl 0
    vlanindex_codec vlanclaim_codec _ eq_refl) as (_&H&_&_).
  destruct (H client_0 server_0 (KVLANClaim vlan_5, ArgNone) client_0_linked) as [Hl _]. exact Hl.
Defined.

(** A claim after a refresh: the cache is still empty. *)
Lemma clientproxy_never_caches_witness :
  refresh 0 (p_Claim test_client (client_0, (KIPClaim ipc_lo, ArgNone))).1.1 =
  ((p_Claim test_client (client_0, (KIPClaim ipc_lo, ArgNone))).1.1, Ok tt).
Proof.
  destruct (clientproxy_never_caches (T1 := NetworkInstance) krm_Object ni_codec ipclaim_codec
    (ipam_NormalizeKRMToResourcePb 0 ipclaim_codec) (gv_Group ipam_GroupVersion)
    (ipam_ValidateResponse ipclaim_codec) (Ok test_rpc) (MkGrpcState 0 (NewProxyState server_0) health_New)
    (p_Claim test_client (client_0, (KIPClaim ipc_lo, ArgNone))).1.1) as [H _].
  - apply rtc_once. exact (cps_Claim _ _ _ _ client_0 (KIPClaim ipc_lo, ArgNone)).
  - exact (H 0).
Defined.

Definition ipp_net : IPPrefix :=
  BuildIPPrefix (sample_meta "dummy" "net")
    (MkIPPrefixSpec PrefixKindNetwork vpc "10.0.0.10/24" (MkUserDefinedLabels (Some {["a" := "b"]})))
    (MkIPPrefixStatus (MkConditionedStatus []) None).

Definition norm (x : args) := NormalizeKRM (T := test_time) 0 ipclaim_codec x.

(** An IP prefix and a claim of the same name belong to different owners. *)
Lemma normalize_separates_witness : exists b1 b2 e2,
  (norm (KIPPrefix ipp_net, ArgNone)).2 = Ok (b1, "never", "net") /\
  (norm (KIPClaim ipc_lo, ArgNone)).2 = Ok (b2, e2, "lo") /\
  exists c1 c2, Unmarshal ipclaim_codec b1 = Ok c1 /\ Unmarshal ipclaim_codec b2 = Ok c2 /\
    claim_for (KIPPrefix ipp_net) "net" c1 /\ claim_for (KIPClaim ipc_lo) "lo" c2.
Proof.
  eexists _, _, _. split; [reflexivity|]. split; [reflexivity|].
  edestruct (normalize_separates (T := test_time) (L := list_labels) 0 ipclaim_codec
    (KIPPrefix ipp_net, ArgNone)) as (c1&c2&H1&H2&H3&H4&_); [reflexivity| |].
  { instantiate (5 := (KIPClaim ipc_lo, ArgNone)). reflexivity. }
  exists c1, c2. split; [exact H1|]. split; [exact H2|]. split; [exact H3|exact H4].
Defined.

(** The IP prefix with the owner labels it got from its first request. *)
Lemma normalize_stable_witness : exists rq,
  let x1 := (ipam_NormalizeKRMToResourcePb (T := test_time) 0 ipclaim_codec (KIPPrefix ipp_net, ArgNone)).1 in
  x1 <> (KIPPrefix ipp_net, ArgNone) /\
  ipam_NormalizeKRMToResourcePb (T := test_time) 0 ipclaim_codec x1 = (x1, Ok rq).
Proof.
  eexists. split; [intros H; apply (f_equal (fun x => match x.1 with
    | KIPPrefix r => label_get (udl_GetUserDefinedLabels (ips_UserDefinedLabels (spec r))) NephioNsnNameKey
    | _ => "" end)) in H; vm_compute in H; discriminate H|].
  edestruct (normalize_stable (T := test_time) 0 ipclaim_codec vlanclaim_codec (KIPPrefix ipp_net, ArgNone)
    (ipam_NormalizeKRMToResourcePb (T := test_time) 0 ipclaim_codec (KIPPrefix ipp_net, ArgNone)).1) as [H _].
  apply H. reflexivity.
Defined.

Definition resp (c : IPClaim) : ClaimResponse :=
  MkClaimResponse None "" (match Marshal ipclaim_codec c with Ok b => b | _ => "" end) StatusCode_Valid "never".
Definition with_prefix (p : string) : IPClaim :=
  MkKRM (krm_Object ipc_lo) (spec ipc_lo) (MkIPClaimStatus (MkConditionedStatus []) (Some p) None None).

(** A refresh that comes back with another prefix is accepted. *)
Lemma ValidateResponse_ignores_new_witness :
  ipam_ValidateResponse ipclaim_codec (resp (with_prefix "10.0.0.1/32")) (resp (with_prefix "10.0.0.2/32")) = true.
Proof.
  destruct (ValidateResponse_ignores_new ipclaim_codec vlanclaim_codec (resp (with_prefix "10.0.0.1/32"))
    (resp (with_prefix "10.0.0.2/32"))) as [H _].
  apply (H (with_prefix "10.0.0.1/32")).
  destruct (Backend.Unmarshal_Marshal (c := bits_codec IPClaim) (with_prefix "10.0.0.1/32")) as (b&Hm&Hu).
  unfold resp, ipclaim_codec. rewrite Hm. exact Hu.
Defined.

(** A claim in the default namespace, and its route. *)
Definition ipc_obj : Object := MkObject (WithKind ipam_GroupVersion IPClaimKind)
  (MkObjectMeta "lo" "" "" "" "" None None None [] []).

Lemma watch_notifies_owner_witness :
  exists msg r', CreateCallBackFn [NewRoute (P net10_1 32) (GetHierOwnerLabelsFromCR ipc_obj)] StatusCode_Unknown = [msg] /\
    watch_response msg (AddEventChs {[o_GVK ipc_obj := 7%nat]} client_0).1 = (r', Ok tt) /\
    inf_sent (cp_informer r') = [(7%nat, MkUnstructured "ipam.resource.nephio.org/v1alpha1" "IPClaim" "default" "lo")].
Proof.
  destruct (watch_notifies_owner (AddEventChs {[o_GVK ipc_obj := 7%nat]} client_0).1 ipc_obj
    (NewRoute (P net10_1 32) (GetHierOwnerLabelsFromCR ipc_obj)) StatusCode_Unknown 7%nat) as (msg&r'&H1&H2&H3).
  1-5: vm_compute; congruence.
  - reflexivity.
  - reflexivity.
  - reflexivity.
  - exists msg, r'. split; [exact H1|]. split; [exact H2|exact H3].
Defined.

Definition watch_req : WatchRequest :=
  MkWatchRequest (Some (MkHeader (Some (GetResourcePbGVKFromSchemaGVK (WithKind ipam_GroupVersion IPClaimKind))) None
    (Some (GetResourcePbGVKFromSchemaGVK (WithKind ipam_GroupVersion IPPrefixKind))) None)).
Definition stream_1 : Stream := MkStream 1 (Some "10.0.0.1:4000").
Definition proxy_1 : proxyState (server api) := (server_Watch show_gvk test_backends watch_req stream_1 (NewProxyState server_0)).1.
Definition call_1 : watchCall := MkWatchCall 0 "10.0.0.1:4000" IPPrefixKindGVKString ipam_GroupVersion.
Definition proxy_2 : proxyState (server api) := (AddCallBackFn_done test_backends call_1 proxy_1).1.

(** The stream of the client has ended; its watch is still there. *)
Lemma watch_never_removed_witness :
  ps_watches proxy_2 = [] /\
  is_Some (ps_clients proxy_2 !! "10.0.0.1:4000:::IPPrefix.v1alpha1.ipam.resource.nephio.org").
Proof.
  split; [vm_compute; reflexivity|].
  destruct (watch_never_removed (Some test_ipam) None yaml_codec (const_codec ∅) ipclaim_codec ni_codec vlanclaim_codec
    (const_codec (BuildVLANIndex (sample_meta "" "") (MkVLANIndexSpec (MkUserDefinedLabels None))
       (MkVLANIndexStatus (MkConditionedStatus [])))) show_gvk watch_req stream_1 (NewProxyState server_0) proxy_1 proxy_2
    (GetResourcePbGVKFromSchemaGVK (WithKind ipam_GroupVersion IPPrefixKind)) "10.0.0.1:4000"
    (MkHeader (Some (GetResourcePbGVKFromSchemaGVK (WithKind ipam_GroupVersion IPClaimKind))) None
       (Some (GetResourcePbGVKFromSchemaGVK (WithKind ipam_GroupVersion IPPrefixKind))) None)) as [H _].
  1-5: reflexivity.
  - apply rtc_once. exact (sp_Watch_done _ _ proxy_1 call_1 (list_elem_of_here _ _)).
  - exact H.
Defined.
