(* ===== verification/Reconciler.v ===== *)
(** * What the reconcilers share

    A reconciler reads its object from the API server and writes the outcome to its
    status. The calls of the API server, finalizers, the return of a status, and what
    they do on an API server that stores what is written to it. *)

From S2P Require Import Prelude Strconv Meta Labels Conditions KRM.

Local Open Scope Z_scope.

Definition ref_nsn (r : ObjectReference) : NamespacedName := NSN (ref_Namespace r) (ref_Name r).
Definition krm_om {A B} (r : KRM A B) : ObjectMeta := o_Meta (krm_Object r).

(** ** The API server *)

(** The calls of [client.Client] on the objects of a type; a successful update
    refreshes the object. *)
Record CRClient (W T : Type) : Type := MkCRClient {
  crc_Get : NamespacedName -> W -> result T;
  crc_Update : T -> M W T;
  crc_StatusUpdate : T -> M W T
}.
Arguments crc_Get {W T} c.
Arguments crc_Update {W T} c.
Arguments crc_StatusUpdate {W T} c.

(** [reconcile.Result] *)
Record Result : Type := MkResult { Requeue : bool; RequeueAfter : Z }.
Definition no_requeue : Result := MkResult false 0.
Definition requeue : Result := MkResult true 0.
Definition requeue_5s : Result := MkResult false (5 * 1000000000).

Definition errUpdateStatus : string := "cannot update status".
Definition errGetResource : string := "cannot get resource".

(** ** What the reconcilers share *)

Section Reconciler.
Context {S W Spec Status : Type} `{HasConditions Status} `{E : ErrorsAPI} (now : Z).
Abbreviation T := (KRM Spec Status).
Context (api : CRClient W T) (finalizer : string).

(** The service, the API server, and the object [cr] of the reconciliation. *)
Record rstate : Type := MkRState { r_svc : S; r_api : W; r_cr : T }.

Definition set_cr (cr : T) (s : rstate) : rstate := MkRState (r_svc s) (r_api s) cr.
Definition update_cr (f : T -> T) : M rstate unit := modify (fun s => set_cr (f (r_cr s)) s).
Definition krm_meta (f : ObjectMeta -> ObjectMeta) (r : T) : T := MkKRM (with_meta f (krm_Object r)) (spec r) (status r).

(** An API call that refreshes [cr]. *)
Definition api_call (f : T -> M W T) : M rstate error := fun s =>
  match f (r_cr s) (r_api s) with
  | (w, Ok cr) => (MkRState (r_svc s) w cr, Ok None)
  | (w, Err e) => (MkRState (r_svc s) w (r_cr s), Ok (Some e))
  | (w, Panic) => (MkRState (r_svc s) w (r_cr s), Panic)
  end.

(** [return result, errors.Wrap(r.Status().Update(ctx, cr), errUpdateStatus)] *)
Definition return_status (res : Result) : M rstate Result :=
  e ← api_call (crc_StatusUpdate api);
  match Wrap e errUpdateStatus with
  | None => mret res
  | Some e => throw e
  end.

Definition set_conditions (cs : list Condition) : M rstate unit := update_cr (fun cr => krm_SetConditions cr cs).

(** [cr.SetConditions(cs...)] and the return of the status. *)
Definition report (cs : list Condition) (res : Result) : M rstate Result :=
  _ ← set_conditions cs;
  return_status res.

(** [pkg/resource/api2.go:41-47 APIFinalizer.AddFinalizer] *)
Definition krm_AddFinalizer : M rstate error :=
  s ← get_state;
  if FinalizerExists (o_Meta (krm_Object (r_cr s))) finalizer then mret None
  else
    _ ← update_cr (krm_meta (fun m => AddFinalizer m finalizer));
    e ← api_call (crc_Update api);
    mret (Wrap e errUpdateObject2).

(** [pkg/resource/api2.go:50-56 APIFinalizer.RemoveFinalizer] *)
Definition krm_RemoveFinalizer : M rstate error :=
  s ← get_state;
  if negb (FinalizerExists (o_Meta (krm_Object (r_cr s))) finalizer) then mret None
  else
    m ← lift (RemoveFinalizer (o_Meta (krm_Object (r_cr s))) finalizer);
    _ ← update_cr (krm_meta (fun _ => m));
    e ← api_call (crc_Update api);
    mret (Wrap (IgnoreNotFound e) errUpdateObject2).

(** The object of a request; an object that does not exist needs no reconciliation. *)
Definition reconcile (req : NamespacedName) (body : M rstate Result) : M (S * W) Result := fun '(svc, w) =>
  match crc_Get api req w with
  | Ok cr => let '(s, r) := body (MkRState svc w cr) in ((r_svc s, r_api s), r)
  | Err e =>
      ((svc, w), match IgnoreNotFound (Some e) with
                 | Some e => match Wrap (Some e) errGetResource with Some e => Err e | None => Ok no_requeue end
                 | None => Ok no_requeue
                 end)
  | Panic => ((svc, w), Panic)
  end.

(** The end of a reconciliation of a deleted object. *)
Definition finish_delete : M rstate Result :=
  e ← krm_RemoveFinalizer;
  match e with
  | Some e => report [ReconcileError now e; Unknown now] requeue
  | None => mret no_requeue
  end.

(** The finalizer is added before anything is claimed. *)
Definition with_finalizer (body : M rstate Result) : M rstate Result :=
  e ← krm_AddFinalizer;
  match e with
  | Some e => report [ReconcileError now e; Unknown now] requeue
  | None => body
  end.

(** The index of a claim exists and is not being deleted. *)
Definition with_index {Ti} (get : W -> result Ti) (meta_of : Ti -> ObjectMeta) (not_ready : string)
    (body : M rstate Result) : M rstate Result :=
  s ← get_state;
  match get (r_api s) with
  | Ok idx =>
      if WasDeleted (meta_of idx) then report [ReconcileSuccess now; Failed now not_ready] requeue_5s
      else body
  | Err _ => report [ReconcileSuccess now; Failed now "index not found"] requeue_5s
  | Panic => panic
  end.

End Reconciler.
Arguments rstate : clear implicits.

(** ** An API server that stores what is written to it *)

Definition bump {A B} (v : string) (r : KRM A B) : KRM A B :=
  MkKRM (with_meta (set_ResourceVersion v) (krm_Object r)) (spec r) (status r).
Definition version {A B} (r : KRM A B) : string := om_ResourceVersion (krm_om r).

(** The documented behaviour of the API server on the objects of a type, [view] being
    what it stores. A write with the version that is stored succeeds and gives the
    object a new version: a write of the object keeps the stored status, a write of the
    status keeps the stored object, and an object marked for deletion is removed when
    its last finalizer is. *)
Class CRLaws {W Spec Status : Type} `{E : ErrorsAPI} (c : CRClient W (KRM Spec Status))
    (view : W -> gmap NamespacedName (KRM Spec Status)) : Prop := {
  crc_Get_found : forall w k cr, view w !! k = Some cr -> crc_Get c k w = Ok cr;
  crc_Get_missing : forall w k, view w !! k = None -> exists e, crc_Get c k w = Err e /\ IsNotFound e = true;
  crc_StatusUpdate_found : forall w cr old, view w !! krm_nsn cr = Some old -> version cr = version old ->
    exists w' v, let cr' := bump v (MkKRM (krm_Object old) (spec old) (status cr)) in
      crc_StatusUpdate c cr w = (w', Ok cr') /\ view w' = <[krm_nsn cr := cr']> (view w);
  crc_Update_found : forall w cr old, view w !! krm_nsn cr = Some old -> version cr = version old ->
    om_DeletionTimestamp (krm_om cr) = om_DeletionTimestamp (krm_om old) ->
    exists w' v, let cr' := bump v (MkKRM (krm_Object cr) (spec cr) (status old)) in
      crc_Update c cr w = (w', Ok cr') /\
      view w' = if WasDeleted (krm_om old) && bool_decide (om_Finalizers (krm_om cr) = [])
                then delete (krm_nsn cr) (view w) else <[krm_nsn cr := cr']> (view w)
}.

(** Writing an object of one type does not change the objects of another. *)
Class Independent {W A B : Type} (c : CRClient W A) (other : CRClient W B) : Prop := {
  indep_Update : forall k x w, crc_Get other k (crc_Update c x w).1 = crc_Get other k w
}.

(** The last of two conditions. *)
Lemma condition_last r a b : essence (GetCondition (SetConditions r [a; b]) (c_Type b)) = essence b.
Proof.
  unfold GetCondition, SetConditions. cbn [foldl Conditions].
  by destruct (find_condition_set_same (set_condition (Conditions r) a) b) as (c&->&Hc).
Qed.

Lemma status_last r a b t : c_Type b = t -> c_Status (GetCondition (SetConditions r [a; b]) t) = c_Status b.
Proof. intros <-. pose proof (condition_last r a b) as He. unfold essence in He. congruence. Qed.

(** The end of a reconciliation. *)
Definition leave {S W Spec Status} (x : rstate S W Spec Status * result Result) : (S * W) * result Result :=
  let '(s, r) := x in ((r_svc s, r_api s), r).

Section Props.
Context {S W Spec Status : Type} `{HasConditions Status} `{E : ErrorsAPI} `{!ErrorsLaws E} (now : Z).
Abbreviation T := (KRM Spec Status).
Context (api : CRClient W T) (view : W -> gmap NamespacedName T) `{!CRLaws api view} (fin : string).
Abbreviation state := (rstate S W Spec Status).

(** The object in hand is the one that is stored, up to what was changed since it was
    read. *)
Record fresh (s : state) (old : T) : Prop := {
  fresh_stored : view (r_api s) !! krm_nsn (r_cr s) = Some old;
  fresh_version : version (r_cr s) = version old;
  fresh_deletion : om_DeletionTimestamp (krm_om (r_cr s)) = om_DeletionTimestamp (krm_om old)
}.

(** A report writes the conditions to the stored status. *)
Lemma report_spec cs res (s : state) old : fresh s old ->
  exists w' v, let cr' := bump v (MkKRM (krm_Object old) (spec old) (status (krm_SetConditions (r_cr s) cs))) in
    report api cs res s = (MkRState (r_svc s) w' cr', Ok res) /\
    view w' = <[krm_nsn (r_cr s) := cr']> (view (r_api s)).
Proof.
  intros [Hs Hv _]. unfold report, return_status, set_conditions, update_cr, api_call, mbind, M_bind, modify.
  cbn [r_cr r_api r_svc set_cr].
  destruct (crc_StatusUpdate_found (r_api s) (krm_SetConditions (r_cr s) cs) old Hs Hv) as (w'&v&Hu&Hview).
  exists w', v. cbn zeta. rewrite Hu, Wrap_nil. split; [done|exact Hview].
Qed.

(** Removing the last finalizer of a deleted object removes the object. *)
Lemma remove_finalizer_spec (s : state) old : fresh s old -> WasDeleted (krm_om old) = true ->
  om_Finalizers (krm_om (r_cr s)) = [fin] ->
  exists w' cr', krm_RemoveFinalizer api fin s = (MkRState (r_svc s) w' cr', Ok None) /\
    view w' = delete (krm_nsn (r_cr s)) (view (r_api s)).
Proof.
  intros [Hs Hv Hd] Hdel Hf. unfold krm_RemoveFinalizer, mbind, M_bind, get_state, lift.
  change (o_Meta (krm_Object (r_cr s))) with (krm_om (r_cr s)).
  assert (FinalizerExists (krm_om (r_cr s)) fin = true) as ->.
  { unfold FinalizerExists. rewrite Hf. apply finalizer_in_spec. left. }
  cbn [negb]. rewrite (RemoveFinalizer_once (krm_om (r_cr s)) fin [] []) by (try done; apply not_elem_of_nil).
  cbn [app]. unfold update_cr, modify, api_call. cbn [r_cr r_api r_svc set_cr].
  destruct (crc_Update_found (r_api s) (krm_meta (fun _ => set_Finalizers [] (krm_om (r_cr s))) (r_cr s)) old)
    as (w'&v&Hu&Hview); [done..|].
  rewrite Hu. unfold IgnoreNotFound, Ignore. rewrite Wrap_nil. eexists _, _. split; [reflexivity|].
  rewrite Hview, Hdel. by rewrite bool_decide_eq_true_2.
Qed.

Lemma finish_delete_spec (s : state) old : fresh s old -> WasDeleted (krm_om old) = true ->
  om_Finalizers (krm_om (r_cr s)) = [fin] ->
  exists w' cr', finish_delete now api fin s = (MkRState (r_svc s) w' cr', Ok no_requeue) /\
    view w' = delete (krm_nsn (r_cr s)) (view (r_api s)).
Proof.
  intros Hs Hdel Hf. destruct (remove_finalizer_spec s old Hs Hdel Hf) as (w'&cr'&Hrun&Hv).
  exists w', cr'. split; [|exact Hv]. unfold finish_delete. by rewrite (bind_ok _ _ _ _ _ Hrun).
Qed.

(** *** Objects that are not deleted *)

(** The object after the finalizer was added, stored. *)
Record prepared (w : W) (cr : T) (w' : W) (cr' : T) : Prop := {
  prep_stored : view w' !! krm_nsn cr = Some cr';
  prep_nsn : krm_nsn cr' = krm_nsn cr;
  prep_spec : spec cr' = spec cr;
  prep_status : status cr' = status cr;
  prep_others : delete (krm_nsn cr) (view w') = delete (krm_nsn cr) (view w);
  prep_fin : FinalizerExists (krm_om cr') fin = true;
  prep_gvk : o_GVK (krm_Object cr') = o_GVK (krm_Object cr);
  prep_owner : GetHierOwnerLabelsFromCR (krm_Object cr') = GetHierOwnerLabelsFromCR (krm_Object cr);
  prep_refs : om_OwnerReferences (krm_om cr') = om_OwnerReferences (krm_om cr)
}.

Lemma add_finalizer_spec svc w cr : view w !! krm_nsn cr = Some cr -> WasDeleted (krm_om cr) = false ->
  exists w' cr', prepared w cr w' cr' /\ (w' = w \/ exists x, w' = (crc_Update api x w).1) /\
    krm_AddFinalizer api fin (MkRState svc w cr) = (MkRState (S := S) svc w' cr', Ok None).
Proof.
  intros Hst Hdel. unfold krm_AddFinalizer, mbind, M_bind, get_state. cbn [r_cr].
  change (o_Meta (krm_Object cr)) with (krm_om cr).
  destruct (FinalizerExists (krm_om cr) fin) eqn:Hf.
  - exists w, cr. split; [by split|]. split; [by left|]. done.
  - unfold update_cr, modify, api_call. cbn [r_cr r_api r_svc set_cr].
    set (cr1 := krm_meta (fun m => AddFinalizer m fin) cr).
    assert (Hc : krm_nsn cr1 = krm_nsn cr /\ version cr1 = version cr /\
      om_DeletionTimestamp (krm_om cr1) = om_DeletionTimestamp (krm_om cr)).
    { unfold cr1, krm_nsn, version, krm_meta, krm_om, GetName, GetNamespace, AddFinalizer. cbn.
      by destruct (finalizer_in _ _). }
    destruct Hc as (Hc1&Hc2&Hc3).
    destruct (crc_Update_found (view := view) w cr1 cr) as (w'&v&Hu&Hview); [by rewrite Hc1|done..|].
    cbn zeta in *. rewrite Hc1 in Hview. rewrite Hdel in Hview. cbn [andb] in Hview. eexists w', _.
    split; [|split; [right; exists cr1; by rewrite Hu|rewrite Hu, Wrap_nil; reflexivity]].
    split; [rewrite Hview; apply lookup_insert_eq|exact Hc1|done|done| |apply AddFinalizer_exists|done| | ].
    + rewrite Hview. apply delete_insert_eq.
    + unfold cr1, krm_meta, bump, GetHierOwnerLabelsFromCR, AddFinalizer. cbn. by destruct (finalizer_in _ _).
    + unfold cr1, krm_meta, bump, krm_om, AddFinalizer. cbn. by destruct (finalizer_in _ _).
Qed.

Lemma with_finalizer_spec body svc w cr : view w !! krm_nsn cr = Some cr -> WasDeleted (krm_om cr) = false ->
  exists w' cr', prepared w cr w' cr' /\ (w' = w \/ exists x, w' = (crc_Update api x w).1) /\
    with_finalizer now api fin body (MkRState svc w cr) = body (MkRState (S := S) svc w' cr').
Proof.
  intros Hst Hdel. destruct (add_finalizer_spec svc w cr Hst Hdel) as (w'&cr'&Hp&Hw&Hrun). exists w', cr'.
  split; [done|]. split; [done|]. unfold with_finalizer. by rewrite (bind_ok _ _ _ _ _ Hrun).
Qed.

(** The reconciliation of an object that is not deleted and whose index exists, up to
    its own body. *)
Lemma claim_prelude {Ti} (other : CRClient W Ti) `{!Independent api other} (meta_of : Ti -> ObjectMeta)
    (index_of : Spec -> NamespacedName) not_ready (body : T -> M state Result) svc w cr idx :
  view w !! krm_nsn cr = Some cr -> WasDeleted (krm_om cr) = false ->
  crc_Get other (index_of (spec cr)) w = Ok idx -> WasDeleted (meta_of idx) = false ->
  exists w1 cr1, prepared w cr w1 cr1 /\
    with_finalizer now api fin (s ← get_state;
      with_index now api (crc_Get other (index_of (spec (r_cr s)))) meta_of not_ready (body (r_cr s)))
      (MkRState svc w cr) = body cr1 (MkRState svc w1 cr1).
Proof.
  intros Hst Hdel Hidx Hidel. edestruct with_finalizer_spec as (w1&cr1&Hp&Hw&Hrun); [exact Hst|exact Hdel|].
  exists w1, cr1. split; [done|]. rewrite Hrun. unfold with_index, mbind at 1, M_bind at 1, get_state at 1. cbn [r_cr].
  unfold mbind at 1, M_bind at 1, get_state at 1. cbn [r_api].
  assert (crc_Get other (index_of (spec cr1)) w1 = Ok idx) as ->.
  { rewrite (prep_spec _ _ _ _ Hp). destruct Hw as [->|[x ->]]; [done|]. by rewrite indep_Update. }
  by rewrite Hidel.
Qed.

End Props.
