(* ===== verification/Controllers.v ===== *)
(** * controllers/{ipclaim,ipprefix,ipnetworkinstance,vlanclaim,vlanvlan,vlanindex}

    The reconcilers of the resource groups. A reconciler reads its object from the API
    server, claims or releases it through a client proxy, and writes the outcome to the
    status of the object. *)

From S2P Require Import Prelude Strconv Meta Labels Conditions KRM Backend NetIP IPUtil Rib IpamApi VlanApi Reconciler ServerProxy ClientProxy ClientNormalize.

Local Open Scope Z_scope.

(** An error of a release that a reconciler ignores: it must contain both texts. *)
Definition ignored (e : string) : bool :=
  negb (negb (contains "not ready" e) || negb (contains "not found" e)).

(** ** What the reconcilers of claims share *)

Section Claims.
Context {S W Spec Status : Type} `{HasConditions Status} `{E : ErrorsAPI} (now : Z).
Abbreviation T := (KRM Spec Status).
Context (api : CRClient W T) (finalizer : string).
(** The object as the proxy sees it, and the object after a call of the proxy. *)
Context (to_obj : T -> KObject) (of_obj : KObject -> T -> T).
Abbreviation rstate := (rstate S W Spec Status).

(** A call of the proxy on [cr]; the object is passed by reference. *)
Definition proxy_call {A} (m : M (S * args) A) (d : Arg) : M rstate (A + string) := fun s =>
  let '((svc, (o, _)), r) := m (r_svc s, (to_obj (r_cr s), d)) in
  (MkRState svc (r_api s) (of_obj o (r_cr s)),
   match r with Ok a => Ok (inl a) | Err e => Ok (inr e) | Panic => Panic end).

(** The reconciliation of a deleted claim: it is released when it is ready. *)
Definition delete_claim (release : M (S * args) unit) : M rstate Result :=
  s ← get_state;
  if bool_decide (c_Status (krm_GetCondition (r_cr s) ConditionTypeReady) = ConditionTrue) then
    r ← proxy_call release ArgNone;
    match r with
    | inr e => if negb (ignored e) then report api [ReconcileError now e; Unknown now] no_requeue else finish_delete now api finalizer
    | inl _ => finish_delete now api finalizer
    end
  else finish_delete now api finalizer.

(** The release of a claim whose spec has changed. *)
Definition release_changed (changed : T -> bool) (prepare : T -> T) (ignore : string -> bool) (res : Result)
    (release : M (S * args) unit) (body : M rstate Result) : M rstate Result :=
  s ← get_state;
  if changed (r_cr s) then
    _ ← update_cr prepare;
    r ← proxy_call release ArgNone;
    match r with
    | inr e => if negb (ignore e) then report api [ReconcileError now e; Unknown now] res else body
    | inl _ => body
    end
  else body.

End Claims.

(** ** IPAM *)

Definition ipam_finalizer : string := "ipam.nephio.org/finalizer".
Definition vlan_finalizer : string := "vlan.nephio.org/finalizer".


Definition as_IPClaim (o : KObject) (r : IPClaim) : IPClaim := match o with KIPClaim r => r | _ => r end.
Definition as_IPPrefix (o : KObject) (r : IPPrefix) : IPPrefix := match o with KIPPrefix r => r | _ => r end.
Definition as_NetworkInstance (o : KObject) (r : NetworkInstance) : NetworkInstance :=
  match o with KNetworkInstance r => r | _ => r end.
Definition as_VLAN (o : KObject) (r : VLAN) : VLAN := match o with KVLAN r => r | _ => r end.
Definition as_VLANClaim (o : KObject) (r : VLANClaim) : VLANClaim := match o with KVLANClaim r => r | _ => r end.

Definition set_spec_Prefix (p : option string) : IPClaim -> IPClaim :=
  with_spec (fun s => MkIPClaimSpec (ics_Kind s) (ics_NetworkInstance s) (ics_AddressFamily s) p
    (ics_PrefixLength s) (ics_Index s) (ics_CreatePrefix s) (ics_ClaimLabels s)).
Definition set_status_Prefix (p g : option string) : IPClaim -> IPClaim :=
  with_status (fun s => MkIPClaimStatus (ict_ConditionedStatus s) p g (ict_ExpiryTime s)).

Section Ipam.
Context {S W : Type} `{E : ErrorsAPI} (now : Z) (proxy : Proxy S args NetworkInstance IPClaim).
Context (ni_api : CRClient W NetworkInstance) (claim_api : CRClient W IPClaim) (prefix_api : CRClient W IPPrefix).

(** *** IPClaim *)

Abbreviation claim_state := (rstate S W IPClaimSpec IPClaimStatus).

(** The claim of the object. A nil answer is dereferenced. *)
Definition claim_IPClaim : M claim_state Result :=
  r ← proxy_call KIPClaim as_IPClaim (p_Claim proxy) ArgNone;
  match r with
  | inr e =>
      _ ← update_cr (set_status_Prefix None None);
      report claim_api [ReconcileSuccess now; Failed now e] requeue_5s
  | inl None => panic
  | inl (Some claimResp) =>
      s ← get_state;
      let ready : M claim_state Result :=
        _ ← update_cr (set_status_Prefix (ict_Prefix (status claimResp)) (ict_Gateway (status claimResp)));
        report claim_api [ReconcileSuccess now; Ready now] no_requeue in
      match ics_Prefix (spec (r_cr s)) with
      | Some p =>
          if bool_decide (ict_Prefix (status claimResp) <> Some p) then
            report claim_api [ReconcileSuccess now; Unknown now] requeue_5s
          else ready
      | None => ready
      end
  end.

(** The prefixes of the spec and of the status are pointers, and the pointers are
    compared: when both are set they differ.

    [controllers/ipclaim/reconciler.go:99-210 reconciler.Reconcile] *)
Definition ipclaim_Reconcile (req : NamespacedName) : M (S * W) Result :=
  reconcile claim_api req (
    s ← get_state;
    let cr := r_cr s in
    if WasDeleted (krm_om cr) then
      delete_claim now claim_api ipam_finalizer KIPClaim as_IPClaim (p_DeleteClaim proxy)
    else
      with_finalizer now claim_api ipam_finalizer (
        s ← get_state;
        let cr := r_cr s in
        with_index now claim_api (crc_Get ni_api (ref_nsn (IPClaim_GetCacheID cr))) krm_om "index not ready" (
          let specPrefix := ics_Prefix (spec cr) in
          release_changed now claim_api KIPClaim as_IPClaim
            (fun cr => bool_decide (is_Some (ict_Prefix (status cr)) /\ is_Some (ics_Prefix (spec cr))))
            (set_spec_Prefix None) ignored no_requeue (p_DeleteClaim proxy) (
            _ ← update_cr (set_spec_Prefix specPrefix);
            claim_IPClaim)))).

(** *** IPPrefix *)

(** [controllers/ipprefix/reconciler.go:96-196 reconciler.Reconcile] *)
Definition ipprefix_Reconcile (req : NamespacedName) : M (S * W) Result :=
  reconcile prefix_api req (
    s ← get_state;
    let cr := r_cr s in
    if WasDeleted (krm_om cr) then
      delete_claim now prefix_api ipam_finalizer KIPPrefix as_IPPrefix (p_DeleteClaim proxy)
    else
      with_finalizer now prefix_api ipam_finalizer (
        s ← get_state;
        let cr := r_cr s in
        with_index now prefix_api (crc_Get ni_api (ref_nsn (IPPrefix_GetCacheID cr))) krm_om "index not ready" (
          release_changed now prefix_api KIPPrefix as_IPPrefix
            (fun cr => match ipt_Prefix (status cr) with Some p => bool_decide (p <> ips_Prefix (spec cr)) | None => false end)
            id ignored no_requeue (p_DeleteClaim proxy) (
            r ← proxy_call KIPPrefix as_IPPrefix (p_Claim proxy) ArgNone;
            match r with
            | inr e => report prefix_api [ReconcileSuccess now; Failed now e] requeue_5s
            | inl None => panic
            | inl (Some claimResp) =>
                s ← get_state;
                let prefix := ips_Prefix (spec (r_cr s)) in
                if bool_decide (ict_Prefix (status claimResp) <> Some prefix) then
                  report prefix_api [ReconcileSuccess now; Unknown now] requeue_5s
                else
                  _ ← update_cr (with_status (fun s => MkIPPrefixStatus (ipt_ConditionedStatus s) (Some prefix)));
                  report prefix_api [ReconcileSuccess now; Ready now] no_requeue
            end)))).

(** *** NetworkInstance *)

Abbreviation ni_state := (rstate S W NetworkInstanceSpec NetworkInstanceStatus).

(** A call of the proxy on the network instance and one of its prefixes, whose labels
    it shares. The labels of the prefix afterwards are put back where it was. *)
Definition prefix_call {A} (m : M (S * args) A) (p : NIPrefix) (put : NIPrefix -> NetworkInstance -> NetworkInstance) :
    M ni_state (A + string) := fun s =>
  let '((svc, (o, d)), r) := m (r_svc s, (KNetworkInstance (r_cr s), ArgPrefix p)) in
  let cr := as_NetworkInstance o (r_cr s) in
  (MkRState svc (r_api s) (match d with ArgPrefix p => put p cr | ArgNone => cr end),
   match r with Ok a => Ok (inl a) | Err e => Ok (inr e) | Panic => Panic end).

Definition put_spec_prefix (i : nat) (p : NIPrefix) : NetworkInstance -> NetworkInstance :=
  with_spec (fun s => MkNetworkInstanceSpec (<[i := p]> (nis_Prefixes s))).
Definition put_status_prefix (i : nat) (p : NIPrefix) : NetworkInstance -> NetworkInstance :=
  with_status (fun s => MkNetworkInstanceStatus (nist_ConditionedStatus s) (<[i := p]> (nist_Prefixes s))).

(** The prefixes that are no longer in the spec are released. *)
Fixpoint release_prefixes (l : list (nat * NIPrefix)) (body : M ni_state Result) : M ni_state Result :=
  match l with
  | [] => body
  | (i, claimedPrefix) :: l =>
      s ← get_state;
      if existsb (fun prefix => bool_decide (nip_Prefix claimedPrefix = nip_Prefix prefix)) (nis_Prefixes (spec (r_cr s)))
      then release_prefixes l body
      else
        r ← prefix_call (p_DeleteClaim proxy) claimedPrefix (put_status_prefix i);
        match r with
        | inr e =>
            if negb (ignored e) then report ni_api [ReconcileError now e; Failed now e] no_requeue
            else release_prefixes l body
        | inl _ => release_prefixes l body
        end
  end.

(** The prefixes of the spec are claimed. *)
Fixpoint claim_prefixes (l : list (nat * NIPrefix)) (body : M ni_state Result) : M ni_state Result :=
  match l with
  | [] => body
  | (i, prefix) :: l =>
      r ← prefix_call (p_Claim proxy) prefix (put_spec_prefix i);
      match r with
      | inr e => report ni_api [ReconcileSuccess now; Failed now e] requeue_5s
      | inl None => panic
      | inl (Some claimResp) =>
          if bool_decide (ict_Prefix (status claimResp) <> Some (nip_Prefix prefix)) then
            report ni_api [ReconcileSuccess now; Unknown now] requeue_5s
          else claim_prefixes l body
      end
  end.

Definition index_call {Spec Status} {A} (m : M S A) : M (rstate S W Spec Status) (A + string) := fun s =>
  let '(svc, r) := m (r_svc s) in
  (MkRState svc (r_api s) (r_cr s), match r with Ok a => Ok (inl a) | Err e => Ok (inr e) | Panic => Panic end).

(** [controllers/ipnetworkinstance/reconciler.go:92-188 reconciler.Reconcile] *)
Definition networkinstance_Reconcile (req : NamespacedName) : M (S * W) Result :=
  reconcile ni_api req (
    s ← get_state;
    let cr := r_cr s in
    if WasDeleted (krm_om cr) then
      r ← index_call (p_DeleteIndex proxy cr);
      match r with
      | inr e => report ni_api [ReconcileError now e; Unknown now] requeue
      | inl _ => finish_delete now ni_api ipam_finalizer
      end
    else
      with_finalizer now ni_api ipam_finalizer (
        s ← get_state;
        r ← index_call (p_CreateIndex proxy (r_cr s));
        match r with
        | inr e => report ni_api [ReconcileError now e; Failed now e] requeue
        | inl _ =>
            release_prefixes (imap pair (nist_Prefixes (status (r_cr s)))) (
              s ← get_state;
              claim_prefixes (imap pair (nis_Prefixes (spec (r_cr s)))) (
                _ ← update_cr (fun cr => with_status (fun st =>
                      MkNetworkInstanceStatus (nist_ConditionedStatus st) (nis_Prefixes (spec cr))) cr);
                report ni_api [ReconcileSuccess now; Ready now] no_requeue))
        end)).

End Ipam.

(** ** VLAN *)

Definition set_spec_VLANID (id : option Z) : VLANClaim -> VLANClaim :=
  with_spec (fun s => MkVLANClaimSpec (vcs_VLANIndex s) id (vcs_VLANRange s) (vcs_ClaimLabels s)).
Definition set_status_VLANID (id : option Z) : VLANClaim -> VLANClaim :=
  with_status (fun s => MkVLANClaimStatus (vct_ConditionedStatus s) id (vct_VLANRange s) (vct_ExpiryTime s)).

Section Vlan.
Context {S W : Type} `{E : ErrorsAPI} (now : Z) (proxy : Proxy S args VLANIndex VLANClaim).
Context (index_api : CRClient W VLANIndex) (claim_api : CRClient W VLANClaim) (vlan_api : CRClient W VLAN).

(** *** VLANClaim *)

Abbreviation claim_state := (rstate S W VLANClaimSpec VLANClaimStatus).

(** The identifier of the answer and the one of the spec are compared as pointers: when
    both are set they differ. *)
Definition claim_VLANClaim : M claim_state Result :=
  r ← proxy_call KVLANClaim as_VLANClaim (p_Claim proxy) ArgNone;
  match r with
  | inr e =>
      _ ← update_cr (set_status_VLANID None);
      report claim_api [ReconcileSuccess now; Failed now e] requeue_5s
  | inl None => panic
  | inl (Some claimResp) =>
      s ← get_state;
      if bool_decide (is_Some (vcs_VLANID (spec (r_cr s))) /\ is_Some (vct_VLANID (status claimResp))) then
        report claim_api [ReconcileSuccess now; Unknown now] requeue_5s
      else
        _ ← update_cr (set_status_VLANID (vct_VLANID (status claimResp)));
        report claim_api [ReconcileSuccess now; Ready now] no_requeue
  end.

(** [controllers/vlanclaim/reconciler.go:97-208 reconciler.Reconcile] *)
Definition vlanclaim_Reconcile (req : NamespacedName) : M (S * W) Result :=
  reconcile claim_api req (
    s ← get_state;
    let cr := r_cr s in
    if WasDeleted (krm_om cr) then
      delete_claim now claim_api vlan_finalizer KVLANClaim as_VLANClaim (p_DeleteClaim proxy)
    else
      with_finalizer now claim_api vlan_finalizer (
        s ← get_state;
        let cr := r_cr s in
        with_index now claim_api (crc_Get index_api (ref_nsn (VLANClaim_GetCacheID cr))) krm_om "index not ready" (
          let specId := vcs_VLANID (spec cr) in
          release_changed now claim_api KVLANClaim as_VLANClaim
            (fun cr => match vct_VLANID (status cr), vcs_VLANID (spec cr) with
                       | Some a, Some b => bool_decide (a <> b)
                       | _, _ => false
                       end)
            (set_spec_VLANID None) ignored no_requeue (p_DeleteClaim proxy) (
            _ ← update_cr (set_spec_VLANID specId);
            claim_VLANClaim)))).

(** *** VLAN *)

Definition ignored_vlan (e : string) : bool :=
  negb (negb (contains "not ready" e) || negb (contains "not found" e) || negb (contains "initalizing" e)).

(** The identifiers of the answer and of the spec are dereferenced.

    [controllers/vlanvlan/reconciler.go:99-200 reconciler.Reconcile] *)
Definition vlan_Reconcile (req : NamespacedName) : M (S * W) Result :=
  reconcile vlan_api req (
    s ← get_state;
    let cr := r_cr s in
    if WasDeleted (krm_om cr) then
      delete_claim now vlan_api vlan_finalizer KVLAN as_VLAN (p_DeleteClaim proxy)
    else
      with_finalizer now vlan_api vlan_finalizer (
        s ← get_state;
        let cr := r_cr s in
        with_index now vlan_api (crc_Get index_api (ref_nsn (VLAN_GetCacheID cr))) krm_om "network-instance not ready" (
          release_changed now vlan_api KVLAN as_VLAN
            (fun cr => match vst_VLANID (status cr), vs_VLANID (spec cr) with
                       | Some a, Some b => bool_decide (a <> b)
                       | _, _ => false
                       end)
            id ignored_vlan requeue_5s (p_DeleteClaim proxy) (
            r ← proxy_call KVLAN as_VLAN (p_Claim proxy) ArgNone;
            match r with
            | inr e => report vlan_api [ReconcileSuccess now; Failed now e] requeue_5s
            | inl None => panic
            | inl (Some claimResp) =>
                s ← get_state;
                got ← lift (deref (vct_VLANID (status claimResp)));
                want ← lift (deref (vs_VLANID (spec (r_cr s))));
                if bool_decide (got <> want) then
                  report vlan_api [ReconcileSuccess now; Unknown now] requeue_5s
                else
                  _ ← update_cr (with_status (fun st => MkVLANStatus (vst_ConditionedStatus st) (Some want) (vst_VLANRange st)));
                  report vlan_api [ReconcileSuccess now; Ready now] no_requeue
            end)))).

(** *** VLANIndex *)

(** [controllers/vlanindex/reconciler.go:96-152 reconciler.Reconcile] *)
Definition vlanindex_Reconcile (req : NamespacedName) : M (S * W) Result :=
  reconcile index_api req (
    s ← get_state;
    let cr := r_cr s in
    if WasDeleted (krm_om cr) then
      r ← index_call (p_DeleteIndex proxy cr);
      match r with
      | inr e => report index_api [ReconcileError now e; Unknown now] requeue
      | inl _ => finish_delete now index_api vlan_finalizer
      end
    else
      with_finalizer now index_api vlan_finalizer (
        s ← get_state;
        r ← index_call (p_CreateIndex proxy (r_cr s));
        match r with
        | inr e => report index_api [ReconcileError now e; Failed now e] requeue
        | inl _ => report index_api [ReconcileSuccess now; Ready now] no_requeue
        end)).

End Vlan.
