(* ===== verification/ControllerProps.v ===== *)
(** * Properties of the reconcilers

    On an API server that stores what is written to it. *)

From S2P Require Import Prelude Strconv Meta Labels Conditions KRM Backend NetIP IPUtil Rib IpamApi VlanApi Reconciler ServerProxy ClientProxy ClientNormalize Controllers.

Local Open Scope Z_scope.

(** [cr2] is a later version of [cr], with status [st], that was marked for deletion and
    waits for the finalizer [f]. *)
Record marked_deleted {Spec Status} (f : string) (cr cr2 : KRM Spec Status) (st : Status) : Prop := {
  md_nsn : krm_nsn cr2 = krm_nsn cr;
  md_deleted : WasDeleted (krm_om cr2) = true;
  md_fin : om_Finalizers (krm_om cr2) = [f];
  md_gvk : o_GVK (krm_Object cr2) = o_GVK (krm_Object cr);
  md_owner : GetHierOwnerLabelsFromCR (krm_Object cr2) = GetHierOwnerLabelsFromCR (krm_Object cr);
  md_spec : spec cr2 = spec cr;
  md_status : status cr2 = st
}.

Section Props.
Context {S W Spec Status : Type} `{HasConditions Status} `{E : ErrorsAPI} `{!ErrorsLaws E} (now : Z).
Abbreviation T := (KRM Spec Status).
Context (api : CRClient W T) (view : W -> gmap NamespacedName T) `{!CRLaws api view} (fin : string).
Context (to_obj : T -> KObject) (of_obj : KObject -> T -> T).
Abbreviation state := (rstate S W Spec Status).

(** The reconciliation of a deleted claim that is stored as it is in hand. *)
Definition ready (cr : T) : bool := bool_decide (c_Status (krm_GetCondition cr ConditionTypeReady) = ConditionTrue).

Lemma ready_essence (cr : T) : essence (krm_GetCondition cr ConditionTypeReady) = essence (Ready now) -> ready cr = true.
Proof. unfold essence, ready. intros [= _ Hs _ _]. by rewrite Hs. Qed.

Section Deleted.
Context (release : M (S * args) unit) (cr : T) (svc : S) (w : W).
Context (Hstored : view w !! krm_nsn cr = Some cr) (Hdel : WasDeleted (krm_om cr) = true)
  (Hfin : om_Finalizers (krm_om cr) = [fin]).
Abbreviation s0 := (MkRState svc w cr).
Abbreviation run := (delete_claim now api fin to_obj of_obj release).

Lemma fresh_stored_cr (svc' : S) : fresh view (MkRState svc' w cr) cr.
Proof. by split. Qed.

Lemma delete_not_ready : ready cr = false ->
  exists w' cr', run s0 = (MkRState svc w' cr', Ok no_requeue) /\ view w' = delete (krm_nsn cr) (view w).
Proof.
  intros Hr. unfold delete_claim, mbind, M_bind, get_state. cbn [r_cr]. unfold ready in Hr. rewrite Hr.
  by apply (finish_delete_spec now api view fin s0 cr).
Qed.

Lemma delete_released svc' d : ready cr = true -> of_obj (to_obj cr) cr = cr ->
  release (svc, (to_obj cr, ArgNone)) = ((svc', (to_obj cr, d)), Ok tt) ->
  exists w' cr', run s0 = (MkRState svc' w' cr', Ok no_requeue) /\ view w' = delete (krm_nsn cr) (view w).
Proof.
  intros Hr Hof Hrel. unfold delete_claim, mbind, M_bind, get_state. cbn [r_cr]. unfold ready in Hr. rewrite Hr.
  unfold proxy_call. cbn [r_svc r_api r_cr]. rewrite Hrel, Hof.
  by apply (finish_delete_spec now api view fin (MkRState svc' w cr) cr).
Qed.

Lemma delete_failed svc' d e : ready cr = true -> of_obj (to_obj cr) cr = cr -> ignored e = false ->
  release (svc, (to_obj cr, ArgNone)) = ((svc', (to_obj cr, d)), Err e) ->
  exists w' v, let cr' := bump v (krm_SetConditions cr [ReconcileError now e; Unknown now]) in
    run s0 = (MkRState svc' w' cr', Ok no_requeue) /\ view w' = <[krm_nsn cr := cr']> (view w).
Proof.
  intros Hr Hof Hig Hrel. unfold delete_claim, mbind, M_bind, get_state. cbn [r_cr]. unfold ready in Hr. rewrite Hr.
  unfold proxy_call. cbn [r_svc r_api r_cr]. rewrite Hrel, Hof, Hig. cbn [negb].
  destruct (report_spec api view [ReconcileError now e; Unknown now] no_requeue _ _ (fresh_stored_cr svc')) as (w'&v&Hrun&Hv).
  exists w', v. split; [exact Hrun|exact Hv].
Qed.

End Deleted.

(** Two reconciliations of a deleted claim whose release fails. *)
Lemma delete_failed_twice (release : M (S * args) unit) cr svc svc' w d e :
  view w !! krm_nsn cr = Some cr -> WasDeleted (krm_om cr) = true -> om_Finalizers (krm_om cr) = [fin] ->
  ready cr = true -> of_obj (to_obj cr) cr = cr -> ignored e = false ->
  release (svc, (to_obj cr, ArgNone)) = ((svc', (to_obj cr, d)), Err e) ->
  exists w1 cr1, delete_claim now api fin to_obj of_obj release (MkRState svc w cr) = (MkRState svc' w1 cr1, Ok no_requeue) /\
    view w1 !! krm_nsn cr = Some cr1 /\ krm_nsn cr1 = krm_nsn cr /\ WasDeleted (krm_om cr1) = true /\
  exists w2 cr2, delete_claim now api fin to_obj of_obj release (MkRState svc' w1 cr1) = (MkRState svc' w2 cr2, Ok no_requeue) /\
    view w2 = delete (krm_nsn cr) (view w).
Proof.
  intros Hst Hdel Hfin Hr Hof Hig Hrel.
  destruct (delete_failed release cr svc w Hst svc' d e Hr Hof Hig Hrel) as (w1&v&H1&Hv1).
  set (cr1 := bump v _) in *. exists w1, cr1. split; [exact H1|].
  assert (Hst1 : view w1 !! krm_nsn cr = Some cr1) by (rewrite Hv1; apply lookup_insert_eq).
  split; [exact Hst1|]. split; [done|]. split; [exact Hdel|].
  destruct (delete_not_ready release cr1 svc' w1 Hst1 Hdel Hfin) as (w2&cr2&H2&Hv2).
  - unfold ready. apply bool_decide_eq_false_2. unfold cr1, krm_GetCondition, bump, krm_SetConditions, with_status.
    cbn [status]. rewrite conditioned_with, (status_last _ _ (Unknown now)) by done. done.
  - exists w2, cr2. split; [exact H2|]. rewrite Hv2, Hv1. apply delete_insert_eq.
Qed.

End Props.

(** ** IP claims *)

Section IPClaims.
Context {S W : Type} `{E : ErrorsAPI} `{!ErrorsLaws E} (now : Z) (proxy : Proxy S args NetworkInstance IPClaim).
Context (ni_api : CRClient W NetworkInstance) (claim_api : CRClient W IPClaim).
Context (view : W -> gmap NamespacedName IPClaim) `{!CRLaws claim_api view}.
Abbreviation Reconcile := (ipclaim_Reconcile now proxy ni_api claim_api).

Lemma Reconcile_deleted cr svc w : view w !! krm_nsn cr = Some cr -> WasDeleted (krm_om cr) = true ->
  Reconcile (krm_nsn cr) (svc, w) =
  let '(s, r) := delete_claim now claim_api ipam_finalizer KIPClaim as_IPClaim (p_DeleteClaim proxy) (MkRState svc w cr) in
  ((r_svc s, r_api s), r).
Proof.
  intros Hst Hdel. unfold ipclaim_Reconcile, reconcile. rewrite (crc_Get_found w _ _ Hst).
  unfold mbind at 1, M_bind at 1, get_state at 1. cbn [r_cr]. by rewrite Hdel.
Qed.

(** A ready claim whose release succeeds. *)
Lemma Reconcile_released cr svc svc' d w : view w !! krm_nsn cr = Some cr -> WasDeleted (krm_om cr) = true ->
  om_Finalizers (krm_om cr) = [ipam_finalizer] -> ready cr = true ->
  p_DeleteClaim proxy (svc, (KIPClaim cr, ArgNone)) = ((svc', (KIPClaim cr, d)), Ok tt) ->
  exists w', Reconcile (krm_nsn cr) (svc, w) = ((svc', w'), Ok no_requeue) /\ view w' = delete (krm_nsn cr) (view w).
Proof.
  intros Hst Hdel Hfin Hr Hrel. destruct (delete_released now claim_api view ipam_finalizer KIPClaim as_IPClaim
    (p_DeleteClaim proxy) cr svc w Hst Hdel Hfin svc' d Hr eq_refl Hrel) as (w'&cr'&Hrun&Hv).
  exists w'. rewrite (Reconcile_deleted _ _ _ Hst Hdel), Hrun. by split.
Qed.

(** C11. The deletion of a claim always completes. A deleted claim that carries the
    finalizer of the controller is gone from the API server after one reconciliation when
    it was not ready, or was ready and its release succeeds; and after two when the release
    fails. In the last case the release is not tried again: the first reconciliation
    marks the claim as not ready, the second removes the finalizer, and the service stays
    as the failed release left it. *)
Theorem ipclaim_deletion cr svc w :
  view w !! krm_nsn cr = Some cr -> WasDeleted (krm_om cr) = true ->
  om_Finalizers (krm_om cr) = [ipam_finalizer] ->
  (ready cr = false -> exists w', Reconcile (krm_nsn cr) (svc, w) = ((svc, w'), Ok no_requeue) /\
     view w' = delete (krm_nsn cr) (view w)) /\
  (forall svc' d, ready cr = true ->
     p_DeleteClaim proxy (svc, (KIPClaim cr, ArgNone)) = ((svc', (KIPClaim cr, d)), Ok tt) ->
     exists w', Reconcile (krm_nsn cr) (svc, w) = ((svc', w'), Ok no_requeue) /\
       view w' = delete (krm_nsn cr) (view w)) /\
  (forall svc' d e, ready cr = true -> ignored e = false ->
     p_DeleteClaim proxy (svc, (KIPClaim cr, ArgNone)) = ((svc', (KIPClaim cr, d)), Err e) ->
     exists w1 w2, Reconcile (krm_nsn cr) (svc, w) = ((svc', w1), Ok no_requeue) /\
       is_Some (view w1 !! krm_nsn cr) /\
       Reconcile (krm_nsn cr) (svc', w1) = ((svc', w2), Ok no_requeue) /\
       view w2 = delete (krm_nsn cr) (view w)).
Proof.
  intros Hst Hdel Hfin. split_and!.
  - intros Hr. destruct (delete_not_ready now claim_api view ipam_finalizer KIPClaim as_IPClaim (p_DeleteClaim proxy)
      cr svc w Hst Hdel Hfin Hr) as (w'&cr'&Hrun&Hv).
    exists w'. rewrite (Reconcile_deleted _ _ _ Hst Hdel), Hrun. by split.
  - intros svc' d Hr Hrel. exact (Reconcile_released cr svc svc' d w Hst Hdel Hfin Hr Hrel).
  - intros svc' d e Hr Hig Hrel. destruct (delete_failed_twice now claim_api view ipam_finalizer KIPClaim as_IPClaim
      (p_DeleteClaim proxy) cr svc svc' w d e Hst Hdel Hfin Hr eq_refl Hig Hrel)
      as (w1&cr1&H1&Hst1&Hn&Hdel1&w2&cr2&H2&Hv2).
    exists w1, w2. rewrite (Reconcile_deleted _ _ _ Hst Hdel), H1. split_and!; [done|by eexists| |done].
    rewrite <-Hn in Hst1 |- *. by rewrite (Reconcile_deleted _ _ _ Hst1 Hdel1), H2.
Qed.

(** *** Claiming *)

Context `{!Independent claim_api ni_api}.

(** The reconciliation of a claim up to its release and claim. *)
Lemma Reconcile_claim cr svc w idx : view w !! krm_nsn cr = Some cr -> WasDeleted (krm_om cr) = false ->
  crc_Get ni_api (ref_nsn (IPClaim_GetCacheID cr)) w = Ok idx -> WasDeleted (krm_om idx) = false ->
  exists w1 cr1, prepared view ipam_finalizer w cr w1 cr1 /\
    Reconcile (krm_nsn cr) (svc, w) =
    let '(s, r) := release_changed now claim_api KIPClaim as_IPClaim
        (fun cr => bool_decide (is_Some (ict_Prefix (status cr)) /\ is_Some (ics_Prefix (spec cr))))
        (set_spec_Prefix None) ignored no_requeue (p_DeleteClaim proxy)
        (_ ← update_cr (set_spec_Prefix (ics_Prefix (spec cr1))); claim_IPClaim now proxy claim_api)
        (MkRState svc w1 cr1) in
    ((r_svc s, r_api s), r).
Proof.
  intros Hst Hdel Hidx Hidel. unfold ipclaim_Reconcile, reconcile. rewrite (crc_Get_found w _ _ Hst).
  unfold mbind at 1, M_bind at 1, get_state at 1. cbn [r_cr]. rewrite Hdel.
  destruct (claim_prelude (S := S) now claim_api view ipam_finalizer ni_api krm_om
    (fun s => ref_nsn (GetCacheID (ics_NetworkInstance s))) "index not ready"
    (fun cr => release_changed now claim_api KIPClaim as_IPClaim
        (fun cr => bool_decide (is_Some (ict_Prefix (status cr)) /\ is_Some (ics_Prefix (spec cr))))
        (set_spec_Prefix None) ignored no_requeue (p_DeleteClaim proxy)
        (_ ← update_cr (set_spec_Prefix (ics_Prefix (spec cr))); claim_IPClaim now proxy claim_api))
    svc w cr idx Hst Hdel Hidx Hidel) as (w1&cr1&Hp&Hrun).
  exists w1, cr1. split; [done|].
  exact (f_equal leave Hrun).
Qed.

(** The conditions and the status a reconciliation leaves. *)
Definition outcome (cr : IPClaim) (p g : option string) (c : Condition) : Prop :=
  ict_Prefix (status cr) = p /\ ict_Gateway (status cr) = g /\
  essence (krm_GetCondition cr ConditionTypeReady) = essence c.

(** What the claim of the object in hand leaves in the API server. *)
Lemma claim_IPClaim_spec (cr0 cr : IPClaim) svc w svc' d (res : result (option IPClaim)) :
  view w !! krm_nsn cr0 = Some cr0 -> krm_nsn cr = krm_nsn cr0 -> version cr = version cr0 ->
  om_DeletionTimestamp (krm_om cr) = om_DeletionTimestamp (krm_om cr0) -> status cr = status cr0 ->
  p_Claim proxy (svc, (KIPClaim cr, ArgNone)) = ((svc', (KIPClaim cr, d)), res) -> res <> Ok None -> res <> Panic ->
  exists s cr' r, claim_IPClaim now proxy claim_api (MkRState svc w cr) = (s, Ok r) /\ r_svc s = svc' /\
    view (r_api s) = <[krm_nsn cr0 := cr']> (view w) /\ spec cr' = spec cr0 /\
    match res with
    | Ok (Some resp) =>
        if bool_decide (is_Some (ics_Prefix (spec cr)) /\ ict_Prefix (status resp) <> ics_Prefix (spec cr))
        then r = requeue_5s /\ outcome cr' (ict_Prefix (status cr0)) (ict_Gateway (status cr0)) (Unknown now)
        else r = no_requeue /\ outcome cr' (ict_Prefix (status resp)) (ict_Gateway (status resp)) (Ready now)
    | Err e => r = requeue_5s /\ outcome cr' None None (Failed now e)
    | _ => True
    end.
Proof.
  intros Hst Hn Hv Hd Hs Hclaim Hnn Hnp. unfold claim_IPClaim, proxy_call, mbind at 1, M_bind at 1.
  cbn [r_svc r_cr r_api]. rewrite Hclaim. cbn [as_IPClaim].
  assert (Hkey : forall f : IPClaim -> IPClaim, krm_Object (f cr) = krm_Object cr -> krm_nsn (f cr) = krm_nsn cr0).
  { intros f Hf. rewrite <-Hn. unfold krm_nsn, GetName, GetNamespace. by rewrite Hf. }
  assert (Hfresh : forall f : IPClaim -> IPClaim, krm_Object (f cr) = krm_Object cr -> fresh view (MkRState svc' w (f cr)) cr0).
  { intros f Hf. split; cbn [r_cr r_api]; [by rewrite (Hkey f Hf)|..]; unfold version, krm_om in *; by rewrite Hf. }
  assert (Hrep : forall a b r (f : IPClaim -> IPClaim), krm_Object (f cr) = krm_Object cr -> c_Type b = ConditionTypeReady ->
    exists s cr', report claim_api [a; b] r (MkRState svc' w (f cr)) = (s, Ok r) /\ r_svc s = svc' /\
      view (r_api s) = <[krm_nsn cr0 := cr']> (view w) /\ spec cr' = spec cr0 /\
      outcome cr' (ict_Prefix (status (f cr))) (ict_Gateway (status (f cr))) b).
  { intros a b r f Hf Hb. destruct (report_spec claim_api view [a; b] r _ _ (Hfresh f Hf)) as (w'&v&Hrun&Hview).
    eexists _, (bump v (MkKRM (krm_Object cr0) (spec cr0) (status (krm_SetConditions (f cr) [a; b])))).
    split; [exact Hrun|]. cbn [r_svc r_api]. split; [done|]. split; [|split; [done|]].
    - rewrite Hview. cbn [r_cr r_api]. by rewrite (Hkey f Hf).
    - split_and!; [done..|]. rewrite <-Hb. apply condition_last. }
  destruct res as [[resp|]|e|]; [|done| |done].
  - unfold mbind at 1, M_bind at 1, get_state at 1. cbn [r_cr].
    destruct (Hrep (ReconcileSuccess now) (Ready now) no_requeue
      (set_status_Prefix (ict_Prefix (status resp)) (ict_Gateway (status resp))) eq_refl eq_refl)
      as (s1&cr1&Hrun1&Hs1&Hv1&Hsp1&Ho1).
    destruct (Hrep (ReconcileSuccess now) (Unknown now) requeue_5s id eq_refl eq_refl)
      as (s2&cr2&Hrun2&Hs2&Hv2&Hsp2&Ho2).
    destruct (ics_Prefix (spec cr)) as [p|] eqn:Hp.
    + destruct (bool_decide_reflect (ict_Prefix (status resp) <> Some p)) as [Hne|Heq].
      * exists s2, cr2, requeue_5s. rewrite bool_decide_eq_true_2 by (split; [by eexists|done]).
        change (id cr) with cr in *. rewrite Hs in Ho2. by split_and!.
      * exists s1, cr1, no_requeue. rewrite bool_decide_eq_false_2 by (intros [_ ?]; done).
        unfold mbind at 1, M_bind at 1, update_cr at 1, modify at 1, set_cr. cbn [r_cr r_svc r_api]. by split_and!.
    + exists s1, cr1, no_requeue. rewrite bool_decide_eq_false_2 by (intros [[? [=]] _]).
      unfold mbind at 1, M_bind at 1, update_cr at 1, modify at 1, set_cr. cbn [r_cr r_svc r_api]. by split_and!.
  - destruct (Hrep (ReconcileSuccess now) (Failed now e) requeue_5s (set_status_Prefix None None) eq_refl eq_refl)
      as (s1&cr1&Hrun1&Hs1&Hv1&Hsp1&Ho1).
    exists s1, cr1, requeue_5s. unfold mbind at 1, M_bind at 1, update_cr at 1, modify at 1, set_cr.
    cbn [r_cr r_svc r_api]. by split_and!.
Qed.

Lemma set_spec_Prefix_restore cr p q : q = ics_Prefix (spec cr) -> set_spec_Prefix q (set_spec_Prefix p cr) = cr.
Proof. intros ->. by destruct cr as [o [] st]. Qed.

Lemma set_spec_Prefix_same cr q : q = ics_Prefix (spec cr) -> set_spec_Prefix q cr = cr.
Proof. intros ->. by destruct cr as [o [] st]. Qed.

Lemma prepared_status w cr w1 cr1 w' cr' : prepared view ipam_finalizer w cr w1 cr1 ->
  view w' = <[krm_nsn cr1 := cr']> (view w1) -> view w' !! krm_nsn cr = Some cr' /\
  delete (krm_nsn cr) (view w') = delete (krm_nsn cr) (view w).
Proof.
  intros Hp Hv. rewrite (prep_nsn _ _ _ _ _ _ Hp) in Hv. rewrite Hv. split; [apply lookup_insert_eq|].
  rewrite delete_insert_eq. apply Hp.
Qed.

(** The reconciliation of a claim without a prefix in its spec. *)
Lemma Reconcile_served cr svc w idx :
  view w !! krm_nsn cr = Some cr -> WasDeleted (krm_om cr) = false ->
  crc_Get ni_api (ref_nsn (IPClaim_GetCacheID cr)) w = Ok idx -> WasDeleted (krm_om idx) = false ->
  ics_Prefix (spec cr) = None ->
  exists w1 cr1, prepared view ipam_finalizer w cr w1 cr1 /\
  forall svc' d res, p_Claim proxy (svc, (KIPClaim cr1, ArgNone)) = ((svc', (KIPClaim cr1, d)), res) ->
    res <> Ok None -> res <> Panic ->
    exists w' cr' r, Reconcile (krm_nsn cr) (svc, w) = ((svc', w'), Ok r) /\
      view w' !! krm_nsn cr = Some cr' /\ delete (krm_nsn cr) (view w') = delete (krm_nsn cr) (view w) /\
      spec cr' = spec cr /\
      match res with
      | Ok (Some resp) => r = no_requeue /\ outcome cr' (ict_Prefix (status resp)) (ict_Gateway (status resp)) (Ready now)
      | Err e => r = requeue_5s /\ outcome cr' None None (Failed now e)
      | _ => True
      end.
Proof.
  intros Hst Hdel Hidx Hidel Hnone. destruct (Reconcile_claim cr svc w idx Hst Hdel Hidx Hidel) as (w1&cr1&Hp&Hrun).
  exists w1, cr1. split; [exact Hp|]. pose proof Hp as [P1 P2 P3 P4 P5 P6 P7 P8].
  intros svc' d res Hclaim Hnn Hnp.
  assert (Hst1 : view w1 !! krm_nsn cr1 = Some cr1) by (by rewrite P2).
  destruct (claim_IPClaim_spec cr1 cr1 svc w1 svc' d res Hst1 eq_refl eq_refl eq_refl eq_refl Hclaim Hnn Hnp)
    as (s&cr'&r&Hrun2&Hsvc&Hv&Hsp&Hres).
  exists (r_api s), cr', r. destruct (prepared_status w cr w1 cr1 (r_api s) cr' Hp Hv) as [Hv1 Hv2].
  rewrite Hrun. unfold release_changed, mbind at 1, M_bind at 1, get_state at 1. cbn [r_cr].
  assert (Hn1 : ics_Prefix (spec cr1) = None) by by rewrite P3.
  rewrite Hn1. rewrite bool_decide_eq_false_2 by (intros [_ [? [=]]]).
  unfold mbind at 1, M_bind at 1, update_cr at 1, modify at 1, set_cr. cbn [r_cr r_svc r_api].
  rewrite set_spec_Prefix_same by done. rewrite Hrun2, Hsvc. split_and!; [done..|congruence|].
  destruct res as [[resp|]|e|]; [|done| |done]; [|exact Hres].
  rewrite Hn1 in Hres. rewrite bool_decide_eq_false_2 in Hres by (intros [[? [=]] _]). exact Hres.
Qed.

(** C10. The reconciliation of a claim without a prefix in its spec, in a network instance
    that exists, calls the service once, with the claim as it is stored, and reports what
    it answered: the prefix and the gateway of the answer and the condition Ready, or, on
    an error, no prefix, the error in a failed condition and a new try after five seconds.
    The spec of the claim and the other claims are left as they were. *)
Theorem ipclaim_reconciled cr svc w idx :
  view w !! krm_nsn cr = Some cr -> WasDeleted (krm_om cr) = false ->
  crc_Get ni_api (ref_nsn (IPClaim_GetCacheID cr)) w = Ok idx -> WasDeleted (krm_om idx) = false ->
  ics_Prefix (spec cr) = None ->
  exists cr1, krm_nsn cr1 = krm_nsn cr /\ spec cr1 = spec cr /\ status cr1 = status cr /\
  forall svc' d res, p_Claim proxy (svc, (KIPClaim cr1, ArgNone)) = ((svc', (KIPClaim cr1, d)), res) ->
    res <> Ok None -> res <> Panic ->
    exists w' cr' r, Reconcile (krm_nsn cr) (svc, w) = ((svc', w'), Ok r) /\
      view w' !! krm_nsn cr = Some cr' /\ delete (krm_nsn cr) (view w') = delete (krm_nsn cr) (view w) /\
      spec cr' = spec cr /\
      match res with
      | Ok (Some resp) => r = no_requeue /\ outcome cr' (ict_Prefix (status resp)) (ict_Gateway (status resp)) (Ready now)
      | Err e => r = requeue_5s /\ outcome cr' None None (Failed now e)
      | _ => True
      end.
Proof.
  intros Hst Hdel Hidx Hidel Hnone. destruct (Reconcile_served cr svc w idx Hst Hdel Hidx Hidel Hnone) as (w1&cr1&[_ P2 P3 P4 _ _ _ _]&H).
  exists cr1. by split_and!.
Qed.

(** A claim that has its prefix is released and claimed again at every reconciliation:
    the prefixes of the spec and of the status are compared as pointers, so that a claim
    whose status already has the prefix of its spec is treated as changed. *)
Theorem ipclaim_static_rereleases cr svc w idx p :
  view w !! krm_nsn cr = Some cr -> WasDeleted (krm_om cr) = false ->
  crc_Get ni_api (ref_nsn (IPClaim_GetCacheID cr)) w = Ok idx -> WasDeleted (krm_om idx) = false ->
  ics_Prefix (spec cr) = Some p -> ict_Prefix (status cr) = Some p ->
  exists cr1, krm_nsn cr1 = krm_nsn cr /\ spec cr1 = spec cr /\ status cr1 = status cr /\
  forall svc1 d1 svc2 d2 resp,
    let bare := set_spec_Prefix None cr1 in
    p_DeleteClaim proxy (svc, (KIPClaim bare, ArgNone)) = ((svc1, (KIPClaim bare, d1)), Ok tt) ->
    p_Claim proxy (svc1, (KIPClaim cr1, ArgNone)) = ((svc2, (KIPClaim cr1, d2)), Ok (Some resp)) ->
    ict_Prefix (status resp) = Some p ->
    exists w' cr', Reconcile (krm_nsn cr) (svc, w) = ((svc2, w'), Ok no_requeue) /\
      view w' !! krm_nsn cr = Some cr' /\ outcome cr' (Some p) (ict_Gateway (status resp)) (Ready now).
Proof.
  intros Hst Hdel Hidx Hidel Hsome Hstat. destruct (Reconcile_claim cr svc w idx Hst Hdel Hidx Hidel) as (w1&cr1&Hp&Hrun).
  exists cr1. destruct Hp as [P1 P2 P3 P4 P5 P6 P7 P8] eqn:EP. clear EP. split_and!; [done..|].
  intros svc1 d1 svc2 d2 resp bare Hrel Hclaim Hresp.
  assert (Hst1 : view w1 !! krm_nsn cr1 = Some cr1) by (by rewrite P2).
  destruct (claim_IPClaim_spec cr1 cr1 svc1 w1 svc2 d2 (Ok (Some resp)) Hst1 eq_refl eq_refl eq_refl eq_refl Hclaim)
    as (s&cr'&r&Hrun2&Hsvc&Hv&Hsp&Hres); [done..|].
  rewrite P3, Hsome, Hresp in Hres. rewrite bool_decide_eq_false_2 in Hres by (intros [_ []]; done).
  destruct Hres as [-> Ho]. exists (r_api s), cr'. destruct (prepared_status w cr w1 cr1 (r_api s) cr' Hp Hv) as [Hv1 _].
  rewrite Hrun. unfold release_changed, mbind at 1, M_bind at 1, get_state at 1. cbn [r_cr].
  rewrite P3, P4, Hsome, Hstat. rewrite bool_decide_eq_true_2 by (split; by eexists).
  unfold mbind at 1, M_bind at 1, update_cr at 1, modify at 1, set_cr. cbn [r_cr r_svc r_api].
  unfold mbind at 1, M_bind at 1, proxy_call at 1. cbn [r_cr r_svc r_api]. fold bare. rewrite Hrel. cbn [as_IPClaim].
  unfold mbind at 1, M_bind at 1, update_cr at 1, modify at 1, set_cr. cbn [r_cr r_svc r_api].
  unfold bare. rewrite set_spec_Prefix_restore by by rewrite P3. rewrite Hrun2, Hsvc. by split_and!.
Qed.

End IPClaims.

(** ** VLAN claims *)

Section VLANClaims.
Context {S W : Type} `{E : ErrorsAPI} `{!ErrorsLaws E} (now : Z) (proxy : Proxy S args VLANIndex VLANClaim).
Context (index_api : CRClient W VLANIndex) (claim_api : CRClient W VLANClaim).
Context (view : W -> gmap NamespacedName VLANClaim) `{!CRLaws claim_api view} `{!Independent claim_api index_api}.
Abbreviation Reconcile := (vlanclaim_Reconcile now proxy index_api claim_api).

(** A deleted claim that is ready and whose release succeeds. *)
Lemma Reconcile_vlan_released cr svc svc' d w : view w !! krm_nsn cr = Some cr -> WasDeleted (krm_om cr) = true ->
  om_Finalizers (krm_om cr) = [vlan_finalizer] -> ready cr = true ->
  p_DeleteClaim proxy (svc, (KVLANClaim cr, ArgNone)) = ((svc', (KVLANClaim cr, d)), Ok tt) ->
  exists w', Reconcile (krm_nsn cr) (svc, w) = ((svc', w'), Ok no_requeue) /\ view w' = delete (krm_nsn cr) (view w).
Proof.
  intros Hst Hdel Hfin Hr Hrel. destruct (delete_released now claim_api view vlan_finalizer KVLANClaim as_VLANClaim
    (p_DeleteClaim proxy) cr svc w Hst Hdel Hfin svc' d Hr eq_refl Hrel) as (w'&cr'&Hrun&Hv).
  exists w'. unfold vlanclaim_Reconcile, reconcile. rewrite (crc_Get_found w _ _ Hst).
  unfold mbind at 1, M_bind at 1, get_state at 1. cbn [r_cr]. rewrite Hdel, Hrun. by split.
Qed.

(** The reconciliation of a claim that is not deleted, whose VLAN is not released
    first, up to the claim. *)
Lemma Reconcile_vlanclaim cr svc w idx : view w !! krm_nsn cr = Some cr -> WasDeleted (krm_om cr) = false ->
  crc_Get index_api (ref_nsn (VLANClaim_GetCacheID cr)) w = Ok idx -> WasDeleted (krm_om idx) = false ->
  vcs_VLANID (spec cr) = None \/ vct_VLANID (status cr) = None ->
  exists w1 cr1, prepared view vlan_finalizer w cr w1 cr1 /\
    Reconcile (krm_nsn cr) (svc, w) = leave (claim_VLANClaim now proxy claim_api (MkRState svc w1 cr1)).
Proof.
  intros Hst Hdel Hidx Hidel Hnone.
  destruct (claim_prelude (S := S) now claim_api view vlan_finalizer index_api krm_om
    (fun s => ref_nsn (GetCacheID (vcs_VLANIndex s))) "index not ready"
    (fun cr => release_changed now claim_api KVLANClaim as_VLANClaim
        (fun cr => match vct_VLANID (status cr), vcs_VLANID (spec cr) with
                   | Some a, Some b => bool_decide (a <> b) | _, _ => false end)
        (set_spec_VLANID None) ignored no_requeue (p_DeleteClaim proxy)
        (_ ← update_cr (set_spec_VLANID (vcs_VLANID (spec cr))); claim_VLANClaim now proxy claim_api))
    svc w cr idx Hst Hdel Hidx Hidel) as (w1&cr1&Hp&Hrun).
  exists w1, cr1. split; [done|]. unfold vlanclaim_Reconcile, reconcile. rewrite (crc_Get_found w _ _ Hst).
  unfold mbind at 1, M_bind at 1, get_state at 1. cbn [r_cr]. rewrite Hdel.
  refine (f_equal leave (eq_trans Hrun _)). clear Hrun. destruct Hp as [P1 P2 P3 P4 P5 P6 P7 P8].
  unfold release_changed, mbind at 1, M_bind at 1, get_state at 1. cbn [r_cr]. rewrite P3, P4.
  assert (Hno : (match vct_VLANID (status cr), vcs_VLANID (spec cr) with
    | Some a, Some b => bool_decide (a <> b) | _, _ => false end) = false).
  { destruct Hnone as [-> | ->]; [by destruct (vct_VLANID _)|done]. }
  rewrite Hno. unfold mbind at 1, M_bind at 1, update_cr at 1, modify at 1, set_cr. cbn [r_cr r_svc r_api].
  assert (set_spec_VLANID (vcs_VLANID (spec cr)) cr1 = cr1) as ->; [|done].
  rewrite <-P3. destruct cr1 as [o sp st]. unfold set_spec_VLANID, with_spec. cbn. by destruct sp.
Qed.

(** A report on the object that was prepared. *)
Lemma report_prepared w cr w1 cr1 svc' a b r (f : VLANClaim -> VLANClaim) :
  prepared view vlan_finalizer w cr w1 cr1 -> krm_Object (f cr1) = krm_Object cr1 -> c_Type b = ConditionTypeReady ->
  exists w' cr', leave (report (S := S) claim_api [a; b] r (MkRState svc' w1 (f cr1))) = ((svc', w'), Ok r) /\
    view w' !! krm_nsn cr = Some cr' /\ delete (krm_nsn cr) (view w') = delete (krm_nsn cr) (view w) /\
    spec cr' = spec cr /\ vct_VLANID (status cr') = vct_VLANID (status (f cr1)) /\
    essence (krm_GetCondition cr' ConditionTypeReady) = essence b.
Proof.
  intros [P1 P2 P3 P4 P5 P6 P7 P8] Hf Hb.
  assert (Hkey : krm_nsn (f cr1) = krm_nsn cr) by (rewrite <-P2; unfold krm_nsn, GetName, GetNamespace; by rewrite Hf).
  destruct (report_spec (S := S) claim_api view [a; b] r (MkRState svc' w1 (f cr1)) cr1) as (w'&v&Hrep&Hv).
  { split; cbn [r_cr r_api]; [by rewrite Hkey|..]; unfold version, krm_om; by rewrite Hf. }
  rewrite Hrep. exists w'. eexists. split; [reflexivity|]. cbn [r_cr r_api] in Hv. rewrite Hkey in Hv.
  rewrite Hv, lookup_insert_eq, delete_insert_eq. split_and!; [done|exact P5|exact P3|done|].
  rewrite <-Hb. apply (condition_last _ a b).
Qed.

(** The reconciliation of a claim without a VLAN in its spec calls the service once,
    with the claim as it is stored, and reports what it answered. *)
Lemma vlanclaim_reconciled cr svc w idx :
  view w !! krm_nsn cr = Some cr -> WasDeleted (krm_om cr) = false ->
  crc_Get index_api (ref_nsn (VLANClaim_GetCacheID cr)) w = Ok idx -> WasDeleted (krm_om idx) = false ->
  vcs_VLANID (spec cr) = None ->
  exists w1 cr1, prepared view vlan_finalizer w cr w1 cr1 /\
  forall svc' d res, p_Claim proxy (svc, (KVLANClaim cr1, ArgNone)) = ((svc', (KVLANClaim cr1, d)), res) ->
    res <> Ok None -> res <> Panic ->
    exists w' cr' r, Reconcile (krm_nsn cr) (svc, w) = ((svc', w'), Ok r) /\
      view w' !! krm_nsn cr = Some cr' /\ delete (krm_nsn cr) (view w') = delete (krm_nsn cr) (view w) /\
      spec cr' = spec cr /\
      match res with
      | Ok (Some resp) => r = no_requeue /\ vct_VLANID (status cr') = vct_VLANID (status resp) /\
          essence (krm_GetCondition cr' ConditionTypeReady) = essence (Ready now)
      | Err e => r = requeue_5s /\ vct_VLANID (status cr') = None /\
          essence (krm_GetCondition cr' ConditionTypeReady) = essence (Failed now e)
      | _ => True
      end.
Proof.
  intros Hst Hdel Hidx Hidel Hnone.
  destruct (Reconcile_vlanclaim cr svc w idx Hst Hdel Hidx Hidel (or_introl Hnone)) as (w1&cr1&Hp&Hrun).
  exists w1, cr1. split; [done|]. intros svc' d res Hclaim Hnn Hnp.
  rewrite Hrun. unfold claim_VLANClaim, mbind at 1, M_bind at 1, proxy_call at 1. cbn [r_cr r_svc r_api]. rewrite Hclaim.
  cbn [as_VLANClaim]. destruct res as [[resp|]|e|]; [|done| |done].
  - unfold mbind at 1, M_bind at 1, get_state at 1. cbn [r_cr]. rewrite (prep_spec _ _ _ _ _ _ Hp), Hnone.
    rewrite bool_decide_eq_false_2 by (intros [[? [=]] _]).
    destruct (report_prepared w cr w1 cr1 svc' (ReconcileSuccess now) (Ready now) no_requeue
      (set_status_VLANID (vct_VLANID (status resp))) Hp eq_refl eq_refl) as (w'&cr'&Hrep&H1&H2&H3&H4&H5).
    exists w', cr', no_requeue. by split_and!.
  - destruct (report_prepared w cr w1 cr1 svc' (ReconcileSuccess now) (Failed now e) requeue_5s
      (set_status_VLANID None) Hp eq_refl eq_refl) as (w'&cr'&Hrep&H1&H2&H3&H4&H5).
    exists w', cr', requeue_5s. by split_and!.
Qed.

(** A claim of a given VLAN never becomes ready: whatever VLAN the service answers
    with, also the one that was asked for, the reconciliation reports an unknown
    condition and tries again after five seconds, because the identifier of the answer
    and the one of the spec are compared as pointers. The VLAN stays claimed in the
    service. *)
Theorem vlanclaim_static_never_ready cr svc w idx id :
  view w !! krm_nsn cr = Some cr -> WasDeleted (krm_om cr) = false ->
  crc_Get index_api (ref_nsn (VLANClaim_GetCacheID cr)) w = Ok idx -> WasDeleted (krm_om idx) = false ->
  vcs_VLANID (spec cr) = Some id -> vct_VLANID (status cr) = None ->
  exists cr1, krm_nsn cr1 = krm_nsn cr /\ spec cr1 = spec cr /\ status cr1 = status cr /\
  forall svc' d resp n, p_Claim proxy (svc, (KVLANClaim cr1, ArgNone)) = ((svc', (KVLANClaim cr1, d)), Ok (Some resp)) ->
    vct_VLANID (status resp) = Some n ->
    exists w' cr', Reconcile (krm_nsn cr) (svc, w) = ((svc', w'), Ok requeue_5s) /\
      view w' !! krm_nsn cr = Some cr' /\ spec cr' = spec cr /\ vct_VLANID (status cr') = None /\
      essence (krm_GetCondition cr' ConditionTypeReady) = essence (Unknown now).
Proof.
  intros Hst Hdel Hidx Hidel Hid Hnone.
  destruct (Reconcile_vlanclaim cr svc w idx Hst Hdel Hidx Hidel (or_intror Hnone)) as (w1&cr1&Hp&Hrun).
  exists cr1. pose proof Hp as [P1 P2 P3 P4 P5 P6 P7 P8]. split_and!; [done..|]. intros svc' d resp n Hclaim Hn.
  destruct (report_prepared w cr w1 cr1 svc' (ReconcileSuccess now) (Unknown now) requeue_5s (fun cr => cr) Hp eq_refl eq_refl)
    as (w'&cr'&Hrep&H1&_&H3&H4&H5).
  exists w', cr'. rewrite Hrun. unfold claim_VLANClaim, mbind at 1, M_bind at 1, proxy_call at 1. cbn [r_cr r_svc r_api].
  rewrite Hclaim. cbn [as_VLANClaim]. unfold mbind at 1, M_bind at 1, get_state at 1. cbn [r_cr].
  rewrite P3, Hid, Hn. rewrite bool_decide_eq_true_2 by (split; by eexists). split_and!; [exact Hrep|exact H1|exact H3| |exact H5].
  by rewrite H4, P4.
Qed.

End VLANClaims.
