(* ===== verification/EndToEnd.v ===== *)
(** * A claim from the API server to the backend and back

    The reconciler of the claims, the client proxy, the gRPC server, the server proxy
    and the backend put together, for VLAN claims and for IP claims: what one
    reconciliation of a claim does to the claim in the API server, to the database of
    its index or the table of its network instance, and to the config map this is
    saved in, from the claim to its release. The claims and the config maps are kept by two clients of the API
    server, whose states are separate here. *)

From S2P Require Import Prelude Strconv Meta Labels Conditions KRM Backend DB NetIP NetIPText IPUtil Rib IpamApi IpamValidate IpamWatcher IpamApply IpamClaims IpamBackend IpamRestore IpamServe VlanApi VlanBackend VlanRestore ServerProxy Health GrpcServer ClientProxy ClientNormalize ProxyRefine System Reconciler Controllers ControllerProps.

Local Open Scope Z_scope.

(** ** VLAN claims *)

Section Vlan.
Context {W V : Type} `{L : LabelsAPI} `{!LabelsLaws L} `{R : !RIBAPI} `{N : NetipxAPI} `{E : ErrorsAPI} `{!ErrorsLaws E} `{T : TimeAPI}.

(** The server: the backends of main.go behind the server proxy and gRPC. *)
Context (ipam_api : option (IpamClient V)) (c : VlanClient V) (cms : V -> gmap NamespacedName ConfigMap).
Context `{!CMClientLaws (vc_ConfigMaps c) cms}.
Context (yaml_ipam : Codec (gmap string labels)) (yaml_vlan : Codec (gmap Z labels)) `{!CodecLaws yaml_vlan}.
Context (json_ipclaim : Codec IPClaim) (json_ni : Codec NetworkInstance).
Context (json_vlanclaim : Codec VLANClaim) `{!CodecLaws json_vlanclaim} (json_index : Codec VLANIndex).
Abbreviation backends := (main_backends ipam_api (Some c) yaml_ipam yaml_vlan json_ipclaim json_ni json_vlanclaim json_index).
Context (pb_String : PbGVK -> string) (cfg : Config) (rpc_error : string -> string) (ctx : callContext).
Context (Hctx : ctx_Err ctx = None).
Abbreviation linked_to := (linked pb_String backends cfg rpc_error ctx).

(** The controller: its client of the service and of the API server. *)
Context (index_api : CRClient W VLANIndex) (claim_api : CRClient W VLANClaim).
Context (view : W -> gmap NamespacedName VLANClaim) `{!CRLaws claim_api view} `{!Independent claim_api index_api}.
Abbreviation service now := (vlan_client (S := server V) now json_index json_vlanclaim).
Abbreviation Reconcile now := (vlanclaim_Reconcile now (service now) index_api claim_api).

Lemma vlan_registered : backends !! vlan_GroupVersion =
  Some (zoom_backend get_vlan put_vlan (vlan_backend (Some c) yaml_vlan json_vlanclaim json_index)).
Proof. unfold main_backends. by rewrite lookup_insert_ne, lookup_singleton_eq by done. Qed.

(** The claim as the backend gets it: an object of the same owner with the same spec
    gives the same claim. *)
Lemma vlan_sent_spec (cr cr1 : VLANClaim) : spec cr1 = spec cr ->
  GetHierOwnerLabelsFromCR (krm_Object cr1) = GetHierOwnerLabelsFromCR (krm_Object cr) ->
  spec (VLANClaim_AddOwnerLabelsToCR cr1) = spec (VLANClaim_AddOwnerLabelsToCR cr).
Proof.
  intros Hs Ho. unfold VLANClaim_AddOwnerLabelsToCR, with_spec, add_owner_labels. cbn [spec]. by rewrite Hs, Ho.
Qed.

(** The request of the client. *)
Lemma vlan_request now cr t b : o_GVK (krm_Object cr) = WithKind vlan_GroupVersion VLANClaimKind ->
  MarshalText (now + Minute * 60) = Ok t -> Marshal json_vlanclaim (VLANClaim_AddOwnerLabelsToCR cr) = Ok b ->
  exists rq, vlan_NormalizeKRMToResourcePb now json_vlanclaim (KVLANClaim cr, ArgNone) = ((KVLANClaim cr, ArgNone), Ok rq) /\
    rq_Spec rq = b.
Proof.
  intros Hk Ht Hb. assert (Hkind : k_Kind (KVLANClaim cr) = VLANClaimKind) by (unfold k_Kind, k_Object; by rewrite Hk).
  unfold vlan_NormalizeKRMToResourcePb. rewrite Hkind, bool_decide_eq_false_2, bool_decide_eq_true_2 by done.
  rewrite Ht. cbn [mbind result_bind]. rewrite Hb. by eexists.
Qed.

(** The calls of the client, when the backend accepts the claim or the release. *)
Lemma vlan_service_Claim now r sv cr t b sv' b' resp : linked_to r sv ->
  o_GVK (krm_Object cr) = WithKind vlan_GroupVersion VLANClaimKind -> MarshalText (now + Minute * 60) = Ok t ->
  Marshal json_vlanclaim (VLANClaim_AddOwnerLabelsToCR cr) = Ok b ->
  vlan_Claim (Some c) yaml_vlan json_vlanclaim b (get_vlan sv) = (sv', Ok b') -> Unmarshal json_vlanclaim b' = Ok resp ->
  exists r', p_Claim (service now) (r, (KVLANClaim cr, ArgNone)) = ((r', (KVLANClaim cr, ArgNone)), Ok (Some resp)) /\
    linked_to r' (put_vlan sv' sv).
Proof.
  intros Hl Hk Ht Hb Hclaim Hresp. destruct (vlan_request now cr t b Hk Ht Hb) as (rq&Hn&Hrq).
  refine (remote_Claim pb_String backends cfg rpc_error ctx Hctx krm_Object json_index json_vlanclaim _ vlan_GroupVersion _
    vlan_registered (vlan_requests now json_vlanclaim) r sv _ _ rq _ b' resp Hl Hn _ Hresp).
  rewrite Hrq. cbn [be_Claim zoom_backend vlan_backend]. unfold zoom. by rewrite Hclaim.
Qed.

Lemma vlan_service_DeleteClaim now r sv cr t b sv' : linked_to r sv ->
  o_GVK (krm_Object cr) = WithKind vlan_GroupVersion VLANClaimKind -> MarshalText (now + Minute * 60) = Ok t ->
  Marshal json_vlanclaim (VLANClaim_AddOwnerLabelsToCR cr) = Ok b ->
  vlan_DeleteClaim (Some c) yaml_vlan json_vlanclaim b (get_vlan sv) = (sv', Ok tt) ->
  exists r', p_DeleteClaim (service now) (r, (KVLANClaim cr, ArgNone)) = ((r', (KVLANClaim cr, ArgNone)), Ok tt) /\
    linked_to r' (put_vlan sv' sv).
Proof.
  intros Hl Hk Ht Hb Hdel. destruct (vlan_request now cr t b Hk Ht Hb) as (rq&Hn&Hrq).
  refine (remote_DeleteClaim pb_String backends cfg rpc_error ctx Hctx krm_Object json_index json_vlanclaim _ vlan_GroupVersion _
    vlan_registered (vlan_requests now json_vlanclaim) r sv _ _ rq _ Hl Hn _).
  rewrite Hrq. cbn [be_DeleteClaim zoom_backend vlan_backend]. unfold zoom. by rewrite Hdel.
Qed.

(** The database [d] is saved in the config map of the index. *)
Definition vlan_saved (w : V) (ref : ObjectReference) (d : db) : Prop :=
  exists cm data, cms w !! vlan_key ref = Some cm /\ cm_Data cm !! ConfigMapKey = Some data /\
    Unmarshal yaml_vlan data = Ok (Labels <$> store d).

(** A VLAN claim that asks for any VLAN is served in one reconciliation. *)
Lemma vlan_claim_served now cr r sv w idx t d cm :
  let ref := VLANClaim_GetCacheID cr in
  let sent := VLANClaim_AddOwnerLabelsToCR cr in
  view w !! krm_nsn cr = Some cr -> WasDeleted (krm_om cr) = false ->
  o_GVK (krm_Object cr) = WithKind vlan_GroupVersion VLANClaimKind ->
  vcs_VLANID (spec cr) = None -> vcs_VLANRange (spec cr) = None ->
  crc_Get index_api (ref_nsn ref) w = Ok idx -> WasDeleted (krm_om idx) = false ->
  linked_to r sv -> MarshalText (now + Minute * 60) = Ok t ->
  sv_vlan sv !! ref = Some (MkCacheContext true d) -> reachable d -> cms (sv_world sv) !! vlan_key ref = Some cm ->
  claim_valid sent -> (forall e, store d !! ID e = Some e -> ~ owns sent e) ->
  (exists id, 2 <= id <= 4094 /\ store d !! id = None) ->
  exists id r' sv' w' cr', let d' := db_add (MkEntry id (VLANClaim_GetUserDefinedLabels sent)) d in
    Reconcile now (krm_nsn cr) (r, w) = ((r', w'), Ok no_requeue) /\
    (2 <= id <= 4094 /\ store d !! id = None /\ forall id', 2 <= id' < id -> is_Some (store d !! id')) /\
    (view w' !! krm_nsn cr = Some cr' /\ delete (krm_nsn cr) (view w') = delete (krm_nsn cr) (view w) /\
     spec cr' = spec cr /\ vct_VLANID (status cr') = Some id /\
     essence (krm_GetCondition cr' ConditionTypeReady) = essence (Ready now)) /\
    linked_to r' sv' /\ sv_vlan sv' = <[ref := MkCacheContext true d']> (sv_vlan sv) /\ sv_ipam sv' = sv_ipam sv /\ vlan_saved (sv_world sv') ref d'.
Proof.
  intros ref sent Hst Hdel Hgvk Hid Hrange Hidx Hidel Hl Ht Hd Hreach Hcm Hvalid Hno Hfree.
  destruct (vlanclaim_reconciled now (service now) index_api claim_api view cr r w idx Hst Hdel Hidx Hidel Hid) as (w1&cr1&Hp&Hrec).
  set (sent1 := VLANClaim_AddOwnerLabelsToCR cr1). pose proof (vlan_sent_spec cr cr1 (prep_spec _ _ _ _ _ _ Hp) (prep_owner _ _ _ _ _ _ Hp)) as Hsent. fold sent1 sent in Hsent.
  assert (Href : VLANClaim_GetCacheID sent1 = ref) by (unfold VLANClaim_GetCacheID; by rewrite Hsent).
  assert (Hlab : VLANClaim_GetUserDefinedLabels sent1 = VLANClaim_GetUserDefinedLabels sent)
    by (unfold VLANClaim_GetUserDefinedLabels; by rewrite Hsent).
  destruct (Unmarshal_Marshal sent1) as (b&Hm&Hu).
  destruct (vlan_Claim_dynamic c cms yaml_vlan json_vlanclaim b sent1 (get_vlan sv) d cm) as (id&v&b'&Hclaim&Hresp&Hr&Hn&Hleast&Hsaved).
  - exact Hu.
  - rewrite Hsent. exact Hid.
  - rewrite Hsent. exact Hrange.
  - rewrite Href. exact Hd.
  - exact Hreach.
  - unfold claim_valid, VLANClaim_GetOwnerSelector. rewrite Hsent. exact Hvalid.
  - unfold owns. rewrite Hlab. exact Hno.
  - exact Hfree.
  - rewrite Href. exact Hcm.
  - rewrite Href in Hclaim, Hsaved. rewrite Hlab in Hclaim, Hsaved.
    assert (Hgvk1 : o_GVK (krm_Object cr1) = WithKind vlan_GroupVersion VLANClaimKind) by (rewrite (prep_gvk _ _ _ _ _ _ Hp); exact Hgvk).
    destruct (vlan_service_Claim now r sv cr1 t b _ b' _ Hl Hgvk1 Ht Hm Hclaim Hresp) as (r'&Hcall&Hl').
    destruct (Hrec r' ArgNone _ Hcall) as (w'&cr'&res&Hrun&Hv&Hothers&Hspec&->&Hvid&Hready); [discriminate..|].
    eexists id, r', _, w', cr'. cbv zeta. split; [exact Hrun|]. split; [exact (conj Hr (conj Hn Hleast))|].
    split; [exact (conj Hv (conj Hothers (conj Hspec (conj Hvid Hready))))|]. split; [exact Hl'|].
    split; [reflexivity|]. split; [reflexivity|]. exact Hsaved.
Qed.

(** The deletion of a VLAN claim that is ready, in one reconciliation: the claim is gone
    from the API server, and the entries of its owner from the database and from the
    config map. *)
Lemma vlan_claim_released now cr r sv w t vctx d cm :
  let ref := VLANClaim_GetCacheID cr in
  let sent := VLANClaim_AddOwnerLabelsToCR cr in
  view w !! krm_nsn cr = Some cr -> WasDeleted (krm_om cr) = true -> om_Finalizers (krm_om cr) = [vlan_finalizer] ->
  ready cr = true -> o_GVK (krm_Object cr) = WithKind vlan_GroupVersion VLANClaimKind -> GetVLANClaimCtx cr = Ok vctx ->
  linked_to r sv -> MarshalText (now + Minute * 60) = Ok t ->
  sv_vlan sv !! ref = Some (MkCacheContext true d) -> reachable d -> cms (sv_world sv) !! vlan_key ref = Some cm ->
  claim_valid sent ->
  exists r' sv' w' d',
    Reconcile now (krm_nsn cr) (r, w) = ((r', w'), Ok no_requeue) /\ view w' = delete (krm_nsn cr) (view w) /\
    linked_to r' sv' /\ sv_vlan sv' = <[ref := MkCacheContext true d']> (sv_vlan sv) /\ sv_ipam sv' = sv_ipam sv /\
    vlan_released sent d d' /\ vlan_saved (sv_world sv') ref d'.
Proof.
  intros ref sent Hst Hdel Hfin Hready Hgvk Hvctx Hl Ht Hd Hreach Hcm Hvalid. destruct (Unmarshal_Marshal sent) as (b&Hm&Hu).
  destruct (vlan_DeleteClaim_spec c cms yaml_vlan json_vlanclaim b sent vctx (get_vlan sv) d cm Hu Hvctx Hd Hreach Hvalid Hcm)
    as (d'&v&Hrun&Hrel&Hsaved).
  destruct (vlan_service_DeleteClaim now r sv cr t b _ Hl Hgvk Ht Hm Hrun) as (r'&Hcall&Hl').
  destruct (Reconcile_vlan_released now (service now) index_api claim_api view cr r r' ArgNone w Hst Hdel Hfin Hready Hcall) as (w'&Hrec&Hv).
  exists r', (put_vlan (MkVState (<[ref := MkCacheContext true d']> (sv_vlan sv)) v) sv), w', d'.
  split; [exact Hrec|]. split; [exact Hv|]. split; [exact Hl'|]. split; [reflexivity|]. split; [reflexivity|].
  split; [exact Hrel|exact Hsaved].
Qed.

(** C2. The life of a VLAN claim that asks for any VLAN, in an index that exists and is
    restored and in which a VLAN is free. One reconciliation serves it: the least free
    VLAN from 2 to 4094 is what the status of the claim shows, with the condition Ready; it
    is stored in the database of the index under the labels of the claim, and in the config
    map from which the database is restored; the other claims, the other VLANs and the IPAM
    tables are as before. When the claim is marked for deletion afterwards, one more
    reconciliation removes it from the API server and leaves every database, and the config
    map, as they were before the claim. *)
Theorem vlan_claim_lifecycle now now' cr r sv w idx t t' d cm :
  let ref := VLANClaim_GetCacheID cr in
  let sent := VLANClaim_AddOwnerLabelsToCR cr in
  view w !! krm_nsn cr = Some cr -> WasDeleted (krm_om cr) = false ->
  o_GVK (krm_Object cr) = WithKind vlan_GroupVersion VLANClaimKind ->
  vcs_VLANID (spec cr) = None -> vcs_VLANRange (spec cr) = None ->
  crc_Get index_api (ref_nsn ref) w = Ok idx -> WasDeleted (krm_om idx) = false ->
  linked_to r sv -> MarshalText (now + Minute * 60) = Ok t -> MarshalText (now' + Minute * 60) = Ok t' ->
  sv_vlan sv !! ref = Some (MkCacheContext true d) -> reachable d -> cms (sv_world sv) !! vlan_key ref = Some cm ->
  claim_valid sent -> (forall e, store d !! ID e = Some e -> ~ owns sent e) ->
  (exists id, 2 <= id <= 4094 /\ store d !! id = None) ->
  exists id r1 sv1 w1 cr1, let d1 := db_add (MkEntry id (VLANClaim_GetUserDefinedLabels sent)) d in
    Reconcile now (krm_nsn cr) (r, w) = ((r1, w1), Ok no_requeue) /\
    (2 <= id <= 4094 /\ store d !! id = None /\ forall id', 2 <= id' < id -> is_Some (store d !! id')) /\
    (view w1 !! krm_nsn cr = Some cr1 /\ delete (krm_nsn cr) (view w1) = delete (krm_nsn cr) (view w) /\
     spec cr1 = spec cr /\ vct_VLANID (status cr1) = Some id /\
     essence (krm_GetCondition cr1 ConditionTypeReady) = essence (Ready now)) /\
    sv_vlan sv1 = <[ref := MkCacheContext true d1]> (sv_vlan sv) /\ sv_ipam sv1 = sv_ipam sv /\
    vlan_saved (sv_world sv1) ref d1 /\
    forall w2 cr2, view w2 !! krm_nsn cr = Some cr2 -> marked_deleted vlan_finalizer cr cr2 (status cr1) ->
      exists r3 sv3 w3, Reconcile now' (krm_nsn cr) (r1, w2) = ((r3, w3), Ok no_requeue) /\
        view w3 = delete (krm_nsn cr) (view w2) /\ linked_to r3 sv3 /\
        sv_vlan sv3 = sv_vlan sv /\ sv_ipam sv3 = sv_ipam sv /\ vlan_saved (sv_world sv3) ref d.
Proof.
  intros ref sent Hst Hdel Hgvk Hid Hrange Hidx Hidel Hl Ht Ht' Hd Hreach Hcm Hvalid Hno Hfree.
  destruct (vlan_claim_served now cr r sv w idx t d cm Hst Hdel Hgvk Hid Hrange Hidx Hidel Hl Ht Hd Hreach Hcm Hvalid Hno Hfree)
    as (id&r1&sv1&w1&cr1&Hrun&Hr&Hcr&Hl1&Hv1&Hi1&Hsaved). set (d1 := db_add _ d) in *.
  exists id, r1, sv1, w1, cr1. cbv zeta. fold d1. split; [exact Hrun|]. split; [exact Hr|]. split; [exact Hcr|].
  split; [exact Hv1|]. split; [exact Hi1|]. split; [exact Hsaved|].
  intros w2 cr2 Hst2 [M1 M2 M3 M4 M5 M6 M7]. rewrite <-M1 in Hst2 |- *. destruct Hsaved as (cm1&_&Hcm1&_).
  destruct Hr as (Hr&Hn&_), Hcr as (_&_&_&_&Hready).
  pose proof (vlan_sent_spec cr cr2 M6 M5) as Hsent. fold sent in Hsent.
  assert (Href : VLANClaim_GetCacheID cr2 = ref) by (unfold VLANClaim_GetCacheID; by rewrite M6).
  destruct (vlan_claim_released now' cr2 r1 sv1 w2 t' (MkVLANClaimCtx VLANClaimTypeDynamic 0 0) d1 cm1)
    as (r3&sv3&w3&d3&Hrec&Hv3&Hl3&Hc3&Hi3&Hrel&Hsaved3).
  - exact Hst2.
  - exact M2.
  - exact M3.
  - apply (ready_essence now). unfold krm_GetCondition in *. by rewrite M7.
  - by rewrite M4.
  - unfold GetVLANClaimCtx. by rewrite M6, Hid, Hrange.
  - exact Hl1.
  - exact Ht'.
  - rewrite Href, Hv1. apply lookup_insert_eq.
  - apply db_add_reachable; [exact Hreach|exact Hr].
  - by rewrite Href.
  - unfold claim_valid, VLANClaim_GetOwnerSelector. rewrite Hsent. exact Hvalid.
  - assert (Hlab : VLANClaim_GetUserDefinedLabels (VLANClaim_AddOwnerLabelsToCR cr2) = VLANClaim_GetUserDefinedLabels sent)
      by (unfold VLANClaim_GetUserDefinedLabels; by rewrite Hsent).
    assert (d3 = d) as ->.
    { apply (vlan_released_added _ _ _ _ _ Hrel Hn); [by apply vlandb_wf|..]; unfold owns; rewrite Hlab; [exact Hno|].
      apply owner_labels_subseteq, add_owner_labels_owned. }
    rewrite Href, Hv1, insert_insert_eq in Hc3. rewrite (insert_id _ _ _ Hd) in Hc3. rewrite Href in Hsaved3.
    exists r3, sv3, w3. split; [exact Hrec|]. split; [exact Hv3|]. split; [exact Hl3|]. split; [exact Hc3|].
    split; [by rewrite Hi3|exact Hsaved3].
Qed.

End Vlan.

(** ** IP claims *)

Section Ipam.
Context {W V : Type} `{L : LabelsAPI} `{!LabelsLaws L} `{R : !RIBAPI} `{RS : !RIBSpec R} `{N : NetipxAPI} `{!NetipxLaws N} `{E : ErrorsAPI} `{!ErrorsLaws E} `{T : TimeAPI}.

Context (c : IpamClient V) (vlan_api : option (VlanClient V)) (cms : V -> gmap NamespacedName ConfigMap).
Context `{!CMClientLaws (ic_ConfigMaps c) cms}.
Context (yaml_ipam : Codec (gmap string labels)) `{!CodecLaws yaml_ipam} (yaml_vlan : Codec (gmap Z labels)).
Context (json_ipclaim : Codec IPClaim) `{!CodecLaws json_ipclaim} (json_ni : Codec NetworkInstance).
Context (json_vlanclaim : Codec VLANClaim) (json_index : Codec VLANIndex).
Abbreviation backends := (main_backends (Some c) vlan_api yaml_ipam yaml_vlan json_ipclaim json_ni json_vlanclaim json_index).
Context (pb_String : PbGVK -> string) (cfg : Config) (rpc_error : string -> string) (ctx : callContext).
Context (Hctx : ctx_Err ctx = None).
Abbreviation linked_to := (linked pb_String backends cfg rpc_error ctx).

Context (ni_api : CRClient W NetworkInstance) (claim_api : CRClient W IPClaim).
Context (crs : W -> gmap NamespacedName IPClaim) `{!CRLaws claim_api crs} `{!Independent claim_api ni_api}.
Abbreviation service now := (ipam_client (S := server V) now json_ni json_ipclaim).
Abbreviation Reconcile now := (ipclaim_Reconcile now (service now) ni_api claim_api).

Lemma ipam_registered : backends !! ipam_GroupVersion =
  Some (zoom_backend get_ipam put_ipam (ipam_backend (Some c) yaml_ipam json_ipclaim json_ni)).
Proof. apply lookup_insert_eq. Qed.

Lemma ip_sent_spec (cr cr1 : IPClaim) : spec cr1 = spec cr ->
  GetHierOwnerLabelsFromCR (krm_Object cr1) = GetHierOwnerLabelsFromCR (krm_Object cr) ->
  spec (IPClaim_AddOwnerLabelsToCR cr1) = spec (IPClaim_AddOwnerLabelsToCR cr).
Proof.
  intros Hs Ho. unfold IPClaim_AddOwnerLabelsToCR, with_spec, add_owner_labels. cbn [spec]. by rewrite Hs, Ho.
Qed.

Lemma ip_request now cr t b : o_GVK (krm_Object cr) = WithKind ipam_GroupVersion IPClaimKind ->
  MarshalText (now + Minute * 60) = Ok t -> Marshal json_ipclaim (IPClaim_AddOwnerLabelsToCR cr) = Ok b ->
  exists rq, ipam_NormalizeKRMToResourcePb now json_ipclaim (KIPClaim cr, ArgNone) = ((KIPClaim cr, ArgNone), Ok rq) /\
    rq_Spec rq = b.
Proof.
  intros Hk Ht Hb. assert (Hkind : k_Kind (KIPClaim cr) = IPClaimKind) by (unfold k_Kind, k_Object; by rewrite Hk).
  unfold ipam_NormalizeKRMToResourcePb, NormalizeKRM, mbind at 1, M_bind at 1.
  rewrite Hkind, bool_decide_eq_false_2, bool_decide_eq_true_2 by done.
  rewrite Ht. cbn [mbind result_bind]. rewrite Hb. by eexists.
Qed.

Lemma ipam_service_Claim now r sv cr t b sv' b' resp : linked_to r sv ->
  o_GVK (krm_Object cr) = WithKind ipam_GroupVersion IPClaimKind -> MarshalText (now + Minute * 60) = Ok t ->
  Marshal json_ipclaim (IPClaim_AddOwnerLabelsToCR cr) = Ok b ->
  ipam_Claim (Some c) yaml_ipam json_ipclaim b (get_ipam sv) = (sv', Ok b') -> Unmarshal json_ipclaim b' = Ok resp ->
  exists r', p_Claim (service now) (r, (KIPClaim cr, ArgNone)) = ((r', (KIPClaim cr, ArgNone)), Ok (Some resp)) /\
    linked_to r' (put_ipam sv' sv).
Proof.
  intros Hl Hk Ht Hb Hclaim Hresp. destruct (ip_request now cr t b Hk Ht Hb) as (rq&Hn&Hrq).
  refine (remote_Claim pb_String backends cfg rpc_error ctx Hctx krm_Object json_ni json_ipclaim _ ipam_GroupVersion _
    ipam_registered (ipam_requests now json_ipclaim) r sv _ _ rq _ b' resp Hl Hn _ Hresp).
  rewrite Hrq. cbn [be_Claim zoom_backend ipam_backend]. unfold zoom. by rewrite Hclaim.
Qed.

Lemma ipam_service_DeleteClaim now r sv cr t b sv' : linked_to r sv ->
  o_GVK (krm_Object cr) = WithKind ipam_GroupVersion IPClaimKind -> MarshalText (now + Minute * 60) = Ok t ->
  Marshal json_ipclaim (IPClaim_AddOwnerLabelsToCR cr) = Ok b ->
  ipam_DeleteClaim (Some c) yaml_ipam json_ipclaim b (get_ipam sv) = (sv', Ok tt) ->
  exists r', p_DeleteClaim (service now) (r, (KIPClaim cr, ArgNone)) = ((r', (KIPClaim cr, ArgNone)), Ok tt) /\
    linked_to r' (put_ipam sv' sv).
Proof.
  intros Hl Hk Ht Hb Hdel. destruct (ip_request now cr t b Hk Ht Hb) as (rq&Hn&Hrq).
  refine (remote_DeleteClaim pb_String backends cfg rpc_error ctx Hctx krm_Object json_ni json_ipclaim _ ipam_GroupVersion _
    ipam_registered (ipam_requests now json_ipclaim) r sv _ _ rq _ Hl Hn _).
  rewrite Hrq. cbn [be_DeleteClaim zoom_backend ipam_backend]. unfold zoom. by rewrite Hdel.
Qed.

(** The routes [m] are saved in the config map of the network instance. *)
Definition ip_saved (w : V) (ref : ObjectReference) (m : gmap Prefix labels) : Prop :=
  exists cm text data, cms w !! ipam_key ref = Some cm /\ cm_Data cm !! ConfigMapKey = Some text /\
    Unmarshal yaml_ipam text = Ok data /\ data_of m data.

(** The backend looks at the spec and at the status of a claim. *)
Lemma free_place_sent claim claim' rib fam parent q : spec claim' = spec claim -> status claim' = status claim ->
  free_place (Callback := Stream) claim rib fam parent q -> free_place (Callback := Stream) claim' rib fam parent q.
Proof. destruct claim as [o sp st], claim' as [o' sp' st']. cbn [spec status]. intros -> -> [F1 F2 F3 F4 F5 F6 F7 F8 F9 F10]. by split. Qed.

(** An IP claim that asks for any prefix is served in one reconciliation. *)
Lemma ip_claim_served now cr r sv w ni t rib cm fam parent q :
  let ref := IPClaim_GetCacheID cr in
  let sent := IPClaim_AddOwnerLabelsToCR cr in
  let shown := shown_prefix sent parent q in
  crs w !! krm_nsn cr = Some cr -> WasDeleted (krm_om cr) = false ->
  o_GVK (krm_Object cr) = WithKind ipam_GroupVersion IPClaimKind ->
  ics_Prefix (spec cr) = None -> known_kind (ics_Kind (spec cr)) = true -> validateInput sent None = "" ->
  crc_Get ni_api (ref_nsn ref) w = Ok ni -> WasDeleted (krm_om ni) = false ->
  linked_to r sv -> MarshalText (now + Minute * 60) = Ok t ->
  sv_ipam sv !! ref = Some (MkCacheContext true rib) -> cms (sv_world sv) !! ipam_key ref = Some cm ->
  free_place (Callback := Stream) sent rib fam parent q ->
  exists r' sv' w' cr' rib',
    Reconcile now (krm_nsn cr) (r, w) = ((r', w'), Ok no_requeue) /\
    (p_bits q = claim_length sent fam /\ fresh_in (view rib) parent q) /\
    (crs w' !! krm_nsn cr = Some cr' /\ delete (krm_nsn cr) (crs w') = delete (krm_nsn cr) (crs w) /\
     spec cr' = spec cr /\ ict_Prefix (status cr') = Some (Prefix_String shown) /\
     essence (krm_GetCondition cr' ConditionTypeReady) = essence (Ready now)) /\
    linked_to r' sv' /\ sv_ipam sv' = <[ref := MkCacheContext true rib']> (sv_ipam sv) /\
    view rib' = <[q := claim_labels sent shown]> (view rib) /\
    sv_watcher sv' = sv_watcher sv /\ sv_events sv' = sv_events sv /\ sv_vlan sv' = sv_vlan sv /\
    ip_saved (sv_world sv') ref (view rib').
Proof.
  intros ref sent shown Hst Hdel Hgvk Hp Hk Hval Hni Hnidel Hl Ht Hrib Hcm Hfree.
  destruct (Reconcile_served now (service now) ni_api claim_api crs cr r w ni Hst Hdel Hni Hnidel Hp) as (w1&cr1&Hprep&Hrec).
  set (sent1 := IPClaim_AddOwnerLabelsToCR cr1).
  pose proof (ip_sent_spec cr cr1 (prep_spec _ _ _ _ _ _ Hprep) (prep_owner _ _ _ _ _ _ Hprep)) as Hspec. fold sent sent1 in Hspec.
  assert (Hstat : status sent1 = status sent) by exact (prep_status _ _ _ _ _ _ Hprep).
  assert (Href : IPClaim_GetCacheID sent1 = ref) by (unfold IPClaim_GetCacheID; by rewrite Hspec).
  assert (Hlab : claim_labels sent1 = claim_labels sent /\ shown_prefix sent1 parent q = shown /\ claim_length sent1 fam = claim_length sent fam)
    by (unfold shown, claim_labels, shown_prefix, claim_length, IPClaim_GetUserDefinedLabels; by rewrite Hspec).
  destruct Hlab as (Hlab&Hshown&Hlen).
  destruct (Unmarshal_Marshal sent1) as (b&Hm&Hu).
  destruct (ipam_Claim_dynamic (Callback := Stream) c cms yaml_ipam json_ipclaim b sent1 (get_ipam sv) rib cm fam parent q)
    as (v&rib'&b'&claim'&Hclaim&Hresp&Hpre&Hbits&Hfresh&Htab&Hsaved).
  - exact Hu.
  - rewrite Hspec. exact Hp.
  - rewrite Hspec. exact Hk.
  - unfold validateInput. rewrite Hspec. exact Hval.
  - rewrite Href. exact Hrib.
  - rewrite Href. exact Hcm.
  - exact (free_place_sent _ _ _ _ _ _ Hspec Hstat Hfree).
  - rewrite Href in Hclaim, Hsaved. rewrite Hshown in Hpre, Htab. rewrite Hlab in Htab. rewrite Hlen in Hbits.
    assert (Hgvk1 : o_GVK (krm_Object cr1) = WithKind ipam_GroupVersion IPClaimKind) by (rewrite (prep_gvk _ _ _ _ _ _ Hprep); exact Hgvk).
    destruct (ipam_service_Claim now r sv cr1 t b _ b' _ Hl Hgvk1 Ht Hm Hclaim Hresp) as (r'&Hcall&Hl').
    destruct (Hrec r' ArgNone _ Hcall) as (w'&cr'&res&Hrun&Hv&Hothers&Hsp&->&Ho); [discriminate..|].
    destruct Ho as (Hpr&_&Hready). rewrite Hpre in Hpr.
    eexists r', _, w', cr', rib'. split; [exact Hrun|]. split; [exact (conj Hbits Hfresh)|].
    split; [exact (conj Hv (conj Hothers (conj Hsp (conj Hpr Hready))))|]. split; [exact Hl'|].
    split; [reflexivity|]. split; [exact Htab|]. split; [reflexivity|]. split; [reflexivity|]. split; [reflexivity|]. exact Hsaved.
Qed.

(** The release of an IP claim, from a table in which its routes are apart. *)
Lemma ip_release now cr r sv w t rib cm sel :
  let ref := IPClaim_GetCacheID cr in
  let sent := IPClaim_AddOwnerLabelsToCR cr in
  crs w !! krm_nsn cr = Some cr -> WasDeleted (krm_om cr) = true -> om_Finalizers (krm_om cr) = [ipam_finalizer] ->
  ready cr = true -> o_GVK (krm_Object cr) = WithKind ipam_GroupVersion IPClaimKind ->
  (forall p, ics_Prefix (spec cr) = Some p -> exists pi, iputil_New p = Ok pi) ->
  linked_to r sv -> MarshalText (now + Minute * 60) = Ok t ->
  sv_ipam sv !! ref = Some (MkCacheContext true rib) -> cms (sv_world sv) !! ipam_key ref = Some cm -> table_wf (view rib) ->
  IPClaim_GetOwnerSelector sent = Ok sel -> apart false sent (rib_GetByLabel sel rib) ->
  exists r' sv' w' rib',
    Reconcile now (krm_nsn cr) (r, w) = ((r', w'), Ok no_requeue) /\ crs w' = delete (krm_nsn cr) (crs w) /\
    linked_to r' sv' /\ sv_ipam sv' = <[ref := MkCacheContext true rib']> (sv_ipam sv) /\
    sv_watcher sv' = sv_watcher sv /\ sv_vlan sv' = sv_vlan sv /\
    after_release false sent sel (view rib) (view rib') /\ ip_saved (sv_world sv') ref (view rib').
Proof.
  intros ref sent Hst Hdel Hfin Hready Hgvk Hpre Hl Ht Hrib Hcm Hwf Hsel Hap. destruct (Unmarshal_Marshal sent) as (b&Hm&Hu).
  destruct (ipam_DeleteClaim_spec (Callback := Stream) c cms yaml_ipam json_ipclaim b sent (get_ipam sv) rib cm sel
    Hu Hpre Hrib Hcm Hsel Hap Hwf) as (v&rib'&evs&Hrun&Hrel&Hsaved).
  destruct (ipam_service_DeleteClaim now r sv cr t b _ Hl Hgvk Ht Hm Hrun) as (r'&Hcall&Hl').
  destruct (Reconcile_released now (service now) ni_api claim_api crs cr r r' ArgNone w Hst Hdel Hfin Hready Hcall) as (w'&Hrec&Hv).
  eexists r', _, w', rib'. split; [exact Hrec|]. split; [exact Hv|]. split; [exact Hl'|]. split; [reflexivity|].
  split; [reflexivity|]. split; [reflexivity|]. split; [exact Hrel|exact Hsaved].
Qed.

(** C3. The deletion of an IP claim that is ready and none of whose routes is deleted with
    another one that the table lists before it. This holds for every claim that created no
    prefix, for every claim with one route, and for every claim whose selector does not name
    a claim (the keys of the name and the namespace of a claim); it can fail for a claim that
    created a network prefix through the selector of a link prefix, which names the claim of
    the aggregate, and then the release can fail ([IpamClaims.Delete_exact]). The table of its
    network instance is restored and has no host bits. One reconciliation removes the claim
    from the API server, and leaves the table of its network instance, and the config map
    from which it is restored, without the routes that carry the owner labels of the claim
    and, when the claim created a prefix, without the routes inside its prefixes that count
    as those of other claims. Every other route keeps its labels; the other network
    instances, the watchers and the VLANs are as before, and the service is ready for the
    next call. *)
Theorem ip_claim_released now cr r sv w t rib cm sel :
  let ref := IPClaim_GetCacheID cr in
  let sent := IPClaim_AddOwnerLabelsToCR cr in
  crs w !! krm_nsn cr = Some cr -> WasDeleted (krm_om cr) = true -> om_Finalizers (krm_om cr) = [ipam_finalizer] ->
  ready cr = true -> o_GVK (krm_Object cr) = WithKind ipam_GroupVersion IPClaimKind ->
  (forall p, ics_Prefix (spec cr) = Some p -> exists pi, iputil_New p = Ok pi) ->
  linked_to r sv -> MarshalText (now + Minute * 60) = Ok t ->
  sv_ipam sv !! ref = Some (MkCacheContext true rib) -> cms (sv_world sv) !! ipam_key ref = Some cm -> table_wf (view rib) ->
  IPClaim_GetOwnerSelector sent = Ok sel ->
  let own := rib_GetByLabel sel rib in
  has_create sent = false \/ length own = 1%nat \/ plain_selector sent \/ apart false sent own ->
  exists r' sv' w' rib',
    Reconcile now (krm_nsn cr) (r, w) = ((r', w'), Ok no_requeue) /\ crs w' = delete (krm_nsn cr) (crs w) /\
    linked_to r' sv' /\ sv_ipam sv' = <[ref := MkCacheContext true rib']> (sv_ipam sv) /\
    sv_watcher sv' = sv_watcher sv /\ sv_vlan sv' = sv_vlan sv /\
    (forall p l, view rib' !! p = Some l <->
      view rib !! p = Some l /\ Matches sel l = false /\
      ~ (exists p' l', view rib !! p' = Some l' /\ Matches sel l' = true /\ cut_by false sent (NewRoute p' l') (NewRoute p l))) /\
    ip_saved (sv_world sv') ref (view rib').
Proof.
  intros ref sent Hst Hdel Hfin Hready Hgvk Hpre Hl Ht Hrib Hcm Hwf Hsel own Hcases.
  assert (Hap : apart false sent own).
  { destruct Hcases as [Hc|[Hlen|[Hp|Hap]]]; [by apply apart_no_create| |by apply apart_plain|done].
    destruct own as [|x [|]]; [done| |done]. repeat constructor. }
  destruct (ip_release now cr r sv w t rib cm sel Hst Hdel Hfin Hready Hgvk Hpre Hl Ht Hrib Hcm Hwf Hsel Hap)
    as (r'&sv'&w'&rib'&H1&H2&H3&H4&H5&H6&Hrel&H8). exists r', sv', w', rib'. clear Hsel.
  split; [exact H1|]. split; [exact H2|]. split; [exact H3|]. split; [exact H4|]. split; [exact H5|]. split; [exact H6|].
  split; [exact Hrel|exact H8].
Qed.

(** A claim without routes, and a free place for it: what its release needs to know. *)
Lemma free_place_release claim rib fam parent q sel : free_place (Callback := Stream) claim rib fam parent q ->
  fresh_in (view rib) parent q -> IPClaim_GetOwnerSelector claim = Ok sel ->
  (forall p l, view rib !! p = Some l -> Matches sel l = false) /\
  (forall p, is_Some (view rib !! p) -> more_specific q p = false).
Proof.
  intros Hf (Hq&Hnet&Hms&_&Hover) Hsel. split.
  - intros p l Hl. pose proof (fp_new _ _ _ _ _ Hf) as Hnew. unfold getRoutesByOwner in Hnew.
    cbn [a_claim a_rib NewApplicator] in Hnew. rewrite Hsel in Hnew. cbn [mbind result_bind] in Hnew.
    destruct (_ && _); [discriminate Hnew|]. injection Hnew as Hnil.
    destruct (Matches sel l) eqn:Hm; [|reflexivity]. exfalso. apply (not_elem_of_nil (NewRoute p l)). rewrite <-Hnil.
    apply (proj2 (view_GetByLabel sel rib)). exact (conj Hl Hm).
  - intros p Hp. destruct (more_specific q p) eqn:Hqp; [|reflexivity]. exfalso.
    pose proof (Hover p Hp (more_specific_trans _ _ _ Hms Hqp)) as Ho. unfold overlaps in Ho.
    unfold more_specific in Hqp. apply andb_true_iff in Hqp as [Hqp _]. by rewrite Hqp in Ho.
Qed.

(** C1. The life of an IP claim that names no prefix, shows none in its status, has no
    routes, is valid and is of a known kind, and is stored as one route with a length that
    is free to choose: it is not a claim of kind network that creates a prefix (a dynamic
    link prefix, which adds the routes of a network), and a claim of kind network gives no
    prefix length. The network instance exists and is restored, its table has no host bits
    ([IpamInvariant.ipam_tables_typed]), the routes that the selector
    of the claim finds are of one address family, and the route that is selected among them
    is shorter than the length asked for and has a free prefix of that length. One reconciliation serves the
    claim, whatever its selector. The prefix lies strictly inside the selected route, has the
    length asked for (an address when none is asked for), was not in the table and overlaps
    no route inside the selected route. It is what the status of the claim shows, for a claim
    of kind network with the length of its subnet, with the condition Ready; the table has
    one more route, for the prefix and with the labels of the claim; and the config map from
    which the table is restored holds the routes of the new table. The other claims, the
    watchers and the VLANs are as before. When the claim is marked for deletion afterwards,
    with nothing else done to the service in between, one more reconciliation removes it from
    the API server and leaves the table and the config map with the routes they had before
    the claim. *)
Theorem ip_claim_lifecycle now now' cr r sv w ni t t' rib cm fam parent q sel :
  let ref := IPClaim_GetCacheID cr in
  let sent := IPClaim_AddOwnerLabelsToCR cr in
  let shown := shown_prefix sent parent q in
  crs w !! krm_nsn cr = Some cr -> WasDeleted (krm_om cr) = false ->
  o_GVK (krm_Object cr) = WithKind ipam_GroupVersion IPClaimKind ->
  ics_Prefix (spec cr) = None -> known_kind (ics_Kind (spec cr)) = true -> validateInput sent None = "" ->
  crc_Get ni_api (ref_nsn ref) w = Ok ni -> WasDeleted (krm_om ni) = false ->
  linked_to r sv -> MarshalText (now + Minute * 60) = Ok t -> MarshalText (now' + Minute * 60) = Ok t' ->
  sv_ipam sv !! ref = Some (MkCacheContext true rib) -> cms (sv_world sv) !! ipam_key ref = Some cm ->
  free_place (Callback := Stream) sent rib fam parent q ->
  IPClaim_GetOwnerSelector sent = Ok sel ->
  exists r1 sv1 w1 cr1 rib1,
    Reconcile now (krm_nsn cr) (r, w) = ((r1, w1), Ok no_requeue) /\
    (p_bits q = claim_length sent fam /\ fresh_in (view rib) parent q) /\
    (crs w1 !! krm_nsn cr = Some cr1 /\ delete (krm_nsn cr) (crs w1) = delete (krm_nsn cr) (crs w) /\
     spec cr1 = spec cr /\ ict_Prefix (status cr1) = Some (Prefix_String shown) /\
     essence (krm_GetCondition cr1 ConditionTypeReady) = essence (Ready now)) /\
    sv_ipam sv1 = <[ref := MkCacheContext true rib1]> (sv_ipam sv) /\
    view rib1 = <[q := claim_labels sent shown]> (view rib) /\
    sv_watcher sv1 = sv_watcher sv /\ sv_events sv1 = sv_events sv /\ sv_vlan sv1 = sv_vlan sv /\
    ip_saved (sv_world sv1) ref (view rib1) /\
    forall w2 cr2, crs w2 !! krm_nsn cr = Some cr2 -> marked_deleted ipam_finalizer cr cr2 (status cr1) ->
      exists r3 sv3 w3 rib3, Reconcile now' (krm_nsn cr) (r1, w2) = ((r3, w3), Ok no_requeue) /\
        crs w3 = delete (krm_nsn cr) (crs w2) /\ linked_to r3 sv3 /\
        sv_ipam sv3 = <[ref := MkCacheContext true rib3]> (sv_ipam sv) /\ view rib3 = view rib /\
        sv_vlan sv3 = sv_vlan sv /\ ip_saved (sv_world sv3) ref (view rib).
Proof.
  intros ref sent shown Hst Hdel Hgvk Hp Hk Hval Hni Hnidel Hl Ht Ht' Hrib Hcm Hfree Hsel.
  destruct (ip_claim_served now cr r sv w ni t rib cm fam parent q Hst Hdel Hgvk Hp Hk Hval Hni Hnidel Hl Ht Hrib Hcm Hfree)
    as (r1&sv1&w1&cr1&rib1&Hrun&Hpl&Hcr&Hl1&Hi1&Hv1&Hw1&He1&Hvl1&Hsaved).
  exists r1, sv1, w1, cr1, rib1. split; [exact Hrun|]. split; [exact Hpl|]. split; [exact Hcr|]. split; [exact Hi1|].
  split; [exact Hv1|]. split; [exact Hw1|]. split; [exact He1|]. split; [exact Hvl1|]. split; [exact Hsaved|].
  intros w2 cr2 Hst2 [M1 M2 M3 M4 M5 M6 M7]. rewrite <-M1 in Hst2 |- *. destruct Hsaved as (cm1&_&_&Hcm1&_).
  destruct Hpl as (_&Hfresh), Hcr as (_&_&_&_&Hready). pose proof Hfresh as (Hq&Hnet&_).
  pose proof (ip_sent_spec cr cr2 M6 M5) as Hsent. fold sent in Hsent.
  assert (Href : IPClaim_GetCacheID cr2 = ref) by (unfold IPClaim_GetCacheID; by rewrite M6).
  destruct (free_place_release sent rib fam parent q sel Hfree Hfresh Hsel) as [Hno Hin].
  destruct (ip_release now' cr2 r1 sv1 w2 t' rib1 cm1 sel) as (r3&sv3&w3&rib3&Hrec&Hv3&Hl3&Hi3&Hw3&Hvl3&Hrel&Hsaved3).
  - exact Hst2.
  - exact M2.
  - exact M3.
  - apply (ready_essence now). unfold krm_GetCondition in *. by rewrite M7.
  - by rewrite M4.
  - rewrite M6, Hp. discriminate.
  - exact Hl1.
  - exact Ht'.
  - rewrite Href, Hi1. apply lookup_insert_eq.
  - rewrite Href. exact Hcm1.
  - rewrite Hv1. intros p [l [[<- _]|[_ Hpl]]%lookup_insert_Some]; [exact Hnet|]. apply (fp_wf _ _ _ _ _ Hfree). by exists l.
  - rewrite (owner_selector_spec _ _ Hsent). exact Hsel.
  - apply (apart_single _ _ _ _ q). intros p l Hpl Hml. rewrite Hv1 in Hpl.
    apply lookup_insert_Some in Hpl as [[<- _]|[_ Hpl]]; [done|]. by rewrite (Hno _ _ Hpl) in Hml.
  - rewrite Hv1 in Hrel. assert (Heq : view rib3 = view rib).
    { apply (after_release_single _ _ _ _ _ _ _ Hrel Hq); [|exact Hno|right; exact Hin].
      apply claim_labels_owner; [exact Hsel|apply add_owner_labels_owned]. }
    rewrite Heq in Hsaved3. rewrite Href in Hi3, Hsaved3. rewrite Hi1, insert_insert_eq in Hi3. rewrite Hvl1 in Hvl3.
    exists r3, sv3, w3, rib3. split; [exact Hrec|]. split; [exact Hv3|]. split; [exact Hl3|]. split; [exact Hi3|].
    split; [exact Heq|]. split; [exact Hvl3|exact Hsaved3].
Qed.

End Ipam.
