(* ===== verification/ControllerWitness.v ===== *)
(** * The reconcilers at concrete inputs

    An API server in memory, on which the reconcilers run with the whole resource
    service behind them, and at which the theorems on the reconcilers are applied. *)

From S2P Require Import Prelude Strconv Meta Labels Conditions KRM NetIP IPUtil Rib Backend DB TestWorld IpamApi IpamValidate IpamWatcher IpamApply IpamClaims IpamBackend IpamRestore IpamServe IpamWitness VlanApi VlanBackend VlanRestore Reconciler ServerProxy Health GrpcServer ClientProxy ClientNormalize ProxyRefine NormalizeProps Codecs System ProxyWitness Controllers ControllerProps EndToEnd.

Local Open Scope Z_scope.
#[local] Existing Instance list_labels.
#[local] Existing Instance map_rib.
#[local] Existing Instance test_netipx.

(** ** An API server in memory *)

Section Mem.
Context {W A B : Type} (get : W -> gmap NamespacedName (KRM A B)) (put : gmap NamespacedName (KRM A B) -> W -> W).

(** A write of an object that is not stored, or of another version of it, fails. *)
Definition mem_write (cr : KRM A B) (f : KRM A B -> KRM A B) (gone : KRM A B -> bool) : M W (KRM A B) := fun w =>
  match get w !! krm_nsn cr with
  | None => (w, Err "not found")
  | Some old =>
      if bool_decide (version cr = version old) then
        let cr' := bump (version old +:+ "+") (f old) in
        (put (if gone old then delete (krm_nsn cr) (get w) else <[krm_nsn cr := cr']> (get w)) w, Ok cr')
      else (w, Err "conflict")
  end.

Definition mem_client : CRClient W (KRM A B) := {|
  crc_Get k w := match get w !! k with Some cr => Ok cr | None => Err "not found" end;
  crc_StatusUpdate cr := mem_write cr (fun old => MkKRM (krm_Object old) (spec old) (status cr)) (fun _ => false);
  crc_Update cr := mem_write cr (fun old => MkKRM (krm_Object cr) (spec cr) (status old))
    (fun old => WasDeleted (krm_om old) && bool_decide (om_Finalizers (krm_om cr) = []))
|}.

Context (get_put : forall m w, get (put m w) = m).

Lemma mem_laws : CRLaws mem_client get.
Proof.
  split; cbn.
  - intros w k cr ->. done.
  - intros w k ->. by exists "not found".
  - intros w cr old Hold Hv. eexists _, (version old +:+ "+"). unfold mem_write.
    rewrite Hold, bool_decide_eq_true_2 by done. split; [reflexivity|apply get_put].
  - intros w cr old Hold Hv _. eexists _, (version old +:+ "+"). unfold mem_write.
    rewrite Hold, bool_decide_eq_true_2 by done. split; [reflexivity|apply get_put].
Qed.

Lemma mem_independent {Ti} (other : CRClient W Ti) :
  (forall k m w, crc_Get other k (put m w) = crc_Get other k w) -> Independent mem_client other.
Proof.
  intros Hput. split. intros k x w. cbn. unfold mem_write. destruct (get w !! krm_nsn x) as [old|]; [|done].
  destruct (bool_decide (version x = version old)); [apply Hput|done].
Qed.

End Mem.

Record world : Type := MkWorld {
  w_nis : gmap NamespacedName NetworkInstance;
  w_prefixes : gmap NamespacedName IPPrefix;
  w_claims : gmap NamespacedName IPClaim;
  w_indexes : gmap NamespacedName VLANIndex;
  w_vlanclaims : gmap NamespacedName VLANClaim
}.

Definition nis_client : CRClient world NetworkInstance :=
  mem_client w_nis (fun m w => MkWorld m (w_prefixes w) (w_claims w) (w_indexes w) (w_vlanclaims w)).
Definition prefixes_client : CRClient world IPPrefix :=
  mem_client w_prefixes (fun m w => MkWorld (w_nis w) m (w_claims w) (w_indexes w) (w_vlanclaims w)).
Definition claims_client : CRClient world IPClaim :=
  mem_client w_claims (fun m w => MkWorld (w_nis w) (w_prefixes w) m (w_indexes w) (w_vlanclaims w)).
Definition indexes_client : CRClient world VLANIndex :=
  mem_client w_indexes (fun m w => MkWorld (w_nis w) (w_prefixes w) (w_claims w) m (w_vlanclaims w)).
Definition vlanclaims_client : CRClient world VLANClaim :=
  mem_client w_vlanclaims (fun m w => MkWorld (w_nis w) (w_prefixes w) (w_claims w) (w_indexes w) m).

#[local] Instance test_errors_laws : ErrorsLaws test_errors.
Proof. by split. Qed.
#[local] Instance claims_laws : CRLaws claims_client w_claims.
Proof. by apply mem_laws. Qed.
#[local] Instance vlanclaims_laws : CRLaws vlanclaims_client w_vlanclaims.
Proof. by apply mem_laws. Qed.
#[local] Instance claims_nis : Independent claims_client nis_client.
Proof. by apply mem_independent. Qed.
#[local] Instance vlanclaims_indexes : Independent vlanclaims_client indexes_client.
Proof. by apply mem_independent. Qed.

(** ** The whole system *)

Definition world_0 : world := MkWorld {[krm_nsn ni_vpc := ni_vpc]} ∅ {[krm_nsn ipc_lo := ipc_lo]} ∅ ∅.

Definition mark_deleted {A B} (r : KRM A B) : KRM A B :=
  MkKRM (with_meta (fun m => MkObjectMeta (om_Name m) (om_GenerateName m) (om_Namespace m) (om_UID m)
    (om_ResourceVersion m) (Some 1) (om_Labels m) (om_Annotations m) (om_OwnerReferences m) (om_Finalizers m))
    (krm_Object r)) (spec r) (status r).

Definition show_claim (w : world) : option (option string * string) :=
  (fun c => (ict_Prefix (status c), c_Status (krm_GetCondition c ConditionTypeReady))) <$> w_claims w !! krm_nsn ipc_lo.

Definition reconcile_claim := ipclaim_Reconcile 0 test_client nis_client claims_client (krm_nsn ipc_lo).
Definition reconcile_ni := networkinstance_Reconcile 0 test_client nis_client (krm_nsn ni_vpc).
Definition rib_of (c : clientproxy (grpcState (proxyState (server api)))) : option (list (string * string)) :=
  (fun c => show (instance c)) <$> sv_ipam (ps_backends (g_handlers (cp_server c))) !! vpc.

(** The claim waits for its network instance, gets an address, and loses it when it is
    deleted. *)
Example controllers_run :
  let '((c1, w1), r1) := reconcile_claim (client_0, world_0) in
  let '((c2, w2), r2) := reconcile_ni (c1, w1) in
  let '((c3, w3), r3) := reconcile_claim (c2, w2) in
  let w4 := MkWorld (w_nis w3) (w_prefixes w3) (mark_deleted <$> w_claims w3) ∅ ∅ in
  let '((c5, w5), r5) := reconcile_claim (c3, w4) in
  (show_claim w1, r1, r2, show_claim w3, rib_of c3, show_claim w5, rib_of c5) =
  (Some (None, "False"), Ok requeue_5s, Ok no_requeue, Some (Some "10.1.0.0/32", "True"),
   Some [("10.1.0.0/28", "10.1.0.0-28-vpc-aggregate"); ("10.1.0.0/32", "lo")], None,
   Some [("10.1.0.0/28", "10.1.0.0-28-vpc-aggregate")]).
Proof. vm_compute. reflexivity. Qed.

(** The service is not reachable when the claim is deleted: after two reconciliations the
    claim is gone and its address is still taken. *)
Example deletion_leaks :
  let '((c1, w1), _) := reconcile_ni (client_0, world_0) in
  let '((c2, w2), _) := reconcile_claim (c1, w1) in
  let w3 := MkWorld (w_nis w2) (w_prefixes w2) (mark_deleted <$> w_claims w2) ∅ ∅ in
  let '((c4, w4), r4) := reconcile_claim (set_client None c2, w3) in
  let '((c5, w5), r5) := reconcile_claim (set_client (Some test_rpc) c4, w4) in
  (show_claim w4, r4, show_claim w5, r5, rib_of c5) =
  (Some (Some "10.1.0.0/32", "False"), Ok no_requeue, None, Ok no_requeue,
   Some [("10.1.0.0/28", "10.1.0.0-28-vpc-aggregate"); ("10.1.0.0/32", "lo")]).
Proof. vm_compute. reflexivity. Qed.

(** ** Witnesses *)

(** A proxy that answers every claim with [resp] and counts the calls. *)
Definition answers {T1 T2} (resp : T2) (release : result unit) : Proxy nat args T1 T2 :=
  MkProxy (fun _ => mret tt) (fun _ => mret tt) (fun '(n, x) => ((Datatypes.S n, x), Ok (Some resp)))
    (fun '(n, x) => ((Datatypes.S n, x), Ok (Some resp))) (fun '(n, x) => ((Datatypes.S n, x), release)).

Definition claim_deleted : IPClaim :=
  mark_deleted (krm_meta (set_Finalizers [ipam_finalizer])
    (MkKRM (krm_Object ipc_lo) (spec ipc_lo)
       (MkIPClaimStatus (MkConditionedStatus [Ready 0]) (Some "10.1.0.0/32") None None))).
Definition world_deleted : world := MkWorld ∅ ∅ {[krm_nsn ipc_lo := claim_deleted]} ∅ ∅.

(** One failed release, and the claim is gone. *)
Lemma ipclaim_deletion_witness : exists w1 w2,
  let proxy := answers ipc_lo (Err "unavailable") in
  ipclaim_Reconcile 0 proxy nis_client claims_client (krm_nsn ipc_lo) (0%nat, world_deleted) = ((1%nat, w1), Ok no_requeue) /\
  ipclaim_Reconcile 0 proxy nis_client claims_client (krm_nsn ipc_lo) (1%nat, w1) = ((1%nat, w2), Ok no_requeue) /\
  w_claims w2 = ∅.
Proof.
  destruct (ipclaim_deletion 0 (answers ipc_lo (Err "unavailable")) nis_client claims_client w_claims claim_deleted
    0%nat world_deleted) as (_&_&H); [reflexivity..|].
  destruct (H 1%nat ArgNone "unavailable") as (w1&w2&H1&_&H2&Hv); [vm_compute; reflexivity..|reflexivity|].
  exists w1, w2. split; [exact H1|]. split; [exact H2|]. rewrite Hv. vm_compute. reflexivity.
Defined.

(** The answer of the service is what the status shows. *)
Lemma ipclaim_reconciled_witness : exists w' cr',
  ipclaim_Reconcile 0 (answers claim_deleted (Ok tt)) nis_client claims_client (krm_nsn ipc_lo) (0%nat, world_0) =
    ((1%nat, w'), Ok no_requeue) /\
  w_claims w' !! krm_nsn ipc_lo = Some cr' /\ ict_Prefix (status cr') = Some "10.1.0.0/32".
Proof.
  destruct (ipclaim_reconciled 0 (answers claim_deleted (Ok tt)) nis_client claims_client w_claims ipc_lo 0%nat world_0 ni_vpc)
    as (cr1&_&_&_&H); [reflexivity..|].
  destruct (H 1%nat ArgNone (Ok (Some claim_deleted))) as (w'&cr'&r&H1&H2&_&_&Hr); [reflexivity|discriminate|discriminate|].
  destruct Hr as [-> Ho]. destruct Ho as (Hp&_&_). exists w', cr'. split; [exact H1|]. split; [exact H2|exact Hp].
Defined.

Definition claim_bound : IPClaim :=
  set_spec_Prefix (Some "10.1.0.0/32") (MkKRM (krm_Object ipc_lo) (spec ipc_lo)
    (MkIPClaimStatus (MkConditionedStatus [Ready 0]) (Some "10.1.0.0/32") None None)).
Definition world_bound : world := MkWorld {[krm_nsn ni_vpc := ni_vpc]} ∅ {[krm_nsn ipc_lo := claim_bound]} ∅ ∅.

(** Two calls of the service for a claim that has not changed. *)
Lemma ipclaim_static_rereleases_witness : exists w' cr',
  ipclaim_Reconcile 0 (answers claim_bound (Ok tt)) nis_client claims_client (krm_nsn ipc_lo) (0%nat, world_bound) =
    ((2%nat, w'), Ok no_requeue) /\
  w_claims w' !! krm_nsn ipc_lo = Some cr' /\ ict_Prefix (status cr') = Some "10.1.0.0/32".
Proof.
  destruct (ipclaim_static_rereleases 0 (answers claim_bound (Ok tt)) nis_client claims_client w_claims claim_bound
    0%nat world_bound ni_vpc "10.1.0.0/32") as (cr1&_&_&_&H); [reflexivity..|].
  destruct (H 1%nat ArgNone 2%nat ArgNone claim_bound) as (w'&cr'&H1&H2&Ho); [reflexivity..|].
  destruct Ho as (Hp&_&_). exists w', cr'. split; [exact H1|]. split; [exact H2|exact Hp].
Defined.

Definition index_vlan : VLANIndex :=
  BuildVLANIndex (sample_meta "dummy" "a") (MkVLANIndexSpec (MkUserDefinedLabels None)) (MkVLANIndexStatus (MkConditionedStatus [])).
Definition vlan_100 : VLANClaim :=
  BuildVLANClaim (sample_meta "dummy" "v")
    (MkVLANClaimSpec (ObjRef "" "dummy" "a" "" "" "" "") (Some 100) None (MkClaimLabels (MkUserDefinedLabels None) None))
    no_VLANClaimStatus.
Definition world_vlan : world := MkWorld ∅ ∅ ∅ {[krm_nsn index_vlan := index_vlan]} {[krm_nsn vlan_100 := vlan_100]}.

(** The service answers with the VLAN that was asked for. *)
Lemma vlanclaim_static_never_ready_witness : exists w' cr',
  vlanclaim_Reconcile 0 (answers (set_status_VLANID (Some 100) vlan_100) (Ok tt)) indexes_client vlanclaims_client
    (krm_nsn vlan_100) (0%nat, world_vlan) = ((1%nat, w'), Ok requeue_5s) /\
  w_vlanclaims w' !! krm_nsn vlan_100 = Some cr' /\ vct_VLANID (status cr') = None.
Proof.
  destruct (vlanclaim_static_never_ready 0 (answers (set_status_VLANID (Some 100) vlan_100) (Ok tt)) indexes_client
    vlanclaims_client w_vlanclaims vlan_100 0%nat world_vlan index_vlan 100) as (cr1&_&_&_&H); [reflexivity..|].
  destruct (H 1%nat ArgNone (set_status_VLANID (Some 100) vlan_100) 100) as (w'&cr'&H1&H2&_&Hp&_); [reflexivity..|].
  exists w', cr'. split; [exact H1|]. split; [exact H2|exact Hp].
Defined.

(** ** From the API server to the database *)

Definition vlan_any : VLANClaim :=
  BuildVLANClaim (sample_meta "dummy" "v")
    (MkVLANClaimSpec (ObjRef "" "dummy" "a" "" "" "" "") None None (MkClaimLabels (MkUserDefinedLabels None) None))
    no_VLANClaimStatus.
Definition world_any : world := MkWorld ∅ ∅ ∅ {[krm_nsn index_vlan := index_vlan]} {[krm_nsn vlan_any := vlan_any]}.

Definition vlan_cms : VlanClient api := MkVlanClient api test_cms (fun _ => Ok []) (fun _ => Ok []).
Definition yaml_vlans : Codec (gmap Z labels) := bits_codec (gmap Z labels).
Definition vlan_backends : gmap GroupVersion (Backend (server api) Stream AnyList) :=
  main_backends (Some test_ipam) (Some vlan_cms) yaml_codec yaml_vlans ipclaim_codec ni_codec vlanclaim_codec (const_codec index_vlan).

(** The index is restored, and its config map exists. *)
Definition vlan_cm : ConfigMap := buildConfigMap (VLANClaim_GetCacheID vlan_any) "vlan".
Definition server_vlan : server api :=
  MkServer ∅ ∅ [] {[VLANClaim_GetCacheID vlan_any := MkCacheContext true vlandb_New]} (api_put vlan_cm (MkApi ∅)).
Definition client_vlan : clientproxy (grpcState (proxyState (server api))) :=
  clientproxy_New (gv_Group vlan_GroupVersion) (vlan_ValidateResponse vlanclaim_codec)
    (Ok (grpc_client show_gvk vlan_backends test_config rpc_status open_context))
    (MkGrpcState 0 (NewProxyState server_vlan) health_New).

Lemma client_vlan_linked : linked show_gvk vlan_backends test_config rpc_status open_context client_vlan server_vlan.
Proof. split; [reflexivity|reflexivity|vm_compute; reflexivity|reflexivity]. Qed.

(** A claim that is marked for deletion, with the finalizer [f] and the status [st]. *)
Definition deleting {A B} (f : string) (r : KRM A B) (st : B) : KRM A B :=
  MkKRM (with_meta (fun m => MkObjectMeta (om_Name m) (om_GenerateName m) (om_Namespace m) (om_UID m)
    (om_ResourceVersion m) (Some 1) (om_Labels m) (om_Annotations m) (om_OwnerReferences m) [f])
    (krm_Object r)) (spec r) st.

Lemma deleting_marked {A B} f (r : KRM A B) st : marked_deleted f r (deleting f r st) st.
Proof. by split. Qed.

(** The first claim of an index gets a VLAN, and its deletion leaves a new database. *)
Lemma vlan_claim_lifecycle_witness : exists id r1 w1 cr1 r3 w3,
  let Reconcile now := vlanclaim_Reconcile now (vlan_client (T := test_time) now (const_codec index_vlan) vlanclaim_codec)
    indexes_client vlanclaims_client (krm_nsn vlan_any) in
  Reconcile 0 (client_vlan, world_any) = ((r1, w1), Ok no_requeue) /\
  w_vlanclaims w1 !! krm_nsn vlan_any = Some cr1 /\ vct_VLANID (status cr1) = Some id /\ 2 <= id <= 4094 /\
  Reconcile 7 (r1, MkWorld ∅ ∅ ∅ ∅ {[krm_nsn vlan_any := deleting vlan_finalizer vlan_any (status cr1)]}) =
    ((r3, w3), Ok no_requeue) /\ w_vlanclaims w3 = ∅.
Proof.
  destruct (vlan_claim_lifecycle (T := test_time) (Some test_ipam) vlan_cms api_view yaml_codec yaml_vlans ipclaim_codec ni_codec vlanclaim_codec
    (const_codec index_vlan) show_gvk test_config rpc_status open_context eq_refl indexes_client vlanclaims_client w_vlanclaims
    0 7 vlan_any client_vlan server_vlan world_any index_vlan (pretty (0 + Minute * 60)) (pretty (7 + Minute * 60)) vlandb_New vlan_cm)
    as (id&r1&sv1&w1&cr1&Hrun&(Hid&_)&(Hv&_&_&Hvid&_)&_&_&_&Hdel).
  - reflexivity.
  - reflexivity.
  - reflexivity.
  - reflexivity.
  - reflexivity.
  - reflexivity.
  - reflexivity.
  - exact client_vlan_linked.
  - reflexivity.
  - reflexivity.
  - reflexivity.
  - apply relations.rtc_refl.
  - vm_compute. reflexivity.
  - eexists. vm_compute. reflexivity.
  - intros e He Ho. pose proof (owns_not_reserved _ _ _ _ (relations.rtc_refl _ _) He Ho) as Hres0.
    assert (Hres : map_Forall (fun k _ => deleteVLANValidation k <> None) (store vlandb_New)) by by_compute.
    exact (Hres _ _ He Hres0).
  - exists 2. split; [lia|]. vm_compute. reflexivity.
  - destruct (Hdel (MkWorld ∅ ∅ ∅ ∅ {[krm_nsn vlan_any := deleting vlan_finalizer vlan_any (status cr1)]})
      (deleting vlan_finalizer vlan_any (status cr1))) as (r3&sv3&w3&Hrun3&Hv3&_).
    + apply lookup_singleton_eq.
    + apply deleting_marked.
    + exists id, r1, w1, cr1, r3, w3. split; [exact Hrun|]. split; [exact Hv|]. split; [exact Hvid|]. split; [exact Hid|].
      split; [exact Hrun3|]. rewrite Hv3. apply delete_singleton_eq.
Defined.

(** A network instance with a small aggregate, and an address of it. *)
Definition ipam_cm : ConfigMap := buildConfigMap vpc "ipam".
Definition server_ip : server api :=
  MkServer {[vpc := MkCacheContext true (as_rib table_3)]} ∅ [] ∅ (api_put ipam_cm (MkApi ∅)).
Definition client_ip : clientproxy (grpcState (proxyState (server api))) :=
  clientproxy_New (gv_Group ipam_GroupVersion) (ipam_ValidateResponse ipclaim_codec) (Ok test_rpc)
    (MkGrpcState 0 (NewProxyState server_ip) health_New).

Lemma client_ip_linked : linked show_gvk test_backends test_config rpc_status open_context client_ip server_ip.
Proof. split; [reflexivity|reflexivity|vm_compute; reflexivity|reflexivity]. Qed.

#[local] Instance network_dec p : Decision (is_network p).
Proof. unfold is_network. apply _. Defined.

Abbreviation reconcile_lo := (fun now => ipclaim_Reconcile now (ipam_client (T := test_time) now ni_codec ipclaim_codec)
  nis_client claims_client (krm_nsn ipc_lo)).
Definition unused_codec : Codec VLANIndex := const_codec (BuildVLANIndex (sample_meta "" "")
  (MkVLANIndexSpec (MkUserDefinedLabels None)) (MkVLANIndexStatus (MkConditionedStatus []))).
Definition sel_lo : Selector :=
  match IPClaim_GetOwnerSelector (IPClaim_AddOwnerLabelsToCR ipc_lo) with Ok s => s | _ => [] end.

Lemma ip_claim_lifecycle_witness : exists r1 w1 cr1 r3 w3,
  reconcile_lo 0 (client_ip, world_0) = ((r1, w1), Ok no_requeue) /\
  w_claims w1 !! krm_nsn ipc_lo = Some cr1 /\ ict_Prefix (status cr1) = Some "10.1.0.0/32" /\
  reconcile_lo 7 (r1, MkWorld ∅ ∅ {[krm_nsn ipc_lo := deleting ipam_finalizer ipc_lo (status cr1)]} ∅ ∅) =
    ((r3, w3), Ok no_requeue) /\ w_claims w3 = ∅.
Proof.
  destruct (ip_claim_lifecycle (T := test_time) test_ipam None api_view yaml_codec (const_codec ∅) ipclaim_codec ni_codec vlanclaim_codec
    unused_codec show_gvk test_config rpc_status open_context eq_refl nis_client claims_client w_claims
    0 7 ipc_lo client_ip server_ip world_0 ni_vpc (pretty (0 + Minute * 60)) (pretty (7 + Minute * 60)) (as_rib table_3) ipam_cm 32
    (NewRoute (P net10_1 28) (default ∅ (table_3 !! P net10_1 28))) (P net10_1 32) sel_lo)
    as (r1&sv1&w1&cr1&rib1&Hrun&_&(Hv&_&_&Hp&_)&_&_&_&_&_&_&Hdel).
  - reflexivity.
  - reflexivity.
  - reflexivity.
  - reflexivity.
  - reflexivity.
  - vm_compute. reflexivity.
  - reflexivity.
  - reflexivity.
  - exact client_ip_linked.
  - reflexivity.
  - reflexivity.
  - reflexivity.
  - vm_compute. reflexivity.
  - split.
    + refine (table_keys is_network table_3 _). by_compute.
    + vm_compute. reflexivity.
    + reflexivity.
    + left. reflexivity.
    + vm_compute. repeat constructor.
    + exact I.
    + vm_compute. reflexivity.
    + vm_compute. reflexivity.
    + reflexivity.
    + reflexivity.
  - vm_compute. reflexivity.
  - destruct (Hdel (MkWorld ∅ ∅ {[krm_nsn ipc_lo := deleting ipam_finalizer ipc_lo (status cr1)]} ∅ ∅)
      (deleting ipam_finalizer ipc_lo (status cr1))) as (r3&sv3&w3&rib3&Hrun3&Hv3&_).
    + apply lookup_singleton_eq.
    + apply deleting_marked.
    + exists r1, w1, cr1, r3, w3. split; [exact Hrun|]. split; [exact Hv|]. split; [rewrite Hp; vm_compute; reflexivity|].
      split; [exact Hrun3|]. rewrite Hv3. apply delete_singleton_eq.
Defined.

(** The same claim, deleted, with its route in the table. *)
Definition ipc_gone : IPClaim := deleting ipam_finalizer ipc_lo
  (status (krm_SetConditions ipc_lo [Ready 0])).
Definition table_gone : gmap Prefix labels :=
  <[P net10_1 32 := claim_labels (IPClaim_AddOwnerLabelsToCR ipc_lo) (P net10_1 32)]> table_3.
Definition server_gone : server api :=
  MkServer {[vpc := MkCacheContext true (as_rib table_gone)]} ∅ [] ∅ (api_put ipam_cm (MkApi ∅)).
Definition client_gone : clientproxy (grpcState (proxyState (server api))) :=
  clientproxy_New (gv_Group ipam_GroupVersion) (ipam_ValidateResponse ipclaim_codec) (Ok test_rpc)
    (MkGrpcState 0 (NewProxyState server_gone) health_New).

Lemma ip_claim_released_witness : exists r' w' rib',
  reconcile_lo 0 (client_gone, MkWorld ∅ ∅ {[krm_nsn ipc_lo := ipc_gone]} ∅ ∅) = ((r', w'), Ok no_requeue) /\
  w_claims w' = ∅ /\ view (R := map_rib) rib' !! P net10_1 32 = None.
Proof.
  destruct (ip_claim_released (T := test_time) test_ipam None api_view yaml_codec (const_codec ∅) ipclaim_codec ni_codec vlanclaim_codec
    unused_codec show_gvk test_config rpc_status open_context eq_refl nis_client claims_client w_claims
    0 ipc_gone client_gone server_gone (MkWorld ∅ ∅ {[krm_nsn ipc_lo := ipc_gone]} ∅ ∅) (pretty (0 + Minute * 60)) (as_rib table_gone) ipam_cm sel_lo)
    as (r'&sv'&w'&rib'&Hrun&Hv&_&_&_&_&Htab&_).
  - reflexivity.
  - reflexivity.
  - reflexivity.
  - vm_compute. reflexivity.
  - reflexivity.
  - discriminate.
  - split; [reflexivity|reflexivity|vm_compute; reflexivity|reflexivity].
  - reflexivity.
  - reflexivity.
  - vm_compute. reflexivity.
  - refine (table_keys is_network table_gone _). by_compute.
  - vm_compute. reflexivity.
  - left. vm_compute. reflexivity.
  - exists r', w', rib'. split; [exact Hrun|]. split; [rewrite Hv; apply delete_singleton_eq|].
    destruct (view rib' !! P net10_1 32) as [l|] eqn:Hl; [|reflexivity].
    apply Htab in Hl as (Hl&Hm&_).
    assert (Hx : view (as_rib table_gone) !! P net10_1 32 =
      Some (claim_labels (IPClaim_AddOwnerLabelsToCR ipc_lo) (P net10_1 32))) by apply lookup_insert_eq.
    rewrite Hx in Hl. injection Hl as <-. vm_compute in Hm. discriminate Hm.
Defined.
