(* ===== verification/Inventory.v ===== *)
(** * apis/inv and apis/topo: the inventory and topology API types

    Nodes with their endpoints and targets, links between endpoints, and the raw
    topologies and logical interconnects from which nodes and links are made. *)

From S2P Require Import Prelude Strconv Meta Labels Conditions KRM.

Local Open Scope Z_scope.

(** [apis/inv/v1alpha1/groupversion_info.go:28-29 GroupVersion] *)
Definition inv_GroupVersion : GroupVersion := MkGroupVersion "inv.nephio.org" "v1alpha1".
(** [apis/topo/v1alpha1/groupversion_info.go:28-29 GroupVersion] *)
Definition topo_GroupVersion : GroupVersion := MkGroupVersion "topo.nephio.org" "v1alpha1".

(** ** Label keys *)

(** [apis/inv/v1alpha1/LabelKeys.go:30-30 NephioInventoryNodeNameKey] *)
Definition NephioInventoryNodeNameKey : string := "inv.nephio.org/node-name".
(** [apis/inv/v1alpha1/LabelKeys.go:31-31 NephioInventoryLinkNameKey] *)
Definition NephioInventoryLinkNameKey : string := "inv.nephio.org/link-name".
(** [apis/inv/v1alpha1/LabelKeys.go:32-32 NephioInventoryInterfaceNameKey] *)
Definition NephioInventoryInterfaceNameKey : string := "inv.nephio.org/interface-name".
(** [apis/inv/v1alpha1/LabelKeys.go:34-34 NephioTopologyKey] *)
Definition NephioTopologyKey : string := "inv.nephio.org/topology".
(** [apis/inv/v1alpha1/LabelKeys.go:41-41 NephioProviderKey] *)
Definition NephioProviderKey : string := "nephio.org/provider".
(** [apis/inv/v1alpha1/LabelKeys.go:61-61 NephioInventoryEndpointIndex] *)
Definition NephioInventoryEndpointIndex : string := "inv.nephio.org/interface-index".

(** A resource of the group with the given kind, metadata, spec and status. *)
Definition build {Spec Status} (gv : GroupVersion) (kind : string) (meta : ObjectMeta) (s : Spec) (st : Status) :
    KRM Spec Status := MkKRM (MkObject (WithKind gv kind) meta) s st.

(** The metadata of an object that is built from a name, a namespace and labels. *)
Definition new_meta (name namespace : string) (ls : option labels) : ObjectMeta :=
  MkObjectMeta name "" namespace "" "" None ls None [] [].

(** A status that holds conditions only. *)
Definition ConditionsOnly : Type := ConditionedStatus.
#[export, refine] Instance ConditionsOnly_conditions : HasConditions ConditionsOnly := {
  conditioned := fun s => s; with_conditioned := fun c _ => c
}.
Proof. done. Defined.
Definition no_conditions : ConditionsOnly := MkConditionedStatus [].

(** ** Endpoint *)

(** [apis/inv/v1alpha1/endpoint_types.go:31-52 EndpointSpec] *)
Record EndpointSpec : Type := MkEndpointSpec {
  eps_InterfaceName : string;
  eps_NodeName : string;
  eps_LacpFallback : option bool
}.

(** [apis/inv/v1alpha1/endpoint_types.go:55-64 EndpointStatus] *)
Record EndpointStatus : Type := MkEndpointStatus {
  ept_ConditionedStatus : ConditionedStatus;
  ept_ClaimRef : option ObjectReference;
  ept_VtepID : string
}.

#[export, refine] Instance EndpointStatus_conditions : HasConditions EndpointStatus := {
  conditioned := ept_ConditionedStatus;
  with_conditioned := fun c s => MkEndpointStatus c (ept_ClaimRef s) (ept_VtepID s)
}.
Proof. done. Defined.

(** [apis/inv/v1alpha1/endpoint_types.go:73-79 Endpoint] *)
Definition Endpoint : Type := KRM EndpointSpec EndpointStatus.

(** [apis/inv/v1alpha1/endpoint_types.go:84-88 EndpointList] *)
Record EndpointList : Type := MkEndpointList { epl_Items : list Endpoint }.

(** [apis/inv/v1alpha1/endpoint_types.go:95-95 EndpointKind] *)
Definition EndpointKind : string := "Endpoint".

(** [apis/inv/v1alpha1/endpoint_types.go:98-98 EndpointGroupVersionKind] *)
Definition EndpointGroupVersionKind : GroupVersionKind := WithKind inv_GroupVersion EndpointKind.

(** [apis/inv/v1alpha1/endpoint_interfaces.go:26-28 Endpoint.GetCondition] *)
Definition Endpoint_GetCondition (r : Endpoint) (t : string) : Condition := krm_GetCondition r t.

(** [apis/inv/v1alpha1/endpoint_interfaces.go:32-34 Endpoint.SetConditions] *)
Definition Endpoint_SetConditions (r : Endpoint) (c : list Condition) : Endpoint := krm_SetConditions r c.

(** The objects are copies of the items.

    [apis/inv/v1alpha1/endpoint_interfaces.go:36-43 EndpointList.GetItems] *)
Definition EndpointList_GetItems (r : EndpointList) : list Endpoint := epl_Items r.

(** [apis/inv/v1alpha1/endpoint_interfaces.go:47-57 BuildEndpoint] *)
Definition BuildEndpoint : ObjectMeta -> EndpointSpec -> EndpointStatus -> Endpoint :=
  build inv_GroupVersion EndpointKind.

(** [apis/inv/v1alpha1/endpoint_interfaces.go:61-63 Endpoint.GetLinkName] *)
Definition GetLinkName (r : Endpoint) : string :=
  label_get (default ∅ (om_Labels (o_Meta (krm_Object r)))) NephioInventoryLinkNameKey.

(** The loop of [IsNodeDiverse]; [i] is the index of the head of [nodes]. *)
Fixpoint node_diverse (i idx : Z) (nodes : list string) (name : string) : bool :=
  match nodes with
  | [] => true
  | nodeName :: nodes =>
      if bool_decide (i <> idx /\ nodeName <> "" /\ nodeName = name) then false
      else node_diverse (i + 1) idx nodes name
  end.

(** [apis/inv/v1alpha1/endpoint_interfaces.go:68-76 Endpoint.IsNodeDiverse] *)
Definition IsNodeDiverse (r : Endpoint) (idx : Z) (nodes : list string) : bool :=
  node_diverse 0 idx nodes (eps_NodeName (spec r)).

(** The reference names the object. *)
Definition names (ref : ObjectReference) (cr : Object) : bool :=
  bool_decide (ref_APIVersion ref = Identifier (GroupVersion_of (o_GVK cr)) /\
    ref_Kind ref = Kind (o_GVK cr) /\
    ref_Namespace ref = om_Namespace (o_Meta cr) /\
    ref_Name ref = om_Name (o_Meta cr)).

(** [apis/inv/v1alpha1/endpoint_interfaces.go:80-91 Endpoint.IsAllocated] *)
Definition IsAllocated (r : Endpoint) (cr : Object) : bool :=
  match ept_ClaimRef (status r) with
  | None => false
  | Some ref => if names ref cr then false else true
  end.

(** [apis/inv/v1alpha1/endpoint_interfaces.go:95-106 Endpoint.WasAllocated] *)
Definition WasAllocated (r : Endpoint) (cr : Object) : bool :=
  match ept_ClaimRef (status r) with
  | None => false
  | Some ref => if names ref cr then true else false
  end.

(** ** Link *)

(** [apis/inv/v1alpha1/link_types.go:39-46 LinkEndpointSpec] *)
Record LinkEndpointSpec : Type := MkLinkEndpointSpec { les_Topology : string; les_EndpointSpec : EndpointSpec }.

(** [apis/inv/v1alpha1/link_types.go:29-37 LinkSpec] *)
Record LinkSpec : Type := MkLinkSpec { ls_Endpoints : list LinkEndpointSpec }.

(** [apis/inv/v1alpha1/link_types.go:49-56 LinkStatus] *)
Definition LinkStatus : Type := ConditionsOnly.

(** [apis/inv/v1alpha1/link_types.go:71-77 Link] *)
Definition Link : Type := KRM LinkSpec LinkStatus.

(** [apis/inv/v1alpha1/link_types.go:93-93 LinkKind] *)
Definition LinkKind : string := "Link".

(** [apis/inv/v1alpha1/link_types.go:96-96 LinkGroupVersionKind] *)
Definition LinkGroupVersionKind : GroupVersionKind := WithKind inv_GroupVersion LinkKind.

(** [apis/inv/v1alpha1/link_interfaces.go:28-30 Link.GetCondition] *)
Definition Link_GetCondition (r : Link) (t : string) : Condition := krm_GetCondition r t.

(** [apis/inv/v1alpha1/link_interfaces.go:34-36 Link.SetConditions] *)
Definition Link_SetConditions (r : Link) (c : list Condition) : Link := krm_SetConditions r c.

(** [apis/inv/v1alpha1/link_interfaces.go:46-52 Link.GetTopologies] *)
Definition Link_GetTopologies (r : Link) : list string := les_Topology <$> ls_Endpoints (spec r).

(** [apis/inv/v1alpha1/link_interfaces.go:54-59 Link.Validate] *)
Definition Link_Validate (r : Link) : error :=
  if bool_decide (length (ls_Endpoints (spec r)) <> 2%nat) then
    Some ("a link requires exactly 2 endpoints, got: " +:+ pretty (Z.of_nat (length (ls_Endpoints (spec r)))))
  else None.

(** [apis/inv/v1alpha1/link_interfaces.go:63-73 BuildLink] *)
Definition BuildLink : ObjectMeta -> LinkSpec -> LinkStatus -> Link := build inv_GroupVersion LinkKind.

(** ** LogicalEndpoint *)

(** [apis/inv/v1alpha1/logical_endpoint_types.go:29-45 LogicalEndpointSpec] *)
Record LogicalEndpointSpec : Type := MkLogicalEndpointSpec {
  lgs_Name : option string;
  lgs_Lacp : option bool;
  lgs_Endpoints : list EndpointSpec
}.

(** [apis/inv/v1alpha1/logical_endpoint_types.go:48-62 LogicalEndpointStatus] *)
Record LogicalEndpointStatus : Type := MkLogicalEndpointStatus {
  lgt_ConditionedStatus : ConditionedStatus;
  lgt_ESI : option Z;
  lgt_LagId : option Z
}.

#[export, refine] Instance LogicalEndpointStatus_conditions : HasConditions LogicalEndpointStatus := {
  conditioned := lgt_ConditionedStatus;
  with_conditioned := fun c s => MkLogicalEndpointStatus c (lgt_ESI s) (lgt_LagId s)
}.
Proof. done. Defined.

(** [apis/inv/v1alpha1/logical_endpoint_types.go:69-75 LogicalEndpoint] *)
Definition LogicalEndpoint : Type := KRM LogicalEndpointSpec LogicalEndpointStatus.

(** [apis/inv/v1alpha1/logical_endpoint_types.go:91-91 LogicalEndpointKind] *)
Definition LogicalEndpointKind : string := "LogicalEndpoint".

(** [apis/inv/v1alpha1/logical_endpoint_types.go:94-94 LogicalEndpointGroupVersionKind] *)
Definition LogicalEndpointGroupVersionKind : GroupVersionKind := WithKind inv_GroupVersion LogicalEndpointKind.

(** [apis/inv/v1alpha1/logical_endpoint_interfaces.go:25-27 LogicalEndpoint.GetCondition] *)
Definition LogicalEndpoint_GetCondition (r : LogicalEndpoint) (t : string) : Condition := krm_GetCondition r t.

(** [apis/inv/v1alpha1/logical_endpoint_interfaces.go:31-33 LogicalEndpoint.SetConditions] *)
Definition LogicalEndpoint_SetConditions (r : LogicalEndpoint) (c : list Condition) : LogicalEndpoint :=
  krm_SetConditions r c.

(** [apis/inv/v1alpha1/logical_endpoint_interfaces.go:37-47 BuildLogicalEndpoint] *)
Definition BuildLogicalEndpoint : ObjectMeta -> LogicalEndpointSpec -> LogicalEndpointStatus -> LogicalEndpoint :=
  build inv_GroupVersion LogicalEndpointKind.

(** ** Node *)

(** [apis/inv/v1alpha1/node_types.go:51-54 Location] *)
Record Location : Type := MkLocation { loc_Latitude : option string; loc_Longitude : option string }.

(** [apis/inv/v1alpha1/node_types.go:30-49 NodeSpec] *)
Record NodeSpec : Type := MkNodeSpec {
  ns_Provider : string;
  ns_Address : option string;
  ns_UserDefinedLabels : UserDefinedLabels;
  ns_Location : option Location;
  ns_NodeConfig : option ObjectReference
}.

(** [apis/inv/v1alpha1/node_types.go:57-67 NodeStatus] *)
Record NodeStatus : Type := MkNodeStatus {
  nt_ConditionedStatus : ConditionedStatus;
  nt_UsedNodeModelRef : option ObjectReference;
  nt_UsedNodeConfigRef : option ObjectReference
}.

#[export, refine] Instance NodeStatus_conditions : HasConditions NodeStatus := {
  conditioned := nt_ConditionedStatus;
  with_conditioned := fun c s => MkNodeStatus c (nt_UsedNodeModelRef s) (nt_UsedNodeConfigRef s)
}.
Proof. done. Defined.

(** [apis/inv/v1alpha1/node_types.go:76-82 Node] *)
Definition Node : Type := KRM NodeSpec NodeStatus.

(** [apis/inv/v1alpha1/node_types.go:98-98 NodeKind] *)
Definition NodeKind : string := "Node".

(** [apis/inv/v1alpha1/node_types.go:101-101 NodeGroupVersionKind] *)
Definition NodeGroupVersionKind : GroupVersionKind := WithKind inv_GroupVersion NodeKind.

(** [apis/inv/v1alpha1/node_interfaces.go:26-28 Node.GetCondition] *)
Definition Node_GetCondition (r : Node) (t : string) : Condition := krm_GetCondition r t.

(** [apis/inv/v1alpha1/node_interfaces.go:32-34 Node.SetConditions] *)
Definition Node_SetConditions (r : Node) (c : list Condition) : Node := krm_SetConditions r c.

(** [apis/inv/v1alpha1/node_interfaces.go:46-56 BuildNode] *)
Definition BuildNode : ObjectMeta -> NodeSpec -> NodeStatus -> Node := build inv_GroupVersion NodeKind.

(** ** NodeConfig and NodeModel

    [Q] is the type of resource quantities of the Kubernetes API. *)

(** [apis/inv/v1alpha1/node_config_types.go:47-51 PersistentVolume] *)
Record PersistentVolume (Q : Type) : Type := MkPersistentVolume {
  pv_Name : string; pv_MountPath : string; pv_Requests : gmap string Q
}.

(** [corev1.ResourceRequirements] *)
Record ResourceRequirements (Q : Type) : Type := MkResourceRequirements {
  rr_Limits : gmap string Q; rr_Requests : gmap string Q
}.
Arguments MkResourceRequirements {Q}.
Arguments rr_Limits {Q}.
Arguments rr_Requests {Q}.

(** [apis/inv/v1alpha1/node_config_types.go:26-45 NodeConfigSpec] *)
Record NodeConfigSpec (Q : Type) : Type := MkNodeConfigSpec {
  ncs_Provider : string;
  ncs_Model : option string;
  ncs_Image : option string;
  ncs_StartupConfig : option string;
  ncs_LicenseKey : option string;
  ncs_Resources : ResourceRequirements Q;
  ncs_PersistentVolumes : list (PersistentVolume Q);
  ncs_ParametersRef : option ObjectReference
}.
Arguments MkNodeConfigSpec {Q}.
Arguments ncs_Provider {Q}.
Arguments ncs_Model {Q}.
Arguments ncs_Image {Q}.
Arguments ncs_StartupConfig {Q}.
Arguments ncs_LicenseKey {Q}.
Arguments ncs_Resources {Q}.
Arguments ncs_PersistentVolumes {Q}.
Arguments ncs_ParametersRef {Q}.

(** [apis/inv/v1alpha1/node_config_types.go:56-61 NodeConfig] *)
Definition NodeConfig (Q : Type) : Type := KRM (NodeConfigSpec Q) unit.

Section NodeConfig.
Context {Q : Type} (MustParse : string -> result Q).

(** [apis/inv/v1alpha1/node_config_interfaces.go:23-29 NodeConfig.GetModel] *)
Definition GetModel (r : NodeConfig Q) (defaultModel : string) : string := default defaultModel (ncs_Model (spec r)).

(** [apis/inv/v1alpha1/node_config_interfaces.go:31-37 NodeConfig.GetImage] *)
Definition GetImage (r : NodeConfig Q) (defaultImageName : string) : string :=
  default defaultImageName (ncs_Image (spec r)).

(** The loop that fills an empty resource list; [MustParse] panics on a bad value. *)
Fixpoint parse_all (kvs : list (string * string)) (m : gmap string Q) : result (gmap string Q) :=
  match kvs with
  | [] => Ok m
  | (k, v) :: kvs => q ← MustParse v; parse_all kvs (<[k := q]> m)
  end.

Definition resources_or (l : gmap string Q) (d : gmap string string) : result (gmap string Q) :=
  if bool_decide (l = ∅) then parse_all (map_to_list d) ∅ else Ok l.

(** The defaults are also stored in the node config.

    [apis/inv/v1alpha1/node_config_interfaces.go:39-54 NodeConfig.GetResourceRequirements] *)
Definition GetResourceRequirements (r : NodeConfig Q) (defaultResourceLimits defaultResourceRequests : gmap string string) :
    result (NodeConfig Q * ResourceRequirements Q) :=
  l ← resources_or (rr_Limits (ncs_Resources (spec r))) defaultResourceLimits;
  q ← resources_or (rr_Requests (ncs_Resources (spec r))) defaultResourceRequests;
  let res := MkResourceRequirements l q in
  let s := spec r in
  Ok (with_spec (fun _ => MkNodeConfigSpec (ncs_Provider s) (ncs_Model s) (ncs_Image s) (ncs_StartupConfig s)
        (ncs_LicenseKey s) res (ncs_PersistentVolumes s) (ncs_ParametersRef s)) r, res).

End NodeConfig.

(** [apis/inv/v1alpha1/node_model_types.go:37-40 NodeModelInterface] *)
Record NodeModelInterface : Type := MkNodeModelInterface { nmi_Name : string; nmi_Speed : option string }.

(** [apis/inv/v1alpha1/node_model_types.go:26-35 NodeModelSpec] *)
Record NodeModelSpec : Type := MkNodeModelSpec {
  nms_Provider : string;
  nms_Interfaces : list NodeModelInterface;
  nms_ParametersRef : option ObjectReference
}.

(** [apis/inv/v1alpha1/node_model_types.go:45-50 NodeModel] *)
Definition NodeModel : Type := KRM NodeModelSpec unit.

(** ** Target *)

(** [apis/inv/v1alpha1/target_types.go:49-67 TargetSpec] *)
Record TargetSpec : Type := MkTargetSpec {
  ts_Provider : string;
  ts_Address : option string;
  ts_SecretName : string;
  ts_Encoding : option string;
  ts_Insecure : option bool;
  ts_Protocol : option string;
  ts_SkipVerify : option bool;
  ts_TLSSecretName : option string;
  ts_ParametersRef : option ObjectReference
}.

(** [apis/inv/v1alpha1/target_types.go:70-77 TargetStatus] *)
Definition TargetStatus : Type := ConditionsOnly.

(** [apis/inv/v1alpha1/target_types.go:84-90 Target] *)
Definition Target : Type := KRM TargetSpec TargetStatus.

(** [apis/inv/v1alpha1/target_types.go:106-106 TargetKind] *)
Definition TargetKind : string := "Target".

(** [apis/inv/v1alpha1/target_types.go:109-109 TargetGroupVersionKind] *)
Definition TargetGroupVersionKind : GroupVersionKind := WithKind inv_GroupVersion TargetKind.

(** [apis/inv/v1alpha1/target_interfaces.go:26-28 Target.GetCondition] *)
Definition Target_GetCondition (r : Target) (t : string) : Condition := krm_GetCondition r t.

(** [apis/inv/v1alpha1/target_interfaces.go:32-34 Target.SetConditions] *)
Definition Target_SetConditions (r : Target) (c : list Condition) : Target := krm_SetConditions r c.

(** [apis/inv/v1alpha1/target_interfaces.go:46-56 BuildTarget] *)
Definition BuildTarget : ObjectMeta -> TargetSpec -> TargetStatus -> Target := build inv_GroupVersion TargetKind.

(** ** Connectivity *)

(** [apis/inv/v1alpha1/connectivity.go:19-25 ClusterConnectivity] *)
Inductive ClusterConnectivity : Type :=
| ClusterConnectivityUnknown
| ClusterConnectivityLocal
| ClusterConnectivityRemote.

(** [apis/inv/v1alpha1/connectivity.go:40-48 GetClusterConnectivity] *)
Definition GetClusterConnectivity (topology : string) (clusterTopologies : gset string) : ClusterConnectivity :=
  if bool_decide (clusterTopologies = ∅) then ClusterConnectivityLocal
  else if bool_decide (topology ∈ clusterTopologies) then ClusterConnectivityLocal
  else ClusterConnectivityRemote.

(** ** Label selectors

    [metav1.LabelSelector] with its two parts; the selector it stands for is made by
    the library. *)
Record LabelSelectorRequirement : Type := MkLabelSelectorRequirement {
  lsr_Key : string; lsr_Operator : string; lsr_Values : list string
}.
Record MetaLabelSelector : Type := MkMetaLabelSelector {
  mls_MatchLabels : labels; mls_MatchExpressions : list LabelSelectorRequirement
}.

(** ** LogicalInterconnect *)

(** [apis/topo/v1alpha1/logical_interconnect_types.go:63-70 SelectorPolicy] *)
Record SelectorPolicy : Type := MkSelectorPolicy { sp_NodeDiversity : option Z }.

(** [apis/topo/v1alpha1/logical_interconnect_types.go:46-61 LogicalInterconnectEndpoint] *)
Record LogicalInterconnectEndpoint : Type := MkLogicalInterconnectEndpoint {
  lie_Name : option string;
  lie_Topologies : list string;
  lie_Selector : option MetaLabelSelector;
  lie_SelectorPolicy : option SelectorPolicy
}.

(** [apis/topo/v1alpha1/logical_interconnect_types.go:28-44 LogicalInterconnectSpec] *)
Record LogicalInterconnectSpec : Type := MkLogicalInterconnectSpec {
  lis_Links : Z;
  lis_Type : option string;
  lis_Lacp : option bool;
  lis_Endpoints : list LogicalInterconnectEndpoint;
  lis_UserDefinedLabels : UserDefinedLabels
}.

(** [apis/topo/v1alpha1/logical_interconnect_types.go:73-78 LogicalInterconnectStatus] *)
Definition LogicalInterconnectStatus : Type := ConditionsOnly.

(** [apis/topo/v1alpha1/logical_interconnect_types.go:85-91 LogicalInterconnect] *)
Definition LogicalInterconnect : Type := KRM LogicalInterconnectSpec LogicalInterconnectStatus.

(** [apis/topo/v1alpha1/logical_interconnect_types.go:107-107 LogicalInterconnectKind] *)
Definition LogicalInterconnectKind : string := "LogicalInterconnect".

(** [apis/topo/v1alpha1/logical_interconnect_interfaces.go:24-26 LogicalInterconnect.GetCondition] *)
Definition LogicalInterconnect_GetCondition (r : LogicalInterconnect) (t : string) : Condition := krm_GetCondition r t.

(** [apis/topo/v1alpha1/logical_interconnect_interfaces.go:30-32 LogicalInterconnect.SetConditions] *)
Definition LogicalInterconnect_SetConditions (r : LogicalInterconnect) (c : list Condition) : LogicalInterconnect :=
  krm_SetConditions r c.

(** [apis/topo/v1alpha1/logical_interconnect_interfaces.go:34-40 LogicalInterconnect.GetTopologies] *)
Definition LogicalInterconnect_GetTopologies (r : LogicalInterconnect) : list string :=
  lis_Endpoints (spec r) ≫= lie_Topologies.

(** ** RawTopology *)

(** [apis/topo/v1alpha1/rawtopology_types.go:30-42 RawTopologySpec] *)
Record RawTopologySpec : Type := MkRawTopologySpec {
  rts_Nodes : gmap string NodeSpec;
  rts_Links : list LinkSpec;
  rts_UserDefinedLabels : UserDefinedLabels;
  rts_Location : option Location
}.

(** [apis/topo/v1alpha1/rawtopology_types.go:45-52 RawTopologyStatus] *)
Definition RawTopologyStatus : Type := ConditionsOnly.

(** [apis/topo/v1alpha1/rawtopology_types.go:59-65 RawTopology] *)
Definition RawTopology : Type := KRM RawTopologySpec RawTopologyStatus.

(** [apis/topo/v1alpha1/rawtopology_types.go:81-81 RawTopologyKind] *)
Definition RawTopologyKind : string := "RawTopology".

(** [apis/topo/v1alpha1/rawtopology_interfaces.go:24-26 RawTopology.GetCondition] *)
Definition RawTopology_GetCondition (r : RawTopology) (t : string) : Condition := krm_GetCondition r t.

(** [apis/topo/v1alpha1/rawtopology_interfaces.go:30-32 RawTopology.SetConditions] *)
Definition RawTopology_SetConditions (r : RawTopology) (c : list Condition) : RawTopology := krm_SetConditions r c.

(** ** Types that no controller uses *)

(** [apis/inv/v1alpha1/topology_types.go:29-30 TopologySpec] *)
Inductive TopologySpec : Type := MkTopologySpec.

(** [apis/inv/v1alpha1/topology_types.go:33-40 TopologyStatus] *)
Definition TopologyStatus : Type := ConditionsOnly.

(** [apis/inv/v1alpha1/topology_types.go:47-53 Topology] *)
Definition Topology : Type := KRM TopologySpec TopologyStatus.

(** [apis/inv/v1alpha1/topology_types.go:58-62 TopologyList] *)
Record TopologyList : Type := MkTopologyList { tpl_Items : list Topology }.

(** [apis/inv/v1alpha1/topology_types.go:69-69 TopologyKind] *)
Definition TopologyKind : string := "Topology".

(** [apis/inv/v1alpha1/topology_types.go:72-72 TopologyGroupVersionKind] *)
Definition TopologyGroupVersionKind : GroupVersionKind := WithKind inv_GroupVersion TopologyKind.

(** [apis/inv/v1alpha1/topology_interfaces.go:26-28 Topology.GetCondition] *)
Definition Topology_GetCondition (r : Topology) (t : string) : Condition := krm_GetCondition r t.

(** [apis/inv/v1alpha1/topology_interfaces.go:32-34 Topology.SetConditions] *)
Definition Topology_SetConditions (r : Topology) (c : list Condition) : Topology := krm_SetConditions r c.

(** [apis/inv/v1alpha1/topology_interfaces.go:36-42 TopologyList.GetItems] *)
Definition TopologyList_GetItems (r : TopologyList) : list Topology := tpl_Items r.

(** [apis/inv/v1alpha1/topology_interfaces.go:46-56 BuildTopology] *)
Definition BuildTopology : ObjectMeta -> TopologySpec -> TopologyStatus -> Topology := build inv_GroupVersion TopologyKind.

(** [apis/inv/v1alpha1/nodepool_types.go:30-42 NodePoolSpec] *)
Record NodePoolSpec : Type := MkNodePoolSpec {
  nps_Provider : string;
  nps_UserDefinedLabels : UserDefinedLabels;
  nps_Location : option Location;
  nps_NodeConfig : option ObjectReference
}.

(** [apis/inv/v1alpha1/nodepool_types.go:45-55 NodePoolStatus] *)
Record NodePoolStatus : Type := MkNodePoolStatus {
  npt_ConditionedStatus : ConditionedStatus;
  npt_UsedNodeModelRef : option ObjectReference;
  npt_UsedNodeConfigRef : option ObjectReference
}.

(** [apis/inv/v1alpha1/nodepool_types.go:63-69 NodePool] *)
Definition NodePool : Type := KRM NodePoolSpec NodePoolStatus.

(** [apis/inv/v1alpha1/nodepool_types.go:74-78 NodePoolList] *)
Record NodePoolList : Type := MkNodePoolList { npl_Items : list NodePool }.

(** [apis/inv/v1alpha1/nodepool_types.go:85-85 NodePoolKind] *)
Definition NodePoolKind : string := "NodePool".

(** [apis/inv/v1alpha1/nodepool_types.go:88-88 NodePoolGroupVersionKind] *)
Definition NodePoolGroupVersionKind : GroupVersionKind := WithKind inv_GroupVersion NodePoolKind.

(** [apis/inv/v1alpha1/provider_types.go:21-29 Provider] *)
Record Provider : Type := MkProvider { prv_ParametersRef : option ObjectReference; prv_Provider : string }.

(** *** apis/auto *)

(** [apis/auto/v1alpha1/groupversion_info.go:28-29 GroupVersion] *)
Definition auto_GroupVersion : GroupVersion := MkGroupVersion "auto.nephio.org" "v1alpha1".

(** [apis/auto/v1alpha1/replicaset_types.go:47-67 ObjectSelector] *)
Record ObjectSelector : Type := MkObjectSelector {
  osl_VariableName : string;
  osl_LabelSelector : MetaLabelSelector;
  osl_APIVersion : option string;
  osl_Kind : option string;
  osl_Name : option string
}.

(** [apis/auto/v1alpha1/replicaset_types.go:78-80 Function] *)
Record PipelineFunction : Type := MkPipelineFunction { fn_Expr : option string }.

(** [apis/auto/v1alpha1/replicaset_types.go:69-76 Pipeline] *)
Record Pipeline : Type := MkPipeline { pl_Mutators : list PipelineFunction; pl_Validators : list PipelineFunction }.

(** The template is kept as its bytes.

    [apis/auto/v1alpha1/replicaset_types.go:30-45 ReplicaSetSpec] *)
Record ReplicaSetSpec : Type := MkReplicaSetSpec {
  rss_Replicas : option Z;
  rss_ObjectSelectors : list ObjectSelector;
  rss_Template : string;
  rss_Pipeline : option Pipeline
}.

(** [apis/auto/v1alpha1/replicaset_types.go:83-88 ReplicaSetStatus] *)
Definition ReplicaSetStatus : Type := ConditionsOnly.

(** [apis/auto/v1alpha1/replicaset_types.go:95-101 ReplicaSet] *)
Definition ReplicaSet : Type := KRM ReplicaSetSpec ReplicaSetStatus.

(** [apis/auto/v1alpha1/replicaset_types.go:106-110 ReplicaSetList] *)
Record ReplicaSetList : Type := MkReplicaSetList { rsl_Items : list ReplicaSet }.

(** [apis/auto/v1alpha1/replicaset_types.go:117-117 ReplicaSetKind] *)
Definition ReplicaSetKind : string := "ReplicaSet".

(** [apis/auto/v1alpha1/replicaset_types.go:120-120 ReplicaSetGroupVersionKind] *)
Definition ReplicaSetGroupVersionKind : GroupVersionKind := WithKind auto_GroupVersion ReplicaSetKind.

(** ** Properties *)

(** An endpoint is free for an object, or it is allocated to another, or it is its own:
    the two tests exclude each other and both are false exactly for an unclaimed
    endpoint. *)
Lemma allocated_cases (r : Endpoint) cr :
  (ept_ClaimRef (status r) = None /\ IsAllocated r cr = false /\ WasAllocated r cr = false) \/
  (exists ref, ept_ClaimRef (status r) = Some ref /\ WasAllocated r cr = names ref cr /\ IsAllocated r cr = negb (names ref cr)).
Proof.
  unfold IsAllocated, WasAllocated. destruct (ept_ClaimRef (status r)) as [ref|]; [right|by left].
  exists ref. by destruct (names ref cr).
Qed.

Lemma node_diverse_spec idx nodes name : forall i,
  node_diverse i idx nodes name = true <->
  forall j n, nodes !! j = Some n -> i + Z.of_nat j <> idx -> n <> "" -> n <> name.
Proof.
  induction nodes as [|n nodes IH]; intros i; cbn [node_diverse].
  - split; [|done]. intros _ j n. by rewrite lookup_nil.
  - case_bool_decide as Hn.
    + split; [done|]. intros H. destruct Hn as (H1&H2&H3). exfalso. apply (H 0%nat n); [done|lia|done..].
    + rewrite IH. split.
      * intros H [|j] m; cbn; [intros [= <-] ???; apply Hn; split_and!; [lia|done..]|].
        intros Hj Hi. apply (H j); [done|lia].
      * intros H j m Hj Hi. apply (H (S j)); [done|lia].
Qed.
