(* ===== verification/Lease.v ===== *)
(** * pkg/lease: the lease that serializes the writers of the endpoints

    A controller takes the lease before it changes the endpoints. The lease is an
    object of the API server, which accepts a write only when it carries the version
    that is stored; several controllers may run [AcquireLease] at the same time, and
    their calls to the API server interleave. *)

From S2P Require Import Prelude Meta Labels Conditions KRM.

Local Open Scope Z_scope.

(** ** Data *)

(** Times and durations are in nanoseconds.

    [pkg/lease/lease.go:36-36 defaultLeaseInterval] *)
Definition defaultLeaseInterval : Z := 1000000000.
(** [pkg/lease/lease.go:37-37 RequeueInterval] *)
Definition RequeueInterval : Z := 2 * defaultLeaseInterval.
Definition Second : Z := 1000000000.

(** [coordinationv1.LeaseSpec] *)
Record LeaseSpec : Type := MkLeaseSpec {
  HolderIdentity : option string;
  LeaseDurationSeconds : option Z;
  AcquireTime : option Z;
  RenewTime : option Z
}.
Definition Lease : Type := KRM LeaseSpec unit.
Definition lease_version (l : Lease) : string := om_ResourceVersion (o_Meta (krm_Object l)).
Definition set_lease_version (v : string) (l : Lease) : Lease :=
  MkKRM (with_meta (set_ResourceVersion v) (krm_Object l)) (spec l) (status l).

(** [strings.ToLower] on ASCII, the alphabet of the names and kinds of objects. *)
Definition lower_ascii (c : ascii) : ascii :=
  let n := Ascii.N_of_ascii c in
  if (65 <=? n)%N && (n <=? 90)%N then Ascii.ascii_of_N (n + 32)%N else c.
Fixpoint ToLower (s : string) : string :=
  match s with EmptyString => EmptyString | String c s => String (lower_ascii c) (ToLower s) end.

(** [pkg/lease/lease.go:61-66 getHolderIdentity] *)
Definition getHolderIdentity (cr : Object) : string :=
  ToLower (Kind (o_GVK cr)) +:+ "." +:+ ToLower (om_Namespace (o_Meta cr)) +:+ "." +:+
  ToLower (om_Name (o_Meta cr)).

(** [pkg/lease/lease.go:52-59 lease] *)
Record lease : Type := MkLease { leasName : string; leaseNamespace : string }.
Definition lease_nsn (r : lease) : NamespacedName := NSN (leaseNamespace r) (leasName r).

(** [pkg/lease/lease.go:44-50 New] *)
Definition lease_New (leaseNSN : NamespacedName) : lease := MkLease (nsn_Name leaseNSN) (nsn_Namespace leaseNSN).

(** The lease of [cr] at the time [now].

    [pkg/lease/lease.go:68-82 lease.getLease] *)
Definition getLease (r : lease) (cr : Object) (now : Z) : Lease :=
  MkKRM (MkObject (GVK "" "" "") (MkObjectMeta (leasName r) "" (leaseNamespace r) "" "" None None None [] []))
    (MkLeaseSpec (Some (getHolderIdentity cr)) (Some (defaultLeaseInterval / Second)) (Some now) (Some now)) tt.

(** ** The calls of an acquisition

    A program is a tree of calls: what it does next depends on the answer. A call is
    one step; other programs may run between two calls. *)
Inductive prog (A : Type) : Type :=
| Done (r : result A)
| GetLease (k : NamespacedName) (f : result Lease -> prog A)
| CreateLease (l : Lease) (f : error -> prog A)
| UpdateLease (l : Lease) (f : error -> prog A)
| NowMicro (f : Z -> prog A).
Arguments Done {A} r.
Arguments GetLease {A} k f.
Arguments CreateLease {A} l f.
Arguments UpdateLease {A} l f.
Arguments NowMicro {A} f.

Section AcquireLease.
Context `{E : ErrorsAPI} (r : lease) (cr : Object).

Definition finish_update (e : error) : prog unit :=
  match e with Some e => Done (Err e) | None => Done (Ok tt) end.

(** The lease is taken over or renewed, at the version that was read. *)
Definition renew (l : Lease) : prog unit :=
  NowMicro (fun now => UpdateLease (set_lease_version (lease_version l) (getLease r cr now)) finish_update).

(** Whether the lease that was read is held by another at the time [now]. *)
Definition held_by_other (l : Lease) (holder : string) (now : Z) : prog unit :=
  if bool_decide (holder <> getHolderIdentity cr) then
    match RenewTime (spec l) with
    | Some t =>
        match LeaseDurationSeconds (spec l) with
        | Some d =>
            let expectedRenewTime := t + d * Second in
            if negb (bool_decide (expectedRenewTime < now)) then
              Done (Err ("cannot acquire lease, lease held by another identity: " +:+ holder))
            else renew l
        | None => Done Panic
        end
    | None => renew l
    end
  else renew l.

Definition check_lease (l : Lease) : prog unit :=
  match HolderIdentity (spec l) with
  | None => Done (Err "lease nil or holderidentity nil")
  | Some holder => NowMicro (fun now => held_by_other l holder now)
  end.

Definition get_again : prog unit :=
  GetLease (lease_nsn r) (fun a =>
    match a with
    | Ok l => check_lease l
    | Err e => Done (Err e)
    | Panic => Done Panic
    end).

Definition after_create (e : error) : prog unit :=
  match e with Some e => Done (Err e) | None => get_again end.

Definition create_lease : prog unit :=
  NowMicro (fun now => CreateLease (getLease r cr now) after_create).

(** [pkg/lease/lease.go:84-134 lease.AcquireLease] *)
Definition AcquireLease : prog unit :=
  GetLease (lease_nsn r) (fun a =>
    match a with
    | Ok _ => get_again
    | Err e =>
        match IgnoreNotFound (Some e) with
        | Some e => Done (Err e)
        | None => create_lease
        end
    | Panic => Done Panic
    end).

End AcquireLease.

(** ** The API server *)

Record LeaseClient (S : Type) : Type := MkLeaseClient {
  lc_Get : NamespacedName -> S -> result Lease;
  lc_Create : Lease -> M S Lease;
  lc_Update : Lease -> M S Lease
}.
Arguments lc_Get {S} l.
Arguments lc_Create {S} l.
Arguments lc_Update {S} l.

(** A program that runs without interruption, at the time [now]. *)
Fixpoint run_prog {S A} (c : LeaseClient S) (now : Z) (p : prog A) : M S A := fun s =>
  match p with
  | Done a => (s, a)
  | GetLease k f => run_prog c now (f (lc_Get c k s)) s
  | CreateLease l f =>
      match lc_Create c l s with
      | (s, Ok _) => run_prog c now (f None) s
      | (s, Err e) => run_prog c now (f (Some e)) s
      | (s, Panic) => (s, Panic)
      end
  | UpdateLease l f =>
      match lc_Update c l s with
      | (s, Ok _) => run_prog c now (f None) s
      | (s, Err e) => run_prog c now (f (Some e)) s
      | (s, Panic) => (s, Panic)
      end
  | NowMicro f => run_prog c now (f now) s
  end.

(** The API server keeps times in microseconds. *)
Definition truncate (t : Z) : Z := t - t mod 1000.
Definition stored (v : string) (l : Lease) : Lease :=
  let s := spec l in
  MkKRM (with_meta (set_ResourceVersion v) (krm_Object l))
    (MkLeaseSpec (HolderIdentity s) (LeaseDurationSeconds s) (truncate <$> AcquireTime s) (truncate <$> RenewTime s)) tt.

(** What a write of [l] does, [view] being what is stored and [versions] the versions
    ever given out: nothing, or the lease is stored with a new version. A call that
    fails may have written. *)
Definition writes {S} (view : S -> gmap NamespacedName Lease) (versions : S -> gset string) (l : Lease) (s s' : S)
    (o : result Lease) : Prop :=
  (view s' = view s /\ versions s' = versions s /\ forall x, o <> Ok x) \/
  exists v, (v ∉ versions s) /\ v <> "" /\ view s' = <[krm_nsn l := stored v l]> (view s) /\
    versions s' = {[v]} ∪ versions s /\ (forall x, o = Ok x -> x = stored v l).

(** The documented behaviour of the API server: reads return what is stored, an object
    is created only when there is none, it is updated only at the version that is
    stored, and a version is given out once. *)
Class LeaseLaws {S} `{E : ErrorsAPI} (c : LeaseClient S) (view : S -> gmap NamespacedName Lease)
    (versions : S -> gset string) : Prop := {
  lc_Get_found : forall s k l, view s !! k = Some l -> lc_Get c k s = Ok l;
  lc_Get_missing : forall s k, view s !! k = None -> exists e, lc_Get c k s = Err e /\ IsNotFound e = true;
  lc_versions : forall s k l, view s !! k = Some l -> lease_version l ∈ versions s /\ lease_version l <> "";
  lc_Create_writes : forall l s s' o, lc_Create c l s = (s', o) -> writes view versions l s s' o;
  lc_Create_new : forall l s s' o, lc_Create c l s = (s', o) -> is_Some (view s !! krm_nsn l) -> view s' = view s;
  lc_Update_writes : forall l s s' o, lc_Update c l s = (s', o) -> writes view versions l s s' o;
  lc_Update_version : forall l s s' o, lc_Update c l s = (s', o) -> lease_version l <> "" ->
    view s' = view s \/ exists old, view s !! krm_nsn l = Some old /\ lease_version old = lease_version l
}.

(** ** Several controllers *)

Section System.
Context {S : Type} `{E : ErrorsAPI} (c : LeaseClient S) (view : S -> gmap NamespacedName Lease) (versions : S -> gset string).
Context (r : lease).
Abbreviation key := (lease_nsn r).

(** The API server, the time, the acquisitions that run, each with the object it is made
    for, and the leases that were granted: the identity of the holder and the time of
    the renewal. *)
Record sys : Type := MkSys {
  y_srv : S; y_clock : Z; y_procs : gmap nat (Object * prog unit); y_log : list (string * Z)
}.

Definition continue (y : sys) (s : S) (i : nat) (cr : Object) (p : prog unit) (granted : list (string * Z)) : sys :=
  MkSys s (y_clock y) (<[i := (cr, p)]> (y_procs y)) (y_log y ++ granted).

Definition answer {A} (f : error -> prog A) {B} (o : result B) : prog A :=
  match o with Ok _ => f None | Err e => f (Some e) | Panic => Done Panic end.
Definition grant (o : result Lease) : list (string * Z) :=
  match o with
  | Ok l => match HolderIdentity (spec l), RenewTime (spec l) with Some h, Some t => [(h, t)] | _, _ => [] end
  | _ => []
  end.

Inductive lease_step : sys -> sys -> Prop :=
| step_start y i cr : y_procs y !! i = None ->
    lease_step y (continue y (y_srv y) i cr (AcquireLease r cr) [])
| step_time y t : y_clock y <= t -> lease_step y (MkSys (y_srv y) t (y_procs y) (y_log y))
| step_other y s : view s !! key = view (y_srv y) !! key -> versions (y_srv y) ⊆ versions s ->
    lease_step y (MkSys s (y_clock y) (y_procs y) (y_log y))
| step_get y i cr k f : y_procs y !! i = Some (cr, GetLease k f) ->
    lease_step y (continue y (y_srv y) i cr (f (lc_Get c k (y_srv y))) [])
| step_create y i cr l f s o : y_procs y !! i = Some (cr, CreateLease l f) -> lc_Create c l (y_srv y) = (s, o) ->
    lease_step y (continue y s i cr (answer f o) [])
| step_update y i cr l f s o : y_procs y !! i = Some (cr, UpdateLease l f) -> lc_Update c l (y_srv y) = (s, o) ->
    lease_step y (continue y s i cr (answer f o) (grant o))
| step_now y i cr f : y_procs y !! i = Some (cr, NowMicro f) ->
    lease_step y (continue y (y_srv y) i cr (f (y_clock y)) []).

(** *** Schedules

    The steps of the controllers as a function of the schedule. *)
Inductive action : Type := Start (i : nat) (cr : Object) | Wait (d : Z) | Run (i : nat).

Definition act (a : action) (y : sys) : option sys :=
  match a with
  | Start i cr =>
      match y_procs y !! i with
      | None => Some (continue y (y_srv y) i cr (AcquireLease r cr) [])
      | Some _ => None
      end
  | Wait d => if bool_decide (0 <= d) then Some (MkSys (y_srv y) (y_clock y + d) (y_procs y) (y_log y)) else None
  | Run i =>
      match y_procs y !! i with
      | Some (cr, GetLease k f) => Some (continue y (y_srv y) i cr (f (lc_Get c k (y_srv y))) [])
      | Some (cr, CreateLease l f) => let '(s, o) := lc_Create c l (y_srv y) in Some (continue y s i cr (answer f o) [])
      | Some (cr, UpdateLease l f) => let '(s, o) := lc_Update c l (y_srv y) in Some (continue y s i cr (answer f o) (grant o))
      | Some (cr, NowMicro f) => Some (continue y (y_srv y) i cr (f (y_clock y)) [])
      | _ => None
      end
  end.

Fixpoint schedule (l : list action) (y : sys) : option sys :=
  match l with
  | [] => Some y
  | a :: l => y ← act a y; schedule l y
  end.

Lemma act_step a y y' : act a y = Some y' -> lease_step y y'.
Proof.
  destruct a as [i cr|d|i]; cbn [act].
  - destruct (y_procs y !! i) eqn:Hi; [done|]. intros [= <-]. by apply step_start.
  - case_bool_decide; [|done]. intros [= <-]. apply step_time. lia.
  - destruct (y_procs y !! i) as [[cr [a|k f|l f|l f|f]]|] eqn:Hi; [done|..|done].
    + intros [= <-]. by apply step_get.
    + destruct (lc_Create c l (y_srv y)) as [s o] eqn:Ho. intros [= <-]. by eapply step_create.
    + destruct (lc_Update c l (y_srv y)) as [s o] eqn:Ho. intros [= <-]. by eapply step_update.
    + intros [= <-]. by apply step_now.
Qed.

Lemma schedule_steps l : forall y y', schedule l y = Some y' -> rtc lease_step y y'.
Proof.
  induction l as [|a l IH]; intros y y'; cbn [schedule]; [by intros [= <-]|].
  destruct (act a y) as [y1|] eqn:Ha; [|done]. intros Hl. eapply rtc_l; [by eapply act_step|by apply IH].
Qed.

(** A lease that was written by [AcquireLease] before the time [now]. *)
Definition written (now : Z) (l : Lease) : Prop :=
  LeaseDurationSeconds (spec l) = Some 1 /\
  exists h t, HolderIdentity (spec l) = Some h /\ RenewTime (spec l) = Some t /\ t <= now /\ t mod 1000 = 0.

(** A lease that was read: when its version is still the stored one, it is the stored
    lease. *)
Definition snapshot (y : sys) (l : Lease) : Prop :=
  written (y_clock y) l /\ lease_version l ∈ versions (y_srv y) /\ lease_version l <> "" /\
  forall l', view (y_srv y) !! key = Some l' -> lease_version l' = lease_version l -> l' = l.

(** The lease may be taken for [cr] at the time [now]. *)
Definition takes (cr : Object) (l : Lease) (now : Z) : Prop :=
  forall h t, HolderIdentity (spec l) = Some h -> RenewTime (spec l) = Some t ->
    t <= now /\ (h <> getHolderIdentity cr -> t + defaultLeaseInterval < now).

(** Where an acquisition can be. *)
Inductive phase (y : sys) (cr : Object) : prog unit -> Prop :=
| ph_start : phase y cr (AcquireLease r cr)
| ph_new : phase y cr (create_lease r cr)
| ph_create now : now <= y_clock y -> phase y cr (CreateLease (getLease r cr now) (after_create r cr))
| ph_get : phase y cr (get_again r cr)
| ph_check l h : snapshot y l -> HolderIdentity (spec l) = Some h ->
    phase y cr (NowMicro (fun now => held_by_other r cr l h now))
| ph_renew l now : snapshot y l -> now <= y_clock y -> takes cr l now -> phase y cr (renew r cr l)
| ph_update l now : snapshot y l -> now <= y_clock y -> takes cr l now ->
    phase y cr (UpdateLease (set_lease_version (lease_version l) (getLease r cr now)) finish_update)
| ph_done a : phase y cr (Done a).

(** The grant of [x] is followed by one of [x']. *)
Definition after (x x' : string * Z) : Prop := x.2 <= x'.2 /\ (x.1 <> x'.1 -> x.2 + defaultLeaseInterval <= x'.2).

Record lease_inv (y : sys) : Prop := {
  inv_stored : forall l, view (y_srv y) !! key = Some l -> written (y_clock y) l;
  inv_procs : forall i cr p, y_procs y !! i = Some (cr, p) -> phase y cr p;
  inv_last : forall x, x ∈ y_log y -> exists (l : Lease) h t, view (y_srv y) !! key = Some l /\
    HolderIdentity (spec l) = Some h /\ RenewTime (spec l) = Some t /\ after x (h, t);
  inv_log : forall i j x x', (i < j)%nat -> y_log y !! i = Some x -> y_log y !! j = Some x' -> after x x'
}.

(** What the other steps keep of what an acquisition has read. *)
Record later (y y' : sys) : Prop := {
  later_clock : y_clock y <= y_clock y';
  later_versions : versions (y_srv y) ⊆ versions (y_srv y');
  later_view : forall l, view (y_srv y') !! key = Some l -> lease_version l ∈ versions (y_srv y) ->
    view (y_srv y) !! key = Some l
}.

Lemma written_later t t' l : t <= t' -> written t l -> written t' l.
Proof. intros Ht (Hd&h&u&Hh&Hu&Hle&Hm). split; [done|]. exists h, u. split_and!; [done..|lia|done]. Qed.

Lemma snapshot_later y y' l : later y y' -> snapshot y l -> snapshot y' l.
Proof.
  intros [Hc Hv Hw] (Hwr&Hin&Hne&Heq). split_and!; [by eapply written_later|by apply Hv|done|].
  intros l' Hl' He. apply Heq; [|done]. apply Hw; [done|]. by rewrite He.
Qed.

Lemma phase_later y y' cr p : later y y' -> phase y cr p -> phase y' cr p.
Proof.
  intros Hl Hp. pose proof (later_clock _ _ Hl). destruct Hp.
  - apply ph_start.
  - apply ph_new.
  - apply ph_create. lia.
  - apply ph_get.
  - apply ph_check; [by eapply snapshot_later|done].
  - eapply ph_renew; [by eapply snapshot_later| |done]. lia.
  - eapply ph_update; [by eapply snapshot_later| |done]. lia.
  - apply ph_done.
Qed.

Context `{!LeaseLaws c view versions}.

(** A step that leaves the API server and the time as they are. *)
Lemma inv_continue y i cr p : lease_inv y -> phase y cr p -> lease_inv (continue y (y_srv y) i cr p []).
Proof.
  intros [H1 H2 H3 H4] Hp. split; cbn [continue y_srv y_clock y_procs y_log]; rewrite ?app_nil_r; [done| |done..].
  intros j cr' p' Hj.
  assert (Hl : later y (continue y (y_srv y) i cr p [])) by (split; [reflexivity|done|done]).
  destruct (decide (i = j)) as [<-|Hne].
  - rewrite lookup_insert_eq in Hj. injection Hj as <- <-. by eapply phase_later.
  - rewrite lookup_insert_ne in Hj by done. eapply phase_later; [done|]. by eapply H2.
Qed.

(** A step of the API server that leaves the lease as it is. *)
Lemma inv_env y s : lease_inv y -> view s !! key = view (y_srv y) !! key -> versions (y_srv y) ⊆ versions s ->
  lease_inv (MkSys s (y_clock y) (y_procs y) (y_log y)).
Proof.
  intros [H1 H2 H3 H4] Hs Hv. split; cbn [y_srv y_clock y_procs y_log]; rewrite ?Hs; [exact H1| |exact H3|exact H4].
  intros i cr p Hi. eapply phase_later; [|by eapply H2]. split; cbn; [reflexivity|done|by rewrite Hs].
Qed.

Lemma phase_answer y cr f {B} (o : result B) : (forall e, phase y cr (f e)) -> phase y cr (answer f o).
Proof. intros Hf. destruct o; cbn; [apply Hf..|apply ph_done]. Qed.

(** A step that stores a lease with a new version. *)
Lemma inv_write y s i cr p l v h t log : lease_inv y ->
  view s = <[key := stored v l]> (view (y_srv y)) -> versions s = {[v]} ∪ versions (y_srv y) -> v ∉ versions (y_srv y) ->
  written (y_clock y) (stored v l) -> HolderIdentity (spec (stored v l)) = Some h -> RenewTime (spec (stored v l)) = Some t ->
  (forall x, x ∈ y_log y -> after x (h, t)) -> (forall x, x ∈ log -> x = (h, t)) -> (length log <= 1)%nat ->
  (forall y', later y y' -> phase y' cr p) ->
  lease_inv (continue y s i cr p log).
Proof.
  intros [H1 H2 H3 H4] Hs Hv Hnew Hwr Hh Ht Hafter Hlog Hlen Hp.
  assert (Hl : later y (continue y s i cr p log)).
  { split; cbn; [reflexivity|rewrite Hv; apply union_subseteq_r|]. intros l' Hl' Hin. rewrite Hs in Hl'.
    rewrite lookup_insert_eq in Hl'. injection Hl' as <-. by destruct Hnew. }
  assert (Hself : after (h, t) (h, t)) by (split; [reflexivity|done]).
  split; cbn [continue y_srv y_clock y_procs y_log].
  - rewrite Hs, lookup_insert_eq. by intros l' [= <-].
  - intros j cr' p' Hj. destruct (decide (i = j)) as [<-|Hne].
    + rewrite lookup_insert_eq in Hj. injection Hj as <- <-. by apply Hp.
    + rewrite lookup_insert_ne in Hj by done. eapply phase_later; [done|]. by eapply H2.
  - intros x Hx. exists (stored v l), h, t. rewrite Hs, lookup_insert_eq. split_and!; [done..|].
    apply elem_of_app in Hx as [Hx|Hx]; [by apply Hafter|]. by rewrite (Hlog x Hx).
  - intros j k x x' Hjk Hj Hk. apply lookup_app_Some in Hj as [Hj|[Hj Hj2]].
    + apply lookup_app_Some in Hk as [Hk|[_ Hk]]; [by eapply H4|].
      rewrite (Hlog x') by (by eapply list_elem_of_lookup_2). apply Hafter. by eapply list_elem_of_lookup_2.
    + apply lookup_lt_Some in Hj2. apply lookup_app_Some in Hk as [Hk|[_ Hk]]; apply lookup_lt_Some in Hk; lia.
Qed.

(** *** The steps of an acquisition *)

Lemma read_snapshot y l : lease_inv y -> lc_Get c key (y_srv y) = Ok l -> snapshot y l.
Proof.
  intros Hi Hg. destruct (view (y_srv y) !! key) as [l0|] eqn:Hl.
  - rewrite (lc_Get_found _ _ _ Hl) in Hg. injection Hg as ->. destruct (lc_versions _ _ _ Hl) as [Hv Hne].
    split_and!; [by apply (inv_stored _ Hi)|done..|]. intros l' Hl' _. rewrite Hl in Hl'. by injection Hl' as ->.
  - destruct (lc_Get_missing _ _ Hl) as (e&He&_). rewrite He in Hg. discriminate Hg.
Qed.

Lemma phase_GetLease y cr k f : lease_inv y -> phase y cr (GetLease k f) -> phase y cr (f (lc_Get c k (y_srv y))).
Proof.
  intros Hi Hp. inversion Hp; subst.
  - destruct (lc_Get c key (y_srv y)) as [l|e|]; [apply ph_get| |apply ph_done].
    destruct (IgnoreNotFound (Some e)); [apply ph_done|apply ph_new].
  - destruct (lc_Get c key (y_srv y)) as [l|e|] eqn:Hg; [|apply ph_done..].
    unfold check_lease. destruct (HolderIdentity (spec l)) as [h|] eqn:Hh; [|apply ph_done].
    apply ph_check; [by apply read_snapshot|done].
Qed.

Lemma takes_later cr l now now' : now <= now' -> takes cr l now -> takes cr l now'.
Proof. intros Hn Ht h t Hh Hr. destruct (Ht h t Hh Hr) as [H1 H2]. split; [lia|]. intros Hd. specialize (H2 Hd). lia. Qed.

Lemma phase_NowMicro y cr f : phase y cr (NowMicro f) -> phase y cr (f (y_clock y)).
Proof.
  intros Hp. inversion Hp as [| | | |l h Hs Hh Heq|l now Hs Hn Ht Heq| |]; subst.
  - apply ph_create. reflexivity.
  - destruct Hs as [Hw Hs']. pose proof Hw as (Hd&h'&t&Hh'&Ht&Hle&_). rewrite Hh in Hh'. injection Hh' as <-.
    unfold held_by_other. destruct (bool_decide_reflect (h <> getHolderIdentity cr)) as [Hne|Heq].
    + rewrite Ht, Hd. destruct (bool_decide_reflect (t + 1 * Second < y_clock y)) as [Hlt|]; cbn [negb]; [|apply ph_done].
      eapply ph_renew; [by split|reflexivity|]. intros h' t'. rewrite Hh, Ht. intros [= <-] [= <-].
      split; [lia|]. intros _. unfold Second in Hlt. unfold defaultLeaseInterval. lia.
    + eapply ph_renew; [by split|reflexivity|]. intros h' t'. rewrite Hh, Ht. intros [= <-] [= <-].
      split; [lia|]. done.
  - eapply ph_update; [done|reflexivity|]. by eapply takes_later.
Qed.

Lemma truncate_le t : truncate t <= t.
Proof. unfold truncate. pose proof (Z.mod_pos_bound t 1000). lia. Qed.
Lemma truncate_aligned t : truncate t mod 1000 = 0.
Proof. unfold truncate. rewrite Zminus_mod_idemp_r, Z.sub_diag. done. Qed.
Lemma le_truncate u t : u mod 1000 = 0 -> u <= t -> u <= truncate t.
Proof. unfold truncate. intros Hu Hle. pose proof (Z.div_mod u 1000). pose proof (Z.div_mod t 1000). pose proof (Z.mod_pos_bound t 1000). nia. Qed.

Lemma written_getLease clock cr now v l : now <= clock ->
  spec l = spec (getLease r cr now) -> written clock (stored v l) /\
  HolderIdentity (spec (stored v l)) = Some (getHolderIdentity cr) /\ RenewTime (spec (stored v l)) = Some (truncate now).
Proof.
  intros Hn Hs. unfold written, stored. cbn [spec]. rewrite Hs. split_and!; [done| |done..].
  eexists _, _. split_and!; [reflexivity..| |apply truncate_aligned]. pose proof (truncate_le now). lia.
Qed.

(** A write with a new version changes what is stored. *)
Lemma write_changes s v l (m : gmap NamespacedName Lease) : v ∉ versions s -> m = <[key := stored v l]> (view s) -> m <> view s.
Proof.
  intros Hv -> He. assert (Hl : view s !! key = Some (stored v l)) by (by rewrite <-He, lookup_insert_eq).
  by destruct (lc_versions _ _ _ Hl).
Qed.

Lemma step_CreateLease y i cr l f s o : lease_inv y -> phase y cr (CreateLease l f) -> lc_Create c l (y_srv y) = (s, o) ->
  lease_inv (continue y s i cr (answer f o) []).
Proof.
  intros Hi Hp Hc. inversion Hp as [| |now Hn Heq| | | | |]; subst.
  assert (Hph : forall y', phase y' cr (answer (after_create r cr) o)).
  { intros y'. apply phase_answer. intros [e|]; [apply ph_done|apply ph_get]. }
  destruct (lc_Create_writes _ _ _ _ Hc) as [(Hv&Hvs&_)|(v&Hnew&_&Hv&Hvs&_)].
  - apply (inv_continue (MkSys s (y_clock y) (y_procs y) (y_log y))); [|apply Hph].
    apply inv_env; [done|by rewrite Hv|by rewrite Hvs].
  - destruct (written_getLease (y_clock y) cr now v _ Hn eq_refl) as (Hw&Hh&Ht).
    eapply inv_write; try eassumption; [|intros x Hx; by apply elem_of_nil in Hx|cbn; lia|done].
    intros x Hx. destruct (inv_last _ Hi x Hx) as (l&_&_&Hl&_). exfalso.
    apply (write_changes (y_srv y) v (getLease r cr now) (view s) Hnew Hv), (lc_Create_new _ _ _ _ Hc).
    change (is_Some (view (y_srv y) !! key)). by rewrite Hl.
Qed.

Lemma after_grant cr l h t now x : HolderIdentity (spec l) = Some h -> RenewTime (spec l) = Some t -> t mod 1000 = 0 ->
  takes cr l now -> after x (h, t) -> after x (getHolderIdentity cr, truncate now).
Proof.
  intros Hh Ht Hm Htk [H1 H2]. destruct (Htk _ _ Hh Ht) as [Hle Hne]. unfold after in *. cbn in *.
  pose proof (le_truncate t now Hm Hle). split; [lia|]. intros Hx.
  destruct (decide (x.1 = h)) as [Heq|Hxh]; [|specialize (H2 Hxh); lia].
  rewrite Heq in Hx. specialize (Hne Hx). assert (t + defaultLeaseInterval <= truncate now); [|lia].
  apply le_truncate; [|lia]. unfold defaultLeaseInterval. rewrite <-Z.add_mod_idemp_l by done. by rewrite Hm.
Qed.

Lemma step_UpdateLease y i cr l f s o : lease_inv y -> phase y cr (UpdateLease l f) -> lc_Update c l (y_srv y) = (s, o) ->
  lease_inv (continue y s i cr (answer f o) (grant o)).
Proof.
  intros Hi Hp Hu. inversion Hp as [| | | | | |l0 now Hs Hn Ht Heq|]; subst.
  assert (Hph : forall y', phase y' cr (answer finish_update o)).
  { intros y'. apply phase_answer. intros [e|]; apply ph_done. }
  set (l := set_lease_version (lease_version l0) (getLease r cr now)) in *.
  destruct (lc_Update_writes _ _ _ _ Hu) as [(Hv&Hvs&Ho)|(v&Hnew&_&Hv&Hvs&Ho)].
  - assert (grant o = []) as -> by (destruct o; [by destruct (Ho a)|done..]).
    apply (inv_continue (MkSys s (y_clock y) (y_procs y) (y_log y))); [|apply Hph].
    apply inv_env; [done|by rewrite Hv|by rewrite Hvs].
  - destruct (written_getLease (y_clock y) cr now v l Hn eq_refl) as (Hw&Hh&Hr).
    destruct Hs as ((_&h&t&Hh0&Ht0&_&Hm)&_&Hne&Heq0).
    destruct (lc_Update_version _ _ _ _ Hu Hne) as [Hsame|(old&Hold&Hver)].
    { by destruct (write_changes (y_srv y) v l (view s) Hnew Hv). }
    assert (old = l0) as -> by (apply Heq0; [exact Hold|exact Hver]).
    eapply inv_write; try eassumption; [| | |done].
    + intros x Hx. destruct (inv_last _ Hi x Hx) as (l1&h1&t1&Hl1&Hh1&Ht1&Ha).
      change (view (y_srv y) !! key = Some l0) in Hold. rewrite Hold in Hl1. injection Hl1 as <-.
      rewrite Hh0 in Hh1. rewrite Ht0 in Ht1. injection Hh1 as <-. injection Ht1 as <-.
      exact (after_grant cr l0 h t now x Hh0 Ht0 Hm Ht Ha).
    + intros x. destruct o as [a| |]; [|intros Hx; by apply elem_of_nil in Hx..].
      rewrite (Ho a eq_refl). cbn [grant]. rewrite Hh, Hr. intros Hx. by apply list_elem_of_singleton in Hx.
    + unfold grant. repeat case_match; cbn; lia.
Qed.

Lemma lease_step_inv y y' : lease_inv y -> lease_step y y' -> lease_inv y'.
Proof.
  intros Hi Hst. revert Hi.
  destruct Hst as [y0 i cr Hn|y0 t Ht|y0 s Hs Hv|y0 i cr k f Hp|y0 i cr l f s o Hp Ho|y0 i cr l f s o Hp Ho|y0 i cr f Hp];
    intros Hi.
  - apply inv_continue; [done|apply ph_start].
  - destruct Hi as [H1 H2 H3 H4]. split; cbn [y_srv y_clock y_procs y_log]; [| |exact H3|exact H4].
    + intros l Hl. eapply written_later; [done|by apply H1].
    + intros i cr p Hp. eapply phase_later; [|by eapply H2]. by split.
  - by apply inv_env.
  - apply inv_continue; [done|]. apply phase_GetLease; [done|]. by eapply inv_procs.
  - eapply step_CreateLease; [done| |done]. by eapply inv_procs.
  - eapply step_UpdateLease; [done| |done]. by eapply inv_procs.
  - apply inv_continue; [done|]. apply phase_NowMicro. by eapply inv_procs.
Qed.

Lemma lease_steps_inv y y' : lease_inv y -> rtc lease_step y y' -> lease_inv y'.
Proof. intros Hi Hs. induction Hs as [|y0 y1 y2 H1 _ IH]; [done|]. apply IH. by eapply lease_step_inv. Qed.

(** The state before any acquisition has started. *)
Definition lease_init (s : S) (clock : Z) : sys := MkSys s clock ∅ [].

(** C13. The lease excludes: however the acquisitions of several controllers interleave,
    with each other and with other writes to the API server, and whatever calls fail,
    two grants of the lease to different holders are at least the duration of a lease,
    one second, apart. *)
Theorem lease_exclusive s clock y :
  (forall l, view s !! key = Some l -> written clock l) ->
  rtc lease_step (lease_init s clock) y ->
  forall i j h1 t1 h2 t2, (i < j)%nat -> y_log y !! i = Some (h1, t1) -> y_log y !! j = Some (h2, t2) ->
  h1 <> h2 -> t1 + defaultLeaseInterval <= t2.
Proof.
  intros Hs Hsteps i j h1 t1 h2 t2 Hij Hi Hj Hne.
  assert (Hinit : lease_inv (lease_init s clock)).
  { split; cbn; [done|intros k ??; by rewrite lookup_empty|intros x Hx; by apply elem_of_nil in Hx|].
    intros k ? ??? Hk. by rewrite lookup_nil in Hk. }
  destruct (inv_log _ (lease_steps_inv _ _ Hinit Hsteps) i j _ _ Hij Hi Hj) as [_ Ha]. by apply Ha.
Qed.

End System.
