(* ===== verification/Endpoints.v ===== *)
(** * pkg/objects: lists of objects, and the endpoints of the inventory

    The endpoints of a topology are listed from the API server, selected by their
    labels, and claimed for an object by a reference in their status. *)

From S2P Require Import Prelude Strconv Meta Labels Conditions KRM Reconciler Inventory.

Local Open Scope Z_scope.

(** ** Iterators *)

(** [pkg/objects/iterator.go:19-22 iterator] *)
Record iterator (A : Type) : Type := MkObjIterator { curIdx : Z; items : list A }.
Arguments MkObjIterator {A} curIdx items.
Arguments curIdx {A} i.
Arguments items {A} i.

(** [pkg/objects/iterator.go:24-27 iterator.HasNext] *)
Definition HasNext {A} (r : iterator A) : iterator A * bool :=
  let i := curIdx r + 1 in (MkObjIterator i (items r), bool_decide (i < Z.of_nat (length (items r)))).

(** [pkg/objects/iterator.go:29-31 iterator.Value] *)
Definition Value {A} (r : iterator A) : result A := index (items r) (curIdx r).

(** A loop [for iter.HasNext()] with the values it sees; [fuel] bounds its turns. *)
Fixpoint values {A} (fuel : nat) (r : iterator A) : result (list A) :=
  match fuel with
  | O => Panic
  | S fuel =>
      let '(r, b) := HasNext r in
      if b then v ← Value r; l ← values fuel r; Ok (v :: l) else Ok []
  end.

(** The loop ends after one turn more than there are items, and sees the items in
    order. *)
Lemma values_items {A} (l : list A) (k : nat) : (k <= length l)%nat ->
  values (S (length l) - k) (MkObjIterator (Z.of_nat k - 1) l) = Ok (drop k l).
Proof.
  intros Hk. remember (length l - k)%nat as n eqn:Hn. revert k Hk Hn. induction n as [|n IH]; intros k Hk Hn.
  - assert (k = length l) as -> by lia. replace (S (length l) - length l)%nat with 1%nat by lia. cbn [values].
    unfold HasNext. cbn [curIdx items]. rewrite bool_decide_eq_false_2 by lia. by rewrite drop_all.
  - replace (S (length l) - k)%nat with (S (S (length l) - S k)) by lia. cbn [values]. unfold HasNext. cbn [curIdx items].
    rewrite bool_decide_eq_true_2 by lia. unfold Value, index. cbn [curIdx items].
    rewrite bool_decide_eq_true_2 by lia. replace (Z.to_nat (Z.of_nat k - 1 + 1)) with k by lia.
    destruct (lookup_lt_is_Some_2 l k ltac:(lia)) as [x Hx]. rewrite Hx. cbn [deref mbind result_bind].
    replace (Z.of_nat k - 1 + 1) with (Z.of_nat (S k) - 1) by lia. rewrite IH by lia. cbn.
    by rewrite (drop_S _ _ _ Hx).
Qed.

(** ** Objects *)

Section Objects.
Context {A B : Type} `{L : LabelsAPI} (LabelSelectorAsSelector : option MetaLabelSelector -> result Selector).

(** [pkg/objects/objects.go:37-39 Objects.iterator] *)
Definition objects_iterator (r : list (KRM A B)) : iterator (KRM A B) := MkObjIterator (-1) r.

(** [pkg/objects/objects.go:41-49 Objects.GetAllObjects] *)
Definition GetAllObjects (r : list (KRM A B)) : result (list (KRM A B)) :=
  values (S (length r)) (objects_iterator r).

Definition nsn_String (n : NamespacedName) : string := nsn_Namespace n +:+ "/" +:+ nsn_Name n.
Definition krm_labels {A B} (r : KRM A B) : labels := default ∅ (om_Labels (krm_om r)).

(** The loop over the objects; [uniqueValues] holds the names that were seen. *)
Fixpoint select_objects (selector : Selector) (l : list (KRM A B)) (uniqueValues : gset string) : list (KRM A B) :=
  match l with
  | [] => []
  | v :: l =>
      if Matches selector (krm_labels v) then
        let name := nsn_String (krm_nsn v) in
        (if bool_decide (name ∈ uniqueValues) then [] else [v]) ++ select_objects selector l ({[name]} ∪ uniqueValues)
      else select_objects selector l uniqueValues
  end.

(** [pkg/objects/objects.go:51-72 Objects.GetSelectedObjects] *)
Definition GetSelectedObjects (r : list (KRM A B)) (s : option MetaLabelSelector) : result (list (KRM A B)) :=
  selector ← LabelSelectorAsSelector s;
  l ← GetAllObjects r;
  Ok (select_objects selector l ∅).

End Objects.

(** ** Endpoints *)

(** [pkg/objects/endpoint/endpoint.go:55-62 getCoreRef] *)
Definition getCoreRef (o : Object) : ObjectReference :=
  ObjRef (Kind (o_GVK o)) (om_Namespace (o_Meta o)) (om_Name (o_Meta o)) "" (Identifier (GroupVersion_of (o_GVK o))) "" "".

Definition set_ClaimRef (ref : option ObjectReference) : Endpoint -> Endpoint :=
  with_status (fun s => MkEndpointStatus (ept_ConditionedStatus s) ref (ept_VtepID s)).

(** The order of [sort.Slice]: by the name of the interface. *)
Definition by_interface (a b : Endpoint) : Prop := String.le (eps_InterfaceName (spec a)) (eps_InterfaceName (spec b)).
#[export] Instance by_interface_dec : RelDecision by_interface.
Proof. intros a b. unfold by_interface. apply _. Defined.

Section Endpoints.
Context {W : Type} `{L : LabelsAPI}.
Context (LabelSelectorAsSelector : option MetaLabelSelector -> result Selector).
Context (LabelSelector_String : option MetaLabelSelector -> string).
Context (sort_Slice : list Endpoint -> list Endpoint).
(** The endpoints in the API server with the given labels, and the client. *)
Context (ep_List : labels -> W -> result (list Endpoint)) (ep_api : CRClient W Endpoint).

(** The lists of endpoints by topology, and the API server.

    [pkg/objects/endpoint/endpoint.go:48-53 endpoint] *)
Record epstate : Type := MkEpState { e_inventory : gmap string (list Endpoint); e_api : W }.

Definition on_api {X} (m : M W X) : M epstate X := fun s =>
  let '(w, a) := m (e_api s) in (MkEpState (e_inventory s) w, a).

(** [pkg/objects/endpoint/endpoint.go:84-97 endpoint.listEndpointsPerTopology] *)
Definition listEndpointsPerTopology (topology : string) : M epstate (list Endpoint) :=
  s ← get_state;
  lift (ep_List {[NephioTopologyKey := topology]} (e_api s)).

(** A topology that is listed already is not listed again. *)
Definition init_topology (topology : string) : M epstate unit :=
  s ← get_state;
  match e_inventory s !! topology with
  | Some _ => mret tt
  | None =>
      eps ← listEndpointsPerTopology topology;
      modify (fun s => MkEpState (<[topology := eps]> (e_inventory s)) (e_api s))
  end.

(** [pkg/objects/endpoint/endpoint.go:65-82 endpoint.Init] *)
Definition endpoint_Init (topologies : list string) : M epstate unit :=
  _ ← modify (fun s => MkEpState ∅ (e_api s));
  forM topologies init_topology.

(** [pkg/objects/endpoint/endpoint.go:99-119 endpoint.GetClaimedEndpoints] *)
Definition GetClaimedEndpoints (o : Object) : M epstate (list Endpoint) :=
  s ← get_state;
  epl ← lift (ep_List ∅ (e_api s));
  mret (filter (fun ep => WasAllocated ep o = true) epl).

Definition update_claims (ref : option ObjectReference) (eps : list Endpoint) : M W unit :=
  forM eps (fun ep => _ ← crc_StatusUpdate ep_api (set_ClaimRef ref ep); mret tt).

(** [pkg/objects/endpoint/endpoint.go:121-130 endpoint.Claim] *)
Definition endpoint_Claim (o : Object) (eps : list Endpoint) : M epstate unit :=
  on_api (update_claims (Some (getCoreRef o)) eps).

(** [pkg/objects/endpoint/endpoint.go:132-141 endpoint.DeleteClaim] *)
Definition endpoint_DeleteClaim (eps : list Endpoint) : M epstate unit := on_api (update_claims None eps).

(** [pkg/objects/endpoint/endpoint.go:143-169 endpoint.GetTopologyEndpointsWithSelector] *)
Definition GetTopologyEndpointsWithSelector (topology : string) (s : option MetaLabelSelector) (st : epstate) :
    result (list Endpoint) :=
  match e_inventory st !! topology with
  | None => Err ("topology " +:+ topology +:+ " not found in inventory")
  | Some objs =>
      seps ← GetSelectedObjects LabelSelectorAsSelector objs s;
      match seps with
      | [] => Err ("no endpoints found based on selector: " +:+ LabelSelector_String s)
      | _ => Ok (sort_Slice seps)
      end
  end.

End Endpoints.
Arguments MkEpState {W} e_inventory e_api.
Arguments e_inventory {W} e.
Arguments e_api {W} e.
Arguments epstate : clear implicits.

(** ** Properties *)

Lemma GetAllObjects_all {A B} (r : list (KRM A B)) : GetAllObjects r = Ok r.
Proof. unfold GetAllObjects. apply (values_items r 0). lia. Qed.

(** The objects that are selected are distinct and are those of the list that match;
    of the objects with the same name the first is taken. *)
Lemma select_objects_spec {A B} `{L : LabelsAPI} sel (l : list (KRM A B)) : forall seen,
  let res := select_objects sel l seen in
  sublist res l /\ Forall (fun v => Matches sel (krm_labels v) = true) res /\
  NoDup (nsn_String <$> (krm_nsn <$> res)) /\
  Forall (fun v => nsn_String (krm_nsn v) ∉ seen) res /\
  forall v, v ∈ l -> Matches sel (krm_labels v) = true -> nsn_String (krm_nsn v) ∉ seen ->
    nsn_String (krm_nsn v) ∈ nsn_String <$> (krm_nsn <$> res).
Proof.
  induction l as [|v l IH]; intros seen; cbn [select_objects].
  { split_and!; [done|done|constructor|done|]. intros v Hv. by apply elem_of_nil in Hv. }
  destruct (Matches sel (krm_labels v)) eqn:Hm.
  - destruct (IH ({[nsn_String (krm_nsn v)]} ∪ seen)) as (H1&H2&H3&H4&H5).
    assert (H4' : Forall (fun v => nsn_String (krm_nsn v) ∉ seen)
      (select_objects sel l ({[nsn_String (krm_nsn v)]} ∪ seen))).
    { eapply Forall_impl; [exact H4|]. cbn. intros x Hx Hs. apply Hx, elem_of_union_r, Hs. }
    assert (Hin : forall x, x ∈ l -> Matches sel (krm_labels x) = true -> nsn_String (krm_nsn x) ∉ seen ->
      nsn_String (krm_nsn x) = nsn_String (krm_nsn v) \/
      nsn_String (krm_nsn x) ∈ nsn_String <$> (krm_nsn <$> select_objects sel l ({[nsn_String (krm_nsn v)]} ∪ seen))).
    { intros x Hx Hxm Hxs. destruct (decide (nsn_String (krm_nsn x) = nsn_String (krm_nsn v))); [by left|right].
      apply H5; [done..|]. intros [Hy%elem_of_singleton|Hy]%elem_of_union; done. }
    case_bool_decide as Hs; cbn [app].
    + split_and!; [by apply sublist_cons|done..|]. intros x [->|Hx]%elem_of_cons Hxm Hxs; [done|].
      destruct (Hin x Hx Hxm Hxs) as [He|]; [|done]. by rewrite He in Hxs.
    + split_and!; [by apply sublist_skip|by constructor| |by constructor|].
      * cbn. constructor; [|done]. intros (n&Hy&Hn)%list_elem_of_fmap.
        apply list_elem_of_fmap in Hn as (w&->&Hw). rewrite Forall_forall in H4. apply (H4 w Hw). rewrite <-Hy. apply elem_of_union_l. by apply elem_of_singleton.
      * intros x [->|Hx]%elem_of_cons Hxm Hxs; cbn; [left|]. apply elem_of_cons. by apply Hin.
  - destruct (IH seen) as (H1&H2&H3&H4&H5). split_and!; [by apply sublist_cons|done..|].
    intros x [->|Hx]%elem_of_cons Hxm; [congruence|by apply H5].
Qed.

(** *** The inventory *)

Section Inventory.
Context {W : Type} (ep_List : labels -> W -> result (list Endpoint)).

(** The lists of the inventory are those of the API server. *)
Definition listed (w : W) (s : epstate W) : Prop :=
  e_api s = w /\ forall t l, e_inventory s !! t = Some l -> ep_List {[NephioTopologyKey := t]} w = Ok l.

Lemma init_topology_keeps w topology : keeps (listed w) (init_topology ep_List topology).
Proof.
  intros s [Ha Hs]. unfold init_topology, mbind, M_bind, get_state, listEndpointsPerTopology, lift.
  destruct (e_inventory s !! topology); [done|]. unfold mbind, M_bind, get_state. rewrite Ha. destruct (ep_List _ w) as [eps| |] eqn:He; [|done..].
  unfold modify. split; [done|]. cbn. intros t l. rewrite lookup_insert. case_decide; [subst t; intros [= <-]; exact He|apply Hs].
Qed.

Lemma endpoint_Init_listed ts s : listed (e_api s) (endpoint_Init ep_List ts s).1.
Proof.
  unfold endpoint_Init. unfold mbind, M_bind, modify.
  apply (keeps_forM (listed (e_api s))); [intros t _; apply init_topology_keeps|].
  split; [done|]. intros t l. cbn. by rewrite lookup_empty.
Qed.

(** When the API server answers, the inventory has every topology that was asked for. *)
Lemma init_topologies_total (w : W) ts : (forall t, exists l, ep_List {[NephioTopologyKey := t]} w = Ok l) ->
  forall s, e_api s = w -> exists s', forM ts (init_topology ep_List) s = (s', Ok tt) /\
    forall t, t ∈ ts \/ is_Some (e_inventory s !! t) -> is_Some (e_inventory s' !! t).
Proof.
  intros Hl. induction ts as [|t ts IH]; intros s Ha; cbn [forM].
  { exists s. split; [done|]. intros t [Ht|Ht]; [by apply elem_of_nil in Ht|done]. }
  assert (Hstep : exists s1, init_topology ep_List t s = (s1, Ok tt) /\ e_api s1 = w /\ is_Some (e_inventory s1 !! t) /\
    forall t', is_Some (e_inventory s !! t') -> is_Some (e_inventory s1 !! t')).
  { unfold init_topology, mbind, M_bind, get_state. destruct (e_inventory s !! t) as [l|] eqn:Ht.
    - exists s. rewrite Ht. split_and!; [done..|by eexists|done].
    - unfold listEndpointsPerTopology, mbind, M_bind, get_state, lift. rewrite Ha. destruct (Hl t) as [l ->].
      eexists. split; [reflexivity|]. cbn. split_and!; [done|by rewrite lookup_insert_eq|].
      intros t' [l' Hl']. rewrite lookup_insert_ne by congruence. by eexists. }
  destruct Hstep as (s1&Hs&Ha1&Ht1&Hk). destruct (IH s1 Ha1) as (s'&Hr&Hin). exists s'. unfold mbind, M_bind. rewrite Hs.
  split; [done|]. intros t' [[->|Ht']%elem_of_cons|Ht']; apply Hin; [by right|by left|right; by apply Hk].
Qed.

Lemma endpoint_Init_total ts s : (forall t, exists l, ep_List {[NephioTopologyKey := t]} (e_api s) = Ok l) ->
  exists s', endpoint_Init ep_List ts s = (s', Ok tt) /\ forall t, t ∈ ts -> is_Some (e_inventory s' !! t).
Proof.
  intros Hl. destruct (init_topologies_total (e_api s) ts Hl (MkEpState ∅ (e_api s)) eq_refl) as (s'&Hr&Hin).
  exists s'. split; [exact Hr|]. intros t Ht. apply Hin. by left.
Qed.

End Inventory.

(** *** Claims *)

(** The claims of the endpoints, and the endpoints apart from their claim and their
    version. *)
Definition claim_ref (e : Endpoint) : option ObjectReference := ept_ClaimRef (status e).
Definition content (e : Endpoint) : Endpoint := bump "" (set_ClaimRef None e).

Section Claims.
Context {W : Type} `{E : ErrorsAPI} (ep_api : CRClient W Endpoint) (view : W -> gmap NamespacedName Endpoint).
Context `{!CRLaws ep_api view}.

(** Endpoints as they are stored. *)
Definition as_stored (w : W) (eps : list Endpoint) : Prop :=
  NoDup (krm_nsn <$> eps) /\ forall e, e ∈ eps -> view w !! krm_nsn e = Some e.

Lemma content_set_ClaimRef ref v e : content (bump v (set_ClaimRef ref e)) = content e.
Proof. destruct e as [[g m] s st]. done. Qed.

(** Writing the claims of endpoints as they are stored succeeds, and changes the claims of
    these endpoints only. *)
Lemma update_claims_spec ref eps : forall w, as_stored w eps ->
  exists w', update_claims ep_api ref eps w = (w', Ok tt) /\
    (forall k, claim_ref <$> view w' !! k = if bool_decide (k ∈ krm_nsn <$> eps) then Some ref else claim_ref <$> view w !! k) /\
    (forall k, content <$> view w' !! k = content <$> view w !! k) /\
    (forall k, k ∉ krm_nsn <$> eps -> view w' !! k = view w !! k).
Proof.
  induction eps as [|e eps IH]; intros w [Hnd Hst].
  { exists w. split_and!; [done| |done..]. intros k. by rewrite bool_decide_eq_false_2 by apply not_elem_of_nil. }
  cbn [fmap list_fmap] in Hnd. apply NoDup_cons in Hnd as [Hni Hnd].
  unfold update_claims. cbn [forM]. unfold mbind at 1, M_bind at 1.
  destruct (crc_StatusUpdate_found w (set_ClaimRef ref e) e) as (w1&v&Hu&Hv1);
    [change (view w !! krm_nsn e = Some e); apply Hst; by left|done|].
  change (crc_StatusUpdate ep_api (set_ClaimRef ref e) w = (w1, Ok (bump v (set_ClaimRef ref e)))) in Hu.
  unfold mbind at 1, M_bind at 1. rewrite Hu. cbn [mret M_ret].
  destruct (IH w1) as (w'&Hrun&Hc&Hct&Ho).
  { split; [done|]. intros x Hx. rewrite Hv1, lookup_insert_ne; [apply Hst; by right|].
    intros Heq. apply Hni. apply list_elem_of_fmap. by exists x. }
  exists w'. split; [exact Hrun|]. change (krm_nsn (set_ClaimRef ref e)) with (krm_nsn e) in Hv1.
  assert (He : view w !! krm_nsn e = Some e) by (apply Hst; by left).
  assert (Hk1 : forall k, view w1 !! k = if decide (k = krm_nsn e) then Some (bump v (set_ClaimRef ref e)) else view w !! k).
  { intros k. rewrite Hv1. destruct (decide (k = krm_nsn e)) as [->|Hne]; [by rewrite lookup_insert_eq|].
    by rewrite lookup_insert_ne. }
  split_and!.
  - intros k. rewrite Hc, Hk1. cbn [fmap list_fmap]. destruct (decide (k = krm_nsn e)) as [->|Hne].
    + rewrite (bool_decide_eq_false_2 _ Hni), bool_decide_eq_true_2 by (by left). done.
    + destruct (decide (k ∈ krm_nsn <$> eps)) as [Hin|Hnin].
      * rewrite !bool_decide_eq_true_2; [done|by right|done].
      * rewrite !bool_decide_eq_false_2; [done|by rewrite elem_of_cons; intros [|]|done].
  - intros k. rewrite Hct, Hk1. destruct (decide (k = krm_nsn e)) as [->|Hne]; [|done].
    rewrite He. cbn. by rewrite content_set_ClaimRef.
  - intros k Hk. cbn [fmap list_fmap] in Hk. rewrite elem_of_cons in Hk. rewrite Ho by tauto. rewrite Hk1.
    destruct (decide (k = krm_nsn e)); [tauto|done].
Qed.

End Claims.
