(* ===== verification/Selection.v ===== *)
(** * controllers/logicalinterconnect-controller/selector.go: selection of endpoints

    A logical interconnect asks for a number of links between two groups of endpoints.
    For each side the selector takes one endpoint per link from the inventory: the
    topologies in turn, and, in a single topology, two nodes in turn. *)

From S2P Require Import Prelude Strconv Meta Labels Conditions KRM Reconciler Inventory Endpoints.

Local Open Scope Z_scope.

(** A write to a slice element. *)
Definition update_at {A} (l : list A) (i : Z) (f : A -> A) : result (list A) :=
  x ← index l i;
  Ok (<[Z.to_nat i := f x]> l).

(** A loop that may return early. *)
Fixpoint fold_result {A S} (f : A -> S -> result S) (l : list A) (s : S) : result S :=
  match l with
  | [] => Ok s
  | x :: l => s ← f x s; fold_result f l s
  end.

(** [controllers/logicalinterconnect-controller/selector.go:39-51 result] *)
Record selection : Type := MkSelection {
  sr_endpoints : list Endpoint;
  sr_logicalEndpoints : list LogicalEndpointSpec;
  sr_linkSpecs : list LinkSpec
}.

Definition empty_EndpointSpec : EndpointSpec := MkEndpointSpec "" "" None.
Definition empty_LinkEndpointSpec : LinkEndpointSpec := MkLinkEndpointSpec "" empty_EndpointSpec.

(** [controllers/logicalinterconnect-controller/selector.go:53-63 newSelector] *)
Definition newSelector (links : Z) : selection :=
  MkSelection [] (replicate 2 (MkLogicalEndpointSpec None None [])) (replicate (Z.to_nat links) (MkLinkSpec [])).

(** [controllers/logicalinterconnect-controller/selector.go:65-73 selector.validateIndices] *)
Definition validateIndices (links linkIdx epIdx : Z) : error :=
  if bool_decide (linkIdx < 0 \/ linkIdx >= links) then
    Some ("invalid linkIndex, got: " +:+ pretty linkIdx +:+ ", want linkidx > 0 and < " +:+ pretty links)
  else if bool_decide (epIdx < 0 \/ epIdx >= 2) then
    Some ("invalid endpointIndex, got: " +:+ pretty epIdx +:+ ", want endpointIndex > 0 and < 2")
  else None.

(** What the links and logical endpoints say of an endpoint. *)
Definition endpoint_spec (ep : Endpoint) : EndpointSpec :=
  MkEndpointSpec (eps_InterfaceName (spec ep)) (eps_NodeName (spec ep)) None.

(** [controllers/logicalinterconnect-controller/selector.go:75-106 selector.addEndpoint] *)
Definition addEndpoint (links : Z) (topology : string) (linkIdx epIdx : Z) (ep : Endpoint) (lacp : option bool)
    (name : option string) (r : selection) : result selection :=
  match validateIndices links linkIdx epIdx with
  | Some e => Err e
  | None =>
      ls ← index (sr_linkSpecs r) linkIdx;
      let eps := match ls_Endpoints ls with [] => replicate 2 empty_LinkEndpointSpec | eps => eps end in
      eps ← update_at eps epIdx (fun _ => MkLinkEndpointSpec topology (endpoint_spec ep));
      linkSpecs ← update_at (sr_linkSpecs r) linkIdx (fun _ => MkLinkSpec eps);
      leps ← update_at (sr_logicalEndpoints r) epIdx (fun lep =>
        MkLogicalEndpointSpec name lacp (lgs_Endpoints lep ++ [endpoint_spec ep]));
      Ok (MkSelection (sr_endpoints r ++ [ep]) leps linkSpecs)
  end.

(** The endpoints that are left and the nodes that were selected, by topology. *)
Record choices : Type := MkChoices {
  topoEndpoints : gmap string (list Endpoint);
  selectedNodes : gmap string (list string)
}.

(** The policy asks for node diversity. *)
Definition wants_diversity (ep : LogicalInterconnectEndpoint) : bool :=
  bool_decide (length (lie_Topologies ep) = 1%nat) &&
  match lie_SelectorPolicy ep with
  | Some p => match sp_NodeDiversity p with Some n => bool_decide (n > 1) | None => false end
  | None => false
  end.

(** Whether the endpoint is taken; [Some true] when its node becomes the selected one. *)
Definition suits (cr : Object) (ep : LogicalInterconnectEndpoint) (nodes : list string) (selectedNodeIdx : Z)
    (tep : Endpoint) : result (option bool) :=
  if WasAllocated tep cr then Ok (Some false)
  else
    selectedNode ← index nodes selectedNodeIdx;
    if bool_decide (selectedNode <> "") then
      Ok (if bool_decide (eps_NodeName (spec tep) = selectedNode) && negb (IsAllocated tep cr) then Some false else None)
    else if wants_diversity ep then
      Ok (if IsNodeDiverse tep selectedNodeIdx nodes && negb (IsAllocated tep cr) then Some true else None)
    else Ok (if negb (IsAllocated tep cr) then Some true else None).

(** The first endpoint that suits, and the list without it. *)
Fixpoint pick (cr : Object) (ep : LogicalInterconnectEndpoint) (nodes : list string) (selectedNodeIdx : Z)
    (l : list Endpoint) : result (option (Endpoint * bool * list Endpoint)) :=
  match l with
  | [] => Ok None
  | tep :: l =>
      b ← suits cr ep nodes selectedNodeIdx tep;
      match b with
      | Some b => Ok (Some (tep, b, l))
      | None =>
          p ← pick cr ep nodes selectedNodeIdx l;
          Ok (match p with Some (e, b, rest) => Some (e, b, tep :: rest) | None => None end)
      end
  end.

Definition topology_at (ep : LogicalInterconnectEndpoint) (linkIdx : Z) : result string :=
  if bool_decide (length (lie_Topologies ep) = 0%nat) then Panic
  else index (lie_Topologies ep) (linkIdx mod Z.of_nat (length (lie_Topologies ep))).

Definition node_idx (ep : LogicalInterconnectEndpoint) (linkIdx : Z) : Z :=
  if bool_decide (length (lie_Topologies ep) = 1%nat) then linkIdx mod 2 else 0.

(** The endpoint for one link. *)
Definition choose (cr : Object) (ep : LogicalInterconnectEndpoint) (linkIdx : Z) (c : choices) :
    result (string * Endpoint * choices) :=
  topology ← topology_at ep linkIdx;
  let selectedNodeIdx := node_idx ep linkIdx in
  let nodes := default [] (selectedNodes c !! topology) in
  p ← pick cr ep nodes selectedNodeIdx (default [] (topoEndpoints c !! topology));
  match p with
  | None => Err "no endpoints available"
  | Some (tep, newNode, rest) =>
      selected ← (if newNode : bool then
          nodes ← update_at nodes selectedNodeIdx (fun _ => eps_NodeName (spec tep));
          Ok (<[topology := nodes]> (selectedNodes c))
        else Ok (selectedNodes c));
      Ok (topology, tep, MkChoices (<[topology := rest]> (topoEndpoints c)) selected)
  end.

Section Selector.
Context {W : Type} `{L : LabelsAPI}.
Context (LabelSelectorAsSelector : option MetaLabelSelector -> result Selector).
Context (LabelSelector_String : option MetaLabelSelector -> string).
Context (sort_Slice : list Endpoint -> list Endpoint).
Context (ep_List : labels -> W -> result (list Endpoint)).
Abbreviation endpoints_of := (GetTopologyEndpointsWithSelector LabelSelectorAsSelector LabelSelector_String sort_Slice).

(** The endpoints of the topologies of one side. *)
Definition gather (st : epstate W) (ep : LogicalInterconnectEndpoint) : result choices :=
  fold_result (fun topology c =>
    eps ← endpoints_of topology (lie_Selector ep) st;
    Ok (MkChoices (<[topology := eps]> (topoEndpoints c)) (<[topology := [""; ""]]> (selectedNodes c))))
    (lie_Topologies ep) (MkChoices ∅ ∅).

(** The selection of one side. *)
Definition select_side (st : epstate W) (cr : LogicalInterconnect) (links : Z) (side : Z * LogicalInterconnectEndpoint)
    (r : selection) : result selection :=
  let '(epIdx, ep) := side in
  c ← gather st ep;
  res ← fold_result (fun linkIdx '(c, r) =>
          p ← choose (krm_Object cr) ep linkIdx c;
          let '(topology, tep, c) := p in
          r ← addEndpoint links topology linkIdx epIdx tep (lis_Lacp (spec cr)) (lie_Name ep) r;
          Ok (c, r)) (seqZ 0 (lis_Links (spec cr))) (c, r);
  Ok res.2.

(** [links] is the number the selector was made with.

    [controllers/logicalinterconnect-controller/selector.go:108-216 selector.selectEndpoints] *)
Definition selectEndpoints (links : Z) (cr : LogicalInterconnect) : M (epstate W) selection :=
  _ ← endpoint_Init ep_List (LogicalInterconnect_GetTopologies cr);
  st ← get_state;
  lift (fold_result (select_side st cr links)
    (zip (seqZ 0 (Z.of_nat (length (lis_Endpoints (spec cr))))) (lis_Endpoints (spec cr))) (newSelector links)).

(** [controllers/logicalinterconnect-controller/selector.go:218-220 result.getLinkSpecs] *)
Definition getLinkSpecs (r : selection) : list LinkSpec := sr_linkSpecs r.

(** [controllers/logicalinterconnect-controller/selector.go:222-224 result.getSelectedEndpoints] *)
Definition getSelectedEndpoints (r : selection) : list Endpoint := sr_endpoints r.

(** [controllers/logicalinterconnect-controller/selector.go:226-228 result.getLogicalEndpoints] *)
Definition getLogicalEndpoints (r : selection) : list LogicalEndpointSpec := sr_logicalEndpoints r.

End Selector.

(** ** Properties *)

(** *** The endpoints that are chosen *)

(** The endpoints chosen for the links [is], in order, with their topologies. *)
Fixpoint chosen (cr : Object) (ep : LogicalInterconnectEndpoint) (is_ : list Z) (c : choices) :
    result (list (string * Endpoint) * choices) :=
  match is_ with
  | [] => Ok ([], c)
  | i :: is_ =>
      p ← choose cr ep i c;
      let '(topology, tep, c) := p in
      r ← chosen cr ep is_ c;
      Ok ((topology, tep) :: r.1, r.2)
  end.

Definition left_in (c : choices) (topology : string) : list Endpoint := default [] (topoEndpoints c !! topology).
(** The endpoints of a topology among those that were chosen. *)
Definition chosen_in (topology : string) (ps : list (string * Endpoint)) : list Endpoint :=
  (filter (fun p => p.1 = topology) ps).*2.

Lemma suits_free cr ep nodes idx tep b : suits cr ep nodes idx tep = Ok (Some b) -> IsAllocated tep cr = false.
Proof.
  unfold suits. destruct (allocated_cases tep cr) as [(_&Ha&_)|(ref&_&Hw&Ha)]; [done|]. rewrite Hw, Ha.
  destruct (names ref cr); [done|]. destruct (index nodes idx) as [n| |]; cbn; [|done..].
  destruct (bool_decide (n <> "")); [by rewrite andb_false_r|].
  destruct (wants_diversity ep); [by rewrite andb_false_r|done].
Qed.

Lemma pick_spec cr ep nodes idx l : forall e b rest, pick cr ep nodes idx l = Ok (Some (e, b, rest)) ->
  suits cr ep nodes idx e = Ok (Some b) /\ exists l1 l2, l = l1 ++ e :: l2 /\ rest = l1 ++ l2.
Proof.
  induction l as [|t l IH]; intros e b rest; cbn [pick]; [done|].
  destruct (suits cr ep nodes idx t) as [[b'|]| |] eqn:Hs; cbn; [|..|done|done].
  - intros [= <- <- <-]. split; [done|]. by exists [], l.
  - destruct (pick cr ep nodes idx l) as [[[[e' b'] rest']|]| |]; cbn; [|done..]. intros [= -> -> <-].
    destruct (IH e b rest' eq_refl) as (H1&l1&l2&->&->). split; [done|]. by exists (t :: l1), l2.
Qed.

Lemma choose_spec cr ep i c topology e c' : choose cr ep i c = Ok (topology, e, c') ->
  topology_at ep i = Ok topology /\ IsAllocated e cr = false /\
  left_in c topology ≡ₚ e :: left_in c' topology /\
  forall t, t <> topology -> left_in c' t = left_in c t.
Proof.
  unfold choose. destruct (topology_at ep i) as [t| |]; cbn; [|done..].
  destruct (pick _ _ _ _ _) as [[[[tep b] rest]|]| |] eqn:Hp; cbn; [|done..].
  apply pick_spec in Hp as (Hs&l1&l2&Hl&->). intros Hr.
  assert (He : t = topology /\ tep = e /\ topoEndpoints c' = <[t := l1 ++ l2]> (topoEndpoints c)).
  { destruct b; [destruct (update_at _ _ _); cbn in Hr; [|done..]|cbn in Hr]; by injection Hr as <- <- <-. }
  destruct He as (->&->&Hc'). unfold left_in. rewrite Hc'. split_and!; [done|by eapply suits_free| |].
  - rewrite lookup_insert_eq, Hl. cbn. by rewrite Permutation_middle.
  - intros t Ht. by rewrite lookup_insert_ne.
Qed.

(** The chosen endpoints are free, are of the topology of their link, and are taken out
    of the list of their topology one by one. *)
Lemma chosen_spec cr ep is_ : forall c ps c', chosen cr ep is_ c = Ok (ps, c') ->
  Forall2 (fun i p => topology_at ep i = Ok p.1 /\ IsAllocated p.2 cr = false) is_ ps /\
  forall t, left_in c t ≡ₚ chosen_in t ps ++ left_in c' t.
Proof.
  induction is_ as [|i is_ IH]; intros c ps c'; cbn [chosen].
  - intros [= <- <-]. split; [constructor|done].
  - destruct (choose cr ep i c) as [[[topology e] c1]| |] eqn:Hch; cbn; [|done..].
    destruct (chosen cr ep is_ c1) as [[ps1 c2]| |] eqn:Hr; cbn; [|done..]. intros [= <- <-].
    destruct (IH _ _ _ Hr) as [H1 H2]. apply choose_spec in Hch as (Ht&Hf&Hp&Ho).
    split; [constructor; [done|exact H1]|]. intros t. unfold chosen_in. rewrite filter_cons. cbn [fst].
    case_decide as Hd.
    + subst t. cbn. by rewrite Hp, H2.
    + rewrite <-Ho by done. apply H2.
Qed.

Lemma chosen_distinct cr ep is_ c ps c' i j t a b :
  chosen cr ep is_ c = Ok (ps, c') -> NoDup (krm_nsn <$> left_in c t) -> (i < j)%nat ->
  ps !! i = Some (t, a) -> ps !! j = Some (t, b) -> krm_nsn a <> krm_nsn b.
Proof.
  intros [_ Hp]%chosen_spec Hnd Hij Hi Hj He. rewrite (Hp t), fmap_app in Hnd. apply NoDup_app in Hnd as (Hnd&_&_).
  clear Hp. apply list_elem_of_split_length in Hi as (l1&l2&->&->).
  rewrite lookup_app_r in Hj by lia. destruct (j - length l1)%nat as [|k] eqn:Hk; [lia|].
  cbn in Hj. apply list_elem_of_lookup_2 in Hj. unfold chosen_in in Hnd.
  rewrite filter_app, filter_cons_True in Hnd by done. rewrite !fmap_app in Hnd. cbn in Hnd.
  apply NoDup_app in Hnd as (_&_&Hnd). apply NoDup_cons in Hnd as [Hni _]. apply Hni. rewrite He.
  apply list_elem_of_fmap. exists b. split; [done|]. apply list_elem_of_fmap. exists (t, b). split; [done|].
  by apply list_elem_of_filter.
Qed.

(** *** The nodes of a side in a single topology *)

Definition node_of (e : Endpoint) : string := eps_NodeName (spec e).

(** The nodes of the even and of the odd links, empty when none was selected yet. *)
Record nodes_ok (ep : LogicalInterconnectEndpoint) (n0 n1 : string) : Prop := {
  nodes_diverse : wants_diversity ep = true -> n0 <> "" -> n1 <> "" -> n0 <> n1
}.
Definition side_node (even : bool) (n0 n1 : string) : string := if even then n0 else n1.
(** Where nodes were selected they stay. *)
Definition nodes_grow (n0 n1 m0 m1 : string) : Prop := (n0 <> "" -> m0 = n0) /\ (n1 <> "" -> m1 = n1).

Section SingleTopology.
Context (cr : Object) (ep : LogicalInterconnectEndpoint) (t : string) (Ht : lie_Topologies ep = [t]).

Lemma node_idx_even (i : nat) : node_idx ep (Z.of_nat i) = if Nat.even i then 0 else 1.
Proof.
  unfold node_idx. rewrite Ht. cbn [length]. rewrite bool_decide_eq_true_2 by done.
  destruct (Nat.even i) eqn:He.
  - apply Nat.even_spec in He as [k ->]. replace (Z.of_nat (2 * k)) with (0 + Z.of_nat k * 2) by lia. by rewrite Z.mod_add.
  - apply (f_equal negb) in He. rewrite Nat.negb_even in He. apply Nat.odd_spec in He as [k ->].
    replace (Z.of_nat (2 * k + 1)) with (1 + Z.of_nat k * 2) by lia. by rewrite Z.mod_add.
Qed.

Lemma choose_node (i : nat) c e c' topology n0 n1 :
  selectedNodes c !! t = Some [n0; n1] -> nodes_ok ep n0 n1 ->
  (forall x, x ∈ left_in c t -> WasAllocated x cr = false /\ node_of x <> "") ->
  choose cr ep (Z.of_nat i) c = Ok (topology, e, c') ->
  exists m0 m1, selectedNodes c' !! t = Some [m0; m1] /\ nodes_ok ep m0 m1 /\ nodes_grow n0 n1 m0 m1 /\
    node_of e = side_node (Nat.even i) m0 m1 /\ node_of e <> "".
Proof.
  intros Hn Hok Hfree Hch. pose proof (choose_spec _ _ _ _ _ _ _ Hch) as (Htop&_&Hperm&_).
  assert (topology = t) as ->.
  { unfold topology_at in Htop. rewrite Ht in Htop. cbn [length] in Htop. change (Z.of_nat 1) with 1 in Htop.
    rewrite Z.mod_1_r in Htop. by injection Htop as <-. }
  destruct (Hfree e) as [Hwas Hne]; [rewrite Hperm; by left|].
  unfold choose in Hch. rewrite Htop in Hch. cbn [mbind result_bind] in Hch. rewrite Hn, node_idx_even in Hch.
  change (default [] (Some [n0; n1])) with [n0; n1] in Hch.
  destruct (pick _ _ _ _ _) as [[[[tep b] rest]|]| |] eqn:Hp; cbn [mbind result_bind] in Hch; [|done..].
  apply pick_spec in Hp as (Hs&_).
  assert (tep = e) as -> by (destruct b; [destruct (update_at _ _ _)|]; cbn in Hch; try done; by injection Hch as <- _).
  unfold suits in Hs. rewrite Hwas in Hs.
  assert (Hidx : index [n0; n1] (if Nat.even i then 0 else 1) = Ok (side_node (Nat.even i) n0 n1)) by (by destruct (Nat.even i)).
  rewrite Hidx in Hs. cbn [mbind result_bind] in Hs.
  destruct (bool_decide_reflect (side_node (Nat.even i) n0 n1 <> "")) as [Hsel|Hsel].
  - destruct (bool_decide_reflect (eps_NodeName (spec e) = side_node (Nat.even i) n0 n1)) as [Heq|]; [|done]. cbn [andb] in Hs.
    destruct (negb (IsAllocated e cr)); [|done]. injection Hs as <-. cbn in Hch. injection Hch as <-. exists n0, n1. cbn.
    split_and!; [done|done|by split|done|done].
  - apply dec_stable in Hsel. assert (b = true) as ->.
    { destruct (wants_diversity ep); [destruct (IsNodeDiverse _ _ _)|]; cbn [andb] in Hs;
        try (destruct (negb _); [by injection Hs|done]); done. }
    assert (Hdiv : wants_diversity ep = true -> IsNodeDiverse e (if Nat.even i then 0 else 1) [n0; n1] = true).
    { intros Hw. rewrite Hw in Hs. by destruct (IsNodeDiverse _ _ _). }
    unfold IsNodeDiverse in Hdiv.
    destruct (Nat.even i); cbn in Hch, Hsel; injection Hch as <-; cbn [selectedNodes].
    + exists (node_of e), n1. rewrite lookup_insert_eq. split_and!; [done| |by split|done|done].
      split. intros Hw _ Hn1 He. specialize (Hdiv Hw). rewrite node_diverse_spec in Hdiv.
      by apply (Hdiv 1%nat n1).
    + exists n0, (node_of e). rewrite lookup_insert_eq. split_and!; [done| |by split|done|done].
      split. intros Hw Hn0 _ He. specialize (Hdiv Hw). rewrite node_diverse_spec in Hdiv.
      by apply (Hdiv 0%nat n0).
Qed.

Lemma chosen_nodes n : forall k c ps c' n0 n1,
  selectedNodes c !! t = Some [n0; n1] -> nodes_ok ep n0 n1 ->
  (forall x, x ∈ left_in c t -> WasAllocated x cr = false /\ node_of x <> "") ->
  chosen cr ep (seqZ (Z.of_nat k) (Z.of_nat n)) c = Ok (ps, c') ->
  exists m0 m1, nodes_ok ep m0 m1 /\ nodes_grow n0 n1 m0 m1 /\
    forall i p, ps !! i = Some p -> node_of p.2 = side_node (Nat.even (k + i)) m0 m1 /\ node_of p.2 <> "".
Proof.
  induction n as [|n IH]; intros k c ps c' n0 n1 Hn Hok Hfree.
  - rewrite seqZ_nil by lia. cbn [chosen]. intros [= <- <-]. exists n0, n1. split_and!; [done|by split|done].
  - rewrite seqZ_cons by lia. replace (Z.succ (Z.of_nat k)) with (Z.of_nat (S k)) by lia.
    replace (Z.pred (Z.of_nat (S n))) with (Z.of_nat n) by lia. cbn [chosen].
    destruct (choose cr ep (Z.of_nat k) c) as [[[topology e] c1]| |] eqn:Hch; cbn [mbind result_bind]; [|done..].
    destruct (chosen cr ep _ c1) as [[ps1 c2]| |] eqn:Hr; cbn [mbind result_bind]; [|done..]. intros [= <- <-].
    pose proof (choose_spec _ _ _ _ _ _ _ Hch) as (_&_&Hperm&Hother).
    destruct (choose_node _ _ _ _ _ _ _ Hn Hok Hfree Hch) as (m0&m1&Hm&Hmok&Hg&He&Hene).
    assert (Hfree1 : forall x, x ∈ left_in c1 t -> WasAllocated x cr = false /\ node_of x <> "").
    { intros x Hx. apply Hfree. destruct (decide (t = topology)) as [Hd|Hd]; [rewrite Hd, Hperm; right; by rewrite <-Hd|].
      by rewrite <-Hother. }
    destruct (IH _ _ _ _ _ _ Hm Hmok Hfree1 Hr) as (l0&l1&Hlok&Hlg&Hps).
    exists l0, l1. destruct Hg as [G1 G2], Hlg as [L1 L2]. split_and!; [done| |].
    + split; intros Hne.
      * rewrite <-(G1 Hne). apply L1. by rewrite (G1 Hne).
      * rewrite <-(G2 Hne). apply L2. by rewrite (G2 Hne).
    + intros [|i] p; cbn.
      * intros [= <-]. cbn. rewrite Nat.add_0_r. split; [|done]. rewrite He.
        rewrite He in Hene. destruct (Nat.even k); cbn in *; symmetry; [by apply L1|by apply L2].
      * intros Hp. rewrite <-Nat.add_succ_comm. by apply Hps.
Qed.

End SingleTopology.

(** *** The layout of a selection *)

(** An end of a link. *)
Definition link_end (r : selection) (i e : nat) : option LinkEndpointSpec :=
  ls ← sr_linkSpecs r !! i; ls_Endpoints ls !! e.
(** The endpoints of a side. *)
Definition side_of (r : selection) (e : nat) : option (list EndpointSpec) := lgs_Endpoints <$> sr_logicalEndpoints r !! e.
(** Every link has no end or two. *)
Definition laid_out (r : selection) : Prop :=
  Forall (fun ls => ls_Endpoints ls = [] \/ length (ls_Endpoints ls) = 2%nat) (sr_linkSpecs r).

Lemma update_at_nat {A} (l : list A) (i : nat) f l' : update_at l (Z.of_nat i) f = Ok l' ->
  exists x, l !! i = Some x /\ l' = <[i := f x]> l.
Proof.
  unfold update_at, index. rewrite bool_decide_eq_true_2 by lia. rewrite Nat2Z.id.
  destruct (l !! i) as [x|]; cbn; [|done]. intros [= <-]. by exists x.
Qed.

Lemma index_deref {A} (l : list A) (i : nat) : index l (Z.of_nat i) = deref (l !! i).
Proof. unfold index. by rewrite bool_decide_eq_true_2, Nat2Z.id by lia. Qed.

Lemma addEndpoint_spec links topology (i e : nat) ep lacp name r r' : laid_out r ->
  addEndpoint links topology (Z.of_nat i) (Z.of_nat e) ep lacp name r = Ok r' ->
  laid_out r' /\ (e < 2)%nat /\ sr_endpoints r' = sr_endpoints r ++ [ep] /\
  link_end r' i e = Some (MkLinkEndpointSpec topology (endpoint_spec ep)) /\
  (forall i' e' x, (i', e') <> (i, e) -> link_end r i' e' = Some x -> link_end r' i' e' = Some x) /\
  (forall l, side_of r e = Some l -> side_of r' e = Some (l ++ [endpoint_spec ep])) /\
  (forall e', e' <> e -> side_of r' e' = side_of r e').
Proof.
  intros Hw. unfold addEndpoint. destruct (validateIndices _ _ _) eqn:Hv; [done|].
  assert (He : (e < 2)%nat).
  { unfold validateIndices in Hv. case_bool_decide; [done|]. case_bool_decide; [done|]. lia. }
  rewrite index_deref. destruct (sr_linkSpecs r !! i) as [ls|] eqn:Hls; cbn [deref]; [|done].
  unfold mbind at 1, result_bind at 1.
  set (eps := match ls_Endpoints ls with [] => _ | eps => eps end).
  assert (Hlen : length eps = 2%nat).
  { unfold laid_out in Hw. rewrite Forall_lookup in Hw. unfold eps.
    destruct (Hw _ _ Hls) as [->|Hl]; [done|]. by destruct (ls_Endpoints ls). }
  assert (Hkeep : forall e' x, ls_Endpoints ls !! e' = Some x -> eps !! e' = Some x).
  { unfold eps. intros e' x. destruct (ls_Endpoints ls); [by rewrite lookup_nil|done]. }
  destruct (update_at eps _ _) as [eps'| |] eqn:H1; cbn; [|done..].
  destruct (update_at (sr_linkSpecs r) _ _) as [lss| |] eqn:H2; cbn; [|done..].
  destruct (update_at (sr_logicalEndpoints r) _ _) as [leps| |] eqn:H3; cbn; [|done..]. intros [= <-].
  apply update_at_nat in H1 as (x1&Hx1&->), H2 as (x2&Hx2&->), H3 as (x3&Hx3&->).
  unfold link_end, side_of. cbn [sr_endpoints sr_linkSpecs sr_logicalEndpoints]. split_and!; [|done..| | | |].
  - unfold laid_out. cbn [sr_linkSpecs]. apply Forall_insert; [exact Hw|]. right. cbn. by rewrite length_insert.
  - rewrite list_lookup_insert_eq by (by apply lookup_lt_is_Some_1). cbn. apply list_lookup_insert_eq. lia.
  - intros i' e' x Hne. destruct (decide (i' = i)) as [->|Hi].
    + rewrite Hls, list_lookup_insert_eq by (by apply lookup_lt_is_Some_1). cbn. intros Hx.
      rewrite list_lookup_insert_ne by (intros ->; done). by apply Hkeep.
    + by rewrite list_lookup_insert_ne.
  - intros l. rewrite Hx3. intros [= <-]. by rewrite list_lookup_insert_eq by (by apply lookup_lt_is_Some_1).
  - intros e' Hne. by rewrite list_lookup_insert_ne.
Qed.

(** The loop over the links of a side is the choice of the endpoints, which are then laid
    out; [k] links are done. *)
Lemma side_loop cr ep links (e : nat) lacp name n : forall k c r res,
  laid_out r ->
  fold_result (fun linkIdx '(c, r) =>
    p ← choose cr ep linkIdx c;
    let '(topology, tep, c) := p in
    r ← addEndpoint links topology linkIdx (Z.of_nat e) tep lacp name r;
    Ok (c, r)) (seqZ (Z.of_nat k) (Z.of_nat n)) (c, r) = Ok res ->
  exists ps c', chosen cr ep (seqZ (Z.of_nat k) (Z.of_nat n)) c = Ok (ps, c') /\ laid_out res.2 /\ ((0 < n)%nat -> (e < 2)%nat) /\
    sr_endpoints res.2 = sr_endpoints r ++ ps.*2 /\
    (forall i p, ps !! i = Some p -> link_end res.2 (k + i) e = Some (MkLinkEndpointSpec p.1 (endpoint_spec p.2))) /\
    (forall i e' x, (e' <> e \/ (i < k)%nat) -> link_end r i e' = Some x -> link_end res.2 i e' = Some x) /\
    (forall l, side_of r e = Some l -> side_of res.2 e = Some (l ++ (endpoint_spec <$> ps.*2))) /\
    (forall e', e' <> e -> side_of res.2 e' = side_of r e').
Proof.
  induction n as [|n IH]; intros k c r res Hw.
  - replace (Z.of_nat 0) with 0 by lia. rewrite seqZ_nil by lia. cbn [fold_result]. intros [= <-]. cbn [snd].
    exists [], c. cbn. rewrite app_nil_r. split_and!; [done|done|lia|done|done|done| |done].
    intros l ->. by rewrite app_nil_r.
  - rewrite seqZ_cons by lia. cbn [fold_result]. replace (Z.succ (Z.of_nat k)) with (Z.of_nat (S k)) by lia.
    replace (Z.pred (Z.of_nat (S n))) with (Z.of_nat n) by lia. cbn [chosen].
    destruct (choose cr ep (Z.of_nat k) c) as [[[topology tep] c1]| |]; cbn; [|done..].
    destruct (addEndpoint _ _ _ _ _ _ _ _) as [r1| |] eqn:Ha; cbn; [|done..]. intros Hf.
    apply addEndpoint_spec in Ha as (W1&He&A1&A2&A3&A4&A5); [|done].
    destruct (IH _ _ _ _ W1 Hf) as (ps&c'&Hch&W2&_&B1&B2&B3&B4&B5).
    exists ((topology, tep) :: ps), c'. rewrite Hch. cbn [mbind result_bind fst snd]. split_and!; [done..| | | | |].
    + rewrite B1, A1. by rewrite <-app_assoc.
    + intros [|i] p; cbn.
      * intros [= <-]. rewrite Nat.add_0_r. cbn. apply B3; [right; lia|]. exact A2.
      * intros Hp. rewrite <-Nat.add_succ_comm. by apply B2.
    + intros i e' x Hor Hx. apply B3; [destruct Hor; [by left|right; lia]|]. apply A3; [|done].
      intros [= -> ->]. destruct Hor; [done|lia].
    + intros l Hl. cbn. rewrite (B4 _ (A4 _ Hl)). by rewrite <-app_assoc.
    + intros e' Hne. by rewrite B5, A5.
Qed.

(** *** The selection *)

Section SelectorProps.
Context {W : Type} `{L : LabelsAPI}.
Context (LabelSelectorAsSelector : option MetaLabelSelector -> result Selector).
Context (LabelSelector_String : option MetaLabelSelector -> string).
Context (sort_Slice : list Endpoint -> list Endpoint).
Context (ep_List : labels -> W -> result (list Endpoint)).
(** [sort.Slice] permutes the slice. *)
Context (sort_perm : forall l, sort_Slice l ≡ₚ l).
Abbreviation endpoints_of := (GetTopologyEndpointsWithSelector LabelSelectorAsSelector LabelSelector_String sort_Slice).
Abbreviation sel_gather := (gather (W := W) LabelSelectorAsSelector LabelSelector_String sort_Slice).
Abbreviation sel_side := (select_side (W := W) LabelSelectorAsSelector LabelSelector_String sort_Slice).
Abbreviation sel_run := (selectEndpoints LabelSelectorAsSelector LabelSelector_String sort_Slice ep_List).

Lemma endpoints_of_spec topology s (st : epstate W) l : endpoints_of topology s st = Ok l ->
  NoDup (krm_nsn <$> l) /\ exists inv sel, e_inventory st !! topology = Some inv /\ LabelSelectorAsSelector s = Ok sel /\
    forall x, x ∈ l -> x ∈ inv /\ Matches sel (krm_labels x) = true.
Proof.
  unfold GetTopologyEndpointsWithSelector. destruct (e_inventory st !! topology) as [inv|]; [|done].
  unfold GetSelectedObjects. destruct (LabelSelectorAsSelector s) as [sel| |]; cbn [mbind result_bind]; [|done..].
  unfold Endpoint in *. rewrite GetAllObjects_all. cbn [mbind result_bind].
  destruct (select_objects_spec sel inv ∅) as (H1&H2&H3&_&_).
  destruct (select_objects sel inv ∅) as [|y ys] eqn:Hs; [done|]. intros [= <-]. split.
  - rewrite sort_perm. by eapply NoDup_fmap_1.
  - exists inv, sel. split_and!; [done..|]. intros x Hx. rewrite sort_perm in Hx. split.
    + by eapply elem_of_sublist.
    + rewrite Forall_forall in H2. by apply H2.
Qed.

(** The selection of the only object that matches. *)
Lemma endpoints_of_single topology s (st : epstate W) inv sel (e : Endpoint) :
  e_inventory st !! topology = Some inv -> LabelSelectorAsSelector s = Ok sel ->
  (forall x, x ∈ inv /\ Matches sel (krm_labels x) = true <-> x = e) ->
  endpoints_of topology s st = Ok [e].
Proof.
  intros Hi Hs Honly. unfold GetTopologyEndpointsWithSelector, GetSelectedObjects.
  destruct (e_inventory st !! topology) as [inv'|]; [|done]. injection Hi as ->. rewrite Hs. cbn [mbind result_bind].
  unfold Endpoint in *. rewrite GetAllObjects_all. cbn [mbind result_bind].
  destruct (select_objects_spec sel inv ∅) as (H1&H2&H3&_&H5).
  assert (Hall : forall x, x ∈ select_objects sel inv ∅ -> x = e).
  { intros x Hx. apply Honly. rewrite Forall_forall in H2. split; [by eapply elem_of_sublist|by apply H2]. }
  destruct (proj2 (Honly e) eq_refl) as [He Hm]. specialize (H5 e He Hm (not_elem_of_empty _)).
  destruct (select_objects sel inv ∅) as [|x [|y l]]; [by apply elem_of_nil in H5| |].
  - rewrite (Hall x) by (by left). f_equal. apply Permutation_singleton_r. apply sort_perm.
  - exfalso. rewrite (Hall x), (Hall y) in H3 by (rewrite !elem_of_cons; tauto). cbn in H3. apply NoDup_cons in H3 as [H3 _].
    apply H3. by left.
Qed.

Lemma gather_spec st ep c : sel_gather st ep = Ok c ->
  (forall t l, topoEndpoints c !! t = Some l -> endpoints_of t (lie_Selector ep) st = Ok l) /\
  (forall t, t ∈ lie_Topologies ep -> is_Some (topoEndpoints c !! t) /\ selectedNodes c !! t = Some [""; ""]).
Proof.
  unfold gather.
  assert (Hgen : forall ts c0, fold_result (fun topology c => eps ← endpoints_of topology (lie_Selector ep) st;
      Ok (MkChoices (<[topology := eps]> (topoEndpoints c)) (<[topology := [""; ""]]> (selectedNodes c)))) ts c0 = Ok c ->
    (forall t l, topoEndpoints c0 !! t = Some l -> endpoints_of t (lie_Selector ep) st = Ok l) ->
    (forall t l, topoEndpoints c !! t = Some l -> endpoints_of t (lie_Selector ep) st = Ok l) /\
    forall t, t ∈ ts \/ (is_Some (topoEndpoints c0 !! t) /\ selectedNodes c0 !! t = Some [""; ""]) ->
      is_Some (topoEndpoints c !! t) /\ selectedNodes c !! t = Some [""; ""]).
  { induction ts as [|t0 ts IH]; intros c0; cbn [fold_result].
    - intros [= <-] H0. split; [done|]. intros t [Ht|Ht]; [by apply elem_of_nil in Ht|done].
    - destruct (endpoints_of t0 (lie_Selector ep) st) as [eps| |] eqn:He; cbn; [|done..]. intros Hf H0.
      destruct (IH _ Hf) as [H1 H2].
      { cbn. intros t l. rewrite lookup_insert. case_decide; [intros [= <-]; congruence|apply H0]. }
      split; [done|]. intros t Ht. apply H2. cbn. destruct (decide (t = t0)) as [->|Hne].
      + right. by rewrite !lookup_insert_eq.
      + rewrite !lookup_insert_ne by done. destruct Ht as [[->|Ht]%elem_of_cons|Ht]; [done|by left|by right]. }
  intros Hf. destruct (Hgen _ _ Hf) as [H1 H2]; [intros t l; cbn; by rewrite lookup_empty|].
  split; [done|]. intros t Ht. apply H2. by left.
Qed.

Definition side_choice (st : epstate W) (cr : LogicalInterconnect) (n : nat) (ep : LogicalInterconnectEndpoint)
    (ps : list (string * Endpoint)) : Prop :=
  exists c c', sel_gather st ep = Ok c /\ chosen (krm_Object cr) ep (seqZ 0 (Z.of_nat n)) c = Ok (ps, c').

(** The loop over the sides; [k] sides are done. *)
Lemma sides_loop st cr links n eps : lis_Links (spec cr) = Z.of_nat n -> forall k r r', laid_out r ->
  fold_result (sel_side st cr links) (zip (seqZ (Z.of_nat k) (Z.of_nat (length eps))) eps) r = Ok r' ->
  exists pss, Forall2 (side_choice st cr n) eps pss /\
    sr_endpoints r' = sr_endpoints r ++ (concat pss).*2 /\
    (forall i e x, (e < k)%nat -> link_end r i e = Some x -> link_end r' i e = Some x) /\
    (forall e, (e < k)%nat -> side_of r' e = side_of r e) /\
    (forall e ps, pss !! e = Some ps ->
      ((0 < n)%nat -> (k + e < 2)%nat) /\
      (forall i p, ps !! i = Some p -> link_end r' i (k + e) = Some (MkLinkEndpointSpec p.1 (endpoint_spec p.2))) /\
      (side_of r (k + e) = Some [] -> side_of r' (k + e) = Some (endpoint_spec <$> ps.*2))).
Proof.
  intros Hn. induction eps as [|ep eps IH]; intros k r r' Hw.
  - cbn. rewrite seqZ_nil by lia. cbn. intros [= <-]. exists []. cbn. rewrite app_nil_r. split_and!; [constructor|done..].
  - cbn [length]. rewrite seqZ_cons by lia. replace (Z.succ (Z.of_nat k)) with (Z.of_nat (S k)) by lia.
    replace (Z.pred (Z.of_nat (S (length eps)))) with (Z.of_nat (length eps)) by lia. cbn [zip zip_with fold_result].
    destruct (sel_side st cr links (Z.of_nat k, ep) r) as [r1| |] eqn:Hs; cbn [mbind result_bind]; [|done..]. intros Hf.
    unfold select_side in Hs. destruct (sel_gather st ep) as [c| |] eqn:Hg; cbn [mbind result_bind] in Hs; [|done..].
    rewrite Hn in Hs. destruct (fold_result _ _ _) as [res| |] eqn:Hl; cbn [mbind result_bind] in Hs; [|done..].
    injection Hs as <-. apply (side_loop _ _ _ _ _ _ n 0) in Hl as (ps&c'&Hch&W1&Hk&A1&A2&A3&A4&A5); [|done].
    destruct (IH (S k) _ _ W1 Hf) as (pss&B0&B1&B2&B3&B4). exists (ps :: pss). split_and!.
    + constructor; [|done]. by exists c, c'.
    + rewrite B1, A1. cbn. by rewrite fmap_app, app_assoc.
    + intros i e x He Hx. apply B2; [lia|]. apply A3; [left; lia|done].
    + intros e He. rewrite B3 by lia. apply A5. lia.
    + intros [|e] qs; cbn.
      * intros [= <-]. rewrite Nat.add_0_r. split_and!; [done| |].
        -- intros i p Hp. apply B2; [lia|]. exact (A2 i p Hp).
        -- intros Hsd. rewrite B3 by lia. exact (A4 [] Hsd).
      * intros Hq. destruct (B4 _ _ Hq) as (C1&C2&C3). replace (k + S e)%nat with (S k + e)%nat by lia.
        split_and!; [done..|]. intros Hsd. apply C3. rewrite A5 by lia. done.
Qed.

(** What a selection that succeeds is made of. *)
Lemma selectEndpoints_sides cr n st st' r :
  lis_Links (spec cr) = Z.of_nat n -> sel_run (Z.of_nat n) cr st = (st', Ok r) ->
  listed ep_List (e_api st) st' /\
  exists pss, Forall2 (side_choice st' cr n) (lis_Endpoints (spec cr)) pss /\ getSelectedEndpoints r = (concat pss).*2 /\
    forall e ps, pss !! e = Some ps ->
      ((0 < n)%nat -> side_of r e = Some (endpoint_spec <$> ps.*2)) /\
      (forall i p, ps !! i = Some p -> link_end r i e = Some (MkLinkEndpointSpec p.1 (endpoint_spec p.2))).
Proof.
  intros Hn. unfold selectEndpoints. unfold mbind at 1, M_bind at 1.
  pose proof (endpoint_Init_listed ep_List (LogicalInterconnect_GetTopologies cr) st) as Hinv.
  destruct (endpoint_Init ep_List (LogicalInterconnect_GetTopologies cr) st) as [s1 [[]| |]]; [|intros [=]..].
  cbn [fst] in Hinv. unfold mbind, M_bind, get_state, lift. intros [= <- Hf]. split; [done|].
  apply (sides_loop _ _ _ n _ Hn 0) in Hf as (pss&H1&H2&_&_&H3).
  2: { unfold laid_out. cbn [newSelector sr_linkSpecs]. apply Forall_replicate. by left. }
  exists pss. split_and!; [done..|]. intros e ps Hps. destruct (H3 _ _ Hps) as (Hk&Hlink&Hside).
  split; [|exact Hlink]. intros Hpos. apply Hside. specialize (Hk Hpos). by destruct e as [|[|]]; [..|lia].
Qed.

Lemma side_choice_length st cr n ep ps : side_choice st cr n ep ps -> length ps = n.
Proof.
  intros (c&c'&_&Hch). apply chosen_spec in Hch as [Hall _].
  rewrite <-(Forall2_length _ _ _ Hall), length_seqZ. lia.
Qed.

Lemma left_in_listed st ep c t x : sel_gather st ep = Ok c -> x ∈ left_in c t ->
  endpoints_of t (lie_Selector ep) st = Ok (left_in c t).
Proof.
  intros [Hg _]%gather_spec. unfold left_in. destruct (topoEndpoints c !! t) eqn:Ht; [intros _; by apply Hg|].
  intros Hx. by apply elem_of_nil in Hx.
Qed.

Lemma chosen_in_left cr ep is_ c ps c' p : chosen cr ep is_ c = Ok (ps, c') -> p ∈ ps -> p.2 ∈ left_in c p.1.
Proof.
  intros [_ Hperm]%chosen_spec Hp. rewrite (Hperm p.1). apply elem_of_app. left. unfold chosen_in.
  apply list_elem_of_fmap. exists p. split; [done|]. by apply list_elem_of_filter.
Qed.

(** C17. A selection that succeeds gives every side of the interconnect one endpoint per
    link. The endpoint of a link is in the list of the topology whose turn it is, matches
    the selector of the side, is not claimed by another object, and appears at its end of
    the link and in the logical endpoint of its side. The endpoints of a side are
    different from each other within a topology. *)
Theorem select_sound cr n st st' r :
  lis_Links (spec cr) = Z.of_nat n ->
  sel_run (Z.of_nat n) cr st = (st', Ok r) ->
  exists pss, length pss = length (lis_Endpoints (spec cr)) /\ getSelectedEndpoints r = (concat pss).*2 /\
  forall e ep ps, lis_Endpoints (spec cr) !! e = Some ep -> pss !! e = Some ps ->
    length ps = n /\
    ((0 < n)%nat -> side_of r e = Some (endpoint_spec <$> ps.*2)) /\
    (forall i p, ps !! i = Some p ->
      topology_at ep (Z.of_nat i) = Ok p.1 /\ IsAllocated p.2 (krm_Object cr) = false /\
      link_end r i e = Some (MkLinkEndpointSpec p.1 (endpoint_spec p.2)) /\
      exists l sel, ep_List {[NephioTopologyKey := p.1]} (e_api st) = Ok l /\ p.2 ∈ l /\
        LabelSelectorAsSelector (lie_Selector ep) = Ok sel /\ Matches sel (krm_labels p.2) = true) /\
    (forall i j p q, (i < j)%nat -> ps !! i = Some p -> ps !! j = Some q -> p.1 = q.1 -> krm_nsn p.2 <> krm_nsn q.2).
Proof.
  intros Hn Hsel. destruct (selectEndpoints_sides cr n st st' r Hn Hsel) as ([_ Hinv]&pss&H1&H2&H3).
  exists pss. split_and!; [symmetry; by eapply Forall2_length|done|].
  intros e ep ps He Hps. pose proof (Forall2_lookup_lr _ _ _ _ _ _ H1 He Hps) as Hsc.
  pose proof (side_choice_length _ _ _ _ _ Hsc) as Hlen. destruct Hsc as (c&c'&Hg&Hch).
  destruct (H3 _ _ Hps) as (Hside&Hlink). split_and!; [done..| |].
  - intros i p Hp. assert (Hi : seqZ 0 (Z.of_nat n) !! i = Some (Z.of_nat i)).
    { apply lookup_seqZ. apply lookup_lt_Some in Hp. lia. }
    pose proof (chosen_spec _ _ _ _ _ _ Hch) as [Hall _].
    destruct (Forall2_lookup_lr _ _ _ _ _ _ Hall Hi Hp) as [Ht Hf]. split_and!; [done..|exact (Hlink i p Hp)|].
    pose proof (chosen_in_left _ _ _ _ _ _ p Hch (list_elem_of_lookup_2 _ _ _ Hp)) as Hin.
    pose proof (left_in_listed _ _ _ _ _ Hg Hin) as Hl.
    apply endpoints_of_spec in Hl as (_&inv&sel&Hi1&Hs&Hx). destruct (Hx _ Hin). exists inv, sel. split_and!; [|done..].
    by apply Hinv.
  - intros i j [t a] [t' b] Hij Hi Hj [= <-]. eapply chosen_distinct; [exact Hch| |exact Hij|exact Hi|exact Hj].
    pose proof (chosen_in_left _ _ _ _ _ _ _ Hch (list_elem_of_lookup_2 _ _ _ Hi)) as Hin.
    by apply (left_in_listed _ _ _ _ _ Hg), endpoints_of_spec in Hin as [? _].
Qed.

(** C30. In a single topology a side uses the nodes in turn. When no endpoint of the
    topology was claimed by the interconnect before, the links of one parity are all on
    one node, and when the policy asks for node diversity the even and the odd links are
    on different nodes. *)
Theorem select_nodes cr n st st' r e ep t :
  lis_Links (spec cr) = Z.of_nat n -> lis_Endpoints (spec cr) !! e = Some ep -> lie_Topologies ep = [t] ->
  (forall l x, ep_List {[NephioTopologyKey := t]} (e_api st) = Ok l -> x ∈ l ->
    WasAllocated x (krm_Object cr) = false /\ eps_NodeName (spec x) <> "") ->
  sel_run (Z.of_nat n) cr st = (st', Ok r) ->
  forall i j, (i < n)%nat -> (j < n)%nat -> exists x y, link_end r i e = Some x /\ link_end r j e = Some y /\
    let node z := eps_NodeName (les_EndpointSpec z) in
    (Nat.even i = Nat.even j -> node x = node y) /\
    (wants_diversity ep = true -> Nat.even i <> Nat.even j -> node x <> node y).
Proof.
  intros Hn Hep Ht Hfree Hsel i j Hi Hj.
  destruct (selectEndpoints_sides cr n st st' r Hn Hsel) as ([_ Hinv]&pss&H1&_&H3).
  destruct (Forall2_lookup_l _ _ _ _ _ H1 Hep) as (ps&Hps&Hsc). pose proof (side_choice_length _ _ _ _ _ Hsc) as Hlen.
  destruct Hsc as (c&c'&Hg&Hch). destruct (H3 _ _ Hps) as [_ Hlink].
  destruct (gather_spec _ _ _ Hg) as [_ Hg2]. destruct (Hg2 t) as [_ Hsn]; [rewrite Ht; by left|].
  assert (Hfree' : forall x, x ∈ left_in c t -> WasAllocated x (krm_Object cr) = false /\ node_of x <> "").
  { intros x Hx. pose proof (left_in_listed _ _ _ _ _ Hg Hx) as Hl.
    apply endpoints_of_spec in Hl as (_&inv&sel&Hi1&_&Hx2). destruct (Hx2 _ Hx) as [Hxi _].
    eapply Hfree; [|exact Hxi]. by apply Hinv. }
  destruct (chosen_nodes (krm_Object cr) ep t Ht n 0 c ps c' "" "" Hsn) as (m0&m1&Hok&_&Hnodes); [by split|done|done|].
  destruct (lookup_lt_is_Some_2 ps i ltac:(lia)) as [p Hp], (lookup_lt_is_Some_2 ps j ltac:(lia)) as [q Hq].
  eexists _, _. split_and!; [exact (Hlink i p Hp)|exact (Hlink j q Hq)|].
  destruct (Hnodes i p Hp) as [Hp1 Hp2], (Hnodes j q Hq) as [Hq1 Hq2]. unfold node_of in *. cbn in *.
  rewrite Hp1, Hq1. rewrite Hp1 in Hp2. rewrite Hq1 in Hq2. destruct Hok as [Hd].
  destruct (Nat.even i), (Nat.even j); cbn in *; (split; [done|]); intros Hw Hne; [done| | |done].
  - by apply Hd.
  - intros He. by apply Hd.
Qed.

(** *** Both sides alike *)

Definition alike (a b : LogicalInterconnectEndpoint) : Prop :=
  lie_Topologies a = lie_Topologies b /\ lie_Selector a = lie_Selector b /\ lie_SelectorPolicy a = lie_SelectorPolicy b.

Lemma gather_alike st a b : alike a b -> sel_gather st a = sel_gather st b.
Proof. intros (H1&H2&_). unfold gather. by rewrite H1, H2. Qed.

Lemma pick_alike cr a b nodes i l : alike a b -> pick cr a nodes i l = pick cr b nodes i l.
Proof.
  intros (H1&_&H3). induction l as [|x l IH]; cbn [pick]; [done|]. rewrite IH.
  by unfold suits, wants_diversity; rewrite H1, H3.
Qed.

Lemma chosen_alike cr a b is_ : alike a b -> forall c, chosen cr a is_ c = chosen cr b is_ c.
Proof.
  intros Hab. induction is_ as [|i is_ IH]; intros c; cbn [chosen]; [done|].
  assert (choose cr a i c = choose cr b i c) as ->.
  { pose proof Hab as (H1&_). assert (Ht : topology_at a i = topology_at b i) by (unfold topology_at; by rewrite H1).
    assert (Hi : node_idx a i = node_idx b i) by (unfold node_idx; by rewrite H1). unfold choose. rewrite Ht, Hi.
    destruct (topology_at b i) as [t| |]; cbn [mbind result_bind]; [|done..]. by rewrite (pick_alike _ _ _ _ _ _ Hab). }
  destruct (choose cr b i c) as [[[t e] c1]| |]; cbn; [|done..]. by rewrite IH.
Qed.

(** An interconnect whose two sides have the same topologies, selector and policy is
    given the same endpoints on both sides: every link of it connects an endpoint to
    itself. The endpoints that were taken for the first side are not excluded from the
    second. *)
Theorem select_self_links cr n st st' r a b :
  lis_Links (spec cr) = Z.of_nat n -> lis_Endpoints (spec cr) = [a; b] -> alike a b ->
  sel_run (Z.of_nat n) cr st = (st', Ok r) ->
  forall i, (i < n)%nat -> exists x, link_end r i 0 = Some x /\ link_end r i 1 = Some x.
Proof.
  intros Hn Heps Hab Hsel. destruct (selectEndpoints_sides cr n st st' r Hn Hsel) as (_&pss&H1&_&H3).
  rewrite Heps in H1. inversion H1 as [|? p ? l Ha Hl]; subst. inversion Hl as [|? q ? l' Hb Hl']; subst.
  inversion Hl'; subst. pose proof (side_choice_length _ _ _ _ _ Ha) as Hlen.
  assert (p = q) as ->.
  { destruct Ha as (c1&c1'&Hg1&Hc1), Hb as (c2&c2'&Hg2&Hc2). rewrite (gather_alike _ _ _ Hab), Hg2 in Hg1.
    injection Hg1 as <-. rewrite (chosen_alike _ _ _ _ Hab), Hc2 in Hc1. by injection Hc1 as <-. }
  intros i Hi. destruct (lookup_lt_is_Some_2 q i ltac:(lia)) as [x Hx]. eexists.
  split; [apply (H3 0%nat q eq_refl)|apply (H3 1%nat q eq_refl)]; exact Hx.
Qed.

End SelectorProps.
