(* ===== verification/Resources.v ===== *)
(** * pkg/resources: the resources an object owns

    A controller collects the resources its object asks for and applies them: the
    resources the object owns and does not ask for any more are deleted, the others are
    created or patched. *)

From S2P Require Import Prelude Strconv Meta Labels Conditions KRM Reconciler Inventory Endpoints.

Local Open Scope Z_scope.

(** The objects the topology controllers own. *)
Inductive TObject : Type :=
| TNode (o : Node)
| TLink (o : Link)
| TTarget (o : Target)
| TEndpoint (o : Endpoint)
| TLogicalEndpoint (o : LogicalEndpoint).

Definition t_Object (o : TObject) : Object :=
  match o with
  | TNode o => krm_Object o | TLink o => krm_Object o | TTarget o => krm_Object o
  | TEndpoint o => krm_Object o | TLogicalEndpoint o => krm_Object o
  end.
Definition t_meta (o : TObject) : ObjectMeta := o_Meta (t_Object o).
Definition with_t_meta (f : ObjectMeta -> ObjectMeta) (o : TObject) : TObject :=
  match o with
  | TNode o => TNode (krm_meta f o) | TLink o => TLink (krm_meta f o) | TTarget o => TTarget (krm_meta f o)
  | TEndpoint o => TEndpoint (krm_meta f o) | TLogicalEndpoint o => TLogicalEndpoint (krm_meta f o)
  end.
Definition meta_labels (m : ObjectMeta) : labels := default ∅ (om_Labels m).

(** [pkg/resources/recources.go:46-49 Config] *)
Record ResConfig : Type := MkResConfig { rcf_OwnerRef : bool; rcf_Owns : list GroupVersionKind }.

Section Resources.
Context {W : Type} `{E : ErrorsAPI}.
(** The objects of a kind with the given labels, by their metadata; the deletion of an
    object, and its creation or merge patch by the applicator. *)
Context (rc_List : GroupVersionKind -> labels -> W -> result (list Object)).
Context (rc_Delete : Object -> M W unit) (rc_Apply : TObject -> M W unit).
Context (cfg : ResConfig).

(** The inventories, and the API server.

    [pkg/resources/recources.go:60-69 resources] *)
Record resources : Type := MkResources {
  rs_new : gmap ObjectReference TObject;
  rs_existing : gmap ObjectReference Object;
  rs_matchLabels : labels;
  rs_api : W
}.

(** [pkg/resources/recources.go:51-58 New] *)
Definition resources_New (w : W) : resources := MkResources ∅ ∅ ∅ w.

(** [pkg/resources/recources.go:72-76 resources.Init] *)
Definition resources_Init (ml : labels) : M resources unit := modify (fun r => MkResources ∅ ∅ ml (rs_api r)).

(** The owner reference and the owner label of an object. *)
Definition owner_reference (cr : Object) : OwnerReference :=
  MkOwnerReference (Identifier (GroupVersion_of (o_GVK cr))) (Kind (o_GVK cr)) (om_Name (o_Meta cr)) (om_UID (o_Meta cr))
    (Some true) None.
Definition owner_label (cr : Object) : string :=
  OwnerRef_String (MkOwnerRef (Identifier (GroupVersion_of (o_GVK cr))) (Kind (o_GVK cr)) (om_Namespace (o_Meta cr))
    (om_Name (o_Meta cr)) (om_UID (o_Meta cr))).

(** [pkg/resources/recources.go:79-117 resources.AddNewResource] *)
Definition AddNewResource (cr : Object) (o : TObject) : M resources unit :=
  let o :=
    if rcf_OwnerRef cfg then with_t_meta (set_OwnerReferences [owner_reference cr]) o
    else with_t_meta (fun m => set_Labels (Some (<[NephioOwnerRefKey := owner_label cr]> (meta_labels m))) m) o in
  modify (fun r => MkResources (<[getCoreRef (t_Object o) := o]> (rs_new r)) (rs_existing r) (rs_matchLabels r) (rs_api r)).

(** The object is owned by [cr]. *)
Definition res_owned (cr o : Object) : bool :=
  if rcf_OwnerRef cfg then existsb (fun ref => bool_decide (or_UID ref = om_UID (o_Meta cr))) (om_OwnerReferences (o_Meta o))
  else bool_decide (meta_labels (o_Meta o) !! NephioOwnerRefKey = Some (owner_label cr)).

Definition set_existing (f : gmap ObjectReference Object -> gmap ObjectReference Object) : M resources unit :=
  modify (fun r => MkResources (rs_new r) (f (rs_existing r)) (rs_matchLabels r) (rs_api r)).
Definition set_new (f : gmap ObjectReference TObject -> gmap ObjectReference TObject) : M resources unit :=
  modify (fun r => MkResources (f (rs_new r)) (rs_existing r) (rs_matchLabels r) (rs_api r)).
Definition on_server {A} (m : M W A) : M resources A := fun r =>
  let '(w, a) := m (rs_api r) in (MkResources (rs_new r) (rs_existing r) (rs_matchLabels r) w, a).

(** [pkg/resources/recources.go:121-164 resources.getExistingResources] *)
Definition getExistingResources (cr : Object) : M resources unit :=
  forM (rcf_Owns cfg) (fun gvk =>
    r ← get_state;
    objs ← lift (rc_List gvk (rs_matchLabels r) (rs_api r));
    forM objs (fun o => if res_owned cr o then set_existing <[getCoreRef o := o]> else mret tt)).

(** The deletion of one existing resource; one that does not exist is forgotten. *)
Definition delete_existing (ref : ObjectReference) (o : Object) : M resources unit := fun r =>
  match on_server (rc_Delete o) r with
  | (r, Ok _) => (r, Ok tt)
  | (r, Err e) =>
      match IgnoreNotFound (Some e) with
      | Some e => (r, Err e)
      | None => set_existing (delete ref) r
      end
  | (r, Panic) => (r, Panic)
  end.

(** The second loop deletes the namespaces, and again what the first one deleted.

    [pkg/resources/recources.go:182-212 resources.apiDelete] *)
Definition apiDelete : M resources unit :=
  r ← get_state;
  _ ← forM (map_to_list (rs_existing r)) (fun '(ref, o) =>
        if bool_decide (ref_Kind ref = "Namespace") then mret tt else delete_existing ref o);
  r ← get_state;
  forM (map_to_list (rs_existing r)) (fun '(ref, o) => delete_existing ref o).

(** [pkg/resources/recources.go:168-180 resources.APIDelete] *)
Definition APIDelete (cr : Object) : M resources unit :=
  _ ← getExistingResources cr;
  apiDelete.

(** [pkg/resources/recources.go:214-237 resources.apiCreate] *)
Definition apiCreate : M resources unit :=
  r ← get_state;
  _ ← forM (map_to_list (rs_new r)) (fun '(ref, o) =>
        if bool_decide (ref_Kind ref = "Namespace") then
          _ ← on_server (rc_Apply o); set_new (delete ref)
        else mret tt);
  r ← get_state;
  forM (map_to_list (rs_new r)) (fun '(_, o) => on_server (rc_Apply o)).

(** [pkg/resources/recources.go:244-270 resources.APIApply] *)
Definition APIApply (cr : Object) : M resources unit :=
  _ ← getExistingResources cr;
  r ← get_state;
  _ ← set_existing (fun m => foldl (fun m ref => delete ref m) m (map_to_list (rs_new r)).*1);
  _ ← apiDelete;
  apiCreate.

(** [pkg/resources/recources.go:272-283 resources.GetNewResources] *)
Definition GetNewResources (r : resources) : gmap ObjectReference TObject := rs_new r.

End Resources.
Arguments MkResources {W} rs_new rs_existing rs_matchLabels rs_api.
Arguments rs_new {W} r.
Arguments rs_existing {W} r.
Arguments rs_matchLabels {W} r.
Arguments rs_api {W} r.
Arguments resources : clear implicits.

(** ** Properties *)

Section ResourcesProps.
Context {W : Type} `{E : ErrorsAPI}.
Context (rc_List : GroupVersionKind -> labels -> W -> result (list Object)).
Context (rc_Delete : Object -> M W unit) (rc_Apply : TObject -> M W unit).
Context (cfg : ResConfig).
Context (view : W -> gmap ObjectReference TObject).

(** An object that does not exist, or is marked for deletion. *)
Definition leaving (w : W) (k : ObjectReference) : Prop :=
  match view w !! k with Some t => WasDeleted (t_meta t) = true | None => True end.

(** The object [t] after [t0] was created or merged into it. *)
Definition applied (t0 t : TObject) : Prop :=
  getCoreRef (t_Object t) = getCoreRef (t_Object t0) /\
  om_OwnerReferences (t_meta t) = om_OwnerReferences (t_meta t0) /\
  meta_labels (t_meta t0) ⊆ meta_labels (t_meta t).

(** The documented behaviour of the API server and of the applicator: a list holds the
    objects of the kind with the labels, a deletion removes an object or marks it when it
    has finalizers, a deletion that fails because there is no object says so, and an
    applied object is stored with the owner references and the labels it was given. *)
Class ResLaws : Prop := {
  rl_keys : forall w k t, view w !! k = Some t -> getCoreRef (t_Object t) = k;
  rl_List : forall w gvk ls l, rc_List gvk ls w = Ok l -> forall o, o ∈ l <->
    exists t, view w !! getCoreRef o = Some t /\ t_Object t = o /\ o_GVK o = gvk /\ ls ⊆ meta_labels (o_Meta o);
  rl_Delete_ok : forall w w' o, rc_Delete o w = (w', Ok tt) ->
    leaving w' (getCoreRef o) /\ forall k, k <> getCoreRef o -> view w' !! k = view w !! k;
  rl_Delete_err : forall w w' o e, rc_Delete o w = (w', Err e) ->
    view w' = view w /\ (IsNotFound e = true -> view w !! getCoreRef o = None);
  rl_Apply_ok : forall w w' t, rc_Apply t w = (w', Ok tt) ->
    exists t', view w' = <[getCoreRef (t_Object t) := t']> (view w) /\ applied t t'
}.
Context `{!ResLaws}.
Abbreviation existing := (getExistingResources rc_List cfg).
Abbreviation is_owned := (res_owned cfg).

(** An object that is owned by [cr] and that the inventory looks for. *)
Definition looked_for (cr : Object) (ls : labels) (gvks : list GroupVersionKind) (t : TObject) : Prop :=
  o_GVK (t_Object t) ∈ gvks /\ ls ⊆ meta_labels (t_meta t) /\ is_owned cr (t_Object t) = true.

(** *** The existing resources *)

Definition collect (cr : Object) (m : gmap ObjectReference Object) (objs : list Object) : gmap ObjectReference Object :=
  foldl (fun m o => if is_owned cr o then <[getCoreRef o := o]> m else m) m objs.

Lemma collect_run cr objs : forall r : resources W,
  forM objs (fun o => if is_owned cr o then set_existing <[getCoreRef o := o]> else mret tt) r =
  (MkResources (rs_new r) (collect cr (rs_existing r) objs) (rs_matchLabels r) (rs_api r), Ok tt).
Proof.
  induction objs as [|o objs IH]; intros r; cbn [forM collect foldl]; [by destruct r|].
  unfold mbind, M_bind. destruct (is_owned cr o); unfold set_existing, modify, mret, M_ret; by rewrite IH.
Qed.

Lemma collect_lookup cr objs k : forall m,
  (is_Some (collect cr m objs !! k) <-> is_Some (m !! k) \/ exists o, o ∈ objs /\ getCoreRef o = k /\ is_owned cr o = true) /\
  (forall o, collect cr m objs !! k = Some o -> m !! k = Some o \/ getCoreRef o = k).
Proof.
  induction objs as [|o objs IH]; intros m; cbn [collect foldl].
  { split; [|by left]. split; [by left|]. intros [?|(o&Ho&_)]; [done|by apply elem_of_nil in Ho]. }
  fold (collect cr). destruct (IH (if is_owned cr o then <[getCoreRef o := o]> m else m)) as [H1 H2].
  unfold collect in *. split.
  - rewrite H1. split.
    + intros [Hm|(x&Hx&Hr)]; [|right; exists x; split; [by right|done]].
      destruct (is_owned cr o) eqn:Ho; [|by left]. rewrite lookup_insert in Hm.
      case_decide; [right; exists o; split; [by left|done]|by left].
    + intros [Hm|(x&[->|Hx]%elem_of_cons&Hk&Hr)]; [| |right; by exists x]; left.
      * destruct (is_owned cr o); [|done]. rewrite lookup_insert. by case_decide.
      * rewrite Hr, Hk. rewrite lookup_insert_eq. by eexists.
  - intros x Hx. destruct (H2 x Hx) as [Hm|]; [|by right]. destruct (is_owned cr o); [|by left].
    rewrite lookup_insert in Hm. case_decide; [right; by injection Hm as <-|by left].
Qed.

Lemma getExisting_spec cr (r r' : resources W) : existing cr r = (r', Ok tt) ->
  rs_api r' = rs_api r /\ rs_new r' = rs_new r /\
  (forall k, is_Some (rs_existing r' !! k) <->
    is_Some (rs_existing r !! k) \/ exists t, view (rs_api r) !! k = Some t /\ looked_for cr (rs_matchLabels r) (rcf_Owns cfg) t) /\
  (forall k o, rs_existing r' !! k = Some o -> rs_existing r !! k = Some o \/ getCoreRef o = k).
Proof.
  unfold getExistingResources. unfold looked_for. generalize (rcf_Owns cfg) as gvks. intros gvks. revert r.
  induction gvks as [|gvk gvks IH]; intros r; cbn [forM].
  { intros [= <-]. split_and!; [done..| |by left]. intros k. split; [by left|].
    intros [?|(t&_&Hin&_)]; [done|by apply elem_of_nil in Hin]. }
  unfold mbind at 1, M_bind at 1. unfold mbind at 1, M_bind at 1, get_state at 1. unfold mbind at 1, M_bind at 1, lift at 1.
  destruct (rc_List gvk (rs_matchLabels r) (rs_api r)) as [objs| |] eqn:Hl; [|intros [=]..].
  rewrite collect_run. intros Hf. apply IH in Hf as (A1&A2&A3&A4). cbn [rs_api rs_new rs_matchLabels rs_existing] in *.
  split_and!; [done..| |].
  - intros k. rewrite A3, (proj1 (collect_lookup cr objs k _)). split.
    + intros [[He|(o&Ho&Hk&Hr)]|(t&Ht&Hin&Hls&Hr)]; [by left| |].
      * right. apply (rl_List _ _ _ _ Hl) in Ho as (t&Ht&<-&Hg&Hls). exists t. rewrite <-Hk. split_and!; [done| |done..].
        rewrite Hg. by left.
      * right. exists t. split_and!; [done|by right|done..].
    + intros [He|(t&Ht&Hin&Hls&Hr)]; [by left; left|]. apply elem_of_cons in Hin as [Hg|Hin].
      * left; right. exists (t_Object t). pose proof (rl_keys _ _ _ Ht) as Hk. split_and!; [|done..].
        apply (rl_List _ _ _ _ Hl). exists t. by rewrite Hk.
      * right. exists t. by split_and!.
  - intros k o Ho. destruct (A4 k o Ho) as [He|]; [|by right]. by apply (proj2 (collect_lookup cr objs k _)) in He.
Qed.

(** *** Deletion *)

Lemma elem_of_keys {A} (m : gmap ObjectReference A) k : k ∈ (map_to_list m).*1 <-> is_Some (m !! k).
Proof.
  rewrite list_elem_of_fmap. split.
  - intros ([k' o]&->&Hin%elem_of_map_to_list). by eexists.
  - intros [o Ho]. exists (k, o). split; [done|]. by apply elem_of_map_to_list.
Qed.

Definition refs_ok (m : gmap ObjectReference Object) : Prop := forall k o, m !! k = Some o -> getCoreRef o = k.

Lemma IgnoreNotFound_cases e : IgnoreNotFound (Some e) = if IsNotFound e then None else Some e.
Proof. done. Qed.

Lemma delete_existing_spec ref o (r r' : resources W) : getCoreRef o = ref -> delete_existing rc_Delete ref o r = (r', Ok tt) ->
  leaving (rs_api r') ref /\ (forall k, k <> ref -> view (rs_api r') !! k = view (rs_api r) !! k) /\
  rs_new r' = rs_new r /\ (rs_existing r' = rs_existing r \/ rs_existing r' = delete ref (rs_existing r)).
Proof.
  intros Hk. unfold delete_existing, on_server. destruct (rc_Delete o (rs_api r)) as [w [[]|e|]] eqn:Hd; [| |intros [=]].
  - intros [= <-]. apply rl_Delete_ok in Hd as [H1 H2]. rewrite Hk in H1, H2. cbn. split_and!; [done..|by left].
  - rewrite IgnoreNotFound_cases. apply rl_Delete_err in Hd as [H1 H2]. destruct (IsNotFound e); [|intros [=]].
    unfold set_existing, modify. intros [= <-]. cbn. unfold leaving. rewrite H1. rewrite Hk in H2. rewrite H2 by done.
    split_and!; [done..|by right].
Qed.

(** A loop that deletes the resources of a list, except those to skip. *)
Lemma delete_loop (skip : ObjectReference -> bool) l : forall r r' : resources W,
  (forall ref o, (ref, o) ∈ l -> getCoreRef o = ref) ->
  forM l (fun '(ref, o) => if skip ref then mret tt else delete_existing rc_Delete ref o) r = (r', Ok tt) ->
  rs_new r' = rs_new r /\ rs_existing r' ⊆ rs_existing r /\
  forall k, (leaving (rs_api r) k -> leaving (rs_api r') k) /\
    (k ∈ l.*1 -> skip k = false -> leaving (rs_api r') k) /\
    (k ∉ l.*1 -> view (rs_api r') !! k = view (rs_api r) !! k) /\
    (is_Some (rs_existing r !! k) -> is_Some (rs_existing r' !! k) \/ leaving (rs_api r') k).
Proof.
  induction l as [|[ref o] l IH]; intros r r' Hl; cbn [forM].
  { intros [= <-]. split_and!; [done..|]. intros k. split_and!; [done|intros Hk; by apply elem_of_nil in Hk|done|by left]. }
  unfold mbind at 1, M_bind at 1. destruct (if skip ref then _ else _) as [r1 [[]| |]] eqn:Hd; [|intros [=]..]. intros Hf.
  destruct (IH r1 r' (fun ref' o' H => Hl ref' o' (list_elem_of_further _ _ _ H)) Hf) as (A1&A2&A3).
  assert (Hstep : rs_new r1 = rs_new r /\ rs_existing r1 ⊆ rs_existing r /\
    (forall k, k <> ref -> view (rs_api r1) !! k = view (rs_api r) !! k) /\
    (skip ref = false -> leaving (rs_api r1) ref) /\ (skip ref = true -> r1 = r) /\
    (forall k, is_Some (rs_existing r !! k) -> is_Some (rs_existing r1 !! k) \/ (k = ref /\ skip ref = false))).
  { destruct (skip ref) eqn:Hs; [injection Hd as <-; split_and!; [done..|by left]|].
    apply delete_existing_spec in Hd as (H1&H2&H3&H4); [|by apply (Hl ref o); left].
    split_and!; [done|destruct H4 as [->| ->]; [done|apply delete_subseteq]|done..|].
    intros k Hk. destruct H4 as [->| ->]; [by left|]. destruct (decide (k = ref)); [by right|]. left. by rewrite lookup_delete_ne. }
  destruct Hstep as (B1&B2&B3&B4&B5&B6). split_and!; [congruence|by etrans|]. intros k. destruct (A3 k) as (C1&C2&C3&C4).
  assert (Hkeep : leaving (rs_api r) k -> leaving (rs_api r1) k).
  { intros Hlv. destruct (decide (k = ref)) as [->|Hne]; [|by unfold leaving in *; rewrite B3].
    destruct (skip ref); [by rewrite B5|by apply B4]. }
  split_and!.
  - intros Hlv. by apply C1, Hkeep.
  - intros [->|Hin]%elem_of_cons Hs; [by apply C1, B4|by apply C2].
  - cbn. rewrite not_elem_of_cons. intros [Hne Hni]. rewrite C3 by done. by apply B3.
  - intros Hk. destruct (B6 k Hk) as [|[-> Hs]]; [by apply C4|right; by apply C1, B4].
Qed.

Lemma apiDelete_spec (r r' : resources W) : refs_ok (rs_existing r) -> apiDelete rc_Delete r = (r', Ok tt) ->
  rs_new r' = rs_new r /\
  (forall k, is_Some (rs_existing r !! k) -> leaving (rs_api r') k) /\
  (forall k, rs_existing r !! k = None -> view (rs_api r') !! k = view (rs_api r) !! k).
Proof.
  intros Hok. unfold apiDelete. unfold mbind at 1, M_bind at 1, get_state at 1. unfold mbind at 1, M_bind at 1.
  destruct (forM _ _ r) as [r1 [[]| |]] eqn:H1; [|intros [=]..]. unfold mbind at 1, M_bind at 1, get_state at 1. intros H2.
  apply (delete_loop (fun ref => bool_decide (ref_Kind ref = "Namespace"))) in H1 as (A1&A2&A3).
  2: { intros ref o Hin. apply Hok. by apply elem_of_map_to_list. }
  apply (delete_loop (fun _ => false)) in H2 as (B1&B2&B3).
  2: { intros ref o Hin. apply Hok. apply elem_of_map_to_list in Hin. by eapply lookup_weaken. }
  split_and!; [congruence| |].
  - intros k Hk. destruct (A3 k) as (_&_&_&C4), (B3 k) as (D1&D2&_&_). destruct (C4 Hk) as [Hs|Hlv]; [|by apply D1].
    apply D2; [|done]. by apply elem_of_keys.
  - intros k Hk. destruct (A3 k) as (_&_&C3&_), (B3 k) as (_&_&D3&_). rewrite D3, C3; [done| |].
    + rewrite elem_of_keys, Hk. by intros [].
    + rewrite elem_of_keys. intros [o Ho]. eapply lookup_weaken in Ho; [|exact A2]. by rewrite Hk in Ho.
Qed.

(** *** Creation *)

Definition stored_as (w : W) (k : ObjectReference) (t : TObject) : Prop := exists t', view w !! k = Some t' /\ applied t t'.

Lemma apply_spec t (r r' : resources W) : on_server (rc_Apply t) r = (r', Ok tt) ->
  rs_new r' = rs_new r /\ stored_as (rs_api r') (getCoreRef (t_Object t)) t /\
  forall k, k <> getCoreRef (t_Object t) -> view (rs_api r') !! k = view (rs_api r) !! k.
Proof.
  unfold on_server. destruct (rc_Apply t (rs_api r)) as [w a] eqn:Ha. intros [= <- ->].
  apply rl_Apply_ok in Ha as (t'&Hv&Hap). cbn. split_and!; [done| |].
  - exists t'. by rewrite Hv, lookup_insert_eq.
  - intros k Hk. by rewrite Hv, lookup_insert_ne.
Qed.

(** A loop that applies some resources of a list, and may forget those it applies. *)
Lemma apply_loop (sel : ObjectReference -> bool) (forget : bool) l : forall r r' : resources W,
  NoDup l.*1 -> (forall ref t, (ref, t) ∈ l -> getCoreRef (t_Object t) = ref) ->
  forM l (fun '(ref, t) => if sel ref then _ ← on_server (rc_Apply t);
            (if forget then set_new (delete ref) else mret tt) else mret tt) r = (r', Ok tt) ->
  (forall ref t, (ref, t) ∈ l -> sel ref = true -> stored_as (rs_api r') ref t) /\
  (forall k, k ∉ l.*1 \/ sel k = false -> view (rs_api r') !! k = view (rs_api r) !! k) /\
  (forall k, k ∉ l.*1 \/ sel k = false \/ forget = false -> rs_new r' !! k = rs_new r !! k) /\
  (forget = true -> forall k, k ∈ l.*1 -> sel k = true -> rs_new r' !! k = None).
Proof.
  induction l as [|[ref t] l IH]; intros r r' Hnd Hl; cbn [forM].
  { intros [= <-]. split_and!; [intros ?? Hx; by apply elem_of_nil in Hx|done..|]. intros _ k Hx. by apply elem_of_nil in Hx. }
  cbn [fmap list_fmap fst] in Hnd. apply NoDup_cons in Hnd as [Hni Hnd].
  unfold mbind at 1, M_bind at 1. destruct (if sel ref then _ else _) as [r1 [[]| |]] eqn:Hd; [|intros [=]..]. intros Hf.
  destruct (IH r1 r' Hnd (fun ref' t' H => Hl ref' t' (list_elem_of_further _ _ _ H)) Hf) as (A1&A2&A3&A4).
  assert (Hstep : (sel ref = true -> stored_as (rs_api r1) ref t) /\
    (forall k, k <> ref \/ sel ref = false -> view (rs_api r1) !! k = view (rs_api r) !! k) /\
    (forall k, k <> ref \/ sel ref = false \/ forget = false -> rs_new r1 !! k = rs_new r !! k) /\
    (forget = true -> sel ref = true -> rs_new r1 !! ref = None)).
  { destruct (sel ref) eqn:Hs; [|injection Hd as <-; by split_and!]. revert Hd. unfold mbind at 1, M_bind at 1.
    destruct (on_server (rc_Apply t) r) as [r2 [[]| |]] eqn:Ha; [|intros [=]..]. apply apply_spec in Ha as (B1&B2&B3).
    rewrite (Hl ref t) in B2, B3 by (by left). destruct forget; intros [= <-]; cbn [rs_api rs_new]; split_and!;
      [done|intros k [Hk|]; [by apply B3|done]| | |done|intros k [Hk|]; [by apply B3|done]|by rewrite B1|done].
    - intros k [Hk|[|]]; [|done..]. by rewrite lookup_delete_ne, B1.
    - intros _ _. apply lookup_delete_eq. }
  destruct Hstep as (C1&C2&C3&C4). split_and!.
  - intros ref' t' [[= -> ->]|Hin]%elem_of_cons Hs; [|by apply A1]. unfold stored_as. rewrite A2 by (by left). by apply C1.
  - cbn. intros k Hk. rewrite not_elem_of_cons in Hk. rewrite A2 by tauto. apply C2.
    destruct (decide (k = ref)) as [->|]; [|by left]. right. tauto.
  - cbn. intros k Hk. rewrite not_elem_of_cons in Hk. rewrite A3 by tauto. apply C3.
    destruct (decide (k = ref)) as [->|]; [|by left]. right. tauto.
  - intros Hfg k [->|Hin]%elem_of_cons Hs; [|by apply A4]. rewrite A3 by (by left). by apply C4.
Qed.

Lemma apiCreate_spec (r r' : resources W) : (forall k t, rs_new r !! k = Some t -> getCoreRef (t_Object t) = k) ->
  apiCreate rc_Apply r = (r', Ok tt) ->
  (forall k t, rs_new r !! k = Some t -> stored_as (rs_api r') k t) /\
  (forall k, rs_new r !! k = None -> view (rs_api r') !! k = view (rs_api r) !! k).
Proof.
  intros Hok. unfold apiCreate. unfold mbind at 1, M_bind at 1, get_state at 1. unfold mbind at 1, M_bind at 1.
  destruct (forM _ _ r) as [r1 [[]| |]] eqn:H1; [|intros [=]..]. unfold mbind at 1, M_bind at 1, get_state at 1. intros H2.
  apply (apply_loop (fun ref => bool_decide (ref_Kind ref = "Namespace")) true) in H1 as (A1&A2&A3&A4).
  2: { apply NoDup_fst_map_to_list. }
  2: { intros ref t Hin. apply Hok. by apply elem_of_map_to_list. }
  assert (Hsub : forall k t, rs_new r1 !! k = Some t -> rs_new r !! k = Some t).
  { intros k t Hk. destruct (decide (k ∈ (map_to_list (rs_new r)).*1)) as [Hin|Hni]; [|by rewrite A3 in Hk by (by left)].
    destruct (bool_decide (ref_Kind k = "Namespace")) eqn:Hns; [by rewrite A4 in Hk|]. by rewrite A3 in Hk by (right; by left). }
  assert (Hsame : forM (map_to_list (rs_new r1)) (fun '(ref, t) => if (fun _ => true) ref then _ ← on_server (rc_Apply t);
            (if false then set_new (delete ref) else mret tt) else mret tt) r1 = (r', Ok tt)).
  { rewrite <-H2. clear. generalize (map_to_list (rs_new r1)) as l. intros l. revert r1.
    induction l as [|[ref t] l IH]; intros r1; cbn [forM]; [done|]. unfold mbind, M_bind.
    destruct (on_server (rc_Apply t) r1) as [r2 [[]| |]]; [|done..]. unfold mret, M_ret. apply IH. }
  apply apply_loop in Hsame as (B1&B2&_&_); [|apply NoDup_fst_map_to_list|].
  2: { intros ref t Hin%elem_of_map_to_list. by apply Hok, Hsub. }
  split.
  - intros k t Hk. destruct (bool_decide (ref_Kind k = "Namespace")) eqn:Hns.
    + unfold stored_as. rewrite B2; [apply A1; [by apply elem_of_map_to_list|done]|]. left. rewrite elem_of_keys, A4; [by intros []|done| |done].
      apply elem_of_keys. by eexists.
    + apply B1; [|done]. apply elem_of_map_to_list. rewrite A3; [done|]. right; by left.
  - intros k Hk. rewrite B2, A2; [done| |]; left; rewrite elem_of_keys; [rewrite Hk; by intros []|].
    intros [t Ht%Hsub]. by rewrite Hk in Ht.
Qed.

Lemma delete_keys_lookup (ks : list ObjectReference) (m : gmap ObjectReference Object) k :
  foldl (fun m ref => delete ref m) m ks !! k = if bool_decide (k ∈ ks) then None else m !! k.
Proof.
  revert m. induction ks as [|k' ks IH]; intros m; cbn [foldl].
  { by rewrite bool_decide_eq_false_2 by apply not_elem_of_nil. }
  rewrite IH. destruct (decide (k = k')) as [->|Hne].
  - rewrite (bool_decide_eq_true_2 (k' ∈ k' :: ks)) by (by left). rewrite lookup_delete_eq. by destruct (bool_decide _).
  - rewrite lookup_delete_ne by done. destruct (bool_decide_reflect (k ∈ ks)).
    + by rewrite bool_decide_eq_true_2 by (by right).
    + by rewrite bool_decide_eq_false_2 by (by rewrite elem_of_cons; intros [|]).
Qed.

(** The API server after the resources of [cr] are applied, by object. *)
Lemma APIApply_spec cr (r r' : resources W) :
  rs_existing r = ∅ -> (forall k t, rs_new r !! k = Some t -> getCoreRef (t_Object t) = k) ->
  APIApply rc_List rc_Delete rc_Apply cfg cr r = (r', Ok tt) ->
  forall k,
    match rs_new r !! k with
    | Some t => stored_as (rs_api r') k t
    | None =>
        ((exists t, view (rs_api r) !! k = Some t /\ looked_for cr (rs_matchLabels r) (rcf_Owns cfg) t) ->
          leaving (rs_api r') k) /\
        (~ (exists t, view (rs_api r) !! k = Some t /\ looked_for cr (rs_matchLabels r) (rcf_Owns cfg) t) ->
          view (rs_api r') !! k = view (rs_api r) !! k)
    end.
Proof.
  intros He Hok. unfold APIApply. unfold mbind at 1, M_bind at 1.
  destruct (existing cr r) as [r1 [[]| |]] eqn:H1; [|intros [=]..].
  apply getExisting_spec in H1 as (A1&A2&A3&A4). unfold mbind at 1, M_bind at 1, get_state at 1.
  unfold mbind at 1, M_bind at 1, set_existing at 1, modify at 1. set (r2 := MkResources _ _ _ _).
  unfold mbind at 1, M_bind at 1. destruct (apiDelete rc_Delete r2) as [r3 [[]| |]] eqn:H3; [|intros [=]..]. intros H4 k.
  assert (Hex : forall k, rs_existing r2 !! k = if bool_decide (is_Some (rs_new r !! k)) then None else rs_existing r1 !! k).
  { intros k'. cbn [r2 rs_existing]. rewrite delete_keys_lookup, A2.
    rewrite (bool_decide_ext _ (is_Some (rs_new r !! k'))); [done|]. apply elem_of_keys. }
  apply apiDelete_spec in H3 as (B1&B2&B3).
  2: { intros k' o. rewrite Hex. case_bool_decide; [done|]. intros Ho. apply A4 in Ho as [Ho|]; [|done].
       by rewrite He, lookup_empty in Ho. }
  cbn [r2 rs_new rs_api] in B1, B3. apply apiCreate_spec in H4 as (C1&C2); [|by rewrite B1, A2].
  rewrite B1, A2 in C1, C2. destruct (rs_new r !! k) as [t|] eqn:Hk; [by apply C1|].
  assert (Hr2 : rs_existing r2 !! k = rs_existing r1 !! k) by (rewrite Hex, Hk; by rewrite bool_decide_eq_false_2 by (by intros [])).
  unfold leaving. rewrite C2 by done. split.
  - intros Hl. apply B2. rewrite Hr2. apply A3. by right.
  - intros Hl. rewrite B3, A1; [done|]. rewrite Hr2. destruct (rs_existing r1 !! k) as [o|] eqn:Ho; [|done]. exfalso.
    destruct (proj1 (A3 k)) as [Hs|Hs]; [by rewrite Ho|rewrite He, lookup_empty in Hs; by destruct Hs|done].
Qed.

(** *** Frames

    What the deletion and the creation of the owned kinds leave alone is left alone. *)
Section Frame.
Context (I : W -> Prop) (kinds : GroupVersionKind -> Prop).
Context (frame_Delete : forall o, kinds (o_GVK o) -> keeps I (rc_Delete o)).
Context (frame_Apply : forall t, kinds (o_GVK (t_Object t)) -> keeps I (rc_Apply t)).

(** All resources of the inventories are of the kinds. *)
Definition of_kinds (r : resources W) : Prop :=
  I (rs_api r) /\ (forall k t, rs_new r !! k = Some t -> kinds (o_GVK (t_Object t))) /\
  (forall k o, rs_existing r !! k = Some o -> kinds (o_GVK o)).

Lemma on_server_frame {A} (m : M W A) : keeps I m -> keeps of_kinds (on_server m).
Proof.
  intros Hm r (H1&H2&H3). unfold on_server. specialize (Hm _ H1). destruct (m (rs_api r)) as [w a]. by split_and!.
Qed.

Lemma existing_frame cr : (forall g, g ∈ rcf_Owns cfg -> kinds g) -> keeps of_kinds (existing cr).
Proof.
  intros Hk. apply keeps_forM. intros gvk Hin. apply keeps_bind_get. intros r0 _. apply keeps_bind_lift. intros objs Hl.
  apply keeps_forM. intros o Ho. destruct (is_owned cr o); [|apply keeps_ret].
  apply keeps_modify. intros r (H1&H2&H3). split_and!; [done..|]. intros k x. cbn [rs_existing]. rewrite lookup_insert.
  case_decide; [|apply H3]. intros [= <-]. apply (rl_List _ _ _ _ Hl) in Ho as (t&_&_&->&_). by apply Hk.
Qed.

Lemma set_existing_frame f : (forall m, f m ⊆ m) -> keeps of_kinds (set_existing f).
Proof.
  intros Hf. apply keeps_modify. intros r (H1&H2&H3). split_and!; [done..|]. intros k x Hx. cbn [rs_existing] in Hx.
  eapply H3, lookup_weaken; [exact Hx|apply Hf].
Qed.

Lemma delete_existing_frame ref o : kinds (o_GVK o) -> keeps of_kinds (delete_existing rc_Delete ref o).
Proof.
  intros Hk r Hr. unfold delete_existing. pose proof (on_server_frame _ (frame_Delete o Hk) r Hr) as Hs.
  destruct (on_server (rc_Delete o) r) as [r1 [a|e|]]; [exact Hs| |exact Hs]. destruct (IgnoreNotFound _); [exact Hs|].
  refine (set_existing_frame (delete ref) _ r1 Hs). intros m. apply delete_subseteq.
Qed.

Lemma apiDelete_frame : keeps of_kinds (apiDelete rc_Delete).
Proof.
  unfold apiDelete. apply keeps_bind_get. intros r (_&_&Hr). apply keeps_bind.
  - apply keeps_forM. intros [ref o] Hin%elem_of_map_to_list. case_bool_decide; [apply keeps_ret|].
    apply delete_existing_frame. by eapply Hr.
  - intros _. apply keeps_bind_get. intros r2 (_&_&Hr2). apply keeps_forM. intros [ref o] Hin%elem_of_map_to_list.
    apply delete_existing_frame. by eapply Hr2.
Qed.

Lemma apiCreate_frame : keeps of_kinds (apiCreate rc_Apply).
Proof.
  unfold apiCreate. apply keeps_bind_get. intros r (_&Hr&_). apply keeps_bind.
  - apply keeps_forM. intros [ref t] Hin%elem_of_map_to_list. case_bool_decide; [|apply keeps_ret]. apply keeps_bind.
    + apply on_server_frame, frame_Apply. by eapply Hr.
    + intros _. apply keeps_modify. intros r1 (H1&H2&H3). split_and!; [done| |done]. intros k x. cbn [rs_new].
      rewrite lookup_delete. case_decide; [done|apply H2].
  - intros _. apply keeps_bind_get. intros r2 (_&Hr2&_). apply keeps_forM. intros [ref t] Hin%elem_of_map_to_list.
    apply on_server_frame, frame_Apply. by eapply Hr2.
Qed.

Lemma APIApply_frame cr : (forall g, g ∈ rcf_Owns cfg -> kinds g) ->
  keeps of_kinds (APIApply rc_List rc_Delete rc_Apply cfg cr).
Proof.
  intros Hk. unfold APIApply. apply keeps_bind; [by apply existing_frame|]. intros _. apply keeps_bind_get. intros r _.
  apply keeps_bind; [|intros _; apply keeps_bind; [apply apiDelete_frame|intros _; apply apiCreate_frame]].
  apply set_existing_frame. generalize (map_to_list (rs_new r)).*1. intros ks. induction ks as [|k ks IH]; intros m; [done|].
  cbn [foldl]. etrans; [apply IH|apply delete_subseteq].
Qed.

End Frame.

(** C16. Applying the resources of an object leaves the API server with what the object
    asks for. When it succeeds, every new resource is stored with its owner and its
    labels, every other object that the owner has, of the kinds and with the labels the
    inventory looks for, is gone or marked for deletion, and all other objects are as
    they were. *)
Theorem APIApply_exact cr (r r' : resources W) :
  rs_existing r = ∅ -> (forall k t, rs_new r !! k = Some t -> getCoreRef (t_Object t) = k) ->
  APIApply rc_List rc_Delete rc_Apply cfg cr r = (r', Ok tt) ->
  forall k,
    match rs_new r !! k with
    | Some t => stored_as (rs_api r') k t
    | None =>
        ((exists t, view (rs_api r) !! k = Some t /\ looked_for cr (rs_matchLabels r) (rcf_Owns cfg) t) ->
          leaving (rs_api r') k) /\
        (~ (exists t, view (rs_api r) !! k = Some t /\ looked_for cr (rs_matchLabels r) (rcf_Owns cfg) t) ->
          view (rs_api r') !! k = view (rs_api r) !! k)
    end.
Proof. intros He Hok Hr. exact (APIApply_spec cr r r' He Hok Hr). Qed.

End ResourcesProps.
