(* ===== verification/TopoControllers.v ===== *)
(** * controllers/{link-controller,logicalinterconnect-controller,node,rawtopology}

    The controllers of the topology: a raw topology owns nodes and links, a node owns a
    target and endpoints, a link claims its two endpoints, and a logical interconnect
    selects and claims endpoints and owns links and logical endpoints. *)

From S2P Require Import Prelude Strconv Meta Labels Conditions KRM Reconciler Inventory Lease Endpoints Selection Resources.

Local Open Scope Z_scope.

Definition topo_finalizer : string := "topo.nephio.org/finalizer".
Definition inv_finalizer : string := "inv.nephio.org/finalizer".
Definition errGetCr : string := "cannot get resource".
(** A new try after the time of two leases. *)
Definition requeue_lease : Result := MkResult true RequeueInterval.

(** ** What a reconciler keeps

    The inventory of the endpoints, the claimed endpoints, and the inventories of the
    resources. *)
Record topo_svc : Type := MkTopoSvc {
  sv_inventory : gmap string (list Endpoint);
  sv_claimed : list Endpoint;
  sv_new : gmap ObjectReference TObject;
  sv_existing : gmap ObjectReference Object;
  sv_matchLabels : labels
}.

(** ** Parameters *)

(** The plugin of a provider of nodes. *)
Record NodeProvider (W Q : Type) : Type := MkNodeProvider {
  np_GetNodeConfig : Node -> W -> result (NodeConfig Q);
  np_GetNodeModelConfig : NodeConfig Q -> option ObjectReference;
  np_GetNodeModel : NodeConfig Q -> W -> result NodeModel
}.
Arguments np_GetNodeConfig {W Q} n.
Arguments np_GetNodeModelConfig {W Q} n.
Arguments np_GetNodeModel {W Q} n.

(** What the controllers call outside the program: the API server, the label selector
    library, [sort.Slice], the printing of Go values, the finalizers and the applicator of
    the nephio module, and the registry of providers. *)
Record TopoAPI (W Q : Type) `{L : LabelsAPI} : Type := MkTopoAPI {
  ta_LabelSelectorAsSelector : option MetaLabelSelector -> result Selector;
  ta_LabelSelector_String : option MetaLabelSelector -> string;
  ta_sort_Slice : list Endpoint -> list Endpoint;
  ta_print_endpoints : list Endpoint -> string;
  ta_print_ref : option ObjectReference -> string;
  ta_endpoints : CRClient W Endpoint;
  ta_List_endpoints : labels -> W -> result (list Endpoint);
  ta_links : CRClient W Link;
  ta_List_links : string -> W -> result (list Link);
  ta_interconnects : CRClient W LogicalInterconnect;
  ta_List_interconnects : string -> W -> result (list LogicalInterconnect);
  ta_topologies : CRClient W RawTopology;
  ta_nodes : CRClient W Node;
  ta_List_nodes : labels -> string -> W -> result (list Node);
  ta_Apply_node : Node -> W -> W * Node * error;
  ta_List : GroupVersionKind -> labels -> W -> result (list Object);
  ta_Delete : Object -> M W unit;
  ta_Apply : TObject -> M W unit;
  ta_leases : LeaseClient W;
  ta_AddFinalizer : forall Spec Status, CRClient W (KRM Spec Status) -> string -> M (rstate topo_svc W Spec Status) error;
  ta_RemoveFinalizer : forall Spec Status, CRClient W (KRM Spec Status) -> string -> M (rstate topo_svc W Spec Status) error;
  ta_NewNodeOfProvider : string -> result (NodeProvider W Q)
}.
Arguments ta_LabelSelectorAsSelector {W Q L} t.
Arguments ta_LabelSelector_String {W Q L} t.
Arguments ta_sort_Slice {W Q L} t.
Arguments ta_print_endpoints {W Q L} t.
Arguments ta_print_ref {W Q L} t.
Arguments ta_endpoints {W Q L} t.
Arguments ta_List_endpoints {W Q L} t.
Arguments ta_links {W Q L} t.
Arguments ta_List_links {W Q L} t.
Arguments ta_interconnects {W Q L} t.
Arguments ta_List_interconnects {W Q L} t.
Arguments ta_topologies {W Q L} t.
Arguments ta_nodes {W Q L} t.
Arguments ta_List_nodes {W Q L} t.
Arguments ta_Apply_node {W Q L} t.
Arguments ta_List {W Q L} t.
Arguments ta_Delete {W Q L} t.
Arguments ta_Apply {W Q L} t.
Arguments ta_leases {W Q L} t.
Arguments ta_AddFinalizer {W Q L} t {Spec Status}.
Arguments ta_RemoveFinalizer {W Q L} t {Spec Status}.
Arguments ta_NewNodeOfProvider {W Q L} t.

(** A call whose error is handled by the caller. *)
Definition catch {S A} (m : M S A) : M S (A + string) := fun s =>
  match m s with
  | (s, Ok a) => (s, Ok (inl a))
  | (s, Err e) => (s, Ok (inr e))
  | (s, Panic) => (s, Panic)
  end.

Section Topo.
Context {W Q : Type} `{E : ErrorsAPI} `{L : LabelsAPI} (now : Z) (api : TopoAPI W Q) (epLease : lease).

Section Parts.
Context {Spec Status : Type} `{HasConditions Status}.
Abbreviation state := (rstate topo_svc W Spec Status).

(** Operations on the endpoints, on the resources and on the lease, from a reconciler. *)
Definition ep_part (s : state) : epstate W := MkEpState (sv_inventory (r_svc s)) (r_api s).
Definition put_ep (e : epstate W) (s : state) : state :=
  let v := r_svc s in
  MkRState (MkTopoSvc (e_inventory e) (sv_claimed v) (sv_new v) (sv_existing v) (sv_matchLabels v)) (e_api e) (r_cr s).
Definition on_ep {A} (m : M (epstate W) A) : M state A := zoom ep_part put_ep m.

Definition res_part (s : state) : resources W :=
  MkResources (sv_new (r_svc s)) (sv_existing (r_svc s)) (sv_matchLabels (r_svc s)) (r_api s).
Definition put_res (e : resources W) (s : state) : state :=
  let v := r_svc s in
  MkRState (MkTopoSvc (sv_inventory v) (sv_claimed v) (rs_new e) (rs_existing e) (rs_matchLabels e)) (rs_api e) (r_cr s).
Definition on_res {A} (m : M (resources W) A) : M state A := zoom res_part put_res m.

Definition set_claimed (l : list Endpoint) : M state unit := modify (fun s =>
  let v := r_svc s in
  MkRState (MkTopoSvc (sv_inventory v) l (sv_new v) (sv_existing v) (sv_matchLabels v)) (r_api s) (r_cr s)).

Definition acquire_lease : M state unit := fun s =>
  let '(w, a) := run_prog (ta_leases api) now (AcquireLease epLease (krm_Object (r_cr s))) (r_api s) in
  (MkRState (r_svc s) w (r_cr s), a).

Abbreviation DeleteClaim := (endpoint_DeleteClaim (ta_endpoints api)).
Abbreviation Claim := (endpoint_Claim (ta_endpoints api)).
Abbreviation Init := (endpoint_Init (ta_List_endpoints api)).
Definition endpoints_with (topology : string) (s : option MetaLabelSelector) : M state (list Endpoint) := fun st =>
  (st, GetTopologyEndpointsWithSelector (ta_LabelSelectorAsSelector api) (ta_LabelSelector_String api) (ta_sort_Slice api)
    topology s (ep_part st)).

(** The claimed endpoints that are not among the new ones. *)
Definition tobeDeletedClaims (claimed endpoints : list Endpoint) : list Endpoint :=
  filter (fun cep => existsb (fun ep => bool_decide (GetName cep = GetName ep /\ GetNamespace cep = GetNamespace ep)) endpoints = false)
    claimed.

(** The claims of the object become those of [endpoints].

    [controllers/link-controller/reconciler.go:208-232 reconciler.claimResources] *)
Definition move_claims (endpoints : list Endpoint) : M state unit :=
  s ← get_state;
  _ ← on_ep (DeleteClaim (tobeDeletedClaims (sv_claimed (r_svc s)) endpoints));
  on_ep (Claim (krm_Object (r_cr s)) endpoints).

(** The first part of the reconcilers that claim endpoints: the claimed endpoints are
    read, and released when the object is deleted.

    [controllers/link-controller/reconciler.go:114-136 reconciler.Reconcile] *)
Definition with_claimed (cr_api : CRClient W (KRM Spec Status)) (list_failed : Result) (body : M state Result) : M state Result :=
  s ← get_state;
  r ← catch (on_ep (GetClaimedEndpoints (ta_List_endpoints api) (krm_Object (r_cr s))));
  match r with
  | inr e => _ ← set_claimed []; report cr_api [Failed now e] list_failed
  | inl eps =>
      _ ← set_claimed eps;
      if WasDeleted (krm_om (r_cr s)) then
        r ← catch (on_ep (DeleteClaim eps));
        match r with
        | inr e => report cr_api [Failed now e] requeue
        | inl _ =>
            e ← ta_RemoveFinalizer api cr_api topo_finalizer;
            match e with
            | Some e => report cr_api [Failed now e] requeue
            | None => mret no_requeue
            end
        end
      else body
  end.

(** The finalizer is added. *)
Definition with_topo_finalizer (cr_api : CRClient W (KRM Spec Status)) (fin : string) (body : M state Result) : M state Result :=
  e ← ta_AddFinalizer api cr_api fin;
  match e with
  | Some e => report cr_api [Failed now e] requeue
  | None => body
  end.

(** The end of a reconciler that owns no endpoints: a deleted object loses its finalizer. *)
Definition unless_deleted (cr_api : CRClient W (KRM Spec Status)) (fin : string) (body : M state Result) : M state Result :=
  s ← get_state;
  if WasDeleted (krm_om (r_cr s)) then
    e ← ta_RemoveFinalizer api cr_api fin;
    match e with
    | Some e => report cr_api [Failed now e] requeue
    | None => mret no_requeue
    end
  else body.

End Parts.

(** ** Link *)

Abbreviation link_state := (rstate topo_svc W LinkSpec LinkStatus).

(** The link is owned by a logical interconnect. *)
Definition owned_by_interconnect (cr : Link) : bool :=
  existsb (fun ownRef => bool_decide (or_APIVersion ownRef = Identifier topo_GroupVersion /\
    or_Kind ownRef = LogicalInterconnectKind)) (om_OwnerReferences (krm_om cr)).

Definition link_selector (ep : LinkEndpointSpec) : MetaLabelSelector :=
  MkMetaLabelSelector (<[NephioInventoryInterfaceNameKey := eps_InterfaceName (les_EndpointSpec ep)]>
    {[NephioInventoryNodeNameKey := eps_NodeName (les_EndpointSpec ep)]}) [].

(** The endpoint an end of the link names.

    [controllers/link-controller/reconciler.go:190-205 reconciler.claimResources] *)
Definition link_endpoint (cr : Link) (ep : LinkEndpointSpec) : M link_state Endpoint :=
  eps ← endpoints_with (les_Topology ep) (Some (link_selector ep));
  first ← lift (index eps 0);
  if bool_decide (length eps <> 1%nat) then
    throw ("expecting 1 endpoint, got: " +:+ pretty (Z.of_nat (length eps)) +:+ ", data: " +:+ ta_print_endpoints api eps)
  else if IsAllocated first (krm_Object cr) then
    throw ("endpoint allocated by another resource: " +:+ ta_print_ref api (ept_ClaimRef (status first)))
  else mret first.

Fixpoint link_endpoints (cr : Link) (l : list LinkEndpointSpec) : M link_state (list Endpoint) :=
  match l with
  | [] => mret []
  | ep :: l =>
      e ← link_endpoint cr ep;
      es ← link_endpoints cr l;
      mret (e :: es)
  end.

(** [controllers/link-controller/reconciler.go:170-233 reconciler.claimResources] *)
Definition link_claimResources : M link_state unit :=
  s ← get_state;
  let cr := r_cr s in
  if owned_by_interconnect cr then mret tt
  else
    _ ← on_ep (endpoint_Init (ta_List_endpoints api) (Link_GetTopologies cr));
    endpoints ← link_endpoints cr (ls_Endpoints (spec cr));
    move_claims endpoints.

(** When the claims fail, those the link had are released, as they were read.

    [controllers/link-controller/reconciler.go:91-168 reconciler.Reconcile] *)
Definition link_Reconcile (req : NamespacedName) : M (topo_svc * W) Result :=
  reconcile (ta_links api) req (
    s ← get_state;
    if owned_by_interconnect (r_cr s) then mret no_requeue
    else
      with_claimed (ta_links api) requeue (
        with_topo_finalizer (ta_links api) topo_finalizer (
          r ← catch acquire_lease;
          match r with
          | inr e => report (ta_links api) [Failed now e] requeue_lease
          | inl _ =>
              r ← catch link_claimResources;
              match r with
              | inr err =>
                  s ← get_state;
                  r ← catch (on_ep (endpoint_DeleteClaim (ta_endpoints api) (sv_claimed (r_svc s))));
                  match r with
                  | inr _ => return_status (ta_links api) requeue
                  | inl _ => report (ta_links api) [Failed now err] requeue
                  end
              | inl _ => report (ta_links api) [Ready now] no_requeue
              end
          end))).

(** ** LogicalInterconnect *)

Abbreviation li_state := (rstate topo_svc W LogicalInterconnectSpec LogicalInterconnectStatus).

Definition li_config : ResConfig := MkResConfig true [LinkGroupVersionKind; LogicalEndpointGroupVersionKind].

Definition link_name (a b : LinkEndpointSpec) : string :=
  eps_NodeName (les_EndpointSpec a) +:+ "-" +:+ eps_InterfaceName (les_EndpointSpec a) +:+ "-" +:+
  eps_NodeName (les_EndpointSpec b) +:+ "-" +:+ eps_InterfaceName (les_EndpointSpec b).

(** The link of a selection, with the name of its two ends.

    [controllers/logicalinterconnect-controller/reconciler.go:194-205 reconciler.populateResources] *)
Definition add_link (cr : LogicalInterconnect) (l : LinkSpec) : M li_state unit :=
  a ← lift (index (ls_Endpoints l) 0);
  b ← lift (index (ls_Endpoints l) 1);
  on_res (AddNewResource li_config (krm_Object cr)
    (TLink (BuildLink (new_meta (link_name a b) (GetNamespace cr) None) l no_conditions))).

(** [controllers/logicalinterconnect-controller/reconciler.go:209-220 reconciler.populateResources] *)
Definition add_logical_endpoint (cr : LogicalInterconnect) (x : Z * LogicalEndpointSpec) : M li_state unit :=
  on_res (AddNewResource li_config (krm_Object cr)
    (TLogicalEndpoint (BuildLogicalEndpoint
      (new_meta (GetName cr +:+ "-logical-ep" +:+ pretty x.1) (GetNamespace cr) None) x.2
      (MkLogicalEndpointStatus no_conditions None None)))).

(** [controllers/logicalinterconnect-controller/reconciler.go:180-248 reconciler.populateResources] *)
Definition li_populateResources : M li_state unit :=
  s ← get_state;
  let cr := r_cr s in
  _ ← on_res (resources_Init ∅);
  selectionResult ← on_ep (selectEndpoints (ta_LabelSelectorAsSelector api) (ta_LabelSelector_String api) (ta_sort_Slice api)
    (ta_List_endpoints api) (lis_Links (spec cr)) cr);
  _ ← forM (getLinkSpecs selectionResult) (add_link cr);
  _ ← forM (zip (seqZ 0 (Z.of_nat (length (getLogicalEndpoints selectionResult)))) (getLogicalEndpoints selectionResult))
        (add_logical_endpoint cr);
  _ ← move_claims (getSelectedEndpoints selectionResult);
  on_res (APIApply (ta_List api) (ta_Delete api) (ta_Apply api) li_config (krm_Object cr)).

(** [controllers/logicalinterconnect-controller/reconciler.go:105-178 reconciler.Reconcile] *)
Definition interconnect_Reconcile (req : NamespacedName) : M (topo_svc * W) Result :=
  reconcile (ta_interconnects api) req (
    with_claimed (ta_interconnects api) requeue_lease (
      with_topo_finalizer (ta_interconnects api) topo_finalizer (
        r ← catch acquire_lease;
        match r with
        | inr e => report (ta_interconnects api) [Failed now e] requeue
        | inl _ =>
            r ← catch li_populateResources;
            match r with
            | inr err =>
                s ← get_state;
                r ← catch (on_res (APIDelete (ta_List api) (ta_Delete api) li_config (krm_Object (r_cr s))));
                match r with
                | inr _ => return_status (ta_interconnects api) requeue
                | inl _ =>
                    s ← get_state;
                    r ← catch (on_ep (endpoint_DeleteClaim (ta_endpoints api) (sv_claimed (r_svc s))));
                    match r with
                    | inr _ => return_status (ta_interconnects api) requeue
                    | inl _ => report (ta_interconnects api) [Failed now err] requeue
                    end
                end
            | inl _ => report (ta_interconnects api) [Ready now] no_requeue
            end
        end))).

(** ** RawTopology *)

Abbreviation raw_state := (rstate topo_svc W RawTopologySpec RawTopologyStatus).

Definition raw_config : ResConfig := MkResConfig true [NodeGroupVersionKind; LinkGroupVersionKind].

Definition ep_string (e : LinkEndpointSpec) : string :=
  eps_NodeName (les_EndpointSpec e) +:+ ":" +:+ eps_InterfaceName (les_EndpointSpec e).
(** The verb %q on a slice of strings. *)
Definition quote_all (l : list string) : string := "[" +:+ String.concat " " (quote <$> l) +:+ "]".
Definition link_ends (topo : RawTopology) : list LinkEndpointSpec := rts_Links (spec topo) ≫= ls_Endpoints.

(** [controllers/rawtopology/reconciler.go:209-223 validateLink2Nodes] *)
Definition validateLink2Nodes (topo : RawTopology) : error :=
  let invalidNodeRef := ep_string <$>
    filter (fun e => rts_Nodes (spec topo) !! eps_NodeName (les_EndpointSpec e) = None) (link_ends topo) in
  match invalidNodeRef with
  | [] => None
  | _ => Some ("endpoints " +:+ quote_all invalidNodeRef +:+ " has no node reference")
  end.

(** The loop of [validateLinks]: the endpoints that were seen before. *)
Fixpoint duplicates (l : list string) (endpoints : gset string) : list string :=
  match l with
  | [] => []
  | e :: l => (if bool_decide (e ∈ endpoints) then [e] else []) ++ duplicates l ({[e]} ∪ endpoints)
  end.

(** [controllers/rawtopology/reconciler.go:225-242 validateLinks] *)
Definition validateLinks (topo : RawTopology) : error :=
  match duplicates (ep_string <$> link_ends topo) ∅ with
  | [] => None
  | dups => Some ("endpoints " +:+ quote_all dups +:+ " appeared more than once in the links section of the topology file")
  end.

(** [controllers/rawtopology/reconciler.go:198-207 validate] *)
Definition validate (topo : RawTopology) : error :=
  match validateLink2Nodes topo with
  | Some e => Some e
  | None => validateLinks topo
  end.

(** [controllers/rawtopology/reconciler.go:244-264 buildNode] *)
Definition buildNode (cr : RawTopology) (nodeName : string) (nodeSpec : NodeSpec) : Node :=
  let ls := <[NephioProviderKey := ns_Provider nodeSpec]> (<[NephioInventoryNodeNameKey := nodeName]>
    (<[NephioTopologyKey := GetNamespace cr]> (default ∅ (udl_Labels (ns_UserDefinedLabels nodeSpec))))) in
  BuildNode (new_meta nodeName (GetNamespace cr) (Some ls)) nodeSpec (MkNodeStatus no_conditions None None).

(** The topologies of the nodes of the link, in the order of the ends; the nodes are the
    new resources.

    [controllers/rawtopology/reconciler.go:181-196 reconciler.getTopologies] *)
Definition getTopologies (new : gmap ObjectReference TObject) (l : LinkSpec) : result (string * string) :=
  fold_result (fun '(ref, o) '(t0, t1) =>
    match o with
    | TNode n =>
        e0 ← index (ls_Endpoints l) 0;
        e1 ← index (ls_Endpoints l) 1;
        Ok (if bool_decide (ref_Name ref = eps_NodeName (les_EndpointSpec e0)) then GetNamespace n else t0,
            if bool_decide (ref_Name ref = eps_NodeName (les_EndpointSpec e1)) then GetNamespace n else t1)
    | _ => Ok (t0, t1)
    end) (map_to_list new) ("", "").

(** The link with the topologies of its ends.

    [controllers/rawtopology/reconciler.go:266-286 buildLink] *)
Definition buildLink (cr : RawTopology) (linkSpec : LinkSpec) (topologies : string * string) : result Link :=
  a ← index (ls_Endpoints linkSpec) 0;
  b ← index (ls_Endpoints linkSpec) 1;
  eps ← update_at (ls_Endpoints linkSpec) 0 (fun e => MkLinkEndpointSpec topologies.1 (les_EndpointSpec e));
  eps ← update_at eps 1 (fun e => MkLinkEndpointSpec topologies.2 (les_EndpointSpec e));
  Ok (BuildLink (new_meta (link_name a b) (GetNamespace cr) None) (MkLinkSpec eps) no_conditions).

Definition put_link (i : nat) (l : LinkSpec) : RawTopology -> RawTopology :=
  with_spec (fun s => MkRawTopologySpec (rts_Nodes s) (<[i := l]> (rts_Links s)) (rts_UserDefinedLabels s) (rts_Location s)).

(** A link of the topology becomes a new resource. Its topologies are written to the
    endpoints of the link, which are those of the raw topology in hand. *)
Definition add_raw_link (cr : RawTopology) (x : nat * LinkSpec) : M raw_state unit :=
  s ← get_state;
  topologies ← lift (getTopologies (sv_new (r_svc s)) x.2);
  l ← lift (buildLink cr x.2 topologies);
  _ ← update_cr (put_link x.1 (spec l));
  on_res (AddNewResource raw_config (krm_Object cr) (TLink l)).

(** [controllers/rawtopology/reconciler.go:157-179 reconciler.populateResources] *)
Definition raw_populateResources : M raw_state unit :=
  s ← get_state;
  let cr := r_cr s in
  _ ← on_res (resources_Init {[NephioTopologyKey := GetName cr]});
  match validate cr with
  | Some e => throw e
  | None =>
      _ ← forM (map_to_list (rts_Nodes (spec cr))) (fun '(nodeName, node) =>
            on_res (AddNewResource raw_config (krm_Object cr) (TNode (buildNode cr nodeName node))));
      _ ← forM (zip (seq 0 (length (rts_Links (spec cr)))) (rts_Links (spec cr))) (add_raw_link cr);
      on_res (APIApply (ta_List api) (ta_Delete api) (ta_Apply api) raw_config (krm_Object cr))
  end.

(** [controllers/rawtopology/reconciler.go:108-155 reconciler.Reconcile] *)
Definition rawtopology_Reconcile (req : NamespacedName) : M (topo_svc * W) Result :=
  reconcile (ta_topologies api) req (
    unless_deleted (ta_topologies api) topo_finalizer (
      with_topo_finalizer (ta_topologies api) topo_finalizer (
        r ← catch raw_populateResources;
        match r with
        | inr err =>
            s ← get_state;
            r ← catch (on_res (APIDelete (ta_List api) (ta_Delete api) raw_config (krm_Object (r_cr s))));
            match r with
            | inr _ => return_status (ta_topologies api) requeue
            | inl _ => report (ta_topologies api) [Failed now err] requeue
            end
        | inl _ => report (ta_topologies api) [Ready now] no_requeue
        end))).

(** ** Node *)

Abbreviation node_state := (rstate topo_svc W NodeSpec NodeStatus).

Definition node_config : ResConfig := MkResConfig true [EndpointGroupVersionKind; TargetGroupVersionKind].

Definition set_node_labels (ls : labels) : Node -> Node := krm_meta (set_Labels (Some ls)).

(** The labels of the target are those of the node, which gets the topology and the user
    defined labels too; a write to a nil map panics.

    [controllers/node/reconciler.go:226-252 buildTarget] *)
Definition buildTarget (cr : Node) : result (Target * labels) :=
  ls ← deref (om_Labels (krm_om cr));
  let ls := udl_GetUserDefinedLabels (ns_UserDefinedLabels (spec cr)) ∪ <[NephioTopologyKey := GetNamespace cr]> ls in
  Ok (BuildTarget (new_meta (GetName cr) (GetNamespace cr) (Some ls))
        (MkTargetSpec (ns_Provider (spec cr)) (ns_Address (spec cr)) (ns_Provider (spec cr)) None None None None None None)
        no_conditions, ls).

(** The labels of the node override the others.

    [controllers/node/reconciler.go:254-283 buildEndpoint] *)
Definition buildEndpoint (cr : Node) (itfce : NodeModelInterface) (epIdx : Z) : Endpoint :=
  let ls := <[NephioInventoryEndpointIndex := pretty epIdx]> (<[NephioInventoryInterfaceNameKey := nmi_Name itfce]>
    (<[NephioInventoryNodeNameKey := GetName cr]> (<[NephioProviderKey := ns_Provider (spec cr)]>
    {[NephioTopologyKey := GetNamespace cr]}))) in
  let ls := krm_labels cr ∪ (udl_GetUserDefinedLabels (ns_UserDefinedLabels (spec cr)) ∪ ls) in
  BuildEndpoint (new_meta (GetName cr +:+ "-" +:+ nmi_Name itfce) (GetNamespace cr) (Some ls))
    (MkEndpointSpec (nmi_Name itfce) (GetName cr) None) (MkEndpointStatus no_conditions None "").

Definition set_used_config (ref : option ObjectReference) : Node -> Node :=
  with_status (fun s => MkNodeStatus (nt_ConditionedStatus s) (nt_UsedNodeModelRef s) ref).
Definition set_used_model (ref : option ObjectReference) : Node -> Node :=
  with_status (fun s => MkNodeStatus (nt_ConditionedStatus s) ref (nt_UsedNodeConfigRef s)).

(** [controllers/node/reconciler.go:180-224 reconciler.populateResources] *)
Definition node_populateResources : M node_state unit :=
  s ← get_state;
  let cr := r_cr s in
  _ ← on_res (resources_Init {[NephioTopologyKey := GetNamespace cr]});
  target ← lift (buildTarget cr);
  _ ← update_cr (set_node_labels target.2);
  _ ← on_res (AddNewResource node_config (krm_Object cr) (TTarget target.1));
  node ← lift (ta_NewNodeOfProvider api (ns_Provider (spec cr)));
  s ← get_state;
  nc ← lift (np_GetNodeConfig node (r_cr s) (r_api s));
  let gvk := o_GVK (krm_Object nc) in
  _ ← (if bool_decide (Identifier (GroupVersion_of gvk) <> "" /\ Kind gvk <> "") then
         update_cr (set_used_config (Some (ObjRef (Kind gvk) (GetNamespace nc) (GetName nc) "" (Identifier (GroupVersion_of gvk)) "" "")))
       else mret tt);
  _ ← update_cr (set_used_model (np_GetNodeModelConfig node nc));
  s ← get_state;
  nm ← lift (np_GetNodeModel node nc (r_api s));
  _ ← forM (zip (seqZ 0 (Z.of_nat (length (nms_Interfaces (spec nm))))) (nms_Interfaces (spec nm))) (fun '(epIdx, itfce) =>
        on_res (AddNewResource node_config (krm_Object cr) (TEndpoint (buildEndpoint (r_cr s) itfce epIdx))));
  on_res (APIApply (ta_List api) (ta_Delete api) (ta_Apply api) node_config (krm_Object cr)).

(** [r.Apply(ctx, cr)] *)
Definition apply_node : M node_state error := fun s =>
  let '(w, cr, e) := ta_Apply_node api (r_cr s) (r_api s) in (MkRState (r_svc s) w cr, Ok e).

(** The labels of the node are applied, and its status is kept through the call.

    [controllers/node/reconciler.go:110-178 reconciler.Reconcile] *)
Definition node_Reconcile (req : NamespacedName) : M (topo_svc * W) Result :=
  reconcile (ta_nodes api) req (
    unless_deleted (ta_nodes api) inv_finalizer (
      with_topo_finalizer (ta_nodes api) inv_finalizer (
        r ← catch node_populateResources;
        match r with
        | inr err =>
            s ← get_state;
            r ← catch (on_res (APIDelete (ta_List api) (ta_Delete api) node_config (krm_Object (r_cr s))));
            match r with
            | inr _ => return_status (ta_nodes api) requeue
            | inl _ => report (ta_nodes api) [Failed now err] requeue
            end
        | inl _ =>
            s ← get_state;
            let st := status (r_cr s) in
            _ ← update_cr (fun cr : Node => set_node_labels
                  (<[NephioTopologyKey := GetNamespace cr]> (<[NephioProviderKey := ns_Provider (spec cr)]>
                    (<[NephioInventoryNodeNameKey := GetName cr]> (krm_labels cr)))) cr);
            e ← apply_node;
            match e with
            | Some e => report (ta_nodes api) [Failed now e] requeue
            | None =>
                _ ← update_cr (with_status (fun _ => st));
                report (ta_nodes api) [Ready now] no_requeue
            end
        end))).

(** ** Events

    The requests that an event on an object adds to the queue of a controller. *)

Definition request {A B} (r : KRM A B) : NamespacedName := krm_nsn r.
Definition not_ready {A B} `{HasConditions B} (r : KRM A B) : bool :=
  bool_decide (c_Status (krm_GetCondition r ConditionTypeReady) = ConditionFalse).

(** The inner loop over the owners of the endpoint only continues itself: it changes
    nothing.

    [controllers/link-controller/watch_endpoint.go:63-111 endpointEventHandler.add] *)
Definition link_endpoint_add (cr : Endpoint) (w : W) : list NamespacedName :=
  let others := match ta_List_links api (GetNamespace cr) w with
                | Ok links => request <$> filter (fun l : Link => not_ready l = true) links
                | _ => []
                end in
  match ept_ClaimRef (status cr) with
  | Some ref =>
      if bool_decide (ref_APIVersion ref = Identifier inv_GroupVersion /\ ref_Kind ref = LinkKind) then [ref_nsn ref] else others
  | None => others
  end.

(** [controllers/logicalinterconnect-controller/watch_endpoint.go:63-104 endpointEventHandler.add] *)
Definition interconnect_endpoint_add (cr : Endpoint) (w : W) : list NamespacedName :=
  let others := match ta_List_interconnects api (GetNamespace cr) w with
                | Ok lics => request <$> filter (fun l : LogicalInterconnect => not_ready l = true) lics
                | _ => []
                end in
  match ept_ClaimRef (status cr) with
  | Some ref =>
      if bool_decide (ref_APIVersion ref = Identifier topo_GroupVersion /\ ref_Kind ref = LogicalInterconnectKind)
      then [ref_nsn ref] else others
  | None => others
  end.

(** The nodes of the provider, in the namespace, that use the object. *)
Definition nodes_using (provider name namespace : string) (used : NodeStatus -> option ObjectReference) (w : W) :
    list NamespacedName :=
  match ta_List_nodes api {[NephioProviderKey := provider]} namespace w with
  | Ok nodes => request <$> filter (fun n : Node => ref_Name <$> used (status n) = Some name) nodes
  | _ => []
  end.

(** [controllers/node/watch_nodeconfig.go:60-95 nodeConfigEventHandler.add] *)
Definition nodeConfig_add (cr : NodeConfig Q) (w : W) : list NamespacedName :=
  nodes_using (ncs_Provider (spec cr)) (GetName cr) (GetNamespace cr) nt_UsedNodeConfigRef w.

(** [controllers/node/watch_nodemodel.go:60-95 nodeModelEventHandler.add] *)
Definition nodeModel_add (cr : NodeModel) (w : W) : list NamespacedName :=
  nodes_using (nms_Provider (spec cr)) (GetName cr) (GetNamespace cr) nt_UsedNodeModelRef w.

End Topo.
