(* ===== verification/Startup.v ===== *)
(** * main.go and the registration of the controllers

    Packages register their reconcilers by name; the program sets up those that an
    environment variable enables, collects the event channels they return and gives them
    to the client proxy of the IPAM group. A reconciler is represented by what its [Setup]
    does: the schemes it adds, the fields it fills in and the controller it builds. The
    manager is a parameter with laws. *)

From S2P Require Import Prelude Meta Labels Conditions KRM IpamApi VlanApi ClientProxy Reconciler Controllers Inventory Lease Endpoints Selection Resources TopoControllers.

Local Open Scope Z_scope.

(** ** Reconcilers *)

(** The client proxy a reconciler uses. *)
Inductive ProxyOf : Type := IpamClientProxy | VlanClientProxy.

(** The fields [Setup] assigns; the clients of the API server are left out. *)
Record fields : Type := MkFields {
  f_ClientProxy : option ProxyOf;
  f_pollInterval : Z;
  f_finalizer : string;
  f_resources : option ResConfig;
  f_epLease : option NamespacedName
}.

(** The controller a [Setup] builds: the kind it reconciles, the kinds it owns, the kinds
    it watches with a handler of its own, and the channel it receives events from. *)
Record Builder : Type := MkBuilder {
  b_Named : option string;
  b_For : GroupVersionKind;
  b_Owns : list GroupVersionKind;
  b_Watches : list GroupVersionKind;
  b_Channel : option nat
}.

(** The client proxies are in the state below.

    [controllers/ctrlconfig/config.go:31-41 ControllerConfig] *)
Record ControllerConfig : Type := MkControllerConfig { cc_Address : string; cc_Poll : Z }.

(** The fields depend on the configuration and on the variable POD_NAMESPACE.

    [controllers/controllers.go:30-41 Reconciler] *)
Record Reconciler : Type := MkReconciler {
  rc_schemes : list GroupVersion;
  rc_fields : ControllerConfig -> string -> fields;
  rc_events : bool;
  rc_builder : option nat -> Builder
}.

(** The reconcilers of the resource groups have a channel for the events of the proxy. *)
Definition resource_reconciler (gv : GroupVersion) (proxy : ProxyOf) (finalizer : string) (named : option string) (kind : string) : Reconciler :=
  MkReconciler [gv] (fun cfg _ => MkFields (Some proxy) (cc_Poll cfg) finalizer None None) true
    (MkBuilder named (WithKind gv kind) [] []).

(** [controllers/ipclaim/reconciler.go:67-87 reconciler.Setup] *)
Definition ipclaim_reconciler : Reconciler := resource_reconciler ipam_GroupVersion IpamClientProxy ipam_finalizer None IPClaimKind.
(** [controllers/ipprefix/reconciler.go:63-83 reconciler.Setup] *)
Definition ipprefix_reconciler : Reconciler := resource_reconciler ipam_GroupVersion IpamClientProxy ipam_finalizer None IPPrefixKind.
(** [controllers/ipnetworkinstance/reconciler.go:60-80 reconciler.Setup] *)
Definition networkinstance_reconciler : Reconciler :=
  resource_reconciler ipam_GroupVersion IpamClientProxy ipam_finalizer None NetworkInstanceKind.
(** [controllers/vlanclaim/reconciler.go:64-85 reconciler.Setup] *)
Definition vlanclaim_reconciler : Reconciler :=
  resource_reconciler vlan_GroupVersion VlanClientProxy vlan_finalizer (Some "VLANCLaimController") VLANClaimKind.
(** [controllers/vlanindex/reconciler.go:62-83 reconciler.Setup] *)
Definition vlanindex_reconciler : Reconciler :=
  resource_reconciler vlan_GroupVersion VlanClientProxy vlan_finalizer (Some "VLANIndexController") VLANIndexKind.
(** [controllers/vlanvlan/reconciler.go:65-86 reconciler.Setup] *)
Definition vlan_reconciler : Reconciler :=
  resource_reconciler vlan_GroupVersion VlanClientProxy vlan_finalizer (Some "VLANController") VLANKind.

(** [controllers/link-controller/reconciler.go:57-76 reconciler.Setup] *)
Definition link_reconciler : Reconciler :=
  MkReconciler [inv_GroupVersion] (fun _ ns => MkFields None 0 topo_finalizer None (Some (NSN ns "endpoint"))) false
    (MkBuilder (Some "LinkController") LinkGroupVersionKind [] [EndpointGroupVersionKind]).
(** [controllers/logicalinterconnect-controller/reconciler.go:59-89 reconciler.Setup] *)
Definition logicalinterconnect_reconciler : Reconciler :=
  MkReconciler [inv_GroupVersion; topo_GroupVersion]
    (fun _ ns => MkFields None 0 topo_finalizer (Some li_config) (Some (NSN ns "endpoint"))) false
    (MkBuilder (Some "LogicalInterconnectController") (WithKind topo_GroupVersion LogicalInterconnectKind)
      [LinkGroupVersionKind; LogicalEndpointGroupVersionKind] [EndpointGroupVersionKind]).
(** [controllers/rawtopology/reconciler.go:69-96 reconciler.Setup] *)
Definition rawtopology_reconciler : Reconciler :=
  MkReconciler [inv_GroupVersion; topo_GroupVersion] (fun _ ns => MkFields None 0 topo_finalizer (Some raw_config) None) false
    (MkBuilder (Some "RawTopologyController") (WithKind topo_GroupVersion RawTopologyKind) [NodeGroupVersionKind; LinkGroupVersionKind] []).
(** Not imported by main.go.

    [controllers/node/reconciler.go:68-96 reconciler.Setup] *)
Definition node_reconciler : Reconciler :=
  MkReconciler [inv_GroupVersion] (fun _ ns => MkFields None 0 inv_finalizer (Some node_config) None) false
    (MkBuilder (Some "NodeController") NodeGroupVersionKind [EndpointGroupVersionKind; TargetGroupVersionKind]
      [WithKind inv_GroupVersion "NodeConfig"; WithKind inv_GroupVersion "NodeModel"]).

(** [controllers/controllers.go:45-47 Register] *)
Definition Register (name : string) (r : Reconciler) (Reconcilers : gmap string Reconciler) : gmap string Reconciler :=
  <[name := r]> Reconcilers.

(** The packages main.go imports, each of which registers one reconciler.

    [main.go:39-49 main] *)
Definition Reconcilers : gmap string Reconciler :=
  Register "vlan" vlan_reconciler (Register "vlanindex" vlanindex_reconciler (Register "vlanclaim" vlanclaim_reconciler (
  Register "rawtopologies" rawtopology_reconciler (Register "logicalinterconnects" logicalinterconnect_reconciler (
  Register "links" link_reconciler (Register "ipprefix" ipprefix_reconciler (
  Register "networkinstance" networkinstance_reconciler (Register "ipclaim" ipclaim_reconciler ∅)))))))).

(** ** Set-up *)

(** What [Setup] calls of the manager. *)
Record Manager (W : Type) : Type := MkManager {
  mgr_AddToScheme : GroupVersion -> W -> W * error;
  mgr_Complete : Builder -> W -> W * error
}.
Arguments mgr_AddToScheme {W} m.
Arguments mgr_Complete {W} m.

(** The controllers the manager runs: a completed builder is added to them. *)
Class ManagerLaws {W} (mgr : Manager W) (controllers : W -> list Builder) : Prop := {
  AddToScheme_controllers : forall gv w, controllers (mgr_AddToScheme mgr gv w).1 = controllers w;
  Complete_controllers : forall b w, (mgr_Complete mgr b w).2 = None ->
    controllers (mgr_Complete mgr b w).1 = controllers w ++ [b]
}.

Section Startup.
Context {W R : Type} (mgr : Manager W) (cfg : ControllerConfig).
(** [os.LookupEnv]. *)
Context (env : string -> option string).

(** The manager, the channels made so far, the fields of the reconcilers by name and the
    client proxies of the two groups. *)
Record startState : Type := MkStartState {
  st_mgr : W;
  st_chan : nat;
  st_fields : gmap string fields;
  st_ipam : clientproxy R;
  st_vlan : clientproxy R
}.

Definition mgr_call (f : W -> W * error) : M startState unit := fun s =>
  let '(w, e) := f (st_mgr s) in
  (MkStartState w (st_chan s) (st_fields s) (st_ipam s) (st_vlan s), match e with None => Ok tt | Some e => Err e end).
Definition set_fields (name : string) (f : fields) : M startState unit := modify (fun s =>
  MkStartState (st_mgr s) (st_chan s) (<[name := f]> (st_fields s)) (st_ipam s) (st_vlan s)).
Definition make_chan : M startState nat := fun s =>
  (MkStartState (st_mgr s) (S (st_chan s)) (st_fields s) (st_ipam s) (st_vlan s), Ok (st_chan s)).
Definition on_ipam (m : M (clientproxy R) unit) : M startState unit :=
  zoom st_ipam (fun c s => MkStartState (st_mgr s) (st_chan s) (st_fields s) c (st_vlan s)) m.

(** [Setup] of the reconciler: an error of a scheme returns before anything else is done.

    [controllers/controllers.go:39-40 Reconciler.Setup] *)
Definition Setup (name : string) (r : Reconciler) : M startState (gmap GroupVersionKind nat) :=
  _ ← forM (rc_schemes r) (fun gv => mgr_call (mgr_AddToScheme mgr gv));
  _ ← set_fields name (rc_fields r cfg (default "" (env "POD_NAMESPACE")));
  if rc_events r then
    ge ← make_chan;
    _ ← mgr_call (mgr_Complete mgr (rc_builder r (Some ge)));
    mret {[b_For (rc_builder r (Some ge)) := ge]}
  else
    _ ← mgr_call (mgr_Complete mgr (rc_builder r None));
    mret ∅.

(** [strings.ToUpper] of an ASCII string. *)
Definition upper (c : ascii) : ascii :=
  let n := Ascii.nat_of_ascii c in if (97 <=? n)%nat && (n <=? 122)%nat then Ascii.ascii_of_nat (n - 32) else c.
Fixpoint ToUpper (s : string) : string :=
  match s with EmptyString => EmptyString | String c s => String (upper c) (ToUpper s) end.

(** [main.go:220-225 IsReconcilerEnabled] *)
Definition IsReconcilerEnabled (reconcilerName : string) : bool :=
  bool_decide (is_Some (env ("ENABLE_" +:+ ToUpper reconcilerName))).

(** The loop over the reconcilers; an error ends the program.

    [main.go:146-159 main] *)
Fixpoint setup_all (l : list (string * Reconciler)) (gevents : gmap GroupVersionKind nat) :
    M startState (gmap GroupVersionKind nat) :=
  match l with
  | [] => mret gevents
  | (name, r) :: l =>
      if IsReconcilerEnabled name then e ← Setup name r; setup_all l (e ∪ gevents)
      else setup_all l gevents
  end.

(** [main.go:146-160 main] *)
Definition main_setup : M startState unit :=
  gevents ← setup_all (map_to_list Reconcilers) ∅;
  on_ipam (AddEventChs gevents).

(** ** Channels *)

Context (controllers : W -> list Builder) `{!ManagerLaws mgr controllers}.

(** The channel of a controller is the one it was given, and the kind does not depend on it. *)
Definition well_built (r : Reconciler) : Prop :=
  forall c, b_Channel (rc_builder r c) = c /\ b_For (rc_builder r c) = b_For (rc_builder r None).

Lemma Reconcilers_well_built : map_Forall (fun _ r => well_built r) Reconcilers.
Proof. unfold Reconcilers, Register. repeat apply map_Forall_insert_2; done. Qed.

(** The kinds of the reconcilers are distinct. *)
Lemma Reconcilers_kinds : NoDup ((fun x : string * Reconciler => b_For (rc_builder x.2 None)) <$> map_to_list Reconcilers).
Proof. by_compute. Qed.

(** The events are the channels of the controllers. *)
Definition evs_ok (gevents : gmap GroupVersionKind nat) (bs : list Builder) : Prop := forall gvk ch,
  gevents !! gvk = Some ch <-> exists b, b ∈ bs /\ b_For b = gvk /\ b_Channel b = Some ch.

Lemma schemes_spec l : forall s s', forM l (fun gv => mgr_call (mgr_AddToScheme mgr gv)) s = (s', Ok tt) ->
  controllers (st_mgr s') = controllers (st_mgr s) /\ st_ipam s' = st_ipam s /\ st_vlan s' = st_vlan s.
Proof.
  induction l as [|gv l IH]; intros s s'; cbn [forM]; [by intros [= <-]|].
  unfold mbind, M_bind, mgr_call. pose proof (AddToScheme_controllers gv (st_mgr s)) as Hc.
  destruct (mgr_AddToScheme mgr gv (st_mgr s)) as [w [e|]]; [done|]. intros H. apply IH in H. cbn in *. intuition congruence.
Qed.

Lemma Setup_spec name r s s' e : well_built r -> Setup name r s = (s', Ok e) ->
  exists b c, b = rc_builder r c /\ controllers (st_mgr s') = controllers (st_mgr s) ++ [b] /\
    e = match b_Channel b with Some ch => {[b_For b := ch]} | None => ∅ end /\
    st_ipam s' = st_ipam s /\ st_vlan s' = st_vlan s.
Proof.
  intros Hw. unfold Setup. unfold mbind at 1, M_bind at 1. destruct (forM _ _ s) as [s1 [[]|err|]] eqn:Hs; [|done..].
  apply schemes_spec in Hs as (Hc & Hi & Hv).
  assert (Hcomp : forall c s1 s2, mgr_call (mgr_Complete mgr (rc_builder r c)) s1 = (s2, Ok tt) ->
    controllers (st_mgr s2) = controllers (st_mgr s1) ++ [rc_builder r c] /\ st_ipam s2 = st_ipam s1 /\ st_vlan s2 = st_vlan s1).
  { intros c s2 s3. unfold mgr_call. pose proof (Complete_controllers (rc_builder r c) (st_mgr s2)) as Hcc.
    destruct (mgr_Complete mgr _ _) as [w [err|]]; [done|]. intros [= <-]. split; [by apply Hcc|done]. }
  unfold set_fields, modify, make_chan, mret, M_ret. unfold mbind at 1, M_bind at 1.
  destruct (rc_events r).
  - unfold mbind, M_bind. destruct (mgr_call _ _) as [s2 [[]|err|]] eqn:H2; [|done..]. intros [= <- <-].
    apply Hcomp in H2 as (H2 & H3 & H4). cbn in H2, H3, H4. exists (rc_builder r (Some (st_chan s1))), (Some (st_chan s1)).
    rewrite (proj1 (Hw _)). split_and!; first [done|congruence].
  - unfold mbind, M_bind. destruct (mgr_call _ _) as [s2 [[]|err|]] eqn:H2; [|done..]. intros [= <- <-].
    apply Hcomp in H2 as (H2 & H3 & H4). cbn in H2, H3, H4. exists (rc_builder r None), None.
    rewrite (proj1 (Hw _)). split_and!; first [done|congruence].
Qed.

Lemma evs_ok_add gevents bs b : evs_ok gevents bs -> b_For b ∉ b_For <$> bs ->
  evs_ok (match b_Channel b with Some ch => {[b_For b := ch]} | None => ∅ end ∪ gevents) (bs ++ [b]).
Proof.
  intros Hok Hni gvk ch. split.
  - destruct (b_Channel b) as [ch'|] eqn:Hch.
    + rewrite lookup_union_Some_raw. intros [Hl|[_ Hl]].
      * apply lookup_singleton_Some in Hl as [<- <-]. exists b. split; [apply elem_of_app; right; by left|done].
      * apply Hok in Hl as (b' & Hb' & ?). exists b'. split; [apply elem_of_app; by left|done].
    + rewrite (left_id_L ∅ (∪)). intros Hl. apply Hok in Hl as (b' & Hb' & ?). exists b'. split; [apply elem_of_app; by left|done].
  - intros (b' & [Hb'|Hb']%elem_of_app & <- & Hch').
    + assert (Hl : gevents !! b_For b' = Some ch) by (apply Hok; by exists b').
      rewrite lookup_union_r; [done|]. destruct (b_Channel b); [|done]. apply lookup_singleton_ne.
      intros Heq. apply Hni. rewrite Heq. by apply list_elem_of_fmap_2.
    + apply list_elem_of_singleton in Hb' as ->. rewrite Hch'. apply lookup_union_Some_l. apply lookup_singleton_eq.
Qed.

(** What the loop leaves: the channels of the controllers, one controller for every enabled
    reconciler, and the proxies as they were. *)
Lemma setup_all_spec l : forall gevents s s' gevents',
  Forall (fun x => well_built x.2) l -> NoDup ((fun x => b_For (rc_builder x.2 None)) <$> l) ->
  (forall x, x ∈ l -> b_For (rc_builder x.2 None) ∉ b_For <$> controllers (st_mgr s)) ->
  evs_ok gevents (controllers (st_mgr s)) -> setup_all l gevents s = (s', Ok gevents') ->
  evs_ok gevents' (controllers (st_mgr s')) /\ st_ipam s' = st_ipam s /\ st_vlan s' = st_vlan s /\
  (forall b, b ∈ controllers (st_mgr s) -> b ∈ controllers (st_mgr s')) /\
  (forall x, x ∈ l -> IsReconcilerEnabled x.1 = true -> exists c, rc_builder x.2 c ∈ controllers (st_mgr s')).
Proof.
  induction l as [|[name r] l IH]; intros gevents s s' gevents' Hw Hnd Hfree Hok; cbn [setup_all].
  { intros [= <- <-]. split_and!; [done..|]. intros x Hx. by apply elem_of_nil in Hx. }
  apply Forall_cons in Hw as [Hwr Hw]. cbn [fmap list_fmap] in Hnd. apply NoDup_cons in Hnd as [Hni Hnd].
  destruct (IsReconcilerEnabled name) eqn:Hen.
  - unfold mbind at 1, M_bind at 1. destruct (Setup name r s) as [s1 [e|err|]] eqn:Hs; [|done..].
    apply (Setup_spec _ _ _ _ _ Hwr) in Hs as (b & c & Hb & Hc & -> & Hi & Hv). intros Hall.
    assert (HFor : b_For b = b_For (rc_builder r None)) by (subst b; apply Hwr).
    apply IH in Hall as (Hok' & Hi' & Hv' & Hmono & Hen'); [|done|done| |].
    + split; [done|]. split; [congruence|]. split; [congruence|]. split; [intros b' Hb'; apply Hmono; rewrite Hc; apply elem_of_app; by left|].
      intros x [->|Hx]%elem_of_cons Hex; [|by apply Hen']. exists c. apply Hmono. rewrite Hc, <-Hb. apply elem_of_app. right. by left.
    + intros x Hx. rewrite Hc, fmap_app. intros [Hin|Hin]%elem_of_app; [by apply (Hfree x); [right|]|].
      apply list_elem_of_singleton in Hin. apply Hni. cbn [snd]. rewrite <-HFor, <-Hin. exact (list_elem_of_fmap_2 (fun x => b_For (rc_builder x.2 None)) _ _ Hx).
    + rewrite Hc. apply evs_ok_add; [done|]. rewrite HFor. apply (Hfree (name, r)). by left.
  - intros Hall. apply IH in Hall as (Hok' & Hi' & Hv' & Hmono & Hen'); [|done|done| |done].
    + split_and!; [done..|]. intros x [->|Hx]%elem_of_cons Hex; [cbn in Hex; congruence|by apply Hen'].
    + intros x Hx. apply Hfree. by right.
Qed.

Lemma setup_Reconcilers s s' gevents : controllers (st_mgr s) = [] -> setup_all (map_to_list Reconcilers) ∅ s = (s', Ok gevents) ->
  evs_ok gevents (controllers (st_mgr s')) /\ st_ipam s' = st_ipam s /\ st_vlan s' = st_vlan s /\
  (forall x, x ∈ map_to_list Reconcilers -> IsReconcilerEnabled x.1 = true -> exists c, rc_builder x.2 c ∈ controllers (st_mgr s')).
Proof.
  intros Hnil Hall. apply setup_all_spec in Hall as (Hok & Hi & Hv & _ & Hen); [done|..].
  - apply Forall_forall. intros [name r] Hx%elem_of_map_to_list. exact (Reconcilers_well_built _ _ Hx).
  - exact Reconcilers_kinds.
  - intros x _. rewrite Hnil. apply not_elem_of_nil.
  - rewrite Hnil. intros gvk ch. rewrite lookup_empty. split; [intros [=]|]. intros (b & Hb & _). destruct (not_elem_of_nil _ Hb).
Qed.

(** After a start without errors, every enabled reconciler runs as a controller, and
    the IPAM client proxy has exactly the channels of the running controllers, by the kind
    they reconcile: when the proxy notifies the owner of a claim, the event is sent on the
    channel of the controller of that kind, with the name of the owner, and nowhere when no
    controller of that kind has a channel. *)
Lemma main_events s s' : controllers (st_mgr s) = [] -> main_setup s = (s', Ok tt) ->
  (forall name r, Reconcilers !! name = Some r -> IsReconcilerEnabled name = true ->
    exists c, rc_builder r c ∈ controllers (st_mgr s')) /\
  (forall gvk nsn, let i := cp_informer (st_ipam s') in
    inf_sent (NotifyClient gvk nsn i) = [] /\ (forall b, b ∈ controllers (st_mgr s') -> b_For b = gvk -> b_Channel b = None) \/
    exists b ch, b ∈ controllers (st_mgr s') /\ b_For b = gvk /\ b_Channel b = Some ch /\
      inf_sent (NotifyClient gvk nsn i) =
        [(ch, MkUnstructured (Identifier (GroupVersion_of gvk)) (Kind gvk) (nsn_Namespace nsn) (nsn_Name nsn))]) /\
  st_vlan s' = st_vlan s /\ cp_resourceClient (st_ipam s') = cp_resourceClient (st_ipam s).
Proof.
  intros Hnil. unfold main_setup. unfold mbind at 1, M_bind at 1. destruct (setup_all _ _ s) as [s1 [gevents|err|]] eqn:Hall; [|done..].
  apply (setup_Reconcilers _ _ _ Hnil) in Hall as (Hok & Hi & Hv & Hen).
  unfold on_ipam, zoom, AddEventChs, modify. intros [= <-]. cbn. split; [|split; [|split; [done|by rewrite Hi]]].
  - intros name r Hr Hname. apply (Hen (name, r)); [by apply elem_of_map_to_list|done].
  - intros gvk nsn. unfold NotifyClient. cbn [NewInformer inf_eventCh inf_sent]. destruct (gevents !! gvk) as [ch|] eqn:Hg.
    + right. apply Hok in Hg as (b & Hb & Hf & Hch). by exists b, ch.
    + left. split; [done|]. intros b Hb Hf. destruct (b_Channel b) as [ch|] eqn:Hch; [|done].
      assert (gevents !! gvk = Some ch) by (apply Hok; by exists b). congruence.
Qed.

End Startup.

(** A proxy without channels sends no event, whatever it is told; that of the VLAN group
    never gets any. *)
Lemma vlan_events_lost {W R} (mgr : Manager W) cfg env controllers `{!ManagerLaws mgr controllers} (s s' : startState) :
  controllers (st_mgr s) = [] -> main_setup (R := R) mgr cfg env s = (s', Ok tt) ->
  inf_eventCh (cp_informer (st_vlan s)) = ∅ ->
  forall gvk nsn, NotifyClient gvk nsn (cp_informer (st_vlan s')) = cp_informer (st_vlan s).
Proof.
  intros Hnil. unfold main_setup. unfold mbind at 1, M_bind at 1.
  destruct (setup_all _ _ _ _ _ s) as [s1 [gevents|err|]] eqn:Hall; [|done..].
  apply (setup_Reconcilers mgr cfg env controllers _ _ _ Hnil) in Hall as (_ & _ & Hv & _).
  unfold on_ipam, zoom, AddEventChs, modify. intros [= <-] Hempty gvk nsn. cbn. unfold NotifyClient. rewrite Hv, Hempty, lookup_empty. reflexivity.
Qed.

(** The resources a controller of the topology prunes are of the kinds whose events it
    gets from the manager. *)
Lemma pruned_kinds_watched : map_Forall (fun _ r => forall cfg ns c,
  match f_resources (rc_fields r cfg ns) with Some rcfg => rcf_Owns rcfg = b_Owns (rc_builder r c) | None => True end) Reconcilers.
Proof. unfold Reconcilers, Register. repeat apply map_Forall_insert_2; done. Qed.

(** ** A manager that accepts every controller *)

Definition list_manager : Manager (list Builder) := MkManager _ (fun _ w => (w, None)) (fun b w => (w ++ [b], None)).
#[local] Instance list_manager_laws : ManagerLaws list_manager id.
Proof. by split. Qed.

Definition idle_proxy : clientproxy unit := MkClientproxy None ∅ NewNopInformer NewResponseValidator WatchNone tt.
Definition start_0 : @startState (list Builder) unit := MkStartState [] 0 ∅ idle_proxy idle_proxy.
Definition only_ipclaim (v : string) : option string := if bool_decide (v = "ENABLE_IPCLAIM") then Some "true" else None.
Definition started := main_setup list_manager (MkControllerConfig "backend:9999" 5000000000) only_ipclaim start_0.

Lemma pair_snd {A B} (x : A * B) b : x.2 = b -> x = (x.1, b).
Proof. by destruct x; intros [= <-]. Qed.

(** With the reconciler of IP claims enabled, its controller runs. *)
Lemma main_events_witness : started.2 = Ok tt /\ (exists c, rc_builder ipclaim_reconciler c ∈ st_mgr started.1) /\
  st_vlan started.1 = idle_proxy.
Proof.
  assert (Hok : started.2 = Ok tt) by (vm_compute; reflexivity). split; [exact Hok|].
  assert (Hrun : started = (started.1, Ok tt)) by exact (pair_snd _ _ Hok).
  destruct (main_events list_manager (MkControllerConfig "backend:9999" 5000000000) only_ipclaim id start_0 started.1
    eq_refl Hrun) as (Hctl & _ & Hv & _).
  split; [|exact Hv]. apply (Hctl "ipclaim"); [|vm_compute; reflexivity].
  vm_compute. reflexivity.
Defined.
