(* ===== verification/Main.v ===== *)
(** * main.go: the program

    The steps of the program in the order of the code. A step that fails ends the process
    with exit code 1, which is an error here; the command line, logging and the handling of
    signals are left out. The gRPC server runs in a goroutine of its own, [grpc_Start] of
    the server that is recorded when it is launched. *)

From S2P Require Import Prelude Meta Labels Conditions KRM Backend IpamApi VlanApi IpamWatcher ServerProxy Health GrpcServer ClientProxy Dial ClientNormalize ProxyRefine Reconciler Controllers Startup.

Local Open Scope Z_scope.

(** What the program calls of the Kubernetes libraries and of porch, apart from the
    registration of controllers: the manager is made of the configuration of the cluster. *)
Record Process (W : Type) : Type := MkProcess {
  pr_AddToScheme : W -> W * error;
  pr_NewManager : W -> W * error;
  pr_CreateClient : W -> W * error;
  pr_AddHealthzCheck : string -> W -> W * error;
  pr_AddReadyzCheck : string -> W -> W * error;
  pr_Start : W -> W * error
}.
Arguments pr_AddToScheme {W} p.
Arguments pr_NewManager {W} p.
Arguments pr_CreateClient {W} p.
Arguments pr_AddHealthzCheck {W} p.
Arguments pr_AddReadyzCheck {W} p.
Arguments pr_Start {W} p.

(** A new manager runs no controllers, and only [Complete] adds to them. *)
Class ProcessLaws {W} (proc : Process W) (controllers : W -> list Builder) : Prop := {
  NewManager_controllers : forall w, (pr_NewManager proc w).2 = None -> controllers (pr_NewManager proc w).1 = [];
  CreateClient_controllers : forall w, controllers (pr_CreateClient proc w).1 = controllers w;
  Healthz_controllers : forall n w, controllers (pr_AddHealthzCheck proc n w).1 = controllers w;
  Readyz_controllers : forall n w, controllers (pr_AddReadyzCheck proc n w).1 = controllers w;
  Start_controllers : forall w, controllers (pr_Start proc w).1 = controllers w
}.

Section Main.
Context {W R S Any Conn : Type} (proc : Process W) (mgr : Manager W) (env : string -> option string).
(** The connections of the client proxies, and the server at their end. *)
Context (DialContext : string -> list DialOption -> result Conn) (NewResourceClient : Conn -> ResourceClient R) (remote : R).
Context (json_ipclaim : Codec IPClaim) (json_vlanclaim : Codec VLANClaim).
Context (pb_String : PbGVK -> string) (backends : gmap GroupVersion (Backend S Stream Any)).

(** The manager, the proxies and the controllers, and the server that was launched. *)
Record program : Type := MkProgram { pg_start : @startState W R; pg_server : option (GrpcServer (proxyState S)) }.
Definition on_start {A} (m : M (@startState W R) A) : M program A :=
  zoom pg_start (fun s p => MkProgram s (pg_server p)) m.

(** [main.go:133-145 main] *)
Definition main_config : ControllerConfig := MkControllerConfig (default "" (env "RESOURCE_BACKEND")) (5 * 1000000000).

(** [pkg/proxy/clientproxy/ipam/ipam.go:38-47 New] *)
Definition ipamcp_New (address : string) : clientproxy R :=
  clientproxy_New (gv_Group ipam_GroupVersion) (ipam_ValidateResponse json_ipclaim)
    (proxy_dial DialContext NewResourceClient address) remote.
(** [pkg/proxy/clientproxy/vlan/vlan.go:33-42 New] *)
Definition vlancp_New (address : string) : clientproxy R :=
  clientproxy_New (gv_Group vlan_GroupVersion) (vlan_ValidateResponse json_vlanclaim)
    (proxy_dial DialContext NewResourceClient address) remote.

Definition make_proxies : M (@startState W R) unit := modify (fun s =>
  MkStartState (st_mgr s) (st_chan s) (st_fields s) (ipamcp_New (cc_Address main_config)) (vlancp_New (cc_Address main_config))).

(** [main.go:181-184 main] *)
Definition server_config : Config := MkConfig (":" +:+ pretty 9999) true 0 0 "" "" "" "".

Definition serve : M program unit := modify (fun p =>
  MkProgram (pg_start p) (Some (main_server pb_String backends server_config))).

(** The construction of the backends does not fail.

    [main.go:101-218 main] *)
Definition main : M program unit :=
  _ ← on_start (mgr_call (pr_AddToScheme proc));
  _ ← on_start (mgr_call (pr_NewManager proc));
  _ ← on_start (mgr_call (pr_CreateClient proc));
  _ ← on_start make_proxies;
  _ ← on_start (main_setup mgr main_config env);
  _ ← serve;
  _ ← on_start (mgr_call (pr_AddHealthzCheck proc "healthz"));
  _ ← on_start (mgr_call (pr_AddReadyzCheck proc "readyz"));
  on_start (mgr_call (pr_Start proc)).

(** ** The program when it runs *)

Context (controllers : W -> list Builder) `{!ManagerLaws mgr controllers} `{!ProcessLaws proc controllers}.

Lemma main_step {A} (m : M (@startState W R) A) (f : A -> M program unit) (p p' : program) :
  (on_start m ≫= f) p = (p', Ok tt) ->
  exists s a, m (pg_start p) = (s, Ok a) /\ f a (MkProgram s (pg_server p)) = (p', Ok tt).
Proof.
  unfold on_start, zoom, mbind, M_bind. destruct (m (pg_start p)) as [s [a|e|]]; [|done..]. intros Hf. by exists s, a.
Qed.

(** A call of the process leaves everything but the manager as it is. *)
Lemma mgr_call_ok f (s s' : @startState W R) a : mgr_call f s = (s', Ok a) ->
  (f (st_mgr s)).2 = None /\ s' = MkStartState (f (st_mgr s)).1 (st_chan s) (st_fields s) (st_ipam s) (st_vlan s).
Proof. unfold mgr_call. destruct (f (st_mgr s)) as [w [e|]]; [done|]. by intros [= <- _]. Qed.

Lemma proxies_informer address : inf_eventCh (cp_informer (vlancp_New address)) = ∅.
Proof. unfold vlancp_New, clientproxy_New, log_error, createClient. by destruct (proxy_dial _ _ _). Qed.

Lemma proxies_client address conn : DialContext address [DialInsecure] = Ok conn ->
  cp_resourceClient (ipamcp_New address) = Some (NewResourceClient conn) /\
  cp_resourceClient (vlancp_New address) = Some (NewResourceClient conn).
Proof.
  intros Hd. unfold ipamcp_New, vlancp_New, clientproxy_New, log_error. rewrite !proxy_dial_exact, Hd. done.
Qed.

(** C28. When the program runs, the server of the backends was launched, every enabled
    reconciler runs as a controller and, if the address of the backend can be dialled, both
    client proxies are connected to it. The IPAM client proxy has exactly the channels of
    the running controllers, by the kind they reconcile: when it notifies the owner of a
    claim, the event is sent on the channel of the controller of that kind, with the name of
    the owner, and nowhere when no controller of that kind has a channel. The VLAN client
    proxy has none and sends no event. *)
Theorem main_runs (p p' : program) : main p = (p', Ok tt) -> let s := pg_start p' in
  pg_server p' = Some (main_server pb_String backends server_config) /\
  (forall name r, Reconcilers !! name = Some r -> IsReconcilerEnabled env name = true ->
    exists c, rc_builder r c ∈ controllers (st_mgr s)) /\
  (forall conn, DialContext (cc_Address main_config) [DialInsecure] = Ok conn ->
    cp_resourceClient (st_ipam s) = Some (NewResourceClient conn) /\ cp_resourceClient (st_vlan s) = Some (NewResourceClient conn)) /\
  (forall gvk nsn, let i := cp_informer (st_ipam s) in
    inf_sent (NotifyClient gvk nsn i) = [] /\ (forall b, b ∈ controllers (st_mgr s) -> b_For b = gvk -> b_Channel b = None) \/
    exists b ch, b ∈ controllers (st_mgr s) /\ b_For b = gvk /\ b_Channel b = Some ch /\
      inf_sent (NotifyClient gvk nsn i) =
        [(ch, MkUnstructured (Identifier (GroupVersion_of gvk)) (Kind gvk) (nsn_Namespace nsn) (nsn_Name nsn))]) /\
  (forall gvk nsn, NotifyClient gvk nsn (cp_informer (st_vlan s)) = cp_informer (st_vlan s)).
Proof.
  unfold main. intros (s1&[]&H1%mgr_call_ok&Hm)%main_step. apply main_step in Hm as (s2&[]&H2%mgr_call_ok&Hm).
  apply main_step in Hm as (s3&[]&H3%mgr_call_ok&Hm). apply main_step in Hm as (s4&[]&H4&Hm).
  apply main_step in Hm as (s5&[]&H5&Hm). unfold serve, modify in Hm. unfold mbind at 1, M_bind at 1 in Hm.
  apply main_step in Hm as (s6&[]&H6%mgr_call_ok&Hm). apply main_step in Hm as (s7&[]&H7%mgr_call_ok&Hm).
  cbn [pg_start pg_server] in *. unfold on_start, zoom in Hm. cbn [pg_start pg_server] in Hm.
  destruct (mgr_call _ s7) as [s8 r] eqn:H8. injection Hm as <- ->. apply mgr_call_ok in H8. cbn [pg_start pg_server].
  destruct H2 as [Hnew ->], H3 as [_ ->], H6 as [_ ->], H7 as [_ ->], H8 as [_ ->].
  cbn [st_mgr st_ipam st_vlan] in *. rewrite Start_controllers, Readyz_controllers, Healthz_controllers.
  injection H4 as <-. cbn [st_mgr st_ipam st_vlan] in *.
  apply (main_events mgr main_config env controllers) in H5 as (Hen&Hev&Hv&Hi).
  2: { cbn [st_mgr]. by rewrite CreateClient_controllers, NewManager_controllers. } cbn [st_ipam st_vlan] in Hv, Hi. split; [done|]. split; [exact Hen|]. split; [|split; [exact Hev|]].
  - intros conn Hd. rewrite Hi, Hv. by apply proxies_client.
  - intros gvk nsn. rewrite Hv. unfold NotifyClient. by rewrite proxies_informer, lookup_empty.
Qed.

End Main.

(** ** A process in which every call succeeds *)

Definition list_process : Process (list Builder) :=
  MkProcess _ (fun w => (w, None)) (fun _ => ([], None)) (fun w => (w, None)) (fun _ w => (w, None)) (fun _ w => (w, None))
    (fun w => (w, None)).
#[local] Existing Instance Startup.list_manager_laws.
#[local] Instance list_process_laws : ProcessLaws list_process id.
Proof. by split. Qed.

Definition idle_client : ResourceClient unit :=
  MkResourceClient (fun _ => throw "down") (fun _ => throw "down") (fun _ => throw "down") (fun _ => throw "down") (fun _ => throw "down").
Definition no_codec {A} : Codec A := MkCodec A (fun _ => Err "no codec") (fun _ => Err "no codec").
Definition run_main : (@program (list Builder) unit unit * result unit)%type :=
  main (Conn := unit) list_process list_manager only_ipclaim (fun _ _ => Ok tt) (fun _ => idle_client) tt no_codec no_codec
    (fun g => pb_Kind g) (∅ : gmap GroupVersion (Backend unit Stream unit)) (MkProgram start_0 None).

(** With the reconciler of IP claims enabled, its controller runs and the proxies are connected. *)
Lemma main_runs_witness : run_main.2 = Ok tt /\ is_Some (pg_server run_main.1) /\
  (exists c, rc_builder ipclaim_reconciler c ∈ st_mgr (pg_start run_main.1)) /\
  cp_resourceClient (st_vlan (pg_start run_main.1)) = Some idle_client.
Proof.
  assert (Hok : run_main.2 = Ok tt) by (vm_compute; reflexivity). split; [exact Hok|].
  assert (Hrun : run_main = (run_main.1, Ok tt)) by exact (pair_snd _ _ Hok).
  destruct (main_runs (Conn := unit) list_process list_manager only_ipclaim (fun _ _ => Ok tt) (fun _ => idle_client) tt
    no_codec no_codec (fun g => pb_Kind g) (∅ : gmap GroupVersion (Backend unit Stream unit)) id (MkProgram start_0 None) run_main.1 Hrun)
    as (Hs&Hctl&Hc&_&_).
  split; [eexists; exact Hs|]. split; [|exact (proj2 (Hc tt eq_refl))].
  apply (Hctl "ipclaim"); vm_compute; reflexivity.
Defined.
