(* ===== verification/TopoProps.v ===== *)
(** * Properties of the topology controllers *)

From S2P Require Import Prelude Strconv Meta Labels Conditions KRM Reconciler Inventory Lease Endpoints Selection Resources TopoControllers.

Local Open Scope Z_scope.

(** The documented behaviour of what the controllers call, on endpoints: the API server
    stores them and lists those with the given labels, [sort.Slice] permutes, a label
    selector with labels only matches the label sets that include them, and finalizers
    are added and removed as by pkg/resource. *)
Class TopoLaws {W Q : Type} `{E : ErrorsAPI} `{L : LabelsAPI} (api : TopoAPI W Q) (eview : W -> gmap NamespacedName Endpoint) :
    Prop := {
  tl_endpoints :: CRLaws (ta_endpoints api) eview;
  tl_List_endpoints : forall ls w l, ta_List_endpoints api ls w = Ok l ->
    NoDup (krm_nsn <$> l) /\ forall x : Endpoint, x ∈ l <-> eview w !! krm_nsn x = Some x /\ ls ⊆ krm_labels x;
  tl_sort : forall l, ta_sort_Slice api l ≡ₚ l;
  tl_selector : forall m sel ls, ta_LabelSelectorAsSelector api (Some (MkMetaLabelSelector m [])) = Ok sel ->
    Matches sel ls = bool_decide (m ⊆ ls);
  tl_AddFinalizer : forall Spec Status (c : CRClient W (KRM Spec Status)) f, ta_AddFinalizer api c f = krm_AddFinalizer c f;
  tl_RemoveFinalizer : forall Spec Status (c : CRClient W (KRM Spec Status)) f,
    ta_RemoveFinalizer api c f = krm_RemoveFinalizer c f
}.

(** ** Links *)

Section Links.
Context {W Q : Type} `{E : ErrorsAPI} `{L : LabelsAPI} (api : TopoAPI W Q) (eview : W -> gmap NamespacedName Endpoint).
Context `{!TopoLaws api eview}.
Abbreviation link_state := (rstate topo_svc W LinkSpec LinkStatus).

(** The endpoint named by an end of a link. *)
Definition is_end (ep : LinkEndpointSpec) (e : Endpoint) : Prop :=
  krm_labels e !! NephioTopologyKey = Some (les_Topology ep) /\
  krm_labels e !! NephioInventoryInterfaceNameKey = Some (eps_InterfaceName (les_EndpointSpec ep)) /\
  krm_labels e !! NephioInventoryNodeNameKey = Some (eps_NodeName (les_EndpointSpec ep)).
Definition end_name (ep : LinkEndpointSpec) : string * string * string :=
  (les_Topology ep, eps_InterfaceName (les_EndpointSpec ep), eps_NodeName (les_EndpointSpec ep)).

Lemma link_selector_subseteq ep ls : mls_MatchLabels (link_selector ep) ⊆ ls ->
  ls !! NephioInventoryInterfaceNameKey = Some (eps_InterfaceName (les_EndpointSpec ep)) /\
  ls !! NephioInventoryNodeNameKey = Some (eps_NodeName (les_EndpointSpec ep)).
Proof.
  cbn [link_selector mls_MatchLabels]. intros Hs. split; (eapply lookup_weaken; [|exact Hs]).
  - apply lookup_insert_eq.
  - rewrite lookup_insert_ne by done. apply lookup_singleton_eq.
Qed.

Lemma link_endpoint_spec (w : W) cr ep (s s' : link_state) r :
  listed (ta_List_endpoints api) w (ep_part s) -> link_endpoint api cr ep s = (s', r) ->
  s' = s /\ forall e, r = Ok e -> eview w !! krm_nsn e = Some e /\ is_end ep e /\ IsAllocated e (krm_Object cr) = false.
Proof.
  intros [_ Hinv]. unfold link_endpoint, endpoints_with, mbind, M_bind, lift.
  destruct (GetTopologyEndpointsWithSelector _ _ _ _ _ _) as [eps| |] eqn:Hg; [|by intros [= <- <-]..].
  apply (endpoints_of_spec _ _ _ tl_sort) in Hg as (_&inv&sel&Hi&Hs&Hx).
  destruct (index eps 0) as [e0| |] eqn:H0; [|by intros [= <- <-]..].
  assert (Hin : e0 ∈ eps) by (destruct eps; [done|injection H0 as ->; by left]).
  case_bool_decide; [by intros [= <- <-]|]. destruct (IsAllocated e0 (krm_Object cr)) eqn:Ha; [by intros [= <- <-]|].
  intros [= <- <-]. split; [done|]. intros e [= <-]. destruct (Hx _ Hin) as [Hin2 Hm].
  apply Hinv in Hi. apply tl_List_endpoints in Hi as [_ Hl]. apply Hl in Hin2 as [Hv Hls].
  rewrite (tl_selector _ _ _ Hs), bool_decide_eq_true in Hm. apply link_selector_subseteq in Hm as [H1 H2].
  split_and!; [done| |done]. split_and!; [|done..]. eapply lookup_weaken; [|exact Hls]. apply lookup_singleton_eq.
Qed.

Lemma link_endpoints_spec (w : W) cr l : forall (s s' : link_state) r,
  listed (ta_List_endpoints api) w (ep_part s) -> link_endpoints api cr l s = (s', r) ->
  s' = s /\ forall es, r = Ok es ->
    Forall2 (fun ep e => eview w !! krm_nsn e = Some e /\ is_end ep e /\ IsAllocated e (krm_Object cr) = false) l es.
Proof.
  induction l as [|ep l IH]; intros s s' r Hs; cbn [link_endpoints].
  { intros [= <- <-]. split; [done|]. intros es [= <-]. constructor. }
  unfold mbind, M_bind. destruct (link_endpoint api cr ep s) as [s1 a] eqn:H1. apply (link_endpoint_spec w) in H1 as [-> He]; [|done].
  destruct a as [e| |]; [|by intros [= <- <-]..].
  destruct (link_endpoints api cr l s) as [s2 b] eqn:H2. apply IH in H2 as [-> Hes]; [|done].
  destruct b as [es'| |]; [|by intros [= <- <-]..]. intros [= <- <-]. split; [done|]. intros es [= <-].
  constructor; [by apply He|by apply Hes].
Qed.

(** The end [ep] names one endpoint, which is free for [cr]. *)
Definition claimable (w : W) (cr : Link) (ep : LinkEndpointSpec) : Prop :=
  (exists sel, ta_LabelSelectorAsSelector api (Some (link_selector ep)) = Ok sel) /\
  exists e, IsAllocated e (krm_Object cr) = false /\ forall x, eview w !! krm_nsn x = Some x /\ is_end ep x <-> x = e.

Lemma is_end_subseteq ep e : is_end ep e <->
  {[NephioTopologyKey := les_Topology ep]} ⊆ krm_labels e /\ mls_MatchLabels (link_selector ep) ⊆ krm_labels e.
Proof.
  split.
  - intros (H1&H2&H3). split; [by apply map_singleton_subseteq_l|]. cbn [link_selector mls_MatchLabels].
    apply insert_subseteq_l; [done|]. by apply map_singleton_subseteq_l.
  - intros [H1 H2]. apply link_selector_subseteq in H2 as [H2 H3]. split_and!; [|done..].
    by apply map_singleton_subseteq_l in H1.
Qed.

Lemma link_endpoint_total (w : W) cr ep (s : link_state) :
  listed (ta_List_endpoints api) w (ep_part s) -> is_Some (sv_inventory (r_svc s) !! les_Topology ep) ->
  claimable w cr ep -> exists e, link_endpoint api cr ep s = (s, Ok e).
Proof.
  intros [_ Hinv] [inv Hi] [[sel Hsel] (e&Ha&Honly)]. exists e.
  pose proof (Hinv _ _ Hi) as Hl. apply tl_List_endpoints in Hl as [_ Hl].
  unfold link_endpoint, endpoints_with, mbind, M_bind, lift.
  rewrite (endpoints_of_single _ _ _ tl_sort _ _ (ep_part s) inv sel e Hi Hsel).
  - unfold index. rewrite bool_decide_eq_true_2 by done. cbn [deref lookup list_lookup Z.to_nat].
    rewrite bool_decide_eq_false_2 by (intros Hn; by apply Hn).
    change (deref ([e] !! Z.to_nat 0)) with (Ok e). cbv iota beta. by rewrite Ha.
  - intros x. rewrite Hl, (tl_selector _ _ _ Hsel), bool_decide_eq_true, <-Honly, is_end_subseteq. tauto.
Qed.

Lemma link_endpoints_total (w : W) cr l (s : link_state) :
  listed (ta_List_endpoints api) w (ep_part s) -> (forall ep, ep ∈ l -> is_Some (sv_inventory (r_svc s) !! les_Topology ep)) ->
  Forall (claimable w cr) l -> exists es, link_endpoints api cr l s = (s, Ok es).
Proof.
  intros Hs. induction l as [|ep l IH]; intros Hin Hcl; cbn [link_endpoints]; [by eexists|]. inversion Hcl; subst.
  destruct (link_endpoint_total w cr ep s) as [e He]; [done|apply Hin; by left|done|].
  destruct IH as [es Hes]; [intros x Hx; apply Hin; by right|done|].
  unfold mbind, M_bind. rewrite He, Hes. by eexists.
Qed.

(** Ends with different names are different endpoints. *)
Lemma ends_distinct (w : W) l es :
  Forall2 (fun ep e => eview w !! krm_nsn e = Some e /\ is_end ep e) l es -> NoDup (end_name <$> l) -> NoDup (krm_nsn <$> es).
Proof.
  induction 1 as [|ep e l es [Hv He] Hall IH]; cbn; [constructor|]. rewrite !NoDup_cons. intros [Hni Hnd].
  split; [|by apply IH]. intros (e'&Heq&Hin)%list_elem_of_fmap. apply Hni.
  apply list_elem_of_lookup_1 in Hin as [i Hi]. destruct (Forall2_lookup_r _ _ _ _ _ Hall Hi) as (ep'&Hep&Hv'&He').
  apply list_elem_of_fmap. exists ep'. split; [|by eapply list_elem_of_lookup_2].
  rewrite Heq, Hv' in Hv. injection Hv as ->. destruct He as (A1&A2&A3), He' as (B1&B2&B3). unfold end_name. congruence.
Qed.

(** *** Moving the claims *)

Definition claims_after (cr : Object) (claimed eps : list Endpoint) (w w' : W) : Prop := forall k,
  claim_ref <$> eview w' !! k =
    (if bool_decide (k ∈ krm_nsn <$> eps) then Some (Some (getCoreRef cr))
     else if bool_decide (k ∈ krm_nsn <$> claimed) then Some None else claim_ref <$> eview w !! k) /\
  content <$> eview w' !! k = content <$> eview w !! k.

Lemma same_name (a b : Endpoint) :
  bool_decide (GetName a = GetName b /\ GetNamespace a = GetNamespace b) = bool_decide (krm_nsn a = krm_nsn b).
Proof. apply bool_decide_ext. unfold krm_nsn. split; [intros [-> ->]; done|intros [= -> ->]; done]. Qed.

Lemma tobeDeleted_elem claimed eps x : x ∈ tobeDeletedClaims claimed eps <-> x ∈ claimed /\ krm_nsn x ∉ krm_nsn <$> eps.
Proof.
  unfold tobeDeletedClaims. rewrite list_elem_of_filter. rewrite (and_comm (_ = false)). apply and_iff_compat_l.
  rewrite <-not_true_iff_false, existsb_exists. split; intros Hn Hx; apply Hn; clear Hn.
  - apply list_elem_of_fmap in Hx as (y&Hy&Hin). exists y. split; [by apply list_elem_of_In|].
    rewrite same_name. by apply bool_decide_eq_true.
  - destruct Hx as (y&Hin%list_elem_of_In&Hy). rewrite same_name in Hy. apply bool_decide_eq_true in Hy.
    apply list_elem_of_fmap. by exists y.
Qed.

Lemma move_claims_spec {Spec Status} eps (s : rstate topo_svc W Spec Status) : let w := r_api s in let claimed := sv_claimed (r_svc s) in
  as_stored eview w claimed -> as_stored eview w eps ->
  exists s', move_claims api eps s = (s', Ok tt) /\ r_cr s' = r_cr s /\ sv_claimed (r_svc s') = claimed /\
    claims_after (krm_Object (r_cr s)) claimed eps w (r_api s').
Proof.
  intros w claimed [Hnd1 Hst1] [Hnd2 Hst2]. unfold move_claims, mbind, M_bind, get_state.
  unfold on_ep, zoom, endpoint_DeleteClaim, endpoint_Claim, on_api, ep_part. cbn [e_api e_inventory].
  set (gone := tobeDeletedClaims (sv_claimed (r_svc s)) eps).
  assert (Hgone : forall k, k ∈ krm_nsn <$> gone <-> k ∈ krm_nsn <$> claimed /\ k ∉ krm_nsn <$> eps).
  { intros k. rewrite !list_elem_of_fmap. split.
    - intros (x&->&[Hx Hn]%tobeDeleted_elem). split; [by exists x|]. by rewrite <-list_elem_of_fmap.
    - intros [(x&->&Hx) Hn]. exists x. split; [done|]. apply tobeDeleted_elem. split; [done|]. by rewrite list_elem_of_fmap. }
  destruct (update_claims_spec (ta_endpoints api) eview None gone w) as (w1&Hr1&Hc1&Hct1&Ho1).
  { split.
    - eapply sublist_NoDup; [exact Hnd1|]. apply fmap_sublist, sublist_filter.
    - intros e [He _]%tobeDeleted_elem. by apply Hst1. }
  change (r_api s) with w. rewrite Hr1. cbn [put_ep r_api r_svc e_api e_inventory r_cr sv_inventory].
  destruct (update_claims_spec (ta_endpoints api) eview (Some (getCoreRef (krm_Object (r_cr s)))) eps w1) as (w2&Hr2&Hc2&Hct2&_).
  { split; [done|]. intros e He. rewrite Ho1; [by apply Hst2|]. rewrite Hgone. intros [_ Hn]. apply Hn.
    apply list_elem_of_fmap. by exists e. }
  rewrite Hr2. eexists. split; [reflexivity|]. split; [done|]. split; [done|]. intros k. cbn [r_api put_ep e_api]. rewrite Hc2, Hct2, Hc1, Hct1.
  split; [|done]. destruct (bool_decide_reflect (k ∈ krm_nsn <$> eps)) as [|Hn]; [done|].
  rewrite (bool_decide_ext _ (k ∈ krm_nsn <$> claimed)); [done|]. rewrite Hgone. tauto.
Qed.

(** A selection of endpoints has an endpoint, or fails. *)
Lemma endpoints_with_some topology m (st : epstate W) : (forall m, ta_LabelSelectorAsSelector api m <> Panic) ->
  match GetTopologyEndpointsWithSelector (ta_LabelSelectorAsSelector api) (ta_LabelSelector_String api) (ta_sort_Slice api) topology m st with
  | Ok eps => eps <> [] | Err _ => True | Panic => False
  end.
Proof.
  intros Hsel. unfold GetTopologyEndpointsWithSelector. destruct (_ !! _) as [inv|]; [|done]. unfold GetSelectedObjects.
  destruct (ta_LabelSelectorAsSelector api m) as [sel| |] eqn:Hs; [|done|by apply Hsel in Hs]. cbn [mbind result_bind].
  unfold Endpoint in *. rewrite GetAllObjects_all. cbn [mbind result_bind].
  destruct (select_objects sel inv ∅) as [|y ys]; [done|]. intros Hn. pose proof (tl_sort (y :: ys)) as Hp.
  rewrite Hn in Hp. by apply Permutation_nil_cons in Hp.
Qed.

Lemma link_endpoints_no_panic cr l : (forall m, ta_LabelSelectorAsSelector api m <> Panic) ->
  forall s : link_state, (link_endpoints api cr l s).2 <> Panic.
Proof.
  intros Hsel. induction l as [|ep l IH]; intros s; cbn [link_endpoints]; [done|].
  assert (Hone : (link_endpoint api cr ep s).2 <> Panic).
  { unfold link_endpoint, endpoints_with, mbind, M_bind, lift.
    pose proof (endpoints_with_some (les_Topology ep) (Some (link_selector ep)) (ep_part s) Hsel) as Hg.
    destruct (GetTopologyEndpointsWithSelector _ _ _ _ _ _) as [[|e0 eps]| |]; [done| |done|done].
    change (index (e0 :: eps) 0) with (Ok e0). case_bool_decide; [done|]. by destruct (IsAllocated _ _). }
  unfold mbind, M_bind. destruct (link_endpoint api cr ep s) as [s1 [e| |]]; [|done..].
  specialize (IH s1). by destruct (link_endpoints api cr l s1) as [s2 [es| |]].
Qed.

(** The claims of a link, when the reconciler holds the lease. *)
Lemma link_claims_exact (s : link_state) : let cr := r_cr s in
  as_stored eview (r_api s) (sv_claimed (r_svc s)) -> owned_by_interconnect cr = false ->
  NoDup (end_name <$> ls_Endpoints (spec cr)) ->
  (forall t, exists l, ta_List_endpoints api {[NephioTopologyKey := t]} (r_api s) = Ok l) ->
  (forall m, ta_LabelSelectorAsSelector api m <> Panic) ->
  exists s' r, link_claimResources api s = (s', r) /\ r_cr s' = cr /\ sv_claimed (r_svc s') = sv_claimed (r_svc s) /\
  match r with
  | Ok _ => exists eps, Forall2 (fun ep e => eview (r_api s) !! krm_nsn e = Some e /\ is_end ep e /\
                                   IsAllocated e (krm_Object cr) = false) (ls_Endpoints (spec cr)) eps /\
      claims_after (krm_Object cr) (sv_claimed (r_svc s)) eps (r_api s) (r_api s')
  | Err _ => r_api s' = r_api s /\ ~ Forall (claimable (r_api s) cr) (ls_Endpoints (spec cr))
  | Panic => False
  end.
Proof.
  intros cr Hcl Hown Hnd Hls Hsel. unfold link_claimResources. unfold mbind at 1, M_bind at 1, get_state at 1.
  fold cr. rewrite Hown. unfold mbind at 1, M_bind at 1. unfold on_ep at 1, zoom at 1.
  pose proof (endpoint_Init_listed (ta_List_endpoints api) (Link_GetTopologies cr) (ep_part s)) as Hl.
  destruct (endpoint_Init_total (ta_List_endpoints api) (Link_GetTopologies cr) (ep_part s) Hls) as (e&Hinit&Hin).
  rewrite Hinit in Hl |- *. cbn [fst] in Hl.
  set (s1 := put_ep e s). assert (Hs1 : listed (ta_List_endpoints api) (r_api s) (ep_part s1)).
  { destruct Hl as [H1 H2]. by split. }
  assert (Hw1 : r_api s1 = r_api s) by (by destruct Hl).
  unfold mbind at 1, M_bind at 1. pose proof (link_endpoints_no_panic cr (ls_Endpoints (spec cr)) Hsel s1) as Hnp.
  destruct (link_endpoints api cr (ls_Endpoints (spec cr)) s1) as [s2 b] eqn:H2.
  assert (Hnot : (forall es, b <> Ok es) -> ~ Forall (claimable (r_api s) cr) (ls_Endpoints (spec cr))).
  { intros Hno Hall. destruct (link_endpoints_total (r_api s) cr (ls_Endpoints (spec cr)) s1 Hs1) as [es Hes]; [|done|].
    - intros ep Hep. apply Hin. apply list_elem_of_fmap. by exists ep.
    - rewrite Hes in H2. injection H2 as _ <-. by apply (Hno es). }
  apply (link_endpoints_spec (r_api s)) in H2 as [-> Hes]; [|done].
  destruct b as [eps|err|]; [|do 2 eexists; split; [reflexivity|]; split; [done|]; split; [done|]; split; [exact Hw1|by apply Hnot]
    |by destruct Hnp].
  clear Hnot. specialize (Hes eps eq_refl).
  assert (Hst : as_stored eview (r_api s1) eps).
  { rewrite Hw1. split.
    - eapply ends_distinct; [|exact Hnd]. eapply Forall2_impl; [exact Hes|]. intros ep x (H1&H2&_). by split.
    - intros x Hx. apply list_elem_of_lookup_1 in Hx as [i Hi].
      by destruct (Forall2_lookup_r _ _ _ _ _ Hes Hi) as (ep&_&Hv&_). }
  destruct (move_claims_spec eps s1) as (s3&Hrun&Hcr&Hsv&Hafter); [by rewrite Hw1|done|].
  exists s3, (Ok tt). split; [exact Hrun|]. split; [exact Hcr|]. split; [exact Hsv|]. exists eps. split; [exact Hes|].
  by rewrite Hw1 in Hafter.
Qed.

End Links.

(** ** Raw topologies *)

Section RawTopologies.
Context {W Q : Type} `{E : ErrorsAPI} `{L : LabelsAPI} (api : TopoAPI W Q) (view : W -> gmap ObjectReference TObject).
Context `{!ResLaws (ta_List api) (ta_Delete api) (ta_Apply api) view}.
Abbreviation raw_state := (rstate topo_svc W RawTopologySpec RawTopologyStatus).

(** *** Validation *)

Lemma duplicates_nil l : forall seen, duplicates l seen = [] <-> NoDup l /\ forall x, x ∈ l -> x ∉ seen.
Proof.
  induction l as [|e l IH]; intros seen; cbn [duplicates].
  { split; [|done]. intros _. split; [constructor|]. intros x Hx. by apply elem_of_nil in Hx. }
  case_bool_decide as He; cbn [app].
  { split; [done|]. intros [_ Hn]. destruct (Hn e); [by left|done]. }
  rewrite IH, NoDup_cons. split.
  - intros [Hnd Hn]. split_and!; [|done|].
    + intros Hin. apply (Hn e Hin). apply elem_of_union_l. by apply elem_of_singleton.
    + intros x [->|Hx]%elem_of_cons; [done|]. intros Hs. apply (Hn x Hx). by apply elem_of_union_r.
  - intros [[Hni Hnd] Hn]. split; [done|]. intros x Hx [->%elem_of_singleton|Hs]%elem_of_union; [done|].
    apply (Hn x); [by right|done].
Qed.

Lemma validateLink2Nodes_exact (topo : RawTopology) : validateLink2Nodes topo = None <->
  forall e, e ∈ link_ends topo -> is_Some (rts_Nodes (spec topo) !! eps_NodeName (les_EndpointSpec e)).
Proof.
  unfold validateLink2Nodes. destruct (filter _ (link_ends topo)) as [|x l] eqn:Hf; cbn [fmap list_fmap]; (split; [intros H e He|intros H]).
  - apply not_eq_None_Some. intros Hn. assert (Hin : e ∈ ([] : list LinkEndpointSpec)); [|by apply elem_of_nil in Hin].
    rewrite <-Hf. by apply list_elem_of_filter.
  - done.
  - done.
  - assert (Hin : x ∈ x :: l) by (by left). rewrite <-Hf in Hin. apply list_elem_of_filter in Hin as [Hn Hx].
    destruct (H x Hx). congruence.
Qed.

Lemma validateLinks_exact (topo : RawTopology) : validateLinks topo = None <-> NoDup (ep_string <$> link_ends topo).
Proof.
  unfold validateLinks. pose proof (duplicates_nil (ep_string <$> link_ends topo) ∅) as Hd.
  destruct (duplicates _ _) as [|x l].
  - split; [intros _; by apply Hd|done].
  - split; [done|]. intros Hnd. destruct Hd as [_ Hd]. discriminate Hd. split; [done|]. intros y _. apply not_elem_of_empty.
Qed.

(** C32. A raw topology is accepted exactly when every end of its links is on a node of the
    topology and no interface of a node, as it is printed, occurs in two ends. *)
Theorem validate_exact (topo : RawTopology) : validate topo = None <->
  (forall e, e ∈ link_ends topo -> is_Some (rts_Nodes (spec topo) !! eps_NodeName (les_EndpointSpec e))) /\
  NoDup (ep_string <$> link_ends topo).
Proof.
  unfold validate. rewrite <-validateLink2Nodes_exact, <-validateLinks_exact.
  destruct (validateLink2Nodes topo); [|tauto]. split; [done|by intros []].
Qed.

(** *** The resources of a topology *)

(** The resources with those of [l] added, in order. *)
Definition add_all (l : list TObject) (m : gmap ObjectReference TObject) : gmap ObjectReference TObject :=
  foldl (fun m t => <[getCoreRef (t_Object t) := t]> m) m l.
Definition owned (cr : Object) (t : TObject) : TObject := with_t_meta (set_OwnerReferences [owner_reference cr]) t.

Lemma owned_ref cr t : getCoreRef (t_Object (owned cr t)) = getCoreRef (t_Object t).
Proof. by destruct t as [[[]]|[[]]|[[]]|[[]]|[[]]]. Qed.

Lemma add_all_cons t l m : add_all (t :: l) m = add_all l (<[getCoreRef (t_Object t) := t]> m).
Proof. done. Qed.

Lemma add_all_lookup l : forall m k t, add_all l m !! k = Some t -> (t ∈ l /\ getCoreRef (t_Object t) = k) \/ m !! k = Some t.
Proof.
  induction l as [|x l IH]; intros m k t; [by right|]. rewrite add_all_cons. intros Ht.
  apply IH in Ht as [[Hin Hk]|Hm]; [left; split; [by right|done]|]. rewrite lookup_insert in Hm.
  case_decide; [injection Hm as <-; left; split; [by left|done]|by right].
Qed.

Lemma add_all_keeps l : forall m k, k ∉ getCoreRef ∘ t_Object <$> l -> add_all l m !! k = m !! k.
Proof.
  induction l as [|x l IH]; intros m k; cbn [fmap list_fmap]; [done|].
  rewrite not_elem_of_cons. intros [Hne Hni]. rewrite add_all_cons, (IH _ _ Hni), lookup_insert_ne; [done|]. exact (not_eq_sym Hne).
Qed.

Lemma add_all_found l : forall m t, NoDup (getCoreRef ∘ t_Object <$> l) -> t ∈ l -> add_all l m !! getCoreRef (t_Object t) = Some t.
Proof.
  induction l as [|x l IH]; intros m t; cbn [fmap list_fmap]; [intros _ Ht; by apply elem_of_nil in Ht|].
  rewrite NoDup_cons. intros [Hni Hnd] [->|Ht]%elem_of_cons; rewrite add_all_cons; [|by apply IH].
  rewrite (add_all_keeps l _ _ Hni). apply lookup_insert_eq.
Qed.

(** The state with other new resources. *)
Definition with_new {Spec Status} (f : gmap ObjectReference TObject -> gmap ObjectReference TObject)
    (s : rstate topo_svc W Spec Status) : rstate topo_svc W Spec Status :=
  let v := r_svc s in
  MkRState (MkTopoSvc (sv_inventory v) (sv_claimed v) (f (sv_new v)) (sv_existing v) (sv_matchLabels v)) (r_api s) (r_cr s).

Lemma add_nodes_run cr l : forall s : raw_state,
  forM l (fun '(nodeName, node) => on_res (AddNewResource raw_config (krm_Object cr) (TNode (buildNode cr nodeName node)))) s =
  (with_new (add_all ((fun x => owned (krm_Object cr) (TNode (buildNode cr x.1 x.2))) <$> l)) s, Ok tt).
Proof.
  induction l as [|[n x] l IH]; intros s; cbn [forM]; [by destruct s as [[]]|].
  unfold mbind, M_bind. change (on_res _ s) with
    (with_new <[getCoreRef (t_Object (owned (krm_Object cr) (TNode (buildNode cr n x)))) := owned (krm_Object cr) (TNode (buildNode cr n x))]> s,
     @Ok unit tt). cbv iota beta. by rewrite IH.
Qed.

(** The state of the resources before they are applied: links are added to them. *)
Lemma add_links_run cr l : forall s s' : raw_state, forM l (add_raw_link cr) s = (s', Ok tt) ->
  exists links, sv_new (r_svc s') = add_all ((fun x => owned (krm_Object cr) (TLink x)) <$> links) (sv_new (r_svc s)) /\
    sv_existing (r_svc s') = sv_existing (r_svc s) /\ sv_matchLabels (r_svc s') = sv_matchLabels (r_svc s) /\
    r_api s' = r_api s /\ Forall (fun x : Link => o_GVK (krm_Object x) = LinkGroupVersionKind) links.
Proof.
  induction l as [|[i x] l IH]; intros s s'; cbn [forM].
  { intros [= <-]. exists []. by split_and!. }
  unfold mbind at 1, M_bind at 1. unfold add_raw_link at 1. unfold mbind at 1, M_bind at 1, get_state at 1.
  unfold mbind at 1, M_bind at 1, lift at 1. cbn [snd fst].
  destruct (getTopologies _ _) as [ts| |]; [|intros [=]..]. unfold mbind at 1, M_bind at 1, lift at 1.
  destruct (buildLink cr x ts) as [k| |] eqn:Hk; [|intros [=]..]. unfold mbind at 1, M_bind at 1.
  destruct (update_cr _ s) as [s1 [[]| |]] eqn:Hu; [|intros [=]..]. unfold update_cr, modify in Hu. injection Hu as <-.
  change (on_res _ ?s) with (with_new <[getCoreRef (t_Object (owned (krm_Object cr) (TLink k))) := owned (krm_Object cr) (TLink k)]> s,
     @Ok unit tt). cbv iota beta. intros Hf. apply IH in Hf as (links&H1&H2&H3&H4&H5). exists (k :: links).
  split_and!; [exact H1|exact H2|exact H3|exact H4|]. constructor; [|done].
  unfold buildLink in Hk. repeat (match type of Hk with mbind _ ?m = _ => destruct m; cbn [mbind result_bind] in Hk; [|done..] end).
  by injection Hk as <-.
Qed.

Lemma node_ref cr n x : getCoreRef (t_Object (owned (krm_Object cr) (TNode (buildNode cr n x)))) =
  ObjRef NodeKind (GetNamespace cr) n "" (Identifier inv_GroupVersion) "" "".
Proof. done. Qed.

Lemma buildNode_topology cr n x : krm_labels (buildNode cr n x) !! NephioTopologyKey = Some (GetNamespace cr).
Proof.
  change (krm_labels (buildNode cr n x)) with (<[NephioProviderKey := ns_Provider x]> (<[NephioInventoryNodeNameKey := n]>
    (<[NephioTopologyKey := GetNamespace cr]> (default ∅ (udl_Labels (ns_UserDefinedLabels x)))))).
  rewrite !lookup_insert_ne by done. apply lookup_insert_eq.
Qed.

Lemma link_ref (cr : RawTopology) (x : Link) : o_GVK (krm_Object x) = LinkGroupVersionKind ->
  ref_Kind (getCoreRef (t_Object (owned (krm_Object cr) (TLink x)))) = LinkKind.
Proof. destruct x as [[g m] sp st]. cbn. by intros ->. Qed.

(** The resources a topology asks for, when they are applied: its nodes, and links. *)
Lemma raw_populate_run (s s' : raw_state) : let cr := r_cr s in
  raw_populateResources api s = (s', Ok tt) ->
  exists links r', let nodes := (fun x => owned (krm_Object cr) (TNode (buildNode cr x.1 x.2))) <$> map_to_list (rts_Nodes (spec cr)) in
    let new := add_all ((fun x => owned (krm_Object cr) (TLink x)) <$> links) (add_all nodes ∅) in
    Forall (fun x : Link => o_GVK (krm_Object x) = LinkGroupVersionKind) links /\
    APIApply (ta_List api) (ta_Delete api) (ta_Apply api) raw_config (krm_Object cr)
      (MkResources new ∅ {[NephioTopologyKey := GetName cr]} (r_api s)) = (r', Ok tt) /\ r_api s' = rs_api r'.
Proof.
  intros cr. unfold raw_populateResources. unfold mbind at 1, M_bind at 1, get_state at 1. fold cr.
  unfold mbind at 1, M_bind at 1. change (on_res (resources_Init ?m) s) with (put_res (MkResources ∅ ∅ m (r_api s)) s, @Ok unit tt).
  cbv iota beta. destruct (validate cr); [intros [=]|]. unfold mbind at 1, M_bind at 1. rewrite add_nodes_run.
  unfold mbind at 1, M_bind at 1. destruct (forM _ (add_raw_link cr) _) as [s2 [[]| |]] eqn:Hl; [|intros [=]..].
  apply add_links_run in Hl as (links&H1&H2&H3&H4&H5). unfold on_res, zoom.
  destruct (APIApply _ _ _ _ _ (res_part s2)) as [r' a] eqn:Ha. intros [= <- ->]. exists links, r'. cbv zeta.
  split_and!; [exact H5| |done]. unfold res_part in Ha. rewrite H1, H2, H3, H4 in Ha. exact Ha.
Qed.

(** C31. The nodes of a raw topology. When the resources of a raw topology are applied with
    success, every node of its spec is stored with the topology as its owner. A node that
    is taken out of the spec of a topology whose name is not that of its namespace is not
    deleted: the existing nodes are looked for by the name of the topology in their
    topology label, which holds the namespace. *)
Theorem raw_topology_nodes (s s' : raw_state) :
  let cr := r_cr s in
  raw_populateResources api s = (s', Ok tt) ->
  (forall name node, rts_Nodes (spec cr) !! name = Some node ->
    stored_as view (r_api s') (getCoreRef (krm_Object (buildNode cr name node)))
      (owned (krm_Object cr) (TNode (buildNode cr name node)))) /\
  (forall name node t, rts_Nodes (spec cr) !! name = None -> GetName cr <> GetNamespace cr ->
    view (r_api s) !! getCoreRef (krm_Object (buildNode cr name node)) = Some t ->
    meta_labels (t_meta t) = krm_labels (buildNode cr name node) ->
    view (r_api s') !! getCoreRef (krm_Object (buildNode cr name node)) = Some t).
Proof.
  intros cr Hrun. apply raw_populate_run in Hrun as (links&r'&Hk&Ha&->). fold cr in Ha. set (nodes := fmap _ (map_to_list _)) in Ha.
  set (ls := fmap _ links) in Ha.
  assert (Hlinks : forall n, ObjRef NodeKind (GetNamespace cr) n "" (Identifier inv_GroupVersion) "" "" ∉ getCoreRef ∘ t_Object <$> ls).
  { intros n (t&Ht&Hin)%list_elem_of_fmap. apply list_elem_of_fmap in Hin as (x&->&Hx). rewrite Forall_forall in Hk.
    apply (f_equal ref_Kind) in Ht. cbn [compose] in Ht. by rewrite (link_ref _ _ (Hk x Hx)) in Ht. }
  pose proof (APIApply_spec (ta_List api) (ta_Delete api) (ta_Apply api) raw_config view (krm_Object cr)
    (MkResources (add_all ls (add_all nodes ∅)) ∅ {[NephioTopologyKey := GetName cr]} (r_api s)) r' eq_refl) as Hspec.
  specialize (fun H => Hspec H Ha). cbn [rs_new rs_api rs_matchLabels] in Hspec.
  assert (Hnew : forall k t, add_all ls (add_all nodes ∅) !! k = Some t -> getCoreRef (t_Object t) = k).
  { intros k t [[_ Hx]|[[_ Hx]|Hx]%add_all_lookup]%add_all_lookup; [done..|]. by rewrite lookup_empty in Hx. }
  specialize (Hspec Hnew). split.
  - intros name node Hn. specialize (Hspec (getCoreRef (krm_Object (buildNode cr name node)))).
    change (getCoreRef (krm_Object (buildNode cr name node))) with
      (ObjRef NodeKind (GetNamespace cr) name "" (Identifier inv_GroupVersion) "" "") in *.
    rewrite add_all_keeps in Hspec by apply Hlinks.
    pose proof (add_all_found nodes ∅ (owned (krm_Object cr) (TNode (buildNode cr name node)))) as Hf. rewrite node_ref in Hf.
    rewrite Hf in Hspec; [exact Hspec| |].
    + unfold nodes. rewrite <-list_fmap_compose. apply NoDup_fmap_2_strong; [|apply NoDup_map_to_list].
      intros [a x] [b y] Hx%elem_of_map_to_list Hy%elem_of_map_to_list [= ->]. congruence.
    + apply list_elem_of_fmap. exists (name, node). split; [done|]. by apply elem_of_map_to_list.
  - intros name node t Hn Hne Hv Hls. specialize (Hspec (getCoreRef (krm_Object (buildNode cr name node)))).
    change (getCoreRef (krm_Object (buildNode cr name node))) with
      (ObjRef NodeKind (GetNamespace cr) name "" (Identifier inv_GroupVersion) "" "") in *.
    rewrite add_all_keeps in Hspec by apply Hlinks. rewrite add_all_keeps, lookup_empty in Hspec.
    + destruct Hspec as [_ Hkeep]. rewrite Hkeep; [done|]. intros (t'&Ht'&_&Hsub&_). rewrite Hv in Ht'. injection Ht' as <-.
      rewrite Hls in Hsub. eapply lookup_weaken in Hsub; [|apply lookup_singleton_eq]. rewrite buildNode_topology in Hsub.
      injection Hsub as Hx. by apply Hne.
    + unfold nodes. intros (x&Hx&Hin)%list_elem_of_fmap. apply list_elem_of_fmap in Hin as ([n0 x0]&->&Hin%elem_of_map_to_list).
      cbn [compose] in Hx. rewrite node_ref in Hx. injection Hx as ->. cbn in Hin. congruence.
Qed.

End RawTopologies.
