(* ===== verification/TopoClaims.v ===== *)
(** * The claims of endpoints over the life of their owner

    The reconciliations of links and logical interconnects from the API server back to
    it: who holds the endpoints after the reconciliation of a link, and after the deletion
    of a link or a logical interconnect. The objects, the endpoints and the leases are kept
    by one API server, in which a write to one of them leaves the others alone. *)

From S2P Require Import Prelude Strconv Meta Labels Conditions KRM Reconciler Inventory Lease Endpoints Selection Resources TopoControllers TopoProps.

Local Open Scope Z_scope.

Lemma catch_ok {S A B} (m : M S A) (f : A + string -> M S B) (s s' : S) a :
  m s = (s', Ok a) -> (catch m ≫= f) s = f (inl a) s'.
Proof. intros Hm. unfold catch, mbind, M_bind. by rewrite Hm. Qed.

Lemma catch_err {S A B} (m : M S A) (f : A + string -> M S B) (s s' : S) e :
  m s = (s', Err e) -> (catch m ≫= f) s = f (inr e) s'.
Proof. intros Hm. unfold catch, mbind, M_bind. by rewrite Hm. Qed.

Lemma catch_panic {S A B} (m : M S A) (f : A + string -> M S B) (s s' : S) :
  m s = (s', Panic) -> (catch m ≫= f) s = (s', Panic).
Proof. intros Hm. unfold catch, mbind, M_bind. by rewrite Hm. Qed.

Lemma leave_inv {S W Spec Status} (x : rstate S W Spec Status * result Result) y r :
  leave x = (y, r) -> exists s', x = (s', r) /\ y = (r_svc s', r_api s').
Proof. destruct x as [s' r']. intros [= <- ->]. by exists s'. Qed.

(** The API server seen by a controller that claims endpoints for objects of a kind:
    [view] are the objects of the kind, [eview] the endpoints. *)
Class ClaimerLaws {W Q Spec Status : Type} `{E : ErrorsAPI} `{L : LabelsAPI} (api : TopoAPI W Q)
    (eview : W -> gmap NamespacedName Endpoint) (cr_api : CRClient W (KRM Spec Status))
    (view : W -> gmap NamespacedName (KRM Spec Status)) : Prop := {
  cl_laws :: CRLaws cr_api view;
  cl_key : forall w k e, eview w !! k = Some e -> krm_nsn e = k;
  cl_Update : forall x w, eview (crc_Update cr_api x w).1 = eview w;
  cl_StatusUpdate : forall x w, eview (crc_StatusUpdate cr_api x w).1 = eview w;
  cl_claims : forall x w, view (crc_StatusUpdate (ta_endpoints api) x w).1 = view w;
  cl_lease_Create : forall l w, let w' := (lc_Create (ta_leases api) l w).1 in eview w' = eview w /\ view w' = view w;
  cl_lease_Update : forall l w, let w' := (lc_Update (ta_leases api) l w).1 in eview w' = eview w /\ view w' = view w
}.

(** [o] has claimed [eps]; every other endpoint it had claimed is free, and the claims of
    other objects and the rest of the endpoints are as they were. *)
Definition moved {W} (eview : W -> gmap NamespacedName Endpoint) (o : Object) (eps : list Endpoint) (w w' : W) : Prop := forall k,
  claim_ref <$> eview w' !! k =
    (if bool_decide (k ∈ krm_nsn <$> eps) then Some (Some (getCoreRef o))
     else (fun e => if WasAllocated e o then None else claim_ref e) <$> eview w !! k) /\
  content <$> eview w' !! k = content <$> eview w !! k.

(** What a report returns when it is accepted. *)
Lemma report_result {W Spec Status} `{HasConditions Status} `{E : ErrorsAPI} (c : CRClient W (KRM Spec Status)) cs res
    (s s' : rstate topo_svc W Spec Status) x : report c cs res s = (s', Ok x) -> x = res.
Proof.
  unfold report, return_status, mbind, M_bind, set_conditions, update_cr, modify. destruct (api_call _ _) as [s1 [e| |]]; [|done..].
  destruct (Wrap e _); [done|]. by intros [= _ <-].
Qed.

Section Claimer.
Context {W Q Spec Status : Type} `{HasConditions Status} `{E : ErrorsAPI} `{!ErrorsLaws E} `{L : LabelsAPI}.
Context (now : Z) (api : TopoAPI W Q) (epLease : lease) (eview : W -> gmap NamespacedName Endpoint) `{!TopoLaws api eview}.
Context (cr_api : CRClient W (KRM Spec Status)) (view : W -> gmap NamespacedName (KRM Spec Status)).
Context `{!ClaimerLaws api eview cr_api view}.
Abbreviation T := (KRM Spec Status).
Abbreviation state := (rstate topo_svc W Spec Status).

(** ** The endpoints an object has claimed *)

Definition mine (o : Object) (l : list Endpoint) : list Endpoint := filter (fun ep => WasAllocated ep o = true) l.

Lemma claimed_run (s : state) o l : ta_List_endpoints api ∅ (r_api s) = Ok l ->
  on_ep (GetClaimedEndpoints (ta_List_endpoints api) o) s = (s, Ok (mine o l)).
Proof.
  intros Hl. unfold on_ep, zoom, GetClaimedEndpoints, mbind, M_bind, get_state, lift. cbn [ep_part e_api]. rewrite Hl.
  by destruct s as [[] w cr].
Qed.

Lemma claimed_failed (s : state) o : (forall l, ta_List_endpoints api ∅ (r_api s) <> Ok l) ->
  exists s' r, on_ep (GetClaimedEndpoints (ta_List_endpoints api) o) s = (s', r) /\ forall l, r <> Ok l.
Proof.
  intros Hl. unfold on_ep, zoom, GetClaimedEndpoints, mbind, M_bind, get_state, lift. cbn [ep_part e_api].
  destruct (ta_List_endpoints api ∅ (r_api s)) as [l| |]; [by destruct (Hl l)|by do 2 eexists..].
Qed.

Lemma mine_stored w o l : ta_List_endpoints api ∅ w = Ok l -> as_stored eview w (mine o l).
Proof.
  intros [Hnd Hl]%tl_List_endpoints. split.
  - eapply sublist_NoDup; [exact Hnd|]. apply fmap_sublist, sublist_filter.
  - intros e [_ [He _]%Hl]%list_elem_of_filter. exact He.
Qed.

Lemma mine_elem w o l k : ta_List_endpoints api ∅ w = Ok l ->
  k ∈ krm_nsn <$> mine o l <-> exists e, eview w !! k = Some e /\ WasAllocated e o = true.
Proof.
  intros [_ Hl]%tl_List_endpoints. rewrite list_elem_of_fmap. split.
  - intros (e&->&[Ha [He _]%Hl]%list_elem_of_filter). by exists e.
  - intros (e&He&Ha). pose proof (cl_key _ _ _ He) as Hk. exists e. split; [done|]. apply list_elem_of_filter.
    split; [done|]. apply Hl. rewrite Hk. split; [done|]. apply map_empty_subseteq.
Qed.

(** What is written to the endpoints, seen from the endpoints claimed before. *)
Lemma moved_after o l eps w w' : ta_List_endpoints api ∅ w = Ok l ->
  claims_after eview o (mine o l) eps w w' -> moved eview o eps w w'.
Proof.
  intros Hl Ha k. destruct (Ha k) as [Hc Hct]. split; [|exact Hct]. rewrite Hc. case_bool_decide; [done|].
  pose proof (mine_elem w o l k Hl) as Hm. case_bool_decide as Hk.
  - apply Hm in Hk as (e&He&Hw). rewrite He. cbn. by rewrite Hw.
  - destruct (eview w !! k) as [e|] eqn:He; [|done]. cbn. destruct (WasAllocated e o) eqn:Hw; [|done].
    destruct Hk. apply Hm. by exists e.
Qed.

(** ** Frames *)

Lemma update_claims_keeps (I : W -> Prop) ref eps : (forall x, keeps I (crc_StatusUpdate (ta_endpoints api) x)) ->
  keeps I (update_claims (ta_endpoints api) ref eps).
Proof. intros Hk. apply keeps_forM. intros ep _. apply keeps_bind; [apply Hk|intros a; apply keeps_ret]. Qed.

Lemma move_claims_keeps (I : W -> Prop) eps : (forall x, keeps I (crc_StatusUpdate (ta_endpoints api) x)) ->
  keeps (fun s : state => I (r_api s)) (move_claims api eps).
Proof.
  intros Hk. unfold move_claims. apply keeps_bind; [apply keeps_get|]. intros s.
  apply keeps_bind; [|intros _]; apply (keeps_zoom _ (fun e => I (e_api e))); try done;
    intros e He; unfold endpoint_DeleteClaim, endpoint_Claim, on_api;
    [pose proof (update_claims_keeps I None (tobeDeletedClaims (sv_claimed (r_svc s)) eps) Hk _ He) as Hu
    |pose proof (update_claims_keeps I (Some (getCoreRef (krm_Object (r_cr s)))) eps Hk _ He) as Hu];
    by destruct (update_claims _ _ _ _).
Qed.

Lemma update_claims_view ref eps w : view (update_claims (ta_endpoints api) ref eps w).1 = view w.
Proof. apply (update_claims_keeps (fun x => view x = view w)); [|done]. intros ep x Hx. by rewrite cl_claims. Qed.

(** What the writes of leases, and of the object in hand, leave alone. *)
Lemma lease_keeps {A} (I : W -> Prop) (p : prog A) : (forall l, keeps I (lc_Create (ta_leases api) l)) ->
  (forall l, keeps I (lc_Update (ta_leases api) l)) -> keeps I (run_prog (ta_leases api) now p).
Proof.
  intros Hc Hu. induction p as [r|k f IH|l f IH|l f IH|f IH]; intros w Hw; cbn [run_prog]; [done|by apply IH|..|by apply IH].
  - specialize (Hc l w Hw). destruct (lc_Create _ l w) as [w1 [x|e|]]; [by apply IH..|exact Hc].
  - specialize (Hu l w Hw). destruct (lc_Update _ l w) as [w1 [x|e|]]; [by apply IH..|exact Hu].
Qed.

Lemma lease_frame {A} (p : prog A) w : let w' := (run_prog (ta_leases api) now p w).1 in eview w' = eview w /\ view w' = view w.
Proof.
  apply (lease_keeps (fun w' => eview w' = eview w /\ view w' = view w)); [..|done]; intros l w1 [H1 H2].
  - by destruct (cl_lease_Create l w1) as [-> ->].
  - by destruct (cl_lease_Update l w1) as [-> ->].
Qed.

Lemma report_keeps (I : W -> Prop) cs res (s : state) : (forall x, keeps I (crc_StatusUpdate cr_api x)) ->
  I (r_api s) -> I (r_api (report cr_api cs res s).1).
Proof.
  intros Hk Hs. unfold report, return_status, set_conditions, update_cr, api_call, mbind, M_bind, modify. cbn [r_cr r_api r_svc set_cr].
  specialize (Hk (krm_SetConditions (r_cr s) cs) (r_api s) Hs).
  destruct (crc_StatusUpdate cr_api _ _) as [w' [cr'|e|]]; cbn in *; [destruct (Wrap _ _)|destruct (Wrap _ _)|]; exact Hk.
Qed.

Lemma report_eview cs res (s : state) : eview (r_api (report cr_api cs res s).1) = eview (r_api s).
Proof. apply (report_keeps (fun w => eview w = eview (r_api s))); [|done]. intros x w Hw. by rewrite cl_StatusUpdate. Qed.

(** The release of endpoints as they are stored. *)
Lemma release_run (s : state) w o l : ta_List_endpoints api ∅ w = Ok l -> eview (r_api s) = eview w ->
  exists s', on_ep (endpoint_DeleteClaim (ta_endpoints api) (mine o l)) s = (s', Ok tt) /\
    r_cr s' = r_cr s /\ r_svc s' = r_svc s /\ view (r_api s') = view (r_api s) /\ moved eview o [] w (r_api s').
Proof.
  intros Hl He.
  assert (Hst : as_stored eview (r_api s) (mine o l)) by (unfold as_stored; rewrite He; by apply mine_stored).
  destruct (update_claims_spec (ta_endpoints api) eview None (mine o l) (r_api s) Hst) as (w'&Hrun&Hc&Hct&_).
  pose proof (update_claims_view None (mine o l) (r_api s)) as Hv. rewrite Hrun in Hv. cbn [fst] in Hv.
  exists (MkRState (r_svc s) w' (r_cr s)). split; [|split; [done|split; [done|split; [exact Hv|]]]].
  - unfold on_ep, zoom, endpoint_DeleteClaim, on_api. cbn [ep_part e_api e_inventory]. rewrite Hrun. by destruct s as [[] w0 cr].
  - apply (moved_after o l); [exact Hl|]. intros k. rewrite <-He. split; [|apply Hct]. rewrite Hc.
    by rewrite (bool_decide_eq_false_2 (k ∈ krm_nsn <$> ([] : list Endpoint))) by apply not_elem_of_nil.
Qed.

(** ** Deletion *)

(** A deleted object releases its endpoints and goes away, whatever the lease. *)
Lemma with_claimed_deleted cr svc w l lf body : view w !! krm_nsn cr = Some cr -> WasDeleted (krm_om cr) = true ->
  om_Finalizers (krm_om cr) = [topo_finalizer] -> ta_List_endpoints api ∅ w = Ok l ->
  exists svc' w', leave (with_claimed now api cr_api lf body (MkRState svc w cr)) = ((svc', w'), Ok no_requeue) /\
    view w' = delete (krm_nsn cr) (view w) /\ moved eview (krm_Object cr) [] w w'.
Proof.
  intros Hst Hdel Hfin Hl. unfold with_claimed. rewrite get_bind. cbn [r_cr].
  rewrite (catch_ok _ _ _ _ _ (claimed_run (MkRState svc w cr) (krm_Object cr) l Hl)).
  set (s1 := MkRState (MkTopoSvc (sv_inventory svc) (mine (krm_Object cr) l) (sv_new svc) (sv_existing svc) (sv_matchLabels svc)) w cr).
  rewrite (bind_ok _ _ _ s1 tt) by reflexivity. rewrite Hdel.
  destruct (release_run s1 w (krm_Object cr) l Hl eq_refl) as (s2&Hrun&Hcr&Hsvc&Hv&Hm). cbn [s1 r_cr r_api] in Hrun, Hcr, Hv, Hm.
  rewrite (catch_ok _ _ _ _ _ Hrun). rewrite tl_RemoveFinalizer.
  destruct (remove_finalizer_spec cr_api view topo_finalizer s2 cr) as (w'&cr'&Hrem&Hvd).
  - split; rewrite Hcr; [by rewrite Hv|done|done].
  - exact Hdel.
  - by rewrite Hcr.
  - assert (He : eview w' = eview (r_api s2)).
    { assert (Hk : keeps (fun s : state => eview (r_api s) = eview (r_api s2)) (krm_RemoveFinalizer cr_api topo_finalizer)).
      { unfold krm_RemoveFinalizer. apply keeps_bind; [apply keeps_get|]. intros s3. destruct (negb _); [apply keeps_ret|].
        apply keeps_bind; [apply keeps_lift|]. intros m. apply keeps_bind; [by intros x Hx|]. intros _.
        apply keeps_bind; [|intros e; apply keeps_ret]. intros x Hx. unfold api_call.
        pose proof (cl_Update (r_cr x) (r_api x)) as Hu. destruct (crc_Update cr_api _ _) as [w3 [c3|e3|]]; cbn in *; congruence. }
      specialize (Hk s2 eq_refl). by rewrite Hrem in Hk. }
    exists (r_svc s2), w'. rewrite (bind_ok _ _ _ _ _ Hrem). split; [reflexivity|]. rewrite Hvd, Hcr, Hv. split; [done|].
    intros k. rewrite He. apply Hm.
Qed.

(** ** Reports *)

Lemma condition_single (r : ConditionedStatus) c : essence (GetCondition (SetConditions r [c]) (c_Type c)) = essence c.
Proof.
  unfold GetCondition, SetConditions. cbn [foldl Conditions].
  by destruct (find_condition_set_same (Conditions r) c) as (c'&->&Hc).
Qed.

(** What is reported on an object. *)
Definition reported (cr : T) (c : Condition) (w' : W) : Prop :=
  exists cr', view w' !! krm_nsn cr = Some cr' /\ spec cr' = spec cr /\
    essence (krm_GetCondition cr' ConditionTypeReady) = essence c.

(** A report on the object that was prepared, after writes to other objects. *)
Lemma report_claimer w cr w1 cr1 (s : state) c res : prepared view topo_finalizer w cr w1 cr1 ->
  view (r_api s) = view w1 -> r_cr s = cr1 -> c_Type c = ConditionTypeReady ->
  exists w', leave (report cr_api [c] res s) = ((r_svc s, w'), Ok res) /\
    reported cr c w' /\ delete (krm_nsn cr) (view w') = delete (krm_nsn cr) (view w) /\ eview w' = eview (r_api s).
Proof.
  intros Hp Hv Hcr Hc. pose proof (prep_nsn _ _ _ _ _ _ Hp) as Hn. pose proof (report_eview [c] res s) as He.
  destruct (report_spec cr_api view [c] res s cr1) as (w'&v&Hrun&Hview).
  { split; rewrite Hcr, ?Hv, ?Hn; [apply Hp|done..]. }
  rewrite Hrun in He |- *. rewrite Hcr, Hn, Hv in Hview. exists w'. split; [reflexivity|]. split; [|split; [|exact He]].
  - eexists. rewrite Hview, lookup_insert_eq. split; [reflexivity|]. split; [exact (prep_spec _ _ _ _ _ _ Hp)|].
    unfold krm_GetCondition, bump. cbn [status]. unfold krm_SetConditions, with_status. cbn [status].
    rewrite conditioned_with, <-Hc. apply condition_single.
  - rewrite Hview, delete_insert_eq. apply Hp.
Qed.

(** A reconciliation with another result than that of a failed list has listed the endpoints. *)
Lemma with_claimed_listed cr svc w lf (body : M state Result) x res :
  leave (with_claimed now api cr_api lf body (MkRState svc w cr)) = (x, Ok res) -> res <> lf ->
  exists l, ta_List_endpoints api ∅ w = Ok l.
Proof.
  intros Hrun Hne. destruct (ta_List_endpoints api ∅ w) as [l|e|] eqn:Hl; [by exists l|exfalso..];
    unfold with_claimed in Hrun; rewrite get_bind in Hrun;
    (destruct (claimed_failed (MkRState svc w cr) (krm_Object cr)) as (s1&r1&Hf&Hno); [cbn [r_api]; by rewrite Hl|]);
    (destruct r1 as [l|e1|]; [by destruct (Hno l)| |by rewrite (catch_panic _ _ _ _ Hf) in Hrun]);
    rewrite (catch_err _ _ _ _ _ Hf) in Hrun;
    rewrite (bind_ok _ _ _ (MkRState (MkTopoSvc (sv_inventory (r_svc s1)) [] (sv_new (r_svc s1)) (sv_existing (r_svc s1))
      (sv_matchLabels (r_svc s1))) (r_api s1) (r_cr s1)) tt) in Hrun by reflexivity;
    destruct (report _ _ _ _) as [s2 r2] eqn:Hr in Hrun; injection Hrun as _ ->; by apply report_result in Hr.
Qed.

(** The first steps of a reconciliation of an object that is not deleted, up to the lease. *)
Lemma with_claimed_steps cr svc w l lf (granted : M state Result) (refused : string -> M state Result) :
  view w !! krm_nsn cr = Some cr -> WasDeleted (krm_om cr) = false -> ta_List_endpoints api ∅ w = Ok l ->
  exists w1 cr1, prepared view topo_finalizer w cr w1 cr1 /\ eview w1 = eview w /\
    (w1 = w \/ exists x, w1 = (crc_Update cr_api x w).1) /\
    let svc1 := MkTopoSvc (sv_inventory svc) (mine (krm_Object cr) l) (sv_new svc) (sv_existing svc) (sv_matchLabels svc) in
    let '(w2, a) := run_prog (ta_leases api) now (AcquireLease epLease (krm_Object cr1)) w1 in
    eview w2 = eview w /\ view w2 = view w1 /\
    with_claimed now api cr_api lf (with_topo_finalizer now api cr_api topo_finalizer (
      r ← catch (acquire_lease now api epLease);
      match r with inr e => refused e | inl _ => granted end)) (MkRState svc w cr) =
    match a with
    | Ok _ => granted (MkRState svc1 w2 cr1)
    | Err e => refused e (MkRState svc1 w2 cr1)
    | Panic => (MkRState svc1 w2 cr1, Panic)
    end.
Proof.
  intros Hst Hdel Hl.
  set (svc1 := MkTopoSvc (sv_inventory svc) (mine (krm_Object cr) l) (sv_new svc) (sv_existing svc) (sv_matchLabels svc)).
  destruct (add_finalizer_spec cr_api view topo_finalizer svc1 w cr Hst Hdel) as (w1&cr1&Hp&Hw&Hadd).
  assert (He1 : eview w1 = eview w) by (destruct Hw as [->|[x ->]]; [done|apply cl_Update]).
  exists w1, cr1. split; [exact Hp|]. split; [exact He1|]. split; [exact Hw|]. cbv zeta.
  destruct (lease_frame (AcquireLease epLease (krm_Object cr1)) w1) as [Hf1 Hf2].
  destruct (run_prog _ _ _ w1) as [w2 a] eqn:Ha. cbn [fst] in Hf1, Hf2. split; [congruence|]. split; [exact Hf2|].
  unfold with_claimed. rewrite get_bind. cbn [r_cr].
  rewrite (catch_ok _ _ _ _ _ (claimed_run (MkRState svc w cr) (krm_Object cr) l Hl)).
  rewrite (bind_ok _ _ _ (MkRState svc1 w cr) tt) by reflexivity. rewrite Hdel.
  unfold with_topo_finalizer. rewrite tl_AddFinalizer, (bind_ok _ _ _ _ _ Hadd).
  assert (Hacq : acquire_lease now api epLease (MkRState svc1 w1 cr1) = (MkRState svc1 w2 cr1, a)).
  { unfold acquire_lease. cbn [r_cr r_api r_svc]. by rewrite Ha. }
  destruct a as [[]|e|]; [by rewrite (catch_ok _ _ _ _ _ Hacq)|by rewrite (catch_err _ _ _ _ _ Hacq)|].
  unfold catch, mbind, M_bind. by rewrite Hacq.
Qed.

End Claimer.

(** Objects of the same kind and name have the same claims. *)
Lemma same_claims o o' : o_GVK o' = o_GVK o -> om_Name (o_Meta o') = om_Name (o_Meta o) ->
  om_Namespace (o_Meta o') = om_Namespace (o_Meta o) ->
  getCoreRef o' = getCoreRef o /\ forall e, IsAllocated e o' = IsAllocated e o.
Proof. intros Hg Hn Hns. unfold getCoreRef, IsAllocated, names. by rewrite Hg, Hn, Hns. Qed.

(** The object with its finalizer has the same claims. *)
Lemma prepared_same {W Spec Status} (view : W -> gmap NamespacedName (KRM Spec Status)) fin w cr w1 cr1 :
  prepared view fin w cr w1 cr1 ->
  getCoreRef (krm_Object cr1) = getCoreRef (krm_Object cr) /\
  forall e, IsAllocated e (krm_Object cr1) = IsAllocated e (krm_Object cr).
Proof.
  intros Hp. pose proof (prep_nsn _ _ _ _ _ _ Hp) as Hn. unfold krm_nsn in Hn. injection Hn as Hns Hname.
  apply same_claims; [apply Hp|exact Hname|exact Hns].
Qed.

(** ** Links *)

Section Links.
Context {W Q : Type} `{E : ErrorsAPI} `{!ErrorsLaws E} `{L : LabelsAPI}.
Context (now : Z) (api : TopoAPI W Q) (epLease : lease) (eview : W -> gmap NamespacedName Endpoint) `{!TopoLaws api eview}.
Context (lview : W -> gmap NamespacedName Link) `{!ClaimerLaws api eview (ta_links api) lview}.
Abbreviation link_state := (rstate topo_svc W LinkSpec LinkStatus).

(** The claims of a link are written to endpoints only. *)
Lemma link_claimResources_view v : keeps (fun s : link_state => lview (r_api s) = v) (link_claimResources api).
Proof.
  unfold link_claimResources. apply keeps_bind; [apply keeps_get|]. intros s. destruct (owned_by_interconnect _); [apply keeps_ret|].
  apply keeps_bind.
  { intros s0 Hs0. unfold on_ep, zoom.
    pose proof (endpoint_Init_listed (ta_List_endpoints api) (Link_GetTopologies (r_cr s)) (ep_part s0)) as [He _].
    destruct (endpoint_Init _ _ _) as [e a]. cbn in *. by rewrite He. }
  intros _. apply keeps_bind.
  { generalize (ls_Endpoints (spec (r_cr s))). intros l. induction l as [|ep l IH]; cbn [link_endpoints]; [apply keeps_ret|].
    apply keeps_bind; [|intros e; apply keeps_bind; [exact IH|intros es; apply keeps_ret]]. unfold link_endpoint.
    apply keeps_bind; [by intros x Hx|]. intros eps. apply keeps_bind; [apply keeps_lift|]. intros e0.
    case_bool_decide; [apply keeps_throw|]. destruct (IsAllocated _ _); [apply keeps_throw|apply keeps_ret]. }
  intros eps. apply (move_claims_keeps _ (fun w => lview w = v)). intros x w Hw. by rewrite cl_claims.
Qed.

(** C12. The deletion of a link completes. A link that is marked for deletion, carries the
    finalizer of the controller and is not owned by a logical interconnect is gone from the
    API server after one reconciliation: the endpoints it had claimed are free, the claims
    of other objects and everything else of the endpoints are as they were. *)
Theorem link_deletion svc w cr l : lview w !! krm_nsn cr = Some cr -> WasDeleted (krm_om cr) = true ->
  om_Finalizers (krm_om cr) = [topo_finalizer] -> owned_by_interconnect cr = false ->
  ta_List_endpoints api ∅ w = Ok l ->
  exists svc' w', link_Reconcile now api epLease (krm_nsn cr) (svc, w) = ((svc', w'), Ok no_requeue) /\
    lview w' = delete (krm_nsn cr) (lview w) /\ moved eview (krm_Object cr) [] w w'.
Proof.
  intros Hst Hdel Hfin Hown Hl. unfold link_Reconcile, reconcile. rewrite (crc_Get_found _ _ _ Hst), get_bind.
  cbn [r_cr]. rewrite Hown. exact (with_claimed_deleted now api eview (ta_links api) lview cr svc w l _ _ Hst Hdel Hfin Hl).
Qed.

Definition ends_claimed (w : W) (cr : Link) (eps : list Endpoint) : Prop :=
  Forall2 (fun ep e => eview w !! krm_nsn e = Some e /\ is_end ep e /\ IsAllocated e (krm_Object cr) = false)
    (ls_Endpoints (spec cr)) eps.

(** A link that holds the lease claims its endpoints, or releases those it had. *)
Lemma link_granted w cr w1 cr1 w2 svc l : prepared lview topo_finalizer w cr w1 cr1 ->
  eview w2 = eview w -> lview w2 = lview w1 ->
  owned_by_interconnect cr = false -> NoDup (end_name <$> ls_Endpoints (spec cr)) ->
  ta_List_endpoints api ∅ w = Ok l -> sv_claimed svc = mine (krm_Object cr) l ->
  (forall w' ls, eview w' = eview w -> exists l, ta_List_endpoints api ls w' = Ok l) ->
  (forall m, ta_LabelSelectorAsSelector api m <> Panic) ->
  exists svc' w' r,
    leave ((r ← catch (link_claimResources api);
      match r with
      | inr err =>
          s ← get_state;
          r ← catch (on_ep (endpoint_DeleteClaim (ta_endpoints api) (sv_claimed (r_svc s))));
          match r with
          | inr _ => return_status (ta_links api) requeue
          | inl _ => report (ta_links api) [Failed now err] requeue
          end
      | inl _ => report (ta_links api) [Ready now] no_requeue
      end) (MkRState svc w2 cr1)) = ((svc', w'), r) /\
    delete (krm_nsn cr) (lview w') = delete (krm_nsn cr) (lview w) /\
    ((exists eps, r = Ok no_requeue /\ reported lview cr (Ready now) w' /\
        ends_claimed w cr eps /\ moved eview (krm_Object cr) eps w w') \/
     (exists e, r = Ok requeue /\ reported lview cr (Failed now e) w' /\
        ~ Forall (claimable api eview w cr) (ls_Endpoints (spec cr)) /\ moved eview (krm_Object cr) [] w w')).
Proof.
  intros Hp He Hv Hown Hnd Hl Hcl Hls Hsel. destruct (prepared_same lview _ w cr w1 cr1 Hp) as [Href Hal].
  pose proof (prep_spec _ _ _ _ _ _ Hp) as Hspec.
  destruct (link_claims_exact api eview (MkRState svc w2 cr1)) as (s3&r3&Hrun&Hcr3&Hsv3&Hres); cbn [r_cr r_api r_svc] in *.
  - unfold as_stored. rewrite He, Hcl. by apply (mine_stored api).
  - unfold owned_by_interconnect in *. by rewrite (prep_refs _ _ _ _ _ _ Hp).
  - by rewrite Hspec.
  - intros t. by apply Hls.
  - exact Hsel.
  - pose proof (link_claimResources_view (lview w1) (MkRState svc w2 cr1) Hv) as Hv3. rewrite Hrun in Hv3. cbn [fst] in Hv3.
    destruct r3 as [[]|err|]; [| |done].
    + destruct Hres as (eps&Hends&Hafter). rewrite (catch_ok _ _ _ _ _ Hrun).
      destruct (report_claimer api eview (ta_links api) lview w cr w1 cr1 s3 (Ready now) no_requeue Hp Hv3 Hcr3 eq_refl)
        as (w'&Hrep&Hr&Hd&He').
      exists (r_svc s3), w', (Ok no_requeue). split; [exact Hrep|]. split; [exact Hd|]. left. exists eps. split; [done|].
      split; [exact Hr|]. split.
      * unfold ends_claimed. rewrite <-Hspec, <-He. eapply Forall2_impl; [exact Hends|]. intros ep e (H1&H2&H3).
        by rewrite <-Hal.
      * apply (moved_after api eview (ta_links api) lview _ l); [exact Hl|]. intros k. destruct (Hafter k) as [H1 H2].
        by rewrite He', <-He, <-Hcl, <-Href.
    + destruct Hres as [Hw3 Hnot]. rewrite (catch_err _ _ _ _ _ Hrun), get_bind, Hsv3, Hcl.
      destruct (release_run api eview (ta_links api) lview s3 w (krm_Object cr) l Hl) as (s4&Hrel&Hcr4&Hsvc4&Hv4&Hm).
      { by rewrite Hw3. }
      rewrite (catch_ok _ _ _ _ _ Hrel).
      destruct (report_claimer api eview (ta_links api) lview w cr w1 cr1 s4 (Failed now err) requeue Hp) as (w'&Hrep&Hr&Hd&He');
        [congruence|congruence|done|].
      exists (r_svc s4), w', (Ok requeue). split; [exact Hrep|]. split; [exact Hd|]. right. exists err. split; [done|].
      split; [exact Hr|]. split.
      * intros Hall. apply Hnot. rewrite Hspec. eapply Forall_impl; [exact Hall|]. unfold claimable. rewrite He.
        intros ep [Hs (e&Ha&Honly)]. split; [exact Hs|]. exists e. by rewrite Hal.
      * intros k. rewrite He'. apply Hm.
Qed.

(** C14. The reconciliation of a link that is not deleted and is not owned by a logical
    interconnect. When the lease is not granted no claim is touched and the reconciliation
    is repeated after the time of two leases. When it is granted, the link has either
    claimed exactly the endpoints its ends name, of which none was claimed by another
    object, and is ready; or an end names no endpoint, several, or one of another object,
    and then the link is failed and has no claims. Other objects keep their claims and
    other links are as they were. *)
Theorem link_reconciled svc w cr : lview w !! krm_nsn cr = Some cr -> WasDeleted (krm_om cr) = false ->
  owned_by_interconnect cr = false -> NoDup (end_name <$> ls_Endpoints (spec cr)) ->
  (forall w' ls, eview w' = eview w -> exists l, ta_List_endpoints api ls w' = Ok l) ->
  (forall m, ta_LabelSelectorAsSelector api m <> Panic) ->
  exists w1 cr1 svc' w' r, prepared lview topo_finalizer w cr w1 cr1 /\
    link_Reconcile now api epLease (krm_nsn cr) (svc, w) = ((svc', w'), r) /\
    delete (krm_nsn cr) (lview w') = delete (krm_nsn cr) (lview w) /\
    match (run_prog (ta_leases api) now (AcquireLease epLease (krm_Object cr1)) w1).2 with
    | Panic => r = Panic /\ eview w' = eview w
    | Err e => r = Ok requeue_lease /\ eview w' = eview w /\ reported lview cr (Failed now e) w'
    | Ok _ =>
        (exists eps, r = Ok no_requeue /\ reported lview cr (Ready now) w' /\
           ends_claimed w cr eps /\ moved eview (krm_Object cr) eps w w') \/
        (exists e, r = Ok requeue /\ reported lview cr (Failed now e) w' /\
           ~ Forall (claimable api eview w cr) (ls_Endpoints (spec cr)) /\ moved eview (krm_Object cr) [] w w')
    end.
Proof.
  intros Hst Hdel Hown Hnd Hls Hsel. destruct (Hls w ∅ eq_refl) as [l Hl].
  unfold link_Reconcile, reconcile. rewrite (crc_Get_found _ _ _ Hst), get_bind. cbn [r_cr]. rewrite Hown.
  edestruct (with_claimed_steps now api epLease eview (ta_links api) lview cr svc w l requeue) as (w1&cr1&Hp&He1&_&Hsteps);
    [exact Hst|exact Hdel|exact Hl|].
  exists w1, cr1. cbv zeta in Hsteps. destruct (run_prog _ _ _ w1) as [w2 a]. destruct Hsteps as (He2&Hv2&Hrun). rewrite Hrun. clear Hrun.
  set (svc1 := MkTopoSvc _ _ _ _ _) in *. set (s2 := MkRState svc1 w2 cr1). cbn [snd].
  destruct a as [[]|e|].
  - destruct (link_granted w cr w1 cr1 w2 svc1 l Hp He2 Hv2 Hown Hnd Hl eq_refl Hls Hsel) as (svc'&w'&r&Hrun&Hd&Hres).
    exists svc', w', r. split; [exact Hp|]. split; [exact Hrun|]. split; [exact Hd|exact Hres].
  - destruct (report_claimer api eview (ta_links api) lview w cr w1 cr1 s2 (Failed now e) requeue_lease Hp Hv2 eq_refl eq_refl)
      as (w'&Hrep&Hr&Hd&He').
    exists svc1, w', (Ok requeue_lease). split; [exact Hp|]. split; [exact Hrep|]. split; [exact Hd|]. split; [done|].
    split; [|exact Hr]. by rewrite He'.
  - exists svc1, w2, Panic. split; [exact Hp|]. split; [reflexivity|]. split; [|done]. rewrite Hv2. apply Hp.
Qed.

End Links.

(** ** Logical interconnects *)

(** The API server seen by the controller of logical interconnects: [oview] are the objects
    by reference. The links and the logical endpoints are other objects than the endpoints
    and the interconnects. *)
Class InterconnectLaws {W Q : Type} `{E : ErrorsAPI} `{L : LabelsAPI} (api : TopoAPI W Q)
    (eview : W -> gmap NamespacedName Endpoint) (iview : W -> gmap NamespacedName LogicalInterconnect)
    (oview : W -> gmap ObjectReference TObject) : Prop := {
  il_claimer :: ClaimerLaws api eview (ta_interconnects api) iview;
  il_resources :: ResLaws (ta_List api) (ta_Delete api) (ta_Apply api) oview;
  il_Delete : forall o w, o_GVK o ∈ rcf_Owns li_config -> let w' := (ta_Delete api o w).1 in eview w' = eview w /\ iview w' = iview w;
  il_Apply : forall t w, o_GVK (t_Object t) ∈ rcf_Owns li_config ->
    let w' := (ta_Apply api t w).1 in eview w' = eview w /\ iview w' = iview w;
  il_claims : forall x w k, ref_Kind k <> EndpointKind -> oview (crc_StatusUpdate (ta_endpoints api) x w).1 !! k = oview w !! k;
  il_Update : forall x w, oview (crc_Update (ta_interconnects api) x w).1 = oview w;
  il_StatusUpdate : forall x w, oview (crc_StatusUpdate (ta_interconnects api) x w).1 = oview w;
  il_lease_Create : forall l w, oview (lc_Create (ta_leases api) l w).1 = oview w;
  il_lease_Update : forall l w, oview (lc_Update (ta_leases api) l w).1 = oview w
}.

Section Interconnects.
Context {W Q : Type} `{E : ErrorsAPI} `{!ErrorsLaws E} `{L : LabelsAPI}.
Context (now : Z) (api : TopoAPI W Q) (epLease : lease) (eview : W -> gmap NamespacedName Endpoint) `{!TopoLaws api eview}.
Context (iview : W -> gmap NamespacedName LogicalInterconnect) (oview : W -> gmap ObjectReference TObject).
Context `{!InterconnectLaws api eview iview oview}.
Abbreviation li_state := (rstate topo_svc W LogicalInterconnectSpec LogicalInterconnectStatus).
Abbreviation select := (selectEndpoints (ta_LabelSelectorAsSelector api) (ta_LabelSelector_String api) (ta_sort_Slice api)
  (ta_List_endpoints api)).

(** A deleted logical interconnect sets its endpoints free and goes away. *)
Lemma interconnect_deletion svc w cr l : iview w !! krm_nsn cr = Some cr -> WasDeleted (krm_om cr) = true ->
  om_Finalizers (krm_om cr) = [topo_finalizer] -> ta_List_endpoints api ∅ w = Ok l ->
  exists svc' w', interconnect_Reconcile now api epLease (krm_nsn cr) (svc, w) = ((svc', w'), Ok no_requeue) /\
    iview w' = delete (krm_nsn cr) (iview w) /\ moved eview (krm_Object cr) [] w w'.
Proof.
  intros Hst Hdel Hfin Hl. unfold interconnect_Reconcile, reconcile. rewrite (crc_Get_found _ _ _ Hst).
  exact (with_claimed_deleted now api eview (ta_interconnects api) iview cr svc w l _ _ Hst Hdel Hfin Hl).
Qed.

(** *** The objects a selection asks for *)

Definition li_link (cr : LogicalInterconnect) (l : LinkSpec) : option TObject :=
  a ← ls_Endpoints l !! 0%nat;
  b ← ls_Endpoints l !! 1%nat;
  Some (owned (krm_Object cr) (TLink (BuildLink (new_meta (link_name a b) (GetNamespace cr) None) l no_conditions))).
Definition li_logical (cr : LogicalInterconnect) (x : Z * LogicalEndpointSpec) : TObject :=
  owned (krm_Object cr) (TLogicalEndpoint (BuildLogicalEndpoint
    (new_meta (GetName cr +:+ "-logical-ep" +:+ pretty x.1) (GetNamespace cr) None) x.2 (MkLogicalEndpointStatus no_conditions None None))).
Definition numbered {A} (l : list A) : list (Z * A) := zip (seqZ 0 (Z.of_nat (length l))) l.
Definition li_objects (cr : LogicalInterconnect) (r : selection) : list TObject :=
  omap (li_link cr) (getLinkSpecs r) ++ (li_logical cr <$> numbered (getLogicalEndpoints r)).
Definition refs (l : list TObject) : list ObjectReference := getCoreRef ∘ t_Object <$> l.

Lemma with_new_new (f g : gmap ObjectReference TObject -> gmap ObjectReference TObject) (s : li_state) :
  with_new g (with_new f s) = with_new (fun m => g (f m)) s.
Proof. by destruct s as [[]]. Qed.

Lemma add_link_run cr l (s s' : li_state) : add_link cr l s = (s', Ok tt) ->
  exists t, li_link cr l = Some t /\ s' = with_new <[getCoreRef (t_Object t) := t]> s.
Proof.
  unfold add_link, li_link. rewrite (index_deref _ 0), (index_deref _ 1). unfold mbind at 1, M_bind at 1, lift at 1.
  destruct (ls_Endpoints l !! 0%nat) as [a|]; [|intros [=]]. cbn [deref]. unfold mbind at 1, M_bind at 1, lift at 1.
  destruct (ls_Endpoints l !! 1%nat) as [b|]; [|intros [=]]. cbn [deref mbind option_bind]. intros [= <-]. by eexists.
Qed.

Lemma add_links_all cr ls : forall s s' : li_state, forM ls (add_link cr) s = (s', Ok tt) ->
  s' = with_new (add_all (omap (li_link cr) ls)) s /\ forall l, l ∈ ls -> is_Some (li_link cr l).
Proof.
  induction ls as [|l ls IH]; intros s s'; cbn [forM].
  { intros [= <-]. split; [by destruct s as [[]]|]. intros l Hl. by apply elem_of_nil in Hl. }
  unfold mbind at 1, M_bind at 1. destruct (add_link cr l s) as [s1 [[]| |]] eqn:Hl; [|intros [=]..].
  apply add_link_run in Hl as (t&Ht&->). intros Hf. apply IH in Hf as [-> Hall]. rewrite with_new_new. split.
  - cbn [omap list_omap]. by rewrite Ht.
  - intros x [->|Hx]%elem_of_cons; [by eexists|by apply Hall].
Qed.

Lemma add_logicals_all cr xs : forall s : li_state,
  forM xs (add_logical_endpoint cr) s = (with_new (add_all (li_logical cr <$> xs)) s, Ok tt).
Proof.
  induction xs as [|x xs IH]; intros s; cbn [forM]; [by destruct s as [[]]|].
  unfold mbind at 1, M_bind at 1. change (add_logical_endpoint cr x s) with
    (with_new <[getCoreRef (t_Object (li_logical cr x)) := li_logical cr x]> s, @Ok unit tt). cbv iota beta.
  by rewrite IH, with_new_new.
Qed.

Lemma add_all_app l1 l2 m : add_all (l1 ++ l2) m = add_all l2 (add_all l1 m).
Proof. apply foldl_app. Qed.

(** The objects are links and logical endpoints. *)
Lemma li_objects_owned cr r t : t ∈ li_objects cr r -> o_GVK (t_Object t) ∈ rcf_Owns li_config.
Proof.
  unfold li_objects. rewrite elem_of_app, list_elem_of_omap, list_elem_of_fmap. intros [(l&_&Hl)|(x&->&_)].
  - revert Hl. unfold li_link. destruct (ls_Endpoints l !! 0%nat); [|done]. destruct (ls_Endpoints l !! 1%nat); [|done].
    intros [= <-]. by left.
  - right. by left.
Qed.

(** *** The selection is claimed, the objects are stored *)

Lemma select_listed cr n st st' r : lis_Links (spec cr) = Z.of_nat n ->
  select (lis_Links (spec cr)) cr st = (st', Ok r) -> e_api st' = e_api st.
Proof.
  intros Hn. rewrite Hn. intros Hs. eapply selectEndpoints_sides in Hs as [[He _] _]; [exact He|exact Hn].
Qed.

Lemma li_populate_run n (s s' : li_state) : let cr := r_cr s in lis_Links (spec cr) = Z.of_nat n ->
  li_populateResources api s = (s', Ok tt) ->
  exists st r s1 s2 r', select (lis_Links (spec cr)) cr (ep_part s) = (st, Ok r) /\
    r_cr s1 = cr /\ r_api s1 = r_api s /\ sv_claimed (r_svc s1) = sv_claimed (r_svc s) /\
    (forall l, l ∈ getLinkSpecs r -> is_Some (li_link cr l)) /\
    move_claims api (getSelectedEndpoints r) s1 = (s2, Ok tt) /\
    APIApply (ta_List api) (ta_Delete api) (ta_Apply api) li_config (krm_Object cr)
      (MkResources (add_all (li_objects cr r) ∅) ∅ ∅ (r_api s2)) = (r', Ok tt) /\
    r_api s' = rs_api r' /\ r_cr s' = cr.
Proof.
  intros cr Hn. unfold li_populateResources. unfold mbind at 1, M_bind at 1, get_state at 1. fold cr.
  unfold mbind at 1, M_bind at 1. change (on_res (resources_Init ∅) s) with (put_res (MkResources ∅ ∅ ∅ (r_api s)) s, @Ok unit tt).
  cbv iota beta. unfold mbind at 1, M_bind at 1. unfold on_ep at 1, zoom at 1.
  change (ep_part (put_res (MkResources ∅ ∅ ∅ (r_api s)) s)) with (ep_part s).
  destruct (select (lis_Links (spec cr)) cr (ep_part s)) as [st [r| |]] eqn:Hsel; [|intros [=]..].
  pose proof (select_listed cr n _ _ _ Hn Hsel) as He. set (s0 := put_ep st _).
  unfold mbind at 1, M_bind at 1. destruct (forM (getLinkSpecs r) (add_link cr) s0) as [sl [[]| |]] eqn:Hl; [|intros [=]..].
  apply add_links_all in Hl as [-> Hlinks]. unfold mbind at 1, M_bind at 1.
  fold (numbered (getLogicalEndpoints r)). rewrite add_logicals_all, with_new_new. set (s1 := with_new _ s0).
  unfold mbind at 1, M_bind at 1. destruct (move_claims api (getSelectedEndpoints r) s1) as [s2 [[]| |]] eqn:Hm; [|intros [=]..].
  unfold on_res, zoom. destruct (APIApply _ _ _ _ _ (res_part s2)) as [r' a] eqn:Ha. intros [= <- ->].
  assert (Hf : keeps (fun x : li_state => (sv_new (r_svc x), sv_existing (r_svc x), sv_matchLabels (r_svc x), r_cr x) =
      (sv_new (r_svc s1), sv_existing (r_svc s1), sv_matchLabels (r_svc s1), r_cr s1)) (move_claims api (getSelectedEndpoints r))).
  { unfold move_claims. apply keeps_bind; [apply keeps_get|]. intros x.
    apply keeps_bind; [|intros _]; apply (keeps_zoom _ (fun _ => True)); try done. }
  specialize (Hf s1 eq_refl). rewrite Hm in Hf. cbn [fst] in Hf. injection Hf as H1 H2 H3 H4.
  exists st, r, s1, s2, r'. split; [done|]. split; [done|]. split; [exact He|]. split; [done|]. split; [exact Hlinks|].
  split; [exact Hm|]. split; [|split; [done|exact H4]]. rewrite <-Ha. f_equal. unfold li_objects. rewrite add_all_app.
  unfold res_part. by rewrite H1, H2, H3.
Qed.

(** The selected endpoints are endpoints of the API server. *)
Lemma selected_stored cr n st st' r e : lis_Links (spec cr) = Z.of_nat n ->
  select (lis_Links (spec cr)) cr st = (st', Ok r) -> e ∈ getSelectedEndpoints r -> eview (e_api st) !! krm_nsn e = Some e.
Proof.
  intros Hn. rewrite Hn. intros Hs.
  destruct (select_sound _ _ _ _ tl_sort cr n st st' r Hn Hs) as (pss&Hlen&Hsel&Hside).
  rewrite Hsel. intros (p&->&Hp)%list_elem_of_fmap. apply list_elem_of_In, in_concat in Hp as (ps&Hps&Hp).
  apply list_elem_of_In in Hps, Hp. apply list_elem_of_lookup_1 in Hps as [i Hps]. apply list_elem_of_lookup_1 in Hp as [j Hp].
  assert (Hep : is_Some (lis_Endpoints (spec cr) !! i)) by (apply lookup_lt_is_Some; rewrite <-Hlen; by eapply lookup_lt_Some).
  destruct Hep as [ep Hep]. destruct (Hside i ep ps Hep Hps) as (_&_&Hall&_).
  destruct (Hall j p Hp) as (_&_&_&l&sel&Hl&Hin&_). apply tl_List_endpoints in Hl as [_ Hl]. by apply Hl in Hin as [Hv _].
Qed.

(** The objects of the interconnect, [w0] being the API server before they are applied. *)
Definition objects_applied (cr : LogicalInterconnect) (r : selection) (w0 w' : W) : Prop :=
  (NoDup (refs (li_objects cr r)) ->
    (forall l, l ∈ getLinkSpecs r -> exists t, li_link cr l = Some t /\ stored_as oview w' (getCoreRef (t_Object t)) t) /\
    (forall x, x ∈ numbered (getLogicalEndpoints r) ->
      stored_as oview w' (getCoreRef (t_Object (li_logical cr x))) (li_logical cr x))) /\
  (forall k, k ∉ refs (li_objects cr r) -> ref_Kind k <> EndpointKind ->
    ((exists t, oview w0 !! k = Some t /\ looked_for li_config (krm_Object cr) ∅ (rcf_Owns li_config) t) -> leaving oview w' k) /\
    (~ (exists t, oview w0 !! k = Some t /\ looked_for li_config (krm_Object cr) ∅ (rcf_Owns li_config) t) ->
      oview w' !! k = oview w0 !! k)).

Lemma li_populated n (s s' : li_state) : let cr := r_cr s in lis_Links (spec cr) = Z.of_nat n ->
  as_stored eview (r_api s) (sv_claimed (r_svc s)) ->
  li_populateResources api s = (s', Ok tt) ->
  exists st r, select (lis_Links (spec cr)) cr (ep_part s) = (st, Ok r) /\
    r_cr s' = cr /\ iview (r_api s') = iview (r_api s) /\
    (NoDup (krm_nsn <$> getSelectedEndpoints r) ->
      claims_after eview (krm_Object cr) (sv_claimed (r_svc s)) (getSelectedEndpoints r) (r_api s) (r_api s')) /\
    objects_applied cr r (r_api s) (r_api s').
Proof.
  intros cr Hn Hcl Hrun. apply (li_populate_run n) in Hrun as (st&r&s1&s2&r'&Hsel&Hcr1&Hw1&Hsv1&Hlinks&Hm&Ha&->&->); [|exact Hn].
  exists st, r. split; [exact Hsel|]. split; [done|].
  assert (Hobj : forall k t, add_all (li_objects cr r) ∅ !! k = Some t -> t ∈ li_objects cr r /\ getCoreRef (t_Object t) = k).
  { intros k t [Ht|Ht]%add_all_lookup; [exact Ht|by rewrite lookup_empty in Ht]. }
  (* the endpoints and the interconnects *)
  pose proof (APIApply_frame (ta_List api) (ta_Delete api) (ta_Apply api) li_config oview
    (fun w => eview w = eview (r_api s2) /\ iview w = iview (r_api s2)) (fun g => g ∈ rcf_Owns li_config)) as Hfr.
  specialize (Hfr (fun o Ho w Hw => ltac:(destruct Hw as [<- <-]; by apply il_Delete))).
  specialize (Hfr (fun t Ht w Hw => ltac:(destruct Hw as [<- <-]; by apply il_Apply))).
  specialize (Hfr (krm_Object cr) (fun g Hg => Hg)).
  destruct (Hfr (MkResources (add_all (li_objects cr r) ∅) ∅ ∅ (r_api s2))) as [[He' Hi'] _].
  { split; [done|]. split; [intros k t [Ht _]%Hobj; by eapply li_objects_owned|intros k o Ho; cbn [rs_existing] in Ho; by rewrite lookup_empty in Ho]. }
  fold cr in Ha. rewrite Ha in He', Hi'. cbn [fst] in He', Hi'.
  assert (Hmv : forall I : W -> Prop, (forall x, keeps I (crc_StatusUpdate (ta_endpoints api) x)) -> I (r_api s) -> I (r_api s2)).
  { intros I HI Hs. rewrite <-Hw1 in Hs. pose proof (move_claims_keeps api I (getSelectedEndpoints r) HI s1 Hs) as Hk.
    by rewrite Hm in Hk. }
  assert (Hi2 : iview (r_api s2) = iview (r_api s)).
  { apply (Hmv (fun w => iview w = iview (r_api s))); [|done]. intros x w Hw. by rewrite cl_claims. }
  assert (Ho2 : forall k, ref_Kind k <> EndpointKind -> oview (r_api s2) !! k = oview (r_api s) !! k).
  { intros k Hk. apply (Hmv (fun w => oview w !! k = oview (r_api s) !! k)); [|done]. intros x w Hw. by rewrite il_claims. }
  pose proof (APIApply_spec (ta_List api) (ta_Delete api) (ta_Apply api) li_config oview (krm_Object cr)
    (MkResources (add_all (li_objects cr r) ∅) ∅ ∅ (r_api s2)) r' eq_refl (fun k t Ht => proj2 (Hobj k t Ht)) Ha) as Happ.
  cbn [rs_new rs_api rs_matchLabels] in Happ. split; [congruence|]. split.
  - intros Hnd. destruct (move_claims_spec api eview (getSelectedEndpoints r) s1) as (s3&Hm'&_&_&Hafter).
    { by rewrite Hw1, Hsv1. }
    { rewrite Hw1. split; [exact Hnd|]. intros e He. exact (selected_stored cr n _ _ r e Hn Hsel He). }
    rewrite Hm in Hm'. injection Hm' as <-. intros k. destruct (Hafter k) as [H1 H2]. rewrite Hcr1 in H1. by rewrite He', <-Hw1, <-Hsv1.
  - assert (Hst : NoDup (refs (li_objects cr r)) -> forall t, t ∈ li_objects cr r -> stored_as oview (rs_api r') (getCoreRef (t_Object t)) t).
    { intros Hnd t Ht. specialize (Happ (getCoreRef (t_Object t))). by rewrite (add_all_found _ _ _ Hnd Ht) in Happ. }
    split.
    + intros Hnd. split.
      * intros l Hl. destruct (Hlinks l Hl) as [t Ht]. exists t. split; [exact Ht|]. apply Hst; [exact Hnd|].
        apply elem_of_app. left. apply list_elem_of_omap. by exists l.
      * intros x Hx. apply Hst; [exact Hnd|]. apply elem_of_app. right. apply list_elem_of_fmap. by exists x.
    + intros k Hk Hkind. specialize (Happ k). rewrite (add_all_keeps _ _ _ Hk), lookup_empty, (Ho2 k Hkind) in Happ. exact Happ.
Qed.

(** What follows the lease succeeds only when the resources are populated. *)
Lemma li_granted_ok (s s' : li_state) :
  (r ← catch (li_populateResources api);
   match r with
   | inr err =>
       s ← get_state;
       r ← catch (on_res (APIDelete (ta_List api) (ta_Delete api) li_config (krm_Object (r_cr s))));
       match r with
       | inr _ => return_status (ta_interconnects api) requeue
       | inl _ =>
           s ← get_state;
           r ← catch (on_ep (endpoint_DeleteClaim (ta_endpoints api) (sv_claimed (r_svc s))));
           match r with
           | inr _ => return_status (ta_interconnects api) requeue
           | inl _ => report (ta_interconnects api) [Failed now err] requeue
           end
       end
   | inl _ => report (ta_interconnects api) [Ready now] no_requeue
   end) s = (s', Ok no_requeue) ->
  exists s3, li_populateResources api s = (s3, Ok tt) /\ report (ta_interconnects api) [Ready now] no_requeue s3 = (s', Ok no_requeue).
Proof.
  assert (Hst : forall x : li_state, return_status (ta_interconnects api) requeue x <> (s', Ok no_requeue)).
  { intros x. unfold return_status, mbind, M_bind. destruct (api_call _ _) as [x1 [e| |]]; [|done..]. by destruct (Wrap e _). }
  destruct (li_populateResources api s) as [s3 [[]|e|]] eqn:Hp.
  - rewrite (catch_ok _ _ _ _ _ Hp). intros Hr. by exists s3.
  - rewrite (catch_err _ _ _ _ _ Hp), get_bind. set (del := on_res _).
    destruct (del s3) as [s4 [[]|e2|]] eqn:H4;
      [rewrite (catch_ok _ _ _ _ _ H4)|rewrite (catch_err _ _ _ _ _ H4); by intros ?%Hst|by rewrite (catch_panic _ _ _ _ H4)].
    rewrite get_bind. set (rel := on_ep _).
    destruct (rel s4) as [s5 [[]|e3|]] eqn:H5;
      [rewrite (catch_ok _ _ _ _ _ H5)|rewrite (catch_err _ _ _ _ _ H5); by intros ?%Hst|by rewrite (catch_panic _ _ _ _ H5)].
    by intros ?%report_result.
  - by rewrite (catch_panic _ _ _ _ Hp).
Qed.

(** C15. A logical interconnect that is reconciled with success. The endpoints were selected
    by its spec from those of the API server. When no endpoint was selected twice, they are
    the claims of the interconnect afterwards, and other objects keep theirs. Every link
    and every logical endpoint of the selection is stored with the interconnect as its
    owner, if their names differ; the other links and logical endpoints it owned are gone
    or marked for deletion, and other objects are as they were. *)
Theorem interconnect_ready n svc w cr svc' w' : iview w !! krm_nsn cr = Some cr -> WasDeleted (krm_om cr) = false ->
  lis_Links (spec cr) = Z.of_nat n ->
  interconnect_Reconcile now api epLease (krm_nsn cr) (svc, w) = ((svc', w'), Ok no_requeue) ->
  exists w1 cr1 st st' r, prepared iview topo_finalizer w cr w1 cr1 /\ eview (e_api st) = eview w /\
    select (lis_Links (spec cr)) cr1 st = (st', Ok r) /\
    reported iview cr (Ready now) w' /\ delete (krm_nsn cr) (iview w') = delete (krm_nsn cr) (iview w) /\
    (NoDup (krm_nsn <$> getSelectedEndpoints r) -> moved eview (krm_Object cr) (getSelectedEndpoints r) w w') /\
    objects_applied cr1 r w w'.
Proof.
  intros Hst Hdel Hn. unfold interconnect_Reconcile, reconcile. rewrite (crc_Get_found _ _ _ Hst).
  intros Hrun. destruct (with_claimed_listed _ _ _ _ _ _ _ _ _ _ Hrun) as [l Hl]; [done|].
  edestruct (with_claimed_steps now api epLease eview (ta_interconnects api) iview cr svc w l requeue_lease)
    as (w1&cr1&Hp&He1&Hw1&Hsteps); [exact Hst|exact Hdel|exact Hl|]. cbv zeta in Hsteps.
  assert (Ho2 : oview (run_prog (ta_leases api) now (AcquireLease epLease (krm_Object cr1)) w1).1 = oview w).
  { apply (lease_keeps now api (fun w' => oview w' = oview w)).
    - intros x w0 H0. by rewrite il_lease_Create.
    - intros x w0 H0. by rewrite il_lease_Update.
    - destruct Hw1 as [->|[x ->]]; [done|apply il_Update]. }
  destruct (run_prog _ _ _ w1) as [w2 a]. cbn [fst] in Ho2. destruct Hsteps as (He2&Hv2&Heq). rewrite Heq in Hrun. clear Heq.
  set (svc1 := MkTopoSvc _ _ _ _ _) in Hrun. destruct a as [[]|e|]; [| |done].
  - apply leave_inv in Hrun as (s'&Hg&[= -> ->]). apply li_granted_ok in Hg as (s3&Hpop&Hrep).
    pose proof (prep_spec _ _ _ _ _ _ Hp) as Hspec.
    destruct (li_populated n (MkRState svc1 w2 cr1) s3) as (st'&r&Hsel&Hcr3&Hv3&Hcl&Hobj); cbn [r_cr r_api r_svc] in *.
    + by rewrite Hspec.
    + unfold as_stored. rewrite He2. by apply (mine_stored api).
    + exact Hpop.
    + destruct (prepared_same iview _ w cr w1 cr1 Hp) as [Href Hal].
      destruct (report_claimer api eview (ta_interconnects api) iview w cr w1 cr1 s3 (Ready now) no_requeue Hp) as (w3&Hleave&Hrepd&Hd&He3);
        [congruence|exact Hcr3|done|].
      pose proof (report_keeps (ta_interconnects api) (fun x => oview x = oview (r_api s3)) [Ready now] no_requeue s3) as Ho3.
      specialize (Ho3 (fun x w0 H0 => eq_trans (il_StatusUpdate x w0) H0) eq_refl).
      rewrite Hrep in Hleave, Ho3. injection Hleave as _ <-. cbn [fst] in Ho3.
      exists w1, cr1, (ep_part (MkRState svc1 w2 cr1)), st', r. split; [exact Hp|]. split; [exact He2|].
      split; [by rewrite <-Hspec|]. split; [exact Hrepd|]. split; [exact Hd|]. split.
      * intros Hnd. apply (moved_after api eview (ta_interconnects api) iview _ l); [exact Hl|]. intros k.
        destruct (Hcl Hnd k) as [H1 H2]. by rewrite He3, <-He2, <-Href.
      * revert Hobj. unfold objects_applied, stored_as, leaving. by rewrite Ho3, Ho2.
  - apply leave_inv in Hrun as (s'&Hr&_). by apply report_result in Hr.
Qed.

End Interconnects.
