(* ===== verification/Generate.v ===== *)
(** * cmd/generate: the topology generator

    The command [topogen generate] reads a raw topology from a file, checks it and prints
    the nodes, links and endpoints it stands for as YAML documents. Unlike the controller of
    raw topologies it asks no API server. The file system and the YAML library are
    parameters; the state is what was printed. *)

From S2P Require Import Prelude Strconv Meta Labels Conditions KRM Inventory Reconciler Lease Endpoints Selection Resources TopoControllers TopoProps.

Local Open Scope Z_scope.

Section Generate.
Context `{E : ErrorsAPI} (ReadFile : string -> result string) (Unmarshal : string -> result RawTopology)
  (Marshal : TObject -> result string).

(** ** Validation

    The functions have the text of those of the controller of raw topologies. *)

(** [cmd/generate/generate.go:96-110 validateLink2Nodes] *)
Definition gen_validateLink2Nodes (topo : RawTopology) : error :=
  let invalidNodeRef := foldl (fun acc l => foldl (fun acc e =>
      match rts_Nodes (spec topo) !! eps_NodeName (les_EndpointSpec e) with
      | None => acc ++ [ep_string e]
      | Some _ => acc
      end) acc (ls_Endpoints l)) [] (rts_Links (spec topo)) in
  if bool_decide (length invalidNodeRef <> 0%nat) then
    Some ("endpoints " +:+ quote_all invalidNodeRef +:+ " has no node reference")
  else None.

(** [cmd/generate/generate.go:112-129 validateLinks] *)
Definition gen_validateLinks (topo : RawTopology) : error :=
  let '(_, dups) := foldl (fun acc l => foldl (fun '(endpoints, dups) e =>
      let epString := ep_string e in
      ({[epString]} ∪ endpoints, if bool_decide (epString ∈ endpoints) then dups ++ [epString] else dups))
      acc (ls_Endpoints l)) (∅ : gset string, []) (rts_Links (spec topo)) in
  if bool_decide (length dups <> 0%nat) then
    Some ("endpoints " +:+ quote_all dups +:+ " appeared more than once in the links section of the topology file")
  else None.

(** [cmd/generate/generate.go:85-94 validate] *)
Definition gen_validate (topo : RawTopology) : error :=
  match gen_validateLink2Nodes topo with
  | Some e => Some e
  | None => gen_validateLinks topo
  end.

(** ** Generation *)

(** The spec of a node of the topology; the zero value for a name that is not one. *)
Definition node_spec (topo : RawTopology) (name : string) : NodeSpec :=
  default (MkNodeSpec "" None (MkUserDefinedLabels None) None None) (rts_Nodes (spec topo) !! name).

(** The body of the loop over the nodes.

    [cmd/generate/generate.go:135-154 generateTopoDetails] *)
Definition gen_node (topo : RawTopology) (nodeName : string) (n : NodeSpec) : Node :=
  BuildNode (new_meta nodeName (GetNamespace topo)
      (Some (<[NephioTopologyKey := GetName topo]> (default ∅ (udl_Labels (ns_UserDefinedLabels n))))))
    (MkNodeSpec (ns_Provider n) None (ns_UserDefinedLabels n) (ns_Location n) None)
    (MkNodeStatus no_conditions None None).

(** The labels of a link: the topology, overwritten by the labels of the nodes of its ends
    in order.

    [cmd/generate/generate.go:156-170 generateTopoDetails] *)
Definition gen_link_labels (topo : RawTopology) (l : LinkSpec) : labels :=
  foldl (fun ls e => default ∅ (udl_Labels (ns_UserDefinedLabels (node_spec topo (eps_NodeName (les_EndpointSpec e))))) ∪ ls)
    {[NephioTopologyKey := GetName topo]} (ls_Endpoints l).

(** The end of a link, without the LACP fallback. *)
Definition gen_end (e : LinkEndpointSpec) : EndpointSpec :=
  MkEndpointSpec (eps_InterfaceName (les_EndpointSpec e)) (eps_NodeName (les_EndpointSpec e)) None.

(** [cmd/generate/generate.go:178-198 generateTopoDetails] *)
Definition gen_endpoint (topo : RawTopology) (ls : labels) (e : LinkEndpointSpec) : Endpoint :=
  BuildEndpoint (new_meta (eps_NodeName (les_EndpointSpec e) +:+ "-" +:+ eps_InterfaceName (les_EndpointSpec e))
      (GetNamespace topo)
      (Some (<[NephioProviderKey := ns_Provider (node_spec topo (eps_NodeName (les_EndpointSpec e)))]> ls)))
    (gen_end e) (MkEndpointStatus no_conditions None "").

(** The name of the link needs two ends.

    [cmd/generate/generate.go:200-220 generateTopoDetails] *)
Definition gen_link (topo : RawTopology) (ls : labels) (l : LinkSpec) : result Link :=
  let linkeps := (fun e => MkLinkEndpointSpec "" (gen_end e)) <$> ls_Endpoints l in
  a ← index linkeps 0;
  b ← index linkeps 1;
  Ok (BuildLink (new_meta (link_name a b) (GetNamespace topo) (Some ls)) (MkLinkSpec linkeps) no_conditions).

(** The documents: nodes, links and endpoints. A link with fewer than two ends panics before
    anything is printed.

    [cmd/generate/generate.go:131-221 generateTopoDetails] *)
Definition gen_documents (topo : RawTopology) : result (list TObject) :=
  let nodes := (fun '(nodeName, n) => TNode (gen_node topo nodeName n)) <$> map_to_list (rts_Nodes (spec topo)) in
  '(links, endpoints) ← fold_result (fun l '(links, endpoints) =>
      let ls := gen_link_labels topo l in
      let endpoints := endpoints ++ ((fun e => TEndpoint (gen_endpoint topo ls e)) <$> ls_Endpoints l) in
      link ← gen_link topo ls l;
      Ok (links ++ [TLink link], endpoints)) (rts_Links (spec topo)) ([], []);
  Ok (nodes ++ links ++ endpoints).

(** [cmd/generate/generate.go:131-245 generateTopoDetails] *)
Definition generateTopoDetails (topo : RawTopology) : M (list string) unit :=
  docs ← lift (gen_documents topo);
  forM docs (fun o =>
    b ← lift (Marshal o);
    modify (fun out => out ++ [b])).

(** [errors.Wrap] of the error of a call before the rest of the command. *)
Definition or_wrap {A} (r : result A) (msg : string) (f : A -> M (list string) unit) : M (list string) unit :=
  match r with
  | Ok a => f a
  | Err e => match Wrap (Some e) msg with Some e => throw e | None => mret tt end
  | Panic => panic
  end.

(** [cmd/generate/generate.go:62-83 Runner.runE] *)
Definition runE (TopologyPath : string) : M (list string) unit :=
  or_wrap (ReadFile TopologyPath) "cannot read topology yaml file" (fun b =>
  or_wrap (Unmarshal b) "cannot unmarshal topology yaml file" (fun topo =>
    match gen_validate topo with
    | Some e => throw e
    | None => generateTopoDetails topo
    end)).

(** ** Equivalence with the validation of the controller *)

Lemma foldl_bind {A B C} (f : C -> B -> C) (g : A -> list B) l : forall acc,
  foldl (fun acc x => foldl f acc (g x)) acc l = foldl f acc (l ≫= g).
Proof. induction l as [|x l IH]; intros acc; [done|]. cbn. by rewrite foldl_app, IH. Qed.

Lemma foldl_missing (nodes : gmap string NodeSpec) l : forall acc,
  foldl (fun acc e => match nodes !! eps_NodeName (les_EndpointSpec e) with None => acc ++ [ep_string e] | Some _ => acc end) acc l =
  acc ++ (ep_string <$> filter (fun e => nodes !! eps_NodeName (les_EndpointSpec e) = None) l).
Proof.
  induction l as [|x l IH]; intros acc; [by rewrite app_nil_r|]. cbn [foldl]. rewrite IH, filter_cons.
  destruct (nodes !! _); case_decide; [done..| |done]. by rewrite <-app_assoc.
Qed.

Lemma foldl_duplicates (l : list LinkEndpointSpec) : forall (seen : gset string) dups,
  (foldl (fun '(endpoints, dups) e =>
      ({[ep_string e]} ∪ endpoints, if bool_decide (ep_string e ∈ endpoints) then dups ++ [ep_string e] else dups))
    (seen, dups) l).2 = dups ++ duplicates (ep_string <$> l) seen.
Proof.
  induction l as [|e l IH]; intros seen dups; [by rewrite app_nil_r|]. cbn [foldl fmap list_fmap duplicates]. rewrite IH.
  case_bool_decide; [by rewrite <-app_assoc|done].
Qed.

Lemma report_nonempty (l : list string) (f : list string -> string) :
  (if bool_decide (length l <> 0%nat) then Some (f l) else None) = match l with [] => None | _ => Some (f l) end.
Proof. by destruct l. Qed.

Lemma gen_validate_eq topo : gen_validate topo = validate topo.
Proof.
  unfold gen_validate, validate. replace (gen_validateLink2Nodes topo) with (validateLink2Nodes topo).
  2:{ unfold gen_validateLink2Nodes, validateLink2Nodes. rewrite foldl_bind.
      rewrite foldl_missing. symmetry.
      apply (report_nonempty _ (fun l => "endpoints " +:+ quote_all l +:+ " has no node reference")). }
  replace (gen_validateLinks topo) with (validateLinks topo); [done|].
  unfold gen_validateLinks, validateLinks. rewrite foldl_bind.
  pose proof (foldl_duplicates (link_ends topo) ∅ []) as Hd. unfold link_ends in Hd. cbn [app] in Hd.
  destruct (foldl _ _ _) as [seen dups]. cbn [snd] in Hd. rewrite Hd. unfold link_ends. by destruct (duplicates _ _).
Qed.

(** ** What is printed *)

(** The link has the two ends that its name is made of. *)
Definition has_two (l : LinkSpec) : bool := bool_decide (2 <= length (ls_Endpoints l))%nat.

Lemma gen_link_total topo ls l : if has_two l then exists a b,
    ls_Endpoints l !! 0%nat = Some a /\ ls_Endpoints l !! 1%nat = Some b /\
    gen_link topo ls l = Ok (BuildLink (new_meta (link_name a b) (GetNamespace topo) (Some ls))
      (MkLinkSpec ((fun e => MkLinkEndpointSpec "" (gen_end e)) <$> ls_Endpoints l)) no_conditions)
  else gen_link topo ls l = Panic.
Proof.
  unfold has_two, gen_link. destruct l as [[|a [|b r]]]; cbn [length ls_Endpoints]; [done..|].
  rewrite bool_decide_true by lia. exists a, b. split; [done|]. split; [done|]. by destruct a as [? []], b as [? []].
Qed.

(** The documents of the links, in order. *)
Definition gen_links_of (topo : RawTopology) (ls : list LinkSpec) : list TObject :=
  ls ≫= fun l => match gen_link topo (gen_link_labels topo l) l with Ok k => [TLink k] | _ => [] end.
Definition gen_endpoints_of (topo : RawTopology) (ls : list LinkSpec) : list TObject :=
  ls ≫= fun l => (fun e => TEndpoint (gen_endpoint topo (gen_link_labels topo l) e)) <$> ls_Endpoints l.

Lemma gen_loop topo ls : forall acc1 acc2,
  fold_result (fun l '(links, endpoints) =>
      link ← gen_link topo (gen_link_labels topo l) l;
      Ok (links ++ [TLink link], endpoints ++ ((fun e => TEndpoint (gen_endpoint topo (gen_link_labels topo l) e)) <$> ls_Endpoints l)))
    ls (acc1, acc2) =
  if forallb has_two ls then
    Ok (acc1 ++ gen_links_of topo ls, acc2 ++ gen_endpoints_of topo ls)
  else Panic.
Proof.
  induction ls as [|l ls IH]; intros acc1 acc2; cbn [fold_result forallb].
  { cbn. by rewrite !app_nil_r. }
  pose proof (gen_link_total topo (gen_link_labels topo l) l) as Hl. destruct (has_two l); cbn [andb].
  - destruct Hl as (a & b & _ & _ & Hk). unfold gen_links_of, gen_endpoints_of. rewrite !bind_cons, Hk. cbn [mbind result_bind].
    rewrite IH. destruct (forallb _ ls); [|done]. by rewrite <-!app_assoc.
  - by rewrite Hl.
Qed.

Definition gen_nodes_of (topo : RawTopology) : list TObject :=
  (fun '(nodeName, n) => TNode (gen_node topo nodeName n)) <$> map_to_list (rts_Nodes (spec topo)).

Lemma gen_documents_eq topo : gen_documents topo =
  if forallb has_two (rts_Links (spec topo)) then
    Ok (gen_nodes_of topo ++ gen_links_of topo (rts_Links (spec topo)) ++ gen_endpoints_of topo (rts_Links (spec topo)))
  else Panic.
Proof.
  unfold gen_documents. cbn zeta. rewrite gen_loop. by destruct (forallb _ _).
Qed.

(** When the library can print every document, all are printed in order. *)
Lemma print_all (docs : list TObject) : (forall o, exists b, Marshal o = Ok b) -> forall out,
  exists bs, Forall2 (fun o b => Marshal o = Ok b) docs bs /\
    forM docs (fun o => b ← lift (Marshal o); modify (fun out => out ++ [b])) out = (out ++ bs, Ok tt).
Proof.
  intros Hm. induction docs as [|o docs IH]; intros out.
  { exists []. split; [constructor|]. by rewrite app_nil_r. }
  destruct (Hm o) as [b Hb]. destruct (IH (out ++ [b])) as (bs & Hbs & Hrun). exists (b :: bs). split; [by constructor|].
  cbn [forM]. unfold mbind, M_bind, lift, modify in *. rewrite Hb. rewrite Hrun. by rewrite <-app_assoc.
Qed.

(** The ends of links of the documents. *)
Lemma elem_of_gen_links topo ls (k : Link) : TLink k ∈ gen_links_of topo ls -> exists l, l ∈ ls /\
  ls_Endpoints (spec k) = (fun e => MkLinkEndpointSpec "" (gen_end e)) <$> ls_Endpoints l.
Proof.
  unfold gen_links_of. intros (l & Hd & Hl)%list_elem_of_bind. exists l. split; [done|].
  pose proof (gen_link_total topo (gen_link_labels topo l) l) as Ht. destruct (has_two l).
  - destruct Ht as (a & b & _ & _ & Hk). rewrite Hk in Hd. apply list_elem_of_singleton in Hd. by injection Hd as ->.
  - rewrite Ht in Hd. by apply elem_of_nil in Hd.
Qed.

Lemma elem_of_gen_endpoints topo ls l e : l ∈ ls -> e ∈ ls_Endpoints l ->
  TEndpoint (gen_endpoint topo (gen_link_labels topo l) e) ∈ gen_endpoints_of topo ls.
Proof.
  intros Hl He. unfold gen_endpoints_of. apply list_elem_of_bind. exists l. split; [|done].
  apply (list_elem_of_fmap_2 (fun e => TEndpoint (gen_endpoint topo (gen_link_labels topo l) e))). exact He.
Qed.

Lemma elem_of_gen_nodes topo name n : rts_Nodes (spec topo) !! name = Some n -> TNode (gen_node topo name n) ∈ gen_nodes_of topo.
Proof.
  intros Hn. unfold gen_nodes_of. apply (list_elem_of_fmap_2 (fun '(nodeName, n) => TNode (gen_node topo nodeName n)) _ (name, n)).
  by apply elem_of_map_to_list.
Qed.

Lemma gen_links_length topo ls : forallb has_two ls = true -> length (gen_links_of topo ls) = length ls.
Proof.
  unfold gen_links_of. induction ls as [|l ls IH]; [done|]. cbn [forallb]. intros [Hl Hls]%andb_prop. rewrite bind_cons, length_app, IH by done.
  pose proof (gen_link_total topo (gen_link_labels topo l) l) as Ht. rewrite Hl in Ht. by destruct Ht as (a & b & _ & _ & ->).
Qed.

Lemma gen_endpoints_length topo ls : length (gen_endpoints_of topo ls) = length (ls ≫= ls_Endpoints).
Proof.
  unfold gen_endpoints_of. induction ls as [|l ls IH]; [done|]. by rewrite !bind_cons, !length_app, length_fmap, IH.
Qed.

(** The documents of a topology whose links have two ends. *)
Definition documents_of (topo : RawTopology) : list TObject :=
  gen_nodes_of topo ++ gen_links_of topo (rts_Links (spec topo)) ++ gen_endpoints_of topo (rts_Links (spec topo)).

Lemma elem_of_documents_link topo (k : Link) : TLink k ∈ documents_of topo -> TLink k ∈ gen_links_of topo (rts_Links (spec topo)).
Proof.
  unfold documents_of. intros [Hn|[Hl|He]%elem_of_app]%elem_of_app; [|done|].
  - unfold gen_nodes_of in Hn. apply list_elem_of_fmap in Hn as ([name n] & [=] & _).
  - unfold gen_endpoints_of in He. apply list_elem_of_bind in He as (l & (e & [=] & _)%list_elem_of_fmap & _).
Qed.

(** C33. The topology generator, on a file it can read and with a library that prints every
    object. A topology the validation of the controller rejects is rejected with the same
    error and nothing is printed; a link with fewer than two ends makes the command panic
    before it prints; otherwise one document per node, link and end of a link is printed,
    every end of a printed link is a printed endpoint, and its node is a printed node. *)
Theorem generate_outcome path b topo out :
  ReadFile path = Ok b -> Unmarshal b = Ok topo -> (forall o, exists d, Marshal o = Ok d) ->
  exists bs, Forall2 (fun o b => Marshal o = Ok b) (documents_of topo) bs /\
    runE path out =
      match validate topo with
      | Some e => (out, Err e)
      | None => if forallb has_two (rts_Links (spec topo)) then (out ++ bs, Ok tt) else (out, Panic)
      end /\
    (validate topo = None -> forallb has_two (rts_Links (spec topo)) = true ->
      length bs = (size (rts_Nodes (spec topo)) + length (rts_Links (spec topo)) + length (link_ends topo))%nat /\
      forall (k : Link) e, TLink k ∈ documents_of topo -> e ∈ ls_Endpoints (spec k) ->
        exists (ep : Endpoint) (n : Node), TEndpoint ep ∈ documents_of topo /\ spec ep = les_EndpointSpec e /\
          TNode n ∈ documents_of topo /\ GetName n = eps_NodeName (les_EndpointSpec e)).
Proof.
  intros Hr Hu Hm. destruct (print_all (documents_of topo) Hm out) as (bs & Hbs & Hrun). exists bs. split; [done|]. split.
  - unfold runE, or_wrap. rewrite Hr, Hu, gen_validate_eq. destruct (validate topo); [done|].
    unfold generateTopoDetails. rewrite gen_documents_eq. destruct (forallb _ _); [|done]. exact Hrun.
  - intros Hv Htwo. apply Forall2_length in Hbs. split.
    + rewrite <-Hbs. unfold documents_of. rewrite !length_app, gen_links_length, gen_endpoints_length by done.
      unfold gen_nodes_of. rewrite length_fmap, length_map_to_list. unfold link_ends. lia.
    + intros k e Hk%elem_of_documents_link He. apply elem_of_gen_links in Hk as (l & Hl & Hends).
      rewrite Hends in He. apply list_elem_of_fmap in He as (e' & -> & He').
      assert (Hnode : is_Some (rts_Nodes (spec topo) !! eps_NodeName (les_EndpointSpec e'))).
      { unfold validate in Hv. destruct (validateLink2Nodes topo) eqn:Hv2; [done|]. apply (proj1 (validateLink2Nodes_exact topo) Hv2).
        unfold link_ends. apply list_elem_of_bind. by exists l. }
      destruct Hnode as [n Hn]. exists (gen_endpoint topo (gen_link_labels topo l) e'), (gen_node topo (eps_NodeName (les_EndpointSpec e')) n).
      split; [unfold documents_of; apply elem_of_app; right; apply elem_of_app; right; by apply elem_of_gen_endpoints|].
      split; [done|]. split; [|done]. unfold documents_of. apply elem_of_app. left. by apply elem_of_gen_nodes.
Qed.

End Generate.

(** ** A topology of two nodes *)

Definition test_end (node itf : string) : LinkEndpointSpec := MkLinkEndpointSpec "" (MkEndpointSpec itf node None).
Definition test_topology (links : list LinkSpec) : RawTopology :=
  build topo_GroupVersion RawTopologyKind (new_meta "t" "fab" None)
    (MkRawTopologySpec (list_to_map ((fun n => (n, MkNodeSpec "srl" None (MkUserDefinedLabels None) None None)) <$> ["a"; "a-b"])) links
      (MkUserDefinedLabels None) None) no_conditions.
Definition two_ended : RawTopology := test_topology [MkLinkSpec [test_end "a" "b-c"; test_end "a-b" "c"]].

(** Two endpoints the validation tells apart get the same name. *)
Lemma generated_names_collide : validate two_ended = None /\
  exists ls, gen_endpoint two_ended ls (test_end "a" "b-c") <> gen_endpoint two_ended ls (test_end "a-b" "c") /\
    GetName (gen_endpoint two_ended ls (test_end "a" "b-c")) = GetName (gen_endpoint two_ended ls (test_end "a-b" "c")).
Proof. split; [vm_compute; reflexivity|]. exists ∅. split; [|reflexivity]. intros [=]. Qed.

(** A link with one end is accepted, and the command panics. *)
Lemma generate_short_link : validate (test_topology [MkLinkSpec [test_end "a" "x"]]) = None /\
  gen_documents (test_topology [MkLinkSpec [test_end "a" "x"]]) = Panic.
Proof. split; vm_compute; reflexivity. Qed.

#[local] Instance gen_errors : ErrorsAPI := {
  Wrap e m := match e with Some e => Some (m +:+ ": " +:+ e) | None => None end;
  IsNotFound e := bool_decide (e = "not found")
}.

(** The command on a file that holds the topology of two nodes and a link. *)
Lemma generate_outcome_witness : exists bs,
  runE (fun _ => Ok "") (fun _ => Ok two_ended) (fun o => Ok (om_Name (t_meta o))) "topo.yaml" [] = (bs, Ok tt) /\ length bs = 5%nat.
Proof.
  destruct (generate_outcome (fun _ => Ok "") (fun _ => Ok two_ended) (fun o => Ok (om_Name (t_meta o))) "topo.yaml" "" two_ended []
    eq_refl eq_refl (fun o => ex_intro _ _ eq_refl)) as (bs & _ & Hrun & Hlen).
  exists bs. split.
  - rewrite Hrun. vm_compute. reflexivity.
  - destruct Hlen as [Hlen _]; [vm_compute; reflexivity|vm_compute; reflexivity|]. rewrite Hlen. vm_compute. reflexivity.
Defined.
