(* ===== verification/TopoWitness.v ===== *)
(** * The topology controllers at concrete inputs

    An API server in memory that serves leases, endpoints and the objects of a topology,
    at which the theorems on leases, selection, resources and controllers are applied. *)

From S2P Require Import Prelude Strconv Meta Labels Conditions KRM Backend TestWorld Reconciler ControllerWitness Inventory Lease Endpoints Selection Resources TopoControllers TopoProps TopoClaims.

Local Open Scope Z_scope.
#[local] Existing Instance list_labels.
#[local] Existing Instance test_errors_laws.

(** ** A server of leases

    The writes, the last one first; the version of a write is its position. *)

Section LeaseServer.
Context {W : Type} (get : W -> list Lease) (put : list Lease -> W -> W).
Context (get_put : forall m w, get (put m w) = m).

Definition version_at (i : nat) : string := "v" +:+ pretty i.
Fixpoint served (h : list Lease) : gmap NamespacedName Lease :=
  match h with
  | [] => ∅
  | l :: h => <[krm_nsn l := stored (version_at (length h)) l]> (served h)
  end.
Definition lease_view (w : W) : gmap NamespacedName Lease := served (get w).
Definition lease_versions (w : W) : gset string := list_to_set (version_at <$> seq 0 (length (get w))).

Definition write_lease (l : Lease) : M W Lease := fun w =>
  (put (l :: get w) w, Ok (stored (version_at (length (get w))) l)).

Definition lease_server : LeaseClient W := {|
  lc_Get k w := match lease_view w !! k with Some l => Ok l | None => Err "not found" end;
  lc_Create l w := match lease_view w !! krm_nsn l with Some _ => (w, Err "exists") | None => write_lease l w end;
  lc_Update l w :=
    match lease_view w !! krm_nsn l with
    | Some old => if bool_decide (lease_version l = lease_version old) then write_lease l w else (w, Err "conflict")
    | None => (w, Err "not found")
    end
|}.

Lemma version_at_inj i j : version_at i = version_at j -> i = j.
Proof. intros [= H]. by apply (inj pretty). Qed.

Lemma served_version h : forall k l, served h !! k = Some l ->
  exists i, (i < length h)%nat /\ lease_version l = version_at i.
Proof.
  induction h as [|x h IH]; intros k l; cbn [served]; [by rewrite lookup_empty|]. rewrite lookup_insert. case_decide.
  - intros [= <-]. exists (length h). split; [cbn; lia|done].
  - intros Hl. destruct (IH _ _ Hl) as (i&Hi&Hv). exists i. split; [cbn; lia|done].
Qed.

Lemma write_writes l w w' o : write_lease l w = (w', o) -> writes lease_view lease_versions l w w' o.
Proof.
  intros [= <- <-]. right. exists (version_at (length (get w))). unfold lease_versions, lease_view. rewrite get_put. split_and!.
  - intros (i&Hi&Hin)%elem_of_list_to_set%list_elem_of_fmap. apply version_at_inj in Hi. apply elem_of_seq in Hin. lia.
  - done.
  - done.
  - cbn [length]. rewrite seq_S, fmap_app, list_to_set_app_L. cbn. rewrite (right_id_L ∅ union). apply union_comm_L.
  - by intros x [= <-].
Qed.

Lemma lease_server_laws : LeaseLaws lease_server lease_view lease_versions.
Proof.
  assert (Hno : forall l w o, (forall x, o <> Ok x) -> writes lease_view lease_versions l w w o) by (intros; by left).
  split; cbn [lease_server lc_Get lc_Create lc_Update].
  - by intros s k l ->.
  - intros s k ->. by exists "not found".
  - intros s k l Hl. apply served_version in Hl as (i&Hi&->). split; [|done].
    apply elem_of_list_to_set, list_elem_of_fmap. exists i. split; [done|]. apply elem_of_seq. lia.
  - intros l s s' o. destruct (lease_view s !! krm_nsn l); [intros [= <- <-]; by apply Hno|apply write_writes].
  - intros l s s' o. intros Hw [x Hx]. rewrite Hx in Hw. by injection Hw as <-.
  - intros l s s' o. destruct (lease_view s !! krm_nsn l); [|intros [= <- <-]; by apply Hno].
    destruct (bool_decide _); [apply write_writes|intros [= <- <-]; by apply Hno].
  - intros l s s' o. destruct (lease_view s !! krm_nsn l) as [old|]; [|intros [= <- _] _; by left].
    case_bool_decide as Hv; [|intros [= <- _] _; by left]. intros _ _. right. by exists old.
Qed.

End LeaseServer.

(** *** Two controllers *)

Definition history_server : LeaseClient (list Lease) := lease_server (fun h => h) (fun m _ => m).
#[local] Instance history_laws : LeaseLaws history_server (lease_view (fun h => h)) (lease_versions (fun h => h)).
Proof. by apply lease_server_laws. Qed.

Definition ep_lease : lease := lease_New (NSN "default" "endpoint").
Definition holder_object (kind name : string) : Object :=
  MkObject (GVK "inv.nephio.org" "v1alpha1" kind) (new_meta name "default" None).

(** A link creates the lease and takes it, a logical interconnect asks while it is held,
    and takes it two seconds later. *)
Definition two_controllers : list action :=
  [Start 0 (holder_object "Link" "a")] ++ replicate 7 (Run 0) ++
  [Start 1 (holder_object "LogicalInterconnect" "b")] ++ replicate 3 (Run 1) ++
  [Wait RequeueInterval; Start 2 (holder_object "LogicalInterconnect" "b")] ++ replicate 5 (Run 2).

Lemma two_controllers_log : y_log <$> schedule history_server ep_lease two_controllers (lease_init [] 5000000000) =
  Some [("link.default.a", 5000000000); ("logicalinterconnect.default.b", 7000000000)].
Proof. vm_compute. reflexivity. Qed.

(** The two holders of the lease in that run. *)
Lemma lease_exclusive_witness : exists y,
  rtc (lease_step history_server (lease_view (fun h => h)) (lease_versions (fun h => h)) ep_lease) (lease_init [] 5000000000) y /\
  y_log y = [("link.default.a", 5000000000); ("logicalinterconnect.default.b", 7000000000)] /\
  5000000000 + defaultLeaseInterval <= 7000000000.
Proof.
  pose proof two_controllers_log as Hlog.
  destruct (schedule history_server ep_lease two_controllers (lease_init [] 5000000000)) as [y|] eqn:Hy; [|discriminate Hlog].
  injection Hlog as Hlog.
  assert (Hsteps : rtc (lease_step history_server (lease_view (fun h => h)) (lease_versions (fun h => h)) ep_lease)
    (lease_init [] 5000000000) y) by exact (schedule_steps _ _ _ _ _ _ _ Hy).
  exists y. split; [exact Hsteps|]. split; [exact Hlog|].
  apply (lease_exclusive history_server (lease_view (fun h => h)) (lease_versions (fun h => h)) ep_lease [] 5000000000 y)
    with (i := 0%nat) (j := 1%nat) (h1 := "link.default.a") (h2 := "logicalinterconnect.default.b").
  - intros l Hl. discriminate Hl.
  - exact Hsteps.
  - lia.
  - rewrite Hlog. reflexivity.
  - rewrite Hlog. reflexivity.
  - discriminate.
Defined.

(** ** A server of the objects of a topology *)

Record tworld : Type := MkTWorld {
  tw_eps : gmap NamespacedName Endpoint;
  tw_links : gmap NamespacedName Link;
  tw_lics : gmap NamespacedName LogicalInterconnect;
  tw_topos : gmap NamespacedName RawTopology;
  tw_nodes : gmap NamespacedName Node;
  tw_objs : gmap ObjectReference TObject;
  tw_leases : list Lease
}.

Definition put_eps m w := MkTWorld m (tw_links w) (tw_lics w) (tw_topos w) (tw_nodes w) (tw_objs w) (tw_leases w).
Definition put_links m w := MkTWorld (tw_eps w) m (tw_lics w) (tw_topos w) (tw_nodes w) (tw_objs w) (tw_leases w).
Definition put_lics m w := MkTWorld (tw_eps w) (tw_links w) m (tw_topos w) (tw_nodes w) (tw_objs w) (tw_leases w).
Definition put_topos m w := MkTWorld (tw_eps w) (tw_links w) (tw_lics w) m (tw_nodes w) (tw_objs w) (tw_leases w).
Definition put_nodes m w := MkTWorld (tw_eps w) (tw_links w) (tw_lics w) (tw_topos w) m (tw_objs w) (tw_leases w).
Definition put_objs m w := MkTWorld (tw_eps w) (tw_links w) (tw_lics w) (tw_topos w) (tw_nodes w) m (tw_leases w).
Definition put_leases m w := MkTWorld (tw_eps w) (tw_links w) (tw_lics w) (tw_topos w) (tw_nodes w) (tw_objs w) m.

(** The objects that are stored under their name, with the given labels. *)
Definition list_of {A B} (m : gmap NamespacedName (KRM A B)) (ls : labels) : list (KRM A B) :=
  (filter (fun x => x.1 = krm_nsn x.2 /\ ls ⊆ krm_labels x.2) (map_to_list m)).*2.
Definition list_in {A B} (m : gmap NamespacedName (KRM A B)) (ls : labels) (namespace : string) : list (KRM A B) :=
  filter (fun x => GetNamespace x = namespace) (list_of m ls).

(** The endpoints that are stored under their name. *)
Definition teps (w : tworld) : gmap NamespacedName Endpoint := filter (fun x => krm_nsn x.2 = x.1) (tw_eps w).
Definition tobjs (w : tworld) : gmap ObjectReference TObject := filter (fun x => getCoreRef (t_Object x.2) = x.1) (tw_objs w).
Definition list_objs (gvk : GroupVersionKind) (ls : labels) (w : tworld) : list Object :=
  (fun x => t_Object x.2) <$> filter (fun x => o_GVK (t_Object x.2) = gvk /\ ls ⊆ meta_labels (t_meta x.2)) (map_to_list (tobjs w)).

Definition as_selector (s : option MetaLabelSelector) : result Selector :=
  match s with
  | None => Ok [("", "0"); ("", "1")]
  | Some (MkMetaLabelSelector m []) => Ok (map_to_list m)
  | Some _ => Err "not supported"
  end.

Definition test_topo : TopoAPI tworld unit := {|
  ta_LabelSelectorAsSelector := as_selector;
  ta_LabelSelector_String s := "";
  ta_sort_Slice := merge_sort by_interface;
  ta_print_endpoints l := String.concat " " (GetName <$> l);
  ta_print_ref r := match r with Some r => ref_Name r | None => "<nil>" end;
  ta_endpoints := mem_client teps put_eps;
  ta_List_endpoints ls w := Ok (list_of (tw_eps w) ls);
  ta_links := mem_client tw_links put_links;
  ta_List_links ns w := Ok (list_in (tw_links w) ∅ ns);
  ta_interconnects := mem_client tw_lics put_lics;
  ta_List_interconnects ns w := Ok (list_in (tw_lics w) ∅ ns);
  ta_topologies := mem_client tw_topos put_topos;
  ta_nodes := mem_client tw_nodes put_nodes;
  ta_List_nodes ls ns w := Ok (list_in (tw_nodes w) ls ns);
  ta_Apply_node n w := (put_nodes (<[krm_nsn n := n]> (tw_nodes w)) w, n, None);
  ta_List gvk ls w := Ok (list_objs gvk ls w);
  ta_Delete o w := match tobjs w !! getCoreRef o with
                   | Some _ => (put_objs (delete (getCoreRef o) (tw_objs w)) w, Ok tt)
                   | None => (w, Err "not found")
                   end;
  ta_Apply t w := (put_objs (<[getCoreRef (t_Object t) := t]> (tw_objs w)) w, Ok tt);
  ta_leases := lease_server tw_leases put_leases;
  ta_AddFinalizer _ _ c f := krm_AddFinalizer c f;
  ta_RemoveFinalizer _ _ c f := krm_RemoveFinalizer c f;
  ta_NewNodeOfProvider p := Err ("provider not found: " +:+ p)
|}.

Lemma list_of_elem {A B} (m : gmap NamespacedName (KRM A B)) ls x :
  x ∈ list_of m ls <-> m !! krm_nsn x = Some x /\ ls ⊆ krm_labels x.
Proof.
  unfold list_of. rewrite list_elem_of_fmap. split.
  - intros ([k y]&->&Hx). apply list_elem_of_filter in Hx as [[Hk Hls] Hin]. cbn in *. subst k.
    by apply elem_of_map_to_list in Hin.
  - intros [Hm Hls]. exists (krm_nsn x, x). split; [done|]. apply list_elem_of_filter. split; [done|]. by apply elem_of_map_to_list.
Qed.

Lemma list_of_NoDup {A B} (m : gmap NamespacedName (KRM A B)) ls : NoDup (krm_nsn <$> list_of m ls).
Proof.
  unfold list_of. rewrite <-list_fmap_compose. apply NoDup_fmap_2_strong; [|apply NoDup_filter, NoDup_map_to_list].
  intros [k x] [k' y] [[Hk _] Hx%elem_of_map_to_list]%list_elem_of_filter [[Hk' _] Hy%elem_of_map_to_list]%list_elem_of_filter Heq.
  cbn in *. congruence.
Qed.

Lemma matches_subseteq (m ls : labels) :
  forallb (fun '(k, v) => bool_decide (ls !! k = Some v)) (map_to_list m) = bool_decide (m ⊆ ls).
Proof.
  destruct (bool_decide_reflect (m ⊆ ls)) as [Hs|Hs].
  - apply forallb_forall. intros [k v] Hin%list_elem_of_In%elem_of_map_to_list. apply bool_decide_eq_true. by eapply lookup_weaken.
  - apply not_true_iff_false. intros H. apply Hs, map_subseteq_spec. intros k v Hk. rewrite forallb_forall in H.
    specialize (H (k, v)). rewrite <-list_elem_of_In, elem_of_map_to_list, bool_decide_eq_true in H. by apply H.
Qed.

Lemma teps_lookup w k e : teps w !! k = Some e <-> tw_eps w !! k = Some e /\ krm_nsn e = k.
Proof. unfold teps. by rewrite map_lookup_filter_Some. Qed.

Lemma teps_keyed w m : (forall k e, m !! k = Some e -> krm_nsn e = k) -> teps (put_eps m w) = m.
Proof.
  intros Hm. apply map_eq. intros k. apply option_eq. intros x. rewrite teps_lookup. split; [by intros [? _]|].
  intros Hx. split; [exact Hx|by apply Hm].
Qed.

Lemma teps_put w e : teps (put_eps (<[krm_nsn e := e]> (teps w)) w) = <[krm_nsn e := e]> (teps w).
Proof.
  apply teps_keyed. intros k x [[<- <-]|[_ Hx]]%lookup_insert_Some; [done|by apply teps_lookup in Hx as [_ ?]].
Qed.

Lemma teps_delete w k : teps (put_eps (delete k (teps w)) w) = delete k (teps w).
Proof. apply teps_keyed. intros j x [_ Hx]%lookup_delete_Some. by apply teps_lookup in Hx as [_ ?]. Qed.

#[local] Instance test_topo_laws : TopoLaws test_topo teps.
Proof.
  split.
  - split; cbn [ta_endpoints test_topo mem_client crc_Get crc_StatusUpdate crc_Update].
    + intros w k cr ->. done.
    + intros w k ->. by exists "not found".
    + intros w cr old Hold Hv. eexists _, (version old +:+ "+"). unfold mem_write.
      rewrite Hold, bool_decide_eq_true_2 by done. split; [reflexivity|]. apply teps_lookup in Hold as [_ Hk]. rewrite <-Hk.
      exact (teps_put w (bump _ (MkKRM (krm_Object old) (spec old) (status cr)))).
    + intros w cr old Hold Hv _. eexists _, (version old +:+ "+"). unfold mem_write.
      rewrite Hold, bool_decide_eq_true_2 by done. split; [reflexivity|]. destruct (WasDeleted _ && _); [apply teps_delete|].
      exact (teps_put w (bump _ (MkKRM (krm_Object cr) (spec cr) (status old)))).
  - intros ls w l [= <-]. split; [apply list_of_NoDup|]. intros x. split.
    + intros [H1 H2]%list_of_elem. split; [by apply teps_lookup|exact H2].
    + intros [[H1 _]%teps_lookup H2]. by apply list_of_elem.
  - intros l. apply merge_sort_Permutation.
  - intros m sel ls [= <-]. apply matches_subseteq.
  - done.
  - done.
Qed.

Lemma tobjs_lookup w k t : tobjs w !! k = Some t <-> tw_objs w !! k = Some t /\ getCoreRef (t_Object t) = k.
Proof. unfold tobjs. by rewrite map_lookup_filter_Some. Qed.

#[local] Instance test_res_laws : ResLaws (ta_List test_topo) (ta_Delete test_topo) (ta_Apply test_topo) tobjs.
Proof.
  split; cbn [ta_List ta_Delete ta_Apply test_topo].
  - by intros w k t [_ ?]%tobjs_lookup.
  - intros w gvk ls l [= <-] o. unfold list_objs. rewrite list_elem_of_fmap. split.
    + intros ([k t]&->&Hin). apply list_elem_of_filter in Hin as [[Hg Hls] Hin%elem_of_map_to_list]. cbn in *. exists t.
      pose proof Hin as [_ <-]%tobjs_lookup. by split_and!.
    + intros (t&Ht&<-&Hg&Hls). exists (getCoreRef (t_Object t), t). split; [done|]. apply list_elem_of_filter.
      split; [done|]. by apply elem_of_map_to_list.
  - intros w w' o. destruct (tobjs w !! getCoreRef o); [|done]. intros [= <-]. unfold leaving, tobjs. cbn [tw_objs put_objs].
    rewrite map_filter_delete, lookup_delete_eq. split; [done|]. intros k Hk. by rewrite lookup_delete_ne.
  - intros w w' o e. destruct (tobjs w !! getCoreRef o) eqn:Ho; [done|]. by intros [= <- <-].
  - intros w w' t [= <-]. exists t. split; [|by split_and!]. unfold tobjs. cbn [tw_objs put_objs].
    by rewrite map_filter_insert_True.
Qed.

(** ** Samples

    A fabric of two nodes with two interfaces each. *)

Definition fab_node (name : string) : Node :=
  BuildNode (new_meta name "fab" None) (MkNodeSpec "srl" None (MkUserDefinedLabels None) None None)
    (MkNodeStatus no_conditions None None).
Definition fab_ep (node itfce : string) (i : Z) : Endpoint := buildEndpoint (fab_node node) (MkNodeModelInterface itfce None) i.
Definition keyed {A B} (l : list (KRM A B)) : gmap NamespacedName (KRM A B) := list_to_map ((fun x => (krm_nsn x, x)) <$> l).
Definition fab_eps : list Endpoint := [fab_ep "n1" "e1" 0; fab_ep "n1" "e2" 1; fab_ep "n2" "e1" 0; fab_ep "n2" "e2" 1].

Definition fab_end (node itfce : string) : LinkEndpointSpec := MkLinkEndpointSpec "fab" (MkEndpointSpec itfce node None).
Definition fab_link (name : string) (a b : LinkEndpointSpec) : Link :=
  BuildLink (new_meta name "fab" None) (MkLinkSpec [a; b]) no_conditions.
Definition link_1 : Link := fab_link "l1" (fab_end "n1" "e1") (fab_end "n2" "e1").

Definition fab_lic (name : string) (links : Z) (a b : LogicalInterconnectEndpoint) : LogicalInterconnect :=
  build topo_GroupVersion LogicalInterconnectKind (new_meta name "fab" None)
    (MkLogicalInterconnectSpec links None None [a; b] (MkUserDefinedLabels None)) no_conditions.
Definition on_node (node : string) : LogicalInterconnectEndpoint :=
  MkLogicalInterconnectEndpoint None ["fab"] (Some (MkMetaLabelSelector {[NephioInventoryNodeNameKey := node]} [])) None.
Definition diverse : LogicalInterconnectEndpoint :=
  MkLogicalInterconnectEndpoint None ["fab"] (Some (MkMetaLabelSelector ∅ [])) (Some (MkSelectorPolicy (Some 2))).

Definition tworld_0 : tworld := MkTWorld (keyed fab_eps) {[krm_nsn link_1 := link_1]} ∅ ∅ ∅ ∅ [].
Definition svc_0 : topo_svc := MkTopoSvc ∅ [] ∅ ∅ ∅.

(** The claims, by the name of the endpoint. *)
Definition claims (w : tworld) : list (string * string) :=
  (fun e => (GetName e, match claim_ref e with Some r => ref_Name r | None => "" end)) <$> (map_to_list (tw_eps w)).*2.
Definition is_claimed (w : tworld) (name by_ : string) : bool := bool_decide ((name, by_) ∈ claims w).

(** A link claims its endpoints, a second link that names one of them fails and does not
    get the other, and the deletion of the first link sets its endpoints free. *)
Example link_run :
  let link_2 := fab_link "l2" (fab_end "n1" "e2") (fab_end "n2" "e1") in
  let w0 := put_links (keyed [link_1; link_2]) tworld_0 in
  let reconcile_link now l s := link_Reconcile now test_topo ep_lease (krm_nsn l) s in
  let '(s1, r1) := reconcile_link 5000000000 link_1 (svc_0, w0) in
  let '(s2, r2) := reconcile_link 9000000000 link_2 s1 in
  let '(s3, r3) := reconcile_link 15000000000 link_1 (s2.1, put_links (mark_deleted <$> tw_links s2.2) s2.2) in
  (r1, [is_claimed s1.2 "n1-e1" "l1"; is_claimed s1.2 "n2-e1" "l1"],
   r2, [is_claimed s2.2 "n1-e1" "l1"; is_claimed s2.2 "n1-e2" ""; is_claimed s2.2 "n2-e1" "l1"],
   r3, [is_claimed s3.2 "n1-e1" ""; is_claimed s3.2 "n2-e1" ""], bool_decide (tw_links s3.2 !! krm_nsn link_1 = None)) =
  (Ok no_requeue, [true; true], Ok requeue, [true; true; true], Ok no_requeue, [true; true], true).
Proof. vm_compute. reflexivity. Qed.

(** ** Selections *)

Abbreviation test_select := (selectEndpoints as_selector (fun _ => "") (merge_sort by_interface) (fun ls w => Ok (list_of (tw_eps w) ls))).
(** A run that succeeds, with its state and result given by projections. *)
Definition is_ok {A} (a : result A) : bool := match a with Ok _ => true | _ => false end.
Lemma run_ok {S A} (x : S * result A) (d : A) : is_ok x.2 = true -> x = (x.1, Ok (match x.2 with Ok r => r | _ => d end)).
Proof. by destruct x as [s []]. Qed.
Lemma run_unit {S} (x : S * result unit) : is_ok x.2 = true -> x = (x.1, Ok tt).
Proof. by destruct x as [s [[]| |]]. Qed.

Definition ep_0 : epstate tworld := MkEpState ∅ tworld_0.
Definition selected (cr : LogicalInterconnect) : selection :=
  match (test_select (lis_Links (spec cr)) cr ep_0).2 with Ok r => r | _ => newSelector 0 end.
Definition after_select (cr : LogicalInterconnect) : epstate tworld := (test_select (lis_Links (spec cr)) cr ep_0).1.

Definition lic_nodes : LogicalInterconnect := fab_lic "lic" 2 (on_node "n1") (on_node "n2").
Definition lic_diverse : LogicalInterconnect := fab_lic "lic" 2 diverse (on_node "n2").
Definition lic_alike : LogicalInterconnect := fab_lic "lic" 2 (on_node "n1") (on_node "n1").

Lemma select_lic_nodes : test_select (Z.of_nat 2) lic_nodes ep_0 = (after_select lic_nodes, Ok (selected lic_nodes)).
Proof. apply run_ok. vm_compute. reflexivity. Qed.
Lemma select_lic_diverse : test_select (Z.of_nat 2) lic_diverse ep_0 = (after_select lic_diverse, Ok (selected lic_diverse)).
Proof. apply run_ok. vm_compute. reflexivity. Qed.
Lemma select_lic_alike : test_select (Z.of_nat 2) lic_alike ep_0 = (after_select lic_alike, Ok (selected lic_alike)).
Proof. apply run_ok. vm_compute. reflexivity. Qed.

Lemma ok_inj {A} (a b : A) : Ok a = Ok b -> a = b.
Proof. by intros [= ->]. Qed.

(** Two links between two nodes use four endpoints. *)
Lemma select_sound_witness : exists pss : list (list (string * Endpoint)), length pss = 2%nat /\ getSelectedEndpoints (selected lic_nodes) = (concat pss).*2 /\
  forall ps, pss !! 0%nat = Some ps -> length ps = 2%nat.
Proof.
  destruct (select_sound as_selector (fun _ => "") (merge_sort by_interface) (fun ls w => Ok (list_of (tw_eps w) ls))
    (merge_sort_Permutation by_interface) lic_nodes 2 ep_0 (after_select lic_nodes) (selected lic_nodes))
    as (pss&H1&H2&H3); [reflexivity|exact select_lic_nodes|].
  exists pss. split; [exact H1|]. split; [exact H2|]. intros ps Hps. exact (proj1 (H3 0%nat (on_node "n1") ps eq_refl Hps)).
Defined.

(** Node diversity puts the two links on different nodes. *)
Lemma select_nodes_witness : exists x y, link_end (selected lic_diverse) 0 0 = Some x /\ link_end (selected lic_diverse) 1 0 = Some y /\
  eps_NodeName (les_EndpointSpec x) <> eps_NodeName (les_EndpointSpec y).
Proof.
  destruct (select_nodes as_selector (fun _ => "") (merge_sort by_interface) (fun ls w => Ok (list_of (tw_eps w) ls))
    (merge_sort_Permutation by_interface) lic_diverse 2 ep_0 (after_select lic_diverse) (selected lic_diverse) 0 diverse "fab")
    with (i := 0%nat) (j := 1%nat) as (x&y&H1&H2&_&H3).
  - reflexivity.
  - reflexivity.
  - reflexivity.
  - intros l x Hl Hx. apply ok_inj in Hl. rewrite <-Hl in Hx.
    assert (Hall : Forall (fun x : Endpoint => WasAllocated x (krm_Object lic_diverse) = false /\ eps_NodeName (spec x) <> "")
      (list_of (tw_eps tworld_0) {[NephioTopologyKey := "fab"]})).
    { apply (bool_decide_unpack _). vm_compute. exact I. }
    rewrite Forall_forall in Hall. exact (Hall x Hx).
  - exact select_lic_diverse.
  - lia.
  - lia.
  - exists x, y. split; [exact H1|]. split; [exact H2|]. apply H3; [vm_compute; reflexivity|discriminate].
Defined.

(** Both sides on the same node: both links connect an endpoint to itself. *)
Lemma select_self_links_witness :
  exists x, link_end (selected lic_alike) 0 0 = Some x /\ link_end (selected lic_alike) 0 1 = Some x.
Proof.
  apply (select_self_links as_selector (fun _ => "") (merge_sort by_interface) (fun ls w => Ok (list_of (tw_eps w) ls))
    lic_alike 2 ep_0 (after_select lic_alike) (selected lic_alike) (on_node "n1") (on_node "n1")).
  - reflexivity.
  - reflexivity.
  - split; [reflexivity|]. split; reflexivity.
  - exact select_lic_alike.
  - lia.
Defined.

(** ** Resources and links *)

Definition fab_topo (name : string) (nodes : list string) : RawTopology :=
  build topo_GroupVersion RawTopologyKind (new_meta name "fab" None)
    (MkRawTopologySpec (list_to_map ((fun n => (n, spec (fab_node n))) <$> nodes)) [MkLinkSpec [fab_end "n1" "e1"; fab_end "n1" "e2"]]
       (MkUserDefinedLabels None) None) no_conditions.
Definition raw_0 (w : tworld) (topo : RawTopology) : rstate topo_svc tworld RawTopologySpec RawTopologyStatus := MkRState svc_0 w topo.
(** The world after the topology had the nodes n1 and n2. *)
Definition populate (s : rstate topo_svc tworld RawTopologySpec RawTopologyStatus) := raw_populateResources test_topo s.
Definition tworld_1 : tworld := r_api (populate (raw_0 tworld_0 (fab_topo "topo" ["n1"; "n2"]))).1.
Definition shrunk := raw_0 tworld_1 (fab_topo "topo" ["n1"]).
Definition node_2 : Node := buildNode (r_cr shrunk) "n2" (spec (fab_node "n2")).

Lemma shrunk_run : raw_populateResources test_topo shrunk = ((populate shrunk).1, Ok tt).
Proof. apply run_unit. vm_compute. reflexivity. Qed.

Lemma node_2_stored : exists t, tobjs (r_api shrunk) !! getCoreRef (krm_Object (buildNode (r_cr shrunk) "n2" (spec (fab_node "n2")))) = Some t /\
  meta_labels (t_meta t) = krm_labels (buildNode (r_cr shrunk) "n2" (spec (fab_node "n2"))).
Proof.
  assert (H : match tobjs (r_api shrunk) !! getCoreRef (krm_Object (buildNode (r_cr shrunk) "n2" (spec (fab_node "n2")))) with
              | Some t => bool_decide (meta_labels (t_meta t) = krm_labels (buildNode (r_cr shrunk) "n2" (spec (fab_node "n2"))))
              | None => false
              end = true) by (vm_compute; reflexivity).
  destruct (tobjs (r_api shrunk) !! _) as [t|]; [|discriminate H]. exists t. split; [reflexivity|exact (proj1 (bool_decide_eq_true _) H)].
Qed.

(** The node that was taken out of the topology is still there. *)
Lemma raw_topology_nodes_witness :
  is_Some (tobjs (r_api (populate shrunk).1) !! getCoreRef (krm_Object (buildNode (r_cr shrunk) "n1" (spec (fab_node "n1"))))) /\
  is_Some (tobjs (r_api (populate shrunk).1) !! getCoreRef (krm_Object node_2)).
Proof.
  destruct (raw_topology_nodes test_topo tobjs shrunk (populate shrunk).1 shrunk_run) as [H1 H2]. split.
  - destruct (H1 "n1" (spec (fab_node "n1")) eq_refl) as (t&Ht&_). exists t. exact Ht.
  - destruct node_2_stored as (t&Ht&Hls). exists t. refine (H2 "n2" (spec (fab_node "n2")) t eq_refl _ Ht Hls). discriminate.
Defined.

Definition old_link : TObject := owned (krm_Object link_1) (TLink (fab_link "old" (fab_end "a" "b") (fab_end "c" "d"))).
Definition new_link : TObject := owned (krm_Object link_1) (TLink (fab_link "new" (fab_end "a" "b") (fab_end "c" "d"))).
Definition res_0 : resources tworld :=
  MkResources {[getCoreRef (t_Object new_link) := new_link]} ∅ ∅ (put_objs {[getCoreRef (t_Object old_link) := old_link]} tworld_0).
Definition apply_0 := APIApply (ta_List test_topo) (ta_Delete test_topo) (ta_Apply test_topo) li_config (krm_Object link_1) res_0.

Lemma apply_run : apply_0 = (apply_0.1, Ok tt).
Proof. apply run_unit. vm_compute. reflexivity. Qed.
Lemma old_link_served : tobjs (rs_api res_0) !! getCoreRef (t_Object old_link) = Some old_link.
Proof. apply tobjs_lookup. split; [apply lookup_singleton_eq|reflexivity]. Qed.

(** The new link replaces the old one. *)
Lemma APIApply_exact_witness :
  stored_as tobjs (rs_api apply_0.1) (getCoreRef (t_Object new_link)) new_link /\
  leaving tobjs (rs_api apply_0.1) (getCoreRef (t_Object old_link)).
Proof.
  assert (Hkeys : forall k t, rs_new res_0 !! k = Some t -> getCoreRef (t_Object t) = k).
  { intros k t. cbn [rs_new res_0]. intros Hk. apply lookup_singleton_Some in Hk as [<- <-]. reflexivity. }
  pose proof (APIApply_exact (ta_List test_topo) (ta_Delete test_topo) (ta_Apply test_topo) li_config tobjs
    (krm_Object link_1) res_0 apply_0.1 eq_refl Hkeys apply_run) as H.
  split.
  - exact (H (getCoreRef (t_Object new_link))).
  - apply (proj1 (H (getCoreRef (t_Object old_link)))). exists old_link. split; [exact old_link_served|].
    split; [left|]. split; [apply map_empty_subseteq|vm_compute; reflexivity].
Defined.

(** ** Reconciliations *)

Lemma mem_write_frame {W A B C} (get : W -> gmap NamespacedName (KRM A B)) put (f : W -> C) cr upd gone w :
  (forall m w, f (put m w) = f w) -> f (mem_write get put cr upd gone w).1 = f w.
Proof. intros Hf. unfold mem_write. destruct (get w !! _); [|done]. destruct (bool_decide _); [apply Hf|done]. Qed.

Lemma lease_frames {C} (f : tworld -> C) l w : (forall m w, f (put_leases m w) = f w) ->
  f (lc_Create (ta_leases test_topo) l w).1 = f w /\ f (lc_Update (ta_leases test_topo) l w).1 = f w.
Proof.
  intros Hf. cbn [ta_leases test_topo lease_server lc_Create lc_Update]. unfold write_lease.
  destruct (lease_view tw_leases w !! krm_nsn l) as [old|]; [|split; [apply Hf|done]]. split; [done|].
  destruct (bool_decide _); [apply Hf|done].
Qed.

#[local] Instance test_links_laws : ClaimerLaws test_topo teps (ta_links test_topo) tw_links.
Proof.
  split.
  - by apply mem_laws.
  - by intros w k e [_ ?]%teps_lookup.
  - intros x w. by apply (mem_write_frame tw_links put_links teps).
  - intros x w. by apply (mem_write_frame tw_links put_links teps).
  - intros x w. by apply (mem_write_frame teps put_eps tw_links).
  - intros l w. split; by apply lease_frames.
  - intros l w. split; by apply lease_frames.
Qed.

#[local] Instance test_interconnects_laws : InterconnectLaws test_topo teps tw_lics tobjs.
Proof.
  split.
  - split.
    + by apply mem_laws.
    + by intros w k e [_ ?]%teps_lookup.
    + intros x w. by apply (mem_write_frame tw_lics put_lics teps).
    + intros x w. by apply (mem_write_frame tw_lics put_lics teps).
    + intros x w. by apply (mem_write_frame teps put_eps tw_lics).
    + intros l w. split; by apply lease_frames.
    + intros l w. split; by apply lease_frames.
  - exact test_res_laws.
  - intros o w _. cbn [ta_Delete test_topo]. by destruct (tobjs w !! getCoreRef o).
  - by intros t w _.
  - intros x w k _. apply (f_equal (lookup k)). by apply (mem_write_frame teps put_eps tobjs).
  - intros x w. by apply (mem_write_frame tw_lics put_lics tobjs).
  - intros x w. by apply (mem_write_frame tw_lics put_lics tobjs).
  - intros l w. by apply lease_frames.
  - intros l w. by apply lease_frames.
Qed.

Lemma as_selector_answers m : as_selector m <> Panic.
Proof. by destruct m as [[ls [|]]|]. Qed.

(** A link that is claimed, and the same link after it was deleted. *)
Definition reconcile_link (cr : Link) (w : tworld) : (topo_svc * tworld) * result Result :=
  link_Reconcile 5000000000 test_topo ep_lease (krm_nsn cr) (svc_0, w).
Definition link_gone : Link := krm_meta (fun m => AddFinalizer m topo_finalizer) (mark_deleted link_1).
Definition tworld_gone : tworld := put_links {[krm_nsn link_1 := link_gone]} (reconcile_link link_1 tworld_0).1.2.

Lemma link_1_run : (reconcile_link link_1 tworld_0).2 = Ok no_requeue.
Proof. vm_compute. reflexivity. Qed.
Lemma requeue_differs : Ok no_requeue <> Ok requeue /\ Ok no_requeue <> Ok requeue_lease /\ Ok no_requeue <> Panic.
Proof. by split_and!. Qed.

Lemma link_reconciled_witness : exists svc' w' eps, reconcile_link link_1 tworld_0 = ((svc', w'), Ok no_requeue) /\
  length eps = 2%nat /\ moved teps (krm_Object link_1) eps tworld_0 w'.
Proof.
  destruct (link_reconciled 5000000000 test_topo ep_lease teps tw_links svc_0 tworld_0 link_1)
    as (w1&cr1&svc'&w'&r&_&Hrun&_&Hres).
  - reflexivity.
  - reflexivity.
  - reflexivity.
  - apply (bool_decide_unpack _). vm_compute. exact I.
  - intros w' ls _. exists (list_of (tw_eps w') ls). reflexivity.
  - exact as_selector_answers.
  - pose proof link_1_run as Hok. unfold reconcile_link in *. rewrite Hrun in Hok. cbn [snd] in Hok. subst r.
    destruct (_).2 in Hres.
    + destruct Hres as [(eps&_&_&Hends&Hm)|(e&He&_)]; [|destruct (proj1 requeue_differs He)].
      exists svc', w', eps. split; [exact Hrun|]. split; [symmetry; exact (Forall2_length _ _ _ Hends)|exact Hm].
    + destruct Hres as [He _]. destruct (proj1 (proj2 requeue_differs) He).
    + destruct Hres as [He _]. destruct (proj2 (proj2 requeue_differs) He).
Defined.

(** The endpoints of the deleted link are free, it is gone. *)
Lemma link_deletion_witness : exists svc' w', reconcile_link link_gone tworld_gone = ((svc', w'), Ok no_requeue) /\
  tw_links w' = delete (krm_nsn link_1) (tw_links tworld_gone) /\ moved teps (krm_Object link_gone) [] tworld_gone w'.
Proof.
  destruct (link_deletion 5000000000 test_topo ep_lease teps tw_links svc_0 tworld_gone link_gone (list_of (tw_eps tworld_gone) ∅))
    as (svc'&w'&H1&H2&H3).
  - reflexivity.
  - reflexivity.
  - reflexivity.
  - reflexivity.
  - reflexivity.
  - exists svc', w'. split; [exact H1|]. split; [exact H2|exact H3].
Defined.

(** Two links between two nodes. *)
Definition tworld_lic : tworld := put_lics {[krm_nsn lic_nodes := lic_nodes]} tworld_0.
Definition reconcile_lic : (topo_svc * tworld) * result Result :=
  interconnect_Reconcile 5000000000 test_topo ep_lease (krm_nsn lic_nodes) (svc_0, tworld_lic).

Lemma lic_run : reconcile_lic = (reconcile_lic.1, Ok no_requeue).
Proof.
  assert (H : reconcile_lic.2 = Ok no_requeue) by (vm_compute; reflexivity). rewrite <-H. by destruct reconcile_lic.
Qed.

Lemma interconnect_ready_witness : exists cr1 r, reported tw_lics lic_nodes (Ready 5000000000) reconcile_lic.1.2 /\
  objects_applied tobjs cr1 r tworld_lic reconcile_lic.1.2.
Proof.
  destruct (interconnect_ready 5000000000 test_topo ep_lease teps tw_lics tobjs 2 svc_0 tworld_lic lic_nodes
    reconcile_lic.1.1 reconcile_lic.1.2) as (w1&cr1&st&st'&r&_&_&_&Hrep&_&_&Hobj).
  - reflexivity.
  - reflexivity.
  - reflexivity.
  - pose proof lic_run as H. destruct reconcile_lic.1 as [svc' w']. exact H.
  - exists cr1, r. split; [exact Hrep|exact Hobj].
Defined.
